(* ===== verification/_CoqProject ===== *)
-Q . S2P
Prelude.v
KText.v
KTextRef.v
KMonad.v
MievEvent.v
Fifo.v
MievDev.v
ThermalTemp.v
ThermalFreq.v
ThermalRace.v
ThermalAttr.v
ThermalNotify.v
ThermalSystem.v
ThermalModule.v
ThermalExit.v
Params.v
ParamsRef.v
HookIface.v
ApiIface.v
XiaomiHooks.v
XiaomiApi.v
Metis.v
MetisApi.v
MiSchedule.v
MiScheduleApi.v
Mist.v
MistApi.v
MiLoad.v
MiFiles.v
MiGov.v
Linkage.v
PerfHelper.v
PerfFiles.v
PerfRace.v
Hwid.v
Migt.v
ParamTables.v
