(* ===== verification/Prelude.v ===== *)
(** * onyx_xiaomi_private_source: verification development

    The repository holds nine out-of-tree kernel modules, one directory each,
    and the file xiaomi_hooks.c.  Most of them were reconstructed from binary
    modules.  They share no data: they interact through exported functions
    (miloadtrace registers callbacks with xiaomi_hooks.c, metis and
    mi_schedule) and through the kernel, which calls them back, sets their
    parameters and runs them concurrently.

    ** The parts and their files

    - src/miev/miev.c, an event log device.  MievEvent: the event builder
      ([cdev_tevent_alloc], [cdev_tevent_add_int], [cdev_tevent_add_str],
      [cdev_tevent_destroy], [get_integer_size]); an event is a record whose
      message is the 2048-byte buffer of the source.  MievDev: the FIFO behind
      the device ([write_buf_inner], [cdev_tevent_write], [miev_write],
      [miev_read] in two steps, before and after the lock, [miev_poll]), the
      transition system [dev_step] of concurrent readers and writers, and
      [miev_init_module] with [miev_cleanup_module].
    - src/mi_thermal/mi_thermal_interface.c, thermal control.  ThermalTemp:
      reading the sensors ([mi_thermal_parse_temp],
      [mi_thermal_get_device_temp]) and the floor they select.  ThermalFreq:
      the frequency caps, that is the devices, their tables ([find_next_max]),
      [cpu_limits_set_level], [cpu_limits_store], and the construction and
      destruction of the device list.  ThermalAttr: the sysfs attributes, one
      constructor of [attr] per kind, dispatched by [attr_show] and
      [attr_store].  ThermalNotify: the panel notifier and its delayed work as
      a transition system [screen_step], and the USB notifier.  ThermalModule:
      the sysfs nodes, init, what happens to the loaded module (runs of the
      USB work item, calls of [cpu_limits_set_level]) and exit.
      ThermalSystem: theorems about these parts together.  ThermalRace: a call
      of [cpu_limits_set_level] during which sysfs writes the parameters,
      every use of one being a read of its own.  ThermalExit: the exit
      function as one thread among notifications, callbacks and workers.
    - src/xiaomi_hooks.c, src/metis/metis.c, src/mi_schedule/mi_schedule.c and
      src/mist/mist.c, tables of callbacks with register and unregister
      functions and several hundred functions that the reconstruction left
      empty.  XiaomiHooks, Metis, MiSchedule and Mist have one constructor per
      slot and one definition per function that touches state.  XiaomiApi,
      MetisApi, MiScheduleApi and MistApi have the remaining functions and the
      tables of everything the modules export, by name, with an action for
      each.  Linkage puts the four tables into one kernel.
    - src/miloadtrace/miloadtrace.c, the client of these tables.  MiLoad: its
      variables and files, the governor, the registration of nine callbacks
      with its goto chain, init and exit.  MiFiles: everything that can happen
      to the loaded module (writes to its files and to the parameters its
      functions use, callbacks, irq works, limits) as one step function, with
      the lines it logs.  MiGov: the governor callbacks as the
      cpufreq core calls them for several policies, with the addresses they
      allocate and store per CPU.
    - src/perf_helper/perf_helper.c.  PerfHelper: log buffers, attributes, and
      the three parts of the module with their init and exit functions.
      PerfFiles: its proc files and attributes as tables, and sequences of
      operations on them.  PerfRace: the handlers as threads over a buffer
      accessed byte by byte, and over the counter some of them increment
      without the lock.
    - src/hwid/hwid.c.  Hwid: the getters, the product table, the node.
    - src/migt/migt.c.  Migt: the flags of the compatibility layer, the
      parameter migt_thresh, and the exported functions and the writes to the
      parameter as one step function.
    - The module parameters of all modules.  Params: a parameter with its
      declared C type, the type of its file and its mode, loading with
      arguments and writing through sysfs.  ParamTables: a table per module
      that has parameters, and what the code reads of them.

    Prelude holds fixed-width integers, error numbers, arithmetic macros and
    reachability; KText the C strings and buffers; KMonad the monad of the
    lifecycle functions.

    ** How code is represented

    An integer of the source is a [Z] in the range of its type, and an
    operation that can leave the range is followed by its wrap ([u32], [s32],
    [u64], [s64]).  A buffer is a list of characters of fixed length; [strlen],
    [scnprintf], [memcpy] and [strim] are definitions on it, so that a missing
    terminator or a write beyond the end is visible.  Where the source indexes
    an array the definition returns an [option], and [None] is an access
    outside it.  Results are the C return values, negative error numbers
    included.

    Functions that acquire resources of the kernel are written in the monad
    [km St R]: they thread the state and record every acquisition and release
    in a trace.  Results of kernel calls are arguments, collected in a record
    per module ([miev_env], [cpu_env], [thermal_env], [miload_env],
    [perf_env]), so that a theorem covers every combination of failures.  Each
    goto label is a definition of its own.  The trace is replayed by [replay]
    or, where the order of release is the strict reverse, by [replay_lifo]:
    both fail on a double release, and what they return is what is still held.

    Code that runs concurrently is a relation whose steps are the accesses or
    critical sections of the source, and its properties are invariants of the
    reachable states.  Functions that run under a mutex from their first to
    their last access of shared data are one step.

    ** Interfaces

    Code outside the repository is a class, its documented behaviour are the
    laws of the class, and an executable instance shows that the laws can be
    met and lets the examples evaluate: [KText] (parsers and character
    classes, instance in KTextRef), [KFifo] (linux/kfifo.h, in Fifo),
    [FreqQos] (linux/pm_qos.h, in ThermalFreq), [KParam] (the set and get
    operations of kernel/params.c, in Params, instance in ParamsRef).  Between
    modules of the repository, [Registrar] with [RegistrarLaws] (HookIface) is
    what a hook table promises to a client: a store to a live slot takes
    effect, a store to a slot that is not live leaves or clears it, other
    slots keep their value, an error changes nothing.  XiaomiHooks, Metis,
    MiSchedule and Mist prove the laws; MiLoad is proved against the
    interface, and then instantiated with the three tables it uses.  What a
    table of exported functions promises is a record [api_spec] (ApiIface),
    which says which names store to which slot; [table_ok] checks a table
    entry by entry, and [run_calls_spec] and [run_calls_project] lift it to
    every history of calls, of one module or of several in any interleaving.

    ** What is shown

    - Frequency caps.  [set_level_refines]: [cpu_limits_set_level] implements
      an abstract specification on every branch, for a CPU of the masks and a
      step that does not wrap.  [set_level_safe]: for every CPU number, every
      request and every value of the parameters no access leaves a table, a
      mask is left exactly when a CPU number beyond it reaches a device, and
      the state stays well formed.  [cap_is_maximal]: which cap results, on
      every branch, the step limit included.  [cap_below_floor]: it can be
      below the documented minimum.  [freq_table_built]: the selection loop
      sorts.
      [repeated_calls_converge]: the target is reached in the number of calls
      the step limit allows.  [cpufreq_init_destroy]: nothing is leaked or
      released twice.  [store_sets_level], [store_reads_outside_mask],
      [failed_update_not_retried] (with and without a step limit),
      [step_overflow_lifts_cap]: the attribute, and the corner cases.
      [one_cap_per_cluster]: every CPU has a request of its own, and the one a
      call moves is the one that binds the policy.
      [critical_sensor_caps]: from a sensor attribute to the cap.
    - Temperatures and attributes.  [parse_temp_spec],
      [cold_battery_is_critical]; [attr_store_ok], [attr_roundtrip],
      [sensor_store_read], [leading_space_hides_sensor].
    - Notifications.  [screen_state_converges],
      [screen_publication_terminates].
    - Events.  [add_param_refines], [add_params_exact],
      [add_param_truncates], [alloc_destroy_balanced],
      [get_integer_size_correct], [tevent_write_spec], [event_pipeline],
      [stream_integrity], [blocking_read_returns_zero].
    - Hooks.  [xiaomi_hooks_spec], [miload_hooks_all_or_none],
      [registration_by_parameters].  [safe_boot_keeps_callback]: what
      unregistering leaves in the slots, for any tables and any change of the
      parameters since registration.
      [metis_calls_spec], [sched_calls_spec], [mist_calls_spec],
      [migt_calls_spec]: any sequence of calls to a module.
      [kernel_calls_split]: a history of calls to all of them splits into the
      histories of the modules.  [miload_imports_resolve]: the names that
      miloadtrace imports resolve to the operations it is proved against.
    - Parameters.  [params_typed]: under any arguments and writes a variable
      keeps a value of its declared type and the components read values in
      range; what is not named keeps its initial value, which is the one the
      components start from; hwid is constant, and every numeric parameter of
      the other modules can take every value of its type.  [param_roundtrip].
    - Lifecycles.  [miev_init_cleanup], [thermal_load_unload] (with any runs
      of the USB work item and calls in between), [thermal_init_failure],
      [miload_init_exit], [perf_helper_life], [hwid_kobject_leaks],
      [governor_memory].
    - Concurrency.  [unlocked_buffer_safe]: handlers on one buffer without a
      lock, any number of them, stay inside it and end.  [handlers_alone]: the
      threads compute the functions of PerfHelper when they run alone.
      [reclaim_count_races]: the counter is exact with the lock and loses
      updates without.  [racing_params_safe].  [thermal_exit_faults]: which uses
      after unloading the order of the exit function allows.
      [quiet_unload_terminates]: without notifications unloading is safe and
      ends.
    - Files.  [miload_history_spec]: variables, results and texts of
      miloadtrace after loading with any parameters and any history, writes to
      the array parameters included.  [log_writes_ok], [perf_files_spec]: the
      same for perf_helper.  [hwid_fields_spec].

    Several theorems state what the code does where this is not what it means to
    do: truncated events reported as success, torn records after ENOSPC, a
    blocking read that returns 0, bytes lost by a read that faults, caps below
    the documented minimum, levels lost after a failed update or an overflow,
    CPU numbers outside the mask, notifiers and kobjects left behind, a
    dangling callback, work queued on a destroyed workqueue, lost increments,
    pointers to freed governor data.

    ** Bounds and fuel

    [get_integer_size] divides a 64-bit number at most 19 times; its loop has
    fuel 20, and [get_integer_size_correct] compares it with the printed
    length.  [digits] prints a number below 2^64, which has at most 20 decimal
    and 16 hexadecimal digits.  All other recursion is structural: over the
    list of devices, the table of a device (the level loop runs through the
    remaining table), the possible CPUs, the list of callbacks, a
    history of calls.  Termination of the transition systems is accessibility
    of their states under a measure: the bytes and loops a handler has left, and
    the calls, callbacks and work items left of an unloading.

    ** Not modelled

    The log messages of pr_err, pr_warn and pr_info, and migt_trace; the
    memory orders of WRITE_ONCE and smp_wmb; the file operations that only
    forward to seq_file; the C types of callbacks, which are names here; types
    the sources declare and never use (among them [mi_task_struct],
    [ls_group], [mi_group_frame], [migt_frame_record]); the MCA hooks of
    mi_thermal, which are declared and never called; the kernel's loader, of
    which Linkage only has the resolution of names; Kconfig and make files.

    ** Plan

    Components to add or refine: the device of miev while its module is
    unloaded; the files of miloadtrace under concurrent parameter writes; the
    loading order of the modules, with the reference counts that keep a table
    loaded while a client imports from it. *)

From Stdlib Require Export ZArith Lia ZifyBool Ascii.
From Stdlib Require String.
From stdpp Require Export base list list_numbers strings gmap finite.

Declare Scope kernel_scope.
Delimit Scope kernel_scope with kernel.

#[global] Open Scope Z_scope.

(** ** Error numbers (uapi/asm-generic/errno-base.h, errno.h) *)

Definition ESRCH : Z := 3.
Definition ENOENT : Z := 2.
Definition EAGAIN : Z := 11.
Definition ENOMEM : Z := 12.
Definition EFAULT : Z := 14.
Definition ENODEV : Z := 19.
Definition EINVAL : Z := 22.
Definition ENOTTY : Z := 25.
Definition ENOSPC : Z := 28.
Definition ERANGE : Z := 34.

(** ** Fixed-width integers

    A C integer of width [w] is a [Z]; every operation of the source that
    can leave the range of its type is followed by the wrap of that type.
    Signed arithmetic wraps as well: the kernel is built with
    -fno-strict-overflow. *)

Definition wrap_u (w z : Z) : Z := z mod 2 ^ w.
Definition wrap_s (w z : Z) : Z := (z + 2 ^ (w - 1)) mod 2 ^ w - 2 ^ (w - 1).

Definition u32 (z : Z) : Z := wrap_u 32 z.
Definition u64 (z : Z) : Z := wrap_u 64 z.
Definition s32 (z : Z) : Z := wrap_s 32 z.
Definition s64 (z : Z) : Z := wrap_s 64 z.

Definition INT_MIN : Z := -2147483648.
Definition INT_MAX : Z := 2147483647.
Definition UINT_MAX : Z := 4294967295.
Definition LONG_MIN : Z := -9223372036854775808.
Definition LONG_MAX : Z := 9223372036854775807.
Definition ULONG_MAX : Z := 18446744073709551615.

Definition in_u32 (z : Z) : Prop := 0 <= z <= UINT_MAX.
Definition in_s32 (z : Z) : Prop := INT_MIN <= z <= INT_MAX.
Definition in_u64 (z : Z) : Prop := 0 <= z <= ULONG_MAX.
Definition in_s64 (z : Z) : Prop := LONG_MIN <= z <= LONG_MAX.

Create HintDb kint.
Create Rewrite HintDb kint.
#[export] Hint Unfold in_u32 in_s32 in_u64 in_s64 INT_MIN INT_MAX UINT_MAX
  LONG_MIN LONG_MAX ULONG_MAX : kint.

(** Unfolds the integer ranges everywhere and calls [lia]. *)
Ltac klia :=
  unfold in_u32, in_s32, in_u64, in_s64, INT_MIN, INT_MAX, UINT_MAX,
    LONG_MIN, LONG_MAX, ULONG_MAX in *; lia.

Ltac knia :=
  unfold in_u32, in_s32, in_u64, in_s64, INT_MIN, INT_MAX, UINT_MAX,
    LONG_MIN, LONG_MAX, ULONG_MAX in *; nia.

(** Splits every [if] and [match] of the goal, keeping the equations, and
    discharges the impossible branches. *)
Ltac case_all := repeat (case_match; simplify_eq/=; try done); try lia.

(** Splits the conjunctions and existentials of the hypotheses. *)
Ltac deconj :=
  repeat match goal with
  | H : _ /\ _ |- _ => destruct H
  | H : exists _, _ |- _ => destruct H
  end.

Lemma u32_range z : in_u32 (u32 z).
Proof.
  unfold u32, wrap_u. pose proof (Z.mod_pos_bound z (2 ^ 32)). klia.
Qed.

Lemma u64_range z : in_u64 (u64 z).
Proof.
  unfold u64, wrap_u. pose proof (Z.mod_pos_bound z (2 ^ 64)). klia.
Qed.

Lemma s32_range z : in_s32 (s32 z).
Proof.
  unfold s32, wrap_s. pose proof (Z.mod_pos_bound (z + 2 ^ 31) (2 ^ 32)).
  change (32 - 1) with 31. klia.
Qed.

Lemma s64_range z : in_s64 (s64 z).
Proof.
  unfold s64, wrap_s. pose proof (Z.mod_pos_bound (z + 2 ^ 63) (2 ^ 64)).
  change (64 - 1) with 63. klia.
Qed.

Lemma u32_id z : in_u32 z -> u32 z = z.
Proof. intros. unfold u32, wrap_u. apply Z.mod_small. klia. Qed.

Lemma u64_id z : in_u64 z -> u64 z = z.
Proof. intros. unfold u64, wrap_u. apply Z.mod_small. klia. Qed.

Lemma s32_id z : in_s32 z -> s32 z = z.
Proof.
  intros. unfold s32, wrap_s. change (32 - 1) with 31.
  rewrite Z.mod_small; klia.
Qed.

Lemma s64_id z : in_s64 z -> s64 z = z.
Proof.
  intros. unfold s64, wrap_s. change (64 - 1) with 63.
  rewrite Z.mod_small; klia.
Qed.

(** Signed wrap-around just above the top of the type. *)
Lemma s32_over z : INT_MAX < z <= INT_MAX + 2 ^ 32 -> s32 z = z - 2 ^ 32.
Proof.
  intros. unfold s32, wrap_s. change (32 - 1) with 31.
  replace (z + 2 ^ 31) with (z - 2 ^ 31 + 1 * 2 ^ 32) by lia.
  rewrite Z.mod_add, Z.mod_small by klia. lia.
Qed.

#[export] Hint Resolve u32_range u64_range s32_range s64_range : kint.
#[export] Hint Rewrite u32_id u64_id s32_id s64_id using klia : kint.

(** ** Arithmetic macros of linux/math.h

    [DIV_ROUND_CLOSEST(x, d)] on [int] operands, and
    [mult_frac(x, n, d)] on [unsigned int] operands. *)

Definition DIV_ROUND_CLOSEST (x d : Z) : Z :=
  if Bool.eqb (0 <? x) (0 <? d)
  then Z.quot (s32 (x + Z.quot d 2)) d
  else Z.quot (s32 (x - Z.quot d 2)) d.

Definition mult_frac (x n d : Z) : Z :=
  let q := x / d in
  let r := x mod d in
  u32 (u32 (q * n) + u32 (r * n) / d).

(** With a percentage that is at most 100 [mult_frac] is the exact floor of
    the product, computed without leaving 32 bits. *)
Lemma mult_frac_pct x n :
  in_u32 x -> 0 <= n <= 100 -> mult_frac x n 100 = x * n / 100.
Proof.
  intros Hx Hn. unfold mult_frac.
  pose proof (Z.div_mod x 100 ltac:(lia)) as Hdm.
  pose proof (Z.mod_pos_bound x 100 ltac:(lia)) as Hm.
  assert (0 <= x / 100 < 42949673) as Hq.
  { split; [apply Z.div_pos; klia | apply Z.div_lt_upper_bound; klia]. }
  set (q := x / 100) in *. set (r := x mod 100) in *.
  assert (0 <= q * n <= q * 100) by nia.
  assert (0 <= r * n <= 9900) by nia.
  rewrite (u32_id (q * n)), (u32_id (r * n)) by klia.
  assert (r * n / 100 <= r) by (apply Z.div_le_upper_bound; nia).
  assert (0 <= r * n / 100) by (apply Z.div_pos; lia).
  rewrite u32_id by klia.
  rewrite Hdm. replace ((100 * q + r) * n) with (r * n + q * n * 100) by ring.
  rewrite Z.div_add by lia. lia.
Qed.

Lemma mult_frac_pct_bound x n :
  in_u32 x -> 0 <= n <= 100 -> 0 <= mult_frac x n 100 <= x.
Proof.
  intros Hx Hn. rewrite mult_frac_pct by done.
  split; [apply Z.div_pos; knia | apply Z.div_le_upper_bound; knia].
Qed.

(** Rounding of a non-negative [int] to the nearest multiple of a positive
    even [d]: the result is within half a unit, as long as adding the half
    unit does not overflow. *)
Lemma DIV_ROUND_CLOSEST_nearest x h :
  0 < x -> 0 < h -> x + h <= INT_MAX ->
  let r := DIV_ROUND_CLOSEST x (2 * h) in
  2 * h * r - h <= x < 2 * h * r + h.
Proof.
  intros Hx Hh Hov. unfold DIV_ROUND_CLOSEST.
  replace (0 <? x) with true by lia. replace (0 <? 2 * h) with true by lia.
  simpl. rewrite (Z.mul_comm 2 h), Z.quot_mul by lia.
  rewrite s32_id by klia. rewrite Z.quot_div_nonneg by lia.
  pose proof (Z.div_mod (x + h) (h * 2) ltac:(lia)).
  pose proof (Z.mod_pos_bound (x + h) (h * 2) ltac:(lia)). lia.
Qed.

(** ** Generic list lemmas *)

Lemma list_inserts_app_here {A} (pre mid post new : list A) :
  length mid = length new ->
  list_inserts (length pre) new (pre ++ mid ++ post) = pre ++ new ++ post.
Proof.
  intros Hl. revert pre mid Hl. induction new as [|x new IH]; intros pre mid Hl.
  - destruct mid; [done|discriminate].
  - destruct mid as [|y mid]; [discriminate|]. simpl.
    replace (pre ++ y :: mid ++ post)
      with ((pre ++ [y]) ++ mid ++ post) by (by rewrite <- app_assoc).
    replace (S (length pre)) with (length (pre ++ [y])).
    2:{ rewrite length_app. simpl. lia. }
    rewrite IH by (simpl in Hl; lia).
    rewrite <- app_assoc. simpl.
    by rewrite insert_app_r_alt, Nat.sub_diag by lia.
Qed.

(** ** Reachability

    Transition systems are relations on a state type; a property of all the
    reachable states is proved by the induction principle of an invariant. *)

Inductive reachable {St : Type} (init : St -> Prop) (step : St -> St -> Prop)
  : St -> Prop :=
| reachable_init s : init s -> reachable init step s
| reachable_step s s' : reachable init step s -> step s s' ->
    reachable init step s'.

Lemma reachable_invariant {St} (init : St -> Prop) (step : St -> St -> Prop)
    (I : St -> Prop) :
  (forall s, init s -> I s) ->
  (forall s s', I s -> step s s' -> I s') ->
  forall s, reachable init step s -> I s.
Proof. intros Hi Hs s. induction 1; eauto. Qed.
