(* ===== verification/KText.v ===== *)
(** * KText: C strings, character buffers and number formatting

    What the modules use of the kernel's C library: a buffer is a [list] of
    [ascii] of fixed length, a C string is the part of it before the first
    NUL.  [strlen], [memcpy], [strim], [scnprintf] and the [%u]/[%ld]/[%x]
    conversions are definitions; the parsers (kstrtox, simple_strtol, sscanf)
    and the character classes are the operations of the class [KText], with
    the laws the modules rely on.  [KTextRef] is an executable instance. *)

From S2P Require Import Prelude.

Abbreviation bytes := (list ascii).

Definition NUL : ascii := "000"%char.
Definition NL : ascii := "010"%char.
Definition SPC : ascii := " "%char.
Definition DQ : ascii := "034"%char.

(** Literal strings of the source. *)
Definition bs (s : string) : bytes := String.list_ascii_of_string s.

(** ** C strings *)

(** The characters before the terminator. *)
Fixpoint cstr (b : bytes) : bytes :=
  match b with
  | [] => []
  | c :: b' => if decide (c = NUL) then [] else c :: cstr b'
  end.

Definition strlen (b : bytes) : nat := length (cstr b).

(** A buffer that holds a terminator somewhere. *)
Definition terminated (b : bytes) : Prop := NUL ∈ b.

(** [memcpy(b + off, src, length src)]. *)
Definition memcpy (b : bytes) (off : nat) (src : bytes) : bytes :=
  list_inserts off src b.

(** ** Formatting *)

Definition digit_char (d : Z) : ascii :=
  ascii_of_nat (if d <? 10 then Z.to_nat (48 + d) else Z.to_nat (87 + d)).

Definition is_dec (c : ascii) : bool :=
  (48 <=? nat_of_ascii c)%nat && (nat_of_ascii c <=? 57)%nat.

(** The digits of [n] in base [b]; [f] bounds their number. *)
Fixpoint digits (b : Z) (f : nat) (n : Z) : bytes :=
  match f with
  | O => []
  | S f' =>
      if n <? b then [digit_char n]
      else digits b f' (n / b) ++ [digit_char (n mod b)]
  end.

(** [%u]/[%lu] (20 digits hold any 64-bit number), [%d]/[%ld], [%x]. *)
Definition fmt_u (n : Z) : bytes := digits 10 20 n.
Definition fmt_d (z : Z) : bytes :=
  if z <? 0 then "-"%char :: fmt_u (- z) else fmt_u z.
Definition fmt_x (n : Z) : bytes := digits 16 16 n.

#[global] Arguments fmt_u : simpl never.
#[global] Arguments fmt_d : simpl never.
#[global] Arguments fmt_x : simpl never.

(** [scnprintf(buf + off, size, ...)] of an already formatted [text]: writes
    at most [size - 1] characters and a terminator, and returns the number of
    characters written. *)
Definition scnprintf (buf : bytes) (off size : nat) (text : bytes) : nat * bytes :=
  match size with
  | O => (0%nat, buf)
  | S room =>
      let t := take room text in
      (length t, memcpy buf off (t ++ [NUL]))
  end.

#[global] Arguments scnprintf : simpl never.

(** ** The parsers and character classes of the kernel *)

(** [kstrtoint s] is [kstrtoint(s, 0, &v)]: [inr v] when it returns 0 and
    [inl err] when it returns [err]; [kstrtouint] and [kstrtobool] likewise.
    [simple_strtol s] is [simple_strtol(s, NULL, 10)]; [sscanf_uu p s] is
    [Some (a, b)] when [sscanf(s, p "%u %u", &a, &b)] makes both conversions. *)
Class KText := {
  isspace : ascii -> bool;
  kstrtoint : bytes -> Z + Z;
  kstrtouint : bytes -> Z + Z;
  kstrtobool : bytes -> Z + bool;
  simple_strtol : bytes -> Z;
  sscanf_uu : bytes -> bytes -> option (Z * Z);

  isspace_NUL : isspace NUL = false;
  isspace_NL : isspace NL = true;
  isspace_dec c : is_dec c = true -> isspace c = false;
  isspace_minus : isspace "-"%char = false;
  kstrtoint_range s v : kstrtoint s = inr v -> in_s32 v;
  kstrtoint_err s e : kstrtoint s = inl e -> e < 0;
  kstrtoint_fmt v : in_s32 v -> kstrtoint (fmt_d v) = inr v;
  kstrtoint_space c s : isspace c = true -> exists e, kstrtoint (c :: s) = inl e;
  kstrtoint_fmt_nl v : in_s32 v -> kstrtoint (fmt_d v ++ [NL]) = inr v;
  kstrtouint_range s v : kstrtouint s = inr v -> in_u32 v;
  kstrtouint_err s e : kstrtouint s = inl e -> e < 0;
  kstrtouint_fmt v : in_u32 v -> kstrtouint (fmt_u v) = inr v;
  kstrtouint_fmt_nl v : in_u32 v -> kstrtouint (fmt_u v ++ [NL]) = inr v;
  kstrtobool_err s e : kstrtobool s = inl e -> e < 0;
  simple_strtol_range s : in_s64 (simple_strtol s);
  simple_strtol_fmt v : in_s32 v -> simple_strtol (fmt_d v) = v;
  simple_strtol_fmt_nl v : in_s32 v -> simple_strtol (fmt_d v ++ [NL]) = v;
  sscanf_uu_range p s a b : sscanf_uu p s = Some (a, b) -> in_u32 a /\ in_u32 b;
  sscanf_uu_fmt p a b : in_u32 a -> in_u32 b ->
    sscanf_uu p (p ++ fmt_u a ++ SPC :: fmt_u b) = Some (a, b)
}.

(** [strim(b)]: drops the trailing white space of the string by writing a
    terminator over its first character.  (The result of [strim], a pointer
    past the leading white space, is ignored by every caller of the source.) *)
Section strim.
Context `{KText}.

Fixpoint rstrip (s : bytes) : bytes :=
  match s with
  | [] => []
  | c :: s' =>
      match rstrip s' with
      | [] => if isspace c then [] else [c]
      | t => c :: t
      end
  end.

Definition strim (b : bytes) : bytes := <[length (rstrip (cstr b)) := NUL]> b.
End strim.

(** ** Lemmas on C strings *)

Lemma cstr_no_nul b : NUL ∉ cstr b.
Proof.
  induction b as [|c b IH]; simpl; [set_solver|].
  case_decide; set_solver.
Qed.

Lemma cstr_app_nul a r : NUL ∉ a -> cstr (a ++ NUL :: r) = a.
Proof.
  induction a as [|c a IH]; intros Hn; simpl; [done|].
  rewrite decide_False by set_solver. rewrite IH; [done|set_solver].
Qed.

Lemma cstr_id a : NUL ∉ a -> cstr a = a.
Proof.
  induction a as [|c a IH]; intros Hn; simpl; [done|].
  rewrite decide_False by set_solver. rewrite IH; [done|set_solver].
Qed.

Lemma cstr_split b : terminated b -> exists r, b = cstr b ++ NUL :: r.
Proof.
  unfold terminated. induction b as [|c b IH]; [set_solver|].
  intros Hin. simpl. case_decide as Hc.
  - subst. by exists b.
  - destruct IH as [r Hr]; [set_solver|]. exists r. simpl. by f_equal.
Qed.

Lemma strlen_lt b : terminated b -> (strlen b < length b)%nat.
Proof.
  intros Ht. destruct (cstr_split b Ht) as [r Hr]. unfold strlen.
  rewrite Hr at 2. rewrite length_app. simpl. lia.
Qed.

Lemma terminated_strlen b : (strlen b < length b)%nat -> terminated b.
Proof.
  intros Hl. destruct (decide (NUL ∈ b)) as [|Hn]; [done|].
  unfold strlen in Hl. rewrite cstr_id in Hl by done. lia.
Qed.

Lemma length_cstr b : (length (cstr b) <= length b)%nat.
Proof. induction b; simpl; [done|]. case_decide; simpl; lia. Qed.

Lemma terminated_lookup b i : b !! i = Some NUL -> terminated b.
Proof. intros. unfold terminated. eapply list_elem_of_lookup_2; eauto. Qed.

Lemma cstr_memcpy b off t :
  (off + length t < length b)%nat -> NUL ∉ t ->
  off = strlen b -> terminated b ->
  cstr (memcpy b off (t ++ [NUL])) = cstr b ++ t.
Proof.
  intros Hlen Hn -> Ht. destruct (cstr_split b Ht) as [r Hr].
  unfold memcpy, strlen. rewrite Hr at 2.
  assert (length t <= length r)%nat.
  { unfold strlen in Hlen. rewrite Hr in Hlen at 2.
    rewrite length_app in Hlen. simpl in Hlen. lia. }
  replace (NUL :: r) with ((NUL :: take (length t) r) ++ drop (length t) r)
    by (simpl; by rewrite take_drop).
  rewrite list_inserts_app_here.
  2:{ rewrite length_app. simpl. rewrite length_take. lia. }
  rewrite <- app_assoc, app_assoc. simpl. apply cstr_app_nul.
  pose proof (cstr_no_nul b). set_solver.
Qed.

(** The effect of an append with [scnprintf] on the string of the buffer. *)
Lemma scnprintf_append b off size text :
  terminated b -> off = strlen b -> (off + size = length b)%nat ->
  (0 < size)%nat -> NUL ∉ text ->
  let '(n, b') := scnprintf b off size text in
  n = Nat.min (length text) (size - 1) /\
  cstr b' = cstr b ++ take (size - 1) text /\
  length b' = length b /\
  b' !! (off + n)%nat = Some NUL.
Proof.
  intros Ht -> Hsz Hpos Hn. unfold scnprintf. destruct size as [|room]; [lia|].
  simpl. rewrite Nat.sub_0_r, length_take.
  split; [lia|]. unfold memcpy. rewrite length_inserts.
  repeat split.
  - apply cstr_memcpy; auto.
    + rewrite length_take. lia.
    + intros Hin. apply Hn. eapply elem_of_submseteq; [done|].
      apply sublist_submseteq, sublist_take.
  - rewrite list_lookup_inserts.
    + rewrite lookup_app_r; rewrite length_take; [|lia].
      replace (_ - _ - _)%nat with 0%nat by lia. done.
    + rewrite length_app, length_take. simpl. lia.
    + lia.
Qed.

(** ** Lemmas on formatting *)

Lemma digit_char_no_nul d : 0 <= d < 16 -> digit_char d <> NUL.
Proof.
  intros Hd H. apply (f_equal nat_of_ascii) in H. revert H. unfold digit_char.
  rewrite nat_ascii_embedding by (case_match; lia).
  change (nat_of_ascii NUL) with 0%nat. case_match; lia.
Qed.

Lemma digits_no_nul b f n : 0 < b <= 16 -> 0 <= n -> NUL ∉ digits b f n.
Proof.
  intros Hb. revert n. induction f as [|f IH]; intros n Hn; simpl; [set_solver|].
  destruct (n <? b) eqn:E.
  - rewrite list_elem_of_singleton. intros Heq. symmetry in Heq.
    revert Heq. apply digit_char_no_nul. lia.
  - rewrite not_elem_of_app, list_elem_of_singleton. split.
    + apply IH. apply Z.div_pos; lia.
    + intros Heq. symmetry in Heq. revert Heq. apply digit_char_no_nul.
      pose proof (Z.mod_pos_bound n b). lia.
Qed.

Lemma fmt_u_no_nul n : 0 <= n -> NUL ∉ fmt_u n.
Proof. apply digits_no_nul. lia. Qed.

Lemma fmt_d_no_nul z : NUL ∉ fmt_d z.
Proof.
  unfold fmt_d. destruct (z <? 0) eqn:E; [|apply fmt_u_no_nul; lia].
  rewrite not_elem_of_cons. split; [discriminate|]. apply fmt_u_no_nul. lia.
Qed.

Lemma length_digits b f n : (length (digits b f n) <= f)%nat.
Proof.
  revert n. induction f as [|f IH]; intros n; cbn [digits]; [done|].
  case_match; simpl; [lia|]. rewrite length_app. simpl. specialize (IH (n / b)). lia.
Qed.

Lemma length_fmt_u n : (length (fmt_u n) <= 20)%nat.
Proof. apply length_digits. Qed.

Lemma length_fmt_d z : (length (fmt_d z) <= 21)%nat.
Proof.
  unfold fmt_d. pose proof (length_fmt_u z). pose proof (length_fmt_u (- z)).
  case_match; cbn [length]; lia.
Qed.

Lemma digits_nonempty b f n : (0 < f)%nat -> digits b f n <> [].
Proof.
  destruct f as [|f]; [lia|]. intros _. cbn [digits]. case_match; [done|].
  by destruct (digits b f (n / b)).
Qed.

Lemma fmt_d_nonempty z : fmt_d z <> [].
Proof.
  unfold fmt_d. case_match; [done|]. apply digits_nonempty. lia.
Qed.

(** Every digit but the last divides the number by ten. *)
Lemma length_digits_bound f k n :
  0 <= n < 10 ^ Z.of_nat k -> (0 < k)%nat -> (length (digits 10 f n) <= k)%nat.
Proof.
  revert k n. induction f as [|f IH]; intros k n Hn Hk; cbn [digits]; [simpl; lia|].
  case_match; [simpl; lia|]. rewrite length_app. simpl.
  destruct k as [|[|k]]; [lia|simpl in Hn; lia|].
  specialize (IH (S k) (n / 10)). rewrite Nat2Z.inj_succ, Z.pow_succ_r in Hn by lia.
  assert (0 <= n / 10 < 10 ^ Z.of_nat (S k)).
  { split; [apply Z.div_pos; lia | apply Z.div_lt_upper_bound; lia]. }
  lia.
Qed.

Lemma length_fmt_s32 v : in_s32 v -> (length (fmt_d v) <= 11)%nat.
Proof.
  intros Hv. unfold fmt_d, fmt_u.
  case_match; cbn [length];
    [pose proof (length_digits_bound 20 10 (- v))|pose proof (length_digits_bound 20 10 v)];
    simpl Z.of_nat in *; klia.
Qed.

(** ** Lemmas on [strim] *)

Lemma cstr_insert_nul b k :
  terminated b -> (k <= strlen b)%nat -> cstr (<[k := NUL]> b) = take k (cstr b).
Proof.
  unfold strlen. revert k. induction b as [|c b IH]; intros k Ht Hk; [by apply elem_of_nil in Ht|].
  destruct k as [|k]; [done|]. simpl in *. case_decide as Hc; simpl in *; [lia|].
  f_equal. apply IH; [|lia]. unfold terminated in *. set_solver.
Qed.

Section strim_lemmas.
Context `{KText}.

Lemma rstrip_prefix s : exists r, s = rstrip s ++ r /\ Forall (fun c => isspace c = true) r.
Proof.
  induction s as [|c s (r & Hr & Hf)]; simpl; [by exists []|].
  destruct (rstrip s) as [|x t] eqn:E.
  - destruct (isspace c) eqn:Ec.
    + exists (c :: s). split; [done|]. constructor; [done|]. by rewrite Hr.
    + exists s. split; [done|]. by rewrite Hr.
  - exists r. split; [|done]. rewrite Hr at 1. by rewrite <- E in *.
Qed.

Lemma cstr_strim b : terminated b -> cstr (strim b) = rstrip (cstr b).
Proof.
  intros Ht. unfold strim. destruct (rstrip_prefix (cstr b)) as (r & Hr & _).
  rewrite cstr_insert_nul; [|done|].
  - rewrite Hr at 2. by rewrite take_app_length.
  - unfold strlen. rewrite Hr at 2. rewrite length_app. lia.
Qed.

Lemma length_strim b : length (strim b) = length b.
Proof. apply length_insert. Qed.

Lemma terminated_strim b : terminated b -> terminated (strim b).
Proof.
  intros Ht. apply terminated_strlen. unfold strlen. rewrite length_strim, cstr_strim by done.
  destruct (rstrip_prefix (cstr b)) as (r & Hr & _).
  pose proof (strlen_lt b Ht) as Hl. unfold strlen in Hl. rewrite Hr, length_app in Hl. lia.
Qed.

Lemma rstrip_id s : Forall (fun c => isspace c = false) s -> rstrip s = s.
Proof.
  induction 1 as [|c s Hc Hs IH]; simpl; [done|]. rewrite IH. destruct s; [by rewrite Hc|done].
Qed.

Lemma rstrip_app_spaces s r :
  Forall (fun c => isspace c = true) r -> rstrip (s ++ r) = rstrip s.
Proof.
  intros Hr. induction s as [|c s IH]; simpl; [|by rewrite IH].
  induction Hr as [|c r Hc Hr IH]; simpl; [done|]. by rewrite IH, Hc.
Qed.

Lemma is_dec_digit d : 0 <= d < 10 -> is_dec (digit_char d) = true.
Proof.
  intros Hd. unfold is_dec, digit_char. replace (d <? 10) with true by lia.
  rewrite nat_ascii_embedding by lia. lia.
Qed.

Lemma digits_is_dec f n : 0 <= n -> Forall (fun c => is_dec c = true) (digits 10 f n).
Proof.
  revert n. induction f as [|f IH]; intros n Hn; cbn [digits]; [done|].
  destruct (n <? 10) eqn:E.
  - repeat constructor. apply is_dec_digit. lia.
  - apply Forall_app. split; [apply IH, Z.div_pos; lia|]. repeat constructor.
    apply is_dec_digit. by apply Z.mod_pos_bound.
Qed.

Lemma fmt_d_no_space v : Forall (fun c => isspace c = false) (fmt_d v).
Proof.
  assert (forall n, 0 <= n -> Forall (fun c => isspace c = false) (fmt_u n)) as Hu.
  { intros n Hn. eapply Forall_impl; [by apply digits_is_dec|]. apply isspace_dec. }
  unfold fmt_d. destruct (v <? 0) eqn:E; [constructor; [apply isspace_minus|]|]; apply Hu; lia.
Qed.
End strim_lemmas.
