(* ===== verification/KTextRef.v ===== *)
(** * KTextRef: an executable instance of the text interface

    Follows the documentation of kstrtox, simple_strtol and sscanf: optional
    sign, base detection from the prefix ([0x] and [0]), 64-bit overflow
    detection, one optional trailing newline.  The witnesses of the other
    files evaluate with this instance, and its laws show that the hypotheses
    of [KText] can be met. *)

From S2P Require Import Prelude KText.

(** ** Digits *)

Definition digit_val (base : Z) (c : ascii) : option Z :=
  let k := Z.of_nat (nat_of_ascii c) in
  let v := if (48 <=? k) && (k <=? 57) then k - 48
           else if (97 <=? k) && (k <=? 102) then k - 87
           else if (65 <=? k) && (k <=? 70) then k - 55
           else 99 in
  if v <? base then Some v else None.

#[global] Arguments digit_val : simpl never.

(** Accumulates the leading digits: value, number of digits, rest. *)
Fixpoint scan_digits (base : Z) (s : bytes) (acc : Z) (n : nat) : Z * nat * bytes :=
  match s with
  | [] => (acc, n, [])
  | c :: s' =>
      match digit_val base c with
      | Some v => scan_digits base s' (acc * base + v) (S n)
      | None => (acc, n, s)
      end
  end.

Definition val_of (base : Z) (acc : Z) (ds : bytes) : Z :=
  fold_left (fun a c => a * base + default 0 (digit_val base c)) ds acc.

Lemma digit_val_char d : 0 <= d < 10 -> digit_val 10 (digit_char d) = Some d.
Proof.
  intros Hd. assert (d = 0 \/ d = 1 \/ d = 2 \/ d = 3 \/ d = 4 \/ d = 5 \/ d = 6
    \/ d = 7 \/ d = 8 \/ d = 9) as Hc by lia.
  by repeat (destruct Hc as [->|Hc]; [reflexivity|]); subst.
Qed.

Lemma digit_char_head d : 0 < d < 10 ->
  digit_char d <> "0"%char /\ digit_char d <> "-"%char /\ digit_char d <> "+"%char.
Proof.
  intros Hd. assert (d = 1 \/ d = 2 \/ d = 3 \/ d = 4 \/ d = 5 \/ d = 6
    \/ d = 7 \/ d = 8 \/ d = 9) as Hc by lia.
  by repeat (destruct Hc as [->|Hc]; [repeat split; discriminate|]); subst.
Qed.

Lemma digits_val f n :
  0 <= n < 10 ^ Z.of_nat f -> (0 < f)%nat ->
  val_of 10 0 (digits 10 f n) = n /\
  Forall (fun c => is_Some (digit_val 10 c)) (digits 10 f n) /\
  (0 < length (digits 10 f n))%nat.
Proof.
  revert n. induction f as [|f IH]; [lia|]. intros n Hn _. cbn [digits].
  destruct (n <? 10) eqn:E.
  - unfold val_of. simpl. rewrite digit_val_char by lia. simpl.
    split; [lia|]. split; [|lia]. repeat constructor.
    rewrite digit_val_char by lia. eauto.
  - assert (0 < f)%nat as Hf by (destruct f; [simpl in Hn; lia|lia]).
    destruct (IH (n / 10)) as (Hv & Hall & Hlen); [|done|].
    { rewrite Nat2Z.inj_succ, Z.pow_succ_r in Hn by lia.
      split; [apply Z.div_pos; lia | apply Z.div_lt_upper_bound; lia]. }
    pose proof (Z.mod_pos_bound n 10 ltac:(lia)).
    pose proof (Z.div_mod n 10 ltac:(lia)).
    split; [|split].
    + unfold val_of in *. rewrite fold_left_app, Hv. simpl.
      rewrite digit_val_char by lia. simpl. lia.
    + apply Forall_app. split; [done|]. repeat constructor.
      rewrite digit_val_char by lia. eauto.
    + rewrite length_app. simpl. lia.
Qed.

Lemma digits_head f n :
  0 < n < 10 ^ Z.of_nat f ->
  exists c r, digits 10 f n = c :: r /\
    c <> "0"%char /\ c <> "-"%char /\ c <> "+"%char.
Proof.
  revert n. induction f as [|f IH]; intros n Hn; [simpl in Hn; lia|].
  cbn [digits]. destruct (n <? 10) eqn:E.
  - pose proof (digit_char_head n ltac:(lia)). eauto.
  - destruct (IH (n / 10)) as (c & r & -> & Hc).
    { rewrite Nat2Z.inj_succ, Z.pow_succ_r in Hn by lia.
      split; [apply Z.div_str_pos; lia | apply Z.div_lt_upper_bound; lia]. }
    simpl. eauto.
Qed.

Lemma scan_digits_app base ds rest acc n :
  Forall (fun c => is_Some (digit_val base c)) ds ->
  scan_digits base (ds ++ rest) acc n =
  scan_digits base rest (val_of base acc ds) (n + length ds)%nat.
Proof.
  intros Hall. revert acc n. induction Hall as [|c ds [v Hv] Hall IH]; intros acc n.
  - simpl. by rewrite Nat.add_0_r.
  - simpl. rewrite Hv, IH. unfold val_of. simpl. rewrite ?Hv. simpl.
    f_equal. lia.
Qed.

(** ** kstrtox *)

Definition fixup_radix (s : bytes) : Z * bytes :=
  match s with
  | c :: s1 =>
      if decide (c = "0"%char) then
        match s1 with
        | x :: d :: r =>
            if (bool_decide (x = "x"%char) || bool_decide (x = "X"%char))
               && bool_decide (is_Some (digit_val 16 d))
            then (16, d :: r) else (8, s)
        | _ => (8, s)
        end
      else (10, s)
  | [] => (10, s)
  end.

Definition kstrtoull_raw (s : bytes) : Z + Z :=
  let '(base, s') := fixup_radix s in
  let '(v, n, rest) := scan_digits base s' 0 0 in
  if ULONG_MAX <? v then inl (- ERANGE)
  else if (n =? 0)%nat then inl (- EINVAL)
  else
    let rest' := match rest with
                 | c :: r => if decide (c = NL) then r else rest
                 | [] => [] end in
    match rest' with [] => inr v | _ => inl (- EINVAL) end.

Definition kstrtoull (s : bytes) : Z + Z :=
  match s with
  | c :: s' => kstrtoull_raw (if decide (c = "+"%char) then s' else s)
  | [] => kstrtoull_raw s
  end.

Definition kstrtoll_pos (s : bytes) : Z + Z :=
  match kstrtoull s with
  | inl e => inl e
  | inr v => if LONG_MAX <? v then inl (- ERANGE) else inr v
  end.

Definition kstrtoll_neg (s : bytes) : Z + Z :=
  match kstrtoull_raw s with
  | inl e => inl e
  | inr v => if LONG_MAX + 1 <? v then inl (- ERANGE) else inr (- v)
  end.

Definition kstrtoll (s : bytes) : Z + Z :=
  match s with
  | c :: s' => if decide (c = "-"%char) then kstrtoll_neg s' else kstrtoll_pos s
  | [] => kstrtoll_pos s
  end.

Definition kstrtoint_ref (s : bytes) : Z + Z :=
  match kstrtoll s with
  | inl e => inl e
  | inr v => if (INT_MIN <=? v) && (v <=? INT_MAX) then inr v else inl (- ERANGE)
  end.

Definition kstrtouint_ref (s : bytes) : Z + Z :=
  match kstrtoull s with
  | inl e => inl e
  | inr v => if (0 <=? v) && (v <=? UINT_MAX) then inr v else inl (- ERANGE)
  end.

Definition kstrtobool_ref (s : bytes) : Z + bool :=
  match s with
  | ("e" | "E" | "y" | "Y" | "t" | "T" | "1")%char :: _ => inr true
  | ("d" | "D" | "n" | "N" | "f" | "F" | "0")%char :: _ => inr false
  | ("o" | "O")%char :: ("n" | "N")%char :: _ => inr true
  | ("o" | "O")%char :: ("f" | "F")%char :: _ => inr false
  | _ => inl (- EINVAL)
  end.

Definition strtoul10 (s : bytes) : Z := (scan_digits 10 s 0 0).1.1.

Definition simple_strtol_ref (s : bytes) : Z :=
  match s with
  | c :: s' => if decide (c = "-"%char) then s64 (- strtoul10 s') else s64 (strtoul10 s)
  | [] => 0
  end.

Definition isspace_ref (c : ascii) : bool :=
  let k := nat_of_ascii c in
  ((9 <=? k) && (k <=? 13) || (k =? 32) || (k =? 160))%nat.

Fixpoint skip_spaces (s : bytes) : bytes :=
  match s with
  | c :: s' => if isspace_ref c then skip_spaces s' else s
  | [] => []
  end.

Fixpoint match_prefix (p s : bytes) : option bytes :=
  match p, s with
  | [], _ => Some s
  | a :: p', b :: s' => if decide (a = b) then match_prefix p' s' else None
  | _, [] => None
  end.

Definition scan_u (s : bytes) : option (Z * bytes) :=
  let '(v, n, rest) := scan_digits 10 (skip_spaces s) 0 0 in
  if (n =? 0)%nat then None else Some (u32 v, rest).

Definition sscanf_uu_ref (p s : bytes) : option (Z * Z) :=
  s1 ← match_prefix p s;
  '(a, s2) ← scan_u s1;
  '(b, _) ← scan_u s2;
  Some (a, b).

(** ** The laws *)

Lemma pow10_20 : 10 ^ Z.of_nat 20 = 100000000000000000000.
Proof. reflexivity. Qed.

Lemma fmt_u_scan n rest acc k :
  in_u64 n -> acc = 0 ->
  (match rest with [] => True | c :: _ => digit_val 10 c = None end) ->
  scan_digits 10 (fmt_u n ++ rest) acc k = (n, (k + length (fmt_u n))%nat, rest).
Proof.
  intros Hn -> Hrest. unfold fmt_u.
  destruct (digits_val 20 n) as (Hv & Hall & _); [rewrite pow10_20; klia|lia|].
  rewrite scan_digits_app, Hv by done.
  destruct rest as [|c rest]; cbn [scan_digits]; [reflexivity|].
  rewrite Hrest. reflexivity.
Qed.

Lemma fmt_u_len n : in_u64 n -> (0 < length (fmt_u n))%nat.
Proof. intros. apply digits_val; [rewrite pow10_20; klia|lia]. Qed.

Lemma fmt_u_head n : in_u64 n ->
  n = 0 \/ exists c r, fmt_u n = c :: r /\
    c <> "0"%char /\ c <> "-"%char /\ c <> "+"%char.
Proof.
  intros. destruct (decide (n = 0)) as [->|]; [by left|right].
  apply digits_head. rewrite pow10_20. klia.
Qed.

(** The tails the parsers accept after a number. *)
Definition nl_tail (t : bytes) : Prop := t = [] \/ t = [NL].

Lemma kstrtoull_raw_fmt n t :
  in_u64 n -> nl_tail t -> kstrtoull_raw (fmt_u n ++ t) = inr n.
Proof.
  intros Hn Ht. destruct (fmt_u_head n Hn) as [->|(c & r & Hr & Hc & _)].
  { destruct Ht as [->| ->]; reflexivity. }
  unfold kstrtoull_raw.
  assert (fixup_radix (fmt_u n ++ t) = (10, fmt_u n ++ t)) as ->.
  { rewrite Hr. simpl. by rewrite decide_False. }
  rewrite fmt_u_scan; [|done|done|by destruct Ht as [->| ->]].
  replace (ULONG_MAX <? n) with false by klia.
  pose proof (fmt_u_len n Hn).
  replace (0 + length (fmt_u n) =? 0)%nat with false by lia.
  by destruct Ht as [->| ->].
Qed.

Lemma kstrtoull_fmt n t :
  in_u64 n -> nl_tail t -> kstrtoull (fmt_u n ++ t) = inr n.
Proof.
  intros Hn Ht. rewrite <- (kstrtoull_raw_fmt n t) by done.
  destruct (fmt_u_head n Hn) as [->|(c & r & -> & _ & _ & Hc)]; [done|].
  simpl. by rewrite decide_False.
Qed.

Lemma kstrtoint_ref_fmt v t :
  in_s32 v -> nl_tail t -> kstrtoint_ref (fmt_d v ++ t) = inr v.
Proof.
  intros Hv Ht. unfold kstrtoint_ref.
  assert (kstrtoll (fmt_d v ++ t) = inr v) as ->.
  { unfold fmt_d. destruct (v <? 0) eqn:E.
    - simpl. unfold kstrtoll_neg. rewrite kstrtoull_raw_fmt by (done || klia).
      replace (LONG_MAX + 1 <? - v) with false by klia. f_equal. lia.
    - assert (kstrtoll_pos (fmt_u v ++ t) = inr v) as Hp.
      { unfold kstrtoll_pos. rewrite kstrtoull_fmt by (done || klia).
        by replace (LONG_MAX <? v) with false by klia. }
      destruct (fmt_u_head v) as [->|(c & r & Hr & _ & Hc & _)]; [klia|done|].
      rewrite Hr in *. simpl. by rewrite decide_False. }
  by replace ((INT_MIN <=? v) && (v <=? INT_MAX)) with true by klia.
Qed.

Lemma kstrtouint_ref_fmt v t :
  in_u32 v -> nl_tail t -> kstrtouint_ref (fmt_u v ++ t) = inr v.
Proof.
  intros Hv Ht. unfold kstrtouint_ref. rewrite kstrtoull_fmt by (done || klia).
  by replace ((0 <=? v) && (v <=? UINT_MAX)) with true by klia.
Qed.

Lemma simple_strtol_ref_fmt v t :
  in_s32 v -> nl_tail t -> simple_strtol_ref (fmt_d v ++ t) = v.
Proof.
  intros Hv Ht.
  assert (forall n, in_u64 n -> strtoul10 (fmt_u n ++ t) = n) as Hs.
  { intros n Hn. unfold strtoul10.
    rewrite fmt_u_scan; [done|done|done|by destruct Ht as [->| ->]]. }
  unfold fmt_d. destruct (v <? 0) eqn:E.
  - simpl. rewrite Hs by klia. rewrite s64_id; klia.
  - specialize (Hs v ltac:(klia)).
    destruct (fmt_u_head v) as [->|(c & r & Hr & _ & Hc & _)]; [klia| |].
    { by destruct Ht as [->| ->]. }
    rewrite Hr in *. simpl in *. rewrite decide_False by done.
    rewrite Hs, s64_id; klia.
Qed.

Lemma match_prefix_app p s : match_prefix p (p ++ s) = Some s.
Proof. induction p; simpl; [done|]. by rewrite decide_True. Qed.

Lemma skip_spaces_fmt n s : in_u64 n -> skip_spaces (fmt_u n ++ s) = fmt_u n ++ s.
Proof.
  intros Hn. destruct (digits_val 20 n) as (_ & Hall & Hlen);
    [rewrite pow10_20; klia|lia|]. unfold fmt_u.
  destruct (digits 10 20 n) as [|c r]; [simpl in Hlen; lia|].
  apply Forall_cons in Hall as [Hc _]. simpl.
  destruct (isspace_ref c) eqn:E; [|done]. exfalso.
  revert E Hc. unfold isspace_ref, digit_val. intros E [v Hv].
  repeat case_match; simplify_eq; lia.
Qed.

Lemma scan_u_fmt n s :
  in_u32 n -> (match s with [] => True | c :: _ => digit_val 10 c = None end) ->
  scan_u (fmt_u n ++ s) = Some (n, s).
Proof.
  intros Hn Hs. unfold scan_u. rewrite skip_spaces_fmt by klia.
  rewrite fmt_u_scan by (done || klia). pose proof (fmt_u_len n ltac:(klia)).
  replace (0 + length (fmt_u n) =? 0)%nat with false by lia.
  by rewrite u32_id by klia.
Qed.

Lemma sscanf_uu_ref_fmt p a b :
  in_u32 a -> in_u32 b ->
  sscanf_uu_ref p (p ++ fmt_u a ++ SPC :: fmt_u b) = Some (a, b).
Proof.
  intros Ha Hb. unfold sscanf_uu_ref. rewrite match_prefix_app. simpl.
  rewrite scan_u_fmt by (done || reflexivity). simpl.
  assert (scan_u (SPC :: fmt_u b) = scan_u (fmt_u b ++ [])) as ->.
  { unfold scan_u. rewrite app_nil_r. by simpl. }
  by rewrite scan_u_fmt.
Qed.

Lemma isspace_ref_dec c : is_dec c = true -> isspace_ref c = false.
Proof. unfold is_dec, isspace_ref. lia. Qed.

Lemma kstrtoint_ref_space c s :
  isspace_ref c = true -> exists e, kstrtoint_ref (c :: s) = inl e.
Proof.
  intros Hc. exists (- EINVAL).
  assert (digit_val 10 c = None /\ c <> "-"%char /\ c <> "+"%char /\ c <> "0"%char)
    as (Hd & Hm & Hp & H0).
  { destruct c as [[] [] [] [] [] [] [] []]; vm_compute in Hc; try discriminate Hc;
      by vm_compute. }
  unfold kstrtoint_ref, kstrtoll. rewrite decide_False by done.
  unfold kstrtoll_pos, kstrtoull. rewrite decide_False by done.
  unfold kstrtoull_raw, fixup_radix. rewrite decide_False by done.
  simpl. rewrite Hd. done.
Qed.

Lemma kstrtoull_raw_err s e : kstrtoull_raw s = inl e -> e < 0.
Proof.
  unfold kstrtoull_raw. unfold ERANGE, EINVAL. intros H.
  repeat case_match; simplify_eq; lia.
Qed.

Lemma kstrtoull_err s e : kstrtoull s = inl e -> e < 0.
Proof. unfold kstrtoull. case_match; apply kstrtoull_raw_err. Qed.

Lemma kstrtoint_ref_err s e : kstrtoint_ref s = inl e -> e < 0.
Proof.
  unfold kstrtoint_ref, kstrtoll, kstrtoll_pos, kstrtoll_neg, ERANGE.
  intros H. repeat case_match; simplify_eq; try lia;
    eauto using kstrtoull_err, kstrtoull_raw_err.
Qed.

Lemma kstrtouint_ref_err s e : kstrtouint_ref s = inl e -> e < 0.
Proof.
  unfold kstrtouint_ref, ERANGE.
  intros H. repeat case_match; simplify_eq; try lia; eauto using kstrtoull_err.
Qed.

Lemma kstrtoint_ref_range s v : kstrtoint_ref s = inr v -> in_s32 v.
Proof. unfold kstrtoint_ref. intros. repeat case_match; simplify_eq. klia. Qed.

Lemma kstrtouint_ref_range s v : kstrtouint_ref s = inr v -> in_u32 v.
Proof. unfold kstrtouint_ref. intros. repeat case_match; simplify_eq. klia. Qed.

Lemma kstrtobool_ref_err s e : kstrtobool_ref s = inl e -> e < 0.
Proof.
  unfold kstrtobool_ref, EINVAL. intros. repeat case_match; simplify_eq; lia.
Qed.

Lemma simple_strtol_ref_range s : in_s64 (simple_strtol_ref s).
Proof.
  unfold simple_strtol_ref. destruct s as [|c s]; [klia|].
  case_decide; apply s64_range.
Qed.

Lemma sscanf_uu_ref_range p s a b :
  sscanf_uu_ref p s = Some (a, b) -> in_u32 a /\ in_u32 b.
Proof.
  assert (forall t v r, scan_u t = Some (v, r) -> in_u32 v) as Hu.
  { unfold scan_u. intros t v r H. repeat case_match; simplify_eq.
    apply u32_range. }
  unfold sscanf_uu_ref. destruct (match_prefix p s); [|done]. simpl.
  destruct (scan_u _) as [[a' s2]|] eqn:Ea; [|done]. simpl.
  destruct (scan_u s2) as [[b' s3]|] eqn:Eb; [|done]. simpl.
  intros. simplify_eq. eauto.
Qed.

Definition KTextRef : KText.
Proof.
  refine {|
    isspace := isspace_ref; kstrtoint := kstrtoint_ref;
    kstrtouint := kstrtouint_ref; kstrtobool := kstrtobool_ref;
    simple_strtol := simple_strtol_ref; sscanf_uu := sscanf_uu_ref;
    isspace_dec := isspace_ref_dec; kstrtoint_space := kstrtoint_ref_space;
    kstrtoint_range := kstrtoint_ref_range; kstrtoint_err := kstrtoint_ref_err;
    kstrtouint_range := kstrtouint_ref_range;
    kstrtouint_err := kstrtouint_ref_err; kstrtobool_err := kstrtobool_ref_err;
    simple_strtol_range := simple_strtol_ref_range;
    sscanf_uu_range := sscanf_uu_ref_range; sscanf_uu_fmt := sscanf_uu_ref_fmt
  |}; try reflexivity.
  all: intros v Hv; try rewrite <- (app_nil_r (fmt_d v));
    try rewrite <- (app_nil_r (fmt_u v)).
  - apply kstrtoint_ref_fmt; [done|by left].
  - rewrite app_nil_r. apply kstrtoint_ref_fmt; [done|by right].
  - apply kstrtouint_ref_fmt; [done|by left].
  - rewrite app_nil_r. apply kstrtouint_ref_fmt; [done|by right].
  - apply simple_strtol_ref_fmt; [done|by left].
  - rewrite app_nil_r. apply simple_strtol_ref_fmt; [done|by right].
Defined.
