(* ===== verification/KMonad.v ===== *)
(** * KMonad: state, effects and resource accounting

    The init, exit and lifecycle functions of the modules are written in the
    monad [km St R]: they thread a state [St] and record in a trace every
    resource [R] they acquire from or give back to the kernel.  The results of
    the kernel calls are arguments of the definitions, so a theorem covers
    every combination of failures.

    Two checkers replay a trace: [replay_lifo] accepts a release only of the
    most recently acquired resource that is still held (the discipline of the
    goto chains), [replay] of any held resource.  Both reject a release of
    something not held, which is a double free. *)

From S2P Require Import Prelude.

Inductive kop (R : Type) : Type :=
| Acq (r : R)
| Rel (r : R).
Arguments Acq {R} r.
Arguments Rel {R} r.

Definition km (St R A : Type) : Type := St -> A * St * list (kop R).

Section km.
Context {St R : Type}.

#[global] Instance km_ret : MRet (km St R) := fun A a s => (a, s, []).

#[global] Instance km_bind : MBind (km St R) := fun A B f m s =>
  let '(a, s1, t1) := m s in
  let '(b, s2, t2) := f a s1 in
  (b, s2, t1 ++ t2).

Definition acquire (r : R) : km St R unit := fun s => ((), s, [Acq r]).
Definition release (r : R) : km St R unit := fun s => ((), s, [Rel r]).
Definition gets {A} (f : St -> A) : km St R A := fun s => (f s, s, []).
Definition modify (f : St -> St) : km St R unit := fun s => ((), f s, []).

(** A kernel call that returns a pointer, NULL on failure ([ok = false]). *)
Definition acquire_ptr (ok : bool) (r : R) : km St R bool :=
  if ok then _ ← acquire r; mret true else mret false.

(** A kernel call that returns 0 or an error number. *)
Definition acquire_ret (ret : Z) (r : R) : km St R Z :=
  if ret =? 0 then _ ← acquire r; mret ret else mret ret.

Definition run_ret {A} (m : km St R A) (s : St) : A := (m s).1.1.
Definition run_st {A} (m : km St R A) (s : St) : St := (m s).1.2.
Definition run_ops {A} (m : km St R A) (s : St) : list (kop R) := (m s).2.
End km.

(** Runs the monadic structure of a definition and nothing else. *)
Ltac km_run :=
  cbv beta iota zeta delta [mbind km_bind mret km_ret acquire release gets modify
    acquire_ptr acquire_ret run_ret run_st run_ops negb fst snd app].

(** The same, leaving the concatenation of traces alone. *)
Ltac km_run_keep :=
  cbv beta iota zeta delta [mbind km_bind mret km_ret acquire release gets modify
    acquire_ptr acquire_ret run_ret run_st run_ops negb fst snd].

Section replay.
Context {R : Type} `{EqDecision R}.

Definition pop (r : R) (held : list R) : option (list R) :=
  match held with
  | r' :: held' => if decide (r = r') then Some held' else None
  | [] => None
  end.

(** The first occurrence of [r], wherever it is. *)
Fixpoint remove_one (r : R) (held : list R) : option (list R) :=
  match held with
  | [] => None
  | r' :: held' =>
      if decide (r = r') then Some held' else cons r' <$> remove_one r held'
  end.

Fixpoint replay_with (drop1 : R -> list R -> option (list R))
    (t : list (kop R)) (held : list R) : option (list R) :=
  match t with
  | [] => Some held
  | Acq r :: t' => replay_with drop1 t' (r :: held)
  | Rel r :: t' => held' ← drop1 r held; replay_with drop1 t' held'
  end.

Definition replay_lifo : list (kop R) -> list R -> option (list R) :=
  replay_with pop.
Definition replay : list (kop R) -> list R -> option (list R) :=
  replay_with remove_one.

Lemma replay_with_app d t1 t2 h :
  replay_with d (t1 ++ t2) h = (replay_with d t1 h ≫= replay_with d t2).
Proof.
  revert h. induction t1 as [|[r|r] t1 IH]; intros h; simpl; [done|done|].
  destruct (d r h); simpl; [apply IH|done].
Qed.

Lemma pop_remove_one r h h' : pop r h = Some h' -> remove_one r h = Some h'.
Proof.
  destruct h as [|r' h]; simpl; [done|]. case_decide; [|done].
  by intros [= ->].
Qed.

(** The strict discipline implies the lenient one. *)
Lemma replay_lifo_replay t h h' :
  replay_lifo t h = Some h' -> replay t h = Some h'.
Proof.
  unfold replay_lifo, replay. revert h.
  induction t as [|[r|r] t IH]; intros h; simpl; [done|by apply IH|].
  destruct (pop r h) as [h1|] eqn:E; simpl; [|done].
  rewrite (pop_remove_one _ _ _ E). simpl. apply IH.
Qed.

(** What is left of the resources does not depend on those already held. *)
Lemma replay_lifo_frame t h h' k :
  replay_lifo t h = Some h' -> replay_lifo t (h ++ k) = Some (h' ++ k).
Proof.
  unfold replay_lifo. revert h.
  induction t as [|[r|r] t IH]; intros h; simpl; [naive_solver|apply (IH (r :: h))|].
  destruct h as [|r' h]; simpl; [done|]. case_decide; simpl; [apply IH|done].
Qed.

Lemma remove_one_skip r pre h :
  r ∉ pre -> remove_one r (pre ++ r :: h) = Some (pre ++ h).
Proof.
  induction pre as [|x pre IH]; intros Hr; simpl; [by rewrite decide_True|].
  rewrite decide_False by set_solver. rewrite IH by set_solver. done.
Qed.

(** A release of something held anywhere in the ledger. *)
Lemma replay_release r t pre h :
  r ∉ pre -> replay (Rel r :: t) (pre ++ r :: h) = replay t (pre ++ h).
Proof. intros Hr. unfold replay. simpl. by rewrite remove_one_skip. Qed.

Lemma replay_app t1 t2 h h1 :
  replay t1 h = Some h1 -> replay (t1 ++ t2) h = replay t2 h1.
Proof. intros Ht. unfold replay in *. by rewrite replay_with_app, Ht. Qed.
End replay.

(** Replays a concrete trace over an arbitrary rest of held resources. *)
Ltac replay_run :=
  intros; unfold replay, replay_lifo; simpl; repeat (case_decide; simplify_eq/=); try done.

(** ** Running a part of a program on a part of the state

    [zoom get set inj m] runs [m], which works on the part [get s] of the
    state and on its own resources, inside a larger program. *)
Section zoom.
Context {St R St' R' : Type} (get : St -> St') (set : St' -> St -> St) (inj : R' -> R).

Definition inj_op (o : kop R') : kop R :=
  match o with Acq r => Acq (inj r) | Rel r => Rel (inj r) end.

Definition zoom {A} (m : km St' R' A) : km St R A := fun s =>
  let '(a, s', t) := m (get s) in (a, set s' s, inj_op <$> t).

Context `{EqDecision R, EqDecision R'} (inj_inj : forall x y, inj x = inj y -> x = y).

Lemma remove_one_inj r h k h' :
  (forall x, inj x ∉ k) -> remove_one r h = Some h' ->
  remove_one (inj r) (k ++ (inj <$> h)) = Some (k ++ (inj <$> h')).
Proof.
  intros Hk Hr. induction k as [|y k IH]; csimpl.
  - revert h' Hr. induction h as [|x h IH]; intros h'; csimpl; [done|].
    destruct (decide (r = x)) as [->|Hne].
    + intros [= <-]. by rewrite decide_True.
    + rewrite decide_False by (intros Heq; by apply Hne, inj_inj).
      destruct (remove_one r h) as [h1|]; csimpl; [|done]. intros [= <-].
      by rewrite (IH h1).
  - rewrite decide_False by (intros <-; apply (Hk r), list_elem_of_here).
    rewrite IH; [done|]. intros x Hx. by apply (Hk x), list_elem_of_further.
Qed.

(** A part that releases what it holds does so inside the whole. *)
Lemma replay_inj t h h' k :
  (forall x, inj x ∉ k) -> Forall (fun o => match o with Rel _ => True | Acq _ => False end) t ->
  replay t h = Some h' -> replay (inj_op <$> t) (k ++ (inj <$> h)) = Some (k ++ (inj <$> h')).
Proof.
  unfold replay. intros Hk Hf. revert h. induction Hf as [|[r|r] t Hr Hf IH]; intros h; csimpl.
  - by intros [= <-].
  - done.
  - destruct (remove_one r h) as [h1|] eqn:E; csimpl; [|done].
    rewrite (remove_one_inj _ _ k _ Hk E). simpl. apply IH.
Qed.

(** The same for a part that runs when nothing else is held. *)
Lemma replay_inj_alone t h h' :
  replay t h = Some h' -> replay (inj_op <$> t) (inj <$> h) = Some (inj <$> h').
Proof.
  unfold replay. revert h. induction t as [|[r|r] t IH]; intros h; csimpl.
  - by intros [= <-].
  - apply (IH (r :: h)).
  - destruct (remove_one r h) as [h1|] eqn:E; csimpl; [|done].
    pose proof (remove_one_inj _ _ [] _ (fun x => not_elem_of_nil (inj x)) E) as Hr.
    simpl in Hr. rewrite Hr. simpl. apply IH.
Qed.
End zoom.
