(* ===== verification/MievEvent.v ===== *)
(** * MievEvent: the event builder of miev/miev.c

    An event is a 2048-byte message buffer with a running length and a
    parameter count; [cdev_tevent_alloc] writes the head, [cdev_tevent_add_int]
    and [cdev_tevent_add_str] append one parameter each.  The abstract view of
    an event is its text; every append is specified on the text. *)

From S2P Require Import Prelude KText KMonad.

Definition MIEV_MAX_EVENT_SIZE : nat := 2048.
Definition MIEV_MAX_PARAM_NAME : nat := 64.
Definition MIEV_MAX_PARAM_STRING : nat := 512.
Definition MIEV_MAX_PARAMS : Z := 64.

(** [struct misight_mievent]; [msg = None] is a NULL pointer. *)
Record misight_mievent := Event {
  event_id : Z;
  para_cnt : Z;
  used_size : nat;
  msg : option bytes
}.

(** [a - b] on [size_t]. *)
Definition size_sub (a b : nat) : nat :=
  Z.to_nat (u64 (Z.of_nat a - Z.of_nat b)).

Definition event_head (id now : Z) : bytes :=
  bs "EventId " ++ fmt_u id ++ bs " -t " ++ fmt_d now ++ bs " -paraList {".

Inductive ev_res := REvent | RMsg.
#[global] Instance ev_res_eq_dec : EqDecision ev_res.
Proof. solve_decision. Defined.

(** [ev_ok] and [msg_ok] are the results of the two [kzalloc] calls, [now]
    that of [ktime_get_real_seconds]. *)
Definition cdev_tevent_alloc (ev_ok msg_ok : bool) (now : Z) (id : Z)
  : km unit ev_res (option misight_mievent) :=
  ok ← acquire_ptr ev_ok REvent;
  if negb ok then mret None else
  ok ← acquire_ptr msg_ok RMsg;
  if negb ok then _ ← release REvent; mret None else
  let '(ret, b) := scnprintf (replicate MIEV_MAX_EVENT_SIZE NUL) 0
                     MIEV_MAX_EVENT_SIZE (event_head id now) in
  if (ret <=? 0)%nat || (MIEV_MAX_EVENT_SIZE <=? ret)%nat then
    _ ← release RMsg; _ ← release REvent; mret None
  else
    mret (Some (Event (s32 id) 0 ret (Some b))).

(** [char *] arguments are buffers, [None] is NULL; [%s] prints the string
    before the terminator. *)
Definition int_param (first : bool) (key : bytes) (value : Z) : bytes :=
  (if first then [] else bs ",") ++ [DQ] ++ cstr key ++ [DQ] ++ bs ":" ++ fmt_d value.

Definition str_param (first : bool) (key value : bytes) : bytes :=
  (if first then [] else bs ",") ++ [DQ] ++ cstr key ++ [DQ] ++ bs ":"
    ++ [DQ] ++ cstr value ++ [DQ].

Definition cdev_tevent_add_int (event : option misight_mievent)
    (key : option bytes) (value : Z) : Z * option misight_mievent :=
  match event with
  | None => (- EINVAL, event)
  | Some e =>
    match msg e, key with
    | Some m, Some k =>
      if MIEV_MAX_PARAMS <=? para_cnt e then (- ENOSPC, event)
      else if (MIEV_MAX_PARAM_NAME <=? strlen k)%nat then (- EINVAL, event)
      else
        let room := size_sub MIEV_MAX_EVENT_SIZE (used_size e) in
        let '(ret, m') := scnprintf m (used_size e) room
                            (int_param (para_cnt e =? 0) k value) in
        if (ret <=? 0)%nat || (room <=? ret)%nat then
          (- ENOSPC, Some (Event (event_id e) (para_cnt e) (used_size e) (Some m')))
        else
          (0, Some (Event (event_id e) (para_cnt e + 1) (used_size e + ret) (Some m')))
    | _, _ => (- EINVAL, event)
    end
  end.

Definition cdev_tevent_add_str (event : option misight_mievent)
    (key value : option bytes) : Z * option misight_mievent :=
  match event with
  | None => (- EINVAL, event)
  | Some e =>
    match msg e, key, value with
    | Some m, Some k, Some v =>
      if MIEV_MAX_PARAMS <=? para_cnt e then (- ENOSPC, event)
      else if (MIEV_MAX_PARAM_NAME <=? strlen k)%nat
              || (MIEV_MAX_PARAM_STRING <=? strlen v)%nat then (- EINVAL, event)
      else
        let room := size_sub MIEV_MAX_EVENT_SIZE (used_size e) in
        let '(ret, m') := scnprintf m (used_size e) room
                            (str_param (para_cnt e =? 0) k v) in
        if (ret <=? 0)%nat || (room <=? ret)%nat then
          (- ENOSPC, Some (Event (event_id e) (para_cnt e) (used_size e) (Some m')))
        else
          (0, Some (Event (event_id e) (para_cnt e + 1) (used_size e + ret) (Some m')))
    | _, _, _ => (- EINVAL, event)
    end
  end.

(** The first half of [cdev_tevent_write]: closes the message. *)
Definition tevent_close (e : misight_mievent) (m : bytes) : Z * misight_mievent :=
  let room := size_sub MIEV_MAX_EVENT_SIZE (used_size e) in
  let '(ret, m') := scnprintf m (used_size e) room (bs "}" ++ [NL]) in
  if (ret <=? 0)%nat || (room <=? ret)%nat then
    (- ENOSPC, Event (event_id e) (para_cnt e) (used_size e) (Some m'))
  else (0, Event (event_id e) (para_cnt e) (used_size e + ret) (Some m')).

Definition cdev_tevent_destroy (event : option misight_mievent)
  : km unit ev_res unit :=
  match event with
  | None => mret ()
  | Some e =>
      _ ← (match msg e with Some _ => release RMsg | None => mret () end);
      release REvent
  end.

(** [get_integer_size]: the loop [while (value >= 10) { value /= 10; size++; }]
    with fuel; a [long] is divided at most 19 times. *)
Fixpoint integer_size_loop (fuel : nat) (value size : Z) : Z :=
  match fuel with
  | O => size
  | S f => if 10 <=? value then integer_size_loop f (value / 10) (size + 1) else size
  end.

Definition get_integer_size (value : Z) : Z :=
  if value <? 0 then integer_size_loop 20 (s64 (- value)) 2
  else integer_size_loop 20 value 1.

(** ** Abstract view: the text of the message and the parameter count *)

Definition EV_CAP : nat := 2047.

Record ev_abs := EvAbs { a_text : bytes; a_cnt : Z }.

Inductive param :=
| PInt (key : bytes) (value : Z)
| PStr (key value : bytes).

Definition add_param (e : option misight_mievent) (p : param)
  : Z * option misight_mievent :=
  match p with
  | PInt k v => cdev_tevent_add_int e (Some k) v
  | PStr k v => cdev_tevent_add_str e (Some k) (Some v)
  end.

Definition param_ok (p : param) : bool :=
  match p with
  | PInt k _ => (strlen k <? 64)%nat
  | PStr k v => (strlen k <? 64)%nat && (strlen v <? 512)%nat
  end.

Definition param_text (first : bool) (p : param) : bytes :=
  match p with
  | PInt k v => int_param first k v
  | PStr k v => str_param first k v
  end.

(** What an append promises: the guards in order, then the text is extended
    as far as the capacity allows. *)
Definition spec_add (a : ev_abs) (p : param) : Z * ev_abs :=
  if 64 <=? a_cnt a then (- ENOSPC, a)
  else if negb (param_ok p) then (- EINVAL, a)
  else if (EV_CAP <=? length (a_text a))%nat then (- ENOSPC, a)
  else (0, EvAbs (take EV_CAP (a_text a ++ param_text (a_cnt a =? 0) p)) (a_cnt a + 1)).

Definition ev_wf (e : misight_mievent) : Prop :=
  exists m, msg e = Some m /\ length m = 2048%nat /\ strlen m = used_size e /\
    (used_size e <= EV_CAP)%nat /\ 0 <= para_cnt e <= 64.

Definition ev_text (e : misight_mievent) : bytes :=
  match msg e with Some m => cstr m | None => [] end.

Definition ev_abs_of (e : misight_mievent) : ev_abs := EvAbs (ev_text e) (para_cnt e).

(** ** Lemmas *)

Lemma size_sub_le a b : (b <= a)%nat -> Z.of_nat a <= ULONG_MAX -> size_sub a b = (a - b)%nat.
Proof. intros. unfold size_sub. rewrite u64_id by klia. lia. Qed.

Lemma int_param_no_nul f k v : NUL ∉ int_param f k v.
Proof.
  unfold int_param. pose proof (cstr_no_nul k). pose proof (fmt_d_no_nul v).
  destruct f; rewrite !not_elem_of_app, ?list_elem_of_singleton;
    repeat split; auto; cbv; set_solver.
Qed.

Lemma str_param_no_nul f k v : NUL ∉ str_param f k v.
Proof.
  unfold str_param. pose proof (cstr_no_nul k). pose proof (cstr_no_nul v).
  destruct f; rewrite !not_elem_of_app, ?list_elem_of_singleton;
    repeat split; auto; cbv; set_solver.
Qed.

Lemma int_param_nonempty f k v : (0 < length (int_param f k v))%nat.
Proof. unfold int_param. rewrite !length_app. simpl. lia. Qed.

Lemma str_param_nonempty f k v : (0 < length (str_param f k v))%nat.
Proof. unfold str_param. rewrite !length_app. simpl. lia. Qed.

(** One call of [scnprintf] at the end of the message: the only failure is a
    full buffer; otherwise the text grows as far as the capacity allows. *)
Lemma append_step m used piece :
  length m = 2048%nat -> strlen m = used -> (used <= EV_CAP)%nat ->
  NUL ∉ piece -> (0 < length piece)%nat ->
  let room := size_sub MIEV_MAX_EVENT_SIZE used in
  let '(ret, m') := scnprintf m used room piece in
  ((ret <=? 0)%nat || (room <=? ret)%nat) = (EV_CAP <=? used)%nat /\
  length m' = 2048%nat /\ cstr m' = take EV_CAP (cstr m ++ piece) /\
  strlen m' = (used + ret)%nat /\ (used + ret <= EV_CAP)%nat.
Proof.
  intros Hm Hs Hu Hn Hp room. unfold EV_CAP in *.
  assert (room = 2048 - used)%nat as Hroom.
  { apply size_sub_le; unfold MIEV_MAX_EVENT_SIZE; [lia|klia]. }
  pose proof (scnprintf_append m used room piece) as H.
  destruct (scnprintf m used room piece) as [ret m'].
  destruct H as (Hret & Hc & Hl & _); [apply terminated_strlen| | | |done|]; try lia.
  assert (cstr m' = take 2047 (cstr m ++ piece)) as Hc'.
  { rewrite Hc, take_app. unfold strlen in Hs.
    rewrite (take_ge (cstr m)) by lia. do 2 f_equal. lia. }
  split; [lia|]. split; [lia|]. split; [done|]. unfold strlen in *.
  rewrite Hc', length_take, length_app. lia.
Qed.

Lemma ev_text_len e : ev_wf e -> length (ev_text e) = used_size e.
Proof. intros (m & Hm & _ & Hs & _). unfold ev_text. by rewrite Hm. Qed.

(** The common tail of the two append functions. *)
Lemma append_refines e m piece :
  ev_wf e -> msg e = Some m -> para_cnt e < 64 ->
  NUL ∉ piece -> (0 < length piece)%nat ->
  exists r e',
    (let room := size_sub MIEV_MAX_EVENT_SIZE (used_size e) in
     let '(ret, m') := scnprintf m (used_size e) room piece in
     if (ret <=? 0)%nat || (room <=? ret)%nat then
       (- ENOSPC, Some (Event (event_id e) (para_cnt e) (used_size e) (Some m')))
     else (0, Some (Event (event_id e) (para_cnt e + 1) (used_size e + ret) (Some m'))))
    = (r, Some e') /\ ev_wf e' /\
    (if (EV_CAP <=? length (ev_text e))%nat then (- ENOSPC, ev_abs_of e)
     else (0, EvAbs (take EV_CAP (ev_text e ++ piece)) (para_cnt e + 1)))
    = (r, ev_abs_of e').
Proof.
  intros Hwf Hm Hc Hn Hp. pose proof (ev_text_len e Hwf) as Htl.
  destruct Hwf as (m0 & Hm0 & Hl & Hs & Hu & Hc0).
  assert (m0 = m) as -> by congruence.
  assert (ev_text e = cstr m) as Htxt by (unfold ev_text; by rewrite Hm).
  pose proof (append_step m (used_size e) piece Hl Hs Hu Hn Hp) as Hst.
  cbv zeta in *. destruct (scnprintf _ _ _ _) as [ret m'].
  destruct Hst as (-> & Hl' & Hc' & Hs' & Hu'). rewrite Htl.
  destruct (EV_CAP <=? used_size e)%nat eqn:E; do 2 eexists; split_and!; [done| |
    |done| |].
  - exists m'. simpl. split_and!; [done|done| |lia|lia|lia]. unfold strlen in *.
    rewrite Hc', length_take, length_app. lia.
  - unfold ev_abs_of. simpl. do 2 f_equal. unfold ev_text at 2. simpl.
    rewrite Hc', Htxt, take_app_le, take_ge; [done| |]; unfold strlen in *; lia.
  - exists m'. simpl. split_and!; [done|done|lia|lia|lia|lia].
  - unfold ev_abs_of, ev_text at 2. simpl. by rewrite Hc', Htxt.
Qed.

(** ** The builder implements its specification *)

(** C7: each append call of the builder refines its specification on every
    branch: the returned error, the guards in their order, the text extended
    (or cut at 2047 characters) and the parameter count; and the event stays
    well formed (terminated buffer, length equal to [used_size]). *)
Theorem add_param_refines e p :
  ev_wf e ->
  exists r e', add_param (Some e) p = (r, Some e') /\ ev_wf e' /\
    spec_add (ev_abs_of e) p = (r, ev_abs_of e').
Proof.
  intros Hwf. pose proof Hwf as (m & Hm & _ & _ & _ & Hc).
  assert (forall r : Z, exists r' e', (r, Some e) = (r', Some e') /\ ev_wf e' /\
    (r, ev_abs_of e) = (r', ev_abs_of e')) as Hsame by eauto.
  unfold spec_add. change (a_cnt (ev_abs_of e)) with (para_cnt e).
  change (a_text (ev_abs_of e)) with (ev_text e).
  destruct p as [k v|k v]; cbn [add_param param_ok param_text];
    unfold cdev_tevent_add_int, cdev_tevent_add_str, MIEV_MAX_PARAMS,
      MIEV_MAX_PARAM_NAME, MIEV_MAX_PARAM_STRING; rewrite Hm;
    (destruct (64 <=? para_cnt e) eqn:E; [apply Hsame|]).
  - rewrite Nat.ltb_antisym, negb_involutive. case_match; [apply Hsame|].
    apply append_refines; auto using int_param_no_nul, int_param_nonempty. lia.
  - rewrite !Nat.ltb_antisym, negb_andb, !negb_involutive.
    case_match; [apply Hsame|].
    apply append_refines; auto using str_param_no_nul, str_param_nonempty. lia.
Qed.

(** ** Allocation *)

Lemma event_head_bounds id now :
  (0 < length (event_head id now) < 100)%nat.
Proof.
  unfold event_head. rewrite !length_app. simpl.
  pose proof (length_fmt_u id). pose proof (length_fmt_d now). lia.
Qed.

Lemma event_head_no_nul id now : 0 <= id -> NUL ∉ event_head id now.
Proof.
  intros. unfold event_head. pose proof (fmt_u_no_nul id). pose proof (fmt_d_no_nul now).
  rewrite !not_elem_of_app. repeat split; auto; cbv; set_solver.
Qed.

(** The state of an event right after a successful allocation. *)
Definition fresh_event (id now : Z) (e : misight_mievent) : Prop :=
  ev_wf e /\ ev_text e = event_head id now /\ para_cnt e = 0 /\ event_id e = s32 id.

Lemma alloc_msg_spec id now :
  in_u32 id ->
  exists ret b,
    scnprintf (replicate MIEV_MAX_EVENT_SIZE NUL) 0 MIEV_MAX_EVENT_SIZE
      (event_head id now) = (ret, b) /\
    (0 < ret < MIEV_MAX_EVENT_SIZE)%nat /\
    fresh_event id now (Event (s32 id) 0 ret (Some b)).
Proof.
  intros Hid. pose proof (event_head_bounds id now) as Hb.
  pose proof (event_head_no_nul id now ltac:(klia)) as Hn.
  assert (cstr (replicate MIEV_MAX_EVENT_SIZE NUL) = []) as Hz by reflexivity.
  pose proof (scnprintf_append (replicate MIEV_MAX_EVENT_SIZE NUL) 0
    MIEV_MAX_EVENT_SIZE (event_head id now)) as H.
  destruct (scnprintf _ _ _ _) as [ret b]. exists ret, b.
  destruct H as (Hr & Hc & Hl & _);
    [|by unfold strlen; rewrite Hz|by rewrite length_replicate|unfold MIEV_MAX_EVENT_SIZE; lia|done|].
  { apply terminated_strlen. unfold strlen. rewrite Hz, length_replicate.
    simpl. unfold MIEV_MAX_EVENT_SIZE. lia. }
  rewrite length_replicate in Hl.
  unfold MIEV_MAX_EVENT_SIZE in *. rewrite Hz, take_ge in Hc by lia.
  split; [done|]. split; [lia|]. unfold fresh_event, ev_text. simpl.
  change ([] ++ event_head id now) with (event_head id now) in Hc.
  split_and!; [|done|done|done]. exists b. unfold strlen, EV_CAP. simpl.
  rewrite Hl, Hc. split_and!; try done; lia.
Qed.

(** C19: [cdev_tevent_alloc] either returns a well-formed event that holds
    exactly the head of the message, owning its two allocations, or NULL with
    everything it allocated given back; and destroying what it returned always
    brings the ledger back to empty (no leak, no double free). *)
Theorem alloc_destroy_balanced ev_ok msg_ok now id :
  in_u32 id ->
  let '(r, _, ops) := cdev_tevent_alloc ev_ok msg_ok now id () in
  replay_lifo (ops ++ run_ops (cdev_tevent_destroy r) ()) [] = Some [] /\
  if ev_ok && msg_ok
  then (exists e, r = Some e /\ fresh_event id now e) /\
       replay_lifo ops [] = Some [RMsg; REvent]
  else r = None /\ replay_lifo ops [] = Some [].
Proof.
  intros Hid. destruct (alloc_msg_spec id now Hid) as (ret & b & Hs & Hr & Hf).
  unfold cdev_tevent_alloc. destruct ev_ok, msg_ok; try by split.
  km_run. rewrite Hs.
  replace ((ret <=? 0)%nat || (MIEV_MAX_EVENT_SIZE <=? ret)%nat) with false by lia.
  split; [reflexivity|]. split; [by eexists|reflexivity].
Qed.

(** ** Whole messages *)

Fixpoint add_params (e : option misight_mievent) (ps : list param)
  : list Z * option misight_mievent :=
  match ps with
  | [] => ([], e)
  | p :: ps' =>
      let '(r, e1) := add_param e p in
      let '(rs, e2) := add_params e1 ps' in
      (r :: rs, e2)
  end.

Fixpoint params_text (first : bool) (ps : list param) : bytes :=
  match ps with
  | [] => []
  | p :: ps' => param_text first p ++ params_text false ps'
  end.

Lemma param_text_nonempty f p : (0 < length (param_text f p))%nat.
Proof. destruct p; [apply int_param_nonempty|apply str_param_nonempty]. Qed.

Lemma spec_add_success a p :
  a_cnt a < 64 -> param_ok p = true -> (length (a_text a) < EV_CAP)%nat ->
  spec_add a p =
    (0, EvAbs (take EV_CAP (a_text a ++ param_text (a_cnt a =? 0) p)) (a_cnt a + 1)).
Proof.
  intros Hc Hp Hl. unfold spec_add. rewrite Hp.
  replace (64 <=? a_cnt a) with false by lia.
  by replace (EV_CAP <=? length (a_text a))%nat with false by lia.
Qed.

Lemma spec_add_full a p : length (a_text a) = EV_CAP -> (spec_add a p).1 <> 0.
Proof.
  intros Hl. unfold spec_add. rewrite Hl, Nat.leb_refl.
  destruct (64 <=? a_cnt a); [done|]. by destruct (param_ok p).
Qed.

(** The same through the builder. *)
Lemma add_param_success e p :
  ev_wf e -> para_cnt e < 64 -> param_ok p = true ->
  (length (ev_text e) < EV_CAP)%nat ->
  exists e', add_param (Some e) p = (0, Some e') /\ ev_wf e' /\
    para_cnt e' = para_cnt e + 1 /\
    ev_text e' = take EV_CAP (ev_text e ++ param_text (para_cnt e =? 0) p).
Proof.
  intros Hwf Hc Hp Hl.
  destruct (add_param_refines e p Hwf) as (r & e' & Hadd & Hwf' & Hspec).
  rewrite spec_add_success in Hspec by done. injection Hspec as <- Ht Hc1.
  exists e'. split_and!; auto.
Qed.

(** Any number of parameters that satisfy the limits of the interface and
    fit in the buffer are all accepted, and the message is then exactly the
    head followed by the comma-separated parameters in the order of the
    calls. *)
Theorem add_params_exact ps e :
  ev_wf e -> Forall (fun p => param_ok p = true) ps ->
  para_cnt e + Z.of_nat (length ps) <= 64 ->
  (length (ev_text e) + length (params_text (para_cnt e =? 0)%Z ps) <= EV_CAP)%nat ->
  exists e', add_params (Some e) ps = (replicate (length ps) 0, Some e') /\
    ev_wf e' /\ para_cnt e' = para_cnt e + Z.of_nat (length ps) /\
    ev_text e' = ev_text e ++ params_text (para_cnt e =? 0) ps.
Proof.
  revert e. induction ps as [|p ps IH]; intros e Hwf Hok Hcnt Hlen; simpl in *.
  { exists e. rewrite app_nil_r. split_and!; auto. lia. }
  apply Forall_cons in Hok as [Hp Hok]. rewrite length_app in Hlen.
  pose proof (param_text_nonempty (para_cnt e =? 0) p).
  destruct (add_param_success e p Hwf) as (e1 & -> & Hwf1 & Hc1 & Ht1);
    [lia|done|lia|].
  rewrite take_ge in Ht1 by (rewrite length_app; lia).
  pose proof Hwf as (_ & _ & _ & _ & _ & Hcnt0).
  assert ((para_cnt e1 =? 0) = false) as Hf by lia.
  destruct (IH e1 Hwf1 Hok) as (e' & -> & Hwf' & Hcnt' & Ht');
    rewrite ?Hf, ?Ht1, ?length_app; [lia|lia|].
  exists e'. rewrite Ht', Hf, Hcnt', Ht1, Hc1, app_assoc.
  split_and!; auto. lia.
Qed.

(** The builder does not notice truncation.  While at least one character
    is free, an append that satisfies the limits reports success (0) and
    counts the parameter however long the text is; if it does not fit, the
    message is cut in the middle of the parameter, and every later append or
    the closing of the message fails with ENOSPC. *)
Theorem add_param_truncates e p :
  ev_wf e -> param_ok p = true -> para_cnt e < 64 ->
  (length (ev_text e) < EV_CAP)%nat ->
  (EV_CAP < length (ev_text e) + length (param_text (para_cnt e =? 0)%Z p))%nat ->
  exists e', add_param (Some e) p = (0, Some e') /\
    para_cnt e' = para_cnt e + 1 /\
    ev_text e' = take EV_CAP (ev_text e ++ param_text (para_cnt e =? 0) p) /\
    ev_text e' <> ev_text e ++ param_text (para_cnt e =? 0) p /\
    (forall q, (add_param (Some e') q).1 <> 0) /\
    (forall m, msg e' = Some m -> (tevent_close e' m).1 = - ENOSPC).
Proof.
  intros Hwf Hp Hc Hlt Hlong.
  destruct (add_param_success e p Hwf Hc Hp Hlt) as (e' & Hadd & Hwf' & Hc1 & Ht1).
  exists e'.
  assert (length (ev_text e') = EV_CAP) as Hfull
    by (rewrite Ht1, length_take, length_app; lia).
  split_and!; [done|done|done| | |].
  - rewrite Ht1. intros H. apply (f_equal length) in H. rewrite length_take, length_app in H. lia.
  - intros q. destruct (add_param_refines e' q Hwf') as (r & e2 & -> & _ & Hspec).
    pose proof (spec_add_full (ev_abs_of e') q Hfull) as Hr. by rewrite Hspec in Hr.
  - intros m Hm. unfold tevent_close. rewrite (ev_text_len e' Hwf') in Hfull.
    destruct Hwf' as (m' & Hm' & Hl & Hs & Hu & _). assert (m' = m) as -> by congruence.
    pose proof (append_step m (used_size e') (bs "}" ++ [NL]) Hl Hs Hu) as Hst.
    cbv zeta in Hst. destruct (scnprintf _ _ _ _) as [ret b].
    destruct Hst as (-> & _); [cbv; set_solver|simpl; lia|].
    by rewrite Hfull, Nat.leb_refl.
Qed.

(** ** [get_integer_size] *)

Lemma integer_size_loop_digits f n size :
  0 <= n < 10 ^ Z.of_nat (S f) ->
  integer_size_loop f n size = size + Z.of_nat (length (digits 10 (S f) n)) - 1.
Proof.
  revert n size. induction f as [|f IH]; intros n size Hn.
  - simpl in *. replace (n <? 10) with true by lia. simpl. lia.
  - cbn [integer_size_loop]. remember (S f) as f1. cbn [digits].
    rewrite Z.ltb_antisym. destruct (10 <=? n) eqn:E; simpl.
    + rewrite length_app. simpl. subst f1. rewrite IH; [lia|].
      rewrite Nat2Z.inj_succ, Z.pow_succ_r in Hn by lia.
      split; [apply Z.div_pos; lia|apply Z.div_lt_upper_bound; lia].
    + lia.
Qed.

Lemma digits_fuel f g n :
  0 <= n < 10 ^ Z.of_nat f -> (0 < f)%nat -> (f <= g)%nat ->
  digits 10 g n = digits 10 f n.
Proof.
  revert g n. induction f as [|f IH]; intros g n Hn Hf Hg; [lia|].
  destruct g as [|g]; [lia|]. cbn [digits]. destruct (n <? 10) eqn:E; [done|].
  rewrite IH; [done| |destruct f; [simpl in Hn; lia|lia]|lia].
  rewrite Nat2Z.inj_succ, Z.pow_succ_r in Hn by lia.
  split; [apply Z.div_pos; lia|apply Z.div_lt_upper_bound; lia].
Qed.

Lemma integer_size_loop_fmt n size :
  0 <= n <= LONG_MAX ->
  integer_size_loop 20 n size = size + Z.of_nat (length (fmt_u n)) - 1.
Proof.
  intros Hn. rewrite integer_size_loop_digits.
  - unfold fmt_u. by rewrite (digits_fuel 20 21) by (lia || (simpl; klia)).
  - simpl. klia.
Qed.

(** [get_integer_size] is the number of characters [%ld] prints for every
    [long] except [LONG_MIN], whose negation overflows and for which it
    answers 2 instead of 20. *)
Theorem get_integer_size_correct v :
  in_s64 v ->
  get_integer_size v =
    if decide (v = LONG_MIN) then 2 else Z.of_nat (length (fmt_d v)).
Proof.
  intros Hv. unfold get_integer_size, fmt_d.
  destruct (decide (v = LONG_MIN)) as [->|Hne]; [reflexivity|].
  destruct (v <? 0) eqn:E.
  - rewrite s64_id by klia. rewrite integer_size_loop_fmt by klia. simpl. lia.
  - rewrite integer_size_loop_fmt by klia. lia.
Qed.

(** ** Concrete inputs *)

(** An event whose text is one character, and one with five characters left. *)
Definition event_x : misight_mievent :=
  Event 1 0 1 (Some ("x"%char :: replicate 2047 NUL)).
Definition event_tight : misight_mievent :=
  Event 1 0 2042 (Some (replicate 2042 "x"%char ++ replicate 6 NUL)).

Lemma event_x_wf : ev_wf event_x.
Proof.
  eexists. split; [reflexivity|]. unfold EV_CAP.
  split_and!; [vm_compute; reflexivity..|simpl; lia|simpl; lia|simpl; lia].
Qed.

Lemma event_tight_wf : ev_wf event_tight.
Proof.
  eexists. split; [reflexivity|]. unfold EV_CAP.
  split_and!; [vm_compute; reflexivity..|simpl; lia|simpl; lia|simpl; lia].
Qed.

Lemma add_param_refines_witness :
  exists r e', add_param (Some event_x) (PStr (bs "k") (bs "v")) = (r, Some e') /\
    ev_wf e' /\
    spec_add (ev_abs_of event_x) (PStr (bs "k") (bs "v")) = (r, ev_abs_of e').
Proof. exact (add_param_refines event_x (PStr (bs "k") (bs "v")) event_x_wf). Defined.

Lemma alloc_destroy_balanced_witness :
  let '(r, _, ops) := cdev_tevent_alloc true false 1700000000 7 () in
  replay_lifo (ops ++ run_ops (cdev_tevent_destroy r) ()) [] = Some [] /\
  r = None /\ replay_lifo ops [] = Some [].
Proof. apply (alloc_destroy_balanced true false 1700000000 7). klia. Defined.

Lemma add_params_exact_witness :
  exists e', add_params (Some event_x) [PInt (bs "a") (-5); PStr (bs "b") (bs "c")]
      = ([0; 0], Some e') /\ ev_wf e' /\ para_cnt e' = 2 /\
    ev_text e' = ev_text event_x ++ params_text true [PInt (bs "a") (-5); PStr (bs "b") (bs "c")].
Proof.
  apply (add_params_exact [PInt (bs "a") (-5); PStr (bs "b") (bs "c")] event_x event_x_wf).
  - by repeat constructor.
  - simpl. lia.
  - apply Nat.leb_le. vm_compute. reflexivity.
Defined.

Lemma add_param_truncates_witness :
  let p := PInt (bs "key") 12345 in
  exists e', add_param (Some event_tight) p = (0, Some e') /\ para_cnt e' = 1 /\
    ev_text e' = take EV_CAP (ev_text event_tight ++ param_text true p) /\
    ev_text e' <> ev_text event_tight ++ param_text true p /\
    (forall q, (add_param (Some e') q).1 <> 0) /\
    (forall m, msg e' = Some m -> (tevent_close e' m).1 = - ENOSPC).
Proof.
  apply (add_param_truncates event_tight (PInt (bs "key") 12345) event_tight_wf).
  - reflexivity.
  - simpl. lia.
  - apply Nat.ltb_lt. vm_compute. reflexivity.
  - apply Nat.ltb_lt. vm_compute. reflexivity.
Defined.

Lemma get_integer_size_correct_witness : get_integer_size (-1234) = 5.
Proof. rewrite (get_integer_size_correct (-1234)); [reflexivity|klia]. Defined.
