(* ===== verification/Fifo.v ===== *)
(** * Fifo: the byte FIFO of linux/kfifo.h

    The kernel's kfifo is code outside the repository: the class [KFifo] states
    its documented behaviour, and [KFifoRef] is an executable instance. *)

From S2P Require Import Prelude KText.

(** ** The kfifo interface (linux/kfifo.h)

    [kfifo_in f b] copies as much of [b] as fits and returns the number of
    bytes copied.  [kfifo_to_user f n u] moves at most [n] bytes to a user
    buffer of which [u] bytes are writable; it returns 0 and the bytes copied,
    or an error, in which case at most [n] bytes have been consumed. *)
Class KFifo := {
  kfifo : Type;
  fifo_data : kfifo -> bytes;
  fifo_cap : kfifo -> nat;
  kfifo_new : nat -> kfifo;
  kfifo_in : kfifo -> bytes -> nat * kfifo;
  kfifo_to_user : kfifo -> nat -> nat -> Z * bytes * kfifo;

  kfifo_new_spec k : fifo_data (kfifo_new (2 ^ k)) = [] /\
    fifo_cap (kfifo_new (2 ^ k)) = (2 ^ k)%nat;
  kfifo_in_spec f b n f' : kfifo_in f b = (n, f') ->
    n = Nat.min (length b) (fifo_cap f - length (fifo_data f)) /\
    fifo_data f' = fifo_data f ++ take n b /\ fifo_cap f' = fifo_cap f;
  kfifo_to_user_ok f n u b f' : kfifo_to_user f n u = (0, b, f') ->
    b = take n (fifo_data f) /\ fifo_data f' = drop n (fifo_data f) /\
    fifo_cap f' = fifo_cap f;
  kfifo_to_user_err f n u r b f' : kfifo_to_user f n u = (r, b, f') -> r <> 0 ->
    r < 0 /\ fifo_cap f' = fifo_cap f /\
    exists k, (k <= n)%nat /\ fifo_data f' = drop k (fifo_data f);
  kfifo_to_user_nofault f n u : (n <= u)%nat -> (kfifo_to_user f n u).1.1 = 0
}.

(** ** An executable instance: the capacity and the queued bytes *)

Definition ref_in (f : nat * bytes) (b : bytes) : nat * (nat * bytes) :=
  let n := Nat.min (length b) (f.1 - length f.2) in
  (n, (f.1, f.2 ++ take n b)).

Definition ref_to_user (f : nat * bytes) (n u : nat) : Z * bytes * (nat * bytes) :=
  if (Nat.min n (length f.2) <=? u)%nat
  then (0, take n f.2, (f.1, drop n f.2))
  else (- EFAULT, [], (f.1, drop u f.2)).

Definition KFifoRef : KFifo.
Proof.
  refine {| kfifo := nat * bytes; fifo_data := snd; fifo_cap := fst;
            kfifo_new := fun n => (n, []);
            kfifo_in := ref_in; kfifo_to_user := ref_to_user |}.
  - done.
  - unfold ref_in. intros f b n f' [= <- <-]. simpl. done.
  - unfold ref_to_user. intros f n u b f' H. by case_match; simplify_eq/=.
  - unfold ref_to_user. intros f n u r b f' H Hr. case_match; simplify_eq/=.
    split; [unfold EFAULT; lia|]. split; [done|]. exists u. split; [lia|done].
  - unfold ref_to_user. intros f n u Hnu.
    replace (_ <=? _)%nat with true by lia. done.
Defined.
