(* ===== verification/MievDev.v ===== *)
(** * MievDev: the character device of miev/miev.c

    The device is a FIFO of bytes (the interface [KFifo]) behind a mutex and a
    wait queue.  Readers and writers are threads of a transition system whose
    steps are the critical sections and the checks made outside them. *)

From S2P Require Import Prelude KText KMonad Fifo MievEvent.

Definition MIEV_FIFO_SIZE : nat := N.to_nat (128 * 1024).

Section device.
Context `{KFifo}.

(** The part of [struct miev_device] the operations use; [wakeups] counts
    the calls of [wake_up_interruptible]. *)
Record miev_device := MievDevice { fifo : kfifo; wakeups : nat }.

Definition write_buf_inner (miev_dev : option miev_device) (buf : option bytes)
    (len : nat) : Z * option miev_device :=
  match miev_dev, buf with
  | Some d, Some b =>
      if (len =? 0)%nat then (- EINVAL, miev_dev)
      else
        let '(n, f') := kfifo_in (fifo d) (take len b) in
        let ret := s32 (Z.of_nat n) in
        if negb (u64 ret =? Z.of_nat len) then
          (- ENOSPC, Some (MievDevice f' (wakeups d)))
        else (0, Some (MievDevice f' (S (wakeups d))))
  | _, _ => (- EINVAL, miev_dev)
  end.

Definition cdev_tevent_write (miev_dev : option miev_device)
    (event : option misight_mievent)
  : Z * option misight_mievent * option miev_device :=
  match event with
  | None => (- EINVAL, event, miev_dev)
  | Some e =>
      match msg e with
      | None => (- EINVAL, event, miev_dev)
      | Some m =>
          let '(ret, e') := tevent_close e m in
          if negb (ret =? 0) then (ret, Some e', miev_dev)
          else
            let '(r, dev') := write_buf_inner miev_dev (msg e') (used_size e') in
            (r, Some e', dev')
      end
  end.

(** [miev_write]: [kbuf_ok] is the result of [kzalloc]; [left] what
    [copy_from_user] could not copy of the [count] bytes [ubuf]. *)
Definition miev_write (miev_dev : option miev_device) (ubuf : bytes)
    (count : nat) (kbuf_ok : bool) (left : nat) : Z * option miev_device :=
  if (count =? 0)%nat then (0, miev_dev)
  else if (MIEV_MAX_EVENT_SIZE <? count)%nat then (- EINVAL, miev_dev)
  else if negb kbuf_ok then (- ENOMEM, miev_dev)
  else if negb (left =? 0)%nat then (- EFAULT, miev_dev)
  else
    let kbuf := take count ubuf ++ [NUL] in
    let '(ret, dev') := write_buf_inner miev_dev (Some kbuf) count in
    (if negb (ret =? 0) then ret else Z.of_nat count, dev').

(** [miev_read] up to the lock: an error, a wait, or go on. *)
Inductive read_next := ReadErr (e : Z) | ReadWait | ReadGo.

Definition miev_read_check (miev_dev : option miev_device) (nonblock : bool)
  : read_next :=
  match miev_dev with
  | None => ReadErr (- ENODEV)
  | Some d =>
      if bool_decide (fifo_data (fifo d) = []) then
        if nonblock then ReadErr (- EAGAIN) else ReadWait
      else ReadGo
  end.

(** [miev_read] from the lock on: result, bytes delivered, device. *)
Definition miev_read_take (d : miev_device) (count writable : nat)
  : Z * bytes * miev_device :=
  let '(ret, b, f') := kfifo_to_user (fifo d) count writable in
  let d' := MievDevice f' (wakeups d) in
  if negb (ret =? 0) then (ret, [], d') else (Z.of_nat (length b), b, d').

Definition EPOLLIN : Z := 1.
Definition EPOLLERR : Z := 8.
Definition EPOLLRDNORM : Z := 64.

Definition miev_poll (miev_dev : option miev_device) : Z :=
  match miev_dev with
  | None => EPOLLERR
  | Some d =>
      if negb (bool_decide (fifo_data (fifo d) = []))
      then Z.lor 0 (Z.lor EPOLLIN EPOLLRDNORM) else 0
  end.

Definition miev_ioctl : Z := - ENOTTY.
End device.

#[global] Arguments write_buf_inner : simpl never.

(** ** Module lifecycle *)

Inductive miev_res := RDev | RChrdev | RCdev | RFifo | RClass | RDevice | RWq | RModule.
#[global] Instance miev_res_eq_dec : EqDecision miev_res.
Proof. solve_decision. Defined.

(** The two pointers of the module that [NULL] checks read. *)
Record miev_globals := MievGlobals { miev_dev_set : bool; miev_workqueue_set : bool }.

(** Results of the kernel calls of [miev_init_module], in order. *)
Record miev_env := MievEnv {
  e_kzalloc : bool; e_chrdev : Z; e_cdev_add : Z; e_kfifo : Z;
  e_class : Z; e_device : Z; e_workqueue : bool
}.

Definition set_dev (b : bool) (g : miev_globals) : miev_globals :=
  MievGlobals b (miev_workqueue_set g).
Definition set_wq (b : bool) (g : miev_globals) : miev_globals :=
  MievGlobals (miev_dev_set g) b.

Section init.
Local Abbreviation M := (km miev_globals miev_res).

Definition err_free_dev (ret : Z) : M Z :=
  _ ← release RDev; _ ← modify (set_dev false); mret ret.
Definition err_unregister_chrdev (ret : Z) : M Z :=
  _ ← release RChrdev; err_free_dev ret.
Definition err_cdev_del (ret : Z) : M Z :=
  _ ← release RCdev; err_unregister_chrdev ret.
Definition err_fifo_free (ret : Z) : M Z :=
  _ ← release RFifo; err_cdev_del ret.
Definition err_class_destroy (ret : Z) : M Z :=
  _ ← release RClass; err_fifo_free ret.
Definition err_device_destroy (ret : Z) : M Z :=
  _ ← release RDevice; err_class_destroy ret.

Definition miev_init_module (env : miev_env) : M Z :=
  ok ← acquire_ptr (e_kzalloc env) RDev;
  _ ← modify (set_dev ok);
  if negb ok then mret (- ENOMEM) else
  ret ← acquire_ret (e_chrdev env) RChrdev;
  if negb (ret =? 0) then err_free_dev ret else
  ret ← acquire_ret (e_cdev_add env) RCdev;
  if negb (ret =? 0) then err_unregister_chrdev ret else
  ret ← acquire_ret (e_kfifo env) RFifo;
  if negb (ret =? 0) then err_cdev_del ret else
  ret ← acquire_ret (e_class env) RClass;
  if negb (ret =? 0) then err_fifo_free ret else
  ret ← acquire_ret (e_device env) RDevice;
  if negb (ret =? 0) then err_class_destroy ret else
  ok ← acquire_ptr (e_workqueue env) RWq;
  _ ← modify (set_wq ok);
  if negb ok then err_device_destroy (- ENOMEM) else
  mret 0.

Definition miev_cleanup_module : M unit :=
  wq ← gets miev_workqueue_set;
  _ ← (if (wq : bool) then (_ ← release RWq; modify (set_wq false)) else mret () : M unit);
  dev ← gets miev_dev_set;
  if negb dev then mret () else
  _ ← release RDevice;
  _ ← release RClass;
  _ ← release RFifo;
  _ ← release RCdev;
  _ ← release RChrdev;
  _ ← release RDev;
  modify (set_dev false).

Definition miev_open (module_ok : bool) : M Z :=
  ok ← acquire_ptr module_ok RModule;
  if negb ok then mret (- ENODEV) else mret 0.

Definition miev_release : M Z := _ ← release RModule; mret 0.
End init.

(** ** Lemmas on the device operations *)

Lemma miev_fifo_size_pow : MIEV_FIFO_SIZE = (2 ^ 17)%nat.
Proof.
  unfold MIEV_FIFO_SIZE. change (128 * 1024)%N with (2 ^ 17)%N.
  by rewrite N2Nat.inj_pow.
Qed.

Lemma fifo_size_int n : (n <= MIEV_FIFO_SIZE)%nat -> Z.of_nat n <= 131072.
Proof. unfold MIEV_FIFO_SIZE. intros. lia. Qed.

Lemma fifo_size_Z : Z.of_nat MIEV_FIFO_SIZE = 131072.
Proof. unfold MIEV_FIFO_SIZE. lia. Qed.

#[global] Opaque MIEV_FIFO_SIZE.
#[local] Opaque event_head.

Section device_lemmas.
Context `{KFifo}.

(** The FIFO never holds more than its capacity, which is far below the
    range of [int]. *)
Definition dev_wf (d : miev_device) : Prop :=
  (length (fifo_data (fifo d)) <= fifo_cap (fifo d))%nat /\
  fifo_cap (fifo d) = MIEV_FIFO_SIZE.

Definition dev_data (d : miev_device) : bytes := fifo_data (fifo d).
Definition dev_free (d : miev_device) : nat := (MIEV_FIFO_SIZE - length (dev_data d))%nat.

(** [write_buf_inner] on a live device, on every branch. *)
Lemma write_buf_inner_spec d b len :
  dev_wf d -> (len <= length b)%nat -> (len <> 0)%nat ->
  exists d', write_buf_inner (Some d) (Some b) len =
      (if (len <=? dev_free d)%nat then 0 else - ENOSPC, Some d') /\
    dev_wf d' /\ dev_data d' = dev_data d ++ take (Nat.min len (dev_free d)) b /\
    wakeups d' = if (len <=? dev_free d)%nat then S (wakeups d) else wakeups d.
Proof.
  intros [Hle Hcap] Hb Hlen. unfold write_buf_inner.
  replace (len =? 0)%nat with false by lia.
  destruct (kfifo_in (fifo d) (take len b)) as [n f'] eqn:E.
  apply kfifo_in_spec in E as (Hn & Hd & Hc).
  rewrite length_take, Hcap, (Nat.min_l len (length b)) in Hn by lia. fold (dev_data d) in *.
  fold (dev_free d) in Hn. rewrite take_take in Hd.
  assert (n <= MIEV_FIFO_SIZE)%nat as Hs by (unfold dev_free in Hn; lia).
  apply fifo_size_int in Hs. rewrite s32_id, u64_id by klia.
  assert (dev_wf (MievDevice f' (wakeups d)) /\ dev_wf (MievDevice f' (S (wakeups d)))
    /\ fifo_data f' = dev_data d ++ take (Nat.min len (dev_free d)) b)
    as (Hw1 & Hw2 & Hdata).
  { rewrite Hd. replace (Nat.min n len) with (Nat.min len (dev_free d)) by lia.
    unfold dev_wf. simpl. rewrite Hc, Hd, length_app, length_take, Hcap.
    unfold dev_free in *. fold (dev_data d) in Hle. rewrite Hcap in Hle.
    split_and!; try done; lia. }
  destruct (len <=? dev_free d)%nat eqn:El.
  - replace (Z.of_nat n =? Z.of_nat len) with true by lia. simpl. eauto.
  - replace (Z.of_nat n =? Z.of_nat len) with false by lia. simpl. eauto.
Qed.

Lemma miev_read_take_spec d count w :
  dev_wf d ->
  exists r b d', miev_read_take d count w = (r, b, d') /\ dev_wf d' /\
    (exists k, (k <= count)%nat /\ dev_data d' = drop k (dev_data d)) /\
    (0 <= r -> b = take count (dev_data d) /\ r = Z.of_nat (length b) /\
      dev_data d = b ++ dev_data d') /\
    (r < 0 -> b = []) /\ ((count <= w)%nat -> 0 <= r).
Proof.
  intros [Hle Hcap]. unfold miev_read_take.
  destruct (kfifo_to_user (fifo d) count w) as [[ret b] f'] eqn:E.
  destruct (decide (ret = 0)) as [->|Hne]; simpl.
  - pose proof (kfifo_to_user_ok _ _ _ _ _ E) as (-> & Hd & Hc).
    do 3 eexists. split; [done|]. unfold dev_wf, dev_data. simpl.
    rewrite Hc, Hd, length_drop. split_and!; try lia; eauto.
    intros _. split_and!; auto. by rewrite take_drop.
  - pose proof (kfifo_to_user_err _ _ _ _ _ _ E Hne) as (Hr & Hc & k & Hk & Hd).
    replace (ret =? 0) with false by lia. simpl.
    do 3 eexists. split; [done|]. unfold dev_wf, dev_data. simpl.
    rewrite Hc, Hd, length_drop. split_and!; try lia; eauto.
    intros Hcw. pose proof (kfifo_to_user_nofault (fifo d) count w Hcw) as Hnf.
    rewrite E in Hnf. simpl in Hnf. lia.
Qed.
End device_lemmas.

(** ** Properties of single operations *)

Section device_properties.
Context `{KFifo}.

(** The message [cdev_tevent_write] queues for a well-formed event. *)
Definition closed_text (e : misight_mievent) : bytes :=
  take EV_CAP (ev_text e ++ bs "}" ++ [NL]).

Lemma tevent_close_spec e m :
  ev_wf e -> msg e = Some m ->
  exists r e' m', tevent_close e m = (r, e') /\ msg e' = Some m' /\ ev_wf e' /\
    (used_size e' <= length m')%nat /\ take (used_size e') m' = closed_text e /\
    r = if (EV_CAP <=? used_size e)%nat then - ENOSPC else 0.
Proof.
  intros Hwf Hm. pose proof (ev_text_len e Hwf) as Htl.
  destruct Hwf as (m0 & Hm0 & Hl & Hs & Hu & Hc). assert (m0 = m) as -> by congruence.
  pose proof (append_step m (used_size e) (bs "}" ++ [NL]) Hl Hs Hu) as Hst.
  unfold tevent_close. cbv zeta in *. destruct (scnprintf _ _ _ _) as [ret m'].
  destruct Hst as (-> & Hl' & Hc' & Hs' & Hu'); [cbv; set_solver|simpl; lia|].
  assert (cstr m' = closed_text e) as Ht.
  { rewrite Hc'. unfold closed_text, ev_text. by rewrite Hm. }
  assert (take (strlen m') m' = closed_text e) as Htake.
  { rewrite <- Ht. unfold strlen. destruct (cstr_split m') as [r Hr].
    { apply terminated_strlen. unfold EV_CAP in Hu'. lia. }
    rewrite Hr at 2. by rewrite take_app_length. }
  unfold EV_CAP in *. destruct (2047 <=? used_size e)%nat eqn:E; do 3 eexists;
    (split; [done|]); (split; [done|]); simpl.
  - assert (strlen m' = used_size e) as Hse.
    { unfold strlen in *. rewrite Hc', length_take, length_app. lia. }
    split_and!; [exists m'; simpl; unfold EV_CAP; split_and!; try done; lia|lia| |done].
    by rewrite <- Hse.
  - split_and!; [exists m'; simpl; unfold EV_CAP; split_and!; try done; lia|lia| |done].
    by rewrite <- Hs'.
Qed.

(** C22: [cdev_tevent_write] on a well-formed event and a live device.  A full
    event is refused.  Otherwise the closed message is appended to the FIFO:
    entirely, with one wake-up and result 0, when it fits; when it does not,
    the result is ENOSPC but the part that fits stays queued and no reader
    is woken. *)
Theorem tevent_write_spec e d :
  ev_wf e -> dev_wf d ->
  exists r e' d', cdev_tevent_write (Some d) (Some e) = (r, Some e', Some d') /\
    dev_wf d' /\ ev_wf e' /\
    if (EV_CAP <=? used_size e)%nat then r = - ENOSPC /\ d' = d
    else
      let fits := (length (closed_text e) <=? dev_free d)%nat in
      r = (if fits then 0 else - ENOSPC) /\
      dev_data d' = dev_data d ++ take (dev_free d) (closed_text e) /\
      wakeups d' = if fits then S (wakeups d) else wakeups d.
Proof.
  intros Hwf Hd. pose proof Hwf as (m & Hm & _).
  destruct (tevent_close_spec e m Hwf Hm) as (r & e' & m' & Hcl & Hm' & Hwf' & Hu & Ht & Hr).
  unfold cdev_tevent_write. rewrite Hm, Hcl.
  destruct (EV_CAP <=? used_size e)%nat eqn:E; subst r; simpl.
  { eauto 8. }
  rewrite Hm'.
  assert (length (closed_text e) = used_size e') as Hlen
    by (rewrite <- Ht, length_take; lia).
  assert (used_size e' <> 0)%nat as Hnz.
  { rewrite <- Hlen. unfold closed_text. rewrite length_take, length_app.
    change (length (bs "}" ++ [NL])) with 2%nat. unfold EV_CAP. lia. }
  destruct (write_buf_inner_spec d m' (used_size e') Hd Hu Hnz)
    as (d' & -> & Hd' & Hdata & Hw).
  rewrite Hlen. do 3 eexists. split; [done|]. split_and!; [done..| |done].
  rewrite Hdata. f_equal. rewrite <- Ht, take_take. f_equal. lia.
Qed.

(** C27: from allocation to the FIFO: an event built from parameters that
    satisfy the limits and fit is queued as head, parameters in call order
    and closing brace, contiguously behind the data already there. *)
Theorem event_pipeline id now ps d :
  in_u32 id -> dev_wf d -> Forall (fun p => param_ok p = true) ps ->
  (length ps <= 64)%nat ->
  let text := event_head id now ++ params_text true ps ++ bs "}" ++ [NL] in
  (length text <= EV_CAP)%nat -> (length text <= dev_free d)%nat ->
  exists e es d',
    run_ret (cdev_tevent_alloc true true now id) () = Some e /\
    add_params (Some e) ps = (replicate (length ps) 0, Some es) /\
    (cdev_tevent_write (Some d) (Some es)).1.1 = 0 /\
    (cdev_tevent_write (Some d) (Some es)).2 = Some d' /\
    dev_data d' = dev_data d ++ text /\ wakeups d' = S (wakeups d).
Proof.
  intros Hid Hd Hok Hn text Htxt Hfree.
  pose proof (alloc_destroy_balanced true true now id Hid) as Ha.
  unfold run_ret. destruct (cdev_tevent_alloc _ _ _ _ _) as [[r s] ops].
  simpl in Ha. destruct Ha as [_ [(e & -> & Hf) _]].
  destruct Hf as (Hwf & Ht0 & Hc0 & _). subst text.
  rewrite !length_app in Htxt. simpl in Htxt.
  destruct (add_params_exact ps e Hwf Hok) as (es & Hadd & Hwfs & _ & Hts);
    rewrite ?Hc0, ?Ht0; [lia|simpl; lia|].
  rewrite Hc0, Ht0 in Hts. simpl in Hts.
  destruct (tevent_write_spec es d Hwfs Hd) as (r & e' & d' & Hw & _ & _ & Hspec).
  pose proof (ev_text_len es Hwfs) as Hlen. rewrite Hts, length_app in Hlen.
  replace (EV_CAP <=? used_size es)%nat with false in Hspec by lia.
  assert (closed_text es = event_head id now ++ params_text true ps ++ bs "}" ++ [NL])
    as Hct.
  { unfold closed_text. rewrite Hts, take_ge, <- app_assoc; [done|].
    rewrite !length_app. simpl. lia. }
  rewrite Hct in Hspec. cbv zeta in Hspec.
  replace (_ <=? _)%nat with true in Hspec by lia.
  destruct Hspec as (-> & Hdata & Hwk). exists e, es, d'. rewrite Hw.
  split_and!; auto. by rewrite Hdata, take_ge by lia.
Qed.

(** [miev_poll] reports input exactly when a read would not have to
    wait, and reports an error exactly when there is no device. *)
Theorem poll_read_agree dev :
  (miev_poll dev = Z.lor EPOLLIN EPOLLRDNORM <-> miev_read_check dev false = ReadGo) /\
  (miev_poll dev = EPOLLERR <-> forall nb, miev_read_check dev nb = ReadErr (- ENODEV)) /\
  (miev_poll dev = 0 <-> miev_read_check dev true = ReadErr (- EAGAIN)).
Proof.
  unfold miev_poll, miev_read_check. destruct dev as [d|].
  - destruct (bool_decide (fifo_data (fifo d) = [])); simpl;
      (split; [done|]); (split; [|done]); split; intros Hx; try discriminate;
      by specialize (Hx false).
  - split; [done|]. split; [done|]. done.
Qed.
End device_properties.

(** ** Concurrent readers and writers

    A step is one critical section of the device mutex or the check a reader
    makes before it takes the mutex.  [wlog] and [rlog] record the finished
    writes (result, bytes offered) and reads (thread, count, result, bytes)
    in the order of their critical sections. *)

Section concurrency.
Context `{KFifo}.

Inductive reader_pc := RWaiting (count : nat) | RChecked (count : nat).

Record dev_sys := DevSys {
  s_dev : miev_device;
  s_thr : gmap nat reader_pc;
  wlog : list (Z * bytes);
  rlog : list (nat * nat * Z * bytes)
}.

Definition sys_init (s : dev_sys) : Prop :=
  s = DevSys (MievDevice (kfifo_new MIEV_FIFO_SIZE) 0) ∅ [] [].

Inductive dev_step : dev_sys -> dev_sys -> Prop :=
| step_write d thr wl rl b len r d' :
    (len <= length b)%nat ->
    write_buf_inner (Some d) (Some b) len = (r, Some d') ->
    dev_step (DevSys d thr wl rl) (DevSys d' thr (wl ++ [(r, take len b)]) rl)
| step_read_enter d thr wl rl tid count nonblock :
    thr !! tid = None ->
    miev_read_check (Some d) nonblock = ReadGo ->
    dev_step (DevSys d thr wl rl) (DevSys d (<[tid := RChecked count]> thr) wl rl)
| step_read_wait d thr wl rl tid count :
    thr !! tid = None ->
    miev_read_check (Some d) false = ReadWait ->
    dev_step (DevSys d thr wl rl) (DevSys d (<[tid := RWaiting count]> thr) wl rl)
| step_read_woken d thr wl rl tid count :
    thr !! tid = Some (RWaiting count) ->
    dev_data d <> [] ->
    dev_step (DevSys d thr wl rl) (DevSys d (<[tid := RChecked count]> thr) wl rl)
| step_read_interrupted d thr wl rl tid count :
    thr !! tid = Some (RWaiting count) ->
    dev_step (DevSys d thr wl rl) (DevSys d (delete tid thr) wl rl)
| step_read_take d thr wl rl tid count writable r b d' :
    thr !! tid = Some (RChecked count) ->
    miev_read_take d count writable = (r, b, d') ->
    dev_step (DevSys d thr wl rl)
      (DevSys d' (delete tid thr) wl (rl ++ [(tid, count, r, b)])).

(** [ps] are the bytes each write put into the FIFO, [cs] those each read
    took out of it.  A write that fails leaves a prefix of its message, or
    nothing if its length was 0.  A read that succeeds delivers what it took,
    at most as much as was asked for; one that fails delivers nothing, and
    what it took, at most as much as was asked for, is lost. *)
Definition write_part (w : Z * bytes) (p : bytes) : Prop :=
  p `prefix_of` w.2 /\ (w.1 = 0 -> p = w.2) /\ (w.1 = - EINVAL -> p = []) /\
  w.1 ∈ [0; - EINVAL; - ENOSPC].
Definition read_part (r : nat * nat * Z * bytes) (c : bytes) : Prop :=
  let '(_, count, ret, delivered) := r in
  (length c <= count)%nat /\
  (0 <= ret -> c = delivered /\ ret = Z.of_nat (length c)) /\
  (ret < 0 -> delivered = []).

Definition stream_inv (s : dev_sys) : Prop :=
  dev_wf (s_dev s) /\
  exists ps cs, Forall2 write_part (wlog s) ps /\ Forall2 read_part (rlog s) cs /\
    concat cs ++ dev_data (s_dev s) = concat ps.

Lemma stream_inv_write d thr wl rl b len r d' :
  (len <= length b)%nat ->
  write_buf_inner (Some d) (Some b) len = (r, Some d') ->
  stream_inv (DevSys d thr wl rl) ->
  stream_inv (DevSys d' thr (wl ++ [(r, take len b)]) rl).
Proof.
  intros Hlen Hw [Hwf (ps & cs & Hps & Hcs & Heq)]. simpl in *.
  destruct (decide (len = 0)%nat) as [->|Hnz].
  - unfold write_buf_inner in Hw. simpl in Hw. simplify_eq. split; [done|].
    exists (ps ++ [[]]), cs. simpl. split_and!; [|done|].
    + apply Forall2_app; [done|]. constructor; [|constructor].
      split_and!; [apply prefix_nil|done|done|simpl; set_solver].
    + rewrite concat_app. simpl. by rewrite app_nil_r.
  - destruct (write_buf_inner_spec d b len Hwf Hlen Hnz) as (d1 & E & Hwf' & Hd & _).
    rewrite E in Hw. injection Hw as Hr ->. split; [done|].
    exists (ps ++ [take (Nat.min len (dev_free d)) b]), cs. simpl.
    split_and!; [|done|].
    + apply Forall2_app; [done|]. constructor; [|constructor]. split_and!; simpl.
      * replace (take (Nat.min len (dev_free d)) b)
          with (take (dev_free d) (take len b)) by (rewrite take_take; f_equal; lia).
        apply prefix_take.
      * intros ->. destruct (len <=? dev_free d)%nat eqn:El; [|done].
        by rewrite Nat.min_l by lia.
      * subst r. by case_match.
      * subst r. case_match; set_solver.
    + rewrite concat_app, Hd. simpl. by rewrite app_nil_r, app_assoc, Heq.
Qed.

Lemma stream_inv_take d thr thr' wl rl tid count w r b d' :
  miev_read_take d count w = (r, b, d') ->
  stream_inv (DevSys d thr wl rl) ->
  stream_inv (DevSys d' thr' wl (rl ++ [(tid, count, r, b)])).
Proof.
  intros Ht [Hwf (ps & cs & Hps & Hcs & Heq)]. simpl in *.
  destruct (miev_read_take_spec d count w Hwf)
    as (r1 & b1 & d1 & E & Hwf' & (k & Hkc & Hk) & Hok & Hfail & _).
  rewrite E in Ht. injection Ht as -> -> ->.
  split; [done|]. exists ps, (cs ++ [take k (dev_data d)]). simpl.
  split_and!; [done| |].
  - apply Forall2_app; [done|]. constructor; [|constructor]. unfold read_part.
    split; [rewrite length_take; lia|]. split; [|exact Hfail]. intros Hr.
    destruct (Hok Hr) as (_ & Hlen & Hsplit). rewrite Hk in Hsplit.
    rewrite <- (take_drop k (dev_data d)) in Hsplit at 1.
    apply app_inv_tail in Hsplit. by rewrite Hsplit.
  - rewrite concat_app. simpl. rewrite app_nil_r, <- app_assoc, Hk, take_drop. done.
Qed.

(** C8: Stream integrity under every interleaving of readers and writers.
    The bytes taken out of the FIFO in the order of the reads, followed by
    the bytes still in it, are the bytes put in by the writes in their order.
    A write that returned 0 contributed its whole message contiguously, one
    that returned ENOSPC a prefix of it, one that returned EINVAL nothing.  A
    read that succeeded delivered exactly the bytes it took and returned their
    number; a read that failed delivered nothing, and up to as many bytes as
    it asked for are lost to every reader.  The FIFO never exceeds 128 KiB. *)
Theorem stream_integrity s :
  reachable sys_init dev_step s ->
  (length (dev_data (s_dev s)) <= MIEV_FIFO_SIZE)%nat /\
  exists ps cs, Forall2 write_part (wlog s) ps /\ Forall2 read_part (rlog s) cs /\
    concat cs ++ dev_data (s_dev s) = concat ps.
Proof.
  intros Hr. assert (stream_inv s) as [[Hle Hcap] Hex].
  { revert s Hr. apply reachable_invariant.
    - intros s ->. pose proof (kfifo_new_spec 17) as [Hd Hc].
      rewrite <- miev_fifo_size_pow in Hd, Hc. split.
      + unfold dev_wf. simpl. rewrite Hd, Hc. simpl. split; [lia|done].
      + exists [], []. unfold dev_data. simpl. rewrite Hd. done.
    - intros s s' Hinv Hstep. destruct Hstep;
        eauto using stream_inv_write, stream_inv_take. }
  unfold dev_data at 1. rewrite <- Hcap. done.
Qed.

(** A blocking read with a positive count can return 0, the value that
    means end of file: two readers can both pass the emptiness check before
    the first one drains the FIFO, and the check is not repeated under the
    lock. *)
Theorem blocking_read_returns_zero :
  exists s tid count, reachable sys_init dev_step s /\
    (0 < count)%nat /\ (tid, count, 0, []) ∈ rlog s.
Proof.
  pose proof (kfifo_new_spec 17) as [Hd0 Hc0].
  rewrite <- miev_fifo_size_pow in Hd0, Hc0.
  set (d0 := MievDevice (kfifo_new MIEV_FIFO_SIZE) 0).
  assert (dev_wf d0) as Hwf0.
  { unfold dev_wf. simpl. rewrite Hd0, Hc0. simpl. split; [lia|done]. }
  destruct (write_buf_inner_spec d0 [NL] 1 Hwf0 ltac:(simpl; lia) ltac:(lia))
    as (d1 & Hw & Hwf1 & Hd1 & _).
  assert (dev_free d0 = MIEV_FIFO_SIZE) as Hfree.
  { unfold dev_free, dev_data. simpl. rewrite Hd0. simpl. lia. }
  assert (1 <= MIEV_FIFO_SIZE)%nat as Hpos by (pose proof fifo_size_Z; lia).
  rewrite Hfree, Nat.min_l in Hd1 by done.
  assert (dev_data d1 = [NL]) as Hdata1.
  { rewrite Hd1. unfold dev_data. simpl. by rewrite Hd0. }
  destruct (miev_read_take_spec d1 1 1 Hwf1) as (r2 & b2 & d2 & Ht2 & Hwf2 & _ & Hok2 & _ & Hnf2).
  destruct (Hok2 (Hnf2 ltac:(lia))) as (-> & -> & Hs2). rewrite Hdata1 in *.
  simpl in Hs2. injection Hs2 as Hd2.
  destruct (miev_read_take_spec d2 1 1 Hwf2) as (r3 & b3 & d3 & Ht3 & _ & _ & Hok3 & _ & Hnf3).
  destruct (Hok3 (Hnf3 ltac:(lia))) as (-> & -> & _). rewrite <- Hd2 in *.
  assert (miev_read_check (Some d1) false = ReadGo) as Hgo.
  { unfold miev_read_check. fold (dev_data d1). by rewrite Hdata1. }
  set (w := [(if (1 <=? dev_free d0)%nat then 0 else - ENOSPC, take 1 [NL])]).
  assert (reachable sys_init dev_step (DevSys d1 ∅ w [])) as R1.
  { eapply reachable_step; [by apply reachable_init|].
    apply (step_write d0 ∅ [] [] [NL] 1); [done|exact Hw]. }
  set (t1 := <[0%nat := RChecked 1]> (∅ : gmap nat reader_pc)).
  assert (reachable sys_init dev_step (DevSys d1 t1 w [])) as R2
    by (eapply reachable_step; [exact R1|by eapply step_read_enter]).
  set (t2 := <[1%nat := RChecked 1]> t1).
  assert (reachable sys_init dev_step (DevSys d1 t2 w [])) as R3
    by (eapply reachable_step; [exact R2|by eapply step_read_enter]).
  assert (reachable sys_init dev_step (DevSys d2 (delete 0%nat t2) w [(0%nat, 1%nat, 1, [NL])]))
    as R4 by (eapply reachable_step; [exact R3|by apply (step_read_take d1 t2 w [] 0 1 1)]).
  eexists _, 1%nat, 1%nat. split_and!; [|lia|].
  - eapply reachable_step; [exact R4|].
    by apply (step_read_take d2 (delete 0%nat t2) w [(0%nat, 1%nat, 1, [NL])] 1 1 1 0 [] d3).
  - simpl. set_solver.
Qed.
End concurrency.

(** ** Init and cleanup *)

Definition miev_all : list miev_res :=
  [RWq; RDevice; RClass; RFifo; RCdev; RChrdev; RDev].

(** C23: whatever subset of the kernel calls of [miev_init_module] fails, the
    goto chain gives back exactly what was acquired, in reverse order, and
    clears [miev_dev]; on success everything is held.  Running the cleanup
    afterwards leaves nothing held in every case. *)
Theorem miev_init_cleanup env :
  let g0 := MievGlobals false false in
  let '(ret, g, ops) := miev_init_module env g0 in
  let '(_, g', ops') := miev_cleanup_module g in
  (ret = 0 -> g = MievGlobals true true /\ replay_lifo ops [] = Some miev_all) /\
  (ret <> 0 -> g = g0 /\ replay_lifo ops [] = Some []) /\
  g' = g0 /\ replay_lifo (ops ++ ops') [] = Some [].
Proof.
  destruct env as [k c a f cl dv w].
  unfold miev_init_module, miev_cleanup_module, err_device_destroy,
    err_class_destroy, err_fifo_free, err_cdev_del, err_unregister_chrdev,
    err_free_dev. km_run. simpl.
  destruct k; [|by split_and!].
  destruct (c =? 0) eqn:Ec; simpl; rewrite ?Ec; [|split_and!; [lia|done..]].
  destruct (a =? 0) eqn:Ea; simpl; rewrite ?Ea; [|split_and!; [lia|done..]].
  destruct (f =? 0) eqn:Ef; simpl; rewrite ?Ef; [|split_and!; [lia|done..]].
  destruct (cl =? 0) eqn:Ecl; simpl; rewrite ?Ecl; [|split_and!; [lia|done..]].
  destruct (dv =? 0) eqn:Edv; simpl; rewrite ?Edv; [|split_and!; [lia|done..]].
  by destruct w; split_and!.
Qed.

(** ** Concrete inputs, with the executable FIFO *)

#[local] Existing Instance KFifoRef.

Definition dev_empty : miev_device := MievDevice (MIEV_FIFO_SIZE, []) 0.

Lemma dev_empty_wf : dev_wf dev_empty.
Proof. split; simpl; [lia|done]. Qed.

Lemma tevent_write_spec_witness :
  exists r e' d', cdev_tevent_write (Some dev_empty) (Some event_x) = (r, Some e', Some d') /\
    dev_wf d' /\ ev_wf e' /\
    if (EV_CAP <=? used_size event_x)%nat then r = - ENOSPC /\ d' = dev_empty
    else
      let fits := (length (closed_text event_x) <=? dev_free dev_empty)%nat in
      r = (if fits then 0 else - ENOSPC) /\
      dev_data d' = dev_data dev_empty ++ take (dev_free dev_empty) (closed_text event_x) /\
      wakeups d' = if fits then S (wakeups dev_empty) else wakeups dev_empty.
Proof. exact (tevent_write_spec event_x dev_empty event_x_wf dev_empty_wf). Defined.

Lemma event_pipeline_witness :
  let ps := [PInt (bs "cpu") 3; PStr (bs "pkg") (bs "com.a")] in
  let text := event_head 901001 1700000000 ++ params_text true ps ++ bs "}" ++ [NL] in
  exists e es d',
    run_ret (cdev_tevent_alloc true true 1700000000 901001) () = Some e /\
    add_params (Some e) ps = ([0; 0], Some es) /\
    (cdev_tevent_write (Some dev_empty) (Some es)).1.1 = 0 /\
    (cdev_tevent_write (Some dev_empty) (Some es)).2 = Some d' /\
    dev_data d' = dev_data dev_empty ++ text /\ wakeups d' = 1%nat.
Proof.
  apply (event_pipeline 901001 1700000000
    [PInt (bs "cpu") 3; PStr (bs "pkg") (bs "com.a")] dev_empty).
  - klia.
  - exact dev_empty_wf.
  - by repeat constructor.
  - simpl. lia.
  - apply Nat.leb_le. vm_compute. reflexivity.
  - unfold dev_free, dev_data. simpl fifo_data. pose proof fifo_size_Z as Hz.
    replace (length _) with 63%nat by (vm_compute; reflexivity). simpl. lia.
Defined.

(** A write, a read of three bytes, and a read of two of which only one can be
    copied: the second read fails and loses a byte. *)
Definition hello_dev (b : bytes) : miev_device := MievDevice (MIEV_FIFO_SIZE, b) 1.

Definition hello_run : dev_sys :=
  DevSys (hello_dev (bs "o")) ∅ [(0, bs "hello")]
    [(1%nat, 3%nat, 3, bs "hel"); (2%nat, 2%nat, - EFAULT, [])].

Lemma hello_written :
  write_buf_inner (Some (MievDevice (kfifo_new MIEV_FIFO_SIZE) 0)) (Some (bs "hello")) 5 =
  (0, Some (hello_dev (bs "hello"))).
Proof.
  assert (ref_in (MIEV_FIFO_SIZE, []) (bs "hello") = (5%nat, (MIEV_FIFO_SIZE, bs "hello"))) as He.
  { unfold ref_in. rewrite Nat.min_l; [done|]. pose proof fifo_size_Z. simpl. lia. }
  unfold write_buf_inner. cbn -[ref_in bs]. change (take 5 (bs "hello")) with (bs "hello").
  by rewrite He.
Qed.

Lemma hello_reachable : reachable sys_init dev_step hello_run.
Proof.
  set (d1 := hello_dev (bs "hello")). set (d2 := hello_dev (bs "lo")).
  set (w := [(0, bs "hello")]). set (r := [(1%nat, 3%nat, 3, bs "hel")]).
  assert (reachable sys_init dev_step (DevSys d1 ∅ w [])) as R1.
  { eapply reachable_step; [by apply reachable_init|].
    apply (step_write (MievDevice (kfifo_new MIEV_FIFO_SIZE) 0) ∅ [] [] (bs "hello") 5 0 d1);
      [done|].
    apply hello_written. }
  assert (reachable sys_init dev_step (DevSys d1 {[1%nat := RChecked 3]} w [])) as R2
    by (eapply reachable_step; [exact R1|by apply (step_read_enter d1 ∅ w [] 1 3 false)]).
  assert (reachable sys_init dev_step (DevSys d2 ∅ w r)) as R3.
  { change ∅ with (delete 1%nat {[1%nat := RChecked 3]} : gmap nat reader_pc).
    eapply reachable_step; [exact R2|]. by apply (step_read_take d1 _ w [] 1 3 3). }
  assert (reachable sys_init dev_step (DevSys d2 {[2%nat := RChecked 2]} w r)) as R4
    by (eapply reachable_step; [exact R3|by apply (step_read_enter d2 ∅ w r 2 2 false)]).
  unfold hello_run. change ∅ with (delete 2%nat {[2%nat := RChecked 2]} : gmap nat reader_pc).
  eapply reachable_step; [exact R4|]. by apply (step_read_take d2 _ w r 2 2 1).
Qed.

Lemma stream_integrity_witness :
  (length (dev_data (s_dev hello_run)) <= MIEV_FIFO_SIZE)%nat /\
  exists ps cs, Forall2 write_part (wlog hello_run) ps /\ Forall2 read_part (rlog hello_run) cs /\
    concat cs ++ bs "o" = concat ps.
Proof. apply (stream_integrity hello_run), hello_reachable. Defined.
