(* ===== verification/ThermalTemp.v ===== *)
(** * ThermalTemp: temperatures and floors of mi_thermal/mi_thermal_interface.c

    The device temperature is the maximum of the battery, two integer
    attributes and four textual sensor attributes; it selects the floor, in
    percent of the cluster maximum, that cpu_limits may not go below.  The
    text interface of the kernel is the parameter [KText]. *)

From S2P Require Import Prelude KText KTextRef.

Definition MI_THERMAL_BUF_LEN : nat := 128.

(** Module parameters of cpu_limits ([unsigned int], except the flag). *)
Record cpu_limits_params := CpuLimitsParams {
  cpu_limits_enable : bool;
  cpu_limits_floor_pct : Z;
  cpu_limits_hot_floor_pct : Z;
  cpu_limits_crit_floor_pct : Z;
  cpu_limits_hot_temp : Z;
  cpu_limits_crit_temp : Z;
  cpu_limits_max_step : Z
}.

Definition cpu_limits_defaults : cpu_limits_params :=
  CpuLimitsParams true 92 85 75 47 53 1.

Definition params_u32 (P : cpu_limits_params) : Prop :=
  in_u32 (cpu_limits_floor_pct P) /\ in_u32 (cpu_limits_hot_floor_pct P) /\
  in_u32 (cpu_limits_crit_floor_pct P) /\ in_u32 (cpu_limits_hot_temp P) /\
  in_u32 (cpu_limits_crit_temp P) /\ in_u32 (cpu_limits_max_step P).

(** The variables [mi_thermal_get_device_temp] reads, and the battery: [None]
    when there is no such power supply, otherwise the result of the property
    read and the value. *)
Record thermal_sensors := ThermalSensors {
  battery : option (Z * Z);
  temp_state : Z;
  display_therm_temp : Z;
  board_sensor_temp : bytes;
  board_sensor_second_temp : bytes;
  board_sensor_other_temp : bytes;
  ambient_sensor_temp : bytes
}.

(** [mi_thermal_parse_temp] after the conversion to [int]: milli-degrees,
    tenths of a degree or degrees, guessed from the magnitude. *)
Definition scale_temp (temp : Z) : Z :=
  if (temp <=? INT_MIN) || (temp =? INT_MAX) then INT_MIN
  else if 1000 <=? temp then DIV_ROUND_CLOSEST temp 1000
  else if 100 <=? temp then DIV_ROUND_CLOSEST temp 10
  else temp.

Section temps.
Context `{KText}.

Definition mi_thermal_parse_temp (buf : option bytes) : Z :=
  match buf with
  | None => INT_MIN
  | Some b =>
      match cstr b with
      | [] => INT_MIN
      | s =>
          match kstrtoint s with
          | inl _ => INT_MIN
          | inr temp => scale_temp temp
          end
      end
  end.

Definition mi_thermal_get_battery_temp (psy : option (Z * Z)) : Z :=
  match psy with
  | None => INT_MIN
  | Some (ret, intval) =>
      if negb (ret =? 0) then INT_MIN
      else
        let '(_, temp_buf) := scnprintf (replicate 16 NUL) 0 16 (fmt_d intval) in
        mi_thermal_parse_temp (Some temp_buf)
  end.

Definition mi_thermal_get_device_temp (S : thermal_sensors) : Z :=
  let temp := INT_MIN in
  let temp := Z.max temp (mi_thermal_get_battery_temp (battery S)) in
  let temp := Z.max temp (temp_state S) in
  let temp := Z.max temp (display_therm_temp S) in
  let temp := Z.max temp (mi_thermal_parse_temp (Some (board_sensor_temp S))) in
  let temp := Z.max temp (mi_thermal_parse_temp (Some (board_sensor_second_temp S))) in
  let temp := Z.max temp (mi_thermal_parse_temp (Some (board_sensor_other_temp S))) in
  let temp := Z.max temp (mi_thermal_parse_temp (Some (ambient_sensor_temp S))) in
  temp.
End temps.

(** The thresholds are [unsigned int] and cast to [int]. *)
Definition cpu_limits_effective_floor_pct (P : cpu_limits_params) (temp : Z) : Z :=
  if s32 (cpu_limits_crit_temp P) <=? temp then cpu_limits_crit_floor_pct P
  else if s32 (cpu_limits_hot_temp P) <=? temp then cpu_limits_hot_floor_pct P
  else cpu_limits_floor_pct P.

(** ** Properties *)

(** The value [r] degrees is a correct rounding of [t] in units of [1/u]
    degree. *)
Definition rounds_to (u t r : Z) : Prop := u * r - u / 2 <= t < u * r + u / 2.

Lemma scale_temp_cases t :
  in_s32 t ->
  (t = INT_MIN \/ t = INT_MAX -> scale_temp t = INT_MIN) /\
  (INT_MIN < t < 100 -> scale_temp t = t) /\
  (100 <= t < 1000 -> rounds_to 10 t (scale_temp t)) /\
  (1000 <= t <= INT_MAX - 500 -> rounds_to 1000 t (scale_temp t)) /\
  (INT_MAX - 500 < t < INT_MAX -> scale_temp t = -2147483).
Proof.
  intros Ht. unfold scale_temp, rounds_to. split_and!; intros Hc.
  - replace ((t <=? INT_MIN) || (t =? INT_MAX)) with true by klia. done.
  - replace ((t <=? INT_MIN) || (t =? INT_MAX)) with false by klia.
    replace (1000 <=? t) with false by lia. by replace (100 <=? t) with false by lia.
  - replace ((t <=? INT_MIN) || (t =? INT_MAX)) with false by klia.
    replace (1000 <=? t) with false by lia. replace (100 <=? t) with true by lia.
    apply (DIV_ROUND_CLOSEST_nearest t 5); klia.
  - replace ((t <=? INT_MIN) || (t =? INT_MAX)) with false by klia.
    replace (1000 <=? t) with true by lia.
    apply (DIV_ROUND_CLOSEST_nearest t 500); klia.
  - replace ((t <=? INT_MIN) || (t =? INT_MAX)) with false by klia.
    replace (1000 <=? t) with true by klia. unfold DIV_ROUND_CLOSEST.
    replace (0 <? t) with true by klia. simpl.
    change (Z.quot 1000 2) with 500. rewrite s32_over by klia.
    change (2 ^ 32) with 4294967296.
    rewrite <- (Z.opp_involutive (t + 500 - 4294967296)), Z.quot_opp_l by lia.
    rewrite Z.quot_div_nonneg by klia.
    assert (- (t + 500 - 4294967296) / 1000 = 2147483) as ->; [|lia].
    symmetry. apply Z.div_unique with (r := - (t + 500 - 4294967296) - 2147483000); klia.
Qed.

(** Buffers of the size of the sensor attributes, for the witnesses. *)
Definition temp_buf_of (s : string) : bytes :=
  take MI_THERMAL_BUF_LEN (bs s ++ replicate MI_THERMAL_BUF_LEN NUL).

Definition example_sensors : thermal_sensors :=
  ThermalSensors (Some (0, 412)) 0 38 (temp_buf_of "45200") (temp_buf_of "0")
    (temp_buf_of "junk") (temp_buf_of "315").

Lemma foldl_max_ge l m : m <= foldl Z.max m l.
Proof. revert m. induction l as [|x l IH]; intros m; simpl; [lia|]. specialize (IH (Z.max m x)). lia. Qed.

(** A running maximum is the least upper bound of what it has seen. *)
Lemma foldl_max_spec l m :
  Forall (fun r => r <= foldl Z.max m l) l /\ (foldl Z.max m l = m \/ foldl Z.max m l ∈ l).
Proof.
  revert m. induction l as [|x l IH]; intros m; simpl; [by split; [|left]|].
  destruct (IH (Z.max m x)) as [Hf Hin]. split.
  - constructor; [|done]. pose proof (foldl_max_ge l (Z.max m x)). lia.
  - rewrite elem_of_cons. destruct Hin as [->|]; [lia|by auto].
Qed.

Section temp_properties.
Context `{KText}.

(** C34: [mi_thermal_parse_temp] on every input.  A missing, empty or
    unparsable text and the two extreme integers give [INT_MIN]; a number
    below 100 is taken as degrees, one from 100 to 999 is rounded to the
    nearest degree as tenths and one from 1000 on as thousandths; but adding
    half a unit overflows in the last 499 values before [INT_MAX], which come
    out as -2147483. *)
Theorem parse_temp_spec b :
  (cstr b = [] -> mi_thermal_parse_temp (Some b) = INT_MIN) /\
  (forall e, kstrtoint (cstr b) = inl e -> mi_thermal_parse_temp (Some b) = INT_MIN) /\
  forall t, cstr b <> [] -> kstrtoint (cstr b) = inr t ->
    let r := mi_thermal_parse_temp (Some b) in
    (t = INT_MIN \/ t = INT_MAX -> r = INT_MIN) /\
    (INT_MIN < t < 100 -> r = t) /\
    (100 <= t < 1000 -> rounds_to 10 t r) /\
    (1000 <= t <= INT_MAX - 500 -> rounds_to 1000 t r) /\
    (INT_MAX - 500 < t < INT_MAX -> r = -2147483).
Proof.
  unfold mi_thermal_parse_temp. split_and!.
  - by intros ->.
  - intros e He. destruct (cstr b); [done|]. by rewrite He.
  - intros t Hne Ht. destruct (cstr b) as [|c s]; [done|]. rewrite Ht.
    apply scale_temp_cases. by eapply kstrtoint_range.
Qed.

Lemma battery_temp_scale v :
  in_s32 v -> mi_thermal_get_battery_temp (Some (0, v)) = scale_temp v.
Proof.
  intros Hv. unfold mi_thermal_get_battery_temp. simpl negb. cbv iota.
  pose proof (scnprintf_append (replicate 16 NUL) 0 16 (fmt_d v)) as Hs.
  destruct (scnprintf _ _ _ _) as [n b].
  destruct Hs as (_ & Hc & _);
    [apply terminated_strlen; by vm_compute; lia|done|done|lia|apply fmt_d_no_nul|].
  change (cstr (replicate 16 NUL)) with (@nil ascii) in Hc. simpl app in Hc.
  rewrite take_ge in Hc by (pose proof (length_fmt_s32 v Hv); lia).
  unfold mi_thermal_parse_temp. rewrite Hc. pose proof (kstrtoint_fmt v Hv) as Hk.
  destruct (fmt_d v) as [|c s] eqn:E; [by destruct (fmt_d_nonempty v)|].
  by rewrite Hk.
Qed.

Lemma device_temp_upper S :
  mi_thermal_get_battery_temp (battery S) <= mi_thermal_get_device_temp S.
Proof. unfold mi_thermal_get_device_temp. lia. Qed.

(** The device temperature is the least upper bound of the seven
    readings: none exceeds it and, unless every reading failed, it is one of
    them.  A sensor that cannot be read contributes [INT_MIN]. *)
Theorem device_temp_is_max S :
  let readings :=
    [mi_thermal_get_battery_temp (battery S); temp_state S; display_therm_temp S;
     mi_thermal_parse_temp (Some (board_sensor_temp S));
     mi_thermal_parse_temp (Some (board_sensor_second_temp S));
     mi_thermal_parse_temp (Some (board_sensor_other_temp S));
     mi_thermal_parse_temp (Some (ambient_sensor_temp S))] in
  let t := mi_thermal_get_device_temp S in
  Forall (fun r => r <= t) readings /\ (t = INT_MIN \/ t ∈ readings).
Proof.
  intros readings t. exact (foldl_max_spec readings INT_MIN).
Qed.

(** A cold battery looks critically hot.  The power-supply class reports
    tenths of a degree, but a reading below 100 (9.9 degrees and less) is
    taken as whole degrees: from [cpu_limits_crit_temp] tenths on, the device
    counts as critical and the lowest floor applies, whatever the other
    sensors say. *)
Theorem cold_battery_is_critical P S v :
  battery S = Some (0, v) ->
  s32 (cpu_limits_crit_temp P) <= v < 100 -> in_s32 v -> INT_MIN < v ->
  cpu_limits_effective_floor_pct P (mi_thermal_get_device_temp S) =
  cpu_limits_crit_floor_pct P.
Proof.
  intros Hb Hv Hs Hm. pose proof (device_temp_upper S) as Hup. rewrite Hb in Hup.
  rewrite battery_temp_scale in Hup by done.
  destruct (scale_temp_cases v Hs) as (_ & Hsmall & _).
  rewrite Hsmall in Hup by lia. unfold cpu_limits_effective_floor_pct.
  by replace (_ <=? _) with true by lia.
Qed.
End temp_properties.

(** When the parameters are ordered the way their descriptions say (hot
    below critical, floors not rising with the temperature), a hotter device
    never gets a higher floor. *)
Theorem floor_pct_antitone P t1 t2 :
  s32 (cpu_limits_hot_temp P) <= s32 (cpu_limits_crit_temp P) ->
  cpu_limits_crit_floor_pct P <= cpu_limits_hot_floor_pct P <= cpu_limits_floor_pct P ->
  t1 <= t2 ->
  cpu_limits_effective_floor_pct P t2 <= cpu_limits_effective_floor_pct P t1.
Proof.
  intros Hh Hp Ht. unfold cpu_limits_effective_floor_pct.
  repeat case_match; lia.
Qed.

(** ** Witnesses *)

#[local] Existing Instance KTextRef.

Lemma parse_temp_spec_witness :
  mi_thermal_parse_temp (Some (temp_buf_of "45200")) = 45 /\
  let t := 45200 in
  let r := mi_thermal_parse_temp (Some (temp_buf_of "45200")) in
  (t = INT_MIN \/ t = INT_MAX -> r = INT_MIN) /\
  (INT_MIN < t < 100 -> r = t) /\
  (100 <= t < 1000 -> rounds_to 10 t r) /\
  (1000 <= t <= INT_MAX - 500 -> rounds_to 1000 t r) /\
  (INT_MAX - 500 < t < INT_MAX -> r = -2147483).
Proof.
  split; [by vm_compute|].
  apply (parse_temp_spec (temp_buf_of "45200")); by vm_compute.
Defined.

Lemma cold_battery_is_critical_witness :
  let S := ThermalSensors (Some (0, 80)) 0 20 (temp_buf_of "19500")
             (temp_buf_of "0") (temp_buf_of "0") (temp_buf_of "205") in
  cpu_limits_effective_floor_pct cpu_limits_defaults (mi_thermal_get_device_temp S) = 75.
Proof.
  intros S. apply (cold_battery_is_critical cpu_limits_defaults S 80); by vm_compute.
Defined.

Lemma floor_pct_antitone_witness :
  cpu_limits_effective_floor_pct cpu_limits_defaults 50 <=
  cpu_limits_effective_floor_pct cpu_limits_defaults 46.
Proof. apply floor_pct_antitone; by vm_compute. Defined.
