(* ===== verification/ThermalFreq.v ===== *)
(** * ThermalFreq: the cpu_limits frequency caps of mi_thermal/mi_thermal_interface.c

    One [cpufreq_device] per possible CPU, each with its descending table of
    frequencies and its own freq_qos request; [cpu_limits_set_level] moves the
    first device of the list whose policy covers the CPU to a cooling level.
    [mi_thermal_init_cpufreq] builds the list and [mi_thermal_destroy_cpufreq]
    takes it down.  The freq_qos calls are the parameter [FreqQos]; [None] is
    an access outside a table or a CPU mask. *)

From S2P Require Import Prelude KText KTextRef KMonad ThermalTemp.

(** The freq_qos interface (linux/pm_qos.h): [qos_value] is the constraint a
    request holds, [None] while it is not active. *)
Class FreqQos := {
  freq_qos_request : Type;
  qos_zero : freq_qos_request;
  qos_value : freq_qos_request -> option Z;
  freq_qos_add_request : freq_qos_request -> Z -> Z * freq_qos_request;
  freq_qos_update_request : freq_qos_request -> Z -> Z * freq_qos_request;
  freq_qos_remove_request : freq_qos_request -> freq_qos_request;

  qos_add_ok r v ret r' :
    freq_qos_add_request r v = (ret, r') -> 0 <= ret -> qos_value r' = Some v;
  qos_update_ret r v : (freq_qos_update_request r v).1 ∈ [0; 1; - EINVAL];
  qos_update_ok r v ret r' :
    freq_qos_update_request r v = (ret, r') -> 0 <= ret -> qos_value r' = Some v;
  qos_update_err r v ret r' :
    freq_qos_update_request r v = (ret, r') -> ret < 0 ->
    qos_value r' = qos_value r
}.

Record cpufreq_policy := CpufreqPolicy {
  policy_cpu : Z;
  related_cpus : list bool;
  policy_freq_table : list Z
}.

Record cpufreq_device := CpufreqDevice {
  id : Z;
  cpufreq_state : Z;
  max_level : Z;
  freq_table : option (list Z);
  policy : option cpufreq_policy;
  qos_req : nat
}.

Definition set_state (d : cpufreq_device) (s : Z) : cpufreq_device :=
  CpufreqDevice (id d) s (max_level d) (freq_table d) (policy d) (qos_req d).

(** ** Building the tables *)

(** [cpufreq_for_each_valid_entry]: the table ends before
    CPUFREQ_TABLE_END; entries with CPUFREQ_ENTRY_INVALID are skipped. *)
Definition CPUFREQ_ENTRY_INVALID : Z := UINT_MAX.

Definition valid_entries (table : list Z) : list Z :=
  filter (fun f => f <> CPUFREQ_ENTRY_INVALID) table.

Definition find_next_max (table : list Z) (prev_max : Z) : Z :=
  foldl (fun max f => if (max <? f) && (f <? prev_max) then f else max)
    0 (valid_entries table).

(** The loop of [mi_thermal_init_cpufreq] over [n] levels. *)
Fixpoint build_table (table : list Z) (n : nat) (freq : Z) : list Z :=
  match n with
  | O => []
  | S n' =>
      let freq := find_next_max table freq in
      freq :: build_table table n' freq
  end.

(** ** Setting a level *)

Abbreviation qos_store := (gmap nat freq_qos_request).

Section levels.
Context `{FreqQos}.

(** The static per-CPU requests; a CPU that was never written holds the
    zero-initialised request. *)
Definition per_cpu_qos (q : qos_store) (cpu : nat) : freq_qos_request :=
  default qos_zero (q !! cpu).

Record cpufreq_sys := CpufreqSys {
  cpufreq_dev_list : list cpufreq_device;
  qos : qos_store
}.

Definition dev_result : Type := Z * cpufreq_device * qos_store.

Definition cpufreq_set_level (cdev : cpufreq_device) (q : qos_store) (state : Z)
  : option dev_result :=
  if max_level cdev <? state then Some (- EINVAL, cdev, q)
  else if cpufreq_state cdev =? state then Some (0, cdev, q)
  else
    let cdev := set_state cdev state in
    t ← freq_table cdev;
    f ← t !! Z.to_nat state;
    let '(ret, r) := freq_qos_update_request (per_cpu_qos q (qos_req cdev)) f in
    Some (ret, cdev, <[qos_req cdev := r]> q).

(** The test and the assignment of the step limit. *)
Definition limit_step (P : cpu_limits_params) (device_temp state level : Z) : Z :=
  if negb (cpu_limits_max_step P =? 0) &&
     (device_temp <? s32 (cpu_limits_hot_temp P)) &&
     (u32 (state + cpu_limits_max_step P) <? level)
  then u32 (state + cpu_limits_max_step P)
  else level.

(** The search for a level: [n] iterations are left.  [Some None] when the
    loop ends without a break. *)
Fixpoint find_level (table : option (list Z)) (max_freq : Z) (n : nat) (level : Z)
  : option (option Z) :=
  match n with
  | O => Some None
  | S n' =>
      t ← table;
      target_freq ← t !! Z.to_nat level;
      if target_freq <=? max_freq then Some (Some level)
      else find_level table max_freq n' (level + 1)
  end.

Definition raise_to_floor (table : option (list Z)) (floor_pct max_freq : Z)
  : option Z :=
  match table with
  | None => Some max_freq
  | Some t =>
      f0 ← t !! 0%nat;
      let floor_freq := mult_frac f0 (Z.min floor_pct 100) 100 in
      Some (if max_freq <? floor_freq then floor_freq else max_freq)
  end.

(** The body of the loop of [cpu_limits_set_level] for the device found. *)
Definition cpu_limits_one (P : cpu_limits_params) (device_temp floor_pct max_freq : Z)
    (d : cpufreq_device) (q : qos_store) : option dev_result :=
  if max_freq =? 0 then cpufreq_set_level d q 0
  else
    max_freq ← raise_to_floor (freq_table d) floor_pct max_freq;
    found ← find_level (freq_table d) max_freq (Z.to_nat (max_level d + 1)) 0;
    '(ret, d, q) ←
      match found with
      | Some level =>
          cpufreq_set_level d q (limit_step P device_temp (cpufreq_state d) level)
      | None => Some (- ENODEV, d, q)
      end;
    if ret =? - ENODEV then cpufreq_set_level d q (max_level d)
    else Some (ret, d, q).

(** [cpumask_test_cpu] does not check its argument: a CPU beyond the mask is
    an access outside it. *)
Definition cpumask_test_cpu (cpu : Z) (mask : list bool) : option bool :=
  mask !! Z.to_nat cpu.

(** [list_for_each_entry] up to the first device that covers [cpu]. *)
Fixpoint for_cpu_device (cpu : Z)
    (body : cpufreq_device -> qos_store -> option dev_result)
    (l : list cpufreq_device) (q : qos_store)
  : option (Z * list cpufreq_device * qos_store) :=
  match l with
  | [] => Some (- ENODEV, [], q)
  | d :: l' =>
      covered ← match policy d with
                | None => Some false
                | Some p => cpumask_test_cpu cpu (related_cpus p)
                end;
      if (covered : bool) then
        '(ret, d', q') ← body d q; Some (ret, d' :: l', q')
      else
        '(ret, l'', q') ← for_cpu_device cpu body l' q; Some (ret, d :: l'', q')
  end.
End levels.

Section set_level.
Context `{FreqQos} `{KText}.

Definition cpu_limits_set_level (P : cpu_limits_params) (S : thermal_sensors)
    (sys : cpufreq_sys) (cpu max_freq : Z) : option (Z * cpufreq_sys) :=
  if negb (cpu_limits_enable P) then Some (0, sys)
  else
    let device_temp := mi_thermal_get_device_temp S in
    let floor_pct := cpu_limits_effective_floor_pct P device_temp in
    '(ret, l, q) ← for_cpu_device cpu
       (cpu_limits_one P device_temp floor_pct max_freq)
       (cpufreq_dev_list sys) (qos sys);
    Some (ret, CpufreqSys l q).

(** The attribute: [sscanf] with "cpu%u %u" first, then with "%u %u". *)
Definition cpu_limits_store (P : cpu_limits_params) (S : thermal_sensors)
    (sys : cpufreq_sys) (buf : bytes) (count : Z) : option (Z * cpufreq_sys) :=
  match match sscanf_uu (bs "cpu") buf with
        | Some r => Some r
        | None => sscanf_uu [] buf
        end with
  | None => Some (- EINVAL, sys)
  | Some (cpu, freq) =>
      if negb (cpu_limits_enable P) then Some (count, sys)
      else
        '(_, sys') ← cpu_limits_set_level P S sys cpu freq;
        Some (count, sys')
  end.
End set_level.

(** ** Building and destroying the list *)

Inductive cpufreq_res := RPolicy (cpu : nat) | RCdev (cpu : nat)
  | RTable (cpu : nat) | RQos (cpu : nat).
#[global] Instance cpufreq_res_eq_dec : EqDecision cpufreq_res.
Proof. solve_decision. Defined.

(** What the kernel answers for one CPU: [cpufreq_cpu_get], [kzalloc] and
    [kmalloc_array]. *)
Record cpu_env := CpuEnv {
  e_policy : option cpufreq_policy; e_cdev : bool; e_table : bool
}.

Section lifecycle.
Context `{FreqQos}.
Local Abbreviation M := (km cpufreq_sys cpufreq_res).

Definition list_add (d : cpufreq_device) (s : cpufreq_sys) : cpufreq_sys :=
  CpufreqSys (d :: cpufreq_dev_list s) (qos s).
Definition set_qos (cpu : nat) (r : freq_qos_request) (s : cpufreq_sys) : cpufreq_sys :=
  CpufreqSys (cpufreq_dev_list s) (<[cpu := r]> (qos s)).
Definition list_init (s : cpufreq_sys) : cpufreq_sys := CpufreqSys [] (qos s).

(** The body of [for_each_possible_cpu]: [inl e] is the early return. *)
Definition init_cpu (env : nat -> cpu_env) (cpu : nat) : M (Z + Z) :=
  match e_policy (env cpu) with
  | None => mret (inl (- ESRCH))
  | Some pol =>
      _ ← acquire (RPolicy cpu);
      let count := u32 (Z.of_nat (length (valid_entries (policy_freq_table pol)))) in
      if count =? 0 then _ ← release (RPolicy cpu); mret (inl (- ENODEV)) else
      ok ← acquire_ptr (e_cdev (env cpu)) (RCdev cpu);
      if negb ok then _ ← release (RPolicy cpu); mret (inl (- ENOMEM)) else
      let max_level := u32 (count - 1) in
      ok ← acquire_ptr (e_table (env cpu)) (RTable cpu);
      if negb ok then
        _ ← release (RPolicy cpu); _ ← release (RCdev cpu); mret (inl (- ENOMEM))
      else
        let table :=
          build_table (policy_freq_table pol) (Z.to_nat (max_level + 1)) UINT_MAX in
        s ← gets (fun s => s);
        let '(ret, r) := freq_qos_add_request (per_cpu_qos (qos s) cpu)
                           (hd 0 table) in
        _ ← modify (set_qos cpu r);
        if ret <? 0 then
          _ ← release (RPolicy cpu); _ ← release (RTable cpu);
          _ ← release (RCdev cpu); mret (inl ret)
        else
          _ ← acquire (RQos cpu);
          _ ← modify (list_add
            (CpufreqDevice (policy_cpu pol) 0 max_level (Some table) (Some pol) cpu));
          mret (inr ret)
  end.

Fixpoint init_cpus (env : nat -> cpu_env) (cpus : list nat) (ret : Z) : M Z :=
  match cpus with
  | [] => mret ret
  | cpu :: cpus' =>
      r ← init_cpu env cpu;
      match r with
      | inl e => mret e
      | inr ret => init_cpus env cpus' ret
      end
  end.

(** [possible] is the list of the possible CPUs. *)
Definition mi_thermal_init_cpufreq (env : nat -> cpu_env) (possible : list nat) : M Z :=
  init_cpus env possible 0.

Definition destroy_device (pos : cpufreq_device) : M unit :=
  _ ← release (RQos (qos_req pos));
  s ← gets (fun s => s);
  _ ← modify (set_qos (qos_req pos)
        (freq_qos_remove_request (per_cpu_qos (qos s) (qos_req pos))));
  _ ← match policy pos with
      | Some _ => release (RPolicy (qos_req pos))
      | None => mret ()
      end;
  _ ← match freq_table pos with
      | Some _ => release (RTable (qos_req pos))
      | None => mret ()
      end;
  release (RCdev (qos_req pos)).

(** [list_for_each_entry_safe]: each device is unlinked, then freed. *)
Fixpoint destroy_devices (l : list cpufreq_device) : M unit :=
  match l with
  | [] => mret ()
  | pos :: l' =>
      _ ← modify (fun s => CpufreqSys l' (qos s));
      _ ← destroy_device pos;
      destroy_devices l'
  end.

Definition mi_thermal_destroy_cpufreq : M unit :=
  l ← gets cpufreq_dev_list; destroy_devices l.
End lifecycle.

(** ** The tables are the distinct frequencies in descending order *)

Lemma foldl_max_below l prev m0 :
  let m := foldl (fun max f => if (max <? f) && (f <? prev) then f else max) m0 l in
  m0 <= m /\ (m = m0 \/ m0 < m < prev /\ m ∈ l) /\
  forall f, f ∈ l -> f < prev -> f <= m.
Proof.
  revert m0. induction l as [|x l IH]; intros m0; simpl.
  { split_and!; [lia|by left|]. intros f Hf. by apply elem_of_nil in Hf. }
  set (m1 := if (m0 <? x) && (x <? prev) then x else m0).
  destruct (IH m1) as (Hle & Hor & Hup).
  assert (m0 <= m1 /\ (x < prev -> x <= m1) /\ (m1 = m0 \/ m0 < m1 < prev /\ m1 = x))
    as (Hm & Hx & Hc).
  { unfold m1. destruct (_ && _) eqn:E; [|split_and!; [lia|lia|by left]].
    split_and!; [lia|lia|right; lia]. }
  split_and!; [lia| |].
  - destruct Hor as [Heq|[Hlt Hin]]; [|right; split; [lia|by apply list_elem_of_further]].
    rewrite Heq. destruct Hc as [->|[Hl ->]]; [by left|right; split; [lia|apply list_elem_of_here]].
  - intros f Hf Hp. apply elem_of_cons in Hf as [->|Hf]; [specialize (Hx Hp); lia|by apply Hup].
Qed.

Lemma find_next_max_spec table prev :
  let m := find_next_max table prev in
  0 <= m /\ (m = 0 \/ m < prev /\ m ∈ valid_entries table) /\
  forall f, f ∈ valid_entries table -> f < prev -> f <= m.
Proof.
  pose proof (foldl_max_below (valid_entries table) prev 0) as (H1 & H2 & H3).
  unfold find_next_max. split_and!; [done| |done]. destruct H2 as [->|[? ?]]; [by left|].
  right. split; [lia|done].
Qed.

Lemma length_build_table table n prev : length (build_table table n prev) = n.
Proof. revert prev. induction n; intros prev; simpl; [done|]. by f_equal. Qed.

Lemma build_table_below table n prev f :
  0 <= prev -> f ∈ build_table table n prev ->
  f = 0 \/ f < prev /\ f ∈ valid_entries table.
Proof.
  revert prev. induction n as [|n IH]; intros prev Hp; simpl.
  { intros Hf. by apply elem_of_nil in Hf. }
  pose proof (find_next_max_spec table prev) as (H0 & Hm & _).
  intros Hf. apply elem_of_cons in Hf as [->|Hf]; [naive_solver|].
  apply IH in Hf as [->|[Hlt Hin]]; [by left| |done].
  right. split; [|done]. destruct Hm as [Hm|[Hm _]]; lia.
Qed.

(** The entries that are still to come when the last maximum was [prev]. *)
Definition remaining (table : list Z) (prev : Z) : list Z :=
  filter (fun f => 0 < f < prev) (valid_entries table).

Lemma remaining_decreases table prev m :
  0 < m < prev -> m ∈ valid_entries table ->
  (length (remaining table m) < length (remaining table prev))%nat.
Proof.
  intros Hm Hin. unfold remaining.
  replace (filter (fun f => 0 < f < m) (valid_entries table))
    with (filter (fun f => f < m) (filter (fun f => 0 < f < prev) (valid_entries table))).
  - apply length_filter_lt with m; [by apply list_elem_of_filter|lia].
  - rewrite list_filter_filter. apply list_filter_iff. intros f. lia.
Qed.

Lemma build_table_complete table n prev f :
  (length (remaining table prev) <= n)%nat ->
  f ∈ valid_entries table -> 0 < f < prev -> f ∈ build_table table n prev.
Proof.
  revert prev. induction n as [|n IH]; intros prev Hn Hf Hr; simpl.
  - destruct (remaining table prev) as [|x l] eqn:E; [|simpl in Hn; lia].
    assert (f ∈ remaining table prev) as Hc by (by apply list_elem_of_filter).
    rewrite E in Hc. by apply elem_of_nil in Hc.
  - pose proof (find_next_max_spec table prev) as (H0 & Hm & Hup).
    pose proof (Hup f Hf ltac:(lia)) as Hle.
    destruct (decide (f = find_next_max table prev)) as [->|Hne]; [apply list_elem_of_here|].
    apply list_elem_of_further. apply IH; [|done|lia].
    destruct Hm as [Hm|[Hm Hin]]; [lia|].
    pose proof (remaining_decreases table prev (find_next_max table prev) ltac:(lia) Hin). lia.
Qed.

(** Later entries are smaller, except that exhausted tables end in zeros. *)
Definition descending (t : list Z) : Prop :=
  forall i j x y, (i < j)%nat -> t !! i = Some x -> t !! j = Some y -> y < x \/ y = 0.

Lemma build_table_descending table n prev :
  descending (build_table table n prev).
Proof.
  revert prev. induction n as [|n IH]; intros prev i j x y Hij Hi Hj; simpl in *; [done|].
  pose proof (find_next_max_spec table prev) as (H0 & _ & _).
  destruct j as [|j]; [lia|]. simpl in Hj. destruct i as [|i]; simpl in Hi.
  - simplify_eq. apply list_elem_of_lookup_2 in Hj.
    apply build_table_below in Hj as [->|[? _]]; auto.
  - eapply IH; [|done..]. lia.
Qed.

(** C4: the table of a device, built by repeated calls of [find_next_max],
    has one entry per valid entry of the policy; it is in strictly descending
    order up to a tail of zeros, one for each duplicate; and it contains
    exactly the positive frequencies of the policy.  No ordering of the
    policy's table is assumed. *)
Theorem freq_table_built table :
  Forall in_u32 table ->
  let t := build_table table (length (valid_entries table)) UINT_MAX in
  length t = length (valid_entries table) /\ descending t /\
  forall f, 0 < f -> (f ∈ t <-> f ∈ table /\ f <> CPUFREQ_ENTRY_INVALID).
Proof.
  intros Hu t. split_and!; [apply length_build_table|apply build_table_descending|].
  intros f Hf. transitivity (f ∈ valid_entries table).
  2:{ unfold valid_entries. rewrite list_elem_of_filter. naive_solver. }
  split.
  - intros Hin. apply build_table_below in Hin as [->|[_ Hin]]; [lia|done|klia].
  - intros Hin. apply build_table_complete; [apply length_filter|done|].
    apply list_elem_of_filter in Hin as [Hne Hin].
    rewrite Forall_forall in Hu. specialize (Hu f Hin).
    unfold CPUFREQ_ENTRY_INVALID in Hne. klia.
Qed.

(** ** What a call of [cpu_limits_set_level] does to the device it finds *)

(** A device as [mi_thermal_init_cpufreq] builds it. *)
Definition dev_wf (d : cpufreq_device) : Prop :=
  exists t, freq_table d = Some t /\ Z.of_nat (length t) = max_level d + 1 /\
    Forall in_u32 t /\ descending t /\
    0 <= cpufreq_state d <= max_level d /\ in_u32 (max_level d).

Definition table_of (d : cpufreq_device) : list Z := default [] (freq_table d).
Definition freq_at (d : cpufreq_device) (l : Z) : Z := table_of d !!! Z.to_nat l.

(** The floor, and the frequency a request is granted. *)
Definition floor_freq (d : cpufreq_device) (pct : Z) : Z :=
  freq_at d 0 * Z.min pct 100 / 100.
Definition budget (d : cpufreq_device) (pct max_freq : Z) : Z :=
  Z.max max_freq (floor_freq d pct).

(** The least level whose frequency is within the budget. *)
Definition least_level (d : cpufreq_device) (b : Z) : option Z :=
  (fun r => Z.of_nat r.1) <$> list_find (fun f => f <= b) (table_of d).

(** The cooling level a request leads to. *)
Definition next_level (P : cpu_limits_params) (temp pct max_freq : Z)
    (d : cpufreq_device) : Z :=
  if max_freq =? 0 then 0
  else match least_level d (budget d pct max_freq) with
       | None => max_level d
       | Some l => limit_step P temp (cpufreq_state d) l
       end.

Section one_device.
Context `{FreqQos}.

Definition apply_level (d : cpufreq_device) (q : qos_store) (l : Z) : dev_result :=
  if cpufreq_state d =? l then (0, d, q)
  else
    let '(ret, r) := freq_qos_update_request (per_cpu_qos q (qos_req d)) (freq_at d l) in
    (ret, set_state d l, <[qos_req d := r]> q).

Lemma lookup_level d l :
  dev_wf d -> 0 <= l <= max_level d ->
  exists t, freq_table d = Some t /\ t !! Z.to_nat l = Some (freq_at d l).
Proof.
  intros (t & Ht & Hlen & _) Hl. exists t. split; [done|].
  unfold freq_at, table_of. rewrite Ht. simpl.
  destruct (lookup_lt_is_Some_2 t (Z.to_nat l)) as [f Hf]; [lia|].
  by rewrite Hf, (list_lookup_total_correct _ _ _ Hf).
Qed.

Lemma cpufreq_set_level_wf d q l :
  dev_wf d -> 0 <= l <= max_level d ->
  cpufreq_set_level d q l = Some (apply_level d q l).
Proof.
  intros Hd Hl. unfold cpufreq_set_level, apply_level.
  replace (max_level d <? l) with false by lia.
  destruct (cpufreq_state d =? l); [done|].
  destruct (lookup_level d l Hd Hl) as (t & Ht & Hf). simpl. rewrite Ht. simpl.
  rewrite Hf. simpl. by destruct (freq_qos_update_request _ _).
Qed.

Lemma apply_level_ret d q l : (apply_level d q l).1.1 ∈ [0; 1; - EINVAL].
Proof.
  unfold apply_level. destruct (_ =? _); [apply list_elem_of_here|].
  pose proof (qos_update_ret (per_cpu_qos q (qos_req d)) (freq_at d l)).
  by destruct (freq_qos_update_request _ _).
Qed.

Lemma apply_level_wf d q l :
  dev_wf d -> 0 <= l <= max_level d -> dev_wf (apply_level d q l).1.2.
Proof.
  intros (t & Ht & Hlen & Hu & Hdesc & Hs & Hm) Hl. unfold apply_level.
  destruct (_ =? _); [by exists t|]. destruct (freq_qos_update_request _ _).
  exists t. by simpl.
Qed.

Lemma apply_level_dev d q l :
  (apply_level d q l).1.2 = set_state d l.
Proof.
  unfold apply_level. destruct (Z.eqb_spec (cpufreq_state d) l) as [<-|]; [by destruct d|].
  by destruct (freq_qos_update_request _ _).
Qed.

Lemma find_level_spec t b n k :
  (k + n = length t)%nat ->
  find_level (Some t) b n (Z.of_nat k) =
  Some ((fun r => Z.of_nat (k + r.1)) <$> list_find (fun f => f <= b) (drop k t)).
Proof.
  revert k. induction n as [|n IH]; intros k Hk; simpl.
  - by rewrite drop_ge by lia.
  - destruct (lookup_lt_is_Some_2 t k) as [f Hf]; [lia|].
    rewrite Nat2Z.id, Hf, (drop_S _ _ _ Hf). simpl.
    case_decide; [replace (f <=? b) with true by lia|replace (f <=? b) with false by lia].
    + simpl. by rewrite Nat.add_0_r.
    + replace (Z.of_nat k + 1) with (Z.of_nat (S k)) by lia. rewrite IH by lia.
      destruct (list_find (fun f => f <= b) (drop (S k) t)) as [[i x]|]; simpl; [|done].
      do 2 f_equal. lia.
Qed.

Lemma least_level_range d b l :
  dev_wf d -> least_level d b = Some l -> 0 <= l <= max_level d /\ freq_at d l <= b.
Proof.
  intros (t & Ht & Hlen & _) Hl. unfold least_level in Hl.
  apply fmap_Some in Hl as ([i x] & Hfind & ->).
  apply list_find_Some in Hfind as (Hlk & Hx & _). simpl in *.
  unfold freq_at, table_of in *. rewrite Ht in *. simpl in *. rewrite Nat2Z.id.
  rewrite (list_lookup_total_correct _ _ _ Hlk).
  apply lookup_lt_Some in Hlk. lia.
Qed.

Lemma limit_step_range P temp s l :
  0 <= l -> 0 <= limit_step P temp s l <= l.
Proof.
  intros Hl. unfold limit_step. pose proof (u32_range (s + cpu_limits_max_step P)).
  destruct (_ && _) eqn:E; [|lia]. klia.
Qed.

Lemma next_level_range P temp pct mf d :
  dev_wf d -> 0 <= next_level P temp pct mf d <= max_level d.
Proof.
  intros Hd. unfold next_level. pose proof Hd as (_ & _ & _ & _ & _ & Hs & _).
  destruct (mf =? 0); [lia|].
  destruct (least_level d _) as [l|] eqn:E; [|lia].
  apply least_level_range in E as [Hl _]; [|done].
  pose proof (limit_step_range P temp (cpufreq_state d) l). lia.
Qed.

(** The floor and the search of the loop body stay inside the table. *)
Lemma search_level d pct mf :
  dev_wf d -> 0 <= pct ->
  raise_to_floor (freq_table d) pct mf = Some (budget d pct mf) /\
  find_level (freq_table d) (budget d pct mf) (Z.to_nat (max_level d + 1)) 0 =
    Some (least_level d (budget d pct mf)).
Proof.
  intros Hd Hpct. pose proof Hd as (t & Ht & Hlen & Hu & _ & Hs & _). split.
  - destruct (lookup_level d 0 Hd ltac:(lia)) as (t' & Ht' & Hf0).
    change (Z.to_nat 0) with 0%nat in Hf0. assert (t' = t) as -> by congruence.
    unfold raise_to_floor. rewrite Ht. simpl. rewrite Hf0. simpl.
    rewrite mult_frac_pct; [|by eapply Forall_lookup_1|lia].
    fold (floor_freq d pct). unfold budget. f_equal.
    destruct (mf <? floor_freq d pct) eqn:E; lia.
  - rewrite Ht. pose proof (find_level_spec t (budget d pct mf) (length t) 0 ltac:(lia)) as Hfl.
    change (Z.of_nat 0) with 0 in Hfl. rewrite <- Hlen, Nat2Z.id, Hfl. unfold least_level, table_of.
    by rewrite Ht.
Qed.

(** The loop body computes [next_level] and applies it. *)
Lemma cpu_limits_one_spec P temp pct mf d q :
  dev_wf d -> 0 <= pct ->
  cpu_limits_one P temp pct mf d q =
  Some (apply_level d q (next_level P temp pct mf d)).
Proof.
  intros Hd Hpct. pose proof (next_level_range P temp pct mf d Hd) as Hr.
  unfold cpu_limits_one, next_level in *. pose proof Hd as (_ & _ & _ & _ & _ & Hs & _).
  destruct (mf =? 0); [by rewrite cpufreq_set_level_wf|].
  destruct (search_level d pct mf Hd Hpct) as [-> Hfind]. simpl. rewrite Hfind. simpl.
  destruct (least_level d _) as [l|].
  - rewrite cpufreq_set_level_wf by done. simpl.
    pose proof (apply_level_ret d q (limit_step P temp (cpufreq_state d) l)) as Hret.
    destruct (apply_level d q _) as [[ret d'] q']. simpl in Hret.
    replace (ret =? - ENODEV) with false; [done|].
    symmetry. apply Z.eqb_neq. rewrite !elem_of_cons, elem_of_nil in Hret.
    unfold EINVAL, ENODEV in *. lia.
  - simpl. by rewrite cpufreq_set_level_wf by (done || lia).
Qed.
End one_device.

(** ** The list of devices *)

Definition covers (cpu : Z) (d : cpufreq_device) : bool :=
  match policy d with
  | None => false
  | Some p => default false (related_cpus p !! Z.to_nat cpu)
  end.

(** A device whose policy has a mask of [nr] CPUs. *)
Definition dev_ok (nr : nat) (d : cpufreq_device) : Prop :=
  dev_wf d /\ exists p, policy d = Some p /\ length (related_cpus p) = nr.

Definition params_ok (P : cpu_limits_params) : Prop :=
  cpu_limits_enable P = true /\ params_u32 P.

Lemma floor_pct_nonneg P temp :
  params_ok P -> 0 <= cpu_limits_effective_floor_pct P temp.
Proof.
  intros (_ & Hf & Hh & Hc & _). unfold cpu_limits_effective_floor_pct.
  repeat case_match; klia.
Qed.

Section system.
Context `{FreqQos}.

Definition sys_wf (nr : nat) (sys : cpufreq_sys) : Prop :=
  Forall (dev_ok nr) (cpufreq_dev_list sys) /\
  NoDup (qos_req <$> cpufreq_dev_list sys).

(** Every request holds the frequency of its device's level. *)
Definition synced (sys : cpufreq_sys) : Prop :=
  forall d, d ∈ cpufreq_dev_list sys ->
  qos_value (per_cpu_qos (qos sys) (qos_req d)) = Some (freq_at d (cpufreq_state d)).

(** Specification: the first device that covers the CPU is moved to the level
    the request calls for; without one the call fails and changes nothing. *)
Definition set_level_spec (level : cpufreq_device -> Z) (cpu : Z)
    (sys : cpufreq_sys) : Z * cpufreq_sys :=
  match list_find (fun d => covers cpu d = true) (cpufreq_dev_list sys) with
  | None => (- ENODEV, sys)
  | Some (i, d) =>
      let '(ret, d', q') := apply_level d (qos sys) (level d) in
      (ret, CpufreqSys (<[i := d']> (cpufreq_dev_list sys)) q')
  end.

Lemma for_cpu_device_spec nr cpu body g l q :
  Forall (dev_ok nr) l -> 0 <= cpu < Z.of_nat nr ->
  (forall d, d ∈ l -> body d q = Some (g d q)) ->
  for_cpu_device cpu body l q =
  Some match list_find (fun d => covers cpu d = true) l with
       | None => (- ENODEV, l, q)
       | Some (i, d) => let '(ret, d', q') := g d q in (ret, <[i := d']> l, q')
       end.
Proof.
  intros Hl Hcpu. induction l as [|d l IH]; intros Hbody; simpl; [done|].
  apply Forall_cons in Hl as [[_ (p & Hp & Hmask)] Hl].
  rewrite Hp. unfold cpumask_test_cpu.
  destruct (lookup_lt_is_Some_2 (related_cpus p) (Z.to_nat cpu)) as [b Hb]; [lia|].
  assert (covers cpu d = b) as Hc by (unfold covers; by rewrite Hp, Hb).
  rewrite Hb. simpl. destruct b.
  - rewrite decide_True by done. rewrite Hbody by apply list_elem_of_here.
    simpl. by destruct (g d q) as [[ret d'] q'].
  - rewrite decide_False by congruence.
    rewrite IH by (first [done|intros; by apply Hbody, list_elem_of_further]).
    simpl. destruct (list_find (fun d => covers cpu d = true) l) as [[i d0]|]; simpl; [|done].
    by destruct (g d0 q) as [[ret d'] q'].
Qed.

(** Moving one device of the list. *)
Lemma apply_level_sys nr l q i d lv :
  sys_wf nr (CpufreqSys l q) -> l !! i = Some d -> 0 <= lv <= max_level d ->
  let '(ret, d', q') := apply_level d q lv in
  sys_wf nr (CpufreqSys (<[i := d']> l) q') /\
  (synced (CpufreqSys l q) -> 0 <= ret -> synced (CpufreqSys (<[i := d']> l) q')).
Proof.
  intros [Hf Hnd] Hi Hlv. simpl in *.
  pose proof (Forall_lookup_1 _ _ _ _ Hf Hi) as [Hd (p & Hp & Hmask)].
  pose proof (apply_level_wf d q lv Hd Hlv) as Hd'. unfold apply_level in *.
  destruct (cpufreq_state d =? lv) eqn:E.
  { rewrite list_insert_id by done. by split. }
  destruct (freq_qos_update_request _ _) as [ret r] eqn:Eu. simpl in *. split; [split|].
  - simpl. apply Forall_insert; [done|]. split; [done|]. by exists p.
  - simpl. rewrite list_fmap_insert, list_insert_id; [done|].
    by rewrite list_lookup_fmap, Hi.
  - intros Hsync Hret d0 Hin. simpl in *.
    apply list_elem_of_lookup in Hin as [j Hj].
    destruct (decide (i = j)) as [<-|Hij].
    + rewrite list_lookup_insert_eq in Hj by (by eapply lookup_lt_Some).
      injection Hj as <-. unfold per_cpu_qos. simpl. rewrite lookup_insert_eq. simpl.
      by eapply qos_update_ok.
    + rewrite list_lookup_insert_ne in Hj by done.
      rewrite <- (Hsync d0) by (by eapply list_elem_of_lookup_2).
      unfold per_cpu_qos. rewrite lookup_insert_ne; [done|]. intros Heq. apply Hij.
      eapply NoDup_lookup; [exact Hnd|by rewrite list_lookup_fmap, Hi|].
      rewrite list_lookup_fmap, Hj. simpl. by f_equal.
Qed.

Lemma set_level_spec_wf nr P temp pct mf cpu sys :
  sys_wf nr sys ->
  let '(ret, sys') := set_level_spec (next_level P temp pct mf) cpu sys in
  sys_wf nr sys' /\ (synced sys -> 0 <= ret -> synced sys') /\
  ret ∈ [0; 1; - EINVAL; - ENODEV].
Proof.
  intros Hwf. unfold set_level_spec.
  destruct (list_find (fun d => covers cpu d = true) (cpufreq_dev_list sys))
    as [[i d]|] eqn:E.
  2:{ split_and!; [done|done|set_solver]. }
  apply list_find_Some in E as (Hi & _ & _). destruct sys as [l q].
  pose proof Hwf as [Hf _]. simpl in *.
  pose proof (Forall_lookup_1 _ _ _ _ Hf Hi) as [Hd _].
  pose proof (apply_level_sys nr l q i d _ Hwf Hi (next_level_range P temp pct mf d Hd)) as Hs.
  pose proof (apply_level_ret d q (next_level P temp pct mf d)) as Hr.
  destruct (apply_level _ _ _) as [[ret d'] q']. destruct Hs as [Hs1 Hs2].
  split_and!; [done|done|]. simpl in Hr. set_solver.
Qed.
(** freq_qos refuses one of the frequencies of the device with EINVAL. *)
Definition update_refused (sys : cpufreq_sys) (d : cpufreq_device) : Prop :=
  exists f : Z, f ∈ table_of d /\
    (freq_qos_update_request (per_cpu_qos (qos sys) (qos_req d)) f).1 = - EINVAL.

Lemma freq_at_in d l : dev_wf d -> 0 <= l <= max_level d -> freq_at d l ∈ table_of d.
Proof.
  intros Hd Hl. destruct (lookup_level d l Hd Hl) as (t & Ht & Hf).
  unfold table_of. rewrite Ht. by eapply list_elem_of_lookup_2.
Qed.

(** EINVAL of a level in range comes from the update of the request. *)
Lemma apply_level_einval sys d l :
  dev_wf d -> 0 <= l <= max_level d -> (apply_level d (qos sys) l).1.1 = - EINVAL ->
  update_refused sys d.
Proof.
  intros Hd Hl. unfold apply_level. destruct (_ =? _); [done|].
  destruct (freq_qos_update_request _ _) as [ret r] eqn:Eu. simpl. intros ->.
  exists (freq_at d l). split; [by apply freq_at_in|]. by rewrite Eu.
Qed.

(** The devices a call for [cpu] can work on, one of which refuses. *)
Definition call_refused (sys : cpufreq_sys) (cpu : Z) : Prop :=
  exists d, d ∈ cpufreq_dev_list sys /\ covers cpu d = true /\ update_refused sys d.

(** A number beyond the masks is used as soon as there is a device. *)
Lemma for_cpu_device_outside nr cpu body l q :
  Forall (dev_ok nr) l -> Z.of_nat nr <= cpu -> l <> [] -> for_cpu_device cpu body l q = None.
Proof.
  intros Hl Hcpu Hne. destruct l as [|d l]; [done|].
  apply Forall_cons in Hl as [[_ (p & Hp & Hmask)] _]. simpl. rewrite Hp.
  unfold cpumask_test_cpu. rewrite lookup_ge_None_2; [done|]. lia.
Qed.

End system.

(** ** Properties of [cpu_limits_set_level] *)

(** The level a request calls for, without machine arithmetic: 0 for "no
    limit"; otherwise the least level within the budget, not more than
    [cpu_limits_max_step] levels above the present one while the device is
    cool; the last level when no frequency is within the budget. *)
Definition throttle_level (P : cpu_limits_params) (temp pct mf : Z)
    (d : cpufreq_device) : Z :=
  if mf =? 0 then 0
  else match least_level d (budget d pct mf) with
       | None => max_level d
       | Some l =>
           if negb (cpu_limits_max_step P =? 0) && (temp <? s32 (cpu_limits_hot_temp P))
           then Z.min l (cpufreq_state d + cpu_limits_max_step P)
           else l
       end.

Lemma next_level_no_wrap P temp pct mf d :
  params_ok P -> dev_wf d -> cpufreq_state d + cpu_limits_max_step P <= UINT_MAX ->
  next_level P temp pct mf d = throttle_level P temp pct mf d.
Proof.
  intros (_ & _ & _ & _ & _ & _ & Hstep) Hd Hw. unfold next_level, throttle_level.
  destruct Hd as (_ & _ & _ & _ & _ & Hs & _).
  destruct (mf =? 0); [done|]. destruct (least_level _ _) as [l|]; [|done].
  unfold limit_step. rewrite u32_id by klia.
  destruct (negb _); simpl; [|done]. destruct (temp <? _); simpl; [|done].
  destruct (_ <? l) eqn:E; lia.
Qed.

Section set_level_properties.
Context `{FreqQos} `{KText}.
Context (P : cpu_limits_params) (S : thermal_sensors) (nr : nat).

Let temp := mi_thermal_get_device_temp S.
Let pct := cpu_limits_effective_floor_pct P temp.

Lemma cpu_limits_set_level_eq sys cpu mf :
  params_ok P -> sys_wf nr sys -> 0 <= cpu < Z.of_nat nr ->
  cpu_limits_set_level P S sys cpu mf =
  Some (set_level_spec (next_level P temp pct mf) cpu sys).
Proof.
  intros HP [Hf _] Hcpu. unfold cpu_limits_set_level. rewrite (proj1 HP). simpl.
  fold temp. fold pct.
  rewrite (for_cpu_device_spec nr cpu _
    (fun d q => apply_level d q (next_level P temp pct mf d))); [|done..|].
  - simpl. unfold set_level_spec.
    destruct (list_find (fun d => covers cpu d = true) (cpufreq_dev_list sys))
      as [[i d]|]; simpl; [|by destruct sys].
    by destruct (apply_level _ _ _) as [[ret d'] q'].
  - intros d Hd. rewrite Forall_forall in Hf. apply cpu_limits_one_spec.
    + by apply Hf.
    + by apply floor_pct_nonneg.
Qed.

(** C1: [cpu_limits_set_level] refines its specification: the first device
    whose policy covers the CPU, and no other, moves to the level the request
    calls for, its request is updated exactly when the level changes, and the
    result is that of the update; a CPU without a device gives ENODEV and
    changes nothing. *)
Theorem set_level_refines sys cpu mf :
  params_ok P -> sys_wf nr sys -> 0 <= cpu < Z.of_nat nr ->
  (forall d, d ∈ cpufreq_dev_list sys ->
     cpufreq_state d + cpu_limits_max_step P <= UINT_MAX) ->
  cpu_limits_set_level P S sys cpu mf =
  Some (set_level_spec (throttle_level P temp pct mf) cpu sys).
Proof.
  intros HP Hwf Hcpu Hw. rewrite cpu_limits_set_level_eq by done. f_equal.
  unfold set_level_spec.
  destruct (list_find _ _) as [[i d]|] eqn:E; [|done].
  apply list_find_Some in E as (Hi & _ & _).
  rewrite next_level_no_wrap; [done|done| |].
  - destruct Hwf as [Hf _]. by apply (Forall_lookup_1 _ _ _ _ Hf Hi).
  - apply Hw. by eapply list_elem_of_lookup_2.
Qed.

Lemma set_level_spec_einval mf cpu sys :
  sys_wf nr sys -> (set_level_spec (next_level P temp pct mf) cpu sys).1 = - EINVAL ->
  call_refused sys cpu.
Proof.
  intros [Hf _] He. unfold set_level_spec in He.
  destruct (list_find _ _) as [[i d]|] eqn:E; [|done].
  apply list_find_Some in E as (Hi & Hc & _).
  pose proof (Forall_lookup_1 _ _ _ _ Hf Hi) as [Hd _].
  exists d. split; [by eapply list_elem_of_lookup_2|]. split; [done|].
  apply (apply_level_einval _ _ _ Hd (next_level_range P temp pct mf d Hd)).
  by destruct (apply_level _ _ _) as [[ret d'] q'].
Qed.

Lemma set_level_outside_mask sys cpu mf :
  cpu_limits_enable P = true -> sys_wf nr sys -> cpufreq_dev_list sys <> [] ->
  Z.of_nat nr <= cpu -> cpu_limits_set_level P S sys cpu mf = None.
Proof.
  intros He [Hf _] Hne Hcpu. unfold cpu_limits_set_level. rewrite He. simpl.
  by rewrite (for_cpu_device_outside nr).
Qed.

(** The three ways a call can return. *)
Lemma set_level_cases sys cpu mf ret sys' :
  params_u32 P -> sys_wf nr sys -> 0 <= cpu ->
  cpu_limits_set_level P S sys cpu mf = Some (ret, sys') ->
  sys' = sys /\ (ret = 0 \/ ret = - ENODEV) \/
  (ret, sys') = set_level_spec (next_level P temp pct mf) cpu sys.
Proof.
  intros HP Hwf Hcpu Hset. destruct (cpu_limits_enable P) eqn:He.
  2:{ unfold cpu_limits_set_level in Hset. rewrite He in Hset. simpl in Hset.
      injection Hset as <- <-. auto. }
  destruct (decide (Z.of_nat nr <= cpu)) as [Hout|Hin].
  - left. destruct (cpufreq_dev_list sys) as [|d l] eqn:El.
    + unfold cpu_limits_set_level in Hset. rewrite He in Hset. simpl in Hset.
      rewrite El in Hset. simpl in Hset. injection Hset as <- <-.
      split; [destruct sys; simpl in *; congruence|by right].
    + rewrite set_level_outside_mask in Hset; try done. by rewrite El.
  - right. rewrite cpu_limits_set_level_eq in Hset by (done || lia). congruence.
Qed.

(** A call changes no device but for its level. *)
Lemma set_level_keeps_devices sys cpu mf ret sys' :
  params_u32 P -> sys_wf nr sys -> 0 <= cpu ->
  cpu_limits_set_level P S sys cpu mf = Some (ret, sys') ->
  sys_wf nr sys' /\ qos_req <$> cpufreq_dev_list sys' = qos_req <$> cpufreq_dev_list sys.
Proof.
  intros HP Hwf Hcpu Hset.
  destruct (set_level_cases _ _ _ _ _ HP Hwf Hcpu Hset) as [[-> _]|Heq]; [done|].
  pose proof (set_level_spec_wf nr P temp pct mf cpu sys Hwf) as Hs. rewrite <- Heq in Hs.
  split; [apply Hs|]. unfold set_level_spec in Heq.
  destruct (list_find _ _) as [[i d]|] eqn:E; [|by injection Heq as _ ->].
  apply list_find_Some in E as (Hi & _ & _).
  pose proof (apply_level_dev d (qos sys) (next_level P temp pct mf d)) as Hd.
  destruct (apply_level _ _ _) as [[ret' d'] q']. simpl in Hd. injection Heq as _ ->. simpl.
  rewrite list_fmap_insert, list_insert_id; [done|]. rewrite list_lookup_fmap, Hi, Hd. done.
Qed.

(** C2: Safety for every CPU number, every request and every value of the
    parameters, the switch and a wrap of the step included.  The only access
    outside a frequency table or a CPU mask is the test of a mask with a CPU
    number that is not below its width: it happens exactly when the limits
    are enabled, there is a device, and the number is too large.  Every other
    call returns: the state stays well formed, the WARN_ON of
    [cpufreq_set_level] cannot fire (EINVAL only occurs when freq_qos refuses
    a frequency of a device covering the CPU), and after a successful call
    every request still holds the frequency of its device's level. *)
Theorem set_level_safe sys cpu mf :
  params_u32 P -> sys_wf nr sys -> 0 <= cpu ->
  (cpu_limits_set_level P S sys cpu mf = None <->
     cpu_limits_enable P = true /\ cpufreq_dev_list sys <> [] /\ Z.of_nat nr <= cpu) /\
  forall ret sys', cpu_limits_set_level P S sys cpu mf = Some (ret, sys') ->
    sys_wf nr sys' /\ ret ∈ [0; 1; - EINVAL; - ENODEV] /\
    (ret = - EINVAL -> call_refused sys cpu) /\
    (synced sys -> 0 <= ret -> synced sys').
Proof.
  intros HP Hwf Hcpu. split.
  - split; [|intros (He & Hne & Hout); by apply set_level_outside_mask].
    intros Hn. destruct (cpu_limits_enable P) eqn:He.
    2:{ unfold cpu_limits_set_level in Hn. by rewrite He in Hn. }
    destruct (decide (Z.of_nat nr <= cpu)) as [Hout|Hin];
      [|by rewrite cpu_limits_set_level_eq in Hn by (done || lia)].
    split_and!; [done| |done]. intros Hl. unfold cpu_limits_set_level in Hn.
    rewrite He in Hn. simpl in Hn. by rewrite Hl in Hn.
  - intros ret sys' Hset.
    destruct (set_level_cases _ _ _ _ _ HP Hwf Hcpu Hset) as [[-> Hr]|Heq].
    + split_and!; [done|set_solver| |done]. by destruct Hr as [->| ->].
    + pose proof (set_level_spec_wf nr P temp pct mf cpu sys Hwf) as Hs.
      pose proof (set_level_spec_einval mf cpu sys Hwf) as Hr.
      rewrite <- Heq in Hs, Hr. destruct Hs as (? & ? & ?). by split_and!.
Qed.

(** The device a call for [cpu] works on, and its index. *)
Definition found (sys : cpufreq_sys) (cpu : Z) (i : nat) (d : cpufreq_device) : Prop :=
  list_find (fun d => covers cpu d = true) (cpufreq_dev_list sys) = Some (i, d).

Definition not_limited : Prop :=
  cpu_limits_max_step P = 0 \/ s32 (cpu_limits_hot_temp P) <= temp.

Lemma set_level_found sys cpu mf i d :
  params_ok P -> sys_wf nr sys -> 0 <= cpu < Z.of_nat nr -> found sys cpu i d ->
  dev_wf d /\ cpufreq_dev_list sys !! i = Some d /\
  cpu_limits_set_level P S sys cpu mf =
  Some (let '(ret, d', q') := apply_level d (qos sys) (next_level P temp pct mf d) in
        (ret, CpufreqSys (<[i := d']> (cpufreq_dev_list sys)) q')).
Proof.
  intros HP Hwf Hcpu Hfd. pose proof Hfd as (Hi & _ & _)%list_find_Some.
  split_and!; [|done|].
  - destruct Hwf as [Hf _]. by apply (Forall_lookup_1 _ _ _ _ Hf Hi).
  - rewrite cpu_limits_set_level_eq by done. unfold set_level_spec.
    unfold found in Hfd. by rewrite Hfd.
Qed.

Lemma next_level_not_limited mf d :
  not_limited -> mf <> 0 ->
  next_level P temp pct mf d = default (max_level d) (least_level d (budget d pct mf)).
Proof.
  intros Hn Hmf. unfold next_level. replace (mf =? 0) with false by lia.
  destruct (least_level _ _); [|done]. unfold limit_step.
  by replace (negb _ && _) with false by (destruct Hn; lia).
Qed.

(** The level chosen carries the largest frequency within the budget. *)
Lemma least_level_max d b l f :
  dev_wf d -> least_level d b = Some l -> f ∈ table_of d -> f <= b ->
  f <= freq_at d l.
Proof.
  intros (t & Ht & _ & Hu & Hdesc & _) Hl Hf Hb. unfold least_level, freq_at, table_of in *.
  rewrite Ht in *. simpl in *. apply fmap_Some in Hl as ([i x] & Hfind & ->).
  apply list_find_Some in Hfind as (Hlk & _ & Hbefore). simpl. rewrite Nat2Z.id.
  rewrite (list_lookup_total_correct _ _ _ Hlk).
  apply list_elem_of_lookup in Hf as [j Hj].
  destruct (decide (j < i)%nat) as [Hji|Hji]; [by destruct (Hbefore j f Hj Hji)|].
  destruct (decide (j = i)) as [->|Hne]; [by simplify_eq|].
  pose proof (Forall_lookup_1 _ _ _ _ Hu Hlk) as Hx.
  destruct (Hdesc i j x f ltac:(lia) Hlk Hj); klia.
Qed.

Lemma least_level_None d b f :
  least_level d b = None -> f ∈ table_of d -> b < f.
Proof.
  intros Hl Hf. unfold least_level in Hl. apply fmap_None, list_find_None in Hl.
  rewrite Forall_forall in Hl. specialize (Hl f Hf). lia.
Qed.

(** After a successful call the request holds the frequency of the next level. *)
Lemma set_level_value sys cpu mf i d ret sys' :
  params_ok P -> sys_wf nr sys -> 0 <= cpu < Z.of_nat nr -> found sys cpu i d ->
  synced sys -> cpu_limits_set_level P S sys cpu mf = Some (ret, sys') -> 0 <= ret ->
  qos_value (per_cpu_qos (qos sys') (qos_req d)) =
  Some (freq_at d (next_level P temp pct mf d)).
Proof.
  intros HP Hwf Hcpu Hfd Hsync Hset Hret.
  destruct (set_level_found sys cpu mf i d HP Hwf Hcpu Hfd) as (Hd & Hi & Heq).
  rewrite Hset in Heq. injection Heq as Heq. destruct sys as [l q]. simpl in *.
  pose proof (apply_level_sys nr l q i d _ Hwf Hi (next_level_range P temp pct mf d Hd)) as Hsys.
  pose proof (apply_level_dev d q (next_level P temp pct mf d)) as Hdev.
  destruct (apply_level _ _ _) as [[ret' d'] q']. simpl in Hdev. subst d'.
  injection Heq as <- ->. destruct Hsys as [_ Hsync'].
  apply (Hsync' Hsync Hret (set_state d (next_level P temp pct mf d))). simpl.
  apply list_elem_of_lookup_2 with i. apply list_lookup_insert_eq.
  by eapply lookup_lt_Some.
Qed.

(** The frequency of the level chosen without a step limit. *)
Lemma least_level_cap d b :
  dev_wf d ->
  let v := freq_at d (default (max_level d) (least_level d b)) in
  ((exists f, f ∈ table_of d /\ f <= b) ->
     v <= b /\ forall f, f ∈ table_of d -> f <= b -> f <= v) /\
  ((forall f, f ∈ table_of d -> b < f) -> v = freq_at d (max_level d)).
Proof.
  intros Hd v. subst v. split.
  - intros (f & Hf & Hfb). destruct (least_level _ _) as [lv|] eqn:E; simpl.
    + split; [by apply least_level_range|]. intros f' Hf' Hfb'.
      by eapply least_level_max.
    + apply (least_level_None _ _ f) in E; [lia|done].
  - intros Hall. destruct (least_level _ _) as [lv|] eqn:E; simpl; [|done].
    apply least_level_range in E as [Hlv Hle]; [|done].
    specialize (Hall _ (freq_at_in d lv Hd Hlv)). lia.
Qed.

(** The levels before the least one are above the budget. *)
Lemma least_level_before d b l k :
  dev_wf d -> least_level d b = Some l -> 0 <= k < l -> b < freq_at d k.
Proof.
  intros (t & Ht & Hlen & _) Hl Hk. unfold least_level, freq_at, table_of in *.
  rewrite Ht in *. simpl in *. apply fmap_Some in Hl as ([i x] & Hfind & ->).
  apply list_find_Some in Hfind as (Hlk & _ & Hbefore). simpl in *.
  apply lookup_lt_Some in Hlk. destruct (lookup_lt_is_Some_2 t (Z.to_nat k)) as [y Hy]; [lia|].
  rewrite (list_lookup_total_correct _ _ _ Hy).
  specialize (Hbefore (Z.to_nat k) y Hy ltac:(lia)). simpl in Hbefore. lia.
Qed.

(** Later levels have lower frequencies, or none. *)
Lemma freq_at_le d k l :
  dev_wf d -> 0 <= k <= l -> l <= max_level d -> freq_at d l <= freq_at d k.
Proof.
  intros Hd Hk Hl. destruct (decide (k = l)) as [->|Hne]; [done|].
  destruct (lookup_level d k Hd ltac:(lia)) as (t & Ht & Hfk).
  destruct (lookup_level d l Hd ltac:(lia)) as (t' & Ht' & Hfl).
  destruct Hd as (t0 & Ht0 & _ & Hu & Hdesc & _).
  assert (t' = t /\ t0 = t) as [-> ->] by (split; congruence).
  pose proof (Forall_lookup_1 _ _ _ _ Hu Hfk).
  destruct (Hdesc (Z.to_nat k) (Z.to_nat l) _ _ ltac:(lia) Hfk Hfl); klia.
Qed.

(** The level the step limit allows, as the code computes it. *)
Definition step_level (d : cpufreq_device) : Z := u32 (cpufreq_state d + cpu_limits_max_step P).

(** The frequency of the next level, within the budget or stopped by the step
    limit. *)
Lemma next_level_cap d mf l :
  dev_wf d -> 0 <= mf -> mf <> 0 -> least_level d (budget d pct mf) = Some l ->
  let b := budget d pct mf in let v := freq_at d (next_level P temp pct mf d) in
  (v <= b \/ v = freq_at d (step_level d)) /\
  (b < v <-> ~ not_limited /\ step_level d <= max_level d /\ b < freq_at d (step_level d)).
Proof.
  intros Hd Hmf0 Hmf Hl. pose proof (least_level_range d _ l Hd Hl) as [Hlr Hlb].
  assert (0 <= budget d pct mf) as Hb0 by (unfold budget; lia).
  cbv zeta. unfold next_level. replace (mf =? 0) with false by lia. rewrite Hl.
  unfold limit_step. fold (step_level d).
  assert (0 <= step_level d) as Hs0 by apply u32_range.
  unfold not_limited.
  destruct (cpu_limits_max_step P =? 0) eqn:E1; simpl; [split; [by left|lia]|].
  destruct (temp <? s32 (cpu_limits_hot_temp P)) eqn:E2; simpl; [|split; [by left|lia]].
  destruct (step_level d <? l) eqn:E3.
  - split; [by right|]. pose proof (least_level_before d _ l (step_level d) Hd Hl ltac:(lia)).
    split; [intros _|by intros (_ & _ & ?)]. split_and!; [lia|lia|done].
  - split; [by left|]. split; [lia|]. intros (_ & Hm & Hlt).
    pose proof (freq_at_le d l (step_level d) Hd ltac:(lia) Hm). lia.
Qed.

(** C3: The cap that a successful call leaves, on every branch.  Without a
    limit (0) it is the highest frequency of the table.  Otherwise the budget
    is the limit raised to the floor.  When no frequency is within the budget
    the cap is the last frequency of the table.  When there are such
    frequencies the cap is never below the largest of them; it is that
    frequency unless the step limit stops the device earlier, which is the
    case exactly when a step limit is set, the device is cool, and the
    frequency of the level one step further is above the budget: then the cap
    is the frequency of that level. *)
Theorem cap_is_maximal sys cpu mf i d ret sys' :
  params_ok P -> sys_wf nr sys -> 0 <= cpu < Z.of_nat nr -> found sys cpu i d ->
  synced sys -> 0 <= mf ->
  cpu_limits_set_level P S sys cpu mf = Some (ret, sys') -> 0 <= ret ->
  exists v, qos_value (per_cpu_qos (qos sys') (qos_req d)) = Some v /\
    v ∈ table_of d /\
    (mf = 0 -> forall f, f ∈ table_of d -> f <= v) /\
    (mf <> 0 ->
     let b := budget d pct mf in
     ((forall f, f ∈ table_of d -> b < f) -> v = freq_at d (max_level d)) /\
     ((exists f, f ∈ table_of d /\ f <= b) ->
        (forall f, f ∈ table_of d -> f <= b -> f <= v) /\
        (v <= b \/ v = freq_at d (step_level d)) /\
        (b < v <-> ~ not_limited /\ step_level d <= max_level d /\
                   b < freq_at d (step_level d)))).
Proof.
  intros HP Hwf Hcpu Hfd Hsync Hmf Hset Hret.
  destruct (set_level_found sys cpu mf i d HP Hwf Hcpu Hfd) as (Hd & _).
  exists (freq_at d (next_level P temp pct mf d)).
  split; [by eapply set_level_value|].
  split; [apply freq_at_in; [done|]; by apply next_level_range|]. split.
  - intros ->. unfold next_level. simpl. intros f Hf.
    destruct Hd as (t & Ht & Hlen & Hu & Hdesc & Hs & Hm).
    apply list_elem_of_lookup in Hf as [j Hj].
    assert (dev_wf d) as Hd by (by exists t).
    assert (Z.of_nat j <= max_level d) as Hjm
      by (unfold table_of in Hj; rewrite Ht in Hj; apply lookup_lt_Some in Hj; simpl in Hj; lia).
    replace f with (freq_at d (Z.of_nat j)); [apply freq_at_le; [done|lia..]|].
    unfold freq_at. rewrite Nat2Z.id. by apply list_lookup_total_correct.
  - intros Hne. cbv zeta. split.
    + intros Hall. unfold next_level. replace (mf =? 0) with false by lia.
      destruct (least_level _ _) as [l|] eqn:E; [|done].
      apply least_level_range in E as [Hlv Hle]; [|done].
      specialize (Hall _ (freq_at_in d l Hd Hlv)). lia.
    + intros (f & Hf & Hfb). destruct (least_level d (budget d pct mf)) as [l|] eqn:E;
        [|apply (least_level_None _ _ f) in E; [lia|done]].
      destruct (next_level_cap d mf l Hd Hmf Hne E) as [Hor Hiff]. split_and!; [|done|done].
      intros g Hg Hgb.
      destruct (Z.le_gt_cases (freq_at d (next_level P temp pct mf d)) (budget d pct mf))
        as [Hvb|]; [|lia].
      pose proof (least_level_max d _ l g Hd E Hg Hgb) as Hgl.
      pose proof (next_level_range P temp pct mf d Hd) as Hr.
      enough (next_level P temp pct mf d <= l) as Hnl
        by (pose proof (freq_at_le d _ l Hd (conj (proj1 Hr) Hnl)
              (proj2 (proj1 (least_level_range d _ l Hd E)))); lia).
      unfold next_level. replace (mf =? 0) with false by lia. rewrite E.
      apply limit_step_range. apply least_level_range in E as [? _]; [lia|done].
Qed.

(** The minimum that the parameter descriptions promise ("Minimum
    cpu_limits cap as percentage of cluster max frequency") is not kept.  The
    floor raises the limit, not the cap: when the floor is not itself a
    frequency of the table and the table reaches below it, every limit at or
    below the floor ends in a cap strictly below the floor. *)
Theorem cap_below_floor sys cpu mf i d ret sys' :
  params_ok P -> sys_wf nr sys -> 0 <= cpu < Z.of_nat nr -> found sys cpu i d ->
  synced sys -> mf <> 0 -> not_limited ->
  cpu_limits_set_level P S sys cpu mf = Some (ret, sys') -> 0 <= ret ->
  mf <= floor_freq d pct -> floor_freq d pct ∉ table_of d ->
  (exists f, f ∈ table_of d /\ f < floor_freq d pct) ->
  exists v, qos_value (per_cpu_qos (qos sys') (qos_req d)) = Some v /\
    v < floor_freq d pct.
Proof.
  intros HP Hwf Hcpu Hfd Hsync Hmf Hnl Hset Hret Hlow Hno (f & Hf & Hlt).
  destruct (set_level_found sys cpu mf i d HP Hwf Hcpu Hfd) as (Hd & _).
  eexists. split; [by eapply set_level_value|].
  rewrite next_level_not_limited by done. unfold budget.
  replace (Z.max mf (floor_freq d pct)) with (floor_freq d pct) by lia.
  destruct (least_level d (floor_freq d pct)) as [lv|] eqn:E; simpl.
  - apply least_level_range in E as [Hlv Hle]; [|done].
    pose proof (freq_at_in d lv Hd Hlv) as Hin.
    destruct (decide (freq_at d lv = floor_freq d pct)) as [He|]; [congruence|lia].
  - apply (least_level_None _ _ f) in E; [lia|done].
Qed.

(** A call moves the device found to the next level whatever the update
    answers. *)
Lemma set_level_list sys cpu mf i d :
  params_ok P -> sys_wf nr sys -> 0 <= cpu < Z.of_nat nr -> found sys cpu i d ->
  exists ret sys', cpu_limits_set_level P S sys cpu mf = Some (ret, sys') /\
    sys_wf nr sys' /\
    cpufreq_dev_list sys' =
      <[i := set_state d (next_level P temp pct mf d)]> (cpufreq_dev_list sys).
Proof.
  intros HP Hwf Hcpu Hfd.
  destruct (set_level_found sys cpu mf i d HP Hwf Hcpu Hfd) as (Hd & Hi & ->).
  destruct sys as [l q]. simpl in *.
  pose proof (apply_level_sys nr l q i d _ Hwf Hi (next_level_range P temp pct mf d Hd)) as Hsys.
  pose proof (apply_level_dev d q (next_level P temp pct mf d)) as Hdev.
  destruct (apply_level _ _ _) as [[ret' d'] q']. simpl in Hdev. subst d'.
  do 2 eexists. split; [done|]. split; [by apply Hsys|done].
Qed.

Lemma found_insert l q q' cpu i d s :
  found (CpufreqSys l q) cpu i d ->
  found (CpufreqSys (<[i := set_state d s]> l) q') cpu i (set_state d s).
Proof.
  unfold found. simpl. rewrite !list_find_Some. intros (Hi & Hc & Hb). split_and!.
  - apply list_lookup_insert_eq. by eapply lookup_lt_Some.
  - done.
  - intros j y Hj Hlt. rewrite list_lookup_insert_ne in Hj by lia. by apply (Hb j y).
Qed.

(** [n] identical calls, as the user-space daemon makes them. *)
Fixpoint update_n (n : nat) (sys : cpufreq_sys) (cpu mf : Z) : option cpufreq_sys :=
  match n with
  | O => Some sys
  | Datatypes.S n' => '(_, sys') ← cpu_limits_set_level P S sys cpu mf; update_n n' sys' cpu mf
  end.

Lemma next_level_step mf d l s :
  params_ok P -> dev_wf d -> mf <> 0 -> cpu_limits_max_step P <> 0 ->
  temp < s32 (cpu_limits_hot_temp P) -> least_level d (budget d pct mf) = Some l ->
  0 <= s -> s + cpu_limits_max_step P <= UINT_MAX ->
  next_level P temp pct mf (set_state d s) = Z.min l (s + cpu_limits_max_step P).
Proof.
  intros HP Hd Hmf Hst Hcool Hl Hs Hw. unfold next_level.
  replace (mf =? 0) with false by lia.
  change (least_level (set_state d s) (budget (set_state d s) pct mf))
    with (least_level d (budget d pct mf)). rewrite Hl. simpl. unfold limit_step.
  destruct HP as (_ & _ & _ & _ & _ & _ & Hu). rewrite u32_id by klia.
  replace (cpu_limits_max_step P =? 0) with false by lia.
  replace (temp <? _) with true by lia. simpl.
  destruct (_ <? l) eqn:E; lia.
Qed.

(** C10: convergence.  On a cool device, identical calls raise the cooling
    level by at most [cpu_limits_max_step] each and never past the level the
    limit calls for: after [n] calls it is min(target, start + n * step), so
    it reaches the target after ceil((target - start) / step) calls and stays
    there; a failing update does not slow it down. *)
Theorem repeated_calls_converge sys cpu mf i d l n :
  params_ok P -> sys_wf nr sys -> 0 <= cpu < Z.of_nat nr -> found sys cpu i d ->
  mf <> 0 -> cpu_limits_max_step P <> 0 -> temp < s32 (cpu_limits_hot_temp P) ->
  least_level d (budget d pct mf) = Some l -> cpufreq_state d <= l ->
  l + cpu_limits_max_step P <= UINT_MAX ->
  exists sys', update_n n sys cpu mf = Some sys' /\
    cpufreq_dev_list sys' =
    <[i := set_state d (Z.min l (cpufreq_state d + Z.of_nat n * cpu_limits_max_step P))]>
      (cpufreq_dev_list sys).
Proof.
  intros HP Hwf Hcpu Hfd Hmf Hst Hcool Hl Hle Hw. revert sys d Hwf Hfd Hl Hle.
  induction n as [|n IH]; intros sys d Hwf Hfd Hl Hle.
  - exists sys. split; [done|].
    replace (Z.min _ _) with (cpufreq_state d) by lia.
    pose proof Hfd as (Hi & _ & _)%list_find_Some.
    replace (set_state d (cpufreq_state d)) with d by (by destruct d).
    by rewrite list_insert_id.
  - destruct (set_level_found sys cpu mf i d HP Hwf Hcpu Hfd) as (Hd & Hi & _).
    destruct (set_level_list sys cpu mf i d HP Hwf Hcpu Hfd) as (ret & sys1 & Hset & Hwf1 & Hl1).
    pose proof Hd as (_ & _ & _ & _ & _ & Hs & _).
    pose proof (next_level_step mf d l (cpufreq_state d) HP Hd Hmf Hst Hcool Hl
      ltac:(lia) ltac:(lia)) as Hnext.
    replace (set_state d (cpufreq_state d)) with d in Hnext by (by destruct d).
    rewrite Hnext in Hl1. simpl. rewrite Hset. simpl.
    destruct HP as (HP0 & _ & _ & _ & _ & _ & Hu).
    destruct (IH sys1 (set_state d (Z.min l (cpufreq_state d + cpu_limits_max_step P))))
      as (sys' & Hn & Hl'); [done| |done|simpl; lia|].
    + destruct sys as [l0 q0], sys1 as [l1 q1]. simpl in Hl1. subst l1.
      by eapply found_insert.
    + exists sys'. split; [done|]. rewrite Hl', Hl1, list_insert_insert_eq. simpl.
      unfold set_state. simpl. do 2 f_equal. klia.
Qed.

(** C31: The step limit overflows.  [cpufreq_state + cpu_limits_max_step] is
    an [unsigned int] sum: with a huge step (UINT_MAX for "no limit") it wraps
    on a cool device that is already throttled, and a request for the same or
    a stronger mitigation lowers the cooling level. *)
Theorem step_overflow_lifts_cap sys cpu mf i d l :
  params_ok P -> sys_wf nr sys -> 0 <= cpu < Z.of_nat nr -> found sys cpu i d ->
  mf <> 0 -> temp < s32 (cpu_limits_hot_temp P) ->
  least_level d (budget d pct mf) = Some l -> cpufreq_state d <= l ->
  UINT_MAX < cpufreq_state d + cpu_limits_max_step P ->
  exists ret sys' s, cpu_limits_set_level P S sys cpu mf = Some (ret, sys') /\
    cpufreq_dev_list sys' = <[i := set_state d s]> (cpufreq_dev_list sys) /\
    s < cpufreq_state d.
Proof.
  intros HP Hwf Hcpu Hfd Hmf Hcool Hl Hle Hov.
  destruct (set_level_found sys cpu mf i d HP Hwf Hcpu Hfd) as (Hd & _).
  destruct (set_level_list sys cpu mf i d HP Hwf Hcpu Hfd) as (ret & sys1 & Hset & _ & Hl1).
  exists ret, sys1, (next_level P temp pct mf d). split_and!; [done|done|].
  destruct HP as (_ & _ & _ & _ & _ & _ & Hu). destruct Hd as (_ & _ & _ & _ & _ & Hs & Hm).
  assert (u32 (cpufreq_state d + cpu_limits_max_step P)
          = cpufreq_state d + cpu_limits_max_step P - 2 ^ 32) as Hwrap.
  { unfold u32, wrap_u. symmetry. apply Z.mod_unique with 1; klia. }
  unfold next_level. replace (mf =? 0) with false by lia. rewrite Hl.
  unfold limit_step. rewrite Hwrap.
  replace (cpu_limits_max_step P =? 0) with false by klia.
  replace (temp <? _) with true by lia. simpl.
  replace (_ <? l) with true by klia. klia.
Qed.






(** The CPU number written to the attribute is not checked: a number
    beyond the mask makes [cpumask_test_cpu] read outside it, as soon as
    there is one device. *)
Theorem store_reads_outside_mask sys cpu freq count :
  params_ok P -> sys_wf nr sys -> cpufreq_dev_list sys <> [] ->
  in_u32 cpu -> in_u32 freq -> Z.of_nat nr <= cpu ->
  cpu_limits_store P S sys (bs "cpu" ++ fmt_u cpu ++ SPC :: fmt_u freq) count = None.
Proof.
  intros HP Hwf Hne Hc Hfr Hnr. unfold cpu_limits_store.
  rewrite sscanf_uu_fmt by done. rewrite (proj1 HP). simpl.
  by rewrite set_level_outside_mask by (try done; apply HP).
Qed.

(** The attribute, for a CPU of the mask: the text "cpu<n> <freq>" is one
    call of [cpu_limits_set_level] with these numbers, whose result is
    discarded: the write succeeds even when the cap could not be set. *)
Theorem store_sets_level sys cpu freq count :
  params_ok P -> sys_wf nr sys -> 0 <= cpu < Z.of_nat nr ->
  in_u32 cpu -> in_u32 freq ->
  exists ret sys', cpu_limits_set_level P S sys cpu freq = Some (ret, sys') /\
    cpu_limits_store P S sys (bs "cpu" ++ fmt_u cpu ++ SPC :: fmt_u freq) count =
      Some (count, sys').
Proof.
  intros HP Hwf Hcpu Hc Hfr. unfold cpu_limits_store.
  rewrite sscanf_uu_fmt by done. rewrite (proj1 HP). simpl.
  rewrite cpu_limits_set_level_eq by done.
  destruct (set_level_spec _ _ _) as [ret sys']. by exists ret, sys'.
Qed.

End set_level_properties.

(** ** Building and destroying the list of devices *)

Section lifecycle_lemmas.
Context `{FreqQos}.

(** What a device holds, the latest acquisition first. *)
Definition dev_res (d : cpufreq_device) : list cpufreq_res :=
  [RQos (qos_req d); RTable (qos_req d); RCdev (qos_req d); RPolicy (qos_req d)].
Definition sys_res (l : list cpufreq_device) : list cpufreq_res := l ≫= dev_res.

Definition policy_ok (nr : nat) (p : cpufreq_policy) : Prop :=
  length (related_cpus p) = nr /\ Forall in_u32 (policy_freq_table p) /\
  Z.of_nat (length (policy_freq_table p)) <= UINT_MAX.

Definition env_ok (nr : nat) (env : nat -> cpu_env) : Prop :=
  forall cpu p, e_policy (env cpu) = Some p -> policy_ok nr p.

(** The device built for a CPU is well formed and starts uncapped. *)
Definition new_device (p : cpufreq_policy) (cpu : nat) : cpufreq_device :=
  let ml := Z.of_nat (length (valid_entries (policy_freq_table p))) - 1 in
  CpufreqDevice (policy_cpu p) 0 ml
    (Some (build_table (policy_freq_table p) (Z.to_nat (ml + 1)) UINT_MAX)) (Some p) cpu.

Lemma count_range nr p :
  policy_ok nr p -> 0 <= Z.of_nat (length (valid_entries (policy_freq_table p))) <= UINT_MAX.
Proof.
  intros (_ & _ & Hl). pose proof (length_filter (fun f => f <> CPUFREQ_ENTRY_INVALID)
    (policy_freq_table p)). unfold valid_entries. lia.
Qed.

Lemma new_device_ok nr p cpu :
  policy_ok nr p -> valid_entries (policy_freq_table p) <> [] ->
  dev_ok nr (new_device p cpu).
Proof.
  intros Hp Hne. pose proof (count_range nr p Hp) as Hc.
  assert (length (valid_entries (policy_freq_table p)) <> 0%nat)
    by (by destruct (valid_entries (policy_freq_table p))).
  split; [|exists p; split; [done|apply Hp]].
  eexists. split; [done|]. simpl. split_and!.
  - rewrite length_build_table. lia.
  - apply Forall_forall. intros f Hf.
    apply build_table_below in Hf as [->|[_ Hf]]; [klia| |klia].
    apply list_elem_of_filter in Hf as [_ Hf].
    destruct Hp as (_ & Hu & _). rewrite Forall_forall in Hu. by apply Hu.
  - apply build_table_descending.
  - lia.
  - lia.
  - klia.
Qed.

Lemma new_device_first p cpu :
  valid_entries (policy_freq_table p) <> [] ->
  hd 0 (build_table (policy_freq_table p)
    (Z.to_nat (max_level (new_device p cpu) + 1)) UINT_MAX) =
  freq_at (new_device p cpu) 0.
Proof.
  intros Hne. assert (forall t : list Z, t <> [] -> hd 0 t = t !!! 0%nat) as Ht by (by intros []).
  apply Ht. intros Heq%(f_equal length). rewrite length_build_table in Heq.
  simpl in Heq. destruct (valid_entries (policy_freq_table p)); [done|simpl in Heq; lia].
Qed.

(** One CPU: an error leaves the list and the ledger as they were; success
    adds the new device, with its request at the maximum frequency. *)
Lemma init_cpu_spec nr env cpu s :
  env_ok nr env ->
  let '(r, s', t) := init_cpu env cpu s in
  match r with
  | inl e => e < 0 /\ cpufreq_dev_list s' = cpufreq_dev_list s /\
      (forall j, j <> cpu -> per_cpu_qos (qos s') j = per_cpu_qos (qos s) j) /\
      forall h, replay t h = Some h
  | inr ret => 0 <= ret /\ exists p, e_policy (env cpu) = Some p /\
      policy_ok nr p /\ valid_entries (policy_freq_table p) <> [] /\
      cpufreq_dev_list s' = new_device p cpu :: cpufreq_dev_list s /\
      qos_value (per_cpu_qos (qos s') cpu) = Some (freq_at (new_device p cpu) 0) /\
      (forall j, j <> cpu -> per_cpu_qos (qos s') j = per_cpu_qos (qos s) j) /\
      forall h, replay t h = Some (dev_res (new_device p cpu) ++ h)
  end.
Proof.
  intros Henv. unfold init_cpu, acquire_ptr.
  destruct (e_policy (env cpu)) as [p|] eqn:Ep; [|by km_run].
  pose proof (Henv cpu p Ep) as Hp. pose proof (count_range nr p Hp) as Hc.
  assert (max_level (new_device p cpu) =
    Z.of_nat (length (valid_entries (policy_freq_table p))) - 1) as Hml by done.
  assert (forall (ret : Z) (s' : cpufreq_sys) t, ret = - ENODEV \/ ret = - ENOMEM -> s' = s ->
    (forall h, replay t h = Some h) -> ret < 0 /\ cpufreq_dev_list s' = cpufreq_dev_list s /\
      (forall j, j <> cpu -> per_cpu_qos (qos s') j = per_cpu_qos (qos s) j) /\
      forall h : list cpufreq_res, replay t h = Some h) as Herr.
  { unfold ENODEV, ENOMEM. intros ret s' t Hr -> Ht. split_and!; [lia|done..]. }
  rewrite (u32_id (Z.of_nat _)) by done.
  destruct (Z.eqb_spec (Z.of_nat (length (valid_entries (policy_freq_table p)))) 0) as [E|E].
  { km_run. apply Herr; [by auto|done|replay_run]. }
  rewrite u32_id by klia. rewrite <- Hml.
  assert (valid_entries (policy_freq_table p) <> []) as Hne
    by (intros Hn; rewrite Hn in E; simpl in E; lia).
  rewrite (new_device_first p cpu Hne).
  destruct (e_cdev (env cpu)); km_run; [|apply Herr; [by auto|done|replay_run]].
  destruct (e_table (env cpu)); km_run; [|apply Herr; [by auto|done|replay_run]].
  destruct (freq_qos_add_request _ _) as [ret r] eqn:Ea.
  destruct (Z.ltb_spec ret 0); km_run; simpl.
  - split_and!; [done|done| |replay_run].
    intros j Hj. unfold per_cpu_qos. by rewrite lookup_insert_ne.
  - split; [done|]. exists p. split_and!; [done|done|done|done| | |replay_run].
    + unfold per_cpu_qos. rewrite lookup_insert_eq. simpl. by eapply qos_add_ok.
    + intros j Hj. unfold per_cpu_qos. by rewrite lookup_insert_ne.
Qed.

Lemma add_device_ok nr s s' p cpu :
  sys_wf nr s -> synced s -> policy_ok nr p ->
  valid_entries (policy_freq_table p) <> [] ->
  cpu ∉ qos_req <$> cpufreq_dev_list s ->
  cpufreq_dev_list s' = new_device p cpu :: cpufreq_dev_list s ->
  qos_value (per_cpu_qos (qos s') cpu) = Some (freq_at (new_device p cpu) 0) ->
  (forall j, j <> cpu -> per_cpu_qos (qos s') j = per_cpu_qos (qos s) j) ->
  sys_wf nr s' /\ synced s'.
Proof.
  intros [Hf Hnd] Hsync Hp Hne Hnin Hl Hq Hj. split; [split|].
  - rewrite Hl. constructor; [by apply new_device_ok|done].
  - rewrite Hl. simpl. by constructor.
  - intros d Hd. rewrite Hl in Hd. apply elem_of_cons in Hd as [->|Hd]; [done|].
    rewrite Hj; [by apply Hsync|]. intros Heq. apply Hnin. rewrite <- Heq.
    by apply list_elem_of_fmap_2.
Qed.

Lemma synced_ext s s' :
  cpufreq_dev_list s' = cpufreq_dev_list s ->
  (forall d, d ∈ cpufreq_dev_list s ->
     per_cpu_qos (qos s') (qos_req d) = per_cpu_qos (qos s) (qos_req d)) ->
  synced s -> synced s'.
Proof. intros Hl Hq Hs d Hd. rewrite Hl in Hd. rewrite Hq by done. by apply Hs. Qed.

Lemma init_cpus_spec nr env cpus ret s :
  env_ok nr env -> sys_wf nr s -> synced s -> NoDup cpus -> 0 <= ret ->
  (forall c, c ∈ cpus -> c ∉ qos_req <$> cpufreq_dev_list s) ->
  let '(r, s', t) := init_cpus env cpus ret s in
  sys_wf nr s' /\ synced s' /\ exists k added,
    cpufreq_dev_list s' = added ++ cpufreq_dev_list s /\
    qos_req <$> added = reverse (take k cpus) /\
    (if decide (0 <= r) then k = length cpus else (k < length cpus)%nat) /\
    forall h, replay t h = Some (sys_res added ++ h).
Proof.
  intros Henv. revert ret s. induction cpus as [|cpu cpus IH]; intros ret s Hwf Hsync Hnd Hret Hnin.
  { km_run. simpl. split_and!; [done|done|]. exists 0%nat, []. by rewrite decide_True. }
  apply NoDup_cons in Hnd as [Hc Hnd]. simpl.
  pose proof (init_cpu_spec nr env cpu s Henv) as Hcpu. unfold mbind, km_bind.
  destruct (init_cpu env cpu s) as [[[e|ret'] s1] t1].
  - destruct Hcpu as (He & Hl & Hq & Ht). simpl. split_and!.
    + split; rewrite Hl; apply Hwf.
    + apply (synced_ext s); [done| |done]. intros d Hd. apply Hq. intros Heq.
      apply (Hnin cpu); [apply list_elem_of_here|]. rewrite <- Heq.
      by apply list_elem_of_fmap_2.
    + exists 0%nat, []. rewrite decide_False by lia. split_and!; [done|done|simpl; lia|].
      intros h. simpl. rewrite app_nil_r. apply Ht.
  - destruct Hcpu as (Hr & p & _ & Hp & Hne & Hl & Hv & Hq & Ht).
    destruct (add_device_ok nr s s1 p cpu) as [Hwf1 Hs1];
      [done..|apply Hnin, list_elem_of_here|done|done|done|].
    specialize (IH ret' s1 Hwf1 Hs1 Hnd Hr).
    destruct (init_cpus env cpus ret' s1) as [[r s'] t]. destruct IH as (Hw & Hs & k & added & Ha & Hk & Hd & Htr).
    { intros c Hin. rewrite Hl. simpl. rewrite not_elem_of_cons. split; [by intros ->|].
      apply Hnin. by apply list_elem_of_further. }
    split_and!; [done|done|]. exists (S k), (added ++ [new_device p cpu]). split_and!.
    + by rewrite Ha, Hl, <- app_assoc.
    + rewrite fmap_app, Hk. simpl. by rewrite reverse_cons.
    + case_decide; lia.
    + intros h. unfold replay in *. rewrite replay_with_app, Ht. simpl. rewrite Htr.
      unfold sys_res. by rewrite bind_app, <- app_assoc.
Qed.

Lemma destroy_devices_spec l s :
  Forall (fun d => is_Some (policy d) /\ is_Some (freq_table d)) l ->
  cpufreq_dev_list s = l ->
  let '(_, s', t) := destroy_devices l s in
  cpufreq_dev_list s' = [] /\ forall h, replay t (sys_res l ++ h) = Some h.
Proof.
  revert s. induction l as [|d l IH]; intros s Hf Hl; [by km_run|].
  apply Forall_cons in Hf as [[[p Hp] [ft Hft]] Hf]. cbn [destroy_devices].
  unfold destroy_device. rewrite Hp, Hft. km_run.
  match goal with |- context [destroy_devices l ?st] =>
    specialize (IH st Hf eq_refl); destruct (destroy_devices l st) as [[u s'] t] end.
  destruct IH as [Hl' Ht]. split; [done|]. intros h.
  unfold sys_res. cbn [mbind list_bind]. fold (sys_res l). unfold replay in *.
  simpl. repeat (case_decide; simplify_eq/=). apply Ht.
Qed.

(** C14: building and destroying the caps.  Whatever fails, and for whatever
    CPU, [mi_thermal_init_cpufreq] leaves a well-formed list in which every
    request holds the maximum frequency of its device, the devices are those
    of the CPUs before the failing one (all of them, latest first, when the
    result is not negative), and exactly their resources are held; and
    [mi_thermal_destroy_cpufreq] then empties the list and releases each of
    them once. *)
Theorem cpufreq_init_destroy nr env possible s0 :
  env_ok nr env -> NoDup possible -> cpufreq_dev_list s0 = [] ->
  let '(ret, s1, t1) := mi_thermal_init_cpufreq env possible s0 in
  let '(_, s2, t2) := mi_thermal_destroy_cpufreq s1 in
  sys_wf nr s1 /\ synced s1 /\
  (exists k, qos_req <$> cpufreq_dev_list s1 = reverse (take k possible) /\
     if decide (0 <= ret) then k = length possible else (k < length possible)%nat) /\
  replay t1 [] = Some (sys_res (cpufreq_dev_list s1)) /\
  cpufreq_dev_list s2 = [] /\ replay (t1 ++ t2) [] = Some [].
Proof.
  intros Henv Hnd Hl0. unfold mi_thermal_init_cpufreq.
  pose proof (init_cpus_spec nr env possible 0 s0 Henv) as Hi.
  destruct (init_cpus env possible 0 s0) as [[ret s1] t1].
  destruct Hi as (Hwf & Hs & k & added & Ha & Hk & Hd & Ht); [| |done|done| |].
  { split; rewrite Hl0; [done|constructor]. }
  { intros d. rewrite Hl0. by intros ?%elem_of_nil. }
  { intros c _. rewrite Hl0. apply not_elem_of_nil. }
  rewrite Hl0, app_nil_r in Ha. subst added.
  pose proof (destroy_devices_spec (cpufreq_dev_list s1) s1) as Hdes.
  unfold mi_thermal_destroy_cpufreq, mbind, km_bind, gets.
  destruct (destroy_devices _ s1) as [[u s2] t2]. destruct Hdes as [Hl2 Ht2]; [|done|].
  { destruct Hwf as [Hf _]. eapply Forall_impl; [exact Hf|].
    intros d [(t & Ht' & _) (p & Hp & _)]. eauto. }
  specialize (Ht []). rewrite app_nil_r in Ht. split_and!; [done|done|by exists k|done|done|].
  unfold replay in *. rewrite replay_with_app, Ht.
  specialize (Ht2 []). by rewrite app_nil_r in Ht2.
Qed.
End lifecycle_lemmas.

(** ** A concrete freq_qos, and witnesses *)

Section reference.

(** A request is active or not; an inactive one cannot be updated. *)
#[local] Instance FreqQosRef : FreqQos.
Proof.
  refine {|
    freq_qos_request := option Z;
    qos_zero := None;
    qos_value := fun r => r;
    freq_qos_add_request := fun r v =>
      match r with Some _ => (- EINVAL, r) | None => (1, Some v) end;
    freq_qos_update_request := fun r v =>
      match r with
      | None => (- EINVAL, None)
      | Some w => (if w =? v then 0 else 1, Some v)
      end;
    freq_qos_remove_request := fun _ => None |}.
  - intros [] v ret r' [= <- <-]; [unfold EINVAL; lia|done].
  - intros [w|] v; simpl; [|set_solver]. case_match; set_solver.
  - intros [w|] v ret r' [= <- <-]; [done|unfold EINVAL; lia].
  - intros [w|] v ret r' [= <- <-]; [case_match; lia|done].
Defined.

Definition example_policy : cpufreq_policy :=
  CpufreqPolicy 0 [true; true] [1000; 1500; CPUFREQ_ENTRY_INVALID; 3000; 2400; 2000].
Definition example_env (cpu : nat) : cpu_env := CpuEnv (Some example_policy) true true.
Definition example_sys : cpufreq_sys :=
  run_st (mi_thermal_init_cpufreq example_env [0%nat; 1%nat]) (CpufreqSys [] ∅).
Definition example_dev : cpufreq_device := new_device example_policy 1.

(** A low floor, so that more than one step is needed. *)
Definition low_floor (step : Z) : cpu_limits_params :=
  CpuLimitsParams true 40 40 40 47 53 step.
Definition hot_sensors : thermal_sensors :=
  ThermalSensors (Some (0, 412)) 50 38 (temp_buf_of "45200") (temp_buf_of "0")
    (temp_buf_of "0") (temp_buf_of "315").

Lemma example_env_ok : env_ok 2 example_env.
Proof.
  intros cpu p [= <-]. split_and!; [done| |by vm_compute].
  simpl. repeat constructor; by vm_compute.
Qed.

Lemma example_nodup : NoDup [0%nat; 1%nat].
Proof. apply (bool_decide_unpack _); by vm_compute. Qed.

Lemma example_sys_ok : sys_wf 2 example_sys /\ synced example_sys.
Proof.
  pose proof (init_cpus_spec 2 example_env [0%nat; 1%nat] 0 (CpufreqSys [] ∅)
    example_env_ok) as Hi.
  unfold example_sys, mi_thermal_init_cpufreq, run_st.
  destruct (init_cpus _ _ _ _) as [[r s'] t].
  destruct Hi as (Hwf & Hs & _); [by split; constructor|by intros d ?%elem_of_nil|
    apply example_nodup|done| |done].
  intros c _. apply not_elem_of_nil.
Qed.

Lemma example_params_ok s : in_u32 s -> params_ok (low_floor s).
Proof. intros Hs. split; [done|]. unfold params_u32. simpl. klia. Qed.

#[local] Existing Instance KTextRef.

Definition pct_of (P : cpu_limits_params) (S : thermal_sensors) : Z :=
  cpu_limits_effective_floor_pct P (mi_thermal_get_device_temp S).
Definition after (P : cpu_limits_params) (S : thermal_sensors) (sys : cpufreq_sys)
    (mf : Z) : Z * cpufreq_sys :=
  default (- EINVAL, sys) (cpu_limits_set_level P S sys 0 mf).

Lemma freq_table_built_witness :
  let table := [1500; 3000; UINT_MAX; 2000; 3000] in
  build_table table 4 UINT_MAX = [3000; 2000; 1500; 0] /\
  let t := build_table table (length (valid_entries table)) UINT_MAX in
  length t = length (valid_entries table) /\ descending t /\
  forall f, 0 < f -> (f ∈ t <-> f ∈ table /\ f <> CPUFREQ_ENTRY_INVALID).
Proof.
  split; [done|]. apply freq_table_built. repeat constructor; by vm_compute.
Defined.

Lemma set_level_refines_witness :
  cpu_limits_set_level (low_floor 1) example_sensors example_sys 1 1600 =
  Some (set_level_spec (throttle_level (low_floor 1)
    (mi_thermal_get_device_temp example_sensors)
      (pct_of (low_floor 1) example_sensors) 1600) 1 example_sys).
Proof.
  apply (set_level_refines (low_floor 1) example_sensors 2).
  - by apply example_params_ok.
  - apply example_sys_ok.
  - lia.
  - intros d Hd. change (cpufreq_dev_list example_sys)
      with [new_device example_policy 1; new_device example_policy 0] in Hd.
    rewrite !elem_of_cons, elem_of_nil in Hd.
    destruct Hd as [->|[->|[]]]; by vm_compute.
Defined.

Lemma set_level_safe_witness :
  (forall ret sys', cpu_limits_set_level (low_floor UINT_MAX) hot_sensors example_sys 1 1 =
     Some (ret, sys') -> sys_wf 2 sys') /\
  cpu_limits_set_level (low_floor UINT_MAX) hot_sensors example_sys 7 1 = None.
Proof.
  split.
  - intros ret sys' Hset.
    apply (set_level_safe (low_floor UINT_MAX) hot_sensors 2 example_sys 1 1
      (proj2 (example_params_ok UINT_MAX ltac:(klia))) (proj1 example_sys_ok)
      ltac:(lia)) in Hset. apply Hset.
  - apply (set_level_safe (low_floor UINT_MAX) hot_sensors 2).
    + apply example_params_ok. klia.
    + apply example_sys_ok.
    + lia.
    + by split_and!.
Defined.

(** On a cool device, with the default step limit of 1: the second level of
    the table, 2400, although 1500 would be within the budget. *)
Lemma cap_is_maximal_witness :
  let sys' := (after (low_floor 1) example_sensors example_sys 1600).2 in
  qos_value (per_cpu_qos (qos sys') 1) = Some 2400 /\
  exists v, qos_value (per_cpu_qos (qos sys') 1) = Some v /\ v ∈ table_of example_dev /\
    (v <= budget example_dev (pct_of (low_floor 1) example_sensors) 1600 \/
     v = freq_at example_dev (step_level (low_floor 1) example_dev)).
Proof.
  split; [by vm_compute|].
  destruct (cap_is_maximal (low_floor 1) example_sensors 2 example_sys 1 1600 0 example_dev 1
    (after (low_floor 1) example_sensors example_sys 1600).2) as (v & Hv & Hin & _ & Hc).
  - by apply example_params_ok.
  - apply example_sys_ok.
  - lia.
  - by vm_compute.
  - apply example_sys_ok.
  - done.
  - by vm_compute.
  - done.
  - exists v. split; [exact Hv|]. split; [exact Hin|]. apply Hc; [done|].
    exists 1500. split; [by apply (bool_decide_unpack _); vm_compute|by vm_compute].
Defined.

Lemma cap_below_floor_witness :
  let sys' := (after cpu_limits_defaults hot_sensors example_sys 2000).2 in
  exists v, qos_value (per_cpu_qos (qos sys') 1) = Some v /\
    v < floor_freq example_dev (pct_of cpu_limits_defaults hot_sensors).
Proof.
  apply (cap_below_floor cpu_limits_defaults hot_sensors 2 example_sys 0 2000 0 example_dev 1).
  - split; [done|]. by split_and!; vm_compute.
  - apply example_sys_ok.
  - lia.
  - by vm_compute.
  - apply example_sys_ok.
  - done.
  - right. by vm_compute.
  - by vm_compute.
  - done.
  - by vm_compute.
  - apply (bool_decide_unpack _); by vm_compute.
  - exists 2400. split; [by apply (bool_decide_unpack _); vm_compute|by vm_compute].
Defined.

Lemma repeated_calls_converge_witness :
  exists sys', update_n (low_floor 1) example_sensors 3 example_sys 0 1100 = Some sys' /\
    cpufreq_dev_list sys' = <[0%nat := set_state example_dev 3]> (cpufreq_dev_list example_sys).
Proof.
  apply (repeated_calls_converge (low_floor 1) example_sensors 2 example_sys 0 1100 0
    example_dev 4 3).
  - by apply example_params_ok.
  - apply example_sys_ok.
  - lia.
  - by vm_compute.
  - done.
  - done.
  - by vm_compute.
  - by vm_compute.
  - by vm_compute.
  - by vm_compute.
Defined.

Lemma step_overflow_lifts_cap_witness :
  let sys := (after (low_floor 1) example_sensors example_sys 1100).2 in
  exists ret sys' s,
    cpu_limits_set_level (low_floor UINT_MAX) example_sensors sys 0 1100 = Some (ret, sys') /\
    cpufreq_dev_list sys' = <[0%nat := set_state (set_state example_dev 1) s]>
      (cpufreq_dev_list sys) /\ s < 1.
Proof.
  apply (step_overflow_lifts_cap (low_floor UINT_MAX) example_sensors 2 _ 0 1100 0
    (set_state example_dev 1) 4).
  - by apply example_params_ok.
  - pose proof (cpu_limits_set_level_eq (low_floor 1) example_sensors 2 example_sys 0 1100
      (example_params_ok 1 ltac:(by vm_compute)) (proj1 example_sys_ok) ltac:(lia)) as Heq.
    unfold after. rewrite Heq. simpl default.
    pose proof (set_level_spec_wf 2 (low_floor 1) (mi_thermal_get_device_temp example_sensors)
      (cpu_limits_effective_floor_pct (low_floor 1) (mi_thermal_get_device_temp example_sensors))
      1100 0 example_sys (proj1 example_sys_ok)) as Hwf.
    destruct (set_level_spec _ _ _). apply Hwf.
  - lia.
  - by vm_compute.
  - done.
  - by vm_compute.
  - by vm_compute.
  - by vm_compute.
  - by vm_compute.
Defined.



Lemma store_reads_outside_mask_witness :
  cpu_limits_store (low_floor 1) example_sensors example_sys
    (bs "cpu" ++ fmt_u 4000 ++ SPC :: fmt_u 1800) 12 = None.
Proof.
  apply (store_reads_outside_mask (low_floor 1) example_sensors 2).
  - by apply example_params_ok.
  - apply example_sys_ok.
  - by vm_compute.
  - by vm_compute.
  - by vm_compute.
  - lia.
Defined.

Lemma store_sets_level_witness :
  exists ret sys',
    cpu_limits_set_level (low_floor 1) example_sensors example_sys 1 1800 = Some (ret, sys') /\
    cpu_limits_store (low_floor 1) example_sensors example_sys
      (bs "cpu" ++ fmt_u 1 ++ SPC :: fmt_u 1800) 10 = Some (10, sys').
Proof.
  apply (store_sets_level (low_floor 1) example_sensors 2).
  - by apply example_params_ok.
  - apply example_sys_ok.
  - lia.
  - by vm_compute.
  - by vm_compute.
Defined.

Lemma cpufreq_init_destroy_witness :
  let '(ret, s1, t1) := mi_thermal_init_cpufreq example_env [0%nat; 1%nat] (CpufreqSys [] ∅) in
  let '(_, s2, t2) := mi_thermal_destroy_cpufreq s1 in
  sys_wf 2 s1 /\ synced s1 /\
  (exists k, qos_req <$> cpufreq_dev_list s1 = reverse (take k [0%nat; 1%nat]) /\
     if decide (0 <= ret) then k = 2%nat else (k < 2)%nat) /\
  replay t1 [] = Some (sys_res (cpufreq_dev_list s1)) /\
  cpufreq_dev_list s2 = [] /\ replay (t1 ++ t2) [] = Some [].
Proof.
  apply (cpufreq_init_destroy 2 example_env [0%nat; 1%nat]).
  - apply example_env_ok.
  - apply example_nodup.
  - done.
Defined.
End reference.
