(* ===== verification/ThermalRace.v ===== *)
(** * ThermalRace: cpu_limits while its parameters change

    [cpu_limits_set_level] of mi_thermal/mi_thermal_interface.c holds the list
    lock, but the module parameters are plain variables that sysfs writes at
    any time: each of their uses is a read of its own.  Here every use has its
    own value, so that one call with arbitrary values is a call during which
    the parameters are written arbitrarily often. *)

From S2P Require Import Prelude KText KTextRef ThermalTemp ThermalFreq.

(** The values the uses of the parameters read, in the order of the code:
    [cpu_limits_enable]; the temperatures and floors of
    [cpu_limits_effective_floor_pct]; in the loop body [cpu_limits_max_step]
    tested, the hot temperature, [cpu_limits_max_step] compared and assigned. *)
Record reads := Reads {
  read_enable : bool;
  read_crit_temp : Z;
  read_crit_floor_pct : Z;
  read_hot_temp : Z;
  read_hot_floor_pct : Z;
  read_floor_pct : Z;
  step_tested : Z;
  hot_temp_tested : Z;
  step_compared : Z;
  step_assigned : Z
}.

(** Reads of 32-bit variables. *)
Definition reads_u32 (R : reads) : Prop :=
  Forall in_u32 [read_crit_temp R; read_crit_floor_pct R; read_hot_temp R; read_hot_floor_pct R;
    read_floor_pct R; step_tested R; hot_temp_tested R; step_compared R; step_assigned R].

(** All reads find the same parameters. *)
Definition reads_of (P : cpu_limits_params) : reads := {|
  read_enable := cpu_limits_enable P;
  read_crit_temp := cpu_limits_crit_temp P;
  read_crit_floor_pct := cpu_limits_crit_floor_pct P;
  read_hot_temp := cpu_limits_hot_temp P;
  read_hot_floor_pct := cpu_limits_hot_floor_pct P;
  read_floor_pct := cpu_limits_floor_pct P;
  step_tested := cpu_limits_max_step P;
  hot_temp_tested := cpu_limits_hot_temp P;
  step_compared := cpu_limits_max_step P;
  step_assigned := cpu_limits_max_step P
|}.

Definition racy_floor_pct (R : reads) (temp : Z) : Z :=
  if s32 (read_crit_temp R) <=? temp then read_crit_floor_pct R
  else if s32 (read_hot_temp R) <=? temp then read_hot_floor_pct R
  else read_floor_pct R.

Definition racy_limit_step (R : reads) (device_temp state level : Z) : Z :=
  if negb (step_tested R =? 0) &&
     (device_temp <? s32 (hot_temp_tested R)) &&
     (u32 (state + step_compared R) <? level)
  then u32 (state + step_assigned R)
  else level.

Section race.
Context `{FreqQos}.

Definition racy_one (R : reads) (device_temp floor_pct max_freq : Z)
    (d : cpufreq_device) (q : qos_store) : option dev_result :=
  if max_freq =? 0 then cpufreq_set_level d q 0
  else
    max_freq ← raise_to_floor (freq_table d) floor_pct max_freq;
    found ← find_level (freq_table d) max_freq (Z.to_nat (max_level d + 1)) 0;
    '(ret, d, q) ←
      match found with
      | Some level =>
          cpufreq_set_level d q (racy_limit_step R device_temp (cpufreq_state d) level)
      | None => Some (- ENODEV, d, q)
      end;
    if ret =? - ENODEV then cpufreq_set_level d q (max_level d)
    else Some (ret, d, q).

(** The call, with the values its parameter uses read. *)
Definition racy_set_level `{KText} (R : reads) (S : thermal_sensors) (sys : cpufreq_sys)
    (cpu max_freq : Z) : option (Z * cpufreq_sys) :=
  if negb (read_enable R) then Some (0, sys)
  else
    let device_temp := mi_thermal_get_device_temp S in
    let floor_pct := racy_floor_pct R device_temp in
    '(ret, l, q) ← for_cpu_device cpu (racy_one R device_temp floor_pct max_freq)
       (cpufreq_dev_list sys) (qos sys);
    Some (ret, CpufreqSys l q).

Lemma racy_reads_of `{KText} P S sys cpu mf :
  racy_set_level (reads_of P) S sys cpu mf = cpu_limits_set_level P S sys cpu mf.
Proof. reflexivity. Qed.

Definition racy_level (R : reads) (temp pct mf : Z) (d : cpufreq_device) : Z :=
  if mf =? 0 then 0
  else match least_level d (budget d pct mf) with
       | None => max_level d
       | Some l => racy_limit_step R temp (cpufreq_state d) l
       end.

(** A level beyond the last one trips the WARN_ON and changes nothing. *)
Definition guarded_apply (d : cpufreq_device) (q : qos_store) (l : Z) : dev_result :=
  if max_level d <? l then (- EINVAL, d, q) else apply_level d q l.

Lemma racy_level_nonneg R temp pct mf d : dev_wf d -> 0 <= racy_level R temp pct mf d.
Proof.
  intros Hd. unfold racy_level. pose proof Hd as (_ & _ & _ & _ & _ & Hs & _).
  destruct (mf =? 0); [lia|]. destruct (least_level d _) as [l|] eqn:E; [|lia].
  apply least_level_range in E as [Hl _]; [|done]. unfold racy_limit_step.
  pose proof (u32_range (cpufreq_state d + step_assigned R)). case_match; klia.
Qed.

Lemma guarded_set_level d q l :
  dev_wf d -> 0 <= l -> cpufreq_set_level d q l = Some (guarded_apply d q l).
Proof.
  intros Hd Hl. unfold guarded_apply. destruct (max_level d <? l) eqn:E.
  - unfold cpufreq_set_level. by rewrite E.
  - rewrite cpufreq_set_level_wf by (done || lia). done.
Qed.

Lemma guarded_ret d q l : (guarded_apply d q l).1.1 ∈ [0; 1; - EINVAL].
Proof. unfold guarded_apply. case_match; [set_solver|apply apply_level_ret]. Qed.

Lemma racy_one_spec R temp pct mf d q :
  dev_wf d -> 0 <= pct ->
  racy_one R temp pct mf d q = Some (guarded_apply d q (racy_level R temp pct mf d)).
Proof.
  intros Hd Hpct. pose proof (racy_level_nonneg R temp pct mf d Hd) as Hn.
  unfold racy_one, racy_level in *. pose proof Hd as (_ & _ & _ & _ & _ & Hs & _).
  destruct (mf =? 0); [by rewrite guarded_set_level|].
  destruct (search_level d pct mf Hd Hpct) as [-> Hfind]. simpl. rewrite Hfind. simpl.
  destruct (least_level d _) as [l|].
  - rewrite guarded_set_level by done. simpl.
    pose proof (guarded_ret d q (racy_limit_step R temp (cpufreq_state d) l)) as Hret.
    destruct (guarded_apply d q _) as [[ret d'] q']. simpl in Hret.
    replace (ret =? - ENODEV) with false; [done|].
    symmetry. apply Z.eqb_neq. rewrite !elem_of_cons, elem_of_nil in Hret.
    unfold EINVAL, ENODEV in *. lia.
  - simpl. by rewrite guarded_set_level by (done || lia).
Qed.

Lemma racy_floor_nonneg R temp : reads_u32 R -> 0 <= racy_floor_pct R temp.
Proof.
  unfold reads_u32. rewrite !Forall_cons. intros (_ & H1 & _ & H2 & H3 & _).
  unfold racy_floor_pct. repeat case_match; klia.
Qed.

(** What the call does to the system: the level of the device it finds, or
    nothing. *)
Definition racy_spec (level : cpufreq_device -> Z) (cpu : Z) (sys : cpufreq_sys)
  : Z * cpufreq_sys :=
  match list_find (fun d => covers cpu d = true) (cpufreq_dev_list sys) with
  | None => (- ENODEV, sys)
  | Some (i, d) =>
      let '(ret, d', q') := guarded_apply d (qos sys) (level d) in
      (ret, CpufreqSys (<[i := d']> (cpufreq_dev_list sys)) q')
  end.

Lemma racy_set_level_eq `{KText} nr R S sys cpu mf :
  reads_u32 R -> read_enable R = true -> sys_wf nr sys -> 0 <= cpu < Z.of_nat nr ->
  racy_set_level R S sys cpu mf =
  Some (racy_spec (racy_level R (mi_thermal_get_device_temp S)
    (racy_floor_pct R (mi_thermal_get_device_temp S)) mf) cpu sys).
Proof.
  intros HR Hen [Hf _] Hcpu. unfold racy_set_level. rewrite Hen. simpl.
  set (temp := mi_thermal_get_device_temp S). set (pct := racy_floor_pct R temp).
  rewrite (for_cpu_device_spec nr cpu _
    (fun d q => guarded_apply d q (racy_level R temp pct mf d))); [|done..|].
  - simpl. unfold racy_spec.
    destruct (list_find (fun d => covers cpu d = true) (cpufreq_dev_list sys)) as [[i d]|]; [|by destruct sys].
    by destruct (guarded_apply _ _ _) as [[ret d'] q'].
  - intros d Hd. rewrite Forall_forall in Hf. destruct (Hf d Hd) as [Hdw _].
    apply racy_one_spec; [done|]. by apply racy_floor_nonneg.
Qed.

Lemma racy_set_level_outside `{KText} nr R S sys cpu mf :
  read_enable R = true -> sys_wf nr sys -> cpufreq_dev_list sys <> [] -> Z.of_nat nr <= cpu ->
  racy_set_level R S sys cpu mf = None.
Proof.
  intros Hen [Hf _] Hne Hcpu. unfold racy_set_level. rewrite Hen. simpl.
  by rewrite (for_cpu_device_outside nr).
Qed.

(** A level beyond the last one can only come from two reads of the step
    limit that differ. *)
Lemma racy_level_beyond R temp pct mf d :
  dev_wf d -> max_level d < racy_level R temp pct mf d -> step_compared R <> step_assigned R.
Proof.
  intros Hd Hgt Heq. unfold racy_level in Hgt. pose proof Hd as (_ & _ & _ & _ & _ & Hs & _).
  destruct (mf =? 0); [lia|]. destruct (least_level d _) as [l|] eqn:E; [|lia].
  apply least_level_range in E as [Hl _]; [|done]. unfold racy_limit_step in Hgt.
  rewrite Heq in Hgt. destruct (_ && _) eqn:Eb; [|lia]. apply andb_prop in Eb as [_ Eb]. lia.
Qed.

(** What a call for a CPU of the masks does. *)
Lemma racy_spec_safe nr R temp pct mf cpu sys :
  sys_wf nr sys ->
  let '(ret, sys') := racy_spec (racy_level R temp pct mf) cpu sys in
  sys_wf nr sys' /\ (synced sys -> 0 <= ret -> synced sys') /\
  ret ∈ [0; 1; - EINVAL; - ENODEV] /\
  (ret = - EINVAL ->
     call_refused sys cpu \/ step_compared R <> step_assigned R /\ sys' = sys).
Proof.
  intros Hwf. unfold racy_spec.
  destruct (list_find _ _) as [[i d]|] eqn:E; [|split_and!; [done|done|set_solver|done]].
  apply list_find_Some in E as (Hi & Hc & _). destruct sys as [l q]. simpl in *.
  pose proof Hwf as [Hf _]. pose proof (Forall_lookup_1 _ _ _ _ Hf Hi) as [Hd _].
  pose proof (racy_level_nonneg R temp pct mf d Hd) as Hn.
  pose proof (guarded_ret d q (racy_level R temp pct mf d)) as Hret.
  unfold guarded_apply in *. destruct (max_level d <? _) eqn:Em.
  - rewrite list_insert_id by done. split_and!; [done|done|set_solver|].
    intros _. right. split; [|done]. apply (racy_level_beyond R temp pct mf d Hd). lia.
  - pose proof (apply_level_sys nr l q i d _ Hwf Hi (conj Hn (proj1 (Z.ltb_ge _ _) Em))) as Hs.
    pose proof (apply_level_einval (CpufreqSys l q) d _ Hd (conj Hn (proj1 (Z.ltb_ge _ _) Em))) as He.
    simpl in He. destruct (apply_level d q _) as [[ret d'] q']. destruct Hs as [Hs1 Hs2].
    simpl in Hret, He. split_and!; [done|done|set_solver|]. intros Hr. left. exists d.
    split; [by eapply list_elem_of_lookup_2|]. split; [done|by apply He].
Qed.

(** C11: A call during which the parameters are written arbitrarily, for every
    CPU number.  As without such writes, the only access outside a table or a
    mask is the test of a mask with a number not below its width.  Otherwise
    the call returns, and the state stays well formed and in step with the
    requests, whatever the single reads found; if all of them found the same
    parameters the call is the one of the sequential model.  When the result
    is EINVAL, either freq_qos refused a frequency of a device covering the
    CPU, or the WARN_ON of [cpufreq_set_level] fired: then nothing was changed,
    and the step limit read for the comparison and the one read for the
    assignment differ. *)
Theorem racing_params_safe `{KText} (nr : nat) (R : reads) (S : thermal_sensors)
    (sys : cpufreq_sys) (cpu mf : Z) :
  reads_u32 R -> sys_wf nr sys -> 0 <= cpu ->
  (forall P, racy_set_level (reads_of P) S sys cpu mf = cpu_limits_set_level P S sys cpu mf) /\
  (racy_set_level R S sys cpu mf = None <->
     read_enable R = true /\ cpufreq_dev_list sys <> [] /\ Z.of_nat nr <= cpu) /\
  forall ret sys', racy_set_level R S sys cpu mf = Some (ret, sys') ->
    sys_wf nr sys' /\ (synced sys -> 0 <= ret -> synced sys') /\
    ret ∈ [0; 1; - EINVAL; - ENODEV] /\
    (ret = - EINVAL ->
       call_refused sys cpu \/ step_compared R <> step_assigned R /\ sys' = sys).
Proof.
  intros HR Hwf Hcpu. split; [intros P; apply racy_reads_of|].
  destruct (read_enable R) eqn:Hen.
  2:{ unfold racy_set_level. rewrite Hen. simpl. split; [naive_solver|].
      intros ret sys' [= <- <-]. split_and!; [done|done|set_solver|done]. }
  destruct (decide (Z.of_nat nr <= cpu)) as [Hout|Hin].
  - destruct (cpufreq_dev_list sys) as [|d l] eqn:El.
    + unfold racy_set_level. rewrite Hen. simpl. rewrite El. simpl. split; [naive_solver|].
      intros ret sys' [= <- <-].
      replace (CpufreqSys [] (qos sys)) with sys by (destruct sys; simpl in *; congruence).
      split_and!; [done|done|set_solver|done].
    + assert (racy_set_level R S sys cpu mf = None) as ->
        by (apply (racy_set_level_outside nr); try done; by rewrite El).
      split; [naive_solver|done].
  - rewrite racy_set_level_eq with (nr := nr) by (done || lia). split; [naive_solver lia|].
    match goal with |- context [racy_spec (racy_level R ?t ?p mf)] =>
      pose proof (racy_spec_safe nr R t p mf cpu sys Hwf) as Hs end.
    intros ret sys' [= Heq]. rewrite Heq in Hs. exact Hs.
Qed.
End race.

(** ** Witnesses *)

#[local] Existing Instance FreqQosRef.
#[local] Existing Instance KTextRef.

(** The step limit is read as 1 for the comparison and as 1000 for the
    assignment. *)
Definition torn_step : reads := {|
  read_enable := true;
  read_crit_temp := 53; read_crit_floor_pct := 1;
  read_hot_temp := 47; read_hot_floor_pct := 1; read_floor_pct := 1;
  step_tested := 1; hot_temp_tested := 47; step_compared := 1; step_assigned := 1000
|}.

Lemma racing_params_safe_witness :
  racy_set_level torn_step example_sensors example_sys 1 1100 = Some (- EINVAL, example_sys) /\
  (call_refused example_sys 1 \/ step_compared torn_step <> step_assigned torn_step /\
     example_sys = example_sys) /\
  racy_set_level torn_step example_sensors example_sys 2 1100 = None.
Proof.
  assert (reads_u32 torn_step) as HR by (repeat constructor; by vm_compute).
  assert (racy_set_level torn_step example_sensors example_sys 1 1100 =
    Some (- EINVAL, example_sys)) as Hset by (by vm_compute).
  split; [exact Hset|]. split.
  - apply (racing_params_safe 2 torn_step example_sensors example_sys 1 1100 HR
      (proj1 example_sys_ok) ltac:(lia)) in Hset.
    apply Hset. done.
  - apply (racing_params_safe 2 torn_step example_sensors example_sys 2 1100 HR
      (proj1 example_sys_ok) ltac:(lia)). by split_and!.
Defined.
