(* ===== verification/ThermalAttr.v ===== *)
(** * ThermalAttr: the sysfs attributes of mi_thermal/mi_thermal_interface.c

    The variables behind the attributes, the generic show and store functions
    for integers and strings, one constructor per attribute, and the two
    attribute groups.  The string attributes named after sensors are the
    buffers [mi_thermal_get_device_temp] parses, which [sensors_of] makes
    explicit. *)

From stdpp Require Import functions.
From S2P Require Import Prelude KText KTextRef ThermalTemp.

Definition PAGE_SIZE : nat := Z.to_nat 4096.

(** The [int] and the [char\[MI_THERMAL_BUF_LEN\]] variables. *)
Inductive int_var :=
| temp_state | balance_mode | modem_limit | wifi_limit | flash_state
| torch_level | torch_real_level | thermal_max_brightness
| display_therm_temp | voice_limit | super_hdr | cloud_game | dynamic_tj
| market_download_limit | board_sensor_temp_comp_default
| poor_modem_limit | cpu_nolimit_temp_default | ntn_limit | modem_level
| boot_complete | charger_mode | powersave_mode | power_level.

Inductive str_var :=
| boost_buf | board_sensor_temp | board_sensor_second_temp
| board_sensor_other_temp | ambient_sensor_temp.

#[global] Instance int_var_eq_dec : EqDecision int_var.
Proof. solve_decision. Defined.
#[global] Instance str_var_eq_dec : EqDecision str_var.
Proof. solve_decision. Defined.

Record thermal_vars := ThermalVars {
  ints : int_var -> Z;
  strs : str_var -> bytes;
  switch_mode : Z;
  screen_state : bool;
  usb_online : Z;
  board_sensor : option bytes;
  ambient_sensor : option bytes
}.

Definition set_int (v : int_var) (x : Z) (s : thermal_vars) : thermal_vars :=
  ThermalVars (<[v := x]> (ints s)) (strs s) (switch_mode s) (screen_state s)
    (usb_online s) (board_sensor s) (ambient_sensor s).
Definition set_str (v : str_var) (x : bytes) (s : thermal_vars) : thermal_vars :=
  ThermalVars (ints s) (<[v := x]> (strs s)) (switch_mode s) (screen_state s)
    (usb_online s) (board_sensor s) (ambient_sensor s).
Definition set_switch_mode (x : Z) (s : thermal_vars) : thermal_vars :=
  ThermalVars (ints s) (strs s) x (screen_state s)
    (usb_online s) (board_sensor s) (ambient_sensor s).

(** The initial values of the static variables. *)
Definition initial_vars : thermal_vars :=
  ThermalVars (fun _ => 0)
    (fun _ => bs "0" ++ replicate (MI_THERMAL_BUF_LEN - 1) NUL)
    (-1) false 0 None None.

(** What [mi_thermal_get_device_temp] reads. *)
Definition sensors_of (s : thermal_vars) (bat : option (Z * Z)) : thermal_sensors :=
  ThermalSensors bat (ints s temp_state) (ints s display_therm_temp)
    (strs s board_sensor_temp) (strs s board_sensor_second_temp)
    (strs s board_sensor_other_temp) (strs s ambient_sensor_temp).

(** The attributes: those of MI_INT_ATTR and MI_STRING_ATTR, and the others by
    name.  [cpu_limits] is in ThermalFreq. *)
Inductive attr :=
| IntAttr (v : int_var)
| StringAttr (v : str_var)
| CpuLimits
| Sconfig
| ScreenState
| UsbOnline
| BoardSensor
| AmbientSensor
| BoardSensorTemp.

#[global] Instance attr_eq_dec : EqDecision attr.
Proof. solve_decision. Defined.

(** [show] functions fill a page and return the number of characters. *)
Definition show_text (text : bytes) (buf : bytes) : Z * bytes :=
  let '(n, buf) := scnprintf buf 0 PAGE_SIZE text in (Z.of_nat n, buf).

Definition mi_int_show (value : Z) (buf : bytes) : Z * bytes :=
  show_text (fmt_d value ++ [NL]) buf.

Definition mi_string_show (value : bytes) (buf : bytes) : Z * bytes :=
  show_text (cstr value ++ [NL]) buf.

Definition cpu_limits_show (buf : bytes) : Z * bytes :=
  show_text (bs "cpu" ++ fmt_u 0 ++ SPC :: fmt_u UINT_MAX ++ [NL]) buf.

Definition thermal_sconfig_show (buf : bytes) : Z * bytes :=
  show_text (fmt_d (-1) ++ [NL]) buf.

Definition thermal_screen_state_show (s : thermal_vars) (buf : bytes) : Z * bytes :=
  show_text (fmt_d (if screen_state s then 1 else 0) ++ [NL]) buf.

Definition thermal_usb_online_show (s : thermal_vars) (buf : bytes) : Z * bytes :=
  show_text (fmt_d (usb_online s) ++ [NL]) buf.

Definition thermal_board_sensor_show (s : thermal_vars) (buf : bytes) : Z * bytes :=
  show_text (default (bs "invalid") (cstr <$> board_sensor s) ++ [NL]) buf.

Definition thermal_ambient_sensor_show (s : thermal_vars) (buf : bytes) : Z * bytes :=
  show_text (default (bs "invalid") (cstr <$> ambient_sensor s) ++ [NL]) buf.

Definition thermal_board_sensor_temp_show (s : thermal_vars) (buf : bytes) : Z * bytes :=
  mi_string_show (strs s board_sensor_temp) buf.

Section store.
Context `{KText}.

(** [simple_strtol] returns a [long]; the variable is an [int]. *)
Definition mi_int_store (buf : bytes) (count : nat) : Z * Z :=
  (s32 (simple_strtol (cstr buf)), Z.of_nat count).

Definition mi_string_store (value : bytes) (buf : bytes) (count : nat) : bytes * Z :=
  let len := Nat.min count (MI_THERMAL_BUF_LEN - 1) in
  let value := memcpy value 0 (take len buf) in
  let value := <[len := NUL]> value in
  let value := strim value in
  (value, Z.of_nat count).

(** The value read is not used, and the mode is reset to -1. *)
Definition thermal_sconfig_store (s : thermal_vars) (buf : bytes) (count : nat)
  : thermal_vars * Z :=
  let _val := s32 (simple_strtol (cstr buf)) in
  (set_switch_mode (-1) s, Z.of_nat count).

Definition thermal_board_sensor_temp_store (s : thermal_vars) (buf : bytes)
    (count : nat) : thermal_vars * Z :=
  let '(v, _) := mi_string_store (strs s board_sensor_temp) buf count in
  let s := set_str board_sensor_temp v s in
  let _temp := s32 (simple_strtol (cstr v)) in
  (s, Z.of_nat count).

(** The dispatch of sysfs, by attribute; [None] when the attribute has no
    store function.  Stores of [cpu_limits] do not change these variables. *)
Definition attr_show (a : attr) (s : thermal_vars) (buf : bytes) : Z * bytes :=
  match a with
  | IntAttr v => mi_int_show (ints s v) buf
  | StringAttr v => mi_string_show (strs s v) buf
  | CpuLimits => cpu_limits_show buf
  | Sconfig => thermal_sconfig_show buf
  | ScreenState => thermal_screen_state_show s buf
  | UsbOnline => thermal_usb_online_show s buf
  | BoardSensor => thermal_board_sensor_show s buf
  | AmbientSensor => thermal_ambient_sensor_show s buf
  | BoardSensorTemp => thermal_board_sensor_temp_show s buf
  end.

Definition attr_store (a : attr) (s : thermal_vars) (buf : bytes) (count : nat)
  : option (thermal_vars * Z) :=
  match a with
  | IntAttr v => let '(x, r) := mi_int_store buf count in Some (set_int v x s, r)
  | StringAttr v =>
      let '(x, r) := mi_string_store (strs s v) buf count in Some (set_str v x s, r)
  | Sconfig => Some (thermal_sconfig_store s buf count)
  | BoardSensorTemp => Some (thermal_board_sensor_temp_store s buf count)
  | CpuLimits | ScreenState | UsbOnline | BoardSensor | AmbientSensor => None
  end.
End store.

(** The attribute groups. *)
Definition mi_thermal_attrs : list (string * attr) := [
  ("temp_state", IntAttr temp_state);
  ("cpu_limits", CpuLimits);
  ("sconfig", Sconfig);
  ("screen_state", ScreenState);
  ("boost", StringAttr boost_buf);
  ("board_sensor", BoardSensor);
  ("board_sensor_temp", BoardSensorTemp);
  ("board_sensor_second_temp", StringAttr board_sensor_second_temp);
  ("board_sensor_other_temp", StringAttr board_sensor_other_temp);
  ("balance_mode", IntAttr balance_mode);
  ("modem_limit", IntAttr modem_limit);
  ("wifi_limit", IntAttr wifi_limit);
  ("flash_state", IntAttr flash_state);
  ("torch_level", IntAttr torch_level);
  ("torch_real_level", IntAttr torch_real_level);
  ("thermal_max_brightness", IntAttr thermal_max_brightness);
  ("display_therm_temp", IntAttr display_therm_temp);
  ("voice_limit", IntAttr voice_limit);
  ("super_hdr", IntAttr super_hdr);
  ("cloud_game", IntAttr cloud_game);
  ("dynamic_tj", IntAttr dynamic_tj);
  ("market_download_limit", IntAttr market_download_limit);
  ("board_sensor_temp_comp", IntAttr board_sensor_temp_comp_default);
  ("poor_modem_limit", IntAttr poor_modem_limit);
  ("cpu_nolimit_temp", IntAttr cpu_nolimit_temp_default);
  ("ntn_limit", IntAttr ntn_limit);
  ("modem_level", IntAttr modem_level);
  ("ambient_sensor", AmbientSensor);
  ("ambient_sensor_temp", StringAttr ambient_sensor_temp);
  ("boot_complete", IntAttr boot_complete);
  ("charger_temp", IntAttr charger_mode);
  ("usb_online", UsbOnline)
]%string.

Definition mi_powersave_attrs : list (string * attr) := [
  ("powersave_mode", IntAttr powersave_mode);
  ("power_level", IntAttr power_level)
]%string.

#[global] Arguments PAGE_SIZE : simpl never.
#[global] Arguments mi_string_store : simpl never.

(** ** Properties *)

Definition buf_ok (b : bytes) : Prop := length b = MI_THERMAL_BUF_LEN /\ terminated b.

(** The values of the variables: [int]s in range, strings terminated inside
    their buffers. *)
Definition vars_ok (s : thermal_vars) : Prop :=
  (forall v, in_s32 (ints s v)) /\ (forall v, buf_ok (strs s v)).

(** The buffer of a sysfs write: [count] bytes and a terminator. *)
Definition sysfs_buf (text : bytes) : bytes := text ++ [NUL].

Section attr_lemmas.
Context `{KText}.

Lemma memcpy_take (b src : bytes) n :
  (n <= length src)%nat -> (n < length b)%nat ->
  <[n := NUL]> (memcpy b 0 (take n src)) = take n src ++ NUL :: drop (S n) b.
Proof.
  intros Hs Hb. unfold memcpy.
  assert (length (take n b) = length (take n src)) as Hlen by (rewrite !length_take; lia).
  rewrite <- (take_drop n b) at 1.
  pose proof (list_inserts_app_here [] (take n b) (drop n b) (take n src) Hlen) as Hi.
  simpl in Hi. rewrite Hi.
  destruct (lookup_lt_is_Some_2 b n Hb) as [x Hx]. rewrite (drop_S _ _ _ Hx).
  rewrite insert_app_r_alt by (rewrite length_take; lia).
  rewrite length_take. by replace (n - _)%nat with 0%nat by lia.
Qed.

Lemma mi_string_store_spec value text :
  buf_ok value ->
  let '(value', r) := mi_string_store value (sysfs_buf text) (length text) in
  buf_ok value' /\ r = Z.of_nat (length text) /\
  cstr value' = rstrip (cstr (take 127 text)).
Proof.
  intros [Hl Ht]. unfold mi_string_store.
  change (MI_THERMAL_BUF_LEN - 1)%nat with 127%nat.
  set (len := Nat.min (length text) 127).
  assert (take len (sysfs_buf text) = take 127 text) as Htake.
  { unfold sysfs_buf. rewrite take_app_le by (unfold len; lia). unfold len.
    destruct (decide (length text <= 127)%nat).
    - rewrite Nat.min_l by lia. by rewrite !take_ge by lia.
    - by rewrite Nat.min_r by lia. }
  rewrite memcpy_take.
  2:{ unfold sysfs_buf. rewrite length_app. unfold len. lia. }
  2:{ rewrite Hl. unfold len, MI_THERMAL_BUF_LEN. lia. }
  rewrite Htake. set (b := take 127 text ++ NUL :: _).
  assert (terminated b) as Hb by (unfold terminated, b; set_solver).
  assert (cstr b = cstr (take 127 text)) as Hc.
  { unfold b. clear. induction (take 127 text) as [|c s IH]; simpl; [done|].
    case_decide; [done|]. by f_equal. }
  split_and!; [split; [|by apply terminated_strim]|done|by rewrite cstr_strim, Hc].
  rewrite length_strim. unfold b. rewrite length_app, length_take. cbn [length].
  rewrite length_drop, Hl. unfold MI_THERMAL_BUF_LEN in *. unfold len. lia.
Qed.

Lemma fmt_d_terminated v t :
  cstr (fmt_d v ++ [NL] ++ NUL :: t) = fmt_d v ++ [NL].
Proof.
  rewrite app_assoc. apply cstr_app_nul. rewrite not_elem_of_app.
  split; [apply fmt_d_no_nul|by rewrite list_elem_of_singleton].
Qed.

Lemma show_text_page text p :
  length p = PAGE_SIZE -> (length text < PAGE_SIZE)%nat ->
  exists r, show_text text p = (Z.of_nat (length text), text ++ NUL :: r).
Proof.
  intros Hp Ht. unfold show_text, scnprintf. destruct PAGE_SIZE as [|room] eqn:E; [lia|].
  rewrite take_ge by lia. exists (drop (S (length text)) p). f_equal. unfold memcpy.
  rewrite <- (take_drop (S (length text)) p) at 1.
  pose proof (list_inserts_app_here [] (take (S (length text)) p)
    (drop (S (length text)) p) (text ++ [NUL])) as Hi.
  cbn [length app] in Hi. rewrite Hi; [by rewrite <- app_assoc|].
  rewrite length_take, length_app. cbn [length]. lia.
Qed.

Lemma PAGE_SIZE_big : (4000 < PAGE_SIZE)%nat.
Proof. unfold PAGE_SIZE. lia. Qed.

(** C35: stores keep the variables well formed.  Whatever bytes are written
    to whatever attribute, integers stay in the range of [int], and every
    string buffer keeps its length and a terminator inside it: at most 127
    bytes are copied, and the string kept is the text up to the first NUL
    without its trailing white space. *)
Theorem attr_store_ok a s text s' r :
  vars_ok s -> attr_store a s (sysfs_buf text) (length text) = Some (s', r) ->
  vars_ok s' /\ r = Z.of_nat (length text) /\
  (forall v, a = StringAttr v -> cstr (strs s' v) = rstrip (cstr (take 127 text))) /\
  (a = BoardSensorTemp ->
     cstr (strs s' board_sensor_temp) = rstrip (cstr (take 127 text))).
Proof.
  intros [Hi Hs] Hst.
  assert (forall v w, buf_ok w -> vars_ok (set_str v w s)) as Hset.
  { intros v w Hw. split; [apply Hi|]. intros v'. simpl.
    destruct (decide (v' = v)) as [->|]; [by rewrite fn_lookup_insert|].
    rewrite fn_lookup_insert_ne by done. apply Hs. }
  destruct a; cbn [attr_store] in Hst; try discriminate Hst.
  - injection Hst as <- <-. split; [|by split_and!]. split; [|apply Hs]. intros v'. simpl.
    destruct (decide (v' = v)) as [->|]; [rewrite fn_lookup_insert; apply s32_range|].
    rewrite fn_lookup_insert_ne by done. apply Hi.
  - pose proof (mi_string_store_spec (strs s v) text (Hs v)) as Hm.
    destruct (mi_string_store _ _ _) as [w r']. destruct Hm as (Hw & -> & Hc). injection Hst as <- <-.
    split; [by apply Hset|]. split_and!; [done| |done]. intros v' [= <-]. simpl. by rewrite fn_lookup_insert.
  - injection Hst as <- <-. by split_and!.
  - pose proof (mi_string_store_spec (strs s board_sensor_temp) text (Hs _)) as Hm.
    unfold thermal_board_sensor_temp_store in Hst.
    destruct (mi_string_store _ _ _) as [w r']. destruct Hm as (Hw & -> & Hc). injection Hst as <- <-.
    split; [by apply Hset|]. split_and!; [done|done|]. intros _. simpl. by rewrite fn_lookup_insert.
Qed.

(** C36: reading back.  An [int] written in decimal is read back as the same
    text, and no other attribute of the two groups changes: every attribute
    has a variable of its own. *)
Theorem attr_roundtrip n v x s page :
  (n, IntAttr v) ∈ mi_thermal_attrs ++ mi_powersave_attrs ->
  in_s32 x -> length page = PAGE_SIZE ->
  exists s', attr_store (IntAttr v) s (sysfs_buf (fmt_d x ++ [NL])) (length (fmt_d x ++ [NL]))
      = Some (s', Z.of_nat (length (fmt_d x ++ [NL]))) /\
    (exists rest, attr_show (IntAttr v) s' page =
      (Z.of_nat (length (fmt_d x ++ [NL])), (fmt_d x ++ [NL]) ++ NUL :: rest)) /\
    forall m b, (m, b) ∈ mi_thermal_attrs ++ mi_powersave_attrs -> m <> n ->
      attr_show b s' page = attr_show b s page.
Proof.
  intros Hn Hx Hp. eexists. split; [done|]. split.
  - simpl. rewrite fn_lookup_insert. unfold sysfs_buf.
    rewrite <- app_assoc, fmt_d_terminated, simple_strtol_fmt_nl, s32_id by done.
    apply show_text_page; [done|]. rewrite length_app. simpl.
    pose proof (length_fmt_d x). pose proof PAGE_SIZE_big. lia.
  - intros m b Hb Hmn.
    assert (b <> IntAttr v) as Hbv.
    { intros ->. apply Hmn. revert Hb Hn. clear.
      assert (NoDup ((mi_thermal_attrs ++ mi_powersave_attrs).*2)) as Hnd
        by (apply (bool_decide_unpack _); by vm_compute).
      intros [i Hi]%list_elem_of_lookup [j Hj]%list_elem_of_lookup.
      assert (i = j) as <-; [|congruence].
      eapply NoDup_lookup; [exact Hnd|by rewrite list_lookup_fmap, Hi|].
      by rewrite list_lookup_fmap, Hj. }
    destruct b as [w| | | | | | | |]; simpl; try done.
    rewrite fn_lookup_insert_ne; [done|]. congruence.
Qed.

(** The buffers of the sensors and the attributes that write them. *)
Definition sensor_attr (v : str_var) : attr :=
  if decide (v = board_sensor_temp) then BoardSensorTemp else StringAttr v.

(** What a write to a sensor attribute leaves in its buffer. *)
Lemma sensor_store_cstr v text s :
  vars_ok s ->
  exists s', attr_store (sensor_attr v) s (sysfs_buf text) (length text) =
      Some (s', Z.of_nat (length text)) /\
    vars_ok s' /\ cstr (strs s' v) = rstrip (cstr (take 127 text)).
Proof.
  intros [Hi Hs]. pose proof (mi_string_store_spec (strs s v) text (Hs v)) as Hm.
  assert (forall w, buf_ok w -> vars_ok (set_str v w s)) as Hset.
  { intros w Hw. split; [apply Hi|]. intros v'. simpl.
    destruct (decide (v' = v)) as [->|]; [by rewrite fn_lookup_insert|].
    rewrite fn_lookup_insert_ne by done. apply Hs. }
  unfold sensor_attr.
  destruct (decide (v = board_sensor_temp)) as [->|Hv]; cbn [attr_store];
    unfold thermal_board_sensor_temp_store;
    destruct (mi_string_store _ _ _) as [w r]; destruct Hm as (Hw & -> & Hc);
    eexists; (split; [done|]); (split; [by apply Hset|]); simpl;
    by rewrite fn_lookup_insert.
Qed.

Lemma rstrip_fmt_nl x : rstrip (cstr (take 127 (fmt_d x ++ [NL]))) = fmt_d x.
Proof.
  rewrite take_ge by (rewrite length_app; simpl; pose proof (length_fmt_d x); lia).
  rewrite cstr_id.
  - rewrite rstrip_app_spaces by (repeat constructor; apply isspace_NL).
    apply rstrip_id, fmt_d_no_space.
  - rewrite not_elem_of_app.
    split; [apply fmt_d_no_nul|by rewrite list_elem_of_singleton].
Qed.

Lemma parse_temp_fmt x b :
  in_s32 x -> cstr b = fmt_d x -> mi_thermal_parse_temp (Some b) = scale_temp x.
Proof.
  intros Hx Hc. unfold mi_thermal_parse_temp. rewrite Hc.
  pose proof (kstrtoint_fmt x Hx) as Hk.
  destruct (fmt_d x) as [|c t] eqn:E; [by destruct (fmt_d_nonempty x)|]. by rewrite Hk.
Qed.

(** A decimal number written to a sensor attribute with a trailing
    newline is the reading [mi_thermal_parse_temp] finds in its buffer. *)
Theorem sensor_store_read v x s :
  vars_ok s -> in_s32 x ->
  exists s', attr_store (sensor_attr v) s (sysfs_buf (fmt_d x ++ [NL]))
      (length (fmt_d x ++ [NL])) = Some (s', Z.of_nat (length (fmt_d x ++ [NL]))) /\
    mi_thermal_parse_temp (Some (strs s' v)) = scale_temp x.
Proof.
  intros Hok Hx. destruct (sensor_store_cstr v (fmt_d x ++ [NL]) s Hok) as (s' & Hst & _ & Hc).
  exists s'. split; [done|]. apply parse_temp_fmt; [done|]. by rewrite Hc, rstrip_fmt_nl.
Qed.

(** Leading white space hides a sensor.  [mi_string_store] ignores the
    pointer [strim] returns, so leading white space stays in the buffer and
    [kstrtoint] refuses it: however hot, the reading counts as missing. *)
Theorem leading_space_hides_sensor v c text s s' r :
  vars_ok s -> isspace c = true -> c <> NUL ->
  attr_store (sensor_attr v) s (sysfs_buf (c :: text)) (length (c :: text)) = Some (s', r) ->
  mi_thermal_parse_temp (Some (strs s' v)) = INT_MIN.
Proof.
  intros Hok Hsp Hc Hst. destruct (sensor_store_cstr v (c :: text) s Hok) as (s1 & Hst1 & _ & Heq).
  rewrite Hst in Hst1. injection Hst1 as <- _.
  unfold mi_thermal_parse_temp. rewrite Heq. simpl. rewrite decide_False by done. simpl.
  destruct (rstrip (cstr (take 126 text))) as [|x t]; [by rewrite Hsp|].
  destruct (kstrtoint_space c (x :: t) Hsp) as [e He]. by rewrite He.
Qed.
End attr_lemmas.

(** ** Witnesses *)

#[local] Existing Instance KTextRef.

Lemma initial_vars_ok : vars_ok initial_vars.
Proof.
  split; intros v; simpl; [by vm_compute|]. split; [by vm_compute|].
  apply (bool_decide_unpack _); by vm_compute.
Qed.

Definition stored (a : attr) (text : bytes) : thermal_vars * Z :=
  default (initial_vars, 0) (attr_store a initial_vars (sysfs_buf text) (length text)).

Lemma attr_store_ok_witness :
  let text := bs "  45200 " ++ [NL] in
  let s' := (stored BoardSensorTemp text).1 in
  vars_ok s' /\ (stored BoardSensorTemp text).2 = Z.of_nat (length text) /\
  (forall v, BoardSensorTemp = StringAttr v ->
     cstr (strs s' v) = rstrip (cstr (take 127 text))) /\
  (BoardSensorTemp = BoardSensorTemp ->
     cstr (strs s' board_sensor_temp) = rstrip (cstr (take 127 text))).
Proof.
  apply (attr_store_ok BoardSensorTemp initial_vars); [apply initial_vars_ok|done].
Defined.

Lemma attr_roundtrip_witness :
  exists s', attr_store (IntAttr modem_limit) initial_vars (sysfs_buf (fmt_d (-7) ++ [NL])) 3
      = Some (s', 3) /\
    (exists rest, attr_show (IntAttr modem_limit) s' (replicate PAGE_SIZE SPC) =
      (3, (fmt_d (-7) ++ [NL]) ++ NUL :: rest)) /\
    forall m b, (m, b) ∈ mi_thermal_attrs ++ mi_powersave_attrs -> m <> "modem_limit"%string ->
      attr_show b s' (replicate PAGE_SIZE SPC) =
      attr_show b initial_vars (replicate PAGE_SIZE SPC).
Proof.
  apply (attr_roundtrip "modem_limit" modem_limit (-7) initial_vars).
  - apply (bool_decide_unpack _); by vm_compute.
  - by vm_compute.
  - apply length_replicate.
Defined.

Lemma sensor_store_read_witness :
  exists s', attr_store BoardSensorTemp initial_vars (sysfs_buf (fmt_d 45200 ++ [NL])) 6
      = Some (s', 6) /\
    mi_thermal_parse_temp (Some (strs s' board_sensor_temp)) = scale_temp 45200.
Proof.
  apply (sensor_store_read board_sensor_temp 45200 initial_vars);
    [apply initial_vars_ok|by vm_compute].
Defined.

Lemma leading_space_hides_sensor_witness :
  mi_thermal_parse_temp
    (Some (strs (stored BoardSensorTemp (SPC :: bs "95000")).1 board_sensor_temp)) = INT_MIN.
Proof.
  apply (leading_space_hides_sensor board_sensor_temp SPC (bs "95000") initial_vars _ 6);
    [apply initial_vars_ok|by vm_compute|done|done].
Defined.
