(* ===== verification/ThermalNotify.v ===== *)
(** * ThermalNotify: screen and USB notifications of mi_thermal/mi_thermal_interface.c

    The panel notifier stores the new state of the screen and queues a
    delayed work item; the work item publishes the state.  The two run
    concurrently on plain variables, so they are threads of a transition
    system whose steps are the single accesses.  The USB notifier and its
    work item are functions. *)

From S2P Require Import Prelude.

(** ** Screen state *)

Inductive panel_notif := DRM_PANEL_EVENT_UNBLANK | DRM_PANEL_EVENT_BLANK
  | DRM_PANEL_EVENT_OTHER.

(** The work item: not running, started but before its read of
    [screen_light], or after it. *)
Inductive work_item := Idle | Started | HasRead (new_state : bool).
#[global] Instance work_item_eq_dec : EqDecision work_item.
Proof. solve_decision. Defined.

(** [screen_light], [screen_state], whether the work item is queued, the
    callbacks between their store and their [queue_delayed_work], the work
    item, and the values [sysfs_notify] announced, latest first. *)
Record screen := Screen {
  screen_light : bool;
  screen_state : bool;
  pending : bool;
  callbacks : nat;
  worker : work_item;
  announced : list bool
}.

Definition screen_init : screen := Screen false false false 0 Idle [].

(** The value a notification stores in [screen_light]; [None] when the
    callback returns early. *)
Definition screen_state_for_thermal_callback (notif : option panel_notif) : option bool :=
  match notif with
  | None => None
  | Some DRM_PANEL_EVENT_UNBLANK => Some true
  | Some DRM_PANEL_EVENT_BLANK => Some false
  | Some DRM_PANEL_EVENT_OTHER => None
  end.

(** The end of [screen_state_check], after [new_state] was read. *)
Definition screen_state_check (new_state : bool) (s : screen) : screen :=
  if Bool.eqb (screen_state s) new_state
  then Screen (screen_light s) (screen_state s) (pending s) (callbacks s) Idle (announced s)
  else Screen (screen_light s) new_state (pending s) (callbacks s) Idle
         (new_state :: announced s).

(** One access of one thread.  [queue_delayed_work] does nothing when the
    item is queued already; the workqueue clears the mark before it runs the
    item and runs it on one worker at a time. *)
Inductive screen_step : screen -> screen -> Prop :=
| step_callback n l s :
    screen_state_for_thermal_callback n = Some l ->
    screen_step s
      (Screen l (screen_state s) (pending s) (S (callbacks s)) (worker s) (announced s))
| step_ignored n s :
    screen_state_for_thermal_callback n = None -> screen_step s s
| step_queue k l st p w a :
    screen_step (Screen l st p (S k) w a) (Screen l st true k w a)
| step_start k l st a :
    screen_step (Screen l st true k Idle a) (Screen l st false k Started a)
| step_read k l st p a :
    screen_step (Screen l st p k Started a) (Screen l st p k (HasRead l) a)
| step_check k l st p new a :
    screen_step (Screen l st p k (HasRead new) a)
      (screen_state_check new (Screen l st p k (HasRead new) a)).

(** The steps of the driver alone, without a new notification. *)
Inductive driver_step : screen -> screen -> Prop :=
| driver_queue k l st p w a :
    driver_step (Screen l st p (S k) w a) (Screen l st true k w a)
| driver_start k l st a :
    driver_step (Screen l st true k Idle a) (Screen l st false k Started a)
| driver_read k l st p a :
    driver_step (Screen l st p k Started a) (Screen l st p k (HasRead l) a)
| driver_check k l st p new a :
    driver_step (Screen l st p k (HasRead new) a)
      (screen_state_check new (Screen l st p k (HasRead new) a)).

Definition quiescent (s : screen) : Prop :=
  callbacks s = 0%nat /\ pending s = false /\ worker s = Idle.

(** Either a publication of the latest value is under way or it is done. *)
Definition screen_inv (s : screen) : Prop :=
  (callbacks s <> 0%nat \/ pending s = true \/
   match worker s with
   | Started => True
   | HasRead new => new = screen_light s
   | Idle => screen_state s = screen_light s
   end) /\
  screen_state s = hd false (announced s) /\
  forall i x y, announced s !! i = Some x -> announced s !! S i = Some y -> x <> y.

Lemma screen_state_check_inv new s :
  screen_state s = hd false (announced s) ->
  (forall i x y, announced s !! i = Some x -> announced s !! S i = Some y -> x <> y) ->
  let s' := screen_state_check new s in
  screen_state s' = new /\ screen_state s' = hd false (announced s') /\
  forall i x y, announced s' !! i = Some x -> announced s' !! S i = Some y -> x <> y.
Proof.
  intros Hh Ha. unfold screen_state_check.
  destruct (Bool.eqb (screen_state s) new) eqn:E; simpl.
  - apply Bool.eqb_prop in E. by split_and!.
  - apply Bool.eqb_false_iff in E. split_and!; [done|done|].
    intros [|i] x y Hx Hy; simpl in *; [|by eapply Ha].
    simplify_eq. rewrite Hh in E. destruct (announced s) as [|z l]; simpl in *; [done|].
    simplify_eq. congruence.
Qed.

Lemma screen_inv_step s s' : screen_inv s -> screen_step s s' -> screen_inv s'.
Proof.
  intros (Hor & Hh & Ha) Hs. inversion Hs; subst; clear Hs; simpl in *.
  - by split; [left|].
  - done.
  - by split; [right; left|].
  - split; [by right; right|done].
  - split; [naive_solver|done].
  - match goal with |- screen_inv (screen_state_check ?n ?t) =>
      destruct (screen_state_check_inv n t Hh Ha) as (Hst & Hh' & Ha');
      assert (callbacks (screen_state_check n t) = callbacks t /\
        pending (screen_state_check n t) = pending t /\
        worker (screen_state_check n t) = Idle /\
        screen_light (screen_state_check n t) = screen_light t) as (Hc & Hp & Hw & Hl)
        by (unfold screen_state_check; by destruct (Bool.eqb _ _)) end.
    split; [|by split]. rewrite Hc, Hp, Hw, Hl, Hst. simpl. naive_solver.
Qed.

(** C21: the screen state is never lost.  Under every interleaving of panel
    notifications, queueing and the work item, whenever nothing is in flight
    the published [screen_state] is the latest notified one; every change is
    announced exactly once, and announcements alternate. *)
Theorem screen_state_converges s :
  reachable (eq screen_init) screen_step s ->
  (quiescent s -> screen_state s = screen_light s) /\
  screen_state s = hd false (announced s) /\
  forall i x y, announced s !! i = Some x -> announced s !! S i = Some y -> x <> y.
Proof.
  intros Hr. assert (screen_inv s) as (Hor & Hh & Ha).
  { revert s Hr. apply reachable_invariant; [|apply screen_inv_step].
    intros s <-. split; [by right; right|]. by split. }
  split_and!; [|done|done]. intros (Hc & Hp & Hw). rewrite Hw in Hor.
  destruct Hor as [?|[?|?]]; [done|congruence|done].
Qed.

(** Work still to do: each driver step makes it smaller. *)
Definition screen_work (s : screen) : nat :=
  4 * callbacks s + (if pending s then 3 else 0) +
  match worker s with Idle => 0 | Started => 2 | HasRead _ => 1 end.

Lemma driver_step_decreases s s' :
  driver_step s s' -> (screen_work s' < screen_work s)%nat.
Proof.
  intros Hs. inversion Hs; subst; unfold screen_work; simpl.
  - repeat case_match; lia.
  - lia.
  - lia.
  - unfold screen_state_check. simpl. destruct (Bool.eqb _ _); simpl; lia.
Qed.

Lemma driver_step_enabled s : ~ quiescent s -> exists s', driver_step s s'.
Proof.
  destruct s as [l st p [|k] w a]; unfold quiescent; simpl; intros Hq; [|eexists; constructor].
  destruct w as [| |new]; [|eexists; constructor|eexists; constructor].
  destruct p; [eexists; constructor|]. exfalso. by apply Hq.
Qed.

(** C37: liveness.  From every state, once notifications stop, every run of
    the driver has at most [screen_work] steps and can only end in a quiescent
    state, where the published state is the latest one. *)
Theorem screen_publication_terminates s :
  Acc (flip driver_step) s /\
  (reachable (eq screen_init) screen_step s ->
   forall s', rtc driver_step s s' -> (forall t, ~ driver_step s' t) ->
   screen_state s' = screen_light s /\ screen_light s' = screen_light s).
Proof.
  split.
  - remember (screen_work s) as n eqn:Hn. revert s Hn.
    induction n as [n IH] using lt_wf_ind. intros s ->. constructor.
    intros s' Hs. eapply IH; [|done]. by apply driver_step_decreases.
  - intros Hr s' Hrtc Hend.
    assert (screen_light s' = screen_light s /\ screen_inv s') as [Hl (Hor & _)].
    { assert (screen_inv s) as Hinv.
      { revert s Hr Hrtc. intros s Hr _. revert s Hr.
        apply reachable_invariant; [|apply screen_inv_step].
        intros s <-. split; [by right; right|]. by split. }
      clear Hr Hend. revert Hinv. induction Hrtc as [s|s t s' Hst _ IH]; intros Hinv; [done|].
      destruct IH as [IHl IHi].
      { eapply screen_inv_step; [exact Hinv|]. inversion Hst; subst; constructor. }
      split; [|done]. rewrite IHl. inversion Hst; subst; simpl; try done.
      unfold screen_state_check. by destruct (Bool.eqb _ _). }
    destruct (decide (callbacks s' = 0%nat /\ pending s' = false /\ worker s' = Idle))
      as [(Hc & Hp & Hw)|Hnq].
    + rewrite Hw in Hor. split; [|done].
      destruct Hor as [?|[?|?]]; [done|congruence|congruence].
    + destruct (driver_step_enabled s' Hnq) as [t Ht]. by destruct (Hend t).
Qed.

(** ** USB *)

(** [usb_psy], whose reference is kept, and [usb_online]. *)
Record usb := Usb { usb_psy : bool; usb_online : Z; usb_refs : nat; usb_announced : nat }.

(** [found]: [power_supply_get_by_name] finds "usb"; [ret] and [intval] are
    the result of the property read. *)
Definition usb_online_work (found : bool) (ret intval : Z) (u : usb) : usb :=
  let u := if usb_psy u then u
           else if found then Usb true (usb_online u) (S (usb_refs u)) (usb_announced u)
           else u in
  if negb (usb_psy u) then u
  else if negb (ret =? 0) then u
  else Usb (usb_psy u) intval (usb_refs u) (S (usb_announced u)).

(** [name] is that of the power supply of the event, if there is one: the
    work item is queued for "usb" only. *)
Definition usb_online_callback (name : option string) : bool :=
  match name with
  | None => false
  | Some n => bool_decide (n = "usb"%string)
  end.

(** ** Witnesses *)

Definition screen_example : screen := Screen true true false 0 Idle [true].

Lemma screen_example_reachable : reachable (eq screen_init) screen_step screen_example.
Proof.
  eapply reachable_step; [|apply (step_check 0 true false false true [])].
  eapply reachable_step; [|apply step_read].
  eapply reachable_step; [|apply step_start].
  eapply reachable_step; [|apply (step_queue 0 true false false)].
  eapply reachable_step;
    [by apply reachable_init|by apply (step_callback (Some DRM_PANEL_EVENT_UNBLANK))].
Qed.

Lemma screen_state_converges_witness :
  (quiescent screen_example -> screen_state screen_example = screen_light screen_example) /\
  screen_state screen_example = hd false (announced screen_example) /\
  forall i x y, announced screen_example !! i = Some x ->
    announced screen_example !! S i = Some y -> x <> y.
Proof. apply (screen_state_converges screen_example), screen_example_reachable. Defined.

Definition screen_queued : screen := Screen true false true 0 Idle [].

Lemma screen_queued_reachable : reachable (eq screen_init) screen_step screen_queued.
Proof.
  eapply reachable_step; [|apply (step_queue 0 true false false)].
  eapply reachable_step;
    [by apply reachable_init|by apply (step_callback (Some DRM_PANEL_EVENT_UNBLANK))].
Qed.

Lemma screen_publication_terminates_witness :
  screen_state screen_example = screen_light screen_queued /\
  screen_light screen_example = screen_light screen_queued.
Proof.
  apply (screen_publication_terminates screen_queued).
  - apply screen_queued_reachable.
  - eapply rtc_l; [apply driver_start|]. eapply rtc_l; [apply driver_read|].
    eapply rtc_l; [apply driver_check|].
    apply rtc_refl.
  - intros t Ht. inversion Ht.
Defined.
