(* ===== verification/ThermalSystem.v ===== *)
(** * ThermalSystem: the parts of mi_thermal/mi_thermal_interface.c together

    What the attributes, the temperatures and the frequency caps amount to:
    the CPUs of one policy share one cap, and a sensor written through sysfs
    decides the floor of the next cap. *)

From S2P Require Import Prelude KText KTextRef KMonad ThermalTemp ThermalFreq ThermalAttr.

(** ** Clusters

    The list has one device per CPU, each with a request of its own, but a
    call works on the first device whose policy covers the CPU. *)

(** A CPU belongs to one policy (linux/cpufreq.h). *)
Definition one_policy_per_cpu (env : nat -> cpu_env) : Prop :=
  forall c c' p p' cpu, e_policy (env c) = Some p -> e_policy (env c') = Some p' ->
  related_cpus p !! cpu = Some true -> related_cpus p' !! cpu = Some true -> p = p'.

Section clusters.
Context `{FreqQos} `{KText}.

Lemma table_descends d : dev_wf d -> freq_at d (cpufreq_state d) <= freq_at d 0.
Proof.
  intros Hd. pose proof Hd as (t & Ht & Hlen & Hu & Hdesc & Hs & _).
  destruct (decide (cpufreq_state d = 0)) as [->|Hne]; [done|].
  destruct (lookup_level d (cpufreq_state d) Hd ltac:(lia)) as (t1 & Ht1 & H1).
  destruct (lookup_level d 0 Hd ltac:(lia)) as (t2 & Ht2 & H2).
  assert (t1 = t /\ t2 = t) as [-> ->] by (split; congruence).
  pose proof (Forall_lookup_1 _ _ _ _ Hu H2).
  destruct (Hdesc (Z.to_nat 0) (Z.to_nat (cpufreq_state d)) _ _ ltac:(lia) H2 H1); klia.
Qed.

(** A device is that of its CPU, at some level. *)
Definition dev_of (env : nat -> cpu_env) (d : cpufreq_device) : Prop :=
  exists p, e_policy (env (qos_req d)) = Some p /\
    d = set_state (new_device p (qos_req d)) (cpufreq_state d).

(** The devices behind the first one of their cluster are at level 0. *)
Definition idle_behind (l : list cpufreq_device) : Prop :=
  forall i j d d' cpu, l !! i = Some d -> l !! j = Some d' -> (i < j)%nat ->
  covers cpu d = true -> covers cpu d' = true -> cpufreq_state d' = 0.

Definition cluster_inv (nr : nat) (env : nat -> cpu_env) (sys : cpufreq_sys) : Prop :=
  sys_wf nr sys /\ synced sys /\
  Forall (dev_of env) (cpufreq_dev_list sys) /\ idle_behind (cpufreq_dev_list sys).

(** The states after [mi_thermal_init_cpufreq], whatever failed in it. *)
Definition thermal_loaded (env : nat -> cpu_env) (sys : cpufreq_sys) : Prop :=
  exists possible s0, NoDup possible /\ cpufreq_dev_list s0 = [] /\
    run_st (mi_thermal_init_cpufreq env possible) s0 = sys.

(** A call, with any parameters and sensors, whose update does not fail. *)
Definition cap_step (nr : nat) (sys sys' : cpufreq_sys) : Prop :=
  exists P S cpu mf ret, params_ok P /\ 0 <= cpu < Z.of_nat nr /\
    cpu_limits_set_level P S sys cpu mf = Some (ret, sys') /\ 0 <= ret.

Lemma dev_of_siblings env d d' cpu :
  one_policy_per_cpu env -> dev_of env d -> dev_of env d' ->
  covers cpu d = true -> covers cpu d' = true ->
  policy d = policy d' /\ table_of d = table_of d'.
Proof.
  intros Hone (p & Hp & Hd) (p' & Hp' & Hd') Hc Hc'.
  assert (p = p') as <-; [|by rewrite Hd, Hd'].
  rewrite Hd in Hc. rewrite Hd' in Hc'. unfold covers in Hc, Hc'. simpl in Hc, Hc'.
  destruct (related_cpus p !! _) as [[]|] eqn:E; try done.
  destruct (related_cpus p' !! _) as [[]|] eqn:E'; try done.
  by eapply Hone.
Qed.

Lemma covers_policy cpu d d' : policy d = policy d' -> covers cpu d = covers cpu d'.
Proof. unfold covers. by intros ->. Qed.

Lemma init_cpus_devs nr env cpus ret s :
  env_ok nr env ->
  Forall (fun d => dev_of env d /\ cpufreq_state d = 0) (cpufreq_dev_list s) ->
  Forall (fun d => dev_of env d /\ cpufreq_state d = 0)
    (cpufreq_dev_list (run_st (init_cpus env cpus ret) s)).
Proof.
  intros Henv. revert ret s. induction cpus as [|cpu cpus IH]; intros ret s Hs; [done|].
  unfold run_st in *. simpl. unfold mbind, km_bind.
  pose proof (init_cpu_spec nr env cpu s Henv) as Hcpu.
  destruct (init_cpu env cpu s) as [[[e|ret'] s1] t1].
  - destruct Hcpu as (_ & Hl & _). simpl. by rewrite Hl.
  - destruct Hcpu as (_ & p & Hp & _ & _ & Hl & _).
    specialize (IH ret' s1). destruct (init_cpus env cpus ret' s1) as [[r s2] t2].
    simpl in *. apply IH. rewrite Hl. constructor; [|done]. split; [|done]. by exists p.
Qed.

Lemma loaded_cluster_inv nr env sys :
  env_ok nr env -> thermal_loaded env sys -> cluster_inv nr env sys.
Proof.
  intros Henv (possible & s0 & Hnd & Hl0 & <-).
  pose proof (init_cpus_spec nr env possible 0 s0 Henv) as Hi.
  pose proof (init_cpus_devs nr env possible 0 s0 Henv) as Hd. rewrite Hl0 in Hi, Hd.
  unfold mi_thermal_init_cpufreq, run_st in *.
  destruct (init_cpus env possible 0 s0) as [[ret s] t]. simpl in *.
  destruct Hi as (Hwf & Hs & _); [| |done|done|intros; apply not_elem_of_nil|].
  { split; rewrite Hl0; constructor. }
  { intros d. rewrite Hl0. by intros ?%elem_of_nil. }
  specialize (Hd (Forall_nil_2 _)). split_and!; [done|done| |].
  - eapply Forall_impl; [exact Hd|]. by intros d [? _].
  - intros i j d d' cpu _ Hj _ _ _. by apply (Forall_lookup_1 _ _ _ _ Hd Hj).
Qed.

(** The device a call for [cpu] finds, and that it stays the first one. *)
Lemma found_covers sys cpu i d :
  found sys cpu i d -> covers cpu d = true /\ cpufreq_dev_list sys !! i = Some d /\
  forall j d', cpufreq_dev_list sys !! j = Some d' -> covers cpu d' = true -> (i <= j)%nat.
Proof.
  intros (Hi & Hc & Hmin)%list_find_Some. split_and!; [done|done|].
  intros j d' Hj Hc'. destruct (decide (i <= j)%nat); [done|].
  exfalso. by apply (Hmin j d' Hj ltac:(lia)).
Qed.

(** Moving a device keeps what the lookups see of the others. *)
Lemma insert_set_state (l : list cpufreq_device) (i j : nat) d lv d' :
  l !! i = Some d -> <[i := set_state d lv]> l !! j = Some d' ->
  exists d0, l !! j = Some d0 /\ policy d' = policy d0 /\ (j <> i -> d' = d0).
Proof.
  intros Hi Hj. destruct (decide (j = i)) as [->|Hne].
  - rewrite list_lookup_insert_eq in Hj by (by eapply lookup_lt_Some).
    injection Hj as <-. by exists d.
  - rewrite list_lookup_insert_ne in Hj by done. by exists d'.
Qed.

Lemma cluster_inv_step nr env sys sys' :
  one_policy_per_cpu env -> cluster_inv nr env sys -> cap_step nr sys sys' ->
  cluster_inv nr env sys'.
Proof.
  intros Hone (Hwf & Hsync & Hdev & Hidle) (P & S & cpu & mf & ret & HP & Hcpu & Hset & Hret).
  rewrite (cpu_limits_set_level_eq P S nr) in Hset by done.
  set (next := next_level P _ _ mf) in Hset. unfold set_level_spec in Hset.
  destruct (list_find _ _) as [[i d]|] eqn:E; [|injection Hset as <- _; unfold ENODEV in Hret; lia].
  destruct (found_covers sys cpu i d E) as (Hc & Hi & Hmin).
  destruct sys as [l q]. simpl in *.
  assert (dev_wf d) as Hd by (destruct Hwf as [Hf _]; by apply (Forall_lookup_1 _ _ _ _ Hf Hi)).
  pose proof (apply_level_sys nr l q i d (next d) Hwf Hi (next_level_range P _ _ mf d Hd)) as Hsys.
  pose proof (apply_level_dev d q (next d)) as Hdv.
  destruct (apply_level d q (next d)) as [[ret' d'] q']. simpl in Hdv. subst d'.
  injection Hset as -> <-. destruct Hsys as [Hwf' Hsync'].
  split_and!; [done|by apply Hsync'| |]; simpl.
  - apply Forall_insert; [done|].
    destruct (Forall_lookup_1 _ _ _ _ Hdev Hi) as (p & Hp & Heq). exists p.
    split; [done|]. simpl. by rewrite Heq.
  - intros a b da db cpu0 Ha Hb Hab Hca Hcb.
    destruct (insert_set_state _ _ _ _ _ _ Hi Ha) as (da0 & Ha0 & Hpa & _).
    destruct (insert_set_state _ _ _ _ _ _ Hi Hb) as (db0 & Hb0 & Hpb & Heqb).
    rewrite (covers_policy _ _ _ Hpa) in Hca. rewrite (covers_policy _ _ _ Hpb) in Hcb.
    destruct (decide (b = i)) as [->|Hne].
    + exfalso. assert (db0 = d) as -> by congruence.
      destruct (dev_of_siblings env da0 d cpu0 Hone) as [Hpol _];
        [by eapply Forall_lookup_1..|done|done|].
      rewrite <- (covers_policy _ _ _ Hpol) in Hc. pose proof (Hmin a da0 Ha0 Hc). lia.
    + rewrite Heqb by done. by eapply (Hidle a b).
Qed.

(** C5: one cap per cluster.  After the driver was loaded and any number of
    successful calls, for whatever parameters and sensors: the request of the
    device found for a CPU is the lowest of all the requests of its cluster,
    so it is the one that binds the policy; and a call for any other CPU of
    the cluster does the same as the call for this one. *)
Theorem one_cap_per_cluster nr env sys cpu i d :
  env_ok nr env -> one_policy_per_cpu env ->
  reachable (thermal_loaded env) (cap_step nr) sys -> found sys cpu i d ->
  (exists v, qos_value (per_cpu_qos (qos sys) (qos_req d)) = Some v /\
    forall d', d' ∈ cpufreq_dev_list sys -> covers cpu d' = true ->
      exists v', qos_value (per_cpu_qos (qos sys) (qos_req d')) = Some v' /\ v <= v') /\
  forall cpu' P S mf, params_ok P -> 0 <= cpu < Z.of_nat nr -> 0 <= cpu' < Z.of_nat nr ->
    covers cpu' d = true ->
    cpu_limits_set_level P S sys cpu' mf = cpu_limits_set_level P S sys cpu mf.
Proof.
  intros Henv Hone Hr Hfd. assert (cluster_inv nr env sys) as (Hwf & Hsync & Hdev & Hidle).
  { revert sys Hr Hfd. intros sys Hr _. revert sys Hr. apply reachable_invariant.
    - intros s. by apply loaded_cluster_inv.
    - intros s s'. by apply cluster_inv_step. }
  destruct (found_covers sys cpu i d Hfd) as (Hc & Hi & Hmin).
  assert (forall d', d' ∈ cpufreq_dev_list sys -> forall c, covers c d = true ->
    covers c d' = true -> policy d = policy d' /\ table_of d = table_of d') as Hsib.
  { intros d' Hd' c. apply (dev_of_siblings env); [done|by eapply Forall_lookup_1|].
    rewrite Forall_forall in Hdev. by apply Hdev. }
  split.
  - exists (freq_at d (cpufreq_state d)). split; [apply Hsync; by eapply list_elem_of_lookup_2|].
    intros d' Hd' Hc'. eexists. split; [by apply Hsync|].
    apply list_elem_of_lookup in Hd' as Hj. destruct Hj as [j Hj].
    destruct (decide (j = i)) as [->|Hne]; [by simplify_eq|].
    pose proof (Hmin j d' Hj Hc'). rewrite (Hidle i j d d' cpu) by (done || lia).
    unfold freq_at. rewrite <- (proj2 (Hsib d' Hd' cpu Hc Hc')).
    destruct Hwf as [Hf _]. apply table_descends.
    by apply (Forall_lookup_1 _ _ _ _ Hf Hi).
  - intros cpu' P S mf HP Hcpu Hcpu' Hc'.
    destruct (list_find (fun d => covers cpu' d = true) (cpufreq_dev_list sys))
      as [[j d']|] eqn:E.
    2:{ apply list_find_None in E. rewrite Forall_forall in E.
        exfalso. by eapply (E d); [eapply list_elem_of_lookup_2|]. }
    destruct (found_covers sys cpu' j d' E) as (Hcd' & Hj & Hmin').
    assert (policy d = policy d') as Hpol
      by (eapply Hsib; [by eapply list_elem_of_lookup_2|done|done]).
    pose proof (Hmin' i d Hi Hc'). rewrite (covers_policy _ _ _ Hpol) in Hc.
    pose proof (Hmin j d' Hj Hc). assert (j = i) as -> by lia.
    assert (d' = d) as -> by congruence.
    rewrite !(cpu_limits_set_level_eq P S nr) by done. unfold set_level_spec.
    unfold found in Hfd. by rewrite E, Hfd.
Qed.
End clusters.

(** ** From a sensor to the cap *)

Section pipeline.
Context `{FreqQos} `{KText}.

(** Every sensor buffer counts. *)
Lemma device_temp_sensor w v bat :
  w <> boost_buf ->
  mi_thermal_parse_temp (Some (strs v w)) <= mi_thermal_get_device_temp (sensors_of v bat).
Proof.
  intros Hw. unfold mi_thermal_get_device_temp, sensors_of. simpl. destruct w; [done|lia..].
Qed.

(** C6: end to end.  User space writes a reading at or above the critical
    temperature to one of the four sensor attributes and then a limit for a
    CPU to cpu_limits.  Whatever the other sensors hold, the write is one call
    that works at once, without a step limit, and with the critical floor:
    the cap is the largest frequency of the table within the limit raised to
    that floor, or the last one of the table when there is none. *)
Theorem critical_sensor_caps P nr vars bat w x sys cpu freq count i d :
  params_ok P -> s32 (cpu_limits_hot_temp P) <= s32 (cpu_limits_crit_temp P) ->
  vars_ok vars -> w <> boost_buf -> in_s32 x -> s32 (cpu_limits_crit_temp P) <= scale_temp x ->
  sys_wf nr sys -> synced sys -> found sys cpu i d ->
  0 <= cpu < Z.of_nat nr -> in_u32 cpu -> in_u32 freq -> freq <> 0 ->
  exists vars' ret sys',
    attr_store (sensor_attr w) vars (sysfs_buf (fmt_d x ++ [NL])) (length (fmt_d x ++ [NL])) =
      Some (vars', Z.of_nat (length (fmt_d x ++ [NL]))) /\
    cpu_limits_set_level P (sensors_of vars' bat) sys cpu freq = Some (ret, sys') /\
    cpu_limits_store P (sensors_of vars' bat) sys
      (bs "cpu" ++ fmt_u cpu ++ SPC :: fmt_u freq) count = Some (count, sys') /\
    (0 <= ret -> exists cap,
       qos_value (per_cpu_qos (qos sys') (qos_req d)) = Some cap /\ cap ∈ table_of d /\
       let b := budget d (cpu_limits_crit_floor_pct P) freq in
       ((exists f, f ∈ table_of d /\ f <= b) ->
          cap <= b /\ forall f, f ∈ table_of d -> f <= b -> f <= cap) /\
       ((forall f, f ∈ table_of d -> b < f) -> cap = freq_at d (max_level d))).
Proof.
  intros HP Hhc Hv Hw Hx Hcrit Hwf Hsync Hfd Hcpu Hc Hf Hf0.
  destruct (sensor_store_cstr w (fmt_d x ++ [NL]) vars Hv) as (vars' & Hst & _ & Hcs).
  rewrite rstrip_fmt_nl in Hcs.
  pose proof (device_temp_sensor w vars' bat Hw) as Htemp.
  rewrite (parse_temp_fmt x) in Htemp by done.
  set (S := sensors_of vars' bat) in *.
  assert (cpu_limits_effective_floor_pct P (mi_thermal_get_device_temp S) =
    cpu_limits_crit_floor_pct P) as Hpct.
  { unfold cpu_limits_effective_floor_pct. by replace (_ <=? _) with true by lia. }
  destruct (set_level_found P S nr sys cpu freq i d HP Hwf Hcpu Hfd) as (Hd & _ & Hset).
  destruct (let '(ret, d', q') := apply_level _ _ _ in _) as [ret sys'] in Hset.
  exists vars', ret, sys'. split_and!; [done|done| |].
  - unfold cpu_limits_store. rewrite sscanf_uu_fmt by done. rewrite (proj1 HP).
    cbv beta iota delta [negb]. fold S. by rewrite Hset.
  - intros Hret. pose proof (set_level_value P S nr sys cpu freq i d ret sys'
      HP Hwf Hcpu Hfd Hsync Hset Hret) as Hval.
    eexists. split; [exact Hval|].
    split; [apply freq_at_in; [done|]; by apply next_level_range|].
    rewrite next_level_not_limited, Hpct; [by apply least_level_cap| |done].
    right. lia.
Qed.
End pipeline.

(** ** Witnesses *)

Section system_reference.
#[local] Existing Instance FreqQosRef.
#[local] Existing Instance KTextRef.

Definition capped_sys : cpufreq_sys := (after (low_floor 1) hot_sensors example_sys 1600).2.

Lemma capped_reachable : reachable (thermal_loaded example_env) (cap_step 2) capped_sys.
Proof.
  eapply reachable_step.
  - apply reachable_init. exists [0%nat; 1%nat], (CpufreqSys [] ∅).
    split_and!; [apply example_nodup|done|done].
  - exists (low_floor 1), hot_sensors, 0, 1600, 1.
    split_and!; [by apply example_params_ok|lia|lia|by vm_compute|lia].
Qed.

Lemma one_cap_per_cluster_witness :
  let d := set_state example_dev 3 in
  (exists v, qos_value (per_cpu_qos (qos capped_sys) (qos_req d)) = Some v /\
    forall d', d' ∈ cpufreq_dev_list capped_sys -> covers 0 d' = true ->
      exists v', qos_value (per_cpu_qos (qos capped_sys) (qos_req d')) = Some v' /\ v <= v') /\
  cpu_limits_set_level (low_floor 1) hot_sensors capped_sys 1 2000 =
  cpu_limits_set_level (low_floor 1) hot_sensors capped_sys 0 2000.
Proof.
  intros d. pose proof (one_cap_per_cluster 2 example_env capped_sys 0 0 d) as Hw.
  destruct Hw as [H1 H2].
  - apply example_env_ok.
  - by intros c c' p p' cpu [= <-] [= <-].
  - apply capped_reachable.
  - by vm_compute.
  - split; [exact H1|].
    apply H2; [by apply example_params_ok|lia|lia|by vm_compute].
Defined.

Lemma critical_sensor_caps_witness :
  exists vars' ret sys',
    attr_store (sensor_attr ambient_sensor_temp) initial_vars (sysfs_buf (fmt_d 53400 ++ [NL])) 6 =
      Some (vars', 6) /\
    cpu_limits_set_level cpu_limits_defaults (sensors_of vars' None) example_sys 1 1100 =
      Some (ret, sys') /\
    cpu_limits_store cpu_limits_defaults (sensors_of vars' None) example_sys
      (bs "cpu" ++ fmt_u 1 ++ SPC :: fmt_u 1100) 10 = Some (10, sys') /\
    (0 <= ret -> exists cap,
       qos_value (per_cpu_qos (qos sys') 1) = Some cap /\ cap ∈ table_of example_dev /\
       let b := budget example_dev 75 1100 in
       ((exists f, f ∈ table_of example_dev /\ f <= b) ->
          cap <= b /\ forall f, f ∈ table_of example_dev -> f <= b -> f <= cap) /\
       ((forall f, f ∈ table_of example_dev -> b < f) ->
          cap = freq_at example_dev (max_level example_dev))).
Proof.
  apply (critical_sensor_caps cpu_limits_defaults 2 initial_vars None ambient_sensor_temp 53400
    example_sys 1 1100 10 0 example_dev).
  - split; [done|]. by split_and!; vm_compute.
  - by vm_compute.
  - apply initial_vars_ok.
  - done.
  - by vm_compute.
  - by vm_compute.
  - apply example_sys_ok.
  - apply example_sys_ok.
  - by vm_compute.
  - lia.
  - by vm_compute.
  - by vm_compute.
  - done.
Defined.
End system_reference.
