(* ===== verification/ThermalModule.v ===== *)
(** * ThermalModule: the life of mi_thermal/mi_thermal_interface.c

    The sysfs nodes (one under /sys/class/thermal and one under the kernel
    object, each optional), the sensor names of the device tree, and the init
    and exit functions of the module, with a ledger of what they hold. *)

From S2P Require Import Prelude KText KTextRef KMonad ThermalTemp ThermalFreq ThermalNotify.

Inductive node := NThermal | NPowersave.
Inductive node_kind := KClass | KFallback.

Inductive thermal_res :=
| RClassSd | RTargetSd | RThermalKobj
| RNode (n : node) (k : node_kind) | RGroup (n : node) (k : node_kind)
| ROfNode | RWq | RUsbNotifier | RPanel | RUsbPsy | RCpufreq (r : cpufreq_res).

#[global] Instance node_eq_dec : EqDecision node.
Proof. solve_decision. Defined.
#[global] Instance node_kind_eq_dec : EqDecision node_kind.
Proof. solve_decision. Defined.
#[global] Instance thermal_res_eq_dec : EqDecision thermal_res.
Proof. solve_decision. Defined.

(** Which of the two pointers of a [struct mi_thermal_device] are set. *)
Record mi_thermal_device := MiThermalDevice { kobj : bool; class_kobj : bool }.

(** Answers of the kernel: the lookups of [mi_thermal_get_class_kobj], then
    [kobject_create_and_add] and [sysfs_create_group] for the two places. *)
Record node_env := NodeEnv {
  e_sysfs : bool; e_class_sd : bool; e_target_sd : bool; e_priv : bool;
  e_class_create : bool; e_class_group : Z;
  e_fb_create : bool; e_fb_group : Z
}.

Section module.
Context `{FreqQos}.

Record thermal_state := ThermalState {
  cpufreq : cpufreq_sys;
  mi_thermal_dev : mi_thermal_device;
  mi_powersave_dev : mi_thermal_device;
  screen_state_wq : bool;
  panel_cookie : bool;
  board_sensor : option bytes;
  ambient_sensor : option bytes;
  usb_state : usb
}.

Definition mdev (n : node) (s : thermal_state) : mi_thermal_device :=
  match n with NThermal => mi_thermal_dev s | NPowersave => mi_powersave_dev s end.
Definition set_mdev (n : node) (d : mi_thermal_device) (s : thermal_state) : thermal_state :=
  match n with
  | NThermal => ThermalState (cpufreq s) d (mi_powersave_dev s) (screen_state_wq s)
                  (panel_cookie s) (board_sensor s) (ambient_sensor s) (usb_state s)
  | NPowersave => ThermalState (cpufreq s) (mi_thermal_dev s) d (screen_state_wq s)
                    (panel_cookie s) (board_sensor s) (ambient_sensor s) (usb_state s)
  end.
Definition set_class (n : node) (b : bool) (s : thermal_state) : thermal_state :=
  set_mdev n (MiThermalDevice (kobj (mdev n s)) b) s.
Definition set_kobj (n : node) (b : bool) (s : thermal_state) : thermal_state :=
  set_mdev n (MiThermalDevice b (class_kobj (mdev n s))) s.
Definition set_cpufreq (c : cpufreq_sys) (s : thermal_state) : thermal_state :=
  ThermalState c (mi_thermal_dev s) (mi_powersave_dev s) (screen_state_wq s)
    (panel_cookie s) (board_sensor s) (ambient_sensor s) (usb_state s).
Definition set_wq (b : bool) (s : thermal_state) : thermal_state :=
  ThermalState (cpufreq s) (mi_thermal_dev s) (mi_powersave_dev s) b
    (panel_cookie s) (board_sensor s) (ambient_sensor s) (usb_state s).
Definition set_panel (b : bool) (s : thermal_state) : thermal_state :=
  ThermalState (cpufreq s) (mi_thermal_dev s) (mi_powersave_dev s) (screen_state_wq s)
    b (board_sensor s) (ambient_sensor s) (usb_state s).
Definition set_names (b a : option bytes) (s : thermal_state) : thermal_state :=
  ThermalState (cpufreq s) (mi_thermal_dev s) (mi_powersave_dev s) (screen_state_wq s)
    (panel_cookie s) b a (usb_state s).
Definition set_usb (u : usb) (s : thermal_state) : thermal_state :=
  ThermalState (cpufreq s) (mi_thermal_dev s) (mi_powersave_dev s) (screen_state_wq s)
    (panel_cookie s) (board_sensor s) (ambient_sensor s) u.

Local Abbreviation M := (km thermal_state thermal_res).

Definition mi_thermal_get_class_kobj (e : node_env) : M bool :=
  if negb (e_sysfs e) then mret false else
  ok ← acquire_ptr (e_class_sd e) RClassSd;
  if negb ok then mret false else
  ok ← acquire_ptr (e_target_sd e) RTargetSd;
  _ ← release RClassSd;
  if negb ok then mret false else
  ok ← acquire_ptr (e_priv e) RThermalKobj;
  _ ← release RTargetSd;
  mret ok.

Definition mi_thermal_create_class_node (n : node) (e : node_env) : M Z :=
  ok ← mi_thermal_get_class_kobj e;
  if negb ok then mret (- ENODEV) else
  ok ← acquire_ptr (e_class_create e) (RNode n KClass);
  _ ← modify (set_class n ok);
  _ ← release RThermalKobj;
  if negb ok then mret (- ENOMEM) else
  ret ← acquire_ret (e_class_group e) (RGroup n KClass);
  if negb (ret =? 0) then
    _ ← release (RNode n KClass); _ ← modify (set_class n false); mret ret
  else mret ret.

Definition mi_thermal_destroy_class_node (n : node) : M unit :=
  c ← gets (fun s => class_kobj (mdev n s));
  if negb c then mret () else
  _ ← release (RGroup n KClass);
  _ ← release (RNode n KClass);
  modify (set_class n false).

(** [create_thermal_message_node] and [create_mi_powersave_node] differ in the
    device and the names only. *)
Definition create_node (n : node) (e : node_env) : M Z :=
  _ ← mi_thermal_create_class_node n e;
  ok ← acquire_ptr (e_fb_create e) (RNode n KFallback);
  _ ← modify (set_kobj n ok);
  if negb ok then
    c ← gets (fun s => class_kobj (mdev n s));
    if negb c then mret (- ENOMEM) else mret 0
  else
    fallback_ret ← acquire_ret (e_fb_group e) (RGroup n KFallback);
    if negb (fallback_ret =? 0) then
      _ ← release (RNode n KFallback);
      _ ← modify (set_kobj n false);
      c ← gets (fun s => class_kobj (mdev n s));
      if negb c then mret fallback_ret else mret 0
    else mret 0.

Definition destroy_node (n : node) : M unit :=
  _ ← mi_thermal_destroy_class_node n;
  k ← gets (fun s => kobj (mdev n s));
  if negb k then mret () else
  _ ← release (RGroup n KFallback);
  _ ← release (RNode n KFallback);
  modify (set_kobj n false).

Definition create_thermal_message_node : node_env -> M Z := create_node NThermal.
Definition create_mi_powersave_node : node_env -> M Z := create_node NPowersave.
Definition destroy_thermal_message_node : M unit := destroy_node NThermal.
Definition destroy_mi_powersave_node : M unit := destroy_node NPowersave.

(** [np]: the node "thermal-message" and its two properties, which
    [of_property_read_string] stores when they can be read. *)
Definition of_parse_thermal_message (np : option (option bytes * option bytes)) : M Z :=
  match np with
  | None =>
      _ ← modify (set_names (Some (bs "board-sensor")) (Some (bs "ABT-SENSOR"))); mret 0
  | Some (b, a) =>
      _ ← acquire ROfNode;
      s ← gets (fun s => s);
      let b := match b with Some _ => b | None => board_sensor s end in
      let a := match a with Some _ => a | None => ambient_sensor s end in
      let b := match b with Some _ => b | None => Some (bs "board-sensor") end in
      let a := match a with Some _ => a | None => Some (bs "ABT-SENSOR") end in
      _ ← modify (set_names b a);
      _ ← release ROfNode;
      mret 0
  end.

Record thermal_env := ThermalEnv {
  e_cpus : nat -> cpu_env; e_possible : list nat;
  e_np : option (option bytes * option bytes);
  e_wq : bool;
  e_thermal_node : node_env; e_powersave_node : node_env;
  e_usb_notifier : Z; e_panel : bool
}.

Definition err_wq (ret : Z) : M Z :=
  _ ← release RWq; _ ← modify (set_wq false); mret ret.

Definition mi_thermal_interface_init (cpu_limits_enable : bool) (env : thermal_env) : M Z :=
  _ ← (if cpu_limits_enable
       then zoom cpufreq set_cpufreq RCpufreq
              (mi_thermal_init_cpufreq (e_cpus env) (e_possible env))
       else mret 0);
  _ ← of_parse_thermal_message (e_np env);
  ok ← acquire_ptr (e_wq env) RWq;
  _ ← modify (set_wq ok);
  if negb ok then mret (- ENOMEM) else
  ret ← create_thermal_message_node (e_thermal_node env);
  if negb (ret =? 0) then err_wq ret else
  _ ← create_mi_powersave_node (e_powersave_node env);
  _ ← acquire_ret (e_usb_notifier env) RUsbNotifier;
  cookie ← acquire_ptr (e_panel env) RPanel;
  _ ← modify (set_panel cookie);
  mret 0.

(** The delayed works are cancelled first. *)
Definition mi_thermal_interface_exit : M unit :=
  wq ← gets screen_state_wq;
  _ ← (if (wq : bool) then release RWq else mret ());
  cookie ← gets panel_cookie;
  _ ← (if (cookie : bool) then release RPanel else mret ());
  _ ← destroy_thermal_message_node;
  _ ← destroy_mi_powersave_node;
  zoom cpufreq set_cpufreq RCpufreq mi_thermal_destroy_cpufreq.

(** ** While the module is loaded *)

(** [usb_online_work] with the reference that [power_supply_get_by_name]
    returns. *)
Definition usb_work (found : bool) (ret intval : Z) : M unit :=
  psy ← gets (fun s => usb_psy (usb_state s));
  _ ← (if (psy : bool) then mret true else acquire_ptr found RUsbPsy);
  modify (fun s => set_usb (usb_online_work found ret intval (usb_state s)) s).

(** What changes the state the exit function meets: runs of the USB work item
    and calls of [cpu_limits_set_level], with the parameters and sensors of
    the moment. *)
Inductive module_event :=
| EvUsbWork (found : bool) (ret intval : Z)
| EvSetLevel (P : cpu_limits_params) (sensors : thermal_sensors) (cpu max_freq : Z).

Definition module_step `{KText} (e : module_event) (s : thermal_state)
  : option (thermal_state * list (kop thermal_res)) :=
  match e with
  | EvUsbWork found ret intval =>
      let '(_, s', t) := usb_work found ret intval s in Some (s', t)
  | EvSetLevel P sensors cpu max_freq =>
      '(_, c) ← cpu_limits_set_level P sensors (cpufreq s) cpu max_freq; Some (set_cpufreq c s, [])
  end.

(** [None] is an access outside a mask. *)
Fixpoint module_run `{KText} (es : list module_event) (s : thermal_state)
  : option (thermal_state * list (kop thermal_res)) :=
  match es with
  | [] => Some (s, [])
  | e :: es' =>
      '(s1, t1) ← module_step e s; '(s2, t2) ← module_run es' s1; Some (s2, t1 ++ t2)
  end.
End module.

(** ** What the nodes and the module hold *)

Definition no_node : mi_thermal_device := MiThermalDevice false false.

Definition node_res (n : node) (d : mi_thermal_device) : list thermal_res :=
  (if kobj d then [RGroup n KFallback; RNode n KFallback] else []) ++
  (if class_kobj d then [RGroup n KClass; RNode n KClass] else []).

Section module_lemmas.
Context `{FreqQos}.

Lemma create_class_node_spec n e s :
  class_kobj (mdev n s) = false ->
  let '(ret, s', t) := mi_thermal_create_class_node n e s in
  s' = set_class n (class_kobj (mdev n s')) s /\
  forall h, replay t h =
    Some ((if class_kobj (mdev n s') then [RGroup n KClass; RNode n KClass] else []) ++ h).
Proof.
  intros Hc. unfold mi_thermal_create_class_node, mi_thermal_get_class_kobj,
    acquire_ptr, acquire_ret.
  destruct s as [c dt dp w p b a u], e as [e1 e2 e3 e4 e5 g e7 g'].
  destruct n, dt as [kt ct], dp as [kp cp]; cbn in Hc; subst;
    destruct e1, e2, e3, e4, e5; km_run; cbn; try (split; [done|replay_run]);
    destruct (g =? 0) eqn:E; km_run; rewrite ?E; km_run; cbn; split; try done; replay_run.
Qed.

Lemma create_node_spec n e s :
  mdev n s = no_node ->
  let '(ret, s', t) := create_node n e s in
  s' = set_mdev n (mdev n s') s /\
  (ret <> 0 -> mdev n s' = no_node) /\
  forall h, replay t h = Some (node_res n (mdev n s') ++ h).
Proof.
  intros Hn. unfold create_node, mbind, km_bind.
  pose proof (create_class_node_spec n e s) as Hc.
  destruct (mi_thermal_create_class_node n e s) as [[r s1] t1].
  destruct Hc as [Hs1 Ht1]; [by rewrite Hn|].
  set (c := class_kobj (mdev n s1)) in *. clearbody c. subst s1.
  unfold acquire_ptr, acquire_ret.
  destruct s as [c0 dt dp w p b a u], e as [e1 e2 e3 e4 e5 g e7 g'].
  destruct n; cbn in Hn; subst; cbn [e_fb_create e_fb_group]; destruct e7; destruct c;
    destruct (g' =? 0) eqn:E; km_run; rewrite ?E; km_run; cbn;
    (split; [done|split; [done|]]); intros h;
    rewrite (replay_app _ _ _ _ (Ht1 h)); replay_run.
Qed.

Lemma of_parse_spec np s :
  let '(ret, s', t) := of_parse_thermal_message np s in
  ret = 0 /\ is_Some (board_sensor s') /\ is_Some (ambient_sensor s') /\
  s' = set_names (board_sensor s') (ambient_sensor s') s /\
  forall h, replay t h = Some h.
Proof.
  unfold of_parse_thermal_message. destruct s as [c dt dp w p b0 a0 u], np as [[b a]|]; km_run; cbn.
  - split_and!; [done| | |done|replay_run]; destruct b, b0, a, a0; by eexists.
  - split_and!; [done|by eexists|by eexists|done|replay_run].
Qed.

(** What a loaded module holds, the latest first. *)
Definition module_res (usb : bool) (s : thermal_state) : list thermal_res :=
  (if panel_cookie s then [RPanel] else []) ++ (if usb then [RUsbNotifier] else []) ++
  node_res NPowersave (mi_powersave_dev s) ++ node_res NThermal (mi_thermal_dev s) ++
  (if screen_state_wq s then [RWq] else []).

Definition cpufreq_held (s : thermal_state) : list thermal_res :=
  RCpufreq <$> sys_res (cpufreq_dev_list (cpufreq s)).

Definition init_state : thermal_state :=
  ThermalState (CpufreqSys [] ∅) no_node no_node false false None None (Usb false 0 0 0).

(** The first part of the init function: the caps. *)
Lemma init_cpufreq_part nr en env :
  env_ok nr (e_cpus env) -> NoDup (e_possible env) ->
  let '(_, s', t) :=
    (if (en : bool) then zoom cpufreq set_cpufreq RCpufreq
       (mi_thermal_init_cpufreq (e_cpus env) (e_possible env)) else mret 0) init_state in
  s' = set_cpufreq (cpufreq s') init_state /\
  sys_wf nr (cpufreq s') /\ synced (cpufreq s') /\
  replay t [] = Some (cpufreq_held s').
Proof.
  intros Henv Hnd.
  assert (sys_wf nr (CpufreqSys [] ∅) /\ synced (CpufreqSys [] ∅)) as [Hw0 Hs0].
  { split; [split; constructor|]. intros d Hd. by apply elem_of_nil in Hd. }
  destruct en; [|km_run; by split_and!].
  unfold zoom, mi_thermal_init_cpufreq. cbn [cpufreq init_state].
  pose proof (init_cpus_spec nr (e_cpus env) (e_possible env) 0 (CpufreqSys [] ∅)
    Henv Hw0 Hs0 Hnd ltac:(lia)) as Hi.
  destruct (init_cpus _ _ _ _) as [[r c] t].
  destruct Hi as (Hw & Hs & k & added & Ha & _ & _ & Ht).
  { intros c' _. apply not_elem_of_nil. }
  simpl in Ha. rewrite app_nil_r in Ha.
  split; [done|]. split; [done|]. split; [done|].
  specialize (Ht []). rewrite app_nil_r in Ht.
  apply (replay_inj_alone RCpufreq ltac:(congruence)) in Ht.
  unfold cpufreq_held. cbn [cpufreq set_cpufreq]. by rewrite Ha.
Qed.

Lemma init_module_spec nr en env :
  env_ok nr (e_cpus env) -> NoDup (e_possible env) ->
  let '(ret, s', t) := mi_thermal_interface_init en env init_state in
  sys_wf nr (cpufreq s') /\ usb_psy (usb_state s') = false /\
  is_Some (board_sensor s') /\ is_Some (ambient_sensor s') /\
  (ret <> 0 -> mi_thermal_dev s' = no_node /\ mi_powersave_dev s' = no_node /\
     screen_state_wq s' = false /\ panel_cookie s' = false) /\
  (ret = 0 -> screen_state_wq s' = true) /\
  replay t [] =
    Some (module_res ((ret =? 0) && (e_usb_notifier env =? 0)) s' ++ cpufreq_held s').
Proof.
  intros Henv Hnd. unfold mi_thermal_interface_init, mbind, km_bind.
  pose proof (init_cpufreq_part nr en env Henv Hnd) as Hcpu.
  match goal with |- context [(if en then ?m1 else ?m2) init_state] =>
    destruct ((if en then m1 else m2) init_state) as [[r0 s0] t0] end.
  destruct Hcpu as (Hs0 & Hwf & _ & Ht0).
  pose proof (of_parse_spec (e_np env) s0) as Hof.
  destruct (of_parse_thermal_message (e_np env) s0) as [[r1 s1] t1].
  destruct Hof as (_ & Hb & Ha & Hs1 & Ht1).
  assert (cpufreq s1 = cpufreq s0 /\ mi_thermal_dev s1 = no_node /\
    mi_powersave_dev s1 = no_node /\ screen_state_wq s1 = false /\ panel_cookie s1 = false /\
    usb_psy (usb_state s1) = false)
    as (Hc1 & Hd1 & Hd2 & Hw1 & Hp1 & Hy1) by (rewrite Hs1, Hs0; by split_and!).
  rewrite <- Hc1 in Hwf. unfold cpufreq_held in Ht0. rewrite <- Hc1 in Ht0.
  clear Hs0 Hs1 Hc1 s0. unfold acquire_ptr, modify, acquire, mret, km_ret, mbind, km_bind.
  destruct (e_wq env); cbv beta iota delta [negb].
  2:{ split_and!; try done. rewrite (replay_app _ _ _ _ Ht0), app_nil_r, Ht1.
      unfold module_res. cbn. by rewrite Hp1, Hd1, Hd2. }
  pose proof (create_node_spec NThermal (e_thermal_node env) (set_wq true s1) Hd1) as Hn.
  unfold create_thermal_message_node, create_mi_powersave_node.
  destruct (create_node NThermal _ _) as [[r2 s2] t2]. destruct Hn as (Hs2 & Hz & Ht2).
  set (d := mdev NThermal s2) in *. clearbody d. subst s2.
  destruct (Z.eqb_spec r2 0) as [->|Hr2]; cbv beta iota delta [negb].
  2:{ rewrite (Hz Hr2) in *. unfold err_wq, modify, release, mret, km_ret, mbind, km_bind.
      cbv beta iota. split_and!; try done.
      rewrite (replay_app _ _ _ _ Ht0), (replay_app _ _ _ _ (Ht1 _)).
      cbn [app]. unfold replay at 1. cbn [replay_with]. fold (replay (R := thermal_res)).
      rewrite (replay_app _ _ _ _ (Ht2 _)). replace (r2 =? 0) with false by lia.
      unfold module_res. cbn. by rewrite Hp1, Hd2. }
  pose proof (create_node_spec NPowersave (e_powersave_node env)
    (set_mdev NThermal d (set_wq true s1)) Hd2) as Hn.
  destruct (create_node NPowersave _ _) as [[r3 s3] t3]. destruct Hn as (Hs3 & _ & Ht3).
  set (d' := mdev NPowersave s3) in *. clearbody d'. subst s3. unfold acquire_ret.
  destruct (Z.eqb_spec (e_usb_notifier env) 0) as [Hu|Hu]; destruct (e_panel env);
    cbv beta iota zeta delta [mbind km_bind mret km_ret acquire];
    (split; [done|]); (split; [done|]); (split; [done|]); (split; [done|]); (split; [done|]);
    (split; [done|]); rewrite (replay_app _ _ _ _ Ht0), (replay_app _ _ _ _ (Ht1 _));
    cbn [app]; unfold replay at 1; cbn [replay_with]; fold (replay (R := thermal_res));
    rewrite (replay_app _ _ _ _ (Ht2 _)), (replay_app _ _ _ _ (Ht3 _));
    unfold module_res; cbn; by rewrite <- ?app_assoc.
Qed.

Lemma destroy_devices_rel l s :
  Forall (fun o => match o with Rel _ => True | Acq _ => False end) (destroy_devices l s).2.
Proof.
  revert s. induction l as [|d l IH]; intros s; [constructor|].
  cbn [destroy_devices]. unfold destroy_device.
  destruct (policy d), (freq_table d); km_run;
    match goal with |- context [destroy_devices l ?st] =>
      specialize (IH st); destruct (destroy_devices l st) as [[u s'] t] end;
    by repeat constructor.
Qed.

(** The last part of the exit function: the caps. *)
Lemma exit_cpufreq_part nr s k :
  Forall (dev_ok nr) (cpufreq_dev_list (cpufreq s)) -> (forall r, RCpufreq r ∉ k) ->
  let '(_, s', t) := zoom cpufreq set_cpufreq RCpufreq mi_thermal_destroy_cpufreq s in
  s' = set_cpufreq (cpufreq s') s /\ cpufreq_dev_list (cpufreq s') = [] /\
  replay t (k ++ cpufreq_held s) = Some k.
Proof.
  intros Hf Hk. unfold zoom, mi_thermal_destroy_cpufreq, mbind, km_bind, gets.
  set (l := cpufreq_dev_list (cpufreq s)) in *.
  pose proof (destroy_devices_spec l (cpufreq s)) as Hd.
  pose proof (destroy_devices_rel l (cpufreq s)) as Hrel.
  destruct (destroy_devices l (cpufreq s)) as [[u c] t].
  destruct Hd as [Hl Ht]; [|done|].
  { eapply Forall_impl; [exact Hf|]. intros d [(ft & Hft & _) (p & Hp & _)]. eauto. }
  split; [done|]. split; [done|]. specialize (Ht []). rewrite app_nil_r in Ht.
  unfold cpufreq_held. fold l.
  rewrite (replay_inj RCpufreq ltac:(congruence) t _ [] k Hk Hrel Ht).
  by rewrite app_nil_r.
Qed.

Lemma release_two (a b : thermal_res) t pre h :
  a ∉ pre -> b ∉ pre -> replay (Rel a :: Rel b :: t) (pre ++ a :: b :: h) = replay t (pre ++ h).
Proof. intros Ha Hb. by rewrite !replay_release. Qed.

Lemma destroy_node_spec n s pre h :
  (forall k, RNode n k ∉ pre) -> (forall k, RGroup n k ∉ pre) ->
  let '(_, s', t) := destroy_node n s in
  s' = set_mdev n no_node s /\ replay t (pre ++ node_res n (mdev n s) ++ h) = Some (pre ++ h).
Proof.
  intros H1 H2. unfold destroy_node, mi_thermal_destroy_class_node.
  assert (forall r, (exists k, r = RNode n k \/ r = RGroup n k) -> r ∉ pre) as Hp
    by (intros r (k & [->| ->]); [apply H1|apply H2]).
  assert (forall r, r = RGroup n KClass \/ r = RNode n KClass ->
    r ∉ pre ++ [RGroup n KFallback; RNode n KFallback]) as Hp2.
  { intros r Hr. rewrite not_elem_of_app. split; [apply Hp; destruct Hr as [->| ->]; eauto|].
    destruct Hr as [->| ->]; rewrite !not_elem_of_cons;
      (split_and!; [congruence..|apply not_elem_of_nil]). }
  assert (forall t, replay (Rel (RGroup n KClass) :: Rel (RNode n KClass) ::
      Rel (RGroup n KFallback) :: Rel (RNode n KFallback) :: t)
      (pre ++ RGroup n KFallback :: RNode n KFallback :: RGroup n KClass :: RNode n KClass :: h)
    = replay t (pre ++ h)) as Hboth.
  { intros t.
    replace (pre ++ RGroup n KFallback :: RNode n KFallback :: RGroup n KClass :: RNode n KClass :: h)
      with ((pre ++ [RGroup n KFallback; RNode n KFallback]) ++
            RGroup n KClass :: RNode n KClass :: h) by (by rewrite <- app_assoc).
    rewrite release_two by (apply Hp2; auto). rewrite <- app_assoc. cbn [app].
    rewrite release_two by (apply Hp; eauto). done. }
  assert (forall k t, replay (Rel (RGroup n k) :: Rel (RNode n k) :: t)
      (pre ++ RGroup n k :: RNode n k :: h) = replay t (pre ++ h)) as Hone
    by (intros k t; apply release_two; apply Hp; eauto).
  destruct s as [c [kt ct] [kp cp] w p b a u], n; [destruct kt, ct|destruct kp, cp];
    km_run_keep; cbn -[replay]; (split; [done|]);
    first [apply (Hboth [])|apply (Hone KClass [])|apply (Hone KFallback [])|done].
Qed.

(** The part of the exit function after the workqueue and the panel. *)
Definition exit_tail : km thermal_state thermal_res unit :=
  _ ← destroy_thermal_message_node; _ ← destroy_mi_powersave_node;
  zoom cpufreq set_cpufreq RCpufreq mi_thermal_destroy_cpufreq.

Lemma exit_tail_spec nr s (U : list thermal_res) :
  Forall (dev_ok nr) (cpufreq_dev_list (cpufreq s)) ->
  (forall r, r ∈ U -> r = RUsbNotifier \/ r = RUsbPsy) ->
  let '(_, s', t) := exit_tail s in
  cpufreq_dev_list (cpufreq s') = [] /\ mi_thermal_dev s' = no_node /\
  mi_powersave_dev s' = no_node /\
  replay t ((U ++ node_res NPowersave (mi_powersave_dev s) ++
    node_res NThermal (mi_thermal_dev s)) ++ cpufreq_held s) = Some U.
Proof.
  intros Hf HU. unfold exit_tail, destroy_thermal_message_node,
    destroy_mi_powersave_node, mbind, km_bind.
  set (NP := node_res NPowersave (mi_powersave_dev s)).
  assert (forall r, r ∈ U ++ NP -> (r = RUsbNotifier \/ r = RUsbPsy) \/
    exists k, r = RNode NPowersave k \/ r = RGroup NPowersave k) as HUNP.
  { intros r [Hr|Hr]%elem_of_app; [left; by apply HU|right]. revert Hr. unfold NP, node_res.
    destruct (kobj _), (class_kobj _); simpl; rewrite ?elem_of_cons, elem_of_nil;
      intros; naive_solver. }
  pose proof (destroy_node_spec NThermal s (U ++ NP) (cpufreq_held s)) as Ht.
  destruct (destroy_node NThermal s) as [[u3 s3] t3].
  destruct Ht as [-> Ht3]; [intros k Hk%HUNP; naive_solver..|].
  set (s1 := set_mdev NThermal no_node s).
  pose proof (destroy_node_spec NPowersave s1 U (cpufreq_held s)) as Ht.
  destruct (destroy_node NPowersave s1) as [[u4 s4] t4].
  destruct Ht as [-> Ht4]; [intros k Hk%HU; naive_solver..|].
  set (s2 := set_mdev NPowersave no_node s1).
  pose proof (exit_cpufreq_part nr s2 U Hf) as Ht.
  destruct (zoom _ _ _ _ s2) as [[u5 s5] t5].
  destruct Ht as (-> & Hl5 & Ht5); [intros k Hk%HU; naive_solver|].
  split_and!; [done|done|done|]. rewrite <- !app_assoc in Ht3 |- *.
  rewrite (replay_app _ _ _ _ Ht3), (replay_app _ _ _ _ Ht4). exact Ht5.
Qed.

(** The reference to the power supply is not part of what is given back. *)
Definition psy_res (s : thermal_state) : list thermal_res :=
  if usb_psy (usb_state s) then [RUsbPsy] else [].

Lemma exit_module_spec nr s (usb : bool) :
  Forall (dev_ok nr) (cpufreq_dev_list (cpufreq s)) ->
  let '(_, s', t) := mi_thermal_interface_exit s in
  cpufreq_dev_list (cpufreq s') = [] /\ mi_thermal_dev s' = no_node /\
  mi_powersave_dev s' = no_node /\
  replay t (psy_res s ++ module_res usb s ++ cpufreq_held s) =
    Some (psy_res s ++ (if usb then [RUsbNotifier] else [])) /\
  (screen_state_wq s = true -> exists t', t = Rel RWq :: t').
Proof.
  intros Hf. set (U := psy_res s ++ (if usb then [RUsbNotifier] else [])).
  assert (forall r, r ∈ U -> r = RUsbNotifier \/ r = RUsbPsy) as HU.
  { unfold U, psy_res. intros r.
    destruct (usb_psy _), usb; simpl; rewrite ?elem_of_cons, elem_of_nil; naive_solver. }
  pose proof (exit_tail_spec nr s U Hf HU) as Htail.
  unfold mi_thermal_interface_exit. fold exit_tail. unfold gets, mbind, km_bind.
  set (N := node_res NPowersave (mi_powersave_dev s) ++ node_res NThermal (mi_thermal_dev s))
    in *.
  set (P := if panel_cookie s then [RPanel] else []).
  set (U0 := if usb then [RUsbNotifier] else []) in *.
  assert (psy_res s ++ module_res usb s ++ cpufreq_held s =
    (psy_res s ++ P ++ U0 ++ N) ++ (if screen_state_wq s then [RWq] else []) ++ cpufreq_held s)
    as -> by (unfold module_res, N; by rewrite <- !app_assoc).
  assert (RWq ∉ psy_res s ++ P ++ U0 ++ N) as HW.
  { unfold psy_res, P, U0, N, node_res. rewrite !not_elem_of_app.
    destruct (usb_psy _), (panel_cookie s), usb, (mi_thermal_dev s) as [[] []],
      (mi_powersave_dev s) as [[] []]; simpl;
      rewrite ?not_elem_of_cons; split_and!; first [congruence|apply not_elem_of_nil]. }
  assert (RPanel ∉ psy_res s) as HP.
  { unfold psy_res. destruct (usb_psy _); rewrite ?not_elem_of_cons;
      [split; [congruence|]|]; apply not_elem_of_nil. }
  destruct (exit_tail s) as [[u s'] t] eqn:E. cbv zeta in Htail.
  destruct Htail as (Hl & H1 & H2 & Hrest). unfold U in Hrest.
  rewrite <- !app_assoc in Hrest.
  assert (replay ((if panel_cookie s then [Rel RPanel] else []) ++ t)
    ((psy_res s ++ P ++ U0 ++ N) ++ cpufreq_held s) = Some U) as Hpanel.
  { unfold P. rewrite <- !app_assoc. destruct (panel_cookie s); [|exact Hrest].
    exact (eq_trans (replay_release RPanel t (psy_res s) _ HP) Hrest). }
  destruct (screen_state_wq s); unfold release, mret, km_ret; cbv beta iota zeta;
    destruct (panel_cookie s); cbv beta iota zeta; rewrite E;
    (split; [exact Hl|]; split; [exact H1|]; split; [exact H2|]; split);
    try (by intros _; eexists); try (intros ?; discriminate); cbn [app];
    first [exact Hpanel|rewrite (replay_release RWq _ (psy_res s ++ P ++ U0 ++ N) _ HW); exact Hpanel].
Qed.

(** What the events need. *)
Definition module_event_ok (e : module_event) : Prop :=
  match e with
  | EvUsbWork _ _ _ => True
  | EvSetLevel P _ cpu _ => params_u32 P /\ 0 <= cpu
  end.
Definition finds_psy (e : module_event) : bool :=
  match e with EvUsbWork found _ _ => found | _ => false end.

(** An event keeps what the module holds, but for the first reference to the
    power supply. *)
Lemma module_step_spec `{KText} nr e s s' t :
  module_event_ok e -> sys_wf nr (cpufreq s) -> module_step e s = Some (s', t) ->
  sys_wf nr (cpufreq s') /\ s' = set_usb (usb_state s') (set_cpufreq (cpufreq s') s) /\
  cpufreq_held s' = cpufreq_held s /\
  usb_psy (usb_state s') = usb_psy (usb_state s) || finds_psy e /\
  forall h, replay t (psy_res s ++ h) = Some (psy_res s' ++ h).
Proof.
  intros He Hwf Hs. destruct e as [found ret intval|P sensors cpu mf]; simpl in Hs.
  - unfold usb_work, usb_online_work, psy_res in *. destruct s as [c dt dp w p b a u].
    destruct u as [psy on refs ann]; cbn in Hs, Hwf.
    destruct psy, found, (ret =? 0); revert Hs; km_run; cbn; intros [= <- <-]; cbn;
      by split_and!.
  - destruct He as [HP Hcpu].
    destruct (cpu_limits_set_level P sensors (cpufreq s) cpu mf) as [[r c]|] eqn:E; [|done].
    simpl in Hs. injection Hs as <- <-.
    destruct (set_level_keeps_devices P sensors nr _ _ _ _ _ HP Hwf Hcpu E) as [Hwf' Hq].
    destruct s as [c0 dt dp w p b a u]. cbn in *. split; [done|]. split; [done|].
    split; [|by rewrite orb_false_r]. unfold cpufreq_held. cbn. f_equal.
    assert (forall l, sys_res l = (qos_req <$> l) ≫= (fun q => [RQos q; RTable q; RCdev q; RPolicy q]))
      as Hres by (intros l; induction l as [|d l IH]; [done|]; simpl; by rewrite IH).
    by rewrite !Hres, Hq.
Qed.

Lemma module_run_spec `{KText} nr es s s' t :
  Forall module_event_ok es -> sys_wf nr (cpufreq s) -> module_run es s = Some (s', t) ->
  sys_wf nr (cpufreq s') /\ s' = set_usb (usb_state s') (set_cpufreq (cpufreq s') s) /\
  cpufreq_held s' = cpufreq_held s /\
  usb_psy (usb_state s') = usb_psy (usb_state s) || existsb finds_psy es /\
  forall h, replay t (psy_res s ++ h) = Some (psy_res s' ++ h).
Proof.
  revert s t. induction es as [|e es IH]; intros s t Hes Hwf Hr; simpl in Hr.
  { injection Hr as <- <-. rewrite orb_false_r. split_and!; try done. by destruct s. }
  apply Forall_cons in Hes as [He Hes].
  destruct (module_step e s) as [[s1 t1]|] eqn:E1; [|done]. simpl in Hr.
  destruct (module_run es s1) as [[s2 t2]|] eqn:E2; [|done]. simpl in Hr.
  injection Hr as -> <-.
  destruct (module_step_spec nr e s s1 t1 He Hwf E1) as (Hwf1 & Hs1 & Hc1 & Hp1 & Ht1).
  destruct (IH s1 t2 Hes Hwf1 E2) as (Hwf2 & Hs2 & Hc2 & Hp2 & Ht2).
  split; [done|]. split; [rewrite Hs2, Hs1; by destruct s|]. split; [congruence|].
  split; [rewrite Hp2, Hp1; simpl; by rewrite orb_assoc|].
  intros h. by rewrite (replay_app _ _ _ _ (Ht1 h)).
Qed.

(** C25: a failing init.  When [mi_thermal_interface_init] fails (no
    workqueue, or neither of the two places for the thermal node) it takes
    back the nodes and the workqueue, but not the frequency caps: the devices
    [mi_thermal_init_cpufreq] built stay allocated, with active requests that
    point into the memory of the module that was not loaded. *)
Theorem thermal_init_failure nr en env :
  env_ok nr (e_cpus env) -> NoDup (e_possible env) ->
  let '(ret, s, t) := mi_thermal_interface_init en env init_state in
  ret <> 0 ->
  mi_thermal_dev s = no_node /\ mi_powersave_dev s = no_node /\
  screen_state_wq s = false /\ panel_cookie s = false /\
  replay t [] = Some (cpufreq_held s).
Proof.
  intros Henv Hnd. pose proof (init_module_spec nr en env Henv Hnd) as Hi.
  destruct (mi_thermal_interface_init en env init_state) as [[ret s] t].
  destruct Hi as (_ & _ & _ & _ & Hz & _ & Ht). intros Hr.
  destruct (Hz Hr) as (Hd1 & Hd2 & Hw & Hp). split_and!; try done.
  rewrite Ht. replace (ret =? 0) with false by lia. unfold module_res.
  by rewrite Hd1, Hd2, Hw, Hp.
Qed.

(** C24: Loading, running and unloading.  After a successful init both sensor
    names are set.  Whatever happens while the module is loaded (runs of the
    USB work item with any answers of the power-supply class, calls of
    [cpu_limits_set_level] with any requests and parameters), the exit
    function releases everything the module holds exactly once, whichever
    optional parts came up, with two exceptions: the power-supply notifier,
    which stays registered with a callback in unloaded code, and the reference
    to the power supply, which is held once as soon as one run of the work
    item found it and never put.  And the order is wrong for the screen: the
    workqueue is destroyed first, while the panel notifier, whose callback
    queues work on it, is still registered. *)
Theorem thermal_load_unload `{KText} nr en env es :
  env_ok nr (e_cpus env) -> NoDup (e_possible env) -> Forall module_event_ok es ->
  let '(ret, s1, t1) := mi_thermal_interface_init en env init_state in
  ret = 0 ->
  is_Some (board_sensor s1) /\ is_Some (ambient_sensor s1) /\
  forall s2 t2, module_run es s1 = Some (s2, t2) ->
  let '(_, s3, t3) := mi_thermal_interface_exit s2 in
  mi_thermal_dev s3 = no_node /\ mi_powersave_dev s3 = no_node /\
  cpufreq_dev_list (cpufreq s3) = [] /\
  replay (t1 ++ t2 ++ t3) [] =
    Some ((if existsb finds_psy es then [RUsbPsy] else []) ++
          (if e_usb_notifier env =? 0 then [RUsbNotifier] else [])) /\
  (panel_cookie s1 = true -> exists t3' held, t3 = Rel RWq :: t3' /\
     replay (t1 ++ t2 ++ [Rel RWq]) [] = Some held /\ RPanel ∈ held).
Proof.
  intros Henv Hnd Hes. pose proof (init_module_spec nr en env Henv Hnd) as Hi.
  destruct (mi_thermal_interface_init en env init_state) as [[ret s1] t1].
  destruct Hi as (Hwf & Hpsy & Hb & Ha & _ & Hw & Ht). intros ->. simpl in Ht.
  specialize (Hw eq_refl). split; [done|]. split; [done|]. intros s2 t2 Hrun.
  destruct (module_run_spec nr es s1 s2 t2 Hes Hwf Hrun) as ([Hf _] & Hs2 & Hc & Hp & Ht2).
  pose proof (exit_module_spec nr s2 (e_usb_notifier env =? 0) Hf) as He.
  destruct (mi_thermal_interface_exit s2) as [[u s3] t3].
  destruct He as (Hl & Hd1 & Hd2 & Ht3 & Hfirst).
  assert (psy_res s2 = if existsb finds_psy es then [RUsbPsy] else []) as HU
    by (unfold psy_res; by rewrite Hp, Hpsy).
  assert (forall usb, module_res usb s2 = module_res usb s1) as Hm by (intros; by rewrite Hs2).
  specialize (Ht2 (module_res (e_usb_notifier env =? 0) s1 ++ cpufreq_held s1)).
  unfold psy_res at 1 in Ht2. rewrite Hpsy in Ht2. cbn [app] in Ht2.
  rewrite Hm, Hc in Ht3. split_and!; [done|done|done| |].
  - rewrite (replay_app _ _ _ _ Ht), (replay_app _ _ _ _ Ht2). by rewrite Ht3, HU.
  - intros Hpc. assert (screen_state_wq s2 = true) as Hw2 by (by rewrite Hs2).
    destruct (Hfirst Hw2) as [t3' Ht3']. exists t3'.
    set (h := psy_res s2 ++ RPanel :: (if e_usb_notifier env =? 0 then [RUsbNotifier] else []) ++
      node_res NPowersave (mi_powersave_dev s1) ++ node_res NThermal (mi_thermal_dev s1)).
    exists (h ++ cpufreq_held s1). split; [done|].
    assert (psy_res s2 ++ module_res (e_usb_notifier env =? 0) s1 ++ cpufreq_held s1 =
      h ++ RWq :: cpufreq_held s1) as Heq.
    { unfold module_res, h. rewrite Hpc, Hw. cbn [app]. by rewrite <- !app_assoc; cbn [app];
        rewrite <- !app_assoc. }
    rewrite (replay_app _ _ _ _ Ht), (replay_app _ _ _ _ Ht2), Heq. split.
    + apply (replay_release RWq []). unfold h, psy_res, node_res.
      destruct (usb_psy (usb_state s2)), (e_usb_notifier env =? 0), (mi_thermal_dev s1) as [[] []],
        (mi_powersave_dev s1) as [[] []]; apply (bool_decide_unpack _); by vm_compute.
    + unfold h. rewrite !elem_of_app, elem_of_cons. auto.
Qed.
End module_lemmas.

(** ** Witnesses *)

Section module_reference.
#[local] Existing Instance FreqQosRef.

Definition node_up : node_env := NodeEnv true true true true true 0 true 0.
Definition node_down : node_env := NodeEnv true true false true true 0 true (- ENOMEM).
Definition example_thermal_env (th : node_env) : thermal_env :=
  ThermalEnv example_env [0%nat; 1%nat] None true th node_up 0 true.

Lemma thermal_init_failure_witness :
  let r := mi_thermal_interface_init true (example_thermal_env node_down) init_state in
  r.1.1 = - ENOMEM /\
  mi_thermal_dev r.1.2 = no_node /\ mi_powersave_dev r.1.2 = no_node /\
  screen_state_wq r.1.2 = false /\ panel_cookie r.1.2 = false /\
  replay r.2 [] = Some (cpufreq_held r.1.2).
Proof.
  intros r. assert (r.1.1 = - ENOMEM) as Hr by (by vm_compute). split; [done|].
  pose proof (thermal_init_failure 2 true (example_thermal_env node_down)
    example_env_ok example_nodup) as Hf.
  fold r in Hf. destruct r as [[ret s] t]. apply Hf. simpl in Hr. by rewrite Hr.
Defined.

#[local] Existing Instance KTextRef.

(** The power supply is found at the second event, and read again later. *)
Definition example_events : list module_event :=
  [EvUsbWork false 0 0; EvUsbWork true 0 1; EvSetLevel cpu_limits_defaults example_sensors 1 2000;
   EvUsbWork true 0 0].

Lemma example_events_ok : Forall module_event_ok example_events.
Proof. repeat constructor; by vm_compute. Qed.

Lemma thermal_load_unload_witness :
  let r1 := mi_thermal_interface_init true (example_thermal_env node_up) init_state in
  exists s2 t2, module_run example_events r1.1.2 = Some (s2, t2) /\
  let r3 := mi_thermal_interface_exit s2 in
  cpufreq_dev_list (cpufreq r3.1.2) = [] /\
  replay (r1.2 ++ t2 ++ r3.2) [] = Some [RUsbPsy; RUsbNotifier].
Proof.
  intros r1. assert (r1.1.1 = 0) as Hr by (by vm_compute).
  destruct (module_run example_events r1.1.2) as [[s2 t2]|] eqn:E;
    [|exfalso; revert E; by vm_compute].
  exists s2, t2. split; [done|].
  pose proof (thermal_load_unload 2 true (example_thermal_env node_up) example_events
    example_env_ok example_nodup example_events_ok) as Hl.
  fold r1 in Hl. destruct r1 as [[ret s] t]. cbn [fst snd] in *.
  destruct (Hl Hr) as (_ & _ & Hx). specialize (Hx s2 t2 E).
  destruct (mi_thermal_interface_exit s2) as [[u s3] t3]. cbn [fst snd].
  split; apply Hx.
Defined.
End module_reference.
