(* ===== verification/ThermalExit.v ===== *)
(** * ThermalExit: unloading while notifications arrive

    The exit function of mi_thermal/mi_thermal_interface.c runs concurrently
    with the panel and power-supply notifiers and with the two work items.
    The threads are the steps of a transition system over the rest of the exit
    function; an access to a destroyed workqueue or to code and data of the
    module after the exit function has returned is a fault.  The invariant of the
    proofs uses [order_safe], a check of the calls that are left; the order of
    the code does not pass it, and the faults it allows are reachable. *)

From S2P Require Import Prelude.

(** The calls of an exit function; the nodes and the caps are one. *)
Inductive exit_op :=
| CancelScreenWork
| CancelUsbWork
| DestroyWorkqueue
| UnregisterPanel
| UnregisterUsb
| DestroyNodes.

(** [mi_thermal_interface_exit]: [panel_cookie] tells whether the panel
    notifier was registered. *)
Definition thermal_exit_calls (panel_cookie : bool) : list exit_op :=
  [CancelScreenWork; CancelUsbWork; DestroyWorkqueue] ++
  (if panel_cookie then [UnregisterPanel] else []) ++ [DestroyNodes].

(** A delayed work item: queued, and running on a worker. *)
Record work := Work { queued : bool; running : bool }.
Definition idle_work : work := Work false false.

Inductive unload_fault :=
| QueueOnDestroyed   (* queue_delayed_work on a workqueue that is gone *)
| CallbackFreed      (* a notifier calls code that is gone *)
| WorkFreed.         (* a worker runs a work item that is gone *)

(** [todo]: the calls left of the exit function, which has returned when
    there are none; the registrations; the callbacks between their start and
    their [queue_delayed_work]; the work items; the first fault. *)
Record unload := Unload {
  todo : list exit_op;
  panel_on : bool;
  usb_on : bool;
  wq_up : bool;
  panel_cbs : nat;
  usb_cbs : nat;
  screen_state_dw : work;
  usb_state_work : work;
  fault : option unload_fault
}.

Definition gone (u : unload) : bool := match todo u with [] => true | _ => false end.

Definition raise (f : unload_fault) (b : bool) (u : unload) : option unload_fault :=
  match fault u with Some g => Some g | None => if b then Some f else None end.

(** ** Steps *)

(** A notification starts a callback of the module. *)
Inductive notify_step : unload -> unload -> Prop :=
| notify_panel u :
    panel_on u = true ->
    notify_step u (Unload (todo u) (panel_on u) (usb_on u) (wq_up u) (S (panel_cbs u))
      (usb_cbs u) (screen_state_dw u) (usb_state_work u) (raise CallbackFreed (gone u) u))
| notify_usb u :
    usb_on u = true ->
    notify_step u (Unload (todo u) (panel_on u) (usb_on u) (wq_up u) (panel_cbs u)
      (S (usb_cbs u)) (screen_state_dw u) (usb_state_work u) (raise CallbackFreed (gone u) u)).

(** The callbacks queue their work item: that of the panel on the workqueue of
    the module, that of the power supply on [system_wq]. *)
Inductive callback_step : unload -> unload -> Prop :=
| panel_queue t po uo wq k uk w v f :
    let u := Unload t po uo wq (S k) uk w v f in
    callback_step u (Unload t po uo wq k uk
      (if wq then Work true (running w) else w) v
      (if gone u then raise CallbackFreed true u else raise QueueOnDestroyed (negb wq) u))
| usb_queue t po uo wq k uk w v f :
    let u := Unload t po uo wq k (S uk) w v f in
    callback_step u (Unload t po uo wq k uk w (Work true (running v))
      (raise CallbackFreed (gone u) u)).

(** The workers: an item runs on one worker at a time. *)
Inductive worker_step : unload -> unload -> Prop :=
| screen_start t po uo wq k uk v f :
    let u := Unload t po uo wq k uk (Work true false) v f in
    worker_step u (Unload t po uo wq k uk (Work false true) v (raise WorkFreed (gone u) u))
| screen_end t po uo wq k uk q v f :
    let u := Unload t po uo wq k uk (Work q true) v f in
    worker_step u (Unload t po uo wq k uk (Work q false) v (raise WorkFreed (gone u) u))
| usb_start t po uo wq k uk w f :
    let u := Unload t po uo wq k uk w (Work true false) f in
    worker_step u (Unload t po uo wq k uk w (Work false true) (raise WorkFreed (gone u) u))
| usb_end t po uo wq k uk w q f :
    let u := Unload t po uo wq k uk w (Work q true) f in
    worker_step u (Unload t po uo wq k uk w (Work q false) (raise WorkFreed (gone u) u)).

(** The exit function: [cancel_delayed_work_sync] takes the item off its queue
    and waits for its end; [destroy_workqueue] waits for the queue to drain;
    the unregister functions wait for the callbacks that run. *)
Inductive exit_step : unload -> unload -> Prop :=
| exit_cancel_screen t po uo wq k uk q v f :
    exit_step (Unload (CancelScreenWork :: t) po uo wq k uk (Work q false) v f)
      (Unload t po uo wq k uk idle_work v f)
| exit_cancel_usb t po uo wq k uk w q f :
    exit_step (Unload (CancelUsbWork :: t) po uo wq k uk w (Work q false) f)
      (Unload t po uo wq k uk w idle_work f)
| exit_destroy_wq t po uo wq k uk v f :
    exit_step (Unload (DestroyWorkqueue :: t) po uo wq k uk idle_work v f)
      (Unload t po uo false k uk idle_work v f)
| exit_unregister_panel t po uo wq uk w v f :
    exit_step (Unload (UnregisterPanel :: t) po uo wq 0 uk w v f)
      (Unload t false uo wq 0 uk w v f)
| exit_unregister_usb t po uo wq k w v f :
    exit_step (Unload (UnregisterUsb :: t) po uo wq k 0 w v f)
      (Unload t po false wq k 0 w v f)
| exit_nodes t po uo wq k uk w v f :
    exit_step (Unload (DestroyNodes :: t) po uo wq k uk w v f)
      (Unload t po uo wq k uk w v f).

(** Without new notifications, and with them. *)
Definition quiet_step (u u' : unload) : Prop :=
  callback_step u u' \/ worker_step u u' \/ exit_step u u'.
Definition unload_step (u u' : unload) : Prop := notify_step u u' \/ quiet_step u u'.

(** The module at the start of its exit function, with the notifiers that
    were registered, whatever callbacks and work items are under way. *)
Definition unload_start (calls : list exit_op) (cookie usb_registered : bool) (u : unload) : Prop :=
  todo u = calls /\ panel_on u = cookie /\ usb_on u = usb_registered /\ wq_up u = true /\
  (cookie = false -> panel_cbs u = 0%nat /\ screen_state_dw u = idle_work) /\
  (usb_registered = false -> usb_cbs u = 0%nat /\ usb_state_work u = idle_work) /\
  fault u = None.

(** ** A check of the order *)

(** [po], [uo]: the notifier may still call; [wc], [vc]: the work item can no
    longer be queued or run. *)
Fixpoint order_safe (calls : list exit_op) (po uo wc vc : bool) : bool :=
  match calls with
  | [] => negb po && negb uo && wc && vc
  | CancelScreenWork :: t => order_safe t po uo (negb po) vc
  | CancelUsbWork :: t => order_safe t po uo wc (negb uo)
  | DestroyWorkqueue :: t => negb po && order_safe t po uo true vc
  | UnregisterPanel :: t => order_safe t false uo wc vc
  | UnregisterUsb :: t => order_safe t po false wc vc
  | DestroyNodes :: t => order_safe t po uo wc vc
  end.

Definition unload_inv (u : unload) : Prop :=
  fault u = None /\
  (panel_on u = false -> panel_cbs u = 0%nat) /\
  (usb_on u = false -> usb_cbs u = 0%nat) /\
  (wq_up u = false -> panel_on u = false) /\
  exists wc vc,
    (wc = true -> panel_on u = false /\ screen_state_dw u = idle_work) /\
    (vc = true -> usb_on u = false /\ usb_state_work u = idle_work) /\
    order_safe (todo u) (panel_on u) (usb_on u) wc vc = true.

#[local] Ltac bools :=
  repeat match goal with
  | H : _ && _ = true |- _ => apply andb_prop in H as [? ?]
  | H : negb ?b = true |- _ => apply negb_true_iff in H; subst
  | H : ?b = ?b -> _ |- _ => specialize (H eq_refl)
  end.

(** In a state of the invariant in which the function has returned, nothing
    of the module is under way. *)
Lemma unload_inv_gone u :
  unload_inv u -> gone u = true ->
  panel_on u = false /\ usb_on u = false /\ panel_cbs u = 0%nat /\ usb_cbs u = 0%nat /\
  screen_state_dw u = idle_work /\ usb_state_work u = idle_work.
Proof.
  destruct u as [[|c t] po uo wq k uk w v f]; intros (_ & Hp & Hu & _ & wc & vc & Hw & Hv & Ho) Hg;
    [|done]. simpl in *. bools. subst. naive_solver.
Qed.

Lemma notify_inv u u' : unload_inv u -> notify_step u u' -> unload_inv u'.
Proof.
  intros Hi Hs. assert (gone u = false) as Hg.
  { destruct (gone u) eqn:E; [|done]. destruct (unload_inv_gone u Hi E) as (? & ? & _).
    inversion Hs; congruence. }
  destruct Hi as (Hf & Hp & Hu & Hq & wc & vc & Hw & Hv & Ho).
  inversion Hs as [u0 Hon|u0 Hon]; subst; unfold unload_inv, raise; simpl;
    rewrite Hf, Hg; (split; [done|]); split_and!; try done; try congruence; by exists wc, vc.
Qed.

Lemma callback_inv u u' : unload_inv u -> callback_step u u' -> unload_inv u'.
Proof.
  intros Hi Hs. assert (gone u = false) as Hg.
  { destruct (gone u) eqn:E; [|done].
    destruct (unload_inv_gone u Hi E) as (_ & _ & ? & ? & _). by inversion Hs; subst u. }
  destruct Hi as (Hf & Hp & Hu & Hq & wc & vc & Hw & Hv & Ho).
  inversion Hs; subst; simpl in *; subst.
  - destruct po; [|by specialize (Hp eq_refl)]. destruct wq; [|by specialize (Hq eq_refl)].
    unfold unload_inv, raise. simpl. destruct t; [done|]. simpl.
    split_and!; try done. exists wc, vc. split; [by intros [? _]%Hw|done].
  - destruct uo; [|by specialize (Hu eq_refl)].
    unfold unload_inv, raise. simpl. destruct t; [done|]. simpl.
    split_and!; try done. exists wc, vc. split; [done|]. split; [by intros [? _]%Hv|done].
Qed.

Lemma worker_inv u u' : unload_inv u -> worker_step u u' -> unload_inv u'.
Proof.
  intros Hi Hs. assert (gone u = false) as Hg.
  { destruct (gone u) eqn:E; [|done].
    destruct (unload_inv_gone u Hi E) as (_ & _ & _ & _ & ? & ?). by inversion Hs; subst u. }
  destruct Hi as (Hf & Hp & Hu & Hq & wc & vc & Hw & Hv & Ho).
  inversion Hs; subst; simpl in *; subst; (destruct t; [done|]);
    unfold unload_inv, raise; simpl; split_and!; try done; exists wc, vc;
    split_and!; try done; by intros [_ ?]%Hw || by intros [_ ?]%Hv.
Qed.

Lemma exit_inv u u' : unload_inv u -> exit_step u u' -> unload_inv u'.
Proof.
  intros (Hf & Hp & Hu & Hq & wc & vc & Hw & Hv & Ho) Hs.
  inversion Hs; subst; simpl in *; unfold unload_inv; simpl.
  - split_and!; try done. exists (negb po), vc. split_and!; [by intros ->%negb_true_iff|done|done].
  - split_and!; try done. exists wc, (negb uo). split_and!; [done|by intros ->%negb_true_iff|done].
  - bools. split_and!; try done. by exists true, vc.
  - split_and!; try done. exists wc, vc. split_and!; [|done|done]. by intros [_ ?]%Hw.
  - split_and!; try done. exists wc, vc. split_and!; [done| |done]. by intros [_ ?]%Hv.
  - split_and!; try done. by exists wc, vc.
Qed.

Lemma unload_inv_step u u' : unload_inv u -> unload_step u u' -> unload_inv u'.
Proof.
  intros Hi [Hs|[Hs|[Hs|Hs]]]; eauto using notify_inv, callback_inv, worker_inv, exit_inv.
Qed.

Lemma unload_start_inv calls cookie usb_ok u :
  unload_start calls cookie usb_ok u ->
  order_safe calls cookie usb_ok (negb cookie) (negb usb_ok) = true -> unload_inv u.
Proof.
  intros (<- & <- & <- & Hwq & Hc & Hu & Hf) Ho. unfold unload_inv.
  split_and!; try done; [naive_solver..|congruence|].
  exists (negb (panel_on u)), (negb (usb_on u)). split_and!; [| |done];
    intros Hb%negb_true_iff; naive_solver.
Qed.

Lemma unload_inv_rtc u0 u : unload_inv u0 -> rtc unload_step u0 u -> unload_inv u.
Proof. intros Hi Hr. induction Hr; [done|]. eauto using unload_inv_step. Qed.

(** ** The order of the code *)

(** Nothing under way at the start. *)
Definition unload_idle (calls : list exit_op) (cookie usb_registered : bool) : unload :=
  Unload calls cookie usb_registered true 0 0 idle_work idle_work None.

Lemma unload_idle_start calls cookie usb_registered :
  unload_start calls cookie usb_registered (unload_idle calls cookie usb_registered).
Proof. by split_and!. Qed.

(** An order that passes: the notifiers first, then the work items. *)
Definition unregister_first : list exit_op :=
  [UnregisterUsb; UnregisterPanel; CancelUsbWork; CancelScreenWork; DestroyWorkqueue;
   DestroyNodes].

#[local] Ltac step_exit := eapply rtc_l; [right; right; right; constructor|].

(** After the workqueue is destroyed and before the notifier is unregistered a
    panel notification queues its work item. *)
Lemma panel_fault usb_registered :
  exists u, rtc unload_step (unload_idle (thermal_exit_calls true) true usb_registered) u /\
    fault u = Some QueueOnDestroyed.
Proof.
  eexists. split.
  - unfold unload_idle, thermal_exit_calls. simpl. do 3 step_exit.
    eapply rtc_l; [left; by apply notify_panel|]. simpl.
    eapply rtc_l; [right; left; apply panel_queue|]. apply rtc_refl.
  - done.
Qed.

(** The function returns with the USB notifier still registered. *)
Lemma exit_returns cookie usb_registered :
  rtc unload_step (unload_idle (thermal_exit_calls cookie) cookie usb_registered)
    (Unload [] false usb_registered false 0 0 idle_work idle_work None).
Proof.
  unfold unload_idle, thermal_exit_calls.
  destruct cookie; simpl; [do 5 step_exit|do 4 step_exit]; apply rtc_refl.
Qed.

Lemma usb_fault cookie :
  exists u, rtc unload_step (unload_idle (thermal_exit_calls cookie) cookie true) u /\
    fault u = Some CallbackFreed.
Proof.
  eexists. split.
  - eapply rtc_r; [apply exit_returns|]. left. by apply notify_usb.
  - done.
Qed.

(** A power-supply event after the work item was cancelled queues it again,
    and it runs after the function has returned. *)
Lemma usb_work_fault cookie :
  exists u, rtc unload_step (unload_idle (thermal_exit_calls cookie) cookie true) u /\
    fault u = Some WorkFreed.
Proof.
  unfold unload_idle, thermal_exit_calls. destruct cookie; simpl; eexists; split.
  1, 3: do 2 step_exit; eapply rtc_l; [left; by apply notify_usb|]; simpl;
    eapply rtc_l; [right; left; apply usb_queue|]; simpl.
  - do 3 step_exit. eapply rtc_l; [right; right; left; apply usb_start|]. apply rtc_refl.
  - do 2 step_exit. eapply rtc_l; [right; right; left; apply usb_start|]. apply rtc_refl.
  - done.
  - done.
Qed.

(** C17: The exit function of the code faults in some run exactly when one of
    the two notifiers was registered: with the panel notifier, by queueing on
    the destroyed workqueue; with the USB notifier, which is never
    unregistered, by a callback and by a work item that run after the module
    is gone.  Unregistering both notifiers first would exclude every fault. *)
Theorem thermal_exit_faults (cookie usb_registered : bool) :
  let u0 := unload_idle (thermal_exit_calls cookie) cookie usb_registered in
  let can f := exists u, rtc unload_step u0 u /\ fault u = Some f in
  ((exists f, can f) <-> cookie = true \/ usb_registered = true) /\
  (cookie = true -> can QueueOnDestroyed) /\
  (usb_registered = true -> can CallbackFreed /\ can WorkFreed) /\
  forall u, rtc unload_step (unload_idle unregister_first true true) u -> fault u = None.
Proof.
  cbv zeta. split_and!.
  - split.
    + intros (f & u & Hr & Hf). destruct cookie; [by left|]. destruct usb_registered; [by right|].
      apply unload_inv_rtc in Hr; [destruct Hr as [Hn _]; congruence|].
      by eapply unload_start_inv; [apply unload_idle_start|].
    + intros [->| ->]; [exists QueueOnDestroyed; apply panel_fault|].
      exists CallbackFreed. apply usb_fault.
  - intros ->. apply panel_fault.
  - intros ->. split; [apply usb_fault|apply usb_work_fault].
  - intros u Hr. apply unload_inv_rtc in Hr; [apply Hr|].
    by eapply unload_start_inv; [apply unload_idle_start|].
Qed.

(** ** Without further notifications *)

Definition work_left (w : work) : nat :=
  (if queued w then 2 else 0) + (if running w then 1 else 0).
Definition unload_left (u : unload) : nat :=
  length (todo u) + 3 * panel_cbs u + 3 * usb_cbs u +
  work_left (screen_state_dw u) + work_left (usb_state_work u).

Lemma quiet_decreases u u' : quiet_step u u' -> (unload_left u' < unload_left u)%nat.
Proof.
  intros [Hs|[Hs|Hs]]; inversion Hs; subst; unfold unload_left, work_left; simpl;
    repeat case_match; simpl in *; simplify_eq; lia.
Qed.

Lemma quiet_terminates u : Acc (flip quiet_step) u.
Proof.
  remember (unload_left u) as n eqn:Hn. revert u Hn.
  induction n as [n IH] using lt_wf_ind. intros u ->. constructor.
  intros u' Hs. eapply IH; [|done]. by apply quiet_decreases.
Qed.

(** Whatever the exit function waits for can make a step. *)
Lemma quiet_progress u :
  (forall u', ~ quiet_step u u') -> todo u = [] /\ panel_cbs u = 0%nat /\ usb_cbs u = 0%nat /\
  screen_state_dw u = idle_work /\ usb_state_work u = idle_work.
Proof.
  destruct u as [t po uo wq k uk [wqd wr] [vqd vr] f]. intros Hn. simpl.
  assert (k = 0%nat) as -> by (destruct k; [done|]; exfalso; eapply Hn; left; apply panel_queue).
  assert (uk = 0%nat) as -> by (destruct uk; [done|]; exfalso; eapply Hn; left; apply usb_queue).
  assert (wr = false) as ->
    by (destruct wr; [|done]; exfalso; eapply Hn; right; left; apply screen_end).
  assert (vr = false) as ->
    by (destruct vr; [|done]; exfalso; eapply Hn; right; left; apply usb_end).
  assert (wqd = false) as ->
    by (destruct wqd; [|done]; exfalso; eapply Hn; right; left; apply screen_start).
  assert (vqd = false) as ->
    by (destruct vqd; [|done]; exfalso; eapply Hn; right; left; apply usb_start).
  split_and!; try done. destruct t as [|[] t]; [done|..];
    exfalso; eapply Hn; right; right; constructor.
Qed.

(** The state with both notifiers silent, which quiet steps keep. *)
Definition silenced (u : unload) : unload :=
  Unload (todo u) false false (wq_up u) (panel_cbs u) (usb_cbs u) (screen_state_dw u)
    (usb_state_work u) (fault u).

Lemma silenced_quiet u u' : quiet_step u u' -> quiet_step (silenced u) (silenced u').
Proof.
  intros [Hs|[Hs|Hs]]; inversion Hs; subst; unfold silenced; simpl.
  - left. constructor.
  - left. constructor.
  - right. left. constructor.
  - right. left. constructor.
  - right. left. constructor.
  - right. left. constructor.
  - right. right. constructor.
  - right. right. constructor.
  - right. right. constructor.
  - right. right. constructor.
  - right. right. constructor.
  - right. right. constructor.
Qed.

(** C18: If no callback is in flight when the exit function starts and no
    notification arrives afterwards, unloading is safe and terminates, with
    whatever work items queued or running at the start: every run of the exit
    function and the workers is finite, no state of it faults, and it can
    only stop when the function has returned and no work item is left. *)
Theorem quiet_unload_terminates (cookie usb_registered : bool) (u0 : unload) :
  unload_start (thermal_exit_calls cookie) cookie usb_registered u0 ->
  panel_cbs u0 = 0%nat -> usb_cbs u0 = 0%nat ->
  Acc (flip quiet_step) u0 /\
  forall u, rtc quiet_step u0 u -> fault u = None /\
    ((forall u', ~ quiet_step u u') ->
     todo u = [] /\ screen_state_dw u = idle_work /\ usb_state_work u = idle_work).
Proof.
  intros (Ht & _ & _ & Hwq & _ & _ & Hf) Hp Hu. split; [apply quiet_terminates|].
  intros u Hr. split; [|intros Hn; by destruct (quiet_progress u Hn) as (? & _ & _ & ? & ?)].
  assert (unload_inv (silenced u0)) as Hi.
  { unfold unload_inv. simpl. split_and!; [done..|].
    exists false, false. split_and!; [done|done|]. rewrite Ht. by destruct cookie. }
  assert (rtc unload_step (silenced u0) (silenced u)) as Hr'.
  { clear -Hr. induction Hr; [apply rtc_refl|].
    eapply rtc_l; [right; by apply silenced_quiet|done]. }
  apply (unload_inv_rtc _ _ Hi Hr').
Qed.

(** ** Witnesses *)

Lemma quiet_unload_terminates_witness :
  let u0 := Unload (thermal_exit_calls true) true true true 0 0 (Work true true)
    (Work true false) None in
  Acc (flip quiet_step) u0.
Proof.
  apply (quiet_unload_terminates true true (Unload (thermal_exit_calls true) true true true 0 0
    (Work true true) (Work true false) None)); [|done|done].
  by split_and!.
Defined.
