(* ===== verification/Params.v ===== *)
(** * Params: module parameters

    [module_param] makes a variable a file of the kernel's parameter
    directory.  The kernel's set and get operations per C type are the class
    [KParam]; the reading of load arguments and the writes to the files are
    definitions over any table of parameters.  The tables of the modules are
    in [ParamTables], a reference instance of the class in [ParamsRef]. *)

From stdpp Require Import gmap strings.
From S2P Require Import Prelude KText.

(** The types named in [module_param]; an array has a dimension and, when [counted],
    a variable for the number of elements set. *)
Inductive ptype :=
| PBool
| PInt
| PUint
| PUlong
| PCharp
| PUintArray (dim : nat) (counted : bool).

Inductive pval :=
| VBool (b : bool)
| VNum (z : Z)
| VStr (s : bytes)
| VArr (l : list Z) (num : nat).

#[global] Instance pval_eq_dec : EqDecision pval.
Proof. solve_decision. Defined.

(** The type a variable is declared with. *)
Inductive ctype :=
| CBool
| CInt
| CUint
| CUlong
| CCharp
| CUintArray (dim : nat).

(** A value the operations of a type read and write. *)
Definition has_type (t : ptype) (v : pval) : Prop :=
  match t, v with
  | PBool, VBool _ => True
  | PInt, VNum z => in_s32 z
  | PUint, VNum z => in_u32 z
  | PUlong, VNum z => in_u64 z
  | PCharp, VStr s => NUL ∉ s
  | PUintArray n counted, VArr l num =>
      length l = n /\ Forall in_u32 l /\ (num <= if counted then n else 0)%nat
  | _, _ => False
  end.

(** A value of the C type; the count of an array is at most its length. *)
Definition has_ctype (c : ctype) (v : pval) : Prop :=
  match c, v with
  | CBool, VBool _ => True
  | CInt, VNum z => in_s32 z
  | CUint, VNum z => in_u32 z
  | CUlong, VNum z => in_u64 z
  | CCharp, VStr s => NUL ∉ s
  | CUintArray n, VArr l num => length l = n /\ Forall in_u32 l /\ (num <= n)%nat
  | _, _ => False
  end.

(** The check [module_param] makes when it is compiled: the named type is the
    type of the variable.  Without it an operation would store a value the
    variable cannot hold. *)
Definition type_check (t : ptype) (c : ctype) : bool :=
  match t, c with
  | PBool, CBool | PInt, CInt | PUint, CUint | PUlong, CUlong | PCharp, CCharp => true
  | PUintArray n _, CUintArray n' => bool_decide (n = n')
  | _, _ => false
  end.

Lemma type_check_has t c v : type_check t c = true -> has_type t v -> has_ctype c v.
Proof.
  destruct t, c; try done; simpl; intros Hc; destruct v; try done.
  apply bool_decide_eq_true in Hc as ->. intros (? & ? & ?). split_and!; [done|done|].
  destruct counted; lia.
Qed.

#[global] Instance has_type_dec t v : Decision (has_type t v).
Proof.
  destruct t, v; simpl; unfold in_s32, in_u32, in_u64; apply _.
Defined.

(** Types whose value is one number or truth value. *)
Definition is_number (t : ptype) : bool :=
  match t with PBool | PInt | PUint | PUlong => true | _ => false end.
Definition is_array (t : ptype) : bool :=
  match t with PUintArray _ _ => true | _ => false end.

(** For these the operations reach every value of the C type. *)
Lemma type_check_number t c v :
  type_check t c = true -> is_number t = true -> has_ctype c v -> has_type t v.
Proof. by destruct t, c, v. Qed.

(** The permission bits of the file. *)
Inductive pmode := MODE_0644 | MODE_0444.
#[global] Instance pmode_eq_dec : EqDecision pmode.
Proof. solve_decision. Defined.
Definition writable (m : pmode) : bool := match m with MODE_0644 => true | MODE_0444 => false end.

Record param := Param {
  p_name : string;
  p_ctype : ctype;
  p_type : ptype;
  p_mode : pmode;
  p_init : pval
}.

(** [param_set t s v] is the set operation of the type on the text [s] while
    the variable holds [v]: the result and the new value.  A number is either
    set or left alone; an array may be written in part.  [refused] is the
    error of a write to a file without write permission. *)
Class KParam := {
  param_set : ptype -> bytes -> pval -> Z * pval;
  param_get : ptype -> pval -> bytes;
  refused : Z;

  refused_neg : refused < 0;
  param_set_ret t s v : (param_set t s v).1 <= 0;
  param_set_typed t s v : has_type t v -> has_type t (param_set t s v).2;
  param_set_fail t s v : is_array t = false -> (param_set t s v).1 <> 0 ->
    (param_set t s v).2 = v;
  param_set_get t v w : is_number t = true -> has_type t v -> has_type t w ->
    param_set t (param_get t v) w = (0, v)
}.

(** The variables of a module. *)
Abbreviation pstore := (gmap string pval).

Section table.
Context `{KParam} (table : list param).

Definition find_param (name : string) : option param :=
  snd <$> list_find (fun p => p_name p = name) table.

(** The variables as the file initialises them. *)
Definition initial_params : pstore :=
  list_to_map ((fun p => (p_name p, p_init p)) <$> table).

Definition set_param (p : param) (text : bytes) (st : pstore) : Z * pstore :=
  match st !! p_name p with
  | Some v => let '(ret, v') := param_set (p_type p) text v in (ret, <[p_name p := v']> st)
  | None => (- EINVAL, st)
  end.

(** A write to the file of a parameter. *)
Definition write_param (name : string) (text : bytes) (st : pstore) : Z * pstore :=
  match find_param name with
  | Some p => if writable (p_mode p) then set_param p text st else (refused, st)
  | None => (- ENOENT, st)
  end.

Definition read_param (name : string) (st : pstore) : option bytes :=
  p ← find_param name; v ← st !! name; Some (param_get (p_type p) v).

(** The arguments of the module: an unknown name is skipped, an invalid value
    fails the load.  Permissions do not matter here. *)
Fixpoint load_params (args : list (string * bytes)) (st : pstore) : Z + pstore :=
  match args with
  | [] => inr st
  | (name, text) :: args' =>
      match find_param name with
      | Some p =>
          let '(ret, st') := set_param p text st in
          if ret =? 0 then load_params args' st' else inl ret
      | None => load_params args' st
      end
  end.

Definition write_params (writes : list (string * bytes)) (st : pstore) : pstore :=
  foldl (fun st w => (write_param w.1 w.2 st).2) st writes.

(** Every variable of the table has a value its operations may have put there. *)
Definition store_typed (st : pstore) : Prop :=
  Forall (fun p => exists v, st !! p_name p = Some v /\ has_type (p_type p) v) table.

(** Every variable of the table has a value of its C type. *)
Definition vars_typed (st : pstore) : Prop :=
  Forall (fun p => exists v, st !! p_name p = Some v /\ has_ctype (p_ctype p) v) table.

(** A table that declares each name once, with initial values of its type, and
    whose types pass the check of [module_param]. *)
Definition table_wf : Prop :=
  NoDup (p_name <$> table) /\
  Forall (fun p => has_type (p_type p) (p_init p) /\
    type_check (p_type p) (p_ctype p) = true) table.

#[export] Instance table_wf_dec : Decision table_wf.
Proof. unfold table_wf. apply _. Defined.

Lemma find_param_Some name p :
  find_param name = Some p -> p ∈ table /\ p_name p = name.
Proof.
  unfold find_param. intros ([i q] & (Hi & Hn & _)%list_find_Some & [= ->])%fmap_Some.
  split; [by eapply list_elem_of_lookup_2|done].
Qed.

Lemma find_param_in p : table_wf -> p ∈ table -> find_param (p_name p) = Some p.
Proof.
  intros [Hnd _] Hp. destruct (find_param (p_name p)) as [q|] eqn:E.
  - apply find_param_Some in E as [Hq Hn].
    apply list_elem_of_lookup in Hp as [i Hi]. apply list_elem_of_lookup in Hq as [j Hj].
    assert (i = j) as ->; [|congruence].
    eapply (NoDup_lookup _ _ _ (p_name p) Hnd); rewrite list_lookup_fmap; [by rewrite Hi|].
    by rewrite Hj, <- Hn.
  - unfold find_param in E. apply fmap_None, list_find_None in E.
    rewrite Forall_forall in E. by destruct (E _ Hp).
Qed.

Lemma store_vars_typed st : table_wf -> store_typed st -> vars_typed st.
Proof.
  unfold table_wf, store_typed, vars_typed. rewrite !Forall_forall. intros [_ Hwf] Hst p Hp.
  destruct (Hst p Hp) as (v & Hv & Ht). exists v. split; [done|].
  by eapply type_check_has, Ht; apply Hwf.
Qed.

Lemma initial_lookup p : table_wf -> p ∈ table -> initial_params !! p_name p = Some (p_init p).
Proof.
  intros [Hnd _] Hp. apply elem_of_list_to_map; [by rewrite <- list_fmap_compose|].
  by apply (list_elem_of_fmap_2 (fun p => (p_name p, p_init p))).
Qed.

Lemma initial_typed : table_wf -> store_typed initial_params.
Proof.
  intros Hwf. apply Forall_forall. intros p Hp. exists (p_init p).
  split; [by apply initial_lookup|]. destruct Hwf as [_ Ht].
  rewrite Forall_forall in Ht. by apply Ht.
Qed.

Lemma set_param_typed p text st :
  table_wf -> p ∈ table -> store_typed st -> store_typed (set_param p text st).2.
Proof.
  intros Hwf Hp Hst. unfold set_param. unfold store_typed in *.
  rewrite Forall_forall in Hst |- *.
  destruct (Hst p Hp) as (v & Hv & Htv). rewrite Hv.
  destruct (param_set _ _ _) as [ret v'] eqn:E. intros q Hq. cbn [snd].
  destruct (decide (p_name q = p_name p)) as [Heq|Hne].
  - exists v'. rewrite Heq. split; [apply lookup_insert_eq|].
    assert (q = p) as ->.
    { pose proof (find_param_in q Hwf Hq) as H1. pose proof (find_param_in p Hwf Hp) as H2.
      rewrite Heq in H1. congruence. }
    replace v' with (param_set (p_type p) text v).2 by (by rewrite E). by apply param_set_typed.
  - destruct (Hst q Hq) as (w & Hw & Htw). exists w. by rewrite lookup_insert_ne.
Qed.

Lemma write_param_typed name text st :
  table_wf -> store_typed st -> store_typed (write_param name text st).2.
Proof.
  intros Hwf Hst. unfold write_param. destruct (find_param name) as [p|] eqn:E; [|done].
  apply find_param_Some in E as [Hp _]. case_match; [by apply set_param_typed|done].
Qed.

Lemma write_params_typed writes st :
  table_wf -> store_typed st -> store_typed (write_params writes st).
Proof.
  intros Hwf. revert st. induction writes as [|[n t] writes IH]; intros st Hst; [done|].
  simpl. by apply IH, write_param_typed.
Qed.

Lemma load_params_typed args st st' :
  table_wf -> store_typed st -> load_params args st = inr st' -> store_typed st'.
Proof.
  intros Hwf. revert st. induction args as [|[n t] args IH]; intros st Hst; simpl.
  { by intros [= <-]. }
  destruct (find_param n) as [p|] eqn:E; [|by apply IH].
  apply find_param_Some in E as [Hp _].
  pose proof (set_param_typed p t st Hwf Hp Hst) as Ht.
  destruct (set_param p t st) as [ret st1]. case_match; [|done]. by apply IH.
Qed.

(** A write changes its own variable only, and nothing when it is refused or,
    for anything but an array, fails. *)
Lemma write_param_frame name text st other :
  other <> name -> (write_param name text st).2 !! other = st !! other.
Proof.
  intros Hne. unfold write_param, set_param. destruct (find_param name) as [p|] eqn:E; [|done].
  apply find_param_Some in E as [_ <-]. destruct (writable _); [|done].
  destruct (st !! p_name p) as [v|]; [|done]. destruct (param_set _ _ _) as [ret v'].
  simpl. by rewrite lookup_insert_ne.
Qed.

Lemma write_param_readonly p text st :
  table_wf -> p ∈ table -> writable (p_mode p) = false ->
  write_param (p_name p) text st = (refused, st).
Proof. intros Hwf Hp Hm. unfold write_param. rewrite find_param_in by done. by rewrite Hm. Qed.

Lemma write_param_fail p text st :
  table_wf -> p ∈ table -> is_array (p_type p) = false ->
  (write_param (p_name p) text st).1 <> 0 -> (write_param (p_name p) text st).2 = st.
Proof.
  intros Hwf Hp Ha. unfold write_param, set_param. rewrite find_param_in by done.
  destruct (writable _); [|done]. destruct (st !! p_name p) as [v|] eqn:Hv; [|done].
  pose proof (param_set_fail (p_type p) text v Ha) as Hf.
  destruct (param_set _ _ _) as [ret v']. simpl in *. intros Hr. rewrite Hf by done.
  by apply insert_id.
Qed.

Lemma write_params_keeps writes st name :
  Forall (fun w => w.1 <> name \/ find_param name = None \/
    exists p, find_param name = Some p /\ writable (p_mode p) = false) writes ->
  write_params writes st !! name = st !! name.
Proof.
  revert st. induction writes as [|[n t] writes IH]; intros st Hw; [done|].
  apply Forall_cons in Hw as [Hn Hw]. simpl in *. rewrite IH by done.
  destruct (decide (n = name)) as [->|]; [|by apply write_param_frame].
  destruct Hn as [|[Hn|(p & Hn & Hm)]]; [done| |];
    unfold write_param; rewrite Hn; [done|]. by rewrite Hm.
Qed.

(** Loading touches only the variables it names. *)
Lemma load_params_keeps args st st' name :
  load_params args st = inr st' -> name ∉ args.*1 -> st' !! name = st !! name.
Proof.
  revert st. induction args as [|[n t] args IH]; intros st; simpl; [by intros [= ->]|].
  intros Hl Hn. destruct (find_param n) as [p|] eqn:E; [|by apply IH in Hl; [|set_solver]].
  apply find_param_Some in E as [_ E]. unfold set_param in Hl.
  destruct (st !! p_name p) as [v|]; [|done].
  destruct (param_set _ _ _) as [ret v']. case_match; [|done].
  rewrite (IH _ Hl) by set_solver. apply lookup_insert_ne. rewrite E. set_solver.
Qed.

(** In a table without writable parameters no write changes anything. *)
Lemma write_params_all_readonly writes st :
  Forall (fun p => writable (p_mode p) = false) table -> write_params writes st = st.
Proof.
  rewrite Forall_forall. intros Hro.
  induction writes as [|[n t] writes IH]; [done|]. simpl.
  replace (write_param n t st).2 with st; [done|]. unfold write_param.
  destruct (find_param n) as [p|] eqn:E; [|done]. apply find_param_Some in E as [Hp _].
  by rewrite (Hro p Hp).
Qed.

(** Every value of the C type of a numeric parameter can be written. *)
Lemma write_param_any p st v :
  table_wf -> p ∈ table -> store_typed st -> is_number (p_type p) = true ->
  writable (p_mode p) = true -> has_ctype (p_ctype p) v ->
  write_param (p_name p) (param_get (p_type p) v) st = (0, <[p_name p := v]> st).
Proof.
  intros Hwf Hp Hst Hnum Hm Hv. unfold write_param, set_param, store_typed in *.
  rewrite find_param_in, Hm by done. rewrite Forall_forall in Hst.
  destruct (Hst p Hp) as (w & -> & Hw). rewrite param_set_get; [done|done| |done].
  destruct Hwf as [_ Hwf]. rewrite Forall_forall in Hwf. destruct (Hwf p Hp) as [_ Hc].
  by eapply type_check_number.
Qed.


(** Writing back what a parameter read restores it. *)
Lemma write_read_back p st st' text :
  table_wf -> p ∈ table -> store_typed st -> store_typed st' ->
  is_number (p_type p) = true -> writable (p_mode p) = true ->
  read_param (p_name p) st = Some text ->
  (write_param (p_name p) text st').1 = 0 /\
  (write_param (p_name p) text st').2 !! p_name p = st !! p_name p.
Proof.
  intros Hwf Hp Hst Hst' Hnum Hm. unfold read_param, write_param, set_param.
  rewrite find_param_in by done. rewrite Hm. unfold store_typed in *.
  rewrite Forall_forall in Hst, Hst'.
  destruct (Hst p Hp) as (v & Hv & Htv), (Hst' p Hp) as (w & Hw & Htw).
  rewrite Hv, Hw. simpl. intros [= <-]. rewrite param_set_get by done. simpl.
  by rewrite lookup_insert_eq.
Qed.
End table.
