(* ===== verification/ParamsRef.v ===== *)
(** * ParamsRef: a reference instance of the parameter operations

    The set and get operations after kernel/params.c and kstrtox: numbers are
    read by kstrtox, an array is a comma-separated list that is stored element
    by element, a string is stored whole.  Witnesses evaluate with it. *)

From stdpp Require Import gmap strings.
From S2P Require Import Prelude KText KTextRef Params.

Definition kstrtoul_ref (s : bytes) : Z + Z :=
  match kstrtoull s with
  | inl e => inl e
  | inr v => if (0 <=? v) && (v <=? ULONG_MAX) then inr v else inl (- ERANGE)
  end.

(** The result of setting a number with the parser's outcome. *)
Definition set_with {A} (mk : A -> pval) (r : Z + A) (v : pval) : Z * pval :=
  match r with inl e => (e, v) | inr a => (0, mk a) end.

Definition COMMA : ascii := ",".

Fixpoint split_commas (s : bytes) : list bytes :=
  match s with
  | [] => [[]]
  | c :: s' =>
      if decide (c = COMMA) then [] :: split_commas s'
      else match split_commas s' with
           | p :: ps => (c :: p) :: ps
           | [] => [[c]]
           end
  end.

Fixpoint set_elems (dim : nat) (pieces : list bytes) (num : nat) (l : list Z)
  : Z * list Z * nat :=
  match pieces with
  | [] => (0, l, num)
  | p :: ps =>
      if decide (num = dim) then (- EINVAL, l, num)
      else match kstrtouint_ref p with
           | inl e => (e, l, num)
           | inr x => set_elems dim ps (S num) (<[num := x]> l)
           end
  end.

Definition CHARP_MAX : nat := 1024.

Definition param_set_ref (t : ptype) (s : bytes) (v : pval) : Z * pval :=
  match t with
  | PBool => set_with VBool (kstrtobool_ref (cstr s)) v
  | PInt => set_with VNum (kstrtoint_ref (cstr s)) v
  | PUint => set_with VNum (kstrtouint_ref (cstr s)) v
  | PUlong => set_with VNum (kstrtoul_ref (cstr s)) v
  | PCharp => if (CHARP_MAX <? length (cstr s))%nat then (- ENOSPC, v) else (0, VStr (cstr s))
  | PUintArray dim counted =>
      match v with
      | VArr l _ =>
          let '(ret, l', num) := set_elems dim (split_commas (cstr s)) 0 l in
          (ret, VArr l' (if counted then num else 0))
      | _ => (- EINVAL, v)
      end
  end.

Fixpoint commas (l : list bytes) : bytes :=
  match l with [] => [] | [p] => p | p :: ps => p ++ COMMA :: commas ps end.

Definition param_get_ref (t : ptype) (v : pval) : bytes :=
  match t, v with
  | PBool, VBool b => (if b then bs "Y" else bs "N") ++ [NL]
  | PInt, VNum z => fmt_d z ++ [NL]
  | (PUint | PUlong), VNum z => fmt_u z ++ [NL]
  | PCharp, VStr s => s ++ [NL]
  | PUintArray dim counted, VArr l num =>
      commas (fmt_u <$> take (if counted then num else dim) l) ++ [NL]
  | _, _ => []
  end.

Lemma set_elems_ok dim pieces num l :
  (num <= dim)%nat -> length l = dim -> Forall in_u32 l ->
  let '(ret, l', num') := set_elems dim pieces num l in
  ret <= 0 /\ length l' = dim /\ Forall in_u32 l' /\ (num' <= dim)%nat.
Proof.
  revert num l. induction pieces as [|p ps IH]; intros num l Hn Hl Hf; simpl; [auto with lia|].
  case_decide; [unfold EINVAL; auto with lia|].
  destruct (kstrtouint_ref p) as [e|x] eqn:E.
  - apply kstrtouint_ref_err in E. auto with lia.
  - apply kstrtouint_ref_range in E. apply IH; [lia|by rewrite length_insert|].
    by apply Forall_insert.
Qed.

Lemma cstr_app_nl s : NUL ∉ s -> cstr (s ++ [NL]) = s ++ [NL].
Proof. intros Hn. apply cstr_id. rewrite not_elem_of_app, list_elem_of_singleton. by split. Qed.

Lemma kstrtoul_ref_fmt v t :
  in_u64 v -> nl_tail t -> kstrtoul_ref (fmt_u v ++ t) = inr v.
Proof.
  intros Hv Ht. unfold kstrtoul_ref. rewrite kstrtoull_fmt by done.
  by replace ((0 <=? v) && (v <=? ULONG_MAX)) with true by klia.
Qed.

Lemma kstrtoul_ref_err s e : kstrtoul_ref s = inl e -> e < 0.
Proof.
  unfold kstrtoul_ref, ERANGE. intros. repeat case_match; simplify_eq; try lia; eauto using kstrtoull_err.
Qed.

Lemma set_with_ok {A} (mk : A -> pval) r v (P : pval -> Prop) :
  (forall e, r = inl e -> e < 0) -> (forall a, r = inr a -> P (mk a)) -> P v ->
  (set_with mk r v).1 <= 0 /\ P (set_with mk r v).2 /\
  ((set_with mk r v).1 <> 0 -> (set_with mk r v).2 = v).
Proof.
  intros He Ha Hv. destruct r as [e|a]; simpl; [|split_and!; [lia|by apply Ha|done]].
  specialize (He e eq_refl). split_and!; [lia|done|done].
Qed.

#[local] Hint Resolve kstrtobool_ref_err kstrtoint_ref_err kstrtouint_ref_err kstrtoul_ref_err
  kstrtoint_ref_range kstrtouint_ref_range : kparam.

Lemma kstrtoul_ref_range s v : kstrtoul_ref s = inr v -> in_u64 v.
Proof. unfold kstrtoul_ref. intros. repeat case_match; simplify_eq. klia. Qed.
#[local] Hint Resolve kstrtoul_ref_range : kparam.

(** All three laws of [param_set] that concern one call. *)
Lemma param_set_ref_ok t s v :
  (param_set_ref t s v).1 <= 0 /\
  (has_type t v -> has_type t (param_set_ref t s v).2) /\
  (is_array t = false -> (param_set_ref t s v).1 <> 0 -> (param_set_ref t s v).2 = v).
Proof.
  assert (forall A (mk : A -> pval) r,
    (forall e, r = inl e -> e < 0) -> (forall a, r = inr a -> has_type t (mk a)) ->
    (set_with mk r v).1 <= 0 /\ (has_type t v -> has_type t (set_with mk r v).2) /\
    (is_array t = false -> (set_with mk r v).1 <> 0 -> (set_with mk r v).2 = v)) as Hset.
  { intros A mk r He Ha.
    destruct (set_with_ok mk r v (fun w => has_type t v -> has_type t w)) as (? & ? & ?); auto. }
  destruct t; simpl param_set_ref; try (apply Hset; simpl; by eauto with kparam).
  - case_match; [unfold ENOSPC; simpl; auto with lia|]. simpl.
    split_and!; [done| |done]. intros _. apply cstr_no_nul.
  - destruct v as [| | |l num]; try (unfold EINVAL; simpl; by auto with lia).
    pose proof (set_elems_ok dim (split_commas (cstr s)) 0 l) as Hs.
    destruct (set_elems _ _ _ _) as [[ret l'] num'] eqn:E. simpl.
    split_and!; [| |done].
    + clear Hs. assert (forall ps k m r l1 k1, set_elems dim ps k m = (r, l1, k1) -> r <= 0) as Hr.
      { induction ps as [|p ps IH]; intros k m r l1 k1; simpl; [by intros [= <- _ _]|].
        case_decide; [unfold EINVAL; by intros [= <- _ _]|].
        destruct (kstrtouint_ref p) as [e|x] eqn:Ee; [|apply IH].
        apply kstrtouint_ref_err in Ee. intros [= <- _ _]. lia. }
      by eapply Hr.
    + intros (Hl & Hf & _). destruct Hs as (_ & Hl' & Hf' & Hn); [lia|done|done|].
      split_and!; [done|done|]. destruct counted; lia.
Qed.

Definition KParamRef : KParam.
Proof.
  refine {| param_set := param_set_ref; param_get := param_get_ref; refused := - 13 |}.
  - done.
  - intros. apply param_set_ref_ok.
  - intros t s v. apply param_set_ref_ok.
  - intros t s v. apply param_set_ref_ok.
  - intros t v w Hn Hv _.
    destruct t, v; try done; simpl in *; [by destruct b|..]; rewrite cstr_app_nl.
    + rewrite kstrtoint_ref_fmt; [done|done|by right].
    + apply fmt_d_no_nul.
    + rewrite kstrtouint_ref_fmt; [done|done|by right].
    + apply fmt_u_no_nul. klia.
    + rewrite kstrtoul_ref_fmt; [done|done|by right].
    + apply fmt_u_no_nul. klia.
Defined.
