(* ===== verification/HookIface.v ===== *)
(** * HookIface: what a hook table promises to the modules that use it

    The scheduler modules export pairs of functions register_x/unregister_x,
    each pair over one slot that holds a callback.  [Registrar] is the
    interface a client uses; [RegistrarLaws] is what it may rely on.  A slot is
    live while stores to it take effect; a store to a slot that is not live
    leaves it as it is or clears it. *)

From S2P Require Import Prelude.

(** A callback is identified by its name; [None] is NULL. *)
Abbreviation callback := string.

Class Registrar (Hook St : Type) := {
  hk_register : Hook -> option callback -> St -> Z * St;
  hk_unregister : Hook -> St -> Z * St;
  hk_slot : Hook -> St -> option callback;
  hk_live : Hook -> St -> bool
}.

Class RegistrarLaws (Hook St : Type) `{EqDecision Hook} `{Registrar Hook St} := {
  reg_live h h' cb s : hk_live h' (hk_register h cb s).2 = hk_live h' s;
  unreg_live h h' s : hk_live h' (hk_unregister h s).2 = hk_live h' s;
  reg_frame h h' cb s : h <> h' -> hk_slot h' (hk_register h cb s).2 = hk_slot h' s;
  unreg_frame h h' s : h <> h' -> hk_slot h' (hk_unregister h s).2 = hk_slot h' s;
  reg_err h cb s : (hk_register h cb s).1 <> 0 -> (hk_register h cb s).2 = s;
  reg_ok h cb s : (hk_register h cb s).1 = 0 -> hk_live h s = true ->
    hk_slot h (hk_register h cb s).2 = cb;
  reg_dead h cb s : hk_live h s = false ->
    hk_slot h (hk_register h cb s).2 = None \/
    hk_slot h (hk_register h cb s).2 = hk_slot h s;
  unreg_ok h s : hk_live h s = true -> hk_slot h (hk_unregister h s).2 = None;
  unreg_dead h s : hk_live h s = false ->
    hk_slot h (hk_unregister h s).2 = None \/
    hk_slot h (hk_unregister h s).2 = hk_slot h s
}.

(** ** Two tables side by side *)

Section sum.
Context {Hook1 St1 Hook2 St2 : Type} `{EqDecision Hook1, EqDecision Hook2}.
Context `{R1 : Registrar Hook1 St1, R2 : Registrar Hook2 St2}.

#[global] Instance sum_registrar : Registrar (Hook1 + Hook2) (St1 * St2) := {
  hk_register h cb s :=
    match h with
    | inl h1 => let '(r, s1) := hk_register h1 cb s.1 in (r, (s1, s.2))
    | inr h2 => let '(r, s2) := hk_register h2 cb s.2 in (r, (s.1, s2))
    end;
  hk_unregister h s :=
    match h with
    | inl h1 => let '(r, s1) := hk_unregister h1 s.1 in (r, (s1, s.2))
    | inr h2 => let '(r, s2) := hk_unregister h2 s.2 in (r, (s.1, s2))
    end;
  hk_slot h s := match h with inl h1 => hk_slot h1 s.1 | inr h2 => hk_slot h2 s.2 end;
  hk_live h s := match h with inl h1 => hk_live h1 s.1 | inr h2 => hk_live h2 s.2 end
}.

Context `{!RegistrarLaws Hook1 St1, !RegistrarLaws Hook2 St2}.

#[global] Instance sum_registrar_laws : RegistrarLaws (Hook1 + Hook2) (St1 * St2).
Proof.
  split.
  - intros [h|h] [h'|h'] cb [s1 s2]; simpl; try (by destruct (hk_register h cb _));
      pose proof (reg_live h h' cb) as Hl;
      [specialize (Hl s1)|specialize (Hl s2)]; by destruct (hk_register h cb _).
  - intros [h|h] [h'|h'] [s1 s2]; simpl; try (by destruct (hk_unregister h _));
      pose proof (unreg_live h h') as Hl;
      [specialize (Hl s1)|specialize (Hl s2)]; by destruct (hk_unregister h _).
  - intros [h|h] [h'|h'] cb [s1 s2] Hne; simpl; try (by destruct (hk_register h cb _));
      pose proof (reg_frame h h' cb) as Hl;
      [specialize (Hl s1 ltac:(congruence))|specialize (Hl s2 ltac:(congruence))];
      by destruct (hk_register h cb _).
  - intros [h|h] [h'|h'] [s1 s2] Hne; simpl; try (by destruct (hk_unregister h _));
      pose proof (unreg_frame h h') as Hl;
      [specialize (Hl s1 ltac:(congruence))|specialize (Hl s2 ltac:(congruence))];
      by destruct (hk_unregister h _).
  - intros [h|h] cb [s1 s2]; simpl; pose proof (reg_err h cb) as Hl;
      [specialize (Hl s1)|specialize (Hl s2)]; destruct (hk_register h cb _); simpl in *;
      intros Hr; by rewrite Hl.
  - intros [h|h] cb [s1 s2]; simpl; pose proof (reg_ok h cb) as Hl;
      [specialize (Hl s1)|specialize (Hl s2)]; by destruct (hk_register h cb _).
  - intros [h|h] cb [s1 s2]; simpl; pose proof (reg_dead h cb) as Hl;
      [specialize (Hl s1)|specialize (Hl s2)]; by destruct (hk_register h cb _).
  - intros [h|h] [s1 s2]; simpl; pose proof (unreg_ok h) as Hl;
      [specialize (Hl s1)|specialize (Hl s2)]; by destruct (hk_unregister h _).
  - intros [h|h] [s1 s2]; simpl; pose proof (unreg_dead h) as Hl;
      [specialize (Hl s1)|specialize (Hl s2)]; by destruct (hk_unregister h _).
Qed.
End sum.

(** ** A table seen through a renaming of its hooks *)

Section map.
Context {Hook Hook' St : Type} `{EqDecision Hook, EqDecision Hook'} (f : Hook -> Hook').
Context `{R : Registrar Hook' St}.

Definition map_registrar : Registrar Hook St := {|
  hk_register h := hk_register (f h);
  hk_unregister h := hk_unregister (f h);
  hk_slot h := hk_slot (f h);
  hk_live h := hk_live (f h)
|}.

Lemma map_registrar_laws `{!RegistrarLaws Hook' St} :
  (forall h h', f h = f h' -> h = h') ->
  @RegistrarLaws Hook St _ map_registrar.
Proof.
  intros Hinj. split; intros *; simpl.
  - apply reg_live.
  - apply unreg_live.
  - intros Hne. apply reg_frame. intros Heq. by apply Hne, Hinj.
  - intros Hne. apply unreg_frame. intros Heq. by apply Hne, Hinj.
  - apply reg_err.
  - apply reg_ok.
  - apply reg_dead.
  - apply unreg_ok.
  - apply unreg_dead.
Qed.
End map.
