(* ===== verification/ApiIface.v ===== *)
(** * ApiIface: the exported functions of a module as a table

    A scheduler module is a table of exported functions over a few hook slots.
    Most functions are empty or return a constant; a few store a callback.
    The table maps names to functions in state-passing style; an abstract
    specification says which names store to which slot.  [run_calls_spec] lifts
    the correctness of the entries to any sequence of calls by any clients. *)

From stdpp Require Import functions.
From S2P Require Import Prelude HookIface.

(** What an exported function returns; [RAddr] is the address of an object. *)
Inductive api_ret :=
| RInt (z : Z)
| RBool (b : bool)
| RVoid
| RNull
| RAddr (object : string).
#[global] Instance api_ret_eq_dec : EqDecision api_ret.
Proof. solve_decision. Defined.

Definition plain_fn (St : Type) : Type := St -> api_ret * St.

(** The entry of a table: the argument is that of the hook functions. *)
Definition api_fn (St : Type) : Type := option callback -> St -> api_ret * St.
Definition api_table (St : Type) : Type := list (string * api_fn St).

Definition plain {St} (f : plain_fn St) : api_fn St := fun _ => f.
Definition hooking {St} (f : option callback -> St -> Z * St) : api_fn St :=
  fun cb s => let '(r, s') := f cb s in (RInt r, s').
Definition unhooking {St} (f : St -> Z * St) : api_fn St :=
  fun _ s => let '(r, s') := f s in (RInt r, s').

Section api.
Context {St : Type}.

Definition assoc {A} (name : string) (l : list (string * A)) : option A :=
  (fun e => e.2.2) <$> list_find (fun e => e.1 = name) l.

(** A call by name; [None] when the module does not export the name. *)
Definition call_export (t : api_table St) (name : string) (cb : option callback) (s : St)
  : option (api_ret * St) :=
  f ← assoc name t; Some (f cb s).

(** Any number of calls, by whatever clients; the results in order. *)
Fixpoint run_calls (t : api_table St) (calls : list (string * option callback)) (s : St)
  : option (list api_ret * St) :=
  match calls with
  | [] => Some ([], s)
  | (name, cb) :: calls' =>
      '(r, s1) ← call_export t name cb s;
      '(rs, s2) ← run_calls t calls' s1;
      Some (r :: rs, s2)
  end.
End api.

Lemma assoc_elem {A} name (l : list (string * A)) x :
  assoc name l = Some x -> (name, x) ∈ l.
Proof.
  unfold assoc. intros ([i [n y]] & (Hi & Hn & _)%list_find_Some & ->)%fmap_Some.
  simpl in Hn. subst n. by eapply list_elem_of_lookup_2.
Qed.

Lemma assoc_is_Some {A} name (l : list (string * A)) :
  name ∈ l.*1 -> is_Some (assoc name l).
Proof.
  intros ([n y] & Hn & Hin)%list_elem_of_fmap. unfold assoc.
  apply fmap_is_Some. simpl in Hn.
  apply list_find_elem_of with (n, y); [done|]. by symmetry.
Qed.

(** ** Specification *)

(** What an export does to the slots: a store of its argument or of NULL. *)
Inductive effect (Hook : Type) := Store (h : Hook) | Clear (h : Hook).
Arguments Store {Hook} h.
Arguments Clear {Hook} h.

(** The slots of the module, whether stores take effect, what a store leaves
    in its slot while they do not, whether a NULL callback is refused, and the
    effects by name. *)
Record api_spec (Hook St : Type) := ApiSpec {
  sp_slot : St -> Hook -> option callback;
  sp_live : St -> bool;
  sp_dead : option callback -> option callback;
  sp_refuses_null : bool;
  sp_effects : list (string * effect Hook)
}.
Arguments sp_slot {Hook St} _ _ _.
Arguments sp_live {Hook St} _ _.
Arguments sp_dead {Hook St} _ _.
Arguments sp_refuses_null {Hook St} _.
Arguments sp_effects {Hook St} _.

Section spec.
Context {Hook St : Type} `{EqDecision Hook} (sp : api_spec Hook St).

Definition spec_store (live : bool) (h : Hook) (cb : option callback)
    (m : Hook -> option callback) : Hook -> option callback :=
  <[h := if live then cb else sp_dead sp (m h)]> m.

(** One call: the result of a store is 0 or EINVAL, and only calls that store
    change a slot. *)
Definition spec_call (live : bool) (name : string) (cb : option callback)
    (m : Hook -> option callback) : option Z * (Hook -> option callback) :=
  match assoc name (sp_effects sp) with
  | None => (None, m)
  | Some (Store h) =>
      if sp_refuses_null sp && bool_decide (cb = None) then (Some (- EINVAL), m)
      else (Some 0, spec_store live h cb m)
  | Some (Clear h) => (Some 0, spec_store live h None m)
  end.

Definition spec_run (live : bool) (calls : list (string * option callback))
    (m : Hook -> option callback) : Hook -> option callback :=
  foldl (fun m c => (spec_call live c.1 c.2 m).2) m calls.

(** An entry of the table does what the specification says of its name. *)
Definition entry_ok (e : string * api_fn St) : Prop :=
  forall cb s, let '(r, s') := e.2 cb s in
  let '(z, m) := spec_call (sp_live sp s) e.1 cb (sp_slot sp s) in
  sp_live sp s' = sp_live sp s /\ (forall h, sp_slot sp s' h = m h) /\
  match z with Some z => r = RInt z | None => True end.

Definition table_ok (t : api_table St) : Prop := Forall entry_ok t.

Lemma spec_call_ext live name cb m m' :
  (forall h, m h = m' h) ->
  forall h, (spec_call live name cb m).2 h = (spec_call live name cb m').2 h.
Proof.
  intros Hm h. unfold spec_call, spec_store.
  destruct (assoc name (sp_effects sp)) as [[k|k]|]; [|simpl|apply Hm].
  - destruct (_ && _); simpl; [apply Hm|].
    destruct (decide (h = k)) as [->|]; [by rewrite !fn_lookup_insert, Hm|].
    rewrite !fn_lookup_insert_ne by done. apply Hm.
  - destruct (decide (h = k)) as [->|]; [by rewrite !fn_lookup_insert, Hm|].
    rewrite !fn_lookup_insert_ne by done. apply Hm.
Qed.

Lemma spec_run_ext live calls m m' :
  (forall h, m h = m' h) -> forall h, spec_run live calls m h = spec_run live calls m' h.
Proof.
  revert m m'. induction calls as [|[n cb] calls IH]; intros m m' Hm; [done|].
  simpl. apply IH. simpl. by apply spec_call_ext.
Qed.

(** The sequence of calls implements the specification. *)
Lemma run_calls_spec t calls s :
  table_ok t -> Forall (fun c => c.1 ∈ t.*1) calls ->
  exists rs s', run_calls t calls s = Some (rs, s') /\ length rs = length calls /\
    sp_live sp s' = sp_live sp s /\
    forall h, sp_slot sp s' h = spec_run (sp_live sp s) calls (sp_slot sp s) h.
Proof.
  intros Ht. revert s. induction calls as [|[n cb] calls IH]; intros s Hc.
  { by exists [], s. }
  apply Forall_cons in Hc as [Hn Hc]. simpl in Hn |- *. unfold call_export.
  destruct (assoc_is_Some n t Hn) as [f Hf]. rewrite Hf. simpl.
  pose proof (assoc_elem _ _ _ Hf) as Hin.
  unfold table_ok in Ht. rewrite Forall_forall in Ht.
  specialize (Ht _ Hin cb s). simpl in Ht.
  destruct (f cb s) as [r s1]. simpl.
  destruct (spec_call (sp_live sp s) n cb (sp_slot sp s)) as [z m] eqn:Ec.
  destruct Ht as (Hl & Hm & _). destruct (IH s1 Hc) as (rs & s' & -> & Hlen & Hl' & Hs').
  exists (r :: rs), s'. simpl. split_and!; [done|by f_equal|congruence|].
  intros h. rewrite Hs', Hl. apply spec_run_ext. intros h'. by rewrite Hm.
Qed.

(** The slots keep their values while no call in between stores to them. *)
Lemma spec_run_frame live calls m h :
  Forall (fun c => match assoc c.1 (sp_effects sp) with
                   | Some (Store k) | Some (Clear k) => k <> h
                   | None => True end) calls ->
  spec_run live calls m h = m h.
Proof.
  revert m. induction calls as [|[n cb] calls IH]; intros m Hc; [done|].
  apply Forall_cons in Hc as [Hn Hc]. simpl in *. rewrite IH by done.
  unfold spec_call, spec_store. simpl in Hn |- *.
  destruct (assoc n (sp_effects sp)) as [[k|k]|]; [|simpl|done].
  - destruct (_ && _); simpl; [done|]. by rewrite fn_lookup_insert_ne.
  - by rewrite fn_lookup_insert_ne.
Qed.

(** While stores have no effect the slots are never filled. *)
Lemma spec_run_dead calls m :
  (forall c, sp_dead sp c = c) -> forall h, spec_run false calls m h = m h.
Proof.
  intros Hd. revert m. induction calls as [|[n cb] calls IH]; intros m h; [done|].
  simpl. rewrite IH. unfold spec_call, spec_store.
  destruct (assoc n (sp_effects sp)) as [[k|k]|]; [|simpl|done].
  - destruct (_ && _); simpl; [done|].
    destruct (decide (h = k)) as [->|]; [by rewrite fn_lookup_insert, Hd|].
    by rewrite fn_lookup_insert_ne.
  - destruct (decide (h = k)) as [->|]; [by rewrite fn_lookup_insert, Hd|].
    by rewrite fn_lookup_insert_ne.
Qed.
End spec.

(** ** Helpers for the tables *)

(** A function that returns the address of one of the module's objects. *)
Definition addr_of {St A : Type} (object : string) (_ : A) : plain_fn St :=
  fun s => (RAddr object, s).

Lemma spec_store_dead_id {Hook} `{EqDecision Hook} (m : Hook -> option callback) h h' :
  m h' = (<[h := m h]> m) h'.
Proof.
  destruct (decide (h' = h)) as [->|]; [by rewrite fn_lookup_insert|].
  by rewrite fn_lookup_insert_ne.
Qed.

Definition table_returns {St} (P : api_ret -> Prop) (t : api_table St) : Prop :=
  Forall (fun e => forall cb s, P (e.2 cb s).1) t.

Lemma table_returns_dec {St} (P : api_ret -> Prop) `{!forall r, Decision (P r)} (t : api_table St) :
  (forall cb s, forallb (fun e => bool_decide (P (e.2 cb s).1)) t = true) ->
  table_returns P t.
Proof.
  intros Hb. apply Forall_forall. intros e He cb s.
  specialize (Hb cb s). rewrite forallb_forall in Hb.
  eapply bool_decide_unpack, Is_true_eq_left, Hb. by apply list_elem_of_In.
Qed.

Section runs.
Context {St : Type} (t : api_table St).

Lemma call_export_in n cb s r s1 :
  call_export t n cb s = Some (r, s1) -> exists f, (n, f) ∈ t /\ f cb s = (r, s1).
Proof.
  unfold call_export. destruct (assoc n t) as [f|] eqn:Hf; [|done].
  intros [= Hr]. exists f. split; [by apply assoc_elem|done].
Qed.

Lemma run_calls_returns P calls s rs s' :
  table_returns P t -> run_calls t calls s = Some (rs, s') -> Forall P rs.
Proof.
  intros Ht. revert s rs. induction calls as [|[n cb] calls IH]; intros s rs; simpl.
  { intros [= <- _]. constructor. }
  destruct (call_export t n cb s) as [[r s1]|] eqn:Hc; [|done]. simpl.
  destruct (run_calls t calls s1) as [[rs' s2]|] eqn:Hr; [|done]. intros [= <- <-].
  apply call_export_in in Hc as (f & Hin & Hf). constructor; [|by eapply IH].
  unfold table_returns in Ht. rewrite Forall_forall in Ht.
  specialize (Ht _ Hin cb s). simpl in Ht. by rewrite Hf in Ht.
Qed.

Lemma run_calls_keeps {A} (g : St -> A) calls s rs s' :
  (forall cb s, Forall (fun e => g (e.2 cb s).2 = g s) t) ->
  run_calls t calls s = Some (rs, s') -> g s' = g s.
Proof.
  intros Ht. revert s rs. induction calls as [|[n cb] calls IH]; intros s rs; simpl.
  { by intros [= _ <-]. }
  destruct (call_export t n cb s) as [[r s1]|] eqn:Hc; [|done]. simpl.
  destruct (run_calls t calls s1) as [[rs' s2]|] eqn:Hr; [|done]. intros [= _ <-].
  apply call_export_in in Hc as (f & Hin & Hf). rewrite (IH _ _ Hr).
  specialize (Ht cb s). rewrite Forall_forall in Ht. specialize (Ht _ Hin).
  simpl in Ht. by rewrite Hf in Ht.
Qed.
End runs.

(** The names of a concrete history are checked by computation. *)
Lemma calls_known {A} (names : list string) (calls : list (string * A)) :
  forallb (fun c => bool_decide (c.1 ∈ names)) calls = true ->
  Forall (fun c => c.1 ∈ names) calls.
Proof.
  rewrite forallb_forall, Forall_forall. intros H c Hc.
  eapply bool_decide_unpack, Is_true_eq_left, H. by apply list_elem_of_In.
Qed.

(** ** Several modules in one kernel

    The table of a module acts on the module's part of a larger state; calls
    to the exports of other modules leave the part alone. *)

Definition lift_fn {St K} (get : K -> St) (put : St -> K -> K) (f : api_fn St) : api_fn K :=
  fun cb k => let '(r, s') := f cb (get k) in (r, put s' k).

Definition lift_table {St K} (get : K -> St) (put : St -> K -> K) (t : api_table St)
  : api_table K :=
  (fun e => (e.1, lift_fn get put e.2)) <$> t.

(** The calls that go to a module, and their results. *)
Definition own_calls {A} (names : list string) (calls : list (string * A)) :=
  filter (fun c => c.1 ∈ names) calls.
Definition own_results {A B} (names : list string) (calls : list (string * A)) (rs : list B) :=
  snd <$> filter (fun p : string * A * B => p.1.1 ∈ names) (zip calls rs).

Lemma lift_names {St K} (get : K -> St) put (t : api_table St) :
  (lift_table get put t).*1 = t.*1.
Proof. unfold lift_table. rewrite <- list_fmap_compose. by apply list_fmap_ext. Qed.

Section project.
Context {St K : Type} (get : K -> St) (T : api_table K) (t : api_table St).

(** [T] treats the module as [t] does. *)
Definition projects : Prop :=
  Forall (fun e => match assoc e.1 t with
    | Some f => forall cb k, (e.2 cb k).1 = (f cb (get k)).1 /\
                             get (e.2 cb k).2 = (f cb (get k)).2
    | None => forall cb k, get (e.2 cb k).2 = get k
    end) T.

Lemma assoc_None name : assoc name t = None -> name ∉ t.*1.
Proof.
  intros Hn Hin. apply assoc_is_Some in Hin as [f Hf]. congruence.
Qed.

Lemma run_calls_project calls k rs k' :
  projects -> run_calls T calls k = Some (rs, k') ->
  run_calls t (own_calls t.*1 calls) (get k) = Some (own_results t.*1 calls rs, get k').
Proof.
  intros Hp. revert k rs. induction calls as [|[n cb] calls IH]; intros k rs; simpl.
  { by intros [= <- <-]. }
  destruct (call_export T n cb k) as [[r k1]|] eqn:Hc; [|done]. simpl.
  destruct (run_calls T calls k1) as [[rs' k2]|] eqn:Hr; [|done]. intros [= <- <-].
  apply call_export_in in Hc as (F & Hin & HF).
  unfold projects in Hp. rewrite Forall_forall in Hp. specialize (Hp _ Hin). simpl in Hp.
  specialize (IH _ _ Hr). unfold own_calls, own_results in *. simpl.
  rewrite !filter_cons. simpl.
  destruct (assoc n t) as [f|] eqn:Ha.
  - assert (n ∈ t.*1) as Hn.
    { apply assoc_elem in Ha. by apply (list_elem_of_fmap_2 fst) in Ha. }
    rewrite !decide_True by done. simpl. unfold call_export. rewrite Ha. simpl.
    specialize (Hp cb k) as [H1 H2]. rewrite HF in H1, H2. simpl in H1, H2.
    destruct (f cb (get k)) as [r' s']. simpl in *. subst r' s'. by rewrite IH.
  - apply assoc_None in Ha. rewrite !decide_False by done.
    specialize (Hp cb k). rewrite HF in Hp. simpl in Hp. by rewrite <- Hp.
Qed.
End project.

Lemma assoc_NoDup {A} name (x : A) l :
  NoDup l.*1 -> (name, x) ∈ l -> assoc name l = Some x.
Proof.
  intros Hnd Hin. destruct (assoc_is_Some name l) as [y Hy].
  { by apply (list_elem_of_fmap_2 fst) in Hin. }
  rewrite Hy. f_equal. apply assoc_elem in Hy.
  apply list_elem_of_lookup in Hy as [i Hi]. apply list_elem_of_lookup in Hin as [j Hj].
  assert (i = j) as ->; [|congruence].
  eapply (NoDup_lookup _ _ _ name Hnd); rewrite list_lookup_fmap; [by rewrite Hi|by rewrite Hj].
Qed.

(** The module's own entries project, and so do those of other modules. *)
Lemma projects_own {St K} (get : K -> St) put (t : api_table St) :
  NoDup t.*1 -> (forall s k, get (put s k) = s) -> projects get (lift_table get put t) t.
Proof.
  intros Hnd Hgp. apply Forall_forall. intros e (e0 & -> & Hin)%list_elem_of_fmap. simpl.
  destruct e0 as [n f]. rewrite (assoc_NoDup n f) by done.
  intros cb k. simpl. unfold lift_fn. destruct (f cb (get k)). simpl. by rewrite Hgp.
Qed.

Lemma projects_other {St St' K} (get : K -> St) (get' : K -> St') put' (t : api_table St)
    (t' : api_table St') :
  t.*1 ## t'.*1 -> (forall s k, get (put' s k) = get k) ->
  projects get (lift_table get' put' t') t.
Proof.
  intros Hd Hgp. apply Forall_forall. intros e (e0 & -> & Hin)%list_elem_of_fmap. simpl.
  destruct e0 as [n f]. simpl. destruct (assoc n t) as [g|] eqn:Ha.
  - apply assoc_elem, (list_elem_of_fmap_2 fst) in Ha.
    apply (list_elem_of_fmap_2 fst) in Hin. by destruct (Hd n).
  - intros cb k. unfold lift_fn. destruct (f cb (get' k)). simpl. by rewrite Hgp.
Qed.

Lemma projects_app {St K} (get : K -> St) T1 T2 t :
  projects get T1 t -> projects get T2 t -> projects get (T1 ++ T2) t.
Proof. intros H1 H2. by apply Forall_app. Qed.
