(* ===== verification/XiaomiHooks.v ===== *)
(** * XiaomiHooks: the scheduler hook table of xiaomi_hooks.c

    One slot per exported hook pointer and one register and one unregister
    function per slot.  Stores take effect only while the module parameter
    xiaomi_walt_hooks_enable is set; otherwise they write NULL and warn once. *)

From stdpp Require Import functions.
From S2P Require Import Prelude HookIface.

Inductive xiaomi_hook :=
| mi_update_fravg_f
| mi_update_group_nr
| mi_migrate_fload_hooks
| mi_run_frequpdate_hooks
| mi_migarte_fix_fld_hooks
| walt_window_update_hooks
| oem_get_ravg_window_hook
| game_vip_hook
| oem_flt_enable_hook
| oem_flt_wakeup_hook
| oem_update_frame_load_hook
| oem_set_freq_hook
| soc_update_flt_load_hook
| soc_update_flt_reset_hook
| oem_check_migt_rt_hook
| game_migt_should_skip_migrate_hook
| game_migt_should_skip_this_cpu_rt_hook
| game_migt_skip_cpus_rt_hook
| game_migt_cpus_hook
| game_migt_skip_cpus_hook
| game_migt_exclusive_cpus_hook.

#[global] Instance xiaomi_hook_eq_dec : EqDecision xiaomi_hook.
Proof. solve_decision. Defined.

Record xiaomi_state := XiaomiState {
  xiaomi_walt_hooks_enable : bool;
  xiaomi_walt_hooks_warned : bool;
  xiaomi_slots : xiaomi_hook -> option callback
}.

(** The module as loaded. *)
Definition xiaomi_initial : xiaomi_state := XiaomiState false false (fun _ => None).

Definition xiaomi_store_hook (ptr : xiaomi_hook) (cb : option callback)
    (s : xiaomi_state) : xiaomi_state :=
  if xiaomi_walt_hooks_enable s then
    XiaomiState (xiaomi_walt_hooks_enable s) (xiaomi_walt_hooks_warned s)
      (<[ptr := cb]> (xiaomi_slots s))
  else
    XiaomiState (xiaomi_walt_hooks_enable s) true (<[ptr := None]> (xiaomi_slots s)).

Definition register_mi_update_fravg (cb : option callback) (s : xiaomi_state) : Z * xiaomi_state :=
  match cb with
  | None => (- EINVAL, s)
  | Some _ => (0, xiaomi_store_hook mi_update_fravg_f cb s)
  end.
Definition unregister_mi_update_fravg (s : xiaomi_state) : Z * xiaomi_state :=
  (0, xiaomi_store_hook mi_update_fravg_f None s).

Definition register_mi_update_group_nr (cb : option callback) (s : xiaomi_state) : Z * xiaomi_state :=
  match cb with
  | None => (- EINVAL, s)
  | Some _ => (0, xiaomi_store_hook mi_update_group_nr cb s)
  end.
Definition unregister_mi_update_group_nr (s : xiaomi_state) : Z * xiaomi_state :=
  (0, xiaomi_store_hook mi_update_group_nr None s).

Definition register_mi_migrate_hook (cb : option callback) (s : xiaomi_state) : Z * xiaomi_state :=
  match cb with
  | None => (- EINVAL, s)
  | Some _ => (0, xiaomi_store_hook mi_migrate_fload_hooks cb s)
  end.
Definition unregister_mi_migrate_hook (s : xiaomi_state) : Z * xiaomi_state :=
  (0, xiaomi_store_hook mi_migrate_fload_hooks None s).

Definition register_mi_run_frequpdate_hooks (cb : option callback) (s : xiaomi_state) : Z * xiaomi_state :=
  match cb with
  | None => (- EINVAL, s)
  | Some _ => (0, xiaomi_store_hook mi_run_frequpdate_hooks cb s)
  end.
Definition unregister_mi_run_frequpdate_hooks (s : xiaomi_state) : Z * xiaomi_state :=
  (0, xiaomi_store_hook mi_run_frequpdate_hooks None s).

Definition register_mi_migarte_fix_fld_hooks (cb : option callback) (s : xiaomi_state) : Z * xiaomi_state :=
  match cb with
  | None => (- EINVAL, s)
  | Some _ => (0, xiaomi_store_hook mi_migarte_fix_fld_hooks cb s)
  end.
Definition unregister_mi_migarte_fix_fld_hooks (s : xiaomi_state) : Z * xiaomi_state :=
  (0, xiaomi_store_hook mi_migarte_fix_fld_hooks None s).

Definition register_walt_update_hooks (cb : option callback) (s : xiaomi_state) : Z * xiaomi_state :=
  match cb with
  | None => (- EINVAL, s)
  | Some _ => (0, xiaomi_store_hook walt_window_update_hooks cb s)
  end.
Definition unregister_walt_update_hooks (s : xiaomi_state) : Z * xiaomi_state :=
  (0, xiaomi_store_hook walt_window_update_hooks None s).

Definition register_game_ravg_window (cb : option callback) (s : xiaomi_state) : Z * xiaomi_state :=
  match cb with
  | None => (- EINVAL, s)
  | Some _ => (0, xiaomi_store_hook oem_get_ravg_window_hook cb s)
  end.
Definition unregister_game_ravg_window (s : xiaomi_state) : Z * xiaomi_state :=
  (0, xiaomi_store_hook oem_get_ravg_window_hook None s).

Definition register_game_vip_hook (cb : option callback) (s : xiaomi_state) : Z * xiaomi_state :=
  match cb with
  | None => (- EINVAL, s)
  | Some _ => (0, xiaomi_store_hook game_vip_hook cb s)
  end.
Definition unregister_game_vip_hook (s : xiaomi_state) : Z * xiaomi_state :=
  (0, xiaomi_store_hook game_vip_hook None s).

Definition register_oem_flt_enable_hook (cb : option callback) (s : xiaomi_state) : Z * xiaomi_state :=
  match cb with
  | None => (- EINVAL, s)
  | Some _ => (0, xiaomi_store_hook oem_flt_enable_hook cb s)
  end.
Definition unregister_oem_flt_enable_hook (s : xiaomi_state) : Z * xiaomi_state :=
  (0, xiaomi_store_hook oem_flt_enable_hook None s).

Definition register_oem_flt_wakeup_hook (cb : option callback) (s : xiaomi_state) : Z * xiaomi_state :=
  match cb with
  | None => (- EINVAL, s)
  | Some _ => (0, xiaomi_store_hook oem_flt_wakeup_hook cb s)
  end.
Definition unregister_oem_flt_wakeup_hook (s : xiaomi_state) : Z * xiaomi_state :=
  (0, xiaomi_store_hook oem_flt_wakeup_hook None s).

Definition register_oem_update_frame_load_hook (cb : option callback) (s : xiaomi_state) : Z * xiaomi_state :=
  match cb with
  | None => (- EINVAL, s)
  | Some _ => (0, xiaomi_store_hook oem_update_frame_load_hook cb s)
  end.
Definition unregister_oem_update_frame_load_hook (s : xiaomi_state) : Z * xiaomi_state :=
  (0, xiaomi_store_hook oem_update_frame_load_hook None s).

Definition register_oem_freq_hook (cb : option callback) (s : xiaomi_state) : Z * xiaomi_state :=
  match cb with
  | None => (- EINVAL, s)
  | Some _ => (0, xiaomi_store_hook oem_set_freq_hook cb s)
  end.
Definition unregister_oem_freq_hook (s : xiaomi_state) : Z * xiaomi_state :=
  (0, xiaomi_store_hook oem_set_freq_hook None s).

Definition register_soc_update_flt_load (cb : option callback) (s : xiaomi_state) : Z * xiaomi_state :=
  match cb with
  | None => (- EINVAL, s)
  | Some _ => (0, xiaomi_store_hook soc_update_flt_load_hook cb s)
  end.
Definition unregister_soc_update_flt_load (s : xiaomi_state) : Z * xiaomi_state :=
  (0, xiaomi_store_hook soc_update_flt_load_hook None s).

Definition register_soc_update_flt_reset (cb : option callback) (s : xiaomi_state) : Z * xiaomi_state :=
  match cb with
  | None => (- EINVAL, s)
  | Some _ => (0, xiaomi_store_hook soc_update_flt_reset_hook cb s)
  end.
Definition unregister_soc_update_flt_reset (s : xiaomi_state) : Z * xiaomi_state :=
  (0, xiaomi_store_hook soc_update_flt_reset_hook None s).

Definition register_migt_check_rt_hook (cb : option callback) (s : xiaomi_state) : Z * xiaomi_state :=
  match cb with
  | None => (- EINVAL, s)
  | Some _ => (0, xiaomi_store_hook oem_check_migt_rt_hook cb s)
  end.
Definition unregister_migt_check_rt_hook (s : xiaomi_state) : Z * xiaomi_state :=
  (0, xiaomi_store_hook oem_check_migt_rt_hook None s).

Definition register_game_migt_should_skip_migrate_hook (cb : option callback) (s : xiaomi_state) : Z * xiaomi_state :=
  match cb with
  | None => (- EINVAL, s)
  | Some _ => (0, xiaomi_store_hook game_migt_should_skip_migrate_hook cb s)
  end.
Definition unregister_game_migt_should_skip_migrate_hook (s : xiaomi_state) : Z * xiaomi_state :=
  (0, xiaomi_store_hook game_migt_should_skip_migrate_hook None s).

Definition register_game_migt_should_skip_this_cpu_rt_hook (cb : option callback) (s : xiaomi_state) : Z * xiaomi_state :=
  match cb with
  | None => (- EINVAL, s)
  | Some _ => (0, xiaomi_store_hook game_migt_should_skip_this_cpu_rt_hook cb s)
  end.
Definition unregister_game_migt_should_skip_this_cpu_rt_hook (s : xiaomi_state) : Z * xiaomi_state :=
  (0, xiaomi_store_hook game_migt_should_skip_this_cpu_rt_hook None s).

Definition register_game_migt_skip_cpus_rt_hook (cb : option callback) (s : xiaomi_state) : Z * xiaomi_state :=
  match cb with
  | None => (- EINVAL, s)
  | Some _ => (0, xiaomi_store_hook game_migt_skip_cpus_rt_hook cb s)
  end.
Definition unregister_game_migt_skip_cpus_rt_hook (s : xiaomi_state) : Z * xiaomi_state :=
  (0, xiaomi_store_hook game_migt_skip_cpus_rt_hook None s).

Definition register_game_migt_cpus_hook (cb : option callback) (s : xiaomi_state) : Z * xiaomi_state :=
  match cb with
  | None => (- EINVAL, s)
  | Some _ => (0, xiaomi_store_hook game_migt_cpus_hook cb s)
  end.
Definition unregister_game_migt_cpus_hook (s : xiaomi_state) : Z * xiaomi_state :=
  (0, xiaomi_store_hook game_migt_cpus_hook None s).

Definition register_game_migt_skip_cpus_hook (cb : option callback) (s : xiaomi_state) : Z * xiaomi_state :=
  match cb with
  | None => (- EINVAL, s)
  | Some _ => (0, xiaomi_store_hook game_migt_skip_cpus_hook cb s)
  end.
Definition unregister_game_migt_skip_cpus_hook (s : xiaomi_state) : Z * xiaomi_state :=
  (0, xiaomi_store_hook game_migt_skip_cpus_hook None s).

Definition register_game_migt_exclusive_cpus_hook (cb : option callback) (s : xiaomi_state) : Z * xiaomi_state :=
  match cb with
  | None => (- EINVAL, s)
  | Some _ => (0, xiaomi_store_hook game_migt_exclusive_cpus_hook cb s)
  end.
Definition unregister_game_migt_exclusive_cpus_hook (s : xiaomi_state) : Z * xiaomi_state :=
  (0, xiaomi_store_hook game_migt_exclusive_cpus_hook None s).

Definition xiaomi_register (h : xiaomi_hook) :
    option callback -> xiaomi_state -> Z * xiaomi_state :=
  match h with
  | mi_update_fravg_f => register_mi_update_fravg
  | mi_update_group_nr => register_mi_update_group_nr
  | mi_migrate_fload_hooks => register_mi_migrate_hook
  | mi_run_frequpdate_hooks => register_mi_run_frequpdate_hooks
  | mi_migarte_fix_fld_hooks => register_mi_migarte_fix_fld_hooks
  | walt_window_update_hooks => register_walt_update_hooks
  | oem_get_ravg_window_hook => register_game_ravg_window
  | game_vip_hook => register_game_vip_hook
  | oem_flt_enable_hook => register_oem_flt_enable_hook
  | oem_flt_wakeup_hook => register_oem_flt_wakeup_hook
  | oem_update_frame_load_hook => register_oem_update_frame_load_hook
  | oem_set_freq_hook => register_oem_freq_hook
  | soc_update_flt_load_hook => register_soc_update_flt_load
  | soc_update_flt_reset_hook => register_soc_update_flt_reset
  | oem_check_migt_rt_hook => register_migt_check_rt_hook
  | game_migt_should_skip_migrate_hook => register_game_migt_should_skip_migrate_hook
  | game_migt_should_skip_this_cpu_rt_hook => register_game_migt_should_skip_this_cpu_rt_hook
  | game_migt_skip_cpus_rt_hook => register_game_migt_skip_cpus_rt_hook
  | game_migt_cpus_hook => register_game_migt_cpus_hook
  | game_migt_skip_cpus_hook => register_game_migt_skip_cpus_hook
  | game_migt_exclusive_cpus_hook => register_game_migt_exclusive_cpus_hook
  end.

Definition xiaomi_unregister (h : xiaomi_hook) : xiaomi_state -> Z * xiaomi_state :=
  match h with
  | mi_update_fravg_f => unregister_mi_update_fravg
  | mi_update_group_nr => unregister_mi_update_group_nr
  | mi_migrate_fload_hooks => unregister_mi_migrate_hook
  | mi_run_frequpdate_hooks => unregister_mi_run_frequpdate_hooks
  | mi_migarte_fix_fld_hooks => unregister_mi_migarte_fix_fld_hooks
  | walt_window_update_hooks => unregister_walt_update_hooks
  | oem_get_ravg_window_hook => unregister_game_ravg_window
  | game_vip_hook => unregister_game_vip_hook
  | oem_flt_enable_hook => unregister_oem_flt_enable_hook
  | oem_flt_wakeup_hook => unregister_oem_flt_wakeup_hook
  | oem_update_frame_load_hook => unregister_oem_update_frame_load_hook
  | oem_set_freq_hook => unregister_oem_freq_hook
  | soc_update_flt_load_hook => unregister_soc_update_flt_load
  | soc_update_flt_reset_hook => unregister_soc_update_flt_reset
  | oem_check_migt_rt_hook => unregister_migt_check_rt_hook
  | game_migt_should_skip_migrate_hook => unregister_game_migt_should_skip_migrate_hook
  | game_migt_should_skip_this_cpu_rt_hook => unregister_game_migt_should_skip_this_cpu_rt_hook
  | game_migt_skip_cpus_rt_hook => unregister_game_migt_skip_cpus_rt_hook
  | game_migt_cpus_hook => unregister_game_migt_cpus_hook
  | game_migt_skip_cpus_hook => unregister_game_migt_skip_cpus_hook
  | game_migt_exclusive_cpus_hook => unregister_game_migt_exclusive_cpus_hook
  end.

#[global] Instance xiaomi_registrar : Registrar xiaomi_hook xiaomi_state := {
  hk_register := xiaomi_register;
  hk_unregister := xiaomi_unregister;
  hk_slot h s := xiaomi_slots s h;
  hk_live _ s := xiaomi_walt_hooks_enable s
}.

(** Every pair of functions is the same code over its own slot. *)
Lemma xiaomi_register_eq h cb s :
  xiaomi_register h cb s =
  match cb with None => (- EINVAL, s) | Some _ => (0, xiaomi_store_hook h cb s) end.
Proof. by destruct h. Qed.

Lemma xiaomi_unregister_eq h s : xiaomi_unregister h s = (0, xiaomi_store_hook h None s).
Proof. by destruct h. Qed.

Lemma xiaomi_store_slot h cb s :
  xiaomi_slots (xiaomi_store_hook h cb s) =
  <[h := if xiaomi_walt_hooks_enable s then cb else None]> (xiaomi_slots s).
Proof. unfold xiaomi_store_hook. by destruct (xiaomi_walt_hooks_enable s). Qed.

Lemma xiaomi_store_enable h cb s :
  xiaomi_walt_hooks_enable (xiaomi_store_hook h cb s) = xiaomi_walt_hooks_enable s.
Proof. unfold xiaomi_store_hook. by destruct (xiaomi_walt_hooks_enable s). Qed.

#[global] Instance xiaomi_registrar_laws : RegistrarLaws xiaomi_hook xiaomi_state.
Proof.
  split; intros *; simpl; rewrite ?xiaomi_register_eq, ?xiaomi_unregister_eq;
    try destruct cb; simpl; rewrite ?xiaomi_store_slot, ?xiaomi_store_enable;
    rewrite ?fn_lookup_insert; try done; try (by intros ->; auto);
    try (by intros _ ->); try (by intros; auto); intros Hne; by rewrite fn_lookup_insert_ne.
Qed.

(** A hook function of xiaomi_hooks.c, whichever of the 42 it is: a
    registration of NULL is refused with EINVAL and changes nothing; otherwise
    the call succeeds and writes its own slot only, with the callback when the
    parameter is set and NULL when it is not.  So while the parameter is clear
    no call ever leaves a callback behind, yet every registration reports
    success, and the only sign is one warning for all of them. *)
Theorem xiaomi_hooks_spec h cb s :
  let '(ret, s') := xiaomi_register h cb s in
  let '(ret0, s0) := xiaomi_unregister h s in
  (cb = None -> ret = - EINVAL /\ s' = s) /\
  (cb <> None -> ret = 0 /\
     xiaomi_slots s' h = (if xiaomi_walt_hooks_enable s then cb else None) /\
     (forall h', h' <> h -> xiaomi_slots s' h' = xiaomi_slots s h') /\
     xiaomi_walt_hooks_warned s' =
       xiaomi_walt_hooks_warned s || negb (xiaomi_walt_hooks_enable s)) /\
  ret0 = 0 /\ xiaomi_slots s0 h = None /\
  (forall h', h' <> h -> xiaomi_slots s0 h' = xiaomi_slots s h').
Proof.
  rewrite xiaomi_register_eq, xiaomi_unregister_eq.
  assert (forall c h', h' <> h ->
    xiaomi_slots (xiaomi_store_hook h c s) h' = xiaomi_slots s h') as Hframe
    by (intros c h' Hne; rewrite xiaomi_store_slot; by rewrite fn_lookup_insert_ne).
  assert (xiaomi_slots (xiaomi_store_hook h None s) h = None) as Hnone.
  { rewrite xiaomi_store_slot, fn_lookup_insert. by destruct (xiaomi_walt_hooks_enable s). }
  destruct cb as [c|].
  2:{ split; [by intros _|]. split; [by intros []|]. split_and!; [done|done|auto]. }
  split; [by intros ?|]. split; [intros _|split_and!; [done|done|auto]].
  rewrite xiaomi_store_slot, fn_lookup_insert. split_and!; [done|done| |].
  { intros h' Hne. by rewrite fn_lookup_insert_ne. }
  unfold xiaomi_store_hook. destruct (xiaomi_walt_hooks_enable s); simpl;
    by destruct (xiaomi_walt_hooks_warned s).
Qed.
