(* ===== verification/XiaomiApi.v ===== *)
(** * XiaomiApi: the exported functions of xiaomi_hooks.c as a table *)

From S2P Require Import Prelude HookIface ApiIface XiaomiHooks.


(** ** The table of the exported functions, in the order of the file *)

Definition xiaomi_exports : api_table xiaomi_state := [
  ("register_mi_update_fravg", hooking register_mi_update_fravg);
  ("unregister_mi_update_fravg", unhooking unregister_mi_update_fravg);
  ("register_mi_update_group_nr", hooking register_mi_update_group_nr);
  ("unregister_mi_update_group_nr", unhooking unregister_mi_update_group_nr);
  ("register_mi_migrate_hook", hooking register_mi_migrate_hook);
  ("unregister_mi_migrate_hook", unhooking unregister_mi_migrate_hook);
  ("register_mi_run_frequpdate_hooks", hooking register_mi_run_frequpdate_hooks);
  ("unregister_mi_run_frequpdate_hooks", unhooking unregister_mi_run_frequpdate_hooks);
  ("register_mi_migarte_fix_fld_hooks", hooking register_mi_migarte_fix_fld_hooks);
  ("unregister_mi_migarte_fix_fld_hooks", unhooking unregister_mi_migarte_fix_fld_hooks);
  ("register_walt_update_hooks", hooking register_walt_update_hooks);
  ("unregister_walt_update_hooks", unhooking unregister_walt_update_hooks);
  ("register_game_ravg_window", hooking register_game_ravg_window);
  ("unregister_game_ravg_window", unhooking unregister_game_ravg_window);
  ("register_game_vip_hook", hooking register_game_vip_hook);
  ("unregister_game_vip_hook", unhooking unregister_game_vip_hook);
  ("register_oem_flt_enable_hook", hooking register_oem_flt_enable_hook);
  ("unregister_oem_flt_enable_hook", unhooking unregister_oem_flt_enable_hook);
  ("register_oem_flt_wakeup_hook", hooking register_oem_flt_wakeup_hook);
  ("unregister_oem_flt_wakeup_hook", unhooking unregister_oem_flt_wakeup_hook);
  ("register_oem_update_frame_load_hook", hooking register_oem_update_frame_load_hook);
  ("unregister_oem_update_frame_load_hook", unhooking unregister_oem_update_frame_load_hook);
  ("register_oem_freq_hook", hooking register_oem_freq_hook);
  ("unregister_oem_freq_hook", unhooking unregister_oem_freq_hook);
  ("register_soc_update_flt_load", hooking register_soc_update_flt_load);
  ("unregister_soc_update_flt_load", unhooking unregister_soc_update_flt_load);
  ("register_soc_update_flt_reset", hooking register_soc_update_flt_reset);
  ("unregister_soc_update_flt_reset", unhooking unregister_soc_update_flt_reset);
  ("register_migt_check_rt_hook", hooking register_migt_check_rt_hook);
  ("unregister_migt_check_rt_hook", unhooking unregister_migt_check_rt_hook);
  ("register_game_migt_should_skip_migrate_hook", hooking register_game_migt_should_skip_migrate_hook);
  ("unregister_game_migt_should_skip_migrate_hook", unhooking unregister_game_migt_should_skip_migrate_hook);
  ("register_game_migt_should_skip_this_cpu_rt_hook", hooking register_game_migt_should_skip_this_cpu_rt_hook);
  ("unregister_game_migt_should_skip_this_cpu_rt_hook", unhooking unregister_game_migt_should_skip_this_cpu_rt_hook);
  ("register_game_migt_skip_cpus_rt_hook", hooking register_game_migt_skip_cpus_rt_hook);
  ("unregister_game_migt_skip_cpus_rt_hook", unhooking unregister_game_migt_skip_cpus_rt_hook);
  ("register_game_migt_cpus_hook", hooking register_game_migt_cpus_hook);
  ("unregister_game_migt_cpus_hook", unhooking unregister_game_migt_cpus_hook);
  ("register_game_migt_skip_cpus_hook", hooking register_game_migt_skip_cpus_hook);
  ("unregister_game_migt_skip_cpus_hook", unhooking unregister_game_migt_skip_cpus_hook);
  ("register_game_migt_exclusive_cpus_hook", hooking register_game_migt_exclusive_cpus_hook);
  ("unregister_game_migt_exclusive_cpus_hook", unhooking unregister_game_migt_exclusive_cpus_hook)
].

(** The slots the hook functions store to. *)
Definition xiaomi_effects : list (string * effect xiaomi_hook) := [
  ("register_mi_update_fravg", Store mi_update_fravg_f);
  ("unregister_mi_update_fravg", Clear mi_update_fravg_f);
  ("register_mi_update_group_nr", Store mi_update_group_nr);
  ("unregister_mi_update_group_nr", Clear mi_update_group_nr);
  ("register_mi_migrate_hook", Store mi_migrate_fload_hooks);
  ("unregister_mi_migrate_hook", Clear mi_migrate_fload_hooks);
  ("register_mi_run_frequpdate_hooks", Store mi_run_frequpdate_hooks);
  ("unregister_mi_run_frequpdate_hooks", Clear mi_run_frequpdate_hooks);
  ("register_mi_migarte_fix_fld_hooks", Store mi_migarte_fix_fld_hooks);
  ("unregister_mi_migarte_fix_fld_hooks", Clear mi_migarte_fix_fld_hooks);
  ("register_walt_update_hooks", Store walt_window_update_hooks);
  ("unregister_walt_update_hooks", Clear walt_window_update_hooks);
  ("register_game_ravg_window", Store oem_get_ravg_window_hook);
  ("unregister_game_ravg_window", Clear oem_get_ravg_window_hook);
  ("register_game_vip_hook", Store game_vip_hook);
  ("unregister_game_vip_hook", Clear game_vip_hook);
  ("register_oem_flt_enable_hook", Store oem_flt_enable_hook);
  ("unregister_oem_flt_enable_hook", Clear oem_flt_enable_hook);
  ("register_oem_flt_wakeup_hook", Store oem_flt_wakeup_hook);
  ("unregister_oem_flt_wakeup_hook", Clear oem_flt_wakeup_hook);
  ("register_oem_update_frame_load_hook", Store oem_update_frame_load_hook);
  ("unregister_oem_update_frame_load_hook", Clear oem_update_frame_load_hook);
  ("register_oem_freq_hook", Store oem_set_freq_hook);
  ("unregister_oem_freq_hook", Clear oem_set_freq_hook);
  ("register_soc_update_flt_load", Store soc_update_flt_load_hook);
  ("unregister_soc_update_flt_load", Clear soc_update_flt_load_hook);
  ("register_soc_update_flt_reset", Store soc_update_flt_reset_hook);
  ("unregister_soc_update_flt_reset", Clear soc_update_flt_reset_hook);
  ("register_migt_check_rt_hook", Store oem_check_migt_rt_hook);
  ("unregister_migt_check_rt_hook", Clear oem_check_migt_rt_hook);
  ("register_game_migt_should_skip_migrate_hook", Store game_migt_should_skip_migrate_hook);
  ("unregister_game_migt_should_skip_migrate_hook", Clear game_migt_should_skip_migrate_hook);
  ("register_game_migt_should_skip_this_cpu_rt_hook", Store game_migt_should_skip_this_cpu_rt_hook);
  ("unregister_game_migt_should_skip_this_cpu_rt_hook", Clear game_migt_should_skip_this_cpu_rt_hook);
  ("register_game_migt_skip_cpus_rt_hook", Store game_migt_skip_cpus_rt_hook);
  ("unregister_game_migt_skip_cpus_rt_hook", Clear game_migt_skip_cpus_rt_hook);
  ("register_game_migt_cpus_hook", Store game_migt_cpus_hook);
  ("unregister_game_migt_cpus_hook", Clear game_migt_cpus_hook);
  ("register_game_migt_skip_cpus_hook", Store game_migt_skip_cpus_hook);
  ("unregister_game_migt_skip_cpus_hook", Clear game_migt_skip_cpus_hook);
  ("register_game_migt_exclusive_cpus_hook", Store game_migt_exclusive_cpus_hook);
  ("unregister_game_migt_exclusive_cpus_hook", Clear game_migt_exclusive_cpus_hook)
].

(** ** Any sequence of calls *)

Definition xiaomi_spec : api_spec xiaomi_hook xiaomi_state := {|
  sp_slot := xiaomi_slots;
  sp_live := xiaomi_walt_hooks_enable;
  sp_dead _ := None;
  sp_refuses_null := true;
  sp_effects := xiaomi_effects
|}.

Lemma xiaomi_table_ok : table_ok xiaomi_spec xiaomi_exports.
Proof.
  unfold table_ok, xiaomi_exports. repeat (apply Forall_cons; split); [..|apply Forall_nil, I];
    intros [cb|] [en w m]; cbn; destruct en; cbn; by split_and!.
Qed.
