(* ===== verification/Metis.v ===== *)
(** * Metis: the hook table of metis/metis.c

    The slots metis exports and their functions.  While metis_safe_boot is
    set, which is the default, stores are skipped: the slot keeps whatever it
    held.  The other functions of the module are in MetisApi. *)

From stdpp Require Import functions.
From S2P Require Import Prelude HookIface.

Inductive metis_hook :=
| game_binder_f_ptr
| rvh_mi_try_to_wake_up_ptr
| corectl_boost_hook_ptr
| update_perflock_freq_hook_ptr
| get_perflock_last_freqs_hook_ptr
| game_metis_skip_cpus_hook_ptr
| mi_enqueue_entity_hook_ptr
| mi_enqueue_task_fair_hook_ptr
| mi_lb_detect_func_ptr
| ui_task_detect_ptr
| render_task_detect_ptr
| vip_task_detect_ptr
| mi_walt_get_indicies_ptr
| mi_find_energy_efficient_cpu_ptr
| mi_dequeue_task_fair_hook_ptr
| mi_sched_enable_ptr
| choose_cpu_overutiled_ptr
| override_schedboost_ptr.

#[global] Instance metis_hook_eq_dec : EqDecision metis_hook.
Proof. solve_decision. Defined.

Record metis_state := MetisState {
  metis_safe_boot : bool;
  metis_slots : metis_hook -> option callback
}.

Definition metis_initial : metis_state := MetisState true (fun _ => None).

Definition metis_store_hook (slot : metis_hook) (hook : option callback)
    (s : metis_state) : Z * metis_state :=
  if metis_safe_boot s then (0, s)
  else (0, MetisState (metis_safe_boot s) (<[slot := hook]> (metis_slots s))).

Definition register_game_binder_f (hook : option callback) : metis_state -> Z * metis_state :=
  metis_store_hook game_binder_f_ptr hook.
Definition unregister_game_binder_f : metis_state -> Z * metis_state :=
  metis_store_hook game_binder_f_ptr None.
Definition register_rvh_mi_try_to_wake_up (hook : option callback) : metis_state -> Z * metis_state :=
  metis_store_hook rvh_mi_try_to_wake_up_ptr hook.
Definition unregister_rvh_mi_try_to_wake_up : metis_state -> Z * metis_state :=
  metis_store_hook rvh_mi_try_to_wake_up_ptr None.
Definition register_corectl_boost_hook (hook : option callback) : metis_state -> Z * metis_state :=
  metis_store_hook corectl_boost_hook_ptr hook.
Definition register_update_perflock_freq_hook (hook : option callback) : metis_state -> Z * metis_state :=
  metis_store_hook update_perflock_freq_hook_ptr hook.
Definition register_get_perflock_last_freqs_hook (hook : option callback) : metis_state -> Z * metis_state :=
  metis_store_hook get_perflock_last_freqs_hook_ptr hook.
Definition register_game_metis_skip_cpus_hook (hook : option callback) : metis_state -> Z * metis_state :=
  metis_store_hook game_metis_skip_cpus_hook_ptr hook.
Definition unregister_game_metis_skip_cpus_hook : metis_state -> Z * metis_state :=
  metis_store_hook game_metis_skip_cpus_hook_ptr None.
Definition register_mi_enqueue_entity_hook (hook : option callback) : metis_state -> Z * metis_state :=
  metis_store_hook mi_enqueue_entity_hook_ptr hook.
Definition unregister_mi_enqueue_entity_hook : metis_state -> Z * metis_state :=
  metis_store_hook mi_enqueue_entity_hook_ptr None.
Definition register_mi_enqueue_task_fair_hook (hook : option callback) : metis_state -> Z * metis_state :=
  metis_store_hook mi_enqueue_task_fair_hook_ptr hook.
Definition unregister_mi_enqueue_task_fair_hook : metis_state -> Z * metis_state :=
  metis_store_hook mi_enqueue_task_fair_hook_ptr None.
Definition register_mi_lb_detect_func (hook : option callback) : metis_state -> Z * metis_state :=
  metis_store_hook mi_lb_detect_func_ptr hook.
Definition unregister_mi_lb_detect_func : metis_state -> Z * metis_state :=
  metis_store_hook mi_lb_detect_func_ptr None.
Definition register_ui_task_detect (hook : option callback) : metis_state -> Z * metis_state :=
  metis_store_hook ui_task_detect_ptr hook.
Definition register_render_task_detect (hook : option callback) : metis_state -> Z * metis_state :=
  metis_store_hook render_task_detect_ptr hook.
Definition register_vip_task_detect (hook : option callback) : metis_state -> Z * metis_state :=
  metis_store_hook vip_task_detect_ptr hook.
Definition unregister_ui_task_detect : metis_state -> Z * metis_state :=
  metis_store_hook ui_task_detect_ptr None.
Definition unregister_render_task_detect : metis_state -> Z * metis_state :=
  metis_store_hook render_task_detect_ptr None.
Definition unregister_vip_task_detect : metis_state -> Z * metis_state :=
  metis_store_hook vip_task_detect_ptr None.
Definition register_mi_walt_get_indicies (hook : option callback) : metis_state -> Z * metis_state :=
  metis_store_hook mi_walt_get_indicies_ptr hook.
Definition unregister_mi_walt_get_indicies : metis_state -> Z * metis_state :=
  metis_store_hook mi_walt_get_indicies_ptr None.
Definition register_mi_find_energy_efficient_cpu (hook : option callback) : metis_state -> Z * metis_state :=
  metis_store_hook mi_find_energy_efficient_cpu_ptr hook.
Definition unregister_mi_find_energy_efficient_cpu : metis_state -> Z * metis_state :=
  metis_store_hook mi_find_energy_efficient_cpu_ptr None.
Definition register_mi_dequeue_task_fair_hook (hook : option callback) : metis_state -> Z * metis_state :=
  metis_store_hook mi_dequeue_task_fair_hook_ptr hook.
Definition unregister_mi_dequeue_task_fair_hook : metis_state -> Z * metis_state :=
  metis_store_hook mi_dequeue_task_fair_hook_ptr None.
Definition register_mi_sched_enable (hook : option callback) : metis_state -> Z * metis_state :=
  metis_store_hook mi_sched_enable_ptr hook.
Definition unregister_mi_sched_enable : metis_state -> Z * metis_state :=
  metis_store_hook mi_sched_enable_ptr None.
Definition register_choose_cpu_overutiled (hook : option callback) : metis_state -> Z * metis_state :=
  metis_store_hook choose_cpu_overutiled_ptr hook.
Definition unregister_choose_cpu_overutiled : metis_state -> Z * metis_state :=
  metis_store_hook choose_cpu_overutiled_ptr None.
Definition register_override_schedboost (hook : option callback) : metis_state -> Z * metis_state :=
  metis_store_hook override_schedboost_ptr hook.
Definition unregister_override_schedboost : metis_state -> Z * metis_state :=
  metis_store_hook override_schedboost_ptr None.

Definition metis_register (h : metis_hook) : option callback -> metis_state -> Z * metis_state :=
  match h with
  | game_binder_f_ptr => register_game_binder_f
  | rvh_mi_try_to_wake_up_ptr => register_rvh_mi_try_to_wake_up
  | corectl_boost_hook_ptr => register_corectl_boost_hook
  | update_perflock_freq_hook_ptr => register_update_perflock_freq_hook
  | get_perflock_last_freqs_hook_ptr => register_get_perflock_last_freqs_hook
  | game_metis_skip_cpus_hook_ptr => register_game_metis_skip_cpus_hook
  | mi_enqueue_entity_hook_ptr => register_mi_enqueue_entity_hook
  | mi_enqueue_task_fair_hook_ptr => register_mi_enqueue_task_fair_hook
  | mi_lb_detect_func_ptr => register_mi_lb_detect_func
  | ui_task_detect_ptr => register_ui_task_detect
  | render_task_detect_ptr => register_render_task_detect
  | vip_task_detect_ptr => register_vip_task_detect
  | mi_walt_get_indicies_ptr => register_mi_walt_get_indicies
  | mi_find_energy_efficient_cpu_ptr => register_mi_find_energy_efficient_cpu
  | mi_dequeue_task_fair_hook_ptr => register_mi_dequeue_task_fair_hook
  | mi_sched_enable_ptr => register_mi_sched_enable
  | choose_cpu_overutiled_ptr => register_choose_cpu_overutiled
  | override_schedboost_ptr => register_override_schedboost
  end.

(** Slots without an unregister function keep their value. *)
Definition metis_unregister (h : metis_hook) : metis_state -> Z * metis_state :=
  match h with
  | game_binder_f_ptr => unregister_game_binder_f
  | rvh_mi_try_to_wake_up_ptr => unregister_rvh_mi_try_to_wake_up
  | game_metis_skip_cpus_hook_ptr => unregister_game_metis_skip_cpus_hook
  | mi_enqueue_entity_hook_ptr => unregister_mi_enqueue_entity_hook
  | mi_enqueue_task_fair_hook_ptr => unregister_mi_enqueue_task_fair_hook
  | mi_lb_detect_func_ptr => unregister_mi_lb_detect_func
  | ui_task_detect_ptr => unregister_ui_task_detect
  | render_task_detect_ptr => unregister_render_task_detect
  | vip_task_detect_ptr => unregister_vip_task_detect
  | mi_walt_get_indicies_ptr => unregister_mi_walt_get_indicies
  | mi_find_energy_efficient_cpu_ptr => unregister_mi_find_energy_efficient_cpu
  | mi_dequeue_task_fair_hook_ptr => unregister_mi_dequeue_task_fair_hook
  | mi_sched_enable_ptr => unregister_mi_sched_enable
  | choose_cpu_overutiled_ptr => unregister_choose_cpu_overutiled
  | override_schedboost_ptr => unregister_override_schedboost
  | _ => fun s => (0, s)
  end.

(** The slots that can be unregistered. *)
Definition metis_can_unregister (h : metis_hook) : bool :=
  match h with
  | corectl_boost_hook_ptr | update_perflock_freq_hook_ptr
  | get_perflock_last_freqs_hook_ptr => false
  | _ => true
  end.

Lemma metis_register_eq h hook s : metis_register h hook s = metis_store_hook h hook s.
Proof. by destruct h. Qed.

Lemma metis_unregister_eq h s :
  metis_unregister h s = if metis_can_unregister h then metis_store_hook h None s else (0, s).
Proof. by destruct h. Qed.

(** ** The interface of the slots with both functions *)

Abbreviation metis_pair := (dsig (fun h => metis_can_unregister h = true)).

#[global] Instance metis_registrar : Registrar metis_pair metis_state := {
  hk_register h := metis_register (proj1_sig h);
  hk_unregister h := metis_unregister (proj1_sig h);
  hk_slot h s := metis_slots s (proj1_sig h);
  hk_live _ s := negb (metis_safe_boot s)
}.

Lemma metis_store_hook_eq h cb s :
  metis_store_hook h cb s =
  (0, MetisState (metis_safe_boot s)
        (if metis_safe_boot s then metis_slots s else <[h := cb]> (metis_slots s))).
Proof. unfold metis_store_hook. destruct s as [b f]. by destruct b. Qed.

#[global] Instance metis_registrar_laws : RegistrarLaws metis_pair metis_state.
Proof.
  assert (forall (h h' : metis_pair), h <> h' -> proj1_sig h <> proj1_sig h') as Hne
    by (intros h h' Hn Heq; by apply Hn, dsig_eq).
  split; intros *; simpl; rewrite ?metis_register_eq, ?metis_unregister_eq;
    try (rewrite (bool_decide_unpack _ (proj2_sig h)));
    rewrite ?metis_store_hook_eq; simpl; try done;
    destruct (metis_safe_boot s); simpl; rewrite ?fn_lookup_insert; try done; try (by auto);
    intros Hh; by rewrite fn_lookup_insert_ne by (by apply Hne).
Qed.

(** Under safe boot an unregistration leaves the slot as it is: a callback
    registered before the parameter was set stays. *)
Lemma metis_safe_boot_keeps h s :
  metis_safe_boot s = true -> metis_unregister h s = (0, s).
Proof.
  intros Hs. rewrite metis_unregister_eq. unfold metis_store_hook. rewrite Hs.
  by destruct (metis_can_unregister h).
Qed.
