(* ===== verification/MetisApi.v ===== *)
(** * MetisApi: all exported functions of metis/metis.c

    The functions around the hook table have generic prototypes and return 0.
    The file lists every exported function as an entry of [metis_exports] and
    states what any sequence of calls can do to the slots; the internal
    functions, which nothing calls, are in [Internal]. *)

From S2P Require Import Prelude HookIface ApiIface Metis.

(** Loading and unloading only print. *)
Definition metis_init : metis_state -> Z * metis_state := fun s => (0, s).
Definition metis_exit : metis_state -> metis_state := fun s => s.

(** ** Exported functions without behaviour *)

Definition mi_resched_vip_task : plain_fn metis_state := fun s => (RInt 0, s).
Definition mi_lock_vip_task : plain_fn metis_state := fun s => (RInt 0, s).
Definition mi_binder_vip_task : plain_fn metis_state := fun s => (RInt 0, s).
Definition mi_link_vip_task : plain_fn metis_state := fun s => (RInt 0, s).
Definition mi_mutex_list_add_hook : plain_fn metis_state := fun s => (RInt 0, s).
Definition mi_art_mutex_vip_task : plain_fn metis_state := fun s => (RInt 0, s).
Definition metis_link_init : plain_fn metis_state := fun s => (RInt 0, s).
Definition metis_link_exit : plain_fn metis_state := fun s => (RInt 0, s).
Definition mi_select_task_rq_hook : plain_fn metis_state := fun s => (RInt 0, s).
Definition clu_aff_init : plain_fn metis_state := fun s => (RInt 0, s).
Definition clu_aff_exit : plain_fn metis_state := fun s => (RInt 0, s).
Definition cpu_to_cluster : plain_fn metis_state := fun s => (RInt 0, s).
Definition trigger_fboost_work : plain_fn metis_state := fun s => (RInt 0, s).
Definition del_cluster : plain_fn metis_state := fun s => (RInt 0, s).
Definition boost_cluster : plain_fn metis_state := fun s => (RInt 0, s).
Definition restore_boost_cluster : plain_fn metis_state := fun s => (RInt 0, s).
Definition store_boost_cluster : plain_fn metis_state := fun s => (RInt 0, s).
Definition get_frmboost_sta_hook : plain_fn metis_state := fun s => (RInt 0, s).
Definition oem_rvh_try_to_wake_up_success : plain_fn metis_state := fun s => (RInt 0, s).
Definition oem_should_update_freq : plain_fn metis_state := fun s => (RInt 0, s).
Definition metis_fboost_init : plain_fn metis_state := fun s => (RInt 0, s).
Definition metis_fboost_exit : plain_fn metis_state := fun s => (RInt 0, s).
Definition set_prefer_cluster_with_check : plain_fn metis_state := fun s => (RInt 0, s).
Definition set_prefer_cpu_with_check : plain_fn metis_state := fun s => (RInt 0, s).
Definition get_mi_fboost_enable : plain_fn metis_state := fun s => (RInt 0, s).
Definition mi_disable_qcom_pipeline : plain_fn metis_state := fun s => (RInt 0, s).
Definition get_mi_link_boost_enable : plain_fn metis_state := fun s => (RInt 0, s).
Definition in_interest_input_event : plain_fn metis_state := fun s => (RInt 0, s).
Definition fas_sched_clock : plain_fn metis_state := fun s => (RInt 0, s).
Definition mi_interface_set_dynamic_vip_task : plain_fn metis_state := fun s => (RInt 0, s).
Definition mi_interface_restore_dynamic_vip_task : plain_fn metis_state := fun s => (RInt 0, s).
Definition mi_set_fas_req : plain_fn metis_state := fun s => (RInt 0, s).
Definition mi_clean_fas_req : plain_fn metis_state := fun s => (RInt 0, s).
Definition mi_check_preempt_wakeup_hook : plain_fn metis_state := fun s => (RInt 0, s).
Definition speed_touch_store_freq : plain_fn metis_state := fun s => (RInt 0, s).
Definition speed_touch_restore_freq : plain_fn metis_state := fun s => (RInt 0, s).
Definition mi_enqueue_task_fair_hook : plain_fn metis_state := fun s => (RInt 0, s).
Definition mi_dequeue_task_fair_hook : plain_fn metis_state := fun s => (RInt 0, s).
Definition mi_pick_next_task_fair_hook : plain_fn metis_state := fun s => (RInt 0, s).
Definition get_foreground_uid : plain_fn metis_state := fun s => (RInt 0, s).
Definition set_foreground_app : plain_fn metis_state := fun s => (RInt 0, s).
Definition sched_boost_should_disable : plain_fn metis_state := fun s => (RInt 0, s).
Definition mi_ui_task : plain_fn metis_state := fun s => (RInt 0, s).
Definition mi_render_task : plain_fn metis_state := fun s => (RInt 0, s).
Definition mi_vip_task : plain_fn metis_state := fun s => (RInt 0, s).
Definition mi_ui_pipeline : plain_fn metis_state := fun s => (RInt 0, s).
Definition mi_render_pipeline : plain_fn metis_state := fun s => (RInt 0, s).
Definition set_mi_rq_balance_irq_task : plain_fn metis_state := fun s => (RInt 0, s).
Definition walt_mi_irq_task_rq_balance_hook : plain_fn metis_state := fun s => (RInt 0, s).
Definition get_vtask_monitor_status : plain_fn metis_state := fun s => (RInt 0, s).
Definition mi_lb_enable : plain_fn metis_state := fun s => (RInt 0, s).
Definition metis_choose_cpu_fastpath : plain_fn metis_state := fun s => (RInt 0, s).
Definition get_metis_limit : plain_fn metis_state := fun s => (RInt 0, s).
Definition get_fboost_duration : plain_fn metis_state := fun s => (RInt 0, s).
Definition metis_update_top_task_info : plain_fn metis_state := fun s => (RInt 0, s).
Definition rq_deadloop_detect : plain_fn metis_state := fun s => (RInt 0, s).
Definition mi_scheduler_tick_hook : plain_fn metis_state := fun s => (RInt 0, s).
Definition mi_schedule_hook : plain_fn metis_state := fun s => (RInt 0, s).
Definition metis_doublecyc_init : plain_fn metis_state := fun s => (RInt 0, s).
Definition metis_doublecyc_exit : plain_fn metis_state := fun s => (RInt 0, s).
Definition metis_lb_pull_tasks : plain_fn metis_state := fun s => (RInt 0, s).
Definition metis_lb_find_busiest_cpu : plain_fn metis_state := fun s => (RInt 0, s).
Definition metis_lb_init : plain_fn metis_state := fun s => (RInt 0, s).
Definition metis_lb_exit : plain_fn metis_state := fun s => (RInt 0, s).
Definition metis_tp_is_vip_task : plain_fn metis_state := fun s => (RInt 0, s).
Definition metis_tp_mi_viptask_balance : plain_fn metis_state := fun s => (RInt 0, s).
Definition metis_tp_check_cpu_layered_load : plain_fn metis_state := fun s => (RInt 0, s).
Definition metis_tp_fixup_cumulative_runnable_avg_hook : plain_fn metis_state := fun s => (RInt 0, s).
Definition metis_tp_walt_find_best_target_hook : plain_fn metis_state := fun s => (RInt 0, s).
Definition metis_tp_init : plain_fn metis_state := fun s => (RInt 0, s).
Definition metis_tp_exit : plain_fn metis_state := fun s => (RInt 0, s).
Definition metis_schlat_schedule_hook : plain_fn metis_state := fun s => (RInt 0, s).
Definition metis_schlat_dequeue_entity_hook : plain_fn metis_state := fun s => (RInt 0, s).
Definition metis_schlat_init : plain_fn metis_state := fun s => (RInt 0, s).
Definition metis_schlat_exit : plain_fn metis_state := fun s => (RInt 0, s).
Definition mi_wake_up_new_task_hook : plain_fn metis_state := fun s => (RInt 0, s).
Definition in_coldstart : plain_fn metis_state := fun s => (RInt 0, s).
Definition coldstart_app_tasks : plain_fn metis_state := fun s => (RInt 0, s).
Definition metis_coldstart_skip_thiscpu_rt : plain_fn metis_state := fun s => (RInt 0, s).
Definition metis_coldstart_spread_rt_task : plain_fn metis_state := fun s => (RInt 0, s).
Definition metis_coldstart_rt_find_lowest_rq : plain_fn metis_state := fun s => (RInt 0, s).
Definition metis_coldstart_skip_lb : plain_fn metis_state := fun s => (RInt 0, s).
Definition metis_wakeup_cold_start_skip_ui_cpumask : plain_fn metis_state := fun s => (RInt 0, s).
Definition metis_wakeup_cold_start_skip_ui_cpu : plain_fn metis_state := fun s => (RInt 0, s).
Definition walt_do_sched_yield_hook : plain_fn metis_state := fun s => (RInt 0, s).
Definition metis_set_common_persist_vip : plain_fn metis_state := fun s => (RInt 0, s).
Definition metis_common_api_init : plain_fn metis_state := fun s => (RInt 0, s).
Definition metis_common_api_exit : plain_fn metis_state := fun s => (RInt 0, s).

(** ** The table of the exported functions, in the order of the file *)

Definition metis_exports : api_table metis_state := [
  ("register_game_binder_f", hooking register_game_binder_f);
  ("unregister_game_binder_f", unhooking unregister_game_binder_f);
  ("mi_resched_vip_task", plain mi_resched_vip_task);
  ("mi_lock_vip_task", plain mi_lock_vip_task);
  ("mi_binder_vip_task", plain mi_binder_vip_task);
  ("mi_link_vip_task", plain mi_link_vip_task);
  ("mi_mutex_list_add_hook", plain mi_mutex_list_add_hook);
  ("mi_art_mutex_vip_task", plain mi_art_mutex_vip_task);
  ("register_rvh_mi_try_to_wake_up", hooking register_rvh_mi_try_to_wake_up);
  ("unregister_rvh_mi_try_to_wake_up", unhooking unregister_rvh_mi_try_to_wake_up);
  ("metis_link_init", plain metis_link_init);
  ("metis_link_exit", plain metis_link_exit);
  ("mi_select_task_rq_hook", plain mi_select_task_rq_hook);
  ("clu_aff_init", plain clu_aff_init);
  ("clu_aff_exit", plain clu_aff_exit);
  ("register_corectl_boost_hook", hooking register_corectl_boost_hook);
  ("register_update_perflock_freq_hook", hooking register_update_perflock_freq_hook);
  ("register_get_perflock_last_freqs_hook", hooking register_get_perflock_last_freqs_hook);
  ("cpu_to_cluster", plain cpu_to_cluster);
  ("trigger_fboost_work", plain trigger_fboost_work);
  ("del_cluster", plain del_cluster);
  ("boost_cluster", plain boost_cluster);
  ("restore_boost_cluster", plain restore_boost_cluster);
  ("store_boost_cluster", plain store_boost_cluster);
  ("get_frmboost_sta_hook", plain get_frmboost_sta_hook);
  ("oem_rvh_try_to_wake_up_success", plain oem_rvh_try_to_wake_up_success);
  ("oem_should_update_freq", plain oem_should_update_freq);
  ("metis_fboost_init", plain metis_fboost_init);
  ("metis_fboost_exit", plain metis_fboost_exit);
  ("register_game_metis_skip_cpus_hook", hooking register_game_metis_skip_cpus_hook);
  ("unregister_game_metis_skip_cpus_hook", unhooking unregister_game_metis_skip_cpus_hook);
  ("set_prefer_cluster_with_check", plain set_prefer_cluster_with_check);
  ("set_prefer_cpu_with_check", plain set_prefer_cpu_with_check);
  ("get_mi_fboost_enable", plain get_mi_fboost_enable);
  ("mi_disable_qcom_pipeline", plain mi_disable_qcom_pipeline);
  ("get_mi_link_boost_enable", plain get_mi_link_boost_enable);
  ("in_interest_input_event", plain in_interest_input_event);
  ("fas_sched_clock", plain fas_sched_clock);
  ("mi_interface_set_dynamic_vip_task", plain mi_interface_set_dynamic_vip_task);
  ("mi_interface_restore_dynamic_vip_task", plain mi_interface_restore_dynamic_vip_task);
  ("mi_set_fas_req", plain mi_set_fas_req);
  ("mi_clean_fas_req", plain mi_clean_fas_req);
  ("mi_check_preempt_wakeup_hook", plain mi_check_preempt_wakeup_hook);
  ("register_mi_enqueue_entity_hook", hooking register_mi_enqueue_entity_hook);
  ("unregister_mi_enqueue_entity_hook", unhooking unregister_mi_enqueue_entity_hook);
  ("speed_touch_store_freq", plain speed_touch_store_freq);
  ("speed_touch_restore_freq", plain speed_touch_restore_freq);
  ("mi_enqueue_task_fair_hook", plain mi_enqueue_task_fair_hook);
  ("mi_dequeue_task_fair_hook", plain mi_dequeue_task_fair_hook);
  ("mi_pick_next_task_fair_hook", plain mi_pick_next_task_fair_hook);
  ("get_foreground_uid", plain get_foreground_uid);
  ("set_foreground_app", plain set_foreground_app);
  ("register_mi_enqueue_task_fair_hook", hooking register_mi_enqueue_task_fair_hook);
  ("unregister_mi_enqueue_task_fair_hook", unhooking unregister_mi_enqueue_task_fair_hook);
  ("sched_boost_should_disable", plain sched_boost_should_disable);
  ("mi_ui_task", plain mi_ui_task);
  ("mi_render_task", plain mi_render_task);
  ("mi_vip_task", plain mi_vip_task);
  ("mi_ui_pipeline", plain mi_ui_pipeline);
  ("mi_render_pipeline", plain mi_render_pipeline);
  ("set_mi_rq_balance_irq_task", plain set_mi_rq_balance_irq_task);
  ("walt_mi_irq_task_rq_balance_hook", plain walt_mi_irq_task_rq_balance_hook);
  ("get_vtask_monitor_status", plain get_vtask_monitor_status);
  ("mi_lb_enable", plain mi_lb_enable);
  ("register_mi_lb_detect_func", hooking register_mi_lb_detect_func);
  ("unregister_mi_lb_detect_func", unhooking unregister_mi_lb_detect_func);
  ("metis_choose_cpu_fastpath", plain metis_choose_cpu_fastpath);
  ("register_ui_task_detect", hooking register_ui_task_detect);
  ("register_render_task_detect", hooking register_render_task_detect);
  ("register_vip_task_detect", hooking register_vip_task_detect);
  ("unregister_ui_task_detect", unhooking unregister_ui_task_detect);
  ("unregister_render_task_detect", unhooking unregister_render_task_detect);
  ("unregister_vip_task_detect", unhooking unregister_vip_task_detect);
  ("register_mi_walt_get_indicies", hooking register_mi_walt_get_indicies);
  ("unregister_mi_walt_get_indicies", unhooking unregister_mi_walt_get_indicies);
  ("register_mi_find_energy_efficient_cpu", hooking register_mi_find_energy_efficient_cpu);
  ("unregister_mi_find_energy_efficient_cpu", unhooking unregister_mi_find_energy_efficient_cpu);
  ("register_mi_dequeue_task_fair_hook", hooking register_mi_dequeue_task_fair_hook);
  ("unregister_mi_dequeue_task_fair_hook", unhooking unregister_mi_dequeue_task_fair_hook);
  ("register_mi_sched_enable", hooking register_mi_sched_enable);
  ("unregister_mi_sched_enable", unhooking unregister_mi_sched_enable);
  ("register_choose_cpu_overutiled", hooking register_choose_cpu_overutiled);
  ("unregister_choose_cpu_overutiled", unhooking unregister_choose_cpu_overutiled);
  ("register_override_schedboost", hooking register_override_schedboost);
  ("unregister_override_schedboost", unhooking unregister_override_schedboost);
  ("get_metis_limit", plain get_metis_limit);
  ("get_fboost_duration", plain get_fboost_duration);
  ("metis_update_top_task_info", plain metis_update_top_task_info);
  ("rq_deadloop_detect", plain rq_deadloop_detect);
  ("mi_scheduler_tick_hook", plain mi_scheduler_tick_hook);
  ("mi_schedule_hook", plain mi_schedule_hook);
  ("metis_doublecyc_init", plain metis_doublecyc_init);
  ("metis_doublecyc_exit", plain metis_doublecyc_exit);
  ("metis_lb_pull_tasks", plain metis_lb_pull_tasks);
  ("metis_lb_find_busiest_cpu", plain metis_lb_find_busiest_cpu);
  ("metis_lb_init", plain metis_lb_init);
  ("metis_lb_exit", plain metis_lb_exit);
  ("metis_tp_is_vip_task", plain metis_tp_is_vip_task);
  ("metis_tp_mi_viptask_balance", plain metis_tp_mi_viptask_balance);
  ("metis_tp_check_cpu_layered_load", plain metis_tp_check_cpu_layered_load);
  ("metis_tp_fixup_cumulative_runnable_avg_hook", plain metis_tp_fixup_cumulative_runnable_avg_hook);
  ("metis_tp_walt_find_best_target_hook", plain metis_tp_walt_find_best_target_hook);
  ("metis_tp_init", plain metis_tp_init);
  ("metis_tp_exit", plain metis_tp_exit);
  ("metis_schlat_schedule_hook", plain metis_schlat_schedule_hook);
  ("metis_schlat_dequeue_entity_hook", plain metis_schlat_dequeue_entity_hook);
  ("metis_schlat_init", plain metis_schlat_init);
  ("metis_schlat_exit", plain metis_schlat_exit);
  ("mi_wake_up_new_task_hook", plain mi_wake_up_new_task_hook);
  ("in_coldstart", plain in_coldstart);
  ("coldstart_app_tasks", plain coldstart_app_tasks);
  ("metis_coldstart_skip_thiscpu_rt", plain metis_coldstart_skip_thiscpu_rt);
  ("metis_coldstart_spread_rt_task", plain metis_coldstart_spread_rt_task);
  ("metis_coldstart_rt_find_lowest_rq", plain metis_coldstart_rt_find_lowest_rq);
  ("metis_coldstart_skip_lb", plain metis_coldstart_skip_lb);
  ("metis_wakeup_cold_start_skip_ui_cpumask", plain metis_wakeup_cold_start_skip_ui_cpumask);
  ("metis_wakeup_cold_start_skip_ui_cpu", plain metis_wakeup_cold_start_skip_ui_cpu);
  ("walt_do_sched_yield_hook", plain walt_do_sched_yield_hook);
  ("metis_set_common_persist_vip", plain metis_set_common_persist_vip);
  ("metis_common_api_init", plain metis_common_api_init);
  ("metis_common_api_exit", plain metis_common_api_exit)
].

(** The variables the module exports. *)
Definition metis_data : list string := [
  "mi_try_to_wake_up_func"; "in_perf_mod"; "perf_min_freq"; "choose_cpu_overutiled";
  "show_traced_uid"; "flt_enable_other"; "ui_run_cpu"; "render_run_cpu";
  "speed_touch_producer_in_boost"; "speed_touch_consumer_in_boost";
  "mi_walt_get_indicies_func"; "wake_render_func"; "mi_enqueue_task_fair_func";
  "mi_dequeue_task_fair_func"; "low_frame_op"; "get_cpu_util_without"; "in_scroll";
  "metis_runqueues"; "metis_lb_check_for_higher_capacity"; "metis_lb_cpu_overutilized";
  "metis_lb_cpu_halt_mask"; "metis_lb_cpu_array"; "metis_lb_min_possible_cluster_id";
  "get_cpu_util"
].

(** The slots the hook functions store to. *)
Definition metis_effects : list (string * effect metis_hook) := [
  ("register_game_binder_f", Store game_binder_f_ptr);
  ("unregister_game_binder_f", Clear game_binder_f_ptr);
  ("register_rvh_mi_try_to_wake_up", Store rvh_mi_try_to_wake_up_ptr);
  ("unregister_rvh_mi_try_to_wake_up", Clear rvh_mi_try_to_wake_up_ptr);
  ("register_corectl_boost_hook", Store corectl_boost_hook_ptr);
  ("register_update_perflock_freq_hook", Store update_perflock_freq_hook_ptr);
  ("register_get_perflock_last_freqs_hook", Store get_perflock_last_freqs_hook_ptr);
  ("register_game_metis_skip_cpus_hook", Store game_metis_skip_cpus_hook_ptr);
  ("unregister_game_metis_skip_cpus_hook", Clear game_metis_skip_cpus_hook_ptr);
  ("register_mi_enqueue_entity_hook", Store mi_enqueue_entity_hook_ptr);
  ("unregister_mi_enqueue_entity_hook", Clear mi_enqueue_entity_hook_ptr);
  ("register_mi_enqueue_task_fair_hook", Store mi_enqueue_task_fair_hook_ptr);
  ("unregister_mi_enqueue_task_fair_hook", Clear mi_enqueue_task_fair_hook_ptr);
  ("register_mi_lb_detect_func", Store mi_lb_detect_func_ptr);
  ("unregister_mi_lb_detect_func", Clear mi_lb_detect_func_ptr);
  ("register_ui_task_detect", Store ui_task_detect_ptr);
  ("register_render_task_detect", Store render_task_detect_ptr);
  ("register_vip_task_detect", Store vip_task_detect_ptr);
  ("unregister_ui_task_detect", Clear ui_task_detect_ptr);
  ("unregister_render_task_detect", Clear render_task_detect_ptr);
  ("unregister_vip_task_detect", Clear vip_task_detect_ptr);
  ("register_mi_walt_get_indicies", Store mi_walt_get_indicies_ptr);
  ("unregister_mi_walt_get_indicies", Clear mi_walt_get_indicies_ptr);
  ("register_mi_find_energy_efficient_cpu", Store mi_find_energy_efficient_cpu_ptr);
  ("unregister_mi_find_energy_efficient_cpu", Clear mi_find_energy_efficient_cpu_ptr);
  ("register_mi_dequeue_task_fair_hook", Store mi_dequeue_task_fair_hook_ptr);
  ("unregister_mi_dequeue_task_fair_hook", Clear mi_dequeue_task_fair_hook_ptr);
  ("register_mi_sched_enable", Store mi_sched_enable_ptr);
  ("unregister_mi_sched_enable", Clear mi_sched_enable_ptr);
  ("register_choose_cpu_overutiled", Store choose_cpu_overutiled_ptr);
  ("unregister_choose_cpu_overutiled", Clear choose_cpu_overutiled_ptr);
  ("register_override_schedboost", Store override_schedboost_ptr);
  ("unregister_override_schedboost", Clear override_schedboost_ptr)
].

(** ** Internal functions

    Static functions nothing in the file calls. *)

Module Internal.
Definition fboost_run : plain_fn metis_state := fun s => (RInt 0, s).
Definition set_mi_vip_task_common_noresched : plain_fn metis_state := fun s => (RInt 0, s).
Definition set_mi_vip_task_common : plain_fn metis_state := fun s => (RInt 0, s).
Definition clean_mi_vip_task_common : plain_fn metis_state := fun s => (RInt 0, s).
Definition mi_vip_task_common : plain_fn metis_state := fun s => (RInt 0, s).
Definition do_set_binder_vip : plain_fn metis_state := fun s => (RInt 0, s).
Definition mi_mutex_wait_start_hook : plain_fn metis_state := fun s => (RInt 0, s).
Definition mi_mutex_unlock_slowpath : plain_fn metis_state := fun s => (RInt 0, s).
Definition mi_rwsem_list_add_hook : plain_fn metis_state := fun s => (RInt 0, s).
Definition mi_rwsem_write_wait_start_hook : plain_fn metis_state := fun s => (RInt 0, s).
Definition mi_rwsem_read_wait_start_hook : plain_fn metis_state := fun s => (RInt 0, s).
Definition mi_binder_restore_vip_hook : plain_fn metis_state := fun s => (RInt 0, s).
Definition mi_binder_set_vip_hook : plain_fn metis_state := fun s => (RInt 0, s).
Definition mi_rwsem_lock_starttime : plain_fn metis_state := fun s => (RInt 0, s).
Definition mi_mutex_lock_starttime : plain_fn metis_state := fun s => (RInt 0, s).
Definition mi_rtmutex_lock_starttime : plain_fn metis_state := fun s => (RInt 0, s).
Definition mi_pcpu_rwsem_lock_starttime : plain_fn metis_state := fun s => (RInt 0, s).
Definition mi_pcpu_rwsem_wq_add : plain_fn metis_state := fun s => (RInt 0, s).
Definition mi_rwsem_read_wait_finish_hook : plain_fn metis_state := fun s => (RInt 0, s).
Definition mi_rwsem_write_wait_finish_hook : plain_fn metis_state := fun s => (RInt 0, s).
Definition mi_mutex_wait_finish_hook : plain_fn metis_state := fun s => (RInt 0, s).
Definition mi_rwsem_read_trylock_failed : plain_fn metis_state := fun s => (RInt 0, s).
Definition mi_lock_rwsem_wake_finish_hook : plain_fn metis_state := fun s => (RInt 0, s).
Definition metis_link_try_to_wake_up_hook : plain_fn metis_state := fun s => (RInt 0, s).
Definition mi_alter_futex_plist_add : plain_fn metis_state := fun s => (RInt 0, s).
Definition mi_do_futex : plain_fn metis_state := fun s => (RInt 0, s).
Definition mi_futex_sleep_start : plain_fn metis_state := fun s => (RInt 0, s).
Definition mi_futex_wake_traverse_plist : plain_fn metis_state := fun s => (RInt 0, s).
Definition mi_futex_wait_end : plain_fn metis_state := fun s => (RInt 0, s).
Definition set_link_vip_enable : plain_fn metis_state := fun s => (RInt 0, s).
Definition get_link_vip_enable : plain_fn metis_state := fun s => (RInt 0, s).
Definition set_async_binder_link_vip_enable : plain_fn metis_state := fun s => (RInt 0, s).
Definition get_async_binder_link_vip_enable : plain_fn metis_state := fun s => (RInt 0, s).
Definition do_set_lock_vip : plain_fn metis_state := fun s => (RInt 0, s).
Definition mi_lock_vip_finish_common : plain_fn metis_state := fun s => (RInt 0, s).
Definition task_prio_for_rwsem_insert : plain_fn metis_state := fun s => (RInt 0, s).
Definition do_rwsem_list_insert : plain_fn metis_state := fun s => (RInt 0, s).
Definition mi_rwsem_wait_start_common : plain_fn metis_state := fun s => (RInt 0, s).
Definition is_futex_vip_task : plain_fn metis_state := fun s => (RInt 0, s).
Definition metis_link_ioctl : plain_fn metis_state := fun s => (RInt 0, s).
Definition metis_link_mmap : plain_fn metis_state := fun s => (RInt 0, s).
Definition metis_link_open : plain_fn metis_state := fun s => (RInt 0, s).
Definition metis_link_release : plain_fn metis_state := fun s => (RInt 0, s).
Definition mi_art_mutex_debug_open : plain_fn metis_state := fun s => (RInt 0, s).
Definition mi_art_mutex_debug_show : plain_fn metis_state := fun s => (RInt 0, s).
Definition mi_cpu_coregroup_mask : plain_fn metis_state := fun s => (RInt 0, s).
Definition mi_cpuset_fork : plain_fn metis_state := fun s => (RInt 0, s).
Definition mi_sched_setaffinity : plain_fn metis_state := fun s => (RInt 0, s).
Definition unbind_cpu_affinity_task : plain_fn metis_state := fun s => (RInt 0, s).
Definition mi_set_cpus_allowed_comm : plain_fn metis_state := fun s => (RInt 0, s).
Definition set_rebind_task : plain_fn metis_state := fun s => (RInt 0, s).
Definition get_rebind_task : plain_fn metis_state := fun s => (RInt 0, s).
Definition clear_rebind_task_list : plain_fn metis_state := fun s => (RInt 0, s).
Definition add_to_rebind_task_list : plain_fn metis_state := fun s => (RInt 0, s).
Definition rebind_task_req : plain_fn metis_state := fun s => (RInt 0, s).
Definition set_clus_affinity_uidlist : plain_fn metis_state := fun s => (RInt 0, s).
Definition get_clus_affinity_uidlist : plain_fn metis_state := fun s => (RInt 0, s).
Definition del_uid_from_list : plain_fn metis_state := fun s => (RInt 0, s).
Definition add_uid_to_list : plain_fn metis_state := fun s => (RInt 0, s).
Definition set_freedom_cpumask_val : plain_fn metis_state := fun s => (RInt 0, s).
Definition get_freedom_cpumask_val : plain_fn metis_state := fun s => (RInt 0, s).
Definition uid_type : plain_fn metis_state := fun s => (RInt 0, s).
Definition proc_viptask_cpus_set : plain_fn metis_state := fun s => (RInt 0, s).
Definition get_frame_boost_end : plain_fn metis_state := fun s => (RInt 0, s).
Definition queue_for_boost_cluster : plain_fn metis_state := fun s => (RInt 0, s).
Definition do_adjust_freq_delayed : plain_fn metis_state := fun s => (RInt 0, s).
Definition metis_update_policy_online : plain_fn metis_state := fun s => (RInt 0, s).
Definition metis_freq_qos_request_init : plain_fn metis_state := fun s => (RInt 0, s).
Definition cpufreq_notifier_max : plain_fn metis_state := fun s => (RInt 0, s).
Definition finish_fboost_workfn : plain_fn metis_state := fun s => (RInt 0, s).
Definition metis_sched_enable : plain_fn metis_state := fun s => (RInt 0, s).
Definition metis_ui_and_ui_pipeline_select_rq : plain_fn metis_state := fun s => (RInt 0, s).
Definition mi_sched_choose_cpu_overutiled : plain_fn metis_state := fun s => (RInt 0, s).
Definition set_mi_vip_task : plain_fn metis_state := fun s => (RInt 0, s).
Definition set_foreground_pid : plain_fn metis_state := fun s => (RInt 0, s).
Definition set_mi_dynamic_vip_task : plain_fn metis_state := fun s => (RInt 0, s).
Definition clean_mi_dynamic_vip_task : plain_fn metis_state := fun s => (RInt 0, s).
Definition metis_ui_pipeline : plain_fn metis_state := fun s => (RInt 0, s).
Definition metis_render_pipeline : plain_fn metis_state := fun s => (RInt 0, s).
Definition metis_set_ui_pipeline : plain_fn metis_state := fun s => (RInt 0, s).
Definition metis_clean_ui_pipeline : plain_fn metis_state := fun s => (RInt 0, s).
Definition mi_dynamic_vip_task : plain_fn metis_state := fun s => (RInt 0, s).
Definition mi_dynamic_vtask_prio_sched_start : plain_fn metis_state := fun s => (RInt 0, s).
Definition mi_dynamic_vtask_prio_sched_end : plain_fn metis_state := fun s => (RInt 0, s).
Definition set_mi_req_async_binder_link_task : plain_fn metis_state := fun s => (RInt 0, s).
Definition mi_req_async_binder_link_sched_start : plain_fn metis_state := fun s => (RInt 0, s).
Definition clean_mi_req_async_binder_link_task : plain_fn metis_state := fun s => (RInt 0, s).
Definition mi_req_async_binder_link_sched_end : plain_fn metis_state := fun s => (RInt 0, s).
Definition mi_preempt_wakeup : plain_fn metis_state := fun s => (RInt 0, s).
Definition get_preempt_prio : plain_fn metis_state := fun s => (RInt 0, s).
Definition prio_sched_check : plain_fn metis_state := fun s => (RInt 0, s).
Definition before_enqueue_vip_task : plain_fn metis_state := fun s => (RInt 0, s).
Definition metis_ren_task : plain_fn metis_state := fun s => (RInt 0, s).
Definition dequeue_vip_task : plain_fn metis_state := fun s => (RInt 0, s).
Definition mi_monitor_hook : plain_fn metis_state := fun s => (RInt 0, s).
Definition metis_sup_task : plain_fn metis_state := fun s => (RInt 0, s).
Definition mi_pick_task_fair : plain_fn metis_state := fun s => (RInt 0, s).
Definition fas_init : plain_fn metis_state := fun s => (RInt 0, s).
Definition mi_rb_enqueue_entity_hook : plain_fn metis_state := fun s => (RInt 0, s).
Definition mi_rb_dequeue_entity_hook : plain_fn metis_state := fun s => (RInt 0, s).
Definition mi_update_deadline_preempt_hook : plain_fn metis_state := fun s => (RInt 0, s).
Definition fas_exit : plain_fn metis_state := fun s => (RInt 0, s).
Definition metis_set_ui_task : plain_fn metis_state := fun s => (RInt 0, s).
Definition metis_ip_task : plain_fn metis_state := fun s => (RInt 0, s).
Definition is_uuser_set_vip : plain_fn metis_state := fun s => (RInt 0, s).
Definition is_uuser_set_ip : plain_fn metis_state := fun s => (RInt 0, s).
Definition set_trace_motion_event : plain_fn metis_state := fun s => (RInt 0, s).
Definition set_speed_touch_enable : plain_fn metis_state := fun s => (RInt 0, s).
Definition set_mi_vip_task_req : plain_fn metis_state := fun s => (RInt 0, s).
Definition get_mi_viptask : plain_fn metis_state := fun s => (RInt 0, s).
Definition mi_vip_task_req : plain_fn metis_state := fun s => (RInt 0, s).
Definition set_efboost : plain_fn metis_state := fun s => (RInt 0, s).
Definition set_mi_efboost : plain_fn metis_state := fun s => (RInt 0, s).
Definition set_therm_break_enable : plain_fn metis_state := fun s => (RInt 0, s).
Definition get_therm_break_enable : plain_fn metis_state := fun s => (RInt 0, s).
Definition proc_open_fas : plain_fn metis_state := fun s => (RInt 0, s).
Definition proc_write_fas : plain_fn metis_state := fun s => (RInt 0, s).
Definition proc_show_fas : plain_fn metis_state := fun s => (RInt 0, s).
Definition fas_suspend : plain_fn metis_state := fun s => (RInt 0, s).
Definition fas_resume : plain_fn metis_state := fun s => (RInt 0, s).
Definition metis_xxx_task : plain_fn metis_state := fun s => (RInt 0, s).
Definition metis_clean_vip_thread : plain_fn metis_state := fun s => (RInt 0, s).
Definition set_fboost_enable : plain_fn metis_state := fun s => (RInt 0, s).
Definition get_fboost_enable : plain_fn metis_state := fun s => (RInt 0, s).
Definition soc_timeout_func : plain_fn metis_state := fun s => (RInt 0, s).
Definition soc_scroll_timeout_func : plain_fn metis_state := fun s => (RInt 0, s).
Definition find_energy_hook : plain_fn metis_state := fun s => (RInt 0, s).
Definition walt_get_indicies_hook : plain_fn metis_state := fun s => (RInt 0, s).
Definition mi_after_enqueue_task_hook : plain_fn metis_state := fun s => (RInt 0, s).
Definition mi_after_dequeue_task_hook : plain_fn metis_state := fun s => (RInt 0, s).
Definition metis_vvip_task : plain_fn metis_state := fun s => (RInt 0, s).
Definition metis_ui_task_quick : plain_fn metis_state := fun s => (RInt 0, s).
Definition metis_ioctl : plain_fn metis_state := fun s => (RInt 0, s).
Definition metis_mmap : plain_fn metis_state := fun s => (RInt 0, s).
Definition metis_open : plain_fn metis_state := fun s => (RInt 0, s).
Definition metis_release : plain_fn metis_state := fun s => (RInt 0, s).
Definition metis_set_vip_thread : plain_fn metis_state := fun s => (RInt 0, s).
Definition get_thread_type : plain_fn metis_state := fun s => (RInt 0, s).
Definition history_task_info_init : plain_fn metis_state := fun s => (RInt 0, s).
Definition runtime_info_debug_open : plain_fn metis_state := fun s => (RInt 0, s).
Definition runtime_info_debug_show : plain_fn metis_state := fun s => (RInt 0, s).
Definition do_print_record_abnorm_task_info : plain_fn metis_state := fun s => (RInt 0, s).
Definition kmsg_runtime_info_debug_show : plain_fn metis_state := fun s => (RInt 0, s).
Definition pull_tasks_fast_path : plain_fn metis_state := fun s => (RInt 0, s).
Definition find_vip_busiest_similar_cap_cpu : plain_fn metis_state := fun s => (RInt 0, s).
Definition get_cpu_vip_longest_runnable_time : plain_fn metis_state := fun s => (RInt 0, s).
Definition find_vip_runnable_longest_cpu : plain_fn metis_state := fun s => (RInt 0, s).
Definition get_cpu_layered_load : plain_fn metis_state := fun s => (RInt 0, s).
Definition get_cpu_vip_tasks_load : plain_fn metis_state := fun s => (RInt 0, s).
Definition metis_tp_choose_cpu_fastpath : plain_fn metis_state := fun s => (RInt 0, s).
Definition set_metis_schlat_clear : plain_fn metis_state := fun s => (RInt 0, s).
Definition get_metis_schlat_clear : plain_fn metis_state := fun s => (RInt 0, s).
Definition metis_set_schlat_monitor : plain_fn metis_state := fun s => (RInt 0, s).
Definition metis_get_schlat_monitor : plain_fn metis_state := fun s => (RInt 0, s).
Definition metis_schlat_show : plain_fn metis_state := fun s => (RInt 0, s).
Definition get_protect_dur_us : plain_fn metis_state := fun s => (RInt 0, s).
Definition task_in_cs_protect : plain_fn metis_state := fun s => (RInt 0, s).
Definition clear_preemption_protect : plain_fn metis_state := fun s => (RInt 0, s).
Definition task_in_cs : plain_fn metis_state := fun s => (RInt 0, s).
Definition protect_pre_cs_task : plain_fn metis_state := fun s => (RInt 0, s).
Definition protect_cs_task : plain_fn metis_state := fun s => (RInt 0, s).
Definition mark_task_low_lt : plain_fn metis_state := fun s => (RInt 0, s).
Definition clear_task_low_lt : plain_fn metis_state := fun s => (RInt 0, s).
Definition is_low_lt_task : plain_fn metis_state := fun s => (RInt 0, s).
Definition is_preempted_cs_task : plain_fn metis_state := fun s => (RInt 0, s).
Definition lowlt_list_add_task : plain_fn metis_state := fun s => (RInt 0, s).
Definition lowlt_list_del_task : plain_fn metis_state := fun s => (RInt 0, s).
Definition lowlt_list_first_task : plain_fn metis_state := fun s => (RInt 0, s).
Definition lowlt_tsk_preempt_normal : plain_fn metis_state := fun s => (RInt 0, s).
Definition set_mutex_vip_blocked : plain_fn metis_state := fun s => (RInt 0, s).
Definition mutex_reset_data_no_waiter : plain_fn metis_state := fun s => (RInt 0, s).
Definition vip_blocked_on_mutex : plain_fn metis_state := fun s => (RInt 0, s).
Definition set_rwsem_vip_blocked : plain_fn metis_state := fun s => (RInt 0, s).
Definition record_rwsem_blocked_info : plain_fn metis_state := fun s => (RInt 0, s).
Definition clear_rwsem_blocked_info : plain_fn metis_state := fun s => (RInt 0, s).
Definition record_mutex_blocked_info : plain_fn metis_state := fun s => (RInt 0, s).
Definition clear_mutex_blocked_info : plain_fn metis_state := fun s => (RInt 0, s).
Definition coldstart_app_ui_task : plain_fn metis_state := fun s => (RInt 0, s).
Definition task_maybe_notify_thread : plain_fn metis_state := fun s => (RInt 0, s).
Definition register_cs_hooks : plain_fn metis_state := fun s => (RInt 0, s).
Definition mi_mutex_opt_spin_start : plain_fn metis_state := fun s => (RInt 0, s).
Definition mi_mutex_opt_spin_finish : plain_fn metis_state := fun s => (RInt 0, s).
Definition mi_mutex_can_spin_on_owner : plain_fn metis_state := fun s => (RInt 0, s).
Definition mi_rwsem_opt_spin_start : plain_fn metis_state := fun s => (RInt 0, s).
Definition mi_rwsem_opt_spin_finish : plain_fn metis_state := fun s => (RInt 0, s).
Definition mi_rwsem_can_spin_on_owner : plain_fn metis_state := fun s => (RInt 0, s).
Definition mi_mutex_init : plain_fn metis_state := fun s => (RInt 0, s).
Definition mi_rwsem_init : plain_fn metis_state := fun s => (RInt 0, s).
Definition mi_rwsem_direct_rsteal : plain_fn metis_state := fun s => (RInt 0, s).
Definition mi_rwsem_optimistic_rspin : plain_fn metis_state := fun s => (RInt 0, s).
Definition unregister_cs_hooks : plain_fn metis_state := fun s => (RInt 0, s).
Definition clean_coldstart_data : plain_fn metis_state := fun s => (RInt 0, s).
Definition in_coldstart_period : plain_fn metis_state := fun s => (RInt 0, s).
Definition coldstart_app_ui_pid : plain_fn metis_state := fun s => (RInt 0, s).
Definition get_coldstart_app_tgid : plain_fn metis_state := fun s => (RInt 0, s).
Definition coldstart_app_ren_task : plain_fn metis_state := fun s => (RInt 0, s).
Definition coldstart_override_schedboost : plain_fn metis_state := fun s => (RInt 0, s).
Definition coldstart_mark_mmlock_holder : plain_fn metis_state := fun s => (RInt 0, s).
Definition coldstart_unmark_mmlock_holder : plain_fn metis_state := fun s => (RInt 0, s).
Definition coldstart_tsk_ready_to_run : plain_fn metis_state := fun s => (RInt 0, s).
Definition set_cold_start_app_tgid : plain_fn metis_state := fun s => (RInt 0, s).
Definition register_coldstart_hooks : plain_fn metis_state := fun s => (RInt 0, s).
Definition unregister_coldstart_hooks : plain_fn metis_state := fun s => (RInt 0, s).
Definition metis_cs_init : plain_fn metis_state := fun s => (RInt 0, s).
Definition metis_cs_exit : plain_fn metis_state := fun s => (RInt 0, s).
Definition rwsem_spin_on_owner : plain_fn metis_state := fun s => (RInt 0, s).
Definition in_cold_start_wakeup : plain_fn metis_state := fun s => (RInt 0, s).
Definition cold_start_ui_recent_used_cpu : plain_fn metis_state := fun s => (RInt 0, s).
Definition cold_start_ui_sched_state : plain_fn metis_state := fun s => (RInt 0, s).
Definition cold_start_ui_task : plain_fn metis_state := fun s => (RInt 0, s).
Definition cold_start_competing_with_ui : plain_fn metis_state := fun s => (RInt 0, s).
Definition cold_start_task_common : plain_fn metis_state := fun s => (RInt 0, s).
Definition cold_start_wakeup_mark : plain_fn metis_state := fun s => (RInt 0, s).
Definition cold_start_wakeup_task : plain_fn metis_state := fun s => (RInt 0, s).
Definition cold_start_ui_pipeline : plain_fn metis_state := fun s => (RInt 0, s).
Definition cold_start_link_task : plain_fn metis_state := fun s => (RInt 0, s).
Definition metis_wakeup_ui_pipeline_select_rq : plain_fn metis_state := fun s => (RInt 0, s).
Definition metis_wakeup_futex_plist_insert : plain_fn metis_state := fun s => (RInt 0, s).
Definition metis_wakeup_enqueue_task_hook : plain_fn metis_state := fun s => (RInt 0, s).
Definition set_coldstart_wakeup_task : plain_fn metis_state := fun s => (RInt 0, s).
Definition wake_up_new_task_hook : plain_fn metis_state := fun s => (RInt 0, s).
Definition metis_wakeup_try_to_wakeup : plain_fn metis_state := fun s => (RInt 0, s).
Definition metis_wakeup_clear_wakeup_task : plain_fn metis_state := fun s => (RInt 0, s).
Definition metis_wakeup_do_futex_hook : plain_fn metis_state := fun s => (RInt 0, s).
Definition metis_wakeup_init : plain_fn metis_state := fun s => (RInt 0, s).
Definition metis_wakeup_exit : plain_fn metis_state := fun s => (RInt 0, s).
Definition set_metis_wakeup_task : plain_fn metis_state := fun s => (RInt 0, s).
Definition set_common_persist_vip_task : plain_fn metis_state := fun s => (RInt 0, s).
Definition get_common_persist_vip_task : plain_fn metis_state := fun s => (RInt 0, s).
Definition set_clear_persist_vip_task : plain_fn metis_state := fun s => (RInt 0, s).

Definition metis_internal : list (string * plain_fn metis_state) := [
  ("fboost_run", fboost_run);
  ("set_mi_vip_task_common_noresched", set_mi_vip_task_common_noresched);
  ("set_mi_vip_task_common", set_mi_vip_task_common);
  ("clean_mi_vip_task_common", clean_mi_vip_task_common);
  ("mi_vip_task_common", mi_vip_task_common); ("do_set_binder_vip", do_set_binder_vip);
  ("mi_mutex_wait_start_hook", mi_mutex_wait_start_hook);
  ("mi_mutex_unlock_slowpath", mi_mutex_unlock_slowpath);
  ("mi_rwsem_list_add_hook", mi_rwsem_list_add_hook);
  ("mi_rwsem_write_wait_start_hook", mi_rwsem_write_wait_start_hook);
  ("mi_rwsem_read_wait_start_hook", mi_rwsem_read_wait_start_hook);
  ("mi_binder_restore_vip_hook", mi_binder_restore_vip_hook);
  ("mi_binder_set_vip_hook", mi_binder_set_vip_hook);
  ("mi_rwsem_lock_starttime", mi_rwsem_lock_starttime);
  ("mi_mutex_lock_starttime", mi_mutex_lock_starttime);
  ("mi_rtmutex_lock_starttime", mi_rtmutex_lock_starttime);
  ("mi_pcpu_rwsem_lock_starttime", mi_pcpu_rwsem_lock_starttime);
  ("mi_pcpu_rwsem_wq_add", mi_pcpu_rwsem_wq_add);
  ("mi_rwsem_read_wait_finish_hook", mi_rwsem_read_wait_finish_hook);
  ("mi_rwsem_write_wait_finish_hook", mi_rwsem_write_wait_finish_hook);
  ("mi_mutex_wait_finish_hook", mi_mutex_wait_finish_hook);
  ("mi_rwsem_read_trylock_failed", mi_rwsem_read_trylock_failed);
  ("mi_lock_rwsem_wake_finish_hook", mi_lock_rwsem_wake_finish_hook);
  ("metis_link_try_to_wake_up_hook", metis_link_try_to_wake_up_hook);
  ("mi_alter_futex_plist_add", mi_alter_futex_plist_add); ("mi_do_futex", mi_do_futex);
  ("mi_futex_sleep_start", mi_futex_sleep_start);
  ("mi_futex_wake_traverse_plist", mi_futex_wake_traverse_plist);
  ("mi_futex_wait_end", mi_futex_wait_end); ("set_link_vip_enable", set_link_vip_enable);
  ("get_link_vip_enable", get_link_vip_enable);
  ("set_async_binder_link_vip_enable", set_async_binder_link_vip_enable);
  ("get_async_binder_link_vip_enable", get_async_binder_link_vip_enable);
  ("do_set_lock_vip", do_set_lock_vip);
  ("mi_lock_vip_finish_common", mi_lock_vip_finish_common);
  ("task_prio_for_rwsem_insert", task_prio_for_rwsem_insert);
  ("do_rwsem_list_insert", do_rwsem_list_insert);
  ("mi_rwsem_wait_start_common", mi_rwsem_wait_start_common);
  ("is_futex_vip_task", is_futex_vip_task); ("metis_link_ioctl", metis_link_ioctl);
  ("metis_link_mmap", metis_link_mmap); ("metis_link_open", metis_link_open);
  ("metis_link_release", metis_link_release);
  ("mi_art_mutex_debug_open", mi_art_mutex_debug_open);
  ("mi_art_mutex_debug_show", mi_art_mutex_debug_show);
  ("mi_cpu_coregroup_mask", mi_cpu_coregroup_mask); ("mi_cpuset_fork", mi_cpuset_fork);
  ("mi_sched_setaffinity", mi_sched_setaffinity);
  ("unbind_cpu_affinity_task", unbind_cpu_affinity_task);
  ("mi_set_cpus_allowed_comm", mi_set_cpus_allowed_comm);
  ("set_rebind_task", set_rebind_task); ("get_rebind_task", get_rebind_task);
  ("clear_rebind_task_list", clear_rebind_task_list);
  ("add_to_rebind_task_list", add_to_rebind_task_list);
  ("rebind_task_req", rebind_task_req);
  ("set_clus_affinity_uidlist", set_clus_affinity_uidlist);
  ("get_clus_affinity_uidlist", get_clus_affinity_uidlist);
  ("del_uid_from_list", del_uid_from_list); ("add_uid_to_list", add_uid_to_list);
  ("set_freedom_cpumask_val", set_freedom_cpumask_val);
  ("get_freedom_cpumask_val", get_freedom_cpumask_val); ("uid_type", uid_type);
  ("proc_viptask_cpus_set", proc_viptask_cpus_set);
  ("get_frame_boost_end", get_frame_boost_end);
  ("queue_for_boost_cluster", queue_for_boost_cluster);
  ("do_adjust_freq_delayed", do_adjust_freq_delayed);
  ("metis_update_policy_online", metis_update_policy_online);
  ("metis_freq_qos_request_init", metis_freq_qos_request_init);
  ("cpufreq_notifier_max", cpufreq_notifier_max);
  ("finish_fboost_workfn", finish_fboost_workfn);
  ("metis_sched_enable", metis_sched_enable);
  ("metis_ui_and_ui_pipeline_select_rq", metis_ui_and_ui_pipeline_select_rq);
  ("mi_sched_choose_cpu_overutiled", mi_sched_choose_cpu_overutiled);
  ("set_mi_vip_task", set_mi_vip_task); ("set_foreground_pid", set_foreground_pid);
  ("set_mi_dynamic_vip_task", set_mi_dynamic_vip_task);
  ("clean_mi_dynamic_vip_task", clean_mi_dynamic_vip_task);
  ("metis_ui_pipeline", metis_ui_pipeline);
  ("metis_render_pipeline", metis_render_pipeline);
  ("metis_set_ui_pipeline", metis_set_ui_pipeline);
  ("metis_clean_ui_pipeline", metis_clean_ui_pipeline);
  ("mi_dynamic_vip_task", mi_dynamic_vip_task);
  ("mi_dynamic_vtask_prio_sched_start", mi_dynamic_vtask_prio_sched_start);
  ("mi_dynamic_vtask_prio_sched_end", mi_dynamic_vtask_prio_sched_end);
  ("set_mi_req_async_binder_link_task", set_mi_req_async_binder_link_task);
  ("mi_req_async_binder_link_sched_start", mi_req_async_binder_link_sched_start);
  ("clean_mi_req_async_binder_link_task", clean_mi_req_async_binder_link_task);
  ("mi_req_async_binder_link_sched_end", mi_req_async_binder_link_sched_end);
  ("mi_preempt_wakeup", mi_preempt_wakeup); ("get_preempt_prio", get_preempt_prio);
  ("prio_sched_check", prio_sched_check);
  ("before_enqueue_vip_task", before_enqueue_vip_task); ("metis_ren_task", metis_ren_task);
  ("dequeue_vip_task", dequeue_vip_task); ("mi_monitor_hook", mi_monitor_hook);
  ("metis_sup_task", metis_sup_task); ("mi_pick_task_fair", mi_pick_task_fair);
  ("fas_init", fas_init); ("mi_rb_enqueue_entity_hook", mi_rb_enqueue_entity_hook);
  ("mi_rb_dequeue_entity_hook", mi_rb_dequeue_entity_hook);
  ("mi_update_deadline_preempt_hook", mi_update_deadline_preempt_hook);
  ("fas_exit", fas_exit); ("metis_set_ui_task", metis_set_ui_task);
  ("metis_ip_task", metis_ip_task); ("is_uuser_set_vip", is_uuser_set_vip);
  ("is_uuser_set_ip", is_uuser_set_ip); ("set_trace_motion_event", set_trace_motion_event);
  ("set_speed_touch_enable", set_speed_touch_enable);
  ("set_mi_vip_task_req", set_mi_vip_task_req); ("get_mi_viptask", get_mi_viptask);
  ("mi_vip_task_req", mi_vip_task_req); ("set_efboost", set_efboost);
  ("set_mi_efboost", set_mi_efboost); ("set_therm_break_enable", set_therm_break_enable);
  ("get_therm_break_enable", get_therm_break_enable); ("proc_open_fas", proc_open_fas);
  ("proc_write_fas", proc_write_fas); ("proc_show_fas", proc_show_fas);
  ("fas_suspend", fas_suspend); ("fas_resume", fas_resume);
  ("metis_xxx_task", metis_xxx_task); ("metis_clean_vip_thread", metis_clean_vip_thread);
  ("set_fboost_enable", set_fboost_enable); ("get_fboost_enable", get_fboost_enable);
  ("soc_timeout_func", soc_timeout_func);
  ("soc_scroll_timeout_func", soc_scroll_timeout_func);
  ("find_energy_hook", find_energy_hook);
  ("walt_get_indicies_hook", walt_get_indicies_hook);
  ("mi_after_enqueue_task_hook", mi_after_enqueue_task_hook);
  ("mi_after_dequeue_task_hook", mi_after_dequeue_task_hook);
  ("metis_vvip_task", metis_vvip_task); ("metis_ui_task_quick", metis_ui_task_quick);
  ("metis_ioctl", metis_ioctl); ("metis_mmap", metis_mmap); ("metis_open", metis_open);
  ("metis_release", metis_release); ("metis_set_vip_thread", metis_set_vip_thread);
  ("get_thread_type", get_thread_type); ("history_task_info_init", history_task_info_init);
  ("runtime_info_debug_open", runtime_info_debug_open);
  ("runtime_info_debug_show", runtime_info_debug_show);
  ("do_print_record_abnorm_task_info", do_print_record_abnorm_task_info);
  ("kmsg_runtime_info_debug_show", kmsg_runtime_info_debug_show);
  ("pull_tasks_fast_path", pull_tasks_fast_path);
  ("find_vip_busiest_similar_cap_cpu", find_vip_busiest_similar_cap_cpu);
  ("get_cpu_vip_longest_runnable_time", get_cpu_vip_longest_runnable_time);
  ("find_vip_runnable_longest_cpu", find_vip_runnable_longest_cpu);
  ("get_cpu_layered_load", get_cpu_layered_load);
  ("get_cpu_vip_tasks_load", get_cpu_vip_tasks_load);
  ("metis_tp_choose_cpu_fastpath", metis_tp_choose_cpu_fastpath);
  ("set_metis_schlat_clear", set_metis_schlat_clear);
  ("get_metis_schlat_clear", get_metis_schlat_clear);
  ("metis_set_schlat_monitor", metis_set_schlat_monitor);
  ("metis_get_schlat_monitor", metis_get_schlat_monitor);
  ("metis_schlat_show", metis_schlat_show); ("get_protect_dur_us", get_protect_dur_us);
  ("task_in_cs_protect", task_in_cs_protect);
  ("clear_preemption_protect", clear_preemption_protect); ("task_in_cs", task_in_cs);
  ("protect_pre_cs_task", protect_pre_cs_task); ("protect_cs_task", protect_cs_task);
  ("mark_task_low_lt", mark_task_low_lt); ("clear_task_low_lt", clear_task_low_lt);
  ("is_low_lt_task", is_low_lt_task); ("is_preempted_cs_task", is_preempted_cs_task);
  ("lowlt_list_add_task", lowlt_list_add_task);
  ("lowlt_list_del_task", lowlt_list_del_task);
  ("lowlt_list_first_task", lowlt_list_first_task);
  ("lowlt_tsk_preempt_normal", lowlt_tsk_preempt_normal);
  ("set_mutex_vip_blocked", set_mutex_vip_blocked);
  ("mutex_reset_data_no_waiter", mutex_reset_data_no_waiter);
  ("vip_blocked_on_mutex", vip_blocked_on_mutex);
  ("set_rwsem_vip_blocked", set_rwsem_vip_blocked);
  ("record_rwsem_blocked_info", record_rwsem_blocked_info);
  ("clear_rwsem_blocked_info", clear_rwsem_blocked_info);
  ("record_mutex_blocked_info", record_mutex_blocked_info);
  ("clear_mutex_blocked_info", clear_mutex_blocked_info);
  ("coldstart_app_ui_task", coldstart_app_ui_task);
  ("task_maybe_notify_thread", task_maybe_notify_thread);
  ("register_cs_hooks", register_cs_hooks);
  ("mi_mutex_opt_spin_start", mi_mutex_opt_spin_start);
  ("mi_mutex_opt_spin_finish", mi_mutex_opt_spin_finish);
  ("mi_mutex_can_spin_on_owner", mi_mutex_can_spin_on_owner);
  ("mi_rwsem_opt_spin_start", mi_rwsem_opt_spin_start);
  ("mi_rwsem_opt_spin_finish", mi_rwsem_opt_spin_finish);
  ("mi_rwsem_can_spin_on_owner", mi_rwsem_can_spin_on_owner);
  ("mi_mutex_init", mi_mutex_init); ("mi_rwsem_init", mi_rwsem_init);
  ("mi_rwsem_direct_rsteal", mi_rwsem_direct_rsteal);
  ("mi_rwsem_optimistic_rspin", mi_rwsem_optimistic_rspin);
  ("unregister_cs_hooks", unregister_cs_hooks);
  ("clean_coldstart_data", clean_coldstart_data);
  ("in_coldstart_period", in_coldstart_period);
  ("coldstart_app_ui_pid", coldstart_app_ui_pid);
  ("get_coldstart_app_tgid", get_coldstart_app_tgid);
  ("coldstart_app_ren_task", coldstart_app_ren_task);
  ("coldstart_override_schedboost", coldstart_override_schedboost);
  ("coldstart_mark_mmlock_holder", coldstart_mark_mmlock_holder);
  ("coldstart_unmark_mmlock_holder", coldstart_unmark_mmlock_holder);
  ("coldstart_tsk_ready_to_run", coldstart_tsk_ready_to_run);
  ("set_cold_start_app_tgid", set_cold_start_app_tgid);
  ("register_coldstart_hooks", register_coldstart_hooks);
  ("unregister_coldstart_hooks", unregister_coldstart_hooks);
  ("metis_cs_init", metis_cs_init); ("metis_cs_exit", metis_cs_exit);
  ("rwsem_spin_on_owner", rwsem_spin_on_owner);
  ("in_cold_start_wakeup", in_cold_start_wakeup);
  ("cold_start_ui_recent_used_cpu", cold_start_ui_recent_used_cpu);
  ("cold_start_ui_sched_state", cold_start_ui_sched_state);
  ("cold_start_ui_task", cold_start_ui_task);
  ("cold_start_competing_with_ui", cold_start_competing_with_ui);
  ("cold_start_task_common", cold_start_task_common);
  ("cold_start_wakeup_mark", cold_start_wakeup_mark);
  ("cold_start_wakeup_task", cold_start_wakeup_task);
  ("cold_start_ui_pipeline", cold_start_ui_pipeline);
  ("cold_start_link_task", cold_start_link_task);
  ("metis_wakeup_ui_pipeline_select_rq", metis_wakeup_ui_pipeline_select_rq);
  ("metis_wakeup_futex_plist_insert", metis_wakeup_futex_plist_insert);
  ("metis_wakeup_enqueue_task_hook", metis_wakeup_enqueue_task_hook);
  ("set_coldstart_wakeup_task", set_coldstart_wakeup_task);
  ("wake_up_new_task_hook", wake_up_new_task_hook);
  ("metis_wakeup_try_to_wakeup", metis_wakeup_try_to_wakeup);
  ("metis_wakeup_clear_wakeup_task", metis_wakeup_clear_wakeup_task);
  ("metis_wakeup_do_futex_hook", metis_wakeup_do_futex_hook);
  ("metis_wakeup_init", metis_wakeup_init); ("metis_wakeup_exit", metis_wakeup_exit);
  ("set_metis_wakeup_task", set_metis_wakeup_task);
  ("set_common_persist_vip_task", set_common_persist_vip_task);
  ("get_common_persist_vip_task", get_common_persist_vip_task);
  ("set_clear_persist_vip_task", set_clear_persist_vip_task)
].
End Internal.


(** ** Any sequence of calls *)

Definition metis_spec : api_spec metis_hook metis_state := {|
  sp_slot := metis_slots;
  sp_live s := negb (metis_safe_boot s);
  sp_dead old := old;
  sp_refuses_null := false;
  sp_effects := metis_effects
|}.

Lemma metis_table_ok : table_ok metis_spec metis_exports.
Proof.
  unfold table_ok, metis_exports. repeat (apply Forall_cons; split); [..|apply Forall_nil, I];
    intros cb [sb m]; cbn; destruct sb; cbn; split_and!; try done;
    intros h; unfold spec_store; cbn; try done;
    by apply spec_store_dead_id.
Qed.

Lemma metis_returns_zero : table_returns (fun r => r = RInt 0) metis_exports.
Proof.
  apply (table_returns_dec (fun r => r = RInt 0)).
  intros cb [[] m]; vm_compute; reflexivity.
Qed.

Lemma metis_internal_inert s : Forall (fun f => f.2 s = (RInt 0, s)) Internal.metis_internal.
Proof. by repeat constructor. Qed.

(** Whatever functions of metis the other modules call, in whatever order,
    every call returns 0; the parameter metis_safe_boot is never changed; while
    it is set no slot changes, and while it is clear each slot holds what the
    last of its own register or unregister functions left there. *)
Theorem metis_calls_spec (calls : list (string * option callback)) (s : metis_state) :
  Forall (fun c => c.1 ∈ metis_exports.*1) calls ->
  exists rs s', run_calls metis_exports calls s = Some (rs, s') /\
    length rs = length calls /\ Forall (fun r => r = RInt 0) rs /\
    metis_safe_boot s' = metis_safe_boot s /\
    forall h, metis_slots s' h =
      if metis_safe_boot s then metis_slots s h
      else spec_run metis_spec true calls (metis_slots s) h.
Proof.
  intros Hc. destruct (run_calls_spec metis_spec metis_exports calls s metis_table_ok Hc)
    as (rs & s' & Hr & Hl & Hb & Hs).
  exists rs, s'. split_and!; [done|done|by eapply run_calls_returns, Hr; apply metis_returns_zero| |].
  - simpl in Hb. by destruct (metis_safe_boot s), (metis_safe_boot s').
  - intros h. simpl in Hs. rewrite Hs. destruct (metis_safe_boot s); simpl; [|done].
    by apply spec_run_dead.
Qed.

Lemma metis_calls_spec_witness :
  exists rs s', run_calls metis_exports
    [("register_ui_task_detect", Some "detect"); ("mi_set_fas_req", None);
     ("register_vip_task_detect", Some "vip"); ("unregister_ui_task_detect", None)]
    (MetisState false (fun _ => None)) = Some (rs, s') /\
    metis_slots s' vip_task_detect_ptr = Some "vip" /\
    metis_slots s' ui_task_detect_ptr = None.
Proof.
  edestruct (metis_calls_spec
    [("register_ui_task_detect", Some "detect"); ("mi_set_fas_req", None);
     ("register_vip_task_detect", Some "vip"); ("unregister_ui_task_detect", None)]
    (MetisState false (fun _ => None))) as (rs & s' & Hr & _ & _ & _ & Hs).
  { apply calls_known. vm_compute. reflexivity. }
  exists rs, s'. split; [exact Hr|]. by rewrite !Hs.
Defined.
