(* ===== verification/MiSchedule.v ===== *)
(** * MiSchedule: groups and hooks of mi_schedule/mi_schedule.c

    The three fixed task groups and the default user the module initialises,
    the functions that hand them out, and its hook table, whose stores always
    take effect.  The other functions are in MiScheduleApi. *)

From stdpp Require Import functions.
From S2P Require Import Prelude HookIface.

Inductive sched_hook :=
| sched_load_update_hook
| mi_update_global_period_hook
| task_group_change_update_hook.

#[global] Instance sched_hook_eq_dec : EqDecision sched_hook.
Proof. solve_decision. Defined.

Definition MI_SCHED_NR_CPUS : Z := 8.
Definition MI_SCHED_NR_CLUSTERS : Z := 4.

(** The fields [mi_schedule_init_group] sets; the lists are those of the
    members, empty after [INIT_LIST_HEAD]. *)
Record mi_group_data := MiGroupData {
  mi_tasks : list Z;
  ls_groups : list Z;
  refcount : Z;
  group_id : Z;
  group_type : Z
}.

Record mi_user_struct := MiUserStruct { tasks : list Z; user_refcount : Z; uid : Z }.

(** The static variables; [None] is a group that is still zero-initialised. *)
Record sched_state := SchedState {
  mi_schedule_system_group : option mi_group_data;
  mi_schedule_back_group : option mi_group_data;
  mi_schedule_kernel_group : option mi_group_data;
  mi_schedule_zero_user : option mi_user_struct;
  mi_schedule_active_groups : list Z;
  sched_slots : sched_hook -> option callback
}.

Definition sched_initial : sched_state := SchedState None None None None [] (fun _ => None).

Definition mi_schedule_init_group (id type : Z) : mi_group_data :=
  MiGroupData [] [] 1 id type.

Definition mi_schedule_init (s : sched_state) : Z * sched_state :=
  (0, SchedState (Some (mi_schedule_init_group 0 0)) (Some (mi_schedule_init_group 1 0))
        (Some (mi_schedule_init_group 2 0)) (Some (MiUserStruct [] 1 0))
        (mi_schedule_active_groups s) (sched_slots s)).

Definition get_mi_back_group (s : sched_state) : option mi_group_data :=
  mi_schedule_back_group s.
Definition get_mi_kern_group (s : sched_state) : option mi_group_data :=
  mi_schedule_kernel_group s.
Definition get_mi_system_group (s : sched_state) : option mi_group_data :=
  mi_schedule_system_group s.
Definition get_active_mi_groups (s : sched_state) : list Z := mi_schedule_active_groups s.
Definition get_mi_user_struct (_uid : Z) (s : sched_state) : option mi_user_struct :=
  mi_schedule_zero_user s.

Definition mi_schedule_store_hook (slot : sched_hook) (hook : option callback)
    (s : sched_state) : Z * sched_state :=
  (0, SchedState (mi_schedule_system_group s) (mi_schedule_back_group s)
        (mi_schedule_kernel_group s) (mi_schedule_zero_user s)
        (mi_schedule_active_groups s) (<[slot := hook]> (sched_slots s))).

Definition register_sched_load_update_hook (hook : option callback) : sched_state -> Z * sched_state :=
  mi_schedule_store_hook sched_load_update_hook hook.
Definition unregister_sched_load_update_hook : sched_state -> Z * sched_state :=
  mi_schedule_store_hook sched_load_update_hook None.
Definition register_mi_update_global_period_f (hook : option callback) : sched_state -> Z * sched_state :=
  mi_schedule_store_hook mi_update_global_period_hook hook.
Definition register_task_group_change_update_f (hook : option callback) : sched_state -> Z * sched_state :=
  mi_schedule_store_hook task_group_change_update_hook hook.
Definition unregister_mi_update_global_period_f : sched_state -> Z * sched_state :=
  mi_schedule_store_hook mi_update_global_period_hook None.
Definition unregister_task_group_change_update_f : sched_state -> Z * sched_state :=
  mi_schedule_store_hook task_group_change_update_hook None.

Definition sched_register (h : sched_hook) : option callback -> sched_state -> Z * sched_state :=
  match h with
  | sched_load_update_hook => register_sched_load_update_hook
  | mi_update_global_period_hook => register_mi_update_global_period_f
  | task_group_change_update_hook => register_task_group_change_update_f
  end.


Definition sched_unregister (h : sched_hook) : sched_state -> Z * sched_state :=
  match h with
  | sched_load_update_hook => unregister_sched_load_update_hook
  | mi_update_global_period_hook => unregister_mi_update_global_period_f
  | task_group_change_update_hook => unregister_task_group_change_update_f
  end.

#[global] Instance sched_registrar : Registrar sched_hook sched_state := {
  hk_register := sched_register;
  hk_unregister := sched_unregister;
  hk_slot h s := sched_slots s h;
  hk_live _ _ := true
}.

Lemma sched_register_eq h hook s : sched_register h hook s = mi_schedule_store_hook h hook s.
Proof. by destruct h. Qed.

Lemma sched_unregister_eq h s : sched_unregister h s = mi_schedule_store_hook h None s.
Proof. by destruct h. Qed.

#[global] Instance sched_registrar_laws : RegistrarLaws sched_hook sched_state.
Proof.
  split; intros *; simpl; rewrite ?sched_register_eq, ?sched_unregister_eq; simpl;
    rewrite ?fn_lookup_insert; try done; intros Hne; by rewrite fn_lookup_insert_ne.
Qed.
