(* ===== verification/MiScheduleApi.v ===== *)
(** * MiScheduleApi: all exported functions of mi_schedule/mi_schedule.c

    Next to the hook functions and the getters of the fixed groups the module
    exports functions that find no group and no task, and empty notifications.
    The internal functions, which nothing calls, are in [Internal]. *)

From S2P Require Import Prelude HookIface ApiIface MiSchedule.

(** Unloading only prints. *)
Definition mi_schedule_exit : sched_state -> sched_state := fun s => s.

(** ** Exported functions without behaviour *)

Definition create_ls_group : plain_fn sched_state := fun s => (RNull, s).
Definition free_mi_task_struct : plain_fn sched_state := fun s => (RVoid, s).
Definition find_mi_group_by_task : plain_fn sched_state := fun s => (RNull, s).
Definition mi_sched_tick : plain_fn sched_state := fun s => (RVoid, s).
Definition find_mi_group_by_user : plain_fn sched_state := fun s => (RNull, s).
Definition mi_task_fork : plain_fn sched_state := fun s => (RVoid, s).
Definition get_cluster_type : plain_fn sched_state := fun s => (RInt 0, s).
Definition get_mi_task_struct : plain_fn sched_state := fun s => (RNull, s).
Definition get_mi_task_struct_unsafe : plain_fn sched_state := fun s => (RNull, s).
Definition get_pred_target_period : plain_fn sched_state := fun s => (RInt 0, s).
Definition is_32B_user : plain_fn sched_state := fun s => (RBool false, s).
Definition mi_group_ls_group : plain_fn sched_state := fun s => (RInt 0, s).
Definition mi_group_ref_dec : plain_fn sched_state := fun s => (RVoid, s).
Definition mi_task_exiting : plain_fn sched_state := fun s => (RVoid, s).
Definition oem_update_num_sched_clusters : plain_fn sched_state := fun s => (RVoid, s).
Definition pkg_enable : plain_fn sched_state := fun s => (RInt 0, s).
Definition thread_change_ls_group_auto : plain_fn sched_state := fun s => (RInt 0, s).
Definition thread_change_ls_group_explicit : plain_fn sched_state := fun s => (RInt 0, s).
Definition update_pkg_load : plain_fn sched_state := fun s => (RVoid, s).

(** ** The table of the exported functions, in the order of the file *)

Definition sched_exports : api_table sched_state := [
  ("create_ls_group", plain create_ls_group);
  ("free_mi_task_struct", plain free_mi_task_struct);
  ("find_mi_group_by_task", plain find_mi_group_by_task);
  ("mi_sched_tick", plain mi_sched_tick);
  ("find_mi_group_by_user", plain find_mi_group_by_user);
  ("mi_task_fork", plain mi_task_fork);
  ("get_active_mi_groups", plain (addr_of "mi_schedule_active_groups" get_active_mi_groups));
  ("register_sched_load_update_hook", hooking register_sched_load_update_hook);
  ("get_cluster_type", plain get_cluster_type);
  ("unregister_sched_load_update_hook", unhooking unregister_sched_load_update_hook);
  ("get_mi_back_group", plain (addr_of "mi_schedule_back_group" get_mi_back_group));
  ("get_mi_kern_group", plain (addr_of "mi_schedule_kernel_group" get_mi_kern_group));
  ("get_mi_system_group", plain (addr_of "mi_schedule_system_group" get_mi_system_group));
  ("get_mi_task_struct", plain get_mi_task_struct);
  ("get_mi_task_struct_unsafe", plain get_mi_task_struct_unsafe);
  ("get_mi_user_struct", plain (addr_of "mi_schedule_zero_user" get_mi_user_struct));
  ("get_pred_target_period", plain get_pred_target_period);
  ("is_32B_user", plain is_32B_user);
  ("mi_group_ls_group", plain mi_group_ls_group);
  ("mi_group_ref_dec", plain mi_group_ref_dec);
  ("mi_task_exiting", plain mi_task_exiting);
  ("oem_update_num_sched_clusters", plain oem_update_num_sched_clusters);
  ("pkg_enable", plain pkg_enable);
  ("register_mi_update_global_period_f", hooking register_mi_update_global_period_f);
  ("register_task_group_change_update_f", hooking register_task_group_change_update_f);
  ("thread_change_ls_group_auto", plain thread_change_ls_group_auto);
  ("thread_change_ls_group_explicit", plain thread_change_ls_group_explicit);
  ("unregister_mi_update_global_period_f", unhooking unregister_mi_update_global_period_f);
  ("unregister_task_group_change_update_f", unhooking unregister_task_group_change_update_f);
  ("update_pkg_load", plain update_pkg_load)
].

(** The variables the module exports. *)
Definition sched_data : list string := [
  "mi_runqueues"; "num_sched_clusters"; "period_freq_list_lock"
].

(** The slots the hook functions store to. *)
Definition sched_effects : list (string * effect sched_hook) := [
  ("register_sched_load_update_hook", Store sched_load_update_hook);
  ("unregister_sched_load_update_hook", Clear sched_load_update_hook);
  ("register_mi_update_global_period_f", Store mi_update_global_period_hook);
  ("register_task_group_change_update_f", Store task_group_change_update_hook);
  ("unregister_mi_update_global_period_f", Clear mi_update_global_period_hook);
  ("unregister_task_group_change_update_f", Clear task_group_change_update_hook)
].

(** ** Internal functions

    Static functions nothing in the file calls. *)

Module Internal.
Definition init_ravg_info : plain_fn sched_state := fun s => (RInt 0, s).
Definition free_mi_group : plain_fn sched_state := fun s => (RInt 0, s).
Definition find_add_mi_group_id : plain_fn sched_state := fun s => (RInt 0, s).
Definition alloc_add_mi_group : plain_fn sched_state := fun s => (RInt 0, s).
Definition mi_group_ref_add : plain_fn sched_state := fun s => (RInt 0, s).
Definition find_add_mi_group_by_user : plain_fn sched_state := fun s => (RInt 0, s).
Definition mi_ls_group_dec : plain_fn sched_state := fun s => (RInt 0, s).
Definition destory_ls_group : plain_fn sched_state := fun s => (RInt 0, s).
Definition mi_ls_group_add : plain_fn sched_state := fun s => (RInt 0, s).
Definition alloc_ls_group : plain_fn sched_state := fun s => (RInt 0, s).
Definition find_ls_grp_by_task : plain_fn sched_state := fun s => (RInt 0, s).
Definition APP_destory_ls_group : plain_fn sched_state := fun s => (RInt 0, s).
Definition change_lsgroup : plain_fn sched_state := fun s => (RInt 0, s).
Definition change_lsgroup_status : plain_fn sched_state := fun s => (RInt 0, s).
Definition alloc_mi_default_group : plain_fn sched_state := fun s => (RInt 0, s).
Definition create_mi_default_group : plain_fn sched_state := fun s => (RInt 0, s).
Definition free_mi_default_group : plain_fn sched_state := fun s => (RInt 0, s).
Definition change_group_fps : plain_fn sched_state := fun s => (RInt 0, s).
Definition change_system_to_display : plain_fn sched_state := fun s => (RInt 0, s).
Definition init_mi_group : plain_fn sched_state := fun s => (RInt 0, s).
Definition exit_mi_group : plain_fn sched_state := fun s => (RInt 0, s).
Definition set_target_makeup_ns : plain_fn sched_state := fun s => (RInt 0, s).
Definition get_target_makeup_ns : plain_fn sched_state := fun s => (RInt 0, s).
Definition mi_group_ioctl : plain_fn sched_state := fun s => (RInt 0, s).
Definition mi_group_mmap : plain_fn sched_state := fun s => (RInt 0, s).
Definition mi_group_open : plain_fn sched_state := fun s => (RInt 0, s).
Definition mi_group_release : plain_fn sched_state := fun s => (RInt 0, s).
Definition create_runtime_proc : plain_fn sched_state := fun s => (RInt 0, s).
Definition delete_runtimeproc : plain_fn sched_state := fun s => (RInt 0, s).
Definition runtime_open_all : plain_fn sched_state := fun s => (RInt 0, s).
Definition runtime_show_all : plain_fn sched_state := fun s => (RInt 0, s).
Definition top_package_on_b2core_open : plain_fn sched_state := fun s => (RInt 0, s).
Definition package_runtime_show : plain_fn sched_state := fun s => (RInt 0, s).
Definition top_package_on_b1core_open : plain_fn sched_state := fun s => (RInt 0, s).
Definition top_package_on_lcore_open : plain_fn sched_state := fun s => (RInt 0, s).
Definition top_package_open : plain_fn sched_state := fun s => (RInt 0, s).
Definition package_runtime_open : plain_fn sched_state := fun s => (RInt 0, s).
Definition trace_package_write : plain_fn sched_state := fun s => (RInt 0, s).
Definition package_compact_open : plain_fn sched_state := fun s => (RInt 0, s).
Definition package_compact_show : plain_fn sched_state := fun s => (RInt 0, s).
Definition package_tracestat_open : plain_fn sched_state := fun s => (RInt 0, s).
Definition package_trace_stat : plain_fn sched_state := fun s => (RInt 0, s).
Definition package_open_traced_window : plain_fn sched_state := fun s => (RInt 0, s).
Definition traced_window_write : plain_fn sched_state := fun s => (RInt 0, s).
Definition traced_window_show : plain_fn sched_state := fun s => (RInt 0, s).
Definition package_open_window_size : plain_fn sched_state := fun s => (RInt 0, s).
Definition window_size_show : plain_fn sched_state := fun s => (RInt 0, s).
Definition develop_mode_open : plain_fn sched_state := fun s => (RInt 0, s).
Definition develop_mode_set : plain_fn sched_state := fun s => (RInt 0, s).
Definition develop_mode_show : plain_fn sched_state := fun s => (RInt 0, s).
Definition package_reset_traced_window : plain_fn sched_state := fun s => (RInt 0, s).
Definition reset_traced_window_show : plain_fn sched_state := fun s => (RInt 0, s).
Definition pause_mode_open : plain_fn sched_state := fun s => (RInt 0, s).
Definition pause_mode_set : plain_fn sched_state := fun s => (RInt 0, s).
Definition pause_mode_show : plain_fn sched_state := fun s => (RInt 0, s).
Definition get_curr_runtime_items : plain_fn sched_state := fun s => (RInt 0, s).
Definition get_uid_max_value : plain_fn sched_state := fun s => (RInt 0, s).
Definition get_runtime_window_size : plain_fn sched_state := fun s => (RInt 0, s).
Definition get_user_zero : plain_fn sched_state := fun s => (RInt 0, s).
Definition mi_cpu_coregroup_mask : plain_fn sched_state := fun s => (RInt 0, s).
Definition get_package_runtime_info : plain_fn sched_state := fun s => (RInt 0, s).
Definition task_user : plain_fn sched_state := fun s => (RInt 0, s).
Definition task_add_to_userlist : plain_fn sched_state := fun s => (RInt 0, s).
Definition task_add_work : plain_fn sched_state := fun s => (RInt 0, s).
Definition mi_user_roll_wk : plain_fn sched_state := fun s => (RInt 0, s).
Definition mi_task_world_init : plain_fn sched_state := fun s => (RInt 0, s).

Definition sched_internal : list (string * plain_fn sched_state) := [
  ("init_ravg_info", init_ravg_info); ("free_mi_group", free_mi_group);
  ("find_add_mi_group_id", find_add_mi_group_id);
  ("alloc_add_mi_group", alloc_add_mi_group); ("mi_group_ref_add", mi_group_ref_add);
  ("find_add_mi_group_by_user", find_add_mi_group_by_user);
  ("mi_ls_group_dec", mi_ls_group_dec); ("destory_ls_group", destory_ls_group);
  ("mi_ls_group_add", mi_ls_group_add); ("alloc_ls_group", alloc_ls_group);
  ("find_ls_grp_by_task", find_ls_grp_by_task);
  ("APP_destory_ls_group", APP_destory_ls_group); ("change_lsgroup", change_lsgroup);
  ("change_lsgroup_status", change_lsgroup_status);
  ("alloc_mi_default_group", alloc_mi_default_group);
  ("create_mi_default_group", create_mi_default_group);
  ("free_mi_default_group", free_mi_default_group); ("change_group_fps", change_group_fps);
  ("change_system_to_display", change_system_to_display); ("init_mi_group", init_mi_group);
  ("exit_mi_group", exit_mi_group); ("set_target_makeup_ns", set_target_makeup_ns);
  ("get_target_makeup_ns", get_target_makeup_ns); ("mi_group_ioctl", mi_group_ioctl);
  ("mi_group_mmap", mi_group_mmap); ("mi_group_open", mi_group_open);
  ("mi_group_release", mi_group_release); ("create_runtime_proc", create_runtime_proc);
  ("delete_runtimeproc", delete_runtimeproc); ("runtime_open_all", runtime_open_all);
  ("runtime_show_all", runtime_show_all);
  ("top_package_on_b2core_open", top_package_on_b2core_open);
  ("package_runtime_show", package_runtime_show);
  ("top_package_on_b1core_open", top_package_on_b1core_open);
  ("top_package_on_lcore_open", top_package_on_lcore_open);
  ("top_package_open", top_package_open); ("package_runtime_open", package_runtime_open);
  ("trace_package_write", trace_package_write);
  ("package_compact_open", package_compact_open);
  ("package_compact_show", package_compact_show);
  ("package_tracestat_open", package_tracestat_open);
  ("package_trace_stat", package_trace_stat);
  ("package_open_traced_window", package_open_traced_window);
  ("traced_window_write", traced_window_write); ("traced_window_show", traced_window_show);
  ("package_open_window_size", package_open_window_size);
  ("window_size_show", window_size_show); ("develop_mode_open", develop_mode_open);
  ("develop_mode_set", develop_mode_set); ("develop_mode_show", develop_mode_show);
  ("package_reset_traced_window", package_reset_traced_window);
  ("reset_traced_window_show", reset_traced_window_show);
  ("pause_mode_open", pause_mode_open); ("pause_mode_set", pause_mode_set);
  ("pause_mode_show", pause_mode_show); ("get_curr_runtime_items", get_curr_runtime_items);
  ("get_uid_max_value", get_uid_max_value);
  ("get_runtime_window_size", get_runtime_window_size); ("get_user_zero", get_user_zero);
  ("mi_cpu_coregroup_mask", mi_cpu_coregroup_mask);
  ("get_package_runtime_info", get_package_runtime_info); ("task_user", task_user);
  ("task_add_to_userlist", task_add_to_userlist); ("task_add_work", task_add_work);
  ("mi_user_roll_wk", mi_user_roll_wk); ("mi_task_world_init", mi_task_world_init)
].
End Internal.


(** ** Any sequence of calls *)

Definition sched_spec : api_spec sched_hook sched_state := {|
  sp_slot := sched_slots;
  sp_live _ := true;
  sp_dead old := old;
  sp_refuses_null := false;
  sp_effects := sched_effects
|}.

(** What no exported function changes: the groups, the user and the list. *)
Definition sched_fixed (s : sched_state) :=
  (mi_schedule_system_group s, mi_schedule_back_group s, mi_schedule_kernel_group s,
   mi_schedule_zero_user s, mi_schedule_active_groups s).

Lemma sched_table_ok : table_ok sched_spec sched_exports.
Proof.
  unfold table_ok, sched_exports. repeat (apply Forall_cons; split); [..|apply Forall_nil, I];
    intros cb s; cbn; by split_and!.
Qed.

Lemma sched_keeps_fixed cb s :
  Forall (fun e : string * api_fn sched_state => sched_fixed (e.2 cb s).2 = sched_fixed s)
    sched_exports.
Proof. by repeat constructor. Qed.

Lemma sched_internal_inert s : Forall (fun f => f.2 s = (RInt 0, s)) Internal.sched_internal.
Proof. by repeat constructor. Qed.

(** Whatever functions of mi_schedule the other modules call, in whatever
    order, the three groups, the user and the list of active groups stay as
    the init function left them, and each slot holds what the last of its own
    register or unregister functions left there. *)
Theorem sched_calls_spec (calls : list (string * option callback)) (s : sched_state) :
  Forall (fun c => c.1 ∈ sched_exports.*1) calls ->
  exists rs s', run_calls sched_exports calls s = Some (rs, s') /\
    length rs = length calls /\ sched_fixed s' = sched_fixed s /\
    forall h, sched_slots s' h = spec_run sched_spec true calls (sched_slots s) h.
Proof.
  intros Hc. destruct (run_calls_spec sched_spec sched_exports calls s sched_table_ok Hc)
    as (rs & s' & Hr & Hl & _ & Hs).
  exists rs, s'. split_and!; [done|done| |exact Hs].
  eapply run_calls_keeps, Hr. apply sched_keeps_fixed.
Qed.

Lemma sched_calls_spec_witness :
  exists rs s', run_calls sched_exports
    [("register_sched_load_update_hook", Some "load"); ("mi_sched_tick", None);
     ("get_mi_back_group", None)] (mi_schedule_init sched_initial).2 = Some (rs, s') /\
    sched_slots s' sched_load_update_hook = Some "load" /\
    group_id <$> mi_schedule_back_group s' = Some 1.
Proof.
  edestruct (sched_calls_spec
    [("register_sched_load_update_hook", Some "load"); ("mi_sched_tick", None);
     ("get_mi_back_group", None)] (mi_schedule_init sched_initial).2)
    as (rs & s' & Hr & _ & Hf & Hs).
  { apply calls_known. vm_compute. reflexivity. }
  exists rs, s'. split; [exact Hr|]. rewrite Hs. split; [done|].
  injection Hf as _ -> _ _ _. done.
Defined.
