(* ===== verification/Mist.v ===== *)
(** * Mist: the hooks of mist/mist.c

    Three callback slots whose stores always take effect; the first one has no
    unregister function.  The other functions are in MistApi. *)

From stdpp Require Import functions.
From S2P Require Import Prelude HookIface.

Inductive mist_hook :=
| mist_soc_freq_update_hook
| mist_dflt_bw_update_cb
| mist_dflt_lat_update_cb.

#[global] Instance mist_hook_eq_dec : EqDecision mist_hook.
Proof. solve_decision. Defined.

Record mist_state := MistState {
  mist_enabled : Z;
  mist_slots : mist_hook -> option callback
}.

Definition mist_initial : mist_state := MistState 1 (fun _ => None).

Definition mist_init (s : mist_state) : Z * mist_state := (0, MistState 1 (mist_slots s)).

Definition mist_store_hook (slot : mist_hook) (hook : option callback)
    (s : mist_state) : Z * mist_state :=
  (0, MistState (mist_enabled s) (<[slot := hook]> (mist_slots s))).

Definition mi_soc_register_freq_adjhook (hook : option callback) : mist_state -> Z * mist_state :=
  mist_store_hook mist_soc_freq_update_hook hook.
Definition register_mi_dflt_bw_update_cb (hook : option callback) : mist_state -> Z * mist_state :=
  mist_store_hook mist_dflt_bw_update_cb hook.
Definition register_mi_dflt_lat_update_cb (hook : option callback) : mist_state -> Z * mist_state :=
  mist_store_hook mist_dflt_lat_update_cb hook.
Definition unregister_mi_dflt_bw_update_cb : mist_state -> Z * mist_state :=
  mist_store_hook mist_dflt_bw_update_cb None.
Definition unregister_mi_dflt_lat_update_cb : mist_state -> Z * mist_state :=
  mist_store_hook mist_dflt_lat_update_cb None.

(** The two slots with both functions. *)
Inductive mist_pair := MistBw | MistLat.
#[global] Instance mist_pair_eq_dec : EqDecision mist_pair.
Proof. solve_decision. Defined.

Definition mist_slot_of (h : mist_pair) : mist_hook :=
  match h with MistBw => mist_dflt_bw_update_cb | MistLat => mist_dflt_lat_update_cb end.

#[global] Instance mist_registrar : Registrar mist_pair mist_state := {
  hk_register h :=
    match h with
    | MistBw => register_mi_dflt_bw_update_cb
    | MistLat => register_mi_dflt_lat_update_cb
    end;
  hk_unregister h :=
    match h with
    | MistBw => unregister_mi_dflt_bw_update_cb
    | MistLat => unregister_mi_dflt_lat_update_cb
    end;
  hk_slot h s := mist_slots s (mist_slot_of h);
  hk_live _ _ := true
}.

#[global] Instance mist_registrar_laws : RegistrarLaws mist_pair mist_state.
Proof.
  split; intros *; destruct h; try destruct h'; simpl;
    rewrite ?fn_lookup_insert; try done; intros Hne;
    by rewrite ?fn_lookup_insert_ne by done.
Qed.
