(* ===== verification/MistApi.v ===== *)
(** * MistApi: all exported functions of mist/mist.c

    Next to the hook functions the module exports empty notifications and
    functions that report 0.  The internal functions, which nothing calls, are
    in [Internal]. *)

From S2P Require Import Prelude HookIface ApiIface Mist.

(** Unloading only prints. *)
Definition mist_exit : mist_state -> mist_state := fun s => s.

(** ** Exported functions without behaviour *)

Definition dlft_get_latency : plain_fn mist_state := fun s => (RInt 0, s).
Definition get_adreno_gflt_load : plain_fn mist_state := fun s => (RInt 0, s).
Definition get_gpubw_gflt_load : plain_fn mist_state := fun s => (RInt 0, s).
Definition gpu_load_calibration : plain_fn mist_state := fun s => (RVoid, s).
Definition gpubw_load_calibration : plain_fn mist_state := fun s => (RVoid, s).
Definition mi_dflt_bwmon_update_cur_freq_hook : plain_fn mist_state := fun s => (RVoid, s).
Definition mi_dflt_calculate_dflt_lantancy_hook : plain_fn mist_state := fun s => (RVoid, s).
Definition mi_dflt_calculate_mon_sampling_freq_hook : plain_fn mist_state := fun s => (RVoid, s).
Definition mi_dflt_get_bwmon_enable : plain_fn mist_state := fun s => (RInt 0, s).
Definition mi_dflt_get_bwmon_sample_start : plain_fn mist_state := fun s => (RInt 0, s).
Definition mi_dflt_get_ddr_frame_load : plain_fn mist_state := fun s => (RInt 0, s).
Definition mi_dflt_get_latency_enable : plain_fn mist_state := fun s => (RInt 0, s).
Definition mi_dflt_get_latency_enable_from_user : plain_fn mist_state := fun s => (RInt 0, s).
Definition mi_dflt_get_latency_sample_start : plain_fn mist_state := fun s => (RInt 0, s).
Definition mi_dflt_get_latency_vote_start : plain_fn mist_state := fun s => (RInt 0, s).
Definition mi_dflt_process_raw_ctrs_hook : plain_fn mist_state := fun s => (RVoid, s).
Definition mi_dflt_schedule_hook : plain_fn mist_state := fun s => (RVoid, s).
Definition mi_dflt_set_bwmon_enable : plain_fn mist_state := fun s => (RInt 0, s).
Definition mi_dflt_set_bwmon_sample_start : plain_fn mist_state := fun s => (RInt 0, s).
Definition mi_dflt_set_latency_enable : plain_fn mist_state := fun s => (RInt 0, s).
Definition mi_dflt_set_latency_sample_start : plain_fn mist_state := fun s => (RInt 0, s).
Definition mi_dflt_set_latency_vote_start : plain_fn mist_state := fun s => (RInt 0, s).
Definition mi_dflt_update_memlat_fp_vote_hook : plain_fn mist_state := fun s => (RVoid, s).
Definition mi_gpu_flt_working : plain_fn mist_state := fun s => (RInt 0, s).
Definition mist_ddr_vote_enable : plain_fn mist_state := fun s => (RInt 0, s).
Definition mist_dflt_init : plain_fn mist_state := fun s => (RVoid, s).
Definition mist_gflt_init : plain_fn mist_state := fun s => (RVoid, s).
Definition mist_gflt_start : plain_fn mist_state := fun s => (RVoid, s).
Definition mist_gflt_stop : plain_fn mist_state := fun s => (RVoid, s).
Definition mist_perf_api_enable : plain_fn mist_state := fun s => (RInt 0, s).
Definition mist_set_next_freq_hook : plain_fn mist_state := fun s => (RVoid, s).
Definition mist_update_ddr_freq : plain_fn mist_state := fun s => (RVoid, s).
Definition mist_update_rel_freq : plain_fn mist_state := fun s => (RVoid, s).
Definition notify_gflt_frame_period_thresh : plain_fn mist_state := fun s => (RInt 0, s).
Definition set_adreno_gflt_load : plain_fn mist_state := fun s => (RInt 0, s).
Definition set_gpubw_gflt_load : plain_fn mist_state := fun s => (RInt 0, s).
Definition trigger_mist_dflt : plain_fn mist_state := fun s => (RInt 0, s).
Definition trigger_mist_gflt : plain_fn mist_state := fun s => (RInt 0, s).
Definition trigger_mist_load_tracking : plain_fn mist_state := fun s => (RInt 0, s).

(** ** The table of the exported functions, in the order of the file *)

Definition mist_exports : api_table mist_state := [
  ("dlft_get_latency", plain dlft_get_latency);
  ("get_adreno_gflt_load", plain get_adreno_gflt_load);
  ("get_gpubw_gflt_load", plain get_gpubw_gflt_load);
  ("gpu_load_calibration", plain gpu_load_calibration);
  ("gpubw_load_calibration", plain gpubw_load_calibration);
  ("mi_dflt_bwmon_update_cur_freq_hook", plain mi_dflt_bwmon_update_cur_freq_hook);
  ("mi_dflt_calculate_dflt_lantancy_hook", plain mi_dflt_calculate_dflt_lantancy_hook);
  ("mi_dflt_calculate_mon_sampling_freq_hook", plain mi_dflt_calculate_mon_sampling_freq_hook);
  ("mi_dflt_get_bwmon_enable", plain mi_dflt_get_bwmon_enable);
  ("mi_dflt_get_bwmon_sample_start", plain mi_dflt_get_bwmon_sample_start);
  ("mi_dflt_get_ddr_frame_load", plain mi_dflt_get_ddr_frame_load);
  ("mi_dflt_get_latency_enable", plain mi_dflt_get_latency_enable);
  ("mi_dflt_get_latency_enable_from_user", plain mi_dflt_get_latency_enable_from_user);
  ("mi_dflt_get_latency_sample_start", plain mi_dflt_get_latency_sample_start);
  ("mi_dflt_get_latency_vote_start", plain mi_dflt_get_latency_vote_start);
  ("mi_dflt_process_raw_ctrs_hook", plain mi_dflt_process_raw_ctrs_hook);
  ("mi_dflt_schedule_hook", plain mi_dflt_schedule_hook);
  ("mi_dflt_set_bwmon_enable", plain mi_dflt_set_bwmon_enable);
  ("mi_dflt_set_bwmon_sample_start", plain mi_dflt_set_bwmon_sample_start);
  ("mi_dflt_set_latency_enable", plain mi_dflt_set_latency_enable);
  ("mi_dflt_set_latency_sample_start", plain mi_dflt_set_latency_sample_start);
  ("mi_dflt_set_latency_vote_start", plain mi_dflt_set_latency_vote_start);
  ("mi_dflt_update_memlat_fp_vote_hook", plain mi_dflt_update_memlat_fp_vote_hook);
  ("mi_gpu_flt_working", plain mi_gpu_flt_working);
  ("mi_soc_register_freq_adjhook", hooking mi_soc_register_freq_adjhook);
  ("mist_ddr_vote_enable", plain mist_ddr_vote_enable);
  ("mist_dflt_init", plain mist_dflt_init);
  ("mist_gflt_init", plain mist_gflt_init);
  ("mist_gflt_start", plain mist_gflt_start);
  ("mist_gflt_stop", plain mist_gflt_stop);
  ("mist_perf_api_enable", plain mist_perf_api_enable);
  ("mist_set_next_freq_hook", plain mist_set_next_freq_hook);
  ("mist_update_ddr_freq", plain mist_update_ddr_freq);
  ("mist_update_rel_freq", plain mist_update_rel_freq);
  ("notify_gflt_frame_period_thresh", plain notify_gflt_frame_period_thresh);
  ("register_mi_dflt_bw_update_cb", hooking register_mi_dflt_bw_update_cb);
  ("register_mi_dflt_lat_update_cb", hooking register_mi_dflt_lat_update_cb);
  ("set_adreno_gflt_load", plain set_adreno_gflt_load);
  ("set_gpubw_gflt_load", plain set_gpubw_gflt_load);
  ("trigger_mist_dflt", plain trigger_mist_dflt);
  ("trigger_mist_gflt", plain trigger_mist_gflt);
  ("trigger_mist_load_tracking", plain trigger_mist_load_tracking);
  ("unregister_mi_dflt_bw_update_cb", unhooking unregister_mi_dflt_bw_update_cb);
  ("unregister_mi_dflt_lat_update_cb", unhooking unregister_mi_dflt_lat_update_cb)
].

(** The slots the hook functions store to. *)
Definition mist_effects : list (string * effect mist_hook) := [
  ("mi_soc_register_freq_adjhook", Store mist_soc_freq_update_hook);
  ("register_mi_dflt_bw_update_cb", Store mist_dflt_bw_update_cb);
  ("register_mi_dflt_lat_update_cb", Store mist_dflt_lat_update_cb);
  ("unregister_mi_dflt_bw_update_cb", Clear mist_dflt_bw_update_cb);
  ("unregister_mi_dflt_lat_update_cb", Clear mist_dflt_lat_update_cb)
].

(** ** Internal functions

    Static functions nothing in the file calls. *)

Module Internal.
Definition cpufreq_to_memfreq : plain_fn mist_state := fun s => (RInt 0, s).
Definition queue_dflt_sample_start : plain_fn mist_state := fun s => (RInt 0, s).
Definition queue_dflt_vote_start : plain_fn mist_state := fun s => (RInt 0, s).
Definition queue_memlat_vote_start : plain_fn mist_state := fun s => (RInt 0, s).
Definition parse_cluster_node_map : plain_fn mist_state := fun s => (RInt 0, s).
Definition commit_fast_vote : plain_fn mist_state := fun s => (RInt 0, s).
Definition set_dflt_bm_counter_enable : plain_fn mist_state := fun s => (RInt 0, s).
Definition get_dflt_bm_counter_enable : plain_fn mist_state := fun s => (RInt 0, s).
Definition set_dflt_bwmon_enable : plain_fn mist_state := fun s => (RInt 0, s).
Definition get_dflt_bwmon_enable : plain_fn mist_state := fun s => (RInt 0, s).
Definition set_dflt_latency_enable : plain_fn mist_state := fun s => (RInt 0, s).
Definition get_dflt_latency_enable : plain_fn mist_state := fun s => (RInt 0, s).
Definition set_soc_api_enable : plain_fn mist_state := fun s => (RInt 0, s).
Definition get_soc_api_enable : plain_fn mist_state := fun s => (RInt 0, s).
Definition history_load_open : plain_fn mist_state := fun s => (RInt 0, s).
Definition history_load_show : plain_fn mist_state := fun s => (RInt 0, s).
Definition dump_his_load_info : plain_fn mist_state := fun s => (RInt 0, s).
Definition mi_get_gflt_enable : plain_fn mist_state := fun s => (RInt 0, s).
Definition do_freq_adjwork : plain_fn mist_state := fun s => (RInt 0, s).
Definition do_slack_work : plain_fn mist_state := fun s => (RInt 0, s).
Definition set_gflt_enable : plain_fn mist_state := fun s => (RInt 0, s).
Definition get_gflt_enable : plain_fn mist_state := fun s => (RInt 0, s).
Definition cpu_load_calibration : plain_fn mist_state := fun s => (RInt 0, s).
Definition ddr_load_calibration : plain_fn mist_state := fun s => (RInt 0, s).

Definition mist_internal : list (string * plain_fn mist_state) := [
  ("cpufreq_to_memfreq", cpufreq_to_memfreq);
  ("queue_dflt_sample_start", queue_dflt_sample_start);
  ("queue_dflt_vote_start", queue_dflt_vote_start);
  ("queue_memlat_vote_start", queue_memlat_vote_start);
  ("parse_cluster_node_map", parse_cluster_node_map);
  ("commit_fast_vote", commit_fast_vote);
  ("set_dflt_bm_counter_enable", set_dflt_bm_counter_enable);
  ("get_dflt_bm_counter_enable", get_dflt_bm_counter_enable);
  ("set_dflt_bwmon_enable", set_dflt_bwmon_enable);
  ("get_dflt_bwmon_enable", get_dflt_bwmon_enable);
  ("set_dflt_latency_enable", set_dflt_latency_enable);
  ("get_dflt_latency_enable", get_dflt_latency_enable);
  ("set_soc_api_enable", set_soc_api_enable); ("get_soc_api_enable", get_soc_api_enable);
  ("history_load_open", history_load_open); ("history_load_show", history_load_show);
  ("dump_his_load_info", dump_his_load_info); ("mi_get_gflt_enable", mi_get_gflt_enable);
  ("do_freq_adjwork", do_freq_adjwork); ("do_slack_work", do_slack_work);
  ("set_gflt_enable", set_gflt_enable); ("get_gflt_enable", get_gflt_enable);
  ("cpu_load_calibration", cpu_load_calibration);
  ("ddr_load_calibration", ddr_load_calibration)
].
End Internal.


(** ** Any sequence of calls *)

Definition mist_spec : api_spec mist_hook mist_state := {|
  sp_slot := mist_slots;
  sp_live _ := true;
  sp_dead old := old;
  sp_refuses_null := false;
  sp_effects := mist_effects
|}.

Lemma mist_table_ok : table_ok mist_spec mist_exports.
Proof.
  unfold table_ok, mist_exports. repeat (apply Forall_cons; split); [..|apply Forall_nil, I];
    intros cb s; cbn; by split_and!.
Qed.

Lemma mist_keeps_enabled cb s :
  Forall (fun e : string * api_fn mist_state => mist_enabled (e.2 cb s).2 = mist_enabled s)
    mist_exports.
Proof. by repeat constructor. Qed.

Lemma mist_internal_inert s : Forall (fun f => f.2 s = (RInt 0, s)) Internal.mist_internal.
Proof. by repeat constructor. Qed.

(** Whatever functions of mist the other modules call, in whatever order,
    the enabled flag stays, and each slot holds what the last of its own
    register or unregister functions left there.  In particular the callback
    of the frequency hook, which has no unregister function, can only be
    replaced. *)
Theorem mist_calls_spec (calls : list (string * option callback)) (s : mist_state) :
  Forall (fun c => c.1 ∈ mist_exports.*1) calls ->
  exists rs s', run_calls mist_exports calls s = Some (rs, s') /\
    length rs = length calls /\ mist_enabled s' = mist_enabled s /\
    (forall h, mist_slots s' h = spec_run mist_spec true calls (mist_slots s) h) /\
    (Forall (fun c => c.1 <> "mi_soc_register_freq_adjhook") calls ->
     mist_slots s' mist_soc_freq_update_hook = mist_slots s mist_soc_freq_update_hook).
Proof.
  intros Hc. destruct (run_calls_spec mist_spec mist_exports calls s mist_table_ok Hc)
    as (rs & s' & Hr & Hl & _ & Hs).
  exists rs, s'. split_and!; [done|done| |exact Hs|].
  - eapply run_calls_keeps, Hr. apply mist_keeps_enabled.
  - intros Hn. simpl in Hs. rewrite Hs. apply spec_run_frame.
    eapply Forall_impl; [exact Hn|]. intros [n cb] Hne. simpl in *.
    unfold assoc. destruct (list_find _ _) as [[i [k e]]|] eqn:Hf; [|done].
    apply list_find_Some in Hf as (Hi & Hk & _). simpl in *. subst k.
    apply list_elem_of_lookup_2 in Hi. unfold mist_effects in Hi.
    repeat (apply elem_of_cons in Hi as [[= -> ->]|Hi]; [done|]).
    by apply elem_of_nil in Hi.
Qed.

Lemma mist_calls_spec_witness :
  exists rs s', run_calls mist_exports
    [("mi_soc_register_freq_adjhook", Some "adj"); ("gpu_load_calibration", None);
     ("register_mi_dflt_bw_update_cb", Some "bw"); ("unregister_mi_dflt_bw_update_cb", None)]
    mist_initial = Some (rs, s') /\
    mist_slots s' mist_soc_freq_update_hook = Some "adj" /\
    mist_slots s' mist_dflt_bw_update_cb = None.
Proof.
  edestruct (mist_calls_spec
    [("mi_soc_register_freq_adjhook", Some "adj"); ("gpu_load_calibration", None);
     ("register_mi_dflt_bw_update_cb", Some "bw"); ("unregister_mi_dflt_bw_update_cb", None)]
    mist_initial) as (rs & s' & Hr & _ & _ & Hs & _).
  { apply calls_known. vm_compute. reflexivity. }
  exists rs, s'. split; [exact Hr|]. by rewrite !Hs.
Defined.
