(* ===== verification/MiLoad.v ===== *)
(** * MiLoad: the frame-load module miloadtrace/miloadtrace.c

    Its variables and file operations, the cpufreq governor, and the module's
    life: the misc device, the proc entries, nine callbacks registered with
    three other modules, the governor.  The callbacks are registered through
    the interface [Registrar]; the tables of the other modules are plugged in
    at the end. *)

From stdpp Require Import functions.
From S2P Require Import Prelude KText KTextRef KMonad ThermalAttr.
From S2P Require Import HookIface XiaomiHooks Metis MiSchedule.

(** ** Variables *)

Definition MILOAD_MAX_CLUSTERS : Z := 4.
Definition MILOAD_MAX_CPUS : Z := 8.
Definition MILOAD_DEFAULT_HISPEED_LOAD : Z := 90.

Record miload_vars := MiloadVars {
  update_frame_fps : Z;
  skip_walt_result : bool;
  util_boost_percent : list Z;
  mi_maxfreq : list Z;
  mi_minfreq : list Z;
  flw_work_in_process : Z;
  flw_irq_work_lastq_ws : Z
}.

Definition miload_vars_init : miload_vars :=
  MiloadVars 60 false (replicate 4 0) (replicate 8 0) (replicate 8 0) 0 0.

Definition set_fps (fps : Z) (v : miload_vars) : miload_vars :=
  MiloadVars fps (skip_walt_result v) (util_boost_percent v) (mi_maxfreq v)
    (mi_minfreq v) (flw_work_in_process v) (flw_irq_work_lastq_ws v).
Definition set_freqs (mx mn : list Z) (v : miload_vars) : miload_vars :=
  MiloadVars (update_frame_fps v) (skip_walt_result v) (util_boost_percent v) mx mn
    (flw_work_in_process v) (flw_irq_work_lastq_ws v).

Definition find_cal_divisor (v : miload_vars) (fps : Z) : Z :=
  let fps := if fps =? 0
             then (if update_frame_fps v =? 0 then 60 else update_frame_fps v)
             else fps in
  if 120 <=? fps then 2 else if 90 <=? fps then 3 else if 60 <=? fps then 4 else 6.

(** [None] is an access outside the array. *)
Definition get_group_util (v : miload_vars) (cid grp_id : Z) : option Z :=
  if (0 <=? cid) && (cid <? MILOAD_MAX_CLUSTERS)
  then util_boost_percent v !! Z.to_nat cid else Some 0.

Definition skip_walt_window_update (v : miload_vars) : miload_vars :=
  MiloadVars (update_frame_fps v) true (util_boost_percent v) (mi_maxfreq v)
    (mi_minfreq v) (flw_work_in_process v) (flw_irq_work_lastq_ws v).

(** [now] is the result of [walt_sched_clock]. *)
Definition flw_irq_work (now : Z) (v : miload_vars) : miload_vars :=
  MiloadVars (update_frame_fps v) (skip_walt_result v) (util_boost_percent v)
    (mi_maxfreq v) (mi_minfreq v) 0 now.

Definition update_freq_record (v : miload_vars) (cpu freq : Z) : option miload_vars :=
  if cpu <? MILOAD_MAX_CPUS then
    old ← mi_maxfreq v !! Z.to_nat cpu;
    Some (set_freqs (<[Z.to_nat cpu := Z.max old freq]> (mi_maxfreq v)) (mi_minfreq v) v)
  else Some v.

Definition init_grp_freq_record (v : miload_vars) : miload_vars :=
  set_freqs (replicate 8 0) (replicate 8 0) v.

(** ** Files *)

(** [struct mi_load_data] and its size with padding. *)
Record mi_load_data := MiLoadData { cmd : Z; pid : Z; fps : Z; period : Z; pred_period : Z }.
Definition sizeof_mi_load_data : Z := 32.

Section files.
Context `{KText}.

Definition set_update_fps (v : miload_vars) (val : bytes) : Z * miload_vars :=
  match kstrtouint (cstr val) with
  | inl ret => (ret, v)
  | inr fps => (0, set_fps fps v)
  end.

Definition get_update_fps (v : miload_vars) (buf : bytes) : Z * bytes :=
  show_text (fmt_u (update_frame_fps v) ++ [NL]) buf.

(** [user]: the structure in user memory, [None] when it cannot be copied. *)
Definition mi_frame_ioctl (v : miload_vars) (user : option mi_load_data) (size : Z)
  : Z * miload_vars :=
  if negb (size =? sizeof_mi_load_data) then (- EINVAL, v)
  else match user with
       | None => (- EFAULT, v)
       | Some data =>
           (sizeof_mi_load_data,
            set_fps (if fps data =? 0 then update_frame_fps v else fps data) v)
       end.

Definition mi_frame_open : Z := 0.
Definition mi_frame_release : Z := 0.

Definition all_group_show (v : miload_vars) : bytes :=
  bs "miloadtrace reconstructed" ++ [NL] ++
  bs "fps=" ++ fmt_u (update_frame_fps v) ++ bs " skip_walt=" ++
  fmt_u (if skip_walt_result v then 1 else 0) ++ [NL].

(** The common body of [task_grp_id_write] and [user_grp_id_write]: a local
    buffer of 32 characters, [copy_from_user], a terminator, and a number that
    is logged only.  [None] is a write outside the buffer; [buf] is the
    uninitialised buffer. *)
Definition grp_id_write (buf : bytes) (ubuf : option bytes) (count : nat)
  : option (Z * option Z) :=
  if (length buf <=? count)%nat then Some (- EINVAL, None)
  else match ubuf with
       | None => Some (- EFAULT, None)
       | Some u =>
           let buf := memcpy buf 0 (take count u) in
           _ ← buf !! count;
           let buf := <[count := NUL]> buf in
           Some (Z.of_nat count, Some (simple_strtol (cstr buf)))
       end.
Definition task_grp_id_write := grp_id_write.
Definition user_grp_id_write := grp_id_write.

Definition task_grp_id_show : bytes := bs "0" ++ [NL].
Definition user_grp_id_show : bytes := bs "0" ++ [NL].
End files.

(** ** The governor *)

Record migov_tunables := MigovTunables {
  up_rate_limit_us : Z; down_rate_limit_us : Z; hispeed_load : Z
}.

Inductive gov_res := RMgPolicy | RTunables.
#[global] Instance gov_res_eq_dec : EqDecision gov_res.
Proof. solve_decision. Defined.

(** [governor_data] of the policy and the [mg_policy] pointers of the CPUs
    ([true] is non-NULL), the tunables, and the records of frequencies. *)
Record gov_state := GovState {
  governor_data : bool;
  tunables : option migov_tunables;
  mi_gov_cpu : Z -> option (Z * bool);
  gov_vars : miload_vars
}.

Section governor.
Local Abbreviation M := (km gov_state gov_res).

Definition cpu_gov_init (mg_ok tun_ok : bool) : M Z :=
  ok ← acquire_ptr mg_ok RMgPolicy;
  if negb ok then mret (- ENOMEM) else
  ok ← acquire_ptr tun_ok RTunables;
  if negb ok then _ ← release RMgPolicy; mret (- ENOMEM) else
  _ ← modify (fun s => GovState true
        (Some (MigovTunables 0 0 MILOAD_DEFAULT_HISPEED_LOAD)) (mi_gov_cpu s) (gov_vars s));
  mret 0.

Definition cpu_gov_exit : M unit :=
  data ← gets governor_data;
  if negb data then mret () else
  _ ← release RTunables;
  _ ← release RMgPolicy;
  modify (fun s => GovState false None (mi_gov_cpu s) (gov_vars s)).

(** [cpus]: the CPUs of the policy. *)
Definition cpu_gov_start (cpus : list Z) : M Z :=
  _ ← modify (fun s => GovState (governor_data s) (tunables s)
        (fun cpu => if bool_decide (cpu ∈ cpus) then Some (cpu, governor_data s)
                    else mi_gov_cpu s cpu) (gov_vars s));
  mret 0.

Definition cpu_gov_stop : M unit := mret ().

(** [policy]: its CPU and current frequency, [None] for NULL.  The result
    [None] is an access outside the array. *)
Definition cpu_gov_limits (policy : option (Z * Z)) (v : miload_vars) : option miload_vars :=
  match policy with
  | Some (cpu, cur) => if cur =? 0 then Some v else update_freq_record v cpu cur
  | None => Some v
  end.
End governor.

(** ** Hooks *)

Inductive miload_hook :=
| HkFravg | HkWaltUpdate | HkGroupChange | HkMigrate | HkGroupNr | HkFixFld
| HkUiTask | HkGlobalPeriod | HkFreqUpdate.
#[global] Instance miload_hook_eq_dec : EqDecision miload_hook.
Proof. solve_decision. Defined.

Inductive proc_entry := miload_dir | frame_load_dir | group_dir
  | all_group_show_entry | taskgrpid_entry | usergrpid_entry.
#[global] Instance proc_entry_eq_dec : EqDecision proc_entry.
Proof. solve_decision. Defined.

Inductive miload_res := RMisc | RProc (e : proc_entry) | RGovernor.
#[global] Instance miload_res_eq_dec : EqDecision miload_res.
Proof. solve_decision. Defined.

Section hooks.
Context {HSt : Type} `{Registrar miload_hook HSt}.
Local Abbreviation MH := (km HSt miload_res).

Definition reg (h : miload_hook) (cb : callback) : MH Z := fun s =>
  let '(r, s') := hk_register h (Some cb) s in (r, s', []).
Definition unreg (h : miload_hook) : MH unit := fun s =>
  let '(_, s') := hk_unregister h s in ((), s', []).

Definition err_walt (ret : Z) : MH Z := _ ← unreg HkFravg; mret ret.
Definition err_group_change (ret : Z) : MH Z := _ ← unreg HkWaltUpdate; err_walt ret.
Definition err_migrate (ret : Z) : MH Z := _ ← unreg HkGroupChange; err_group_change ret.
Definition err_group_nr (ret : Z) : MH Z := _ ← unreg HkMigrate; err_migrate ret.
Definition err_fix (ret : Z) : MH Z := _ ← unreg HkGroupNr; err_group_nr ret.
Definition err_ui (ret : Z) : MH Z := _ ← unreg HkFixFld; err_fix ret.
Definition err_global (ret : Z) : MH Z := _ ← unreg HkUiTask; err_ui ret.
Definition err_freq (ret : Z) : MH Z := _ ← unreg HkGlobalPeriod; err_global ret.

Definition miload_register_hooks : MH Z :=
  ret ← reg HkFravg "mi_frame_load_ravg";
  if negb (ret =? 0) then mret ret else
  ret ← reg HkWaltUpdate "skip_walt_window_update";
  if negb (ret =? 0) then err_walt ret else
  ret ← reg HkGroupChange "grp_enq_boost_task";
  if negb (ret =? 0) then err_group_change ret else
  ret ← reg HkMigrate "migrate_inter_cluster_fload";
  if negb (ret =? 0) then err_migrate ret else
  ret ← reg HkGroupNr "mi_update_group_group";
  if negb (ret =? 0) then err_group_nr ret else
  ret ← reg HkFixFld "fix_fload_in_irq";
  if negb (ret =? 0) then err_fix ret else
  ret ← reg HkUiTask "grp_enq_boost_pipeline";
  if negb (ret =? 0) then err_ui ret else
  ret ← reg HkGlobalPeriod "update_gloabal_target_period";
  if negb (ret =? 0) then err_global ret else
  ret ← reg HkFreqUpdate "group_frame_cpufreq_transition";
  if negb (ret =? 0) then err_freq ret else
  mret 0.

Definition miload_unregister_hooks : MH unit :=
  _ ← unreg HkFreqUpdate;
  _ ← unreg HkGlobalPeriod;
  _ ← unreg HkUiTask;
  _ ← unreg HkFixFld;
  _ ← unreg HkGroupNr;
  _ ← unreg HkMigrate;
  _ ← unreg HkGroupChange;
  _ ← unreg HkWaltUpdate;
  unreg HkFravg.

(** ** The module *)

Record miload_state := MiloadState {
  procs : proc_entry -> bool;
  hooks : HSt;
  vars : miload_vars
}.
Definition set_proc (e : proc_entry) (b : bool) (s : miload_state) : miload_state :=
  MiloadState (<[e := b]> (procs s)) (hooks s) (vars s).
Definition set_hooks (h : HSt) (s : miload_state) : miload_state :=
  MiloadState (procs s) h (vars s).
Definition set_vars (v : miload_vars) (s : miload_state) : miload_state :=
  MiloadState (procs s) (hooks s) v.

Local Abbreviation M := (km miload_state miload_res).

(** [proc_mkdir] or [proc_create]; [ok] tells which entries come up. *)
Definition proc_new (ok : proc_entry -> bool) (e : proc_entry) : M bool :=
  b ← acquire_ptr (ok e) (RProc e); _ ← modify (set_proc e b); mret b.

(** [proc_remove], which ignores NULL; the pointer keeps its value. *)
Definition proc_remove (e : proc_entry) : M unit :=
  b ← gets (fun s => procs s e);
  if (b : bool) then release (RProc e) else mret ().

Definition miload_proc_init (ok : proc_entry -> bool) : M Z :=
  dir ← proc_new ok miload_dir;
  if negb dir then mret (- ENOMEM) else
  _ ← proc_new ok frame_load_dir;
  _ ← proc_new ok group_dir;
  _ ← proc_new ok all_group_show_entry;
  _ ← proc_new ok taskgrpid_entry;
  _ ← proc_new ok usergrpid_entry;
  mret 0.

Definition miload_proc_exit : M unit :=
  _ ← proc_remove usergrpid_entry;
  _ ← proc_remove taskgrpid_entry;
  _ ← proc_remove all_group_show_entry;
  _ ← proc_remove group_dir;
  _ ← proc_remove frame_load_dir;
  proc_remove miload_dir.

Definition migtgov_register (ret : Z) : M Z := acquire_ret ret RGovernor.
Definition migtgov_unregister : M unit := release RGovernor.

Record miload_env := MiloadEnv {
  e_misc : Z; e_proc : proc_entry -> bool; e_governor : Z
}.

Definition in_hooks {A} (m : MH A) : M A := zoom hooks set_hooks (fun r => r) m.

Definition err_misc (ret : Z) : M Z := _ ← release RMisc; mret ret.
Definition err_proc (ret : Z) : M Z := _ ← miload_proc_exit; err_misc ret.
Definition err_hooks (ret : Z) : M Z := _ ← in_hooks miload_unregister_hooks; err_proc ret.

Definition miloadtrace_init (env : miload_env) : M Z :=
  _ ← modify (fun s => set_vars (init_grp_freq_record (vars s)) s);
  ret ← acquire_ret (e_misc env) RMisc;
  if negb (ret =? 0) then mret ret else
  ret ← miload_proc_init (e_proc env);
  if negb (ret =? 0) then err_misc ret else
  ret ← in_hooks miload_register_hooks;
  if negb (ret =? 0) then err_proc ret else
  ret ← migtgov_register (e_governor env);
  if negb (ret =? 0) then err_hooks ret else
  mret 0.

(** The pending irq works are waited for after the governor is gone. *)
Definition miloadtrace_exit : M unit :=
  _ ← migtgov_unregister;
  _ ← in_hooks miload_unregister_hooks;
  _ ← miload_proc_exit;
  release RMisc.
End hooks.

(** ** Registering a list of callbacks, all or none *)

(** The callbacks in the order of the source. *)
Definition miload_callbacks : list (miload_hook * callback) := [
  (HkFravg, "mi_frame_load_ravg");
  (HkWaltUpdate, "skip_walt_window_update");
  (HkGroupChange, "grp_enq_boost_task");
  (HkMigrate, "migrate_inter_cluster_fload");
  (HkGroupNr, "mi_update_group_group");
  (HkFixFld, "fix_fload_in_irq");
  (HkUiTask, "grp_enq_boost_pipeline");
  (HkGlobalPeriod, "update_gloabal_target_period");
  (HkFreqUpdate, "group_frame_cpufreq_transition")
]%string.

Section hook_lemmas.
Context {HSt : Type} `{Registrar miload_hook HSt} `{!RegistrarLaws miload_hook HSt}.

(** Specification of the goto chain: register in order, and on a failure
    unregister what was registered, the latest first. *)
Fixpoint register_all (l : list (miload_hook * callback)) (s : HSt) : Z * HSt :=
  match l with
  | [] => (0, s)
  | (h, cb) :: l' =>
      let '(ret, s) := hk_register h (Some cb) s in
      if negb (ret =? 0) then (ret, s)
      else
        let '(ret, s) := register_all l' s in
        if negb (ret =? 0) then (ret, (hk_unregister h s).2) else (ret, s)
  end.

Fixpoint unregister_all (l : list miload_hook) (s : HSt) : HSt :=
  match l with
  | [] => s
  | h :: l' => unregister_all l' (hk_unregister h s).2
  end.

Lemma miload_register_hooks_eq s :
  miload_register_hooks s =
  let '(ret, s') := register_all miload_callbacks s in (ret, s', []).
Proof.
  unfold miload_register_hooks, miload_callbacks, err_freq, err_global, err_ui, err_fix,
    err_group_nr, err_migrate, err_group_change, err_walt, unreg, reg.
  cbn [register_all]. km_run.
  repeat (match goal with |- context [hk_register ?h ?cb ?s0] =>
      destruct (hk_register h cb s0) as [? ?] end;
    match goal with |- context [if ?r =? 0 then _ else _] =>
      destruct (r =? 0) eqn:? end);
    repeat match goal with
    | E : (?r =? 0) = _ |- _ => rewrite ?E; clear E
    | |- context [hk_unregister ?h ?s0] => destruct (hk_unregister h s0) as [? ?]; simpl
    end; try done.
Qed.

Lemma miload_unregister_hooks_eq s :
  miload_unregister_hooks s =
  ((), unregister_all (reverse miload_callbacks.*1) s, []).
Proof.
  change (reverse miload_callbacks.*1) with
    [HkFreqUpdate; HkGlobalPeriod; HkUiTask; HkFixFld; HkGroupNr; HkMigrate;
     HkGroupChange; HkWaltUpdate; HkFravg].
  unfold miload_unregister_hooks, unreg. cbn [unregister_all]. km_run.
  repeat match goal with |- context [hk_unregister ?h ?s0] =>
    destruct (hk_unregister h s0) as [? ?]; simpl end. done.
Qed.

(** What a registration leaves in an empty slot. *)
Lemma reg_empty h cb s :
  hk_slot h s = None -> (hk_register h (Some cb) s).1 = 0 ->
  hk_slot h (hk_register h (Some cb) s).2 = if hk_live h s then Some cb else None.
Proof.
  intros Hs Hr. destruct (hk_live h s) eqn:El; [by apply reg_ok|].
  destruct (reg_dead h (Some cb) s El) as [->| ->]; done.
Qed.

Lemma unreg_empties h s :
  hk_live h s = true \/ hk_slot h s = None -> hk_slot h (hk_unregister h s).2 = None.
Proof.
  intros Hor. destruct (hk_live h s) eqn:El; [by apply unreg_ok|].
  destruct Hor as [?|Hn]; [done|]. by destruct (unreg_dead h s El) as [->| ->].
Qed.

Lemma register_all_spec l s :
  NoDup l.*1 -> (forall h, h ∈ l.*1 -> hk_slot h s = None) ->
  let '(r, s') := register_all l s in
  (forall h, hk_live h s' = hk_live h s) /\
  (forall h, h ∉ l.*1 -> hk_slot h s' = hk_slot h s) /\
  (r <> 0 -> forall h, h ∈ l.*1 -> hk_slot h s' = None) /\
  (r = 0 -> forall h cb, (h, cb) ∈ l ->
     hk_slot h s' = if hk_live h s then Some cb else None).
Proof.
  revert s. induction l as [|[h cb] l IH]; intros s Hnd Hnone.
  { split_and!; [done|done|done|]. intros _ h cb Hin. by apply elem_of_nil in Hin. }
  apply NoDup_cons in Hnd as [Hh Hnd]. simpl in Hh, Hnone.
  pose proof (reg_live h) as Hlive. pose proof (reg_frame h) as Hframe.
  pose proof (reg_err h (Some cb) s) as Herr.
  pose proof (reg_empty h cb s (Hnone h ltac:(set_solver))) as Hempty.
  cbn [register_all]. specialize (fun h' => Hlive h' (Some cb) s).
  destruct (hk_register h (Some cb) s) as [r1 s1] eqn:E1. simpl in *.
  assert (forall h', hk_live h' s1 = hk_live h' s) as Hl1
    by (intros h'; pose proof (reg_live h h' (Some cb) s) as X; by rewrite E1 in X).
  assert (forall h', h <> h' -> hk_slot h' s1 = hk_slot h' s) as Hf1
    by (intros h' Hne; pose proof (reg_frame h h' (Some cb) s Hne) as X; by rewrite E1 in X).
  destruct (Z.eqb_spec r1 0) as [->|Hr1]; simpl.
  2:{ rewrite (Herr Hr1). split_and!; [done|done|by auto|done]. }
  specialize (Hempty eq_refl). specialize (IH s1 Hnd) as IHs.
  destruct (register_all l s1) as [r2 s2]. destruct IHs as (Hl2 & Hf2 & Hz2 & Ho2).
  { intros h' Hin. rewrite Hf1 by set_solver. apply Hnone. set_solver. }
  destruct (Z.eqb_spec r2 0) as [->|Hr2]; simpl; split_and!; try done.
  - intros h'. by rewrite Hl2.
  - intros h' Hin. rewrite Hf2, Hf1 by set_solver. done.
  - intros _ h' cb' Hin. apply elem_of_cons in Hin as [[= -> ->]|Hin].
    + by rewrite Hf2.
    + rewrite (Ho2 eq_refl h' cb' Hin). by rewrite Hl1.
  - intros h'. by rewrite unreg_live, Hl2.
  - intros h' Hin. rewrite unreg_frame, Hf2, Hf1 by set_solver. done.
  - intros _ h' Hin. apply elem_of_cons in Hin as [->|Hin].
    + apply unreg_empties. rewrite Hl2, Hl1, Hf2 by done.
      destruct (hk_live h s); [by left|by right].
    + rewrite unreg_frame by set_solver. by apply Hz2.
Qed.

Lemma unregister_all_spec l s :
  NoDup l ->
  (forall h, hk_live h (unregister_all l s) = hk_live h s) /\
  (forall h, h ∉ l -> hk_slot h (unregister_all l s) = hk_slot h s) /\
  (forall h, h ∈ l -> hk_live h s = true \/ hk_slot h s = None ->
     hk_slot h (unregister_all l s) = None).
Proof.
  revert s. induction l as [|h l IH]; intros s Hnd; simpl; [by split_and!; [| |intros ? ?%elem_of_nil]|].
  apply NoDup_cons in Hnd as [Hh Hnd].
  destruct (IH (hk_unregister h s).2 Hnd) as (Hl & Hf & Hn). split_and!.
  - intros h'. by rewrite Hl, unreg_live.
  - intros h' Hin. by rewrite Hf, unreg_frame by set_solver.
  - intros h' Hin Hor. destruct (decide (h = h')) as [<-|Hne].
    + rewrite Hf by done. by apply unreg_empties.
    + apply Hn; [set_solver|]. by rewrite unreg_live, unreg_frame by done.
Qed.

(** When no registration fails, what a slot holds in the end is decided by its
    own call, made in a state that agrees with the first one on the slot. *)
Lemma register_all_slot l s h cb :
  (forall h cb s, (hk_register h (Some cb) s).1 = 0) -> NoDup l.*1 -> (h, cb) ∈ l ->
  (register_all l s).1 = 0 /\
  exists s0, hk_live h s0 = hk_live h s /\ hk_slot h s0 = hk_slot h s /\
    hk_slot h (register_all l s).2 = hk_slot h (hk_register h (Some cb) s0).2.
Proof.
  intros Hall.
  assert (forall l s, (register_all l s).1 = 0 /\
    (NoDup l.*1 -> forall h, h ∉ l.*1 -> hk_slot h (register_all l s).2 = hk_slot h s)) as Hok.
  { clear l s h cb. induction l as [|[h cb] l IH]; intros s; [done|]. cbn [register_all].
    pose proof (Hall h cb s) as Hr. pose proof (reg_frame h) as Hf.
    specialize (fun h' => Hf h' (Some cb) s).
    destruct (hk_register h (Some cb) s) as [r s1]. simpl in Hr. subst r. cbn.
    destruct (IH s1) as [Hr IHf]. destruct (register_all l s1) as [r s2]. simpl in Hr.
    subst r. cbn. split; [done|]. intros [Hn Hnd]%NoDup_cons h' Hin.
    rewrite IHf by set_solver. apply Hf. set_solver. }
  intros Hnd Hin. split; [apply Hok|]. revert s Hnd Hin.
  induction l as [|[h1 cb1] l IH]; intros s Hnd Hin;
    [by apply elem_of_nil in Hin|]. apply NoDup_cons in Hnd as [Hn Hnd].
  cbn [register_all]. pose proof (Hall h1 cb1 s) as Hr.
  destruct (hk_register h1 (Some cb1) s) as [r s1] eqn:E1. simpl in Hr. subst r. cbn.
  pose proof (Hok l s1) as [Hr Hf]. specialize (Hf Hnd).
  apply elem_of_cons in Hin as [[= -> ->]|Hin].
  - exists s. destruct (register_all l s1) as [r s2]. simpl in Hr. subst r. cbn.
    rewrite E1. split_and!; [done|done|]. by apply Hf.
  - destruct (IH s1 Hnd Hin) as (s0 & Hl0 & Hs0 & He). exists s0.
    assert (h1 <> h) as Hne by (intros ->; apply Hn, list_elem_of_fmap; by exists (h, cb)).
    destruct (register_all l s1) as [r s2]. simpl in Hr. subst r. cbn in *.
    pose proof (reg_live h1 h (Some cb1) s) as Hl1.
    pose proof (reg_frame h1 h (Some cb1) s Hne) as Hs1. rewrite E1 in Hl1, Hs1.
    split_and!; [by rewrite Hl0|by rewrite Hs0|done].
Qed.

Lemma unregister_all_slot l s h :
  NoDup l -> h ∈ l ->
  exists s0, hk_live h s0 = hk_live h s /\ hk_slot h s0 = hk_slot h s /\
    hk_slot h (unregister_all l s) = hk_slot h (hk_unregister h s0).2.
Proof.
  revert s. induction l as [|h1 l IH]; intros s Hnd Hin;
    [by apply elem_of_nil in Hin|]. apply NoDup_cons in Hnd as [Hn Hnd].
  cbn [unregister_all]. destruct (decide (h = h1)) as [->|Hne].
  - exists s. split_and!; [done|done|].
    by apply (unregister_all_spec l (hk_unregister h1 s).2 Hnd).
  - destruct (IH (hk_unregister h1 s).2 Hnd) as (s0 & Hl0 & Hs0 & He); [set_solver|].
    exists s0. rewrite Hl0, Hs0, unreg_live, unreg_frame by done. by split_and!.
Qed.

Lemma miload_hooks_nodup : NoDup (miload_callbacks.*1).
Proof. apply (bool_decide_unpack _). by vm_compute. Qed.

Lemma miload_hooks_all h : h ∈ miload_callbacks.*1.
Proof. apply (bool_decide_unpack _). by destruct h. Qed.

(** The table the module starts from: none of its slots is taken. *)
Definition hooks_free (s : HSt) : Prop := forall h : miload_hook, hk_slot h s = None.

(** C16: registration is all or none, whatever the tables answer.  If one of
    the nine registrations fails, the ones made before are undone and every
    slot is empty again; if all succeed, every live slot holds its callback
    and the others stay empty; and unregistering after a success empties every
    slot, as long as no slot died in between. *)
Theorem miload_hooks_all_or_none s :
  hooks_free s ->
  let '(ret, s1, _) := miload_register_hooks s in
  let '(_, s2, _) := miload_unregister_hooks s1 in
  (ret <> 0 -> hooks_free s1) /\
  (ret = 0 -> forall h cb, (h, cb) ∈ miload_callbacks ->
     hk_slot h s1 = if hk_live h s then Some cb else None) /\
  (ret = 0 -> hooks_free s2) /\
  (forall h, hk_live h s2 = hk_live h s).
Proof.
  intros Hfree. rewrite miload_register_hooks_eq.
  pose proof (register_all_spec miload_callbacks s miload_hooks_nodup
    (fun h _ => Hfree h)) as Hr.
  destruct (register_all miload_callbacks s) as [ret s1].
  destruct Hr as (Hl & _ & Hz & Ho). rewrite miload_unregister_hooks_eq.
  assert (NoDup (reverse miload_callbacks.*1)) as Hnd
    by (rewrite reverse_Permutation; apply miload_hooks_nodup).
  destruct (unregister_all_spec (reverse miload_callbacks.*1) s1 Hnd) as (Hl2 & _ & Hn2).
  split_and!.
  - intros Hne h. apply Hz; [done|]. apply miload_hooks_all.
  - done.
  - intros Heq h. apply Hn2; [by apply elem_of_reverse, miload_hooks_all|].
    pose proof (miload_hooks_all h) as [[h' cb] [-> Hin]]%list_elem_of_fmap. simpl.
    rewrite Hl, (Ho Heq h' cb Hin). destruct (hk_live h' s); auto.
  - intros h. by rewrite Hl2, Hl.
Qed.
End hook_lemmas.

(** ** The module *)

Section module_lemmas.
Context {HSt : Type} `{Registrar miload_hook HSt} `{!RegistrarLaws miload_hook HSt}.

Definition entries : list proc_entry :=
  [miload_dir; frame_load_dir; group_dir; all_group_show_entry; taskgrpid_entry;
   usergrpid_entry].

(** The proc entries that exist, the latest first. *)
Definition proc_res (p : proc_entry -> bool) : list miload_res :=
  RProc <$> filter (fun e => p e = true) (reverse entries).

Lemma proc_res_none p : (forall e, p e = false) -> proc_res p = [].
Proof.
  intros Hp. unfold proc_res. induction (reverse entries) as [|e l IH]; [done|].
  rewrite filter_cons, decide_False by (by rewrite Hp). exact IH.
Qed.

Lemma miload_proc_init_spec ok (s : miload_state (HSt := HSt)) held :
  (forall e, procs s e = false) ->
  let '(ret, s', t) := miload_proc_init ok s in
  hooks s' = hooks s /\ vars s' = vars s /\
  (ret <> 0 -> forall e, procs s' e = false) /\
  replay t held = Some (proc_res (procs s') ++ held).
Proof.
  intros Hp. unfold miload_proc_init, proc_new, acquire_ptr.
  destruct (ok miload_dir) eqn:E.
  - destruct (ok frame_load_dir), (ok group_dir), (ok all_group_show_entry),
      (ok taskgrpid_entry), (ok usergrpid_entry); km_run; done.
  - km_run. assert (forall e, procs (set_proc miload_dir false s) e = false) as Hf.
    { intros e. simpl. destruct (decide (e = miload_dir)) as [->|Hne];
        [by rewrite fn_lookup_insert|by rewrite fn_lookup_insert_ne]. }
    split_and!; [done|done|done|]. by rewrite proc_res_none.
Qed.

Lemma miload_proc_exit_spec (s : miload_state (HSt := HSt)) held :
  let '(_, s', t) := miload_proc_exit s in
  s' = s /\ replay t (proc_res (procs s) ++ held) = Some held.
Proof.
  unfold miload_proc_exit, proc_remove, proc_res. cbn [reverse entries].
  change (reverse entries) with [usergrpid_entry; taskgrpid_entry; all_group_show_entry;
    group_dir; frame_load_dir; miload_dir]. km_run.
  destruct (procs s usergrpid_entry) eqn:E1, (procs s taskgrpid_entry) eqn:E2,
    (procs s all_group_show_entry) eqn:E3, (procs s group_dir) eqn:E4,
    (procs s frame_load_dir) eqn:E5, (procs s miload_dir) eqn:E6;
    cbn; rewrite ?E1, ?E2, ?E3, ?E4, ?E5, ?E6; cbn; by split.
Qed.

Lemma in_hooks_run {A} (m : km HSt miload_res A) (s : miload_state) a h :
  m (hooks s) = (a, h, []) -> in_hooks m s = (a, set_hooks h s, []).
Proof. intros Hm. unfold in_hooks, zoom. by rewrite Hm. Qed.

Lemma register_hooks_run s :
  hooks_free s ->
  exists ret s', miload_register_hooks s = (ret, s', []) /\
    (ret <> 0 -> hooks_free s') /\ (forall h, hk_live h s' = hk_live h s) /\
    (ret = 0 -> forall h cb, (h, cb) ∈ miload_callbacks ->
       hk_slot h s' = if hk_live h s then Some cb else None).
Proof.
  intros Hfree. rewrite miload_register_hooks_eq.
  pose proof (register_all_spec miload_callbacks s miload_hooks_nodup
    (fun h _ => Hfree h)) as Hr.
  destruct (register_all miload_callbacks s) as [ret s1].
  destruct Hr as (Hl & _ & Hz & Ho). do 2 eexists. split; [done|]. split_and!; [|done|done].
  intros Hne h. apply Hz; [done|]. apply miload_hooks_all.
Qed.

(** A table as a success leaves it can be emptied. *)
Definition hooks_cleanable (s : HSt) : Prop :=
  forall h : miload_hook, hk_live h s = true \/ hk_slot h s = None.

Lemma unregister_hooks_run s :
  hooks_cleanable s ->
  exists s', miload_unregister_hooks s = ((), s', []) /\ hooks_free s'.
Proof.
  intros Hc. rewrite miload_unregister_hooks_eq. eexists. split; [done|]. intros h.
  assert (NoDup (reverse miload_callbacks.*1)) as Hnd
    by (rewrite reverse_Permutation; apply miload_hooks_nodup).
  destruct (unregister_all_spec (reverse miload_callbacks.*1) s Hnd) as (_ & _ & Hn).
  apply Hn; [apply elem_of_reverse, miload_hooks_all|apply Hc].
Qed.

Lemma registered_cleanable s s' :
  (forall h, hk_live h s' = hk_live h s) ->
  (forall h cb, (h, cb) ∈ miload_callbacks ->
     hk_slot h s' = if hk_live h s then Some cb else None) -> hooks_cleanable s'.
Proof.
  intros Hl Ho h.
  pose proof (miload_hooks_all h) as [[h' cb] [-> Hin]]%list_elem_of_fmap. simpl.
  rewrite Hl, (Ho h' cb Hin). destruct (hk_live h' s); auto.
Qed.

Lemma err_proc_run ret (s : miload_state (HSt := HSt)) :
  let '(r, s', t) := err_proc ret s in
  r = ret /\ hooks s' = hooks s /\ replay t (proc_res (procs s) ++ [RMisc]) = Some [].
Proof.
  unfold err_proc, err_misc, release, mret, km_ret, mbind, km_bind.
  pose proof (miload_proc_exit_spec s [RMisc]) as Hx.
  destruct (miload_proc_exit s) as [[u s'] t]. destruct Hx as [-> Ht].
  split_and!; [done|done|]. rewrite (replay_app _ _ _ _ Ht). done.
Qed.

Lemma miloadtrace_exit_run (s : miload_state (HSt := HSt)) :
  hooks_cleanable (hooks s) ->
  let '(_, s', t) := miloadtrace_exit s in
  hooks_free (hooks s') /\ replay t (RGovernor :: proc_res (procs s) ++ [RMisc]) = Some [].
Proof.
  intros Hc. unfold miloadtrace_exit, migtgov_unregister, release, mbind, km_bind.
  destruct (unregister_hooks_run _ Hc) as (h & Hu & Hfree).
  rewrite (in_hooks_run _ _ _ _ Hu).
  pose proof (miload_proc_exit_spec (set_hooks h s) [RMisc]) as Hx.
  destruct (miload_proc_exit (set_hooks h s)) as [[u s'] t]. destruct Hx as [-> Ht].
  split; [done|]. cbn [app].
  assert (replay (t ++ [Rel RMisc]) (proc_res (procs (set_hooks h s)) ++ [RMisc]) = Some [])
    as Hr by (rewrite (replay_app _ _ _ _ Ht); done).
  apply (eq_trans (replay_release RGovernor _ [] _ (not_elem_of_nil _)) Hr).
Qed.

(** C15: the life of the module, against any hook tables that keep the
    interface.  A failing init, whatever fails, leaves no device, proc entry
    or governor held and every hook slot empty; after a successful init the
    exit function releases everything the module holds exactly once and
    empties every slot. *)
Theorem miload_init_exit env (s : miload_state (HSt := HSt)) :
  (forall e, procs s e = false) -> hooks_free (hooks s) ->
  let '(ret, s1, t1) := miloadtrace_init env s in
  let '(_, s2, t2) := miloadtrace_exit s1 in
  (ret <> 0 -> replay t1 [] = Some [] /\ hooks_free (hooks s1)) /\
  (ret = 0 -> replay (t1 ++ t2) [] = Some [] /\ hooks_free (hooks s2)).
Proof.
  intros Hp Hfree. unfold miloadtrace_init, acquire_ret, modify, acquire, mret, km_ret,
    mbind, km_bind, err_misc, err_proc, err_hooks, migtgov_register, acquire_ret, release.
  destruct (Z.eqb_spec (e_misc env) 0) as [->|Hm]; cbv beta iota delta [negb].
  2:{ rewrite (proj2 (Z.eqb_neq (e_misc env) 0) Hm). cbv beta iota.
      destruct (miloadtrace_exit _) as [[u s2] t2]. by split. }
  cbn [Z.eqb].
  set (s0 := set_vars _ s).
  pose proof (miload_proc_init_spec (e_proc env) s0 [RMisc] Hp) as Hproc.
  destruct (miload_proc_init (e_proc env) s0) as [[r1 s1] t1].
  destruct Hproc as (Hh1 & _ & Hz1 & Ht1).
  assert (hooks_free (hooks s1)) as Hfree1 by (by rewrite Hh1). cbn [app].
  destruct (Z.eqb_spec r1 0) as [->|Hr1]; cbv beta iota delta [negb].
  2:{ rewrite (proc_res_none _ (Hz1 Hr1)) in Ht1. cbv beta iota delta [mbind km_bind mret km_ret].
      destruct (miloadtrace_exit _) as [[u s2] t2]. split; [intros _|done]. split; [|done].
      apply (eq_trans (replay_app _ _ [RMisc] _ Ht1)). done. }
  destruct (register_hooks_run _ Hfree1) as (r2 & h2 & Hreg & Hz2 & Hl2 & Ho2).
  rewrite (in_hooks_run _ _ _ _ Hreg).
  destruct (Z.eqb_spec r2 0) as [->|Hr2]; cbv beta iota delta [negb].
  2:{ pose proof (err_proc_run r2 (set_hooks h2 s1)) as He.
      unfold err_proc, mbind, km_bind in He |- *.
      destruct (miload_proc_exit (set_hooks h2 s1)) as [[u3 s3] t3].
      destruct (err_misc r2 s3) as [[r4 s4] t4]. destruct He as (-> & Hh4 & Ht4).
      destruct (miloadtrace_exit s4) as [[u s5] t5]. split; [intros _|done].
      rewrite Hh4. split; [|by apply Hz2].
      apply (eq_trans (replay_app _ _ [RMisc] _ Ht1)). exact Ht4. }
  pose proof (registered_cleanable _ _ Hl2 (Ho2 eq_refl)) as Hclean.
  destruct (Z.eqb_spec (e_governor env) 0) as [Hg|Hg];
    cbv beta iota delta [mbind km_bind mret km_ret acquire negb].
  - rewrite Hg. cbn [Z.eqb app].
    pose proof (miloadtrace_exit_run (set_hooks h2 s1) Hclean) as Hx.
    destruct (miloadtrace_exit (set_hooks h2 s1)) as [[u s2] t2]. destruct Hx as [Hf2 Ht2].
    split; [done|]. intros _. split; [|done]. rewrite <- app_assoc.
    apply (eq_trans (replay_app _ _ [RMisc] _ Ht1)). exact Ht2.
  - rewrite (proj2 (Z.eqb_neq (e_governor env) 0) Hg). cbv beta iota.
    destruct (unregister_hooks_run _ Hclean) as (h3 & Hu & Hfree3).
    rewrite (in_hooks_run _ (set_hooks h2 s1) _ _ Hu). change (set_hooks h3 (set_hooks h2 s1)) with (set_hooks h3 s1).
    pose proof (err_proc_run (e_governor env) (set_hooks h3 s1)) as He.
    destruct (err_proc (e_governor env) (set_hooks h3 s1)) as [[r4 s4] t4].
    destruct He as (-> & Hh4 & Ht4). destruct (miloadtrace_exit s4) as [[u s5] t5].
    split; [intros _|done]. rewrite Hh4. split; [|done]. cbn [app].
    apply (eq_trans (replay_app _ _ [RMisc] _ Ht1)). exact Ht4.
Qed.
End module_lemmas.

(** ** The tables of the other modules *)

(** The modules miloadtrace depends on, and the slot of each callback. *)
Abbreviation all_hooks := (xiaomi_hook + (metis_pair + sched_hook))%type.
Abbreviation all_tables := (xiaomi_state * (metis_state * sched_state))%type.

Definition ui_task_detect_pair : metis_pair := dexist ui_task_detect_ptr eq_refl.

Definition miload_slot (h : miload_hook) : all_hooks :=
  match h with
  | HkFravg => inl mi_update_fravg_f
  | HkWaltUpdate => inl walt_window_update_hooks
  | HkGroupChange => inr (inr task_group_change_update_hook)
  | HkMigrate => inl mi_migrate_fload_hooks
  | HkGroupNr => inl mi_update_group_nr
  | HkFixFld => inl mi_migarte_fix_fld_hooks
  | HkUiTask => inr (inl ui_task_detect_pair)
  | HkGlobalPeriod => inr (inr mi_update_global_period_hook)
  | HkFreqUpdate => inl mi_run_frequpdate_hooks
  end.

#[local] Instance miload_tables : Registrar miload_hook all_tables := map_registrar miload_slot.
#[local] Instance miload_tables_laws : RegistrarLaws miload_hook all_tables.
Proof. apply (map_registrar_laws miload_slot). intros h h'. by destruct h, h'. Qed.

(** The tables as the modules are loaded, with the values of the two
    parameters. *)
Definition tables (walt_enable safe_boot : bool) : all_tables :=
  (XiaomiState walt_enable false (fun _ => None),
   (MetisState safe_boot (fun _ => None), sched_initial)).

Lemma tables_free w sb : hooks_free (tables w sb).
Proof. by intros []. Qed.

(** What loading miloadtrace achieves.  For both values of both
    parameters all nine registrations report success; but the slots that end up with a
    callback are those of the enabled tables only.  With the defaults
    (xiaomi_walt_hooks_enable clear, metis_safe_boot set) these are just the
    two of mi_schedule: seven of the nine callbacks are never called. *)
Theorem registration_by_parameters walt_enable safe_boot :
  let '(ret, s, _) := miload_register_hooks (tables walt_enable safe_boot) in
  ret = 0 /\
  forall h cb, (h, cb) ∈ miload_callbacks ->
    hk_slot h s =
    match miload_slot h with
    | inl _ => if walt_enable then Some cb else None
    | inr (inl _) => if safe_boot then None else Some cb
    | inr (inr _) => Some cb
    end.
Proof.
  pose proof (register_hooks_run (tables walt_enable safe_boot)
    (tables_free walt_enable safe_boot)) as (ret & s & Hrun & _ & _ & Ho).
  assert (ret = 0) as ->.
  { replace ret with (miload_register_hooks (tables walt_enable safe_boot)).1.1
      by (by rewrite Hrun). destruct walt_enable, safe_boot; by vm_compute. }
  rewrite Hrun. split; [done|]. intros h cb Hin. rewrite (Ho eq_refl h cb Hin).
  destruct h, walt_enable, safe_boot; done.
Qed.

(** Registering reports success in every table and for every parameter value,
    and what it leaves in a slot is: the callback in a live slot; the old value
    in a slot of metis under safe boot; nothing in a slot of xiaomi_hooks that
    is not enabled. *)
Lemma tables_register h cb (s : all_tables) :
  (hk_register h (Some cb) s).1 = 0 /\
  hk_slot h (hk_register h (Some cb) s).2 =
    match miload_slot h with
    | inl _ => if xiaomi_walt_hooks_enable s.1 then Some cb else None
    | inr (inl _) => if metis_safe_boot s.2.1 then hk_slot h s else Some cb
    | inr (inr _) => Some cb
    end.
Proof.
  destruct s as [[w wd xs] [[sb ms] sc]]. destruct h, w, sb; cbn;
    by rewrite ?fn_lookup_insert.
Qed.

(** Unregistering clears the slot, except one of metis under safe boot. *)
Lemma tables_unregister h (s : all_tables) :
  (hk_unregister h s).1 = 0 /\
  hk_slot h (hk_unregister h s).2 =
    if (if miload_slot h is inr (inl _) then metis_safe_boot s.2.1 else false)
    then hk_slot h s else None.
Proof.
  destruct s as [[w wd xs] [[sb ms] sc]]. destruct h, w, sb; cbn;
    by rewrite ?fn_lookup_insert.
Qed.

Lemma tables_live h (s : all_tables) :
  hk_live h s =
  match miload_slot h with
  | inl _ => xiaomi_walt_hooks_enable s.1
  | inr (inl _) => negb (metis_safe_boot s.2.1)
  | inr (inr _) => true
  end.
Proof. by destruct h. Qed.

(** C40: the callback that unloading leaves behind.  Whatever the tables of
    the three modules hold and whatever their parameters are when the nine
    callbacks of miloadtrace are registered, registration reports success.
    Let [s'] be any later state of the tables in which the nine slots hold
    what registration left in them, the parameters being arbitrary, since both
    can be written at any time.  Unregistering from [s'] reports success for
    every slot and empties all of them but one: under safe boot the slot
    ui_task_detect of metis keeps what it holds, and this is the callback of
    the unloaded module if safe boot was clear at registration. *)
Theorem safe_boot_keeps_callback (s s' : all_tables) :
  let '(ret, s1, _) := miload_register_hooks s in
  (forall h : miload_hook, hk_slot h s' = hk_slot h s1) ->
  let '(_, s2, _) := miload_unregister_hooks s' in
  ret = 0 /\
  forall h : miload_hook, (hk_unregister h s').1 = 0 /\
    hk_slot h s2 =
      if decide (h = HkUiTask /\ metis_safe_boot s'.2.1 = true)
      then (if metis_safe_boot s.2.1 then hk_slot HkUiTask s
            else Some "grp_enq_boost_pipeline"%string)
      else None.
Proof.
  rewrite miload_register_hooks_eq.
  pose proof (fun h cb => register_all_slot miload_callbacks s h cb
    (fun h cb s => proj1 (tables_register h cb s)) miload_hooks_nodup) as Hreg.
  destruct (register_all miload_callbacks s) as [ret s1] eqn:Er. intros Hsame.
  rewrite miload_unregister_hooks_eq.
  split. { destruct (Hreg HkFravg "mi_frame_load_ravg"%string) as [Hr _]; [set_solver|done]. }
  intros h. split; [apply tables_unregister|].
  destruct (unregister_all_slot (reverse miload_callbacks.*1) s' h) as (s0 & Hl0 & Hs0 & ->).
  { rewrite reverse_Permutation. apply miload_hooks_nodup. }
  { apply elem_of_reverse, miload_hooks_all. }
  destruct (tables_unregister h s0) as [_ ->]. rewrite Hs0. rewrite !tables_live in Hl0.
  destruct (decide (h = HkUiTask /\ _)) as [[-> Hsb]|Hno].
  - cbn [miload_slot] in *. rewrite Hsb in Hl0.
    replace (metis_safe_boot s0.2.1) with true by (by destruct (metis_safe_boot s0.2.1)).
    refine (eq_trans (Hsame HkUiTask) _).
    destruct (Hreg HkUiTask "grp_enq_boost_pipeline"%string) as (_ & s3 & Hl3 & Hs3 & He);
      [set_solver|]. refine (eq_trans He _).
    destruct (tables_register HkUiTask "grp_enq_boost_pipeline"%string s3) as [_ ->].
    cbn [miload_slot]. rewrite !tables_live in Hl3. cbn [miload_slot] in Hl3. rewrite Hs3.
    by destruct (metis_safe_boot s3.2.1), (metis_safe_boot s.2.1).
  - destruct h; try done. cbn [miload_slot] in *.
    destruct (metis_safe_boot s'.2.1); [by destruct Hno|].
    by destruct (metis_safe_boot s0.2.1).
Qed.

(** ** Variables and files *)

Section files_properties.
Context `{KText}.

(** The frame rate.  The write interface ignores a rate of 0, the module
    parameter stores it, and both refuse malformed input without effect; a
    rate that is set is read back in decimal; and the divisor for rate 0 is
    that of the current rate, with 60 in place of an unset one. *)
Theorem fps_spec v data val page :
  (update_frame_fps v <> 0 -> forall size,
     update_frame_fps (mi_frame_ioctl v data size).2 <> 0) /\
  (forall size, (mi_frame_ioctl v data size).1 < 0 -> (mi_frame_ioctl v data size).2 = v) /\
  ((set_update_fps v val).1 <> 0 -> (set_update_fps v val).2 = v) /\
  (forall f, in_u32 f -> length page = PAGE_SIZE ->
     let v' := (set_update_fps v (fmt_u f ++ [NL] ++ [NUL])).2 in
     exists rest, get_update_fps v' page =
       (Z.of_nat (length (fmt_u f ++ [NL])), (fmt_u f ++ [NL]) ++ NUL :: rest)) /\
  (forall f, find_cal_divisor v f ∈ [2; 3; 4; 6]) /\
  find_cal_divisor v 0 =
    find_cal_divisor v (if update_frame_fps v =? 0 then 60 else update_frame_fps v) /\
  (forall f g, 0 < f <= g -> find_cal_divisor v g <= find_cal_divisor v f).
Proof.
  split_and!.
  - intros Hv size. unfold mi_frame_ioctl. destruct (negb _); [done|].
    destruct data as [d|]; [|done]. simpl. destruct (Z.eqb_spec (fps d) 0); done.
  - intros size. unfold mi_frame_ioctl. destruct (negb _); [done|].
    destruct data as [d|]; [|done]. simpl. unfold sizeof_mi_load_data. lia.
  - unfold set_update_fps. by destruct (kstrtouint (cstr val)).
  - intros f Hf Hp. unfold set_update_fps. rewrite app_assoc, cstr_app_nul.
    + rewrite kstrtouint_fmt_nl by done. apply show_text_page; [done|].
      rewrite length_app. cbn [length]. pose proof (length_fmt_u f).
      pose proof PAGE_SIZE_big. lia.
    + rewrite not_elem_of_app, list_elem_of_singleton.
      split; [apply fmt_u_no_nul; klia|done].
  - intros f. unfold find_cal_divisor. repeat case_match; set_solver.
  - unfold find_cal_divisor. simpl.
    destruct (Z.eqb_spec (update_frame_fps v) 0) as [E|E]; [done|].
    by rewrite (proj2 (Z.eqb_neq _ _) E).
  - intros f g Hfg. unfold find_cal_divisor.
    replace (f =? 0) with false by lia. replace (g =? 0) with false by lia.
    repeat case_match; lia.
Qed.

(** The local buffer of the two proc writes is never overrun. *)
Lemma grp_id_write_safe buf ubuf count :
  length buf = 32%nat -> exists r, grp_id_write buf ubuf count = Some r /\
    (r.1 = Z.of_nat count <-> (count < 32)%nat /\ is_Some ubuf).
Proof.
  intros Hl. unfold grp_id_write. rewrite Hl.
  destruct (32 <=? count)%nat eqn:E.
  { eexists. split; [done|]. unfold EINVAL. simpl. lia. }
  destruct ubuf as [u|]; [|eexists; split; [done|]; unfold EFAULT; simpl;
    split; [lia|intros [_ []%is_Some_None]]].
  destruct (lookup_lt_is_Some_2 (memcpy buf 0 (take count u)) count) as [c Hc].
  { unfold memcpy. rewrite length_inserts. lia. }
  rewrite Hc. simpl. eexists. split; [done|]. simpl. split; [|done]. intros _.
  split; [lia|by eexists].
Qed.
End files_properties.

(** ** The governor: its data is allocated completely or not at all, and
    given back on exit *)
Lemma governor_balanced mg_ok tun_ok s :
  governor_data s = false ->
  let '(ret, s1, t1) := cpu_gov_init mg_ok tun_ok s in
  let '(_, s2, t2) := cpu_gov_exit s1 in
  governor_data s1 = (ret =? 0) /\ governor_data s2 = false /\
  replay_lifo (t1 ++ t2) [] = Some [].
Proof.
  intros Hs. unfold cpu_gov_init, cpu_gov_exit, acquire_ptr. destruct s as [g t m v].
  simpl in Hs. subst g. destruct mg_ok, tun_ok; km_run; by split_and!.
Qed.

(** The recorded maximum never decreases and no access leaves the array. *)
Lemma update_freq_record_spec v cpu freq :
  length (mi_maxfreq v) = 8%nat -> 0 <= cpu ->
  exists v', update_freq_record v cpu freq = Some v' /\ length (mi_maxfreq v') = 8%nat /\
    forall i x y, mi_maxfreq v !! i = Some x -> mi_maxfreq v' !! i = Some y -> x <= y.
Proof.
  intros Hl Hc. unfold update_freq_record, MILOAD_MAX_CPUS.
  destruct (Z.ltb_spec cpu 8); [|exists v; split_and!; [done|done|]; intros; simplify_eq; lia].
  destruct (lookup_lt_is_Some_2 (mi_maxfreq v) (Z.to_nat cpu)) as [old Ho]; [lia|].
  rewrite Ho. simpl. eexists. split; [done|]. simpl. split; [by rewrite length_insert|].
  intros i x y Hx Hy. destruct (decide (i = Z.to_nat cpu)) as [->|Hne].
  - rewrite list_lookup_insert_eq in Hy by lia. simplify_eq. lia.
  - rewrite list_lookup_insert_ne in Hy by done. simplify_eq. lia.
Qed.

(** ** Witnesses *)

Lemma miload_hooks_all_or_none_witness :
  let r1 := miload_register_hooks (tables true false) in
  let r2 := miload_unregister_hooks r1.1.2 in
  (r1.1.1 <> 0 -> hooks_free r1.1.2) /\
  (r1.1.1 = 0 -> forall h cb, (h, cb) ∈ miload_callbacks ->
     hk_slot h r1.1.2 = if hk_live h (tables true false) then Some cb else None) /\
  (r1.1.1 = 0 -> hooks_free r2.1.2) /\
  (forall h, hk_live h r2.1.2 = hk_live h (tables true false)).
Proof.
  intros r1 r2. pose proof (miload_hooks_all_or_none (tables true false)
    (tables_free true false)) as Hw.
  fold r1 in Hw. subst r2. destruct r1 as [[ret s1] t1]. cbn [fst snd] in *.
  destruct (miload_unregister_hooks s1) as [[u s2] t2]. exact Hw.
Defined.

(** The governor cannot be registered: everything is undone. *)
Definition example_miload : miload_state (HSt := all_tables) :=
  MiloadState (fun _ => false) (tables true false) miload_vars_init.

Lemma miload_init_exit_witness :
  let r1 := miloadtrace_init (MiloadEnv 0 (fun _ => true) (- EINVAL)) example_miload in
  r1.1.1 = - EINVAL /\ replay r1.2 [] = Some [] /\ hooks_free (hooks r1.1.2).
Proof.
  intros r1. assert (r1.1.1 = - EINVAL) as Hr by (by vm_compute). split; [done|].
  pose proof (miload_init_exit (MiloadEnv 0 (fun _ => true) (- EINVAL)) example_miload
    ltac:(done) (tables_free true false)) as Hw.
  fold r1 in Hw. destruct r1 as [[ret s1] t1]. cbn [fst snd] in *.
  destruct (miloadtrace_exit s1) as [[u s2] t2]. apply Hw. by rewrite Hr.
Defined.

(** The table of xiaomi_hooks enabled and safe boot clear when miloadtrace is
    loaded; before it is unloaded both parameters are written. *)
Definition set_params (walt_enable safe_boot : bool) (s : all_tables) : all_tables :=
  (XiaomiState walt_enable (xiaomi_walt_hooks_warned s.1) (xiaomi_slots s.1),
   (MetisState safe_boot (metis_slots s.2.1), s.2.2)).

Lemma safe_boot_keeps_callback_witness :
  let s1 := (miload_register_hooks (tables true false)).1.2 in
  let s2 := (miload_unregister_hooks (set_params false true s1)).1.2 in
  (forall h : miload_hook, hk_slot h (set_params false true s1) = hk_slot h s1) /\
  hk_slot HkUiTask s2 = Some "grp_enq_boost_pipeline"%string /\
  hk_slot HkFravg s1 = Some "mi_frame_load_ravg"%string /\ hk_slot HkFravg s2 = None.
Proof.
  intros s1 s2.
  assert (forall h : miload_hook, hk_slot h (set_params false true s1) = hk_slot h s1) as Hs
    by (intros h; by destruct h).
  pose proof (safe_boot_keeps_callback (tables true false) (set_params false true s1)) as Hw.
  subst s1 s2. destruct (miload_register_hooks (tables true false)) as [[r s1] t1] eqn:Er.
  cbn [fst snd] in *. specialize (Hw Hs).
  destruct (miload_unregister_hooks (set_params false true s1)) as [[u s2] t2].
  destruct Hw as [_ Hw]. split; [exact Hs|]. split; [apply (Hw HkUiTask)|]. split; [|apply (Hw HkFravg)].
  replace s1 with (miload_register_hooks (tables true false)).1.2 by (by rewrite Er).
  by vm_compute.
Defined.
