(* ===== verification/MiFiles.v ===== *)
(** * MiFiles: the files, callbacks and events of miloadtrace/miloadtrace.c

    Everything that can happen to the module between its loading and its
    unloading, as one step function: writes to the misc device and the proc
    files, the nine callbacks other modules call, the exported functions, the
    irq work, the limits of the governor, and writes to the five parameters
    whose variables these functions use: update_frame_fps, flw_debug and the
    arrays util_boost_percent, mi_maxfreq and mi_minfreq.  No function reads
    the other parameters.  The state after any history is read off the
    history and the values the module was loaded with. *)

From S2P Require Import Prelude KText KTextRef ThermalAttr HookIface ApiIface MiLoad.

(** The variables, the parameter flw_debug, and the lines logged. *)
Record mi_files := MiFilesState { vars : miload_vars; flw_debug : Z; klog : list bytes }.

(** The values of the parameters when the init function runs. *)
Record mi_load_args := MiLoadArgs {
  arg_fps : Z; arg_debug : Z; arg_boost : list Z; arg_maxfreq : list Z; arg_minfreq : list Z
}.

Definition mi_files_loaded (a : mi_load_args) : mi_files :=
  MiFilesState (init_grp_freq_record
    (MiloadVars (arg_fps a) false (arg_boost a) (arg_maxfreq a) (arg_minfreq a) 0 0))
    (arg_debug a) [].

Definition with_vars (f : miload_vars -> miload_vars) (s : mi_files) : mi_files :=
  MiFilesState (f (vars s)) (flw_debug s) (klog s).

(** Prints its line when flw_debug is set. *)
Definition miload_debug (line : bytes) (s : mi_files) : mi_files :=
  if flw_debug s =? 0 then s else MiFilesState (vars s) (flw_debug s) (klog s ++ [line]).

(** ** The callbacks and exported functions *)

Definition transfer_APP_status (pid status : Z) : mi_files -> mi_files :=
  miload_debug (bs "pid" ++ fmt_d pid ++ bs " status" ++ fmt_d status ++ [NL]).
Definition mi_frame_load_ravg : mi_files -> mi_files :=
  miload_debug (bs "mi_frame_load_ravg" ++ [NL]).
Definition group_frame_cpufreq_transition : mi_files -> mi_files :=
  miload_debug (bs "group_frame_cpufreq_transition" ++ [NL]).
Definition migrate_inter_cluster_fload : mi_files -> mi_files :=
  miload_debug (bs "migrate inter cluster frame load" ++ [NL]).
Definition mi_update_group_group : mi_files -> mi_files :=
  miload_debug (bs "mi_update_group_group" ++ [NL]).
Definition fix_fload_in_irq : mi_files -> mi_files :=
  miload_debug (bs "fix_fload_in_irq" ++ [NL]).
Definition grp_enq_boost_task : mi_files -> mi_files :=
  miload_debug (bs "grp_enq_boost_task" ++ [NL]).
Definition grp_enq_boost_pipeline : mi_files -> mi_files :=
  miload_debug (bs "grp_enq_boost_pipeline" ++ [NL]).
Definition update_gloabal_target_period : mi_files -> mi_files :=
  miload_debug (bs "update global target period" ++ [NL]).

(** The code behind the names under which callbacks are registered. *)
Definition callback_code (cb : callback) : option (mi_files -> mi_files) :=
  assoc cb [
    ("mi_frame_load_ravg", mi_frame_load_ravg);
    ("skip_walt_window_update", with_vars skip_walt_window_update);
    ("grp_enq_boost_task", grp_enq_boost_task);
    ("migrate_inter_cluster_fload", migrate_inter_cluster_fload);
    ("mi_update_group_group", mi_update_group_group);
    ("fix_fload_in_irq", fix_fload_in_irq);
    ("grp_enq_boost_pipeline", grp_enq_boost_pipeline);
    ("update_gloabal_target_period", update_gloabal_target_period);
    ("group_frame_cpufreq_transition", group_frame_cpufreq_transition)
  ]%string.

(** A module that finds the callback of the slot [h] calls it. *)
Definition call_hook (h : miload_hook) (s : mi_files) : option mi_files :=
  '(_, cb) ← List.find (fun p => bool_decide (p.1 = h)) miload_callbacks;
  f ← callback_code cb; Some (f s).

(** ** Events *)

(** The array parameters. *)
Inductive mi_array := UtilBoostPercent | MiMaxfreq | MiMinfreq.
#[global] Instance mi_array_eq_dec : EqDecision mi_array.
Proof. solve_decision. Defined.

(** [EvFps], [EvDebug]: writes to the parameters update_frame_fps and
    flw_debug.  [EvArray a vals]: a write to an array parameter; [vals] are the
    elements the kernel stores, from the first one on, before the text ends or
    is refused.  [stack]: the uninitialised local buffer of a write. *)
Inductive mi_event :=
| EvFps (fps : Z)
| EvDebug (level : Z)
| EvArray (a : mi_array) (vals : list Z)
| EvFrame (user : option mi_load_data) (size : Z)
| EvTaskGrp (stack : bytes) (ubuf : option bytes) (count : nat)
| EvUserGrp (stack : bytes) (ubuf : option bytes) (count : nat)
| EvHook (h : miload_hook)
| EvStatus (pid status : Z)
| EvGroupUtil (cid grp_id : Z)
| EvIrqWork (now : Z)
| EvLimits (policy : option (Z * Z)).

(** The elements after the array are not written. *)
Definition store_array (a : mi_array) (vals : list Z) (v : miload_vars) : miload_vars :=
  let boost := util_boost_percent v in
  let mx := mi_maxfreq v in
  let mn := mi_minfreq v in
  MiloadVars (update_frame_fps v) (skip_walt_result v)
    (if decide (a = UtilBoostPercent) then list_inserts 0 vals boost else boost)
    (if decide (a = MiMaxfreq) then list_inserts 0 vals mx else mx)
    (if decide (a = MiMinfreq) then list_inserts 0 vals mn else mn)
    (flw_work_in_process v) (flw_irq_work_lastq_ws v).

Section step.
Context `{KText}.

(** [mi_frame_ioctl] with its log line. *)
Definition frame_write (user : option mi_load_data) (size : Z) (s : mi_files) : Z * mi_files :=
  let '(ret, v) := mi_frame_ioctl (vars s) user size in
  let s := match user with
           | Some d => if ret =? sizeof_mi_load_data
               then miload_debug (bs "ioctl-cmd" ++ fmt_u (cmd d) ++ bs ",pid" ++ fmt_d (pid d) ++
                      bs " fps" ++ fmt_u (fps d) ++ [NL]) s
               else s
           | None => s
           end in
  (ret, with_vars (fun _ => v) s).

(** The two proc writes; [what] is "pid" or "uid". *)
Definition grp_write (what stack : bytes) (ubuf : option bytes) (count : nat) (s : mi_files)
  : option (Z * mi_files) :=
  '(ret, id) ← grp_id_write stack ubuf count;
  Some (ret, match id with
             | Some id => miload_debug (bs "traced " ++ what ++ bs " " ++ fmt_d id ++ [NL]) s
             | None => s
             end).

(** [get_group_util] with its log line. *)
Definition group_util (cid grp_id : Z) (s : mi_files) : option (Z * mi_files) :=
  boost ← get_group_util (vars s) cid grp_id;
  Some (boost, miload_debug (bs "flw-cluster" ++ fmt_d cid ++ bs ", grp-id" ++ fmt_d grp_id ++
                 bs ", util boost " ++ fmt_u boost ++ [NL]) s).

(** The result, 0 for functions that return nothing; [None] is an access
    outside an array. *)
Definition mi_step (e : mi_event) (s : mi_files) : option (Z * mi_files) :=
  match e with
  | EvFps fps => Some (0, with_vars (set_fps fps) s)
  | EvDebug level => Some (0, MiFilesState (vars s) level (klog s))
  | EvArray a vals => Some (0, with_vars (store_array a vals) s)
  | EvFrame user size => Some (frame_write user size s)
  | EvTaskGrp stack ubuf count => grp_write (bs "pid") stack ubuf count s
  | EvUserGrp stack ubuf count => grp_write (bs "uid") stack ubuf count s
  | EvHook h => pair 0 <$> call_hook h s
  | EvStatus pid status => Some (0, transfer_APP_status pid status s)
  | EvGroupUtil cid grp_id => group_util cid grp_id s
  | EvIrqWork now => Some (0, with_vars (flw_irq_work now) s)
  | EvLimits policy =>
      v ← cpu_gov_limits policy (vars s); Some (0, with_vars (fun _ => v) s)
  end.

Fixpoint mi_run (es : list mi_event) (s : mi_files) : option (list Z * mi_files) :=
  match es with
  | [] => Some ([], s)
  | e :: es' =>
      '(r, s1) ← mi_step e s;
      '(rs, s2) ← mi_run es' s1;
      Some (r :: rs, s2)
  end.

(** The open functions hand their show function to [single_open]; what they
    give here is the text a read then returns. *)
Definition all_group_show_open (s : mi_files) : bytes := all_group_show (vars s).
Definition task_grp_id_open (s : mi_files) : bytes := task_grp_id_show.
Definition user_grp_id_open (s : mi_files) : bytes := user_grp_id_show.

Definition proc_read (e : proc_entry) (s : mi_files) : option bytes :=
  match e with
  | all_group_show_entry => Some (all_group_show_open s)
  | taskgrpid_entry => Some (task_grp_id_open s)
  | usergrpid_entry => Some (user_grp_id_open s)
  | _ => None
  end.
End step.

(** ** What a history says *)

Definition event_ok (e : mi_event) : Prop :=
  match e with
  | EvFps n | EvDebug n => in_u32 n
  | EvArray _ vals => Forall in_u32 vals
  | EvFrame (Some d) _ => in_u32 (fps d)
  | EvTaskGrp stack _ _ | EvUserGrp stack _ _ => length stack = 32%nat
  | EvLimits (Some (cpu, cur)) => in_u32 cpu /\ in_u32 cur
  | _ => True
  end.

Definition args_ok (a : mi_load_args) : Prop :=
  in_u32 (arg_fps a) /\ in_u32 (arg_debug a) /\ length (arg_boost a) = 4%nat.

Definition frame_rate_set (e : mi_event) : option Z :=
  match e with
  | EvFps n => Some n
  | EvFrame (Some d) size =>
      if (size =? sizeof_mi_load_data) && negb (fps d =? 0) then Some (fps d) else None
  | _ => None
  end.
Definition debug_set (e : mi_event) : option Z :=
  match e with EvDebug n => Some n | _ => None end.
Definition irq_time (e : mi_event) : option Z :=
  match e with EvIrqWork now => Some now | _ => None end.
Definition entry_set (a : mi_array) (i : Z) (e : mi_event) : option Z :=
  match e with
  | EvArray a' vals => if decide (a = a') then vals !! Z.to_nat i else None
  | _ => None
  end.
Definition limit_at (cpu : Z) (e : mi_event) : option Z :=
  match e with
  | EvLimits (Some (c, cur)) => if c =? cpu then Some cur else None
  | _ => None
  end.
Definition walt_update (e : mi_event) : bool :=
  match e with EvHook HkWaltUpdate => true | _ => false end.

(** The last value set. *)
Definition last_set (d : Z) (f : mi_event -> option Z) (es : list mi_event) : Z :=
  default d (last (omap f es)).

(** The record of a CPU: a write to mi_maxfreq replaces it, a limit raises it. *)
Definition next_record (cpu : Z) (old : Z) (e : mi_event) : Z :=
  match entry_set MiMaxfreq cpu e, limit_at cpu e with
  | Some x, _ => x
  | None, Some freq => Z.max old freq
  | None, None => old
  end.
Definition freq_record (cpu : Z) (es : list mi_event) : Z := foldl (next_record cpu) 0 es.

(** The boost of a cluster: the last one set, or that of loading. *)
Definition boost_of (a : mi_load_args) (cid : Z) (es : list mi_event) : Z :=
  last_set (nth (Z.to_nat cid) (arg_boost a) 0) (entry_set UtilBoostPercent cid) es.

(** An array by its entries. *)
Definition entries_of (n : Z) (f : Z -> Z) : list Z := f <$> seqZ 0 n.

Lemma entries_of_ext n f g : (forall i, 0 <= i < n -> f i = g i) -> entries_of n f = entries_of n g.
Proof. intros He. apply list_fmap_ext. intros k i Hi%lookup_seqZ. apply He. lia. Qed.

Lemma entries_of_lookup n f i : 0 <= i < n -> entries_of n f !! Z.to_nat i = Some (f i).
Proof.
  intros Hi. unfold entries_of. rewrite list_lookup_fmap, fmap_Some.
  exists i. split; [|done]. apply lookup_seqZ. lia.
Qed.

Lemma length_entries_of n f : length (entries_of n f) = Z.to_nat n.
Proof. unfold entries_of. by rewrite length_fmap, length_seqZ. Qed.

(** An array is known by its entries. *)
Lemma entries_of_intro n f l :
  length l = Z.to_nat n -> (forall i, 0 <= i < n -> l !! Z.to_nat i = Some (f i)) ->
  l = entries_of n f.
Proof.
  intros Hl Hf. apply list_eq. intros k. destruct (decide (k < length l)%nat) as [Hk|Hk].
  - specialize (Hf (Z.of_nat k) ltac:(lia)).
    pose proof (entries_of_lookup n f (Z.of_nat k) ltac:(lia)) as He.
    rewrite Nat2Z.id in Hf, He. by rewrite Hf, He.
  - rewrite !lookup_ge_None_2; [done| |lia]. rewrite length_entries_of. lia.
Qed.

Lemma entries_of_insert n f i x :
  0 <= i < n -> <[Z.to_nat i := x]> (entries_of n f) = entries_of n (fun j => if i =? j then x else f j).
Proof.
  intros Hi. apply entries_of_intro; [by rewrite length_insert, length_entries_of|].
  intros j Hj. destruct (Z.eqb_spec i j) as [->|Hne].
  - apply list_lookup_insert_eq. rewrite length_entries_of. lia.
  - rewrite list_lookup_insert_ne by lia. by apply entries_of_lookup.
Qed.

Lemma entries_of_inserts n f vals :
  list_inserts 0 vals (entries_of n f) = entries_of n (fun i => default (f i) (vals !! Z.to_nat i)).
Proof.
  apply entries_of_intro; [by rewrite length_inserts, length_entries_of|].
  intros i Hi. destruct (decide (Z.to_nat i < length vals)%nat) as [Hlt|Hge].
  - rewrite list_lookup_inserts by (rewrite ?length_entries_of; lia).
    rewrite Nat.sub_0_r. by destruct (lookup_lt_is_Some_2 _ _ Hlt) as [x ->].
  - rewrite list_lookup_inserts_ge, entries_of_lookup by lia.
    by rewrite (lookup_ge_None_2 vals) by lia.
Qed.
#[local] Opaque entries_of.

Definition vars_after (a : mi_load_args) (es : list mi_event) : miload_vars :=
  MiloadVars (last_set (arg_fps a) frame_rate_set es) (existsb walt_update es)
    (entries_of MILOAD_MAX_CLUSTERS (fun cid => boost_of a cid es))
    (entries_of MILOAD_MAX_CPUS (fun cpu => freq_record cpu es))
    (entries_of MILOAD_MAX_CPUS (fun cpu => last_set 0 (entry_set MiMinfreq cpu) es)) 0
    (last_set 0 irq_time es).

(** What a call returns after the events [past]. *)
Definition write_result (limit : bool) (readable : bool) (ok : Z) : Z :=
  if limit then - EINVAL else if readable then ok else - EFAULT.
Definition result_of (a : mi_load_args) (past : list mi_event) (e : mi_event) : Z :=
  match e with
  | EvFrame user size =>
      write_result (negb (size =? 32)) (bool_decide (is_Some user)) 32
  | EvTaskGrp _ ubuf count | EvUserGrp _ ubuf count =>
      write_result (32 <=? count)%nat (bool_decide (is_Some ubuf)) (Z.of_nat count)
  | EvGroupUtil cid _ => if (0 <=? cid) && (cid <? 4) then boost_of a cid past else 0
  | _ => 0
  end.
Fixpoint results (a : mi_load_args) (past es : list mi_event) : list Z :=
  match es with
  | [] => []
  | e :: es' => result_of a past e :: results a (past ++ [e]) es'
  end.

Lemma results_snoc a past es e :
  results a past (es ++ [e]) = results a past es ++ [result_of a (past ++ es) e].
Proof.
  revert past. induction es as [|e' es IH]; intros past; simpl; [by rewrite app_nil_r|].
  by rewrite IH, <- app_assoc.
Qed.

Lemma last_set_snoc d f es e :
  last_set d f (es ++ [e]) = default (last_set d f es) (f e).
Proof.
  unfold last_set. rewrite omap_app. simpl.
  destruct (f e); simpl; [by rewrite last_snoc|by rewrite app_nil_r].
Qed.

Lemma freq_record_snoc cpu es e :
  freq_record cpu (es ++ [e]) = next_record cpu (freq_record cpu es) e.
Proof. unfold freq_record. by rewrite foldl_app. Qed.

Lemma next_record_nonneg cpu old e : 0 <= old -> event_ok e -> 0 <= next_record cpu old e.
Proof.
  unfold next_record. intros Ho He. destruct (entry_set MiMaxfreq cpu e) as [x|] eqn:Ee;
    [|case_match; lia].
  destruct e; simpl in Ee; try done. case_decide; [|done].
  apply list_elem_of_lookup_2 in Ee. simpl in He. rewrite Forall_forall in He.
  specialize (He x Ee). klia.
Qed.

Lemma freq_record_nonneg cpu es : Forall event_ok es -> 0 <= freq_record cpu es.
Proof.
  induction es as [|e es IH] using rev_ind; [done|].
  rewrite Forall_app, Forall_singleton, freq_record_snoc. intros [Hes He].
  by apply next_record_nonneg; [apply IH|].
Qed.

Lemma vars_after_snoc a es e :
  vars_after a (es ++ [e]) =
  MiloadVars (default (last_set (arg_fps a) frame_rate_set es) (frame_rate_set e))
    (existsb walt_update es || walt_update e)
    (entries_of MILOAD_MAX_CLUSTERS (fun cid =>
       default (boost_of a cid es) (entry_set UtilBoostPercent cid e)))
    (entries_of MILOAD_MAX_CPUS (fun cpu => next_record cpu (freq_record cpu es) e))
    (entries_of MILOAD_MAX_CPUS (fun cpu =>
       default (last_set 0 (entry_set MiMinfreq cpu) es) (entry_set MiMinfreq cpu e))) 0
    (default (last_set 0 irq_time es) (irq_time e)).
Proof.
  unfold vars_after. rewrite !last_set_snoc, existsb_app. simpl. rewrite orb_false_r.
  f_equal; apply entries_of_ext; intros i _; unfold boost_of;
    [apply last_set_snoc|apply freq_record_snoc|apply last_set_snoc].
Qed.

(** Events that set no element and report no frequency leave the arrays. *)
Definition no_arrays (e : mi_event) : bool :=
  match e with EvArray _ _ | EvLimits _ => false | _ => true end.

Lemma vars_after_scalar a es e :
  no_arrays e = true ->
  vars_after a (es ++ [e]) =
  MiloadVars (default (last_set (arg_fps a) frame_rate_set es) (frame_rate_set e))
    (existsb walt_update es || walt_update e) (util_boost_percent (vars_after a es))
    (mi_maxfreq (vars_after a es)) (mi_minfreq (vars_after a es)) 0
    (default (last_set 0 irq_time es) (irq_time e)).
Proof.
  intros He. rewrite vars_after_snoc. unfold vars_after.
  cbn [util_boost_percent mi_maxfreq mi_minfreq].
  f_equal; apply entries_of_ext; intros i _; by destruct e.
Qed.

Lemma vars_after_same a es e :
  no_arrays e = true -> frame_rate_set e = None -> walt_update e = false -> irq_time e = None ->
  vars_after a (es ++ [e]) = vars_after a es.
Proof. intros Hn Hf Hw Hi. by rewrite vars_after_scalar, Hf, Hw, Hi, orb_false_r. Qed.

Section steps.
Context `{KText}.

(** The step from the state after [es], with what it may log. *)
Definition steps_on (a : mi_load_args) (es : list mi_event) (e : mi_event) (dbg : Z)
    (log : list bytes) : Prop :=
  exists log',
    mi_step e (MiFilesState (vars_after a es) dbg log) =
      Some (result_of a es e,
            MiFilesState (vars_after a (es ++ [e])) (default dbg (debug_set e)) log') /\
    (dbg = 0 -> log' = log).

Lemma miload_debug_log line v dbg log :
  exists log', miload_debug line (MiFilesState v dbg log) = MiFilesState v dbg log' /\
    (dbg = 0 -> log' = log).
Proof. unfold miload_debug. simpl. destruct (Z.eqb_spec dbg 0); by eexists. Qed.

(** Replaces the logged line by what becomes of the log. *)
#[local] Ltac debug_line log' :=
  match goal with |- context [miload_debug ?l (MiFilesState ?v ?d ?k)] =>
    destruct (miload_debug_log l v d k) as (log' & -> & ?); exists log'; (split; [|done]) end.

Lemma step_frame a es user size dbg log :
  steps_on a es (EvFrame user size) dbg log.
Proof.
  unfold steps_on. rewrite vars_after_scalar by done.
  cbn [mi_step]. unfold frame_write, mi_frame_ioctl, result_of, write_result.
  unfold sizeof_mi_load_data. simpl. rewrite orb_false_r.
  destruct (size =? 32) eqn:Es, user as [d|]; simpl; rewrite ?Es; simpl.
  - debug_line log'. unfold sizeof_mi_load_data. rewrite Es. simpl. by destruct (fps d =? 0).
  - by exists log.
  - exists log. split; [|done]. unfold sizeof_mi_load_data. by rewrite Es.
  - by exists log.
Qed.

Lemma grp_id_write_result stack ubuf count :
  length stack = 32%nat ->
  exists id, grp_id_write stack ubuf count =
    Some (write_result (32 <=? count)%nat (bool_decide (is_Some ubuf)) (Z.of_nat count), id).
Proof.
  intros Hl. destruct (grp_id_write_safe stack ubuf count Hl) as ([r id] & Hr & _).
  exists id. rewrite Hr. unfold grp_id_write in Hr. rewrite Hl in Hr. unfold write_result.
  destruct (32 <=? count)%nat; [by simplify_eq|]. destruct ubuf; [|by simplify_eq].
  destruct (memcpy _ _ _ !! count); [|done]. simpl in *. by simplify_eq.
Qed.

Lemma step_grp what a es e stack ubuf count dbg log :
  length stack = 32%nat -> vars_after a (es ++ [e]) = vars_after a es ->
  exists log',
    grp_write what stack ubuf count (MiFilesState (vars_after a es) dbg log) =
      Some (write_result (32 <=? count)%nat (bool_decide (is_Some ubuf)) (Z.of_nat count),
            MiFilesState (vars_after a (es ++ [e])) dbg log') /\
    (dbg = 0 -> log' = log).
Proof.
  intros Hl ->. unfold grp_write.
  destruct (grp_id_write_result stack ubuf count Hl) as [[id|] ->]; simpl; [|by exists log].
  by debug_line log'.
Qed.

Lemma step_hook a es h dbg log : steps_on a es (EvHook h) dbg log.
Proof.
  unfold steps_on. rewrite vars_after_scalar by done. cbn [mi_step]. simpl.
  unfold call_hook.
  destruct h; simpl; rewrite ?orb_true_r, ?orb_false_r;
    try (by exists log);
    match goal with |- context [Some (0, ?f _)] => unfold f end; by debug_line log'.
Qed.

Lemma step_util a es cid grp dbg log :
  steps_on a es (EvGroupUtil cid grp) dbg log.
Proof.
  unfold steps_on. rewrite vars_after_same by done. simpl. unfold group_util.
  assert (get_group_util (vars_after a es) cid grp =
    Some (if (0 <=? cid) && (cid <? 4) then boost_of a cid es else 0)) as Hu.
  { unfold get_group_util, MILOAD_MAX_CLUSTERS. destruct (_ && _) eqn:E; [|done].
    apply (entries_of_lookup MILOAD_MAX_CLUSTERS (fun cid => boost_of a cid es)).
    unfold MILOAD_MAX_CLUSTERS. lia. }
  simpl. rewrite Hu. simpl. by debug_line log'.
Qed.

(** A limit of a policy only changes the record of its CPU. *)
Lemma step_limits a es policy dbg log :
  Forall event_ok es -> event_ok (EvLimits policy) -> steps_on a es (EvLimits policy) dbg log.
Proof.
  intros Hes He. exists log. split; [|done]. cbn [mi_step]. unfold cpu_gov_limits. simpl.
  rewrite vars_after_snoc. simpl. rewrite orb_false_r.
  assert (forall cpu, 0 <= freq_record cpu es) as Hr by (intros; by apply freq_record_nonneg).
  destruct policy as [[cpu cur]|]; simpl in *; [|done].
  assert ((if cur =? 0 then Some (vars_after a es) else update_freq_record (vars_after a es) cpu cur) =
    Some (set_freqs (entries_of MILOAD_MAX_CPUS (fun i =>
      next_record i (freq_record i es) (EvLimits (Some (cpu, cur)))))
      (mi_minfreq (vars_after a es)) (vars_after a es))) as ->; [|done].
  unfold next_record, update_freq_record. simpl.
  destruct (Z.eqb_spec cur 0) as [->|Hcur].
  - unfold vars_after, set_freqs. simpl. do 2 f_equal. apply entries_of_ext. intros i _.
    specialize (Hr i). destruct (cpu =? i); lia.
  - destruct He as [Hcpu _]. destruct (Z.ltb_spec cpu MILOAD_MAX_CPUS) as [Hlt|Hge].
    + cbn [vars_after mi_maxfreq]. rewrite entries_of_lookup by klia. simpl.
      rewrite entries_of_insert by klia. do 2 f_equal. apply entries_of_ext. intros i _.
      by destruct (Z.eqb_spec cpu i) as [->|].
    + unfold vars_after, set_freqs. simpl. do 2 f_equal. apply entries_of_ext. intros i Hi.
      by replace (cpu =? i) with false by lia.
Qed.

Lemma step_array a es arr vals dbg log : steps_on a es (EvArray arr vals) dbg log.
Proof.
  exists log. split; [|done]. simpl. unfold with_vars. simpl. do 3 f_equal.
  rewrite vars_after_snoc. unfold store_array, vars_after, next_record. simpl.
  rewrite orb_false_r.
  f_equal; destruct (decide (arr = _)), (decide (_ = arr)); try congruence;
    rewrite ?entries_of_inserts; apply entries_of_ext; intros i _;
    by destruct (vals !! Z.to_nat i).
Qed.

Lemma step_ok a es e dbg log : Forall event_ok es -> event_ok e -> steps_on a es e dbg log.
Proof.
  intros Hes He. destruct e; try (by apply step_frame); try (by apply step_hook);
    try (by apply step_util); try (by apply step_limits); try (by apply step_array);
    try (apply step_grp; [done|by apply vars_after_same]).
  - exists log. rewrite vars_after_scalar by done. simpl. by rewrite orb_false_r.
  - exists log. by rewrite vars_after_same by done.
  - unfold steps_on. rewrite vars_after_same by done. simpl. unfold transfer_APP_status.
    by debug_line log'.
  - exists log. rewrite vars_after_scalar by done. simpl. by rewrite orb_false_r.
Qed.

Lemma mi_run_snoc es e s :
  mi_run (es ++ [e]) s =
  '(rs, s1) ← mi_run es s; '(r, s2) ← mi_step e s1; Some (rs ++ [r], s2).
Proof.
  revert s. induction es as [|e' es IH]; intros s; simpl.
  - by destruct (mi_step e s) as [[r s2]|].
  - destruct (mi_step e' s) as [[r s1]|]; [|done]. simpl. rewrite IH.
    destruct (mi_run es s1) as [[rs s2]|]; [|done]. simpl.
    by destruct (mi_step e s2) as [[? ?]|].
Qed.

Lemma vars_after_nil a : args_ok a -> vars_after a [] = vars (mi_files_loaded a).
Proof.
  intros (_ & _ & Hl). unfold vars_after, mi_files_loaded, init_grp_freq_record, set_freqs. simpl.
  f_equal; symmetry; apply entries_of_intro; try done; intros i Hi;
    try (by apply lookup_replicate_2; klia).
  unfold boost_of, last_set. simpl.
  destruct (lookup_lt_is_Some_2 (arg_boost a) (Z.to_nat i)) as [x Hx];
    [unfold MILOAD_MAX_CLUSTERS in Hi; lia|].
  rewrite Hx. by rewrite (nth_lookup_Some _ _ _ _ Hx).
Qed.

Lemma mi_run_after a es :
  args_ok a -> Forall event_ok es -> exists log,
    mi_run es (mi_files_loaded a) =
      Some (results a [] es,
            MiFilesState (vars_after a es) (last_set (arg_debug a) debug_set es) log) /\
    (arg_debug a = 0 -> Forall (fun e => default 0 (debug_set e) = 0) es ->
     log = [] /\ last_set (arg_debug a) debug_set es = 0).
Proof.
  intros Ha. induction es as [|e es IH] using rev_ind.
  { intros _. exists []. rewrite vars_after_nil by done. by split. }
  rewrite !Forall_app, !Forall_singleton. intros [Hes He].
  destruct (IH Hes) as (log & Hrun & Hlog).
  destruct (step_ok a es e (last_set (arg_debug a) debug_set es) log Hes He)
    as (log' & Hstep & Hq).
  exists log'. rewrite mi_run_snoc, Hrun. simpl. rewrite Hstep. simpl.
  rewrite results_snoc, last_set_snoc. split; [done|].
  intros H0 [Hz [Hd _]%Forall_cons]%Forall_app.
  destruct (Hlog H0 Hz) as [-> Hl]. split; [by apply Hq|]. by destruct (debug_set e).
Qed.

(** C32: Any history of file operations, callbacks, irq works, limits and
    writes to the parameters that the module's functions use, from any values
    the module was loaded with, runs without an access outside an array, and
    leaves what can be read off it.  The results: a write of a wrong size or
    of unreadable memory is refused, any other is accepted in full;
    [get_group_util] returns the boost of the cluster at that time, the last
    one set before the call, and 0 for no cluster.  The frame rate is the last
    one set, a rate of 0 through the device not counting, and that of loading
    before; skip_walt_result is set by the first window update for good.  The
    arrays keep their lengths.  The record of a CPU starts at 0, whatever the
    module was loaded with; a limit raises it to the frequency reported, and
    only a write to mi_maxfreq can lower it; a minimum is the last one written
    to mi_minfreq, since no function sets it.  Nothing is logged while
    flw_debug is 0.  The proc file shows rate and flag; the group files show 0
    whatever was written. *)
Theorem miload_history_spec (a : mi_load_args) (es : list mi_event) :
  args_ok a -> Forall event_ok es ->
  exists s, mi_run es (mi_files_loaded a) = Some (results a [] es, s) /\
    update_frame_fps (vars s) = last_set (arg_fps a) frame_rate_set es /\
    skip_walt_result (vars s) = existsb walt_update es /\
    (forall cid, 0 <= cid < 4 -> util_boost_percent (vars s) !! Z.to_nat cid =
       Some (last_set (nth (Z.to_nat cid) (arg_boost a) 0) (entry_set UtilBoostPercent cid) es)) /\
    (forall cpu, 0 <= cpu < 8 ->
       mi_maxfreq (vars s) !! Z.to_nat cpu = Some (freq_record cpu es) /\
       mi_minfreq (vars s) !! Z.to_nat cpu = Some (last_set 0 (entry_set MiMinfreq cpu) es)) /\
    length (util_boost_percent (vars s)) = 4%nat /\
    length (mi_maxfreq (vars s)) = 8%nat /\ length (mi_minfreq (vars s)) = 8%nat /\
    flw_irq_work_lastq_ws (vars s) = last_set 0 irq_time es /\
    flw_debug s = last_set (arg_debug a) debug_set es /\
    (arg_debug a = 0 -> Forall (fun e => default 0 (debug_set e) = 0) es -> klog s = []) /\
    proc_read all_group_show_entry s =
      Some (bs "miloadtrace reconstructed" ++ [NL] ++
        bs "fps=" ++ fmt_u (last_set (arg_fps a) frame_rate_set es) ++
        bs " skip_walt=" ++ fmt_u (if existsb walt_update es then 1 else 0) ++ [NL]) /\
    Forall (fun e => proc_read e s = Some (bs "0" ++ [NL])) [taskgrpid_entry; usergrpid_entry].
Proof.
  intros Ha Hes. destruct (mi_run_after a es Ha Hes) as (log & Hrun & Hlog).
  eexists. split; [exact Hrun|]. split_and!; try done.
  - intros cid Hc. by apply (entries_of_lookup MILOAD_MAX_CLUSTERS (fun cid => boost_of a cid es)).
  - intros cpu Hc. split; by apply (entries_of_lookup MILOAD_MAX_CPUS).
  - intros H0 Hz. by destruct (Hlog H0 Hz).
  - by repeat constructor.
Qed.
End steps.

(** ** Witness *)

#[local] Existing Instance KTextRef.

(** Loaded with a frame rate and boosts; stale frequencies are cleared. *)
Definition example_args : mi_load_args :=
  MiLoadArgs 90 0 [10; 20; 30; 40] (replicate 8 777) (replicate 8 0).

Definition example_history : list mi_event :=
  [EvGroupUtil 1 0; EvFrame (Some (MiLoadData 1 100 120 0 0)) 32; EvHook HkWaltUpdate;
   EvFrame (Some (MiLoadData 1 100 0 0 0)) 32; EvLimits (Some (2, 1800000));
   EvTaskGrp (replicate 32 NUL) (Some (bs "1234")) 4; EvArray UtilBoostPercent [50; 60];
   EvGroupUtil 1 0; EvGroupUtil 7 0; EvArray MiMaxfreq [1; 2; 3]; EvLimits (Some (2, 300000));
   EvUserGrp (replicate 32 NUL) None 32; EvFrame None 16].

Lemma miload_history_spec_witness :
  exists s, mi_run example_history (mi_files_loaded example_args) =
      Some ([20; 32; 0; 32; 0; 4; 0; 60; 0; 0; 0; - EINVAL; - EINVAL], s) /\
    update_frame_fps (vars s) = 120 /\ mi_maxfreq (vars s) !! 2%nat = Some 300000 /\
    util_boost_percent (vars s) !! 3%nat = Some 40.
Proof.
  destruct (miload_history_spec example_args example_history) as (s & Hr & Hf & _ & Hb & Hm & _).
  - split_and!; by vm_compute.
  - repeat constructor; by vm_compute.
  - exists s. split; [exact Hr|]. split; [exact Hf|]. split; [apply (Hm 2); lia|].
    apply (Hb 3). lia.
Defined.
