(* ===== verification/MiGov.v ===== *)
(** * MiGov: the migov governor over several policies

    The callbacks of miloadtrace/miloadtrace.c with the addresses they
    allocate: each policy that uses the governor has its own data, and each
    CPU a pointer to the data of its policy.  The cpufreq core calls the
    callbacks of a policy in a fixed order, policies in any interleaving. *)

From stdpp Require Import gmap.
From S2P Require Import Prelude KMonad MiLoad.

(** An address names one allocation; a policy and a CPU are numbers. *)
Record gov_data := GovData { mg_policy_addr : nat; tunables_addr : nat; data_tunables : migov_tunables }.

(** [heap]: what is allocated; [next_addr]: no address from here on is;
    [governor_data] of the policies that have some; [mi_gov_cpu]: the fields
    [cpu] and [mg_policy], [None] while they are zero; the frequency records. *)
Record migov := Migov {
  heap : gset nat;
  next_addr : nat;
  governor_data : gmap nat gov_data;
  mi_gov_cpu : gmap nat (nat * option nat);
  mi_maxfreq : list Z
}.

Definition migov_initial : migov := Migov ∅ 0 ∅ ∅ (replicate 8 0).

(** [mg_ok], [tun_ok]: the allocations succeed. *)
Definition gov_init (p : nat) (mg_ok tun_ok : bool) (s : migov) : Z * migov :=
  let a := next_addr s in
  if negb mg_ok then (- ENOMEM, s)
  else if negb tun_ok then
    (* the first allocation is freed *)
    (- ENOMEM, Migov (heap s) (S a) (governor_data s) (mi_gov_cpu s) (mi_maxfreq s))
  else
    (0, Migov ({[ a; S a ]} ∪ heap s) (S (S a))
          (<[p := GovData a (S a) (MigovTunables 0 0 MILOAD_DEFAULT_HISPEED_LOAD)]>
            (governor_data s)) (mi_gov_cpu s) (mi_maxfreq s)).

(** [None]: [kfree] of something that is not allocated. *)
Definition kfree (a : nat) (h : gset nat) : option (gset nat) :=
  if decide (a ∈ h) then Some (h ∖ {[ a ]}) else None.

Definition gov_exit (p : nat) (s : migov) : option migov :=
  match governor_data s !! p with
  | None => Some s
  | Some d =>
      h ← kfree (tunables_addr d) (heap s);
      h ← kfree (mg_policy_addr d) h;
      Some (Migov h (next_addr s) (delete p (governor_data s)) (mi_gov_cpu s) (mi_maxfreq s))
  end.

Definition gov_start (p : nat) (cpus : list nat) (s : migov) : Z * migov :=
  let mg := mg_policy_addr <$> governor_data s !! p in
  (0, Migov (heap s) (next_addr s) (governor_data s)
        (foldr (fun cpu m => <[cpu := (cpu, mg)]> m) (mi_gov_cpu s) cpus) (mi_maxfreq s)).

Definition gov_stop (s : migov) : migov := s.

(** [cpu] and [cur] of the policy; a CPU beyond the records is not recorded. *)
Definition gov_limits (cpu : nat) (cur : Z) (s : migov) : migov :=
  if cur =? 0 then s
  else if decide (cpu < length (mi_maxfreq s))%nat then
    Migov (heap s) (next_addr s) (governor_data s) (mi_gov_cpu s)
      (alter (Z.max cur) cpu (mi_maxfreq s))
  else s.

(** ** The protocol of the cpufreq core *)

Inductive phase := Inited | Started.
#[global] Instance phase_eq_dec : EqDecision phase.
Proof. solve_decision. Defined.

Section protocol.
(** The policies: [policy->cpu] and [policy->cpus], disjoint between policies. *)
Context (policy_cpu : nat -> nat) (policy_cpus : nat -> list nat).

(** A policy without a phase does not use the governor. *)
Abbreviation gov_sys := (migov * gmap nat phase)%type.

(** [init], [start], [limits], [stop] and [exit] of a policy in their order; a
    failing [init] leaves the policy without the governor. *)
Inductive gov_step : gov_sys -> gov_sys -> Prop :=
| step_init p mg_ok tun_ok ret s s' ph :
    ph !! p = None -> gov_init p mg_ok tun_ok s = (ret, s') ->
    gov_step (s, ph) (s', if ret =? 0 then <[p := Inited]> ph else ph)
| step_start p ret s s' ph :
    ph !! p = Some Inited -> gov_start p (policy_cpus p) s = (ret, s') ->
    gov_step (s, ph) (s', <[p := Started]> ph)
| step_limits p cur s ph :
    ph !! p = Some Started -> 0 <= cur ->
    gov_step (s, ph) (gov_limits (policy_cpu p) cur s, ph)
| step_stop p s ph :
    ph !! p = Some Started -> gov_step (s, ph) (gov_stop s, <[p := Inited]> ph)
| step_exit p s s' ph :
    ph !! p = Some Inited -> gov_exit p s = Some s' -> gov_step (s, ph) (s', delete p ph).

Definition gov_start_state : gov_sys := (migov_initial, ∅).

(** The addresses of a policy's data. *)
Definition addrs (d : gov_data) : gset nat := {[ mg_policy_addr d; tunables_addr d ]}.

Record gov_inv (s : migov) (ph : gmap nat phase) : Prop := {
  inv_dom : dom (governor_data s) = dom ph;
  inv_below : forall a, a ∈ heap s -> (a < next_addr s)%nat;
  inv_heap : forall a, a ∈ heap s <-> exists p d, governor_data s !! p = Some d /\ a ∈ addrs d;
  inv_sep : forall p q d e, governor_data s !! p = Some d -> governor_data s !! q = Some e ->
    p <> q -> addrs d ## addrs e;
  inv_two : forall p d, governor_data s !! p = Some d -> mg_policy_addr d <> tunables_addr d;
  inv_cpus : forall p d cpu, ph !! p = Some Started -> governor_data s !! p = Some d ->
    cpu ∈ policy_cpus p -> mi_gov_cpu s !! cpu = Some (cpu, Some (mg_policy_addr d));
  inv_max : length (mi_maxfreq s) = 8%nat
}.

Lemma set_cpus_lookup (m : gmap nat (nat * option nat)) mg cpus cpu :
  foldr (fun cpu m => <[cpu := (cpu, mg)]> m) m cpus !! cpu =
  if decide (cpu ∈ cpus) then Some (cpu, mg) else m !! cpu.
Proof.
  induction cpus as [|c cpus IH]; simpl; [done|].
  destruct (decide (cpu = c)) as [->|Hne].
  - rewrite lookup_insert_eq. rewrite decide_True by set_solver. done.
  - rewrite lookup_insert_ne by done. rewrite IH.
    repeat case_decide; set_solver.
Qed.

Lemma gov_inv_init p mg_ok tun_ok s ph :
  gov_inv s ph -> ph !! p = None ->
  let '(ret, s') := gov_init p mg_ok tun_ok s in
  gov_inv s' (if ret =? 0 then <[p := Inited]> ph else ph).
Proof.
  intros Hi Hp. unfold gov_init. destruct mg_ok; [|done].
  assert (governor_data s !! p = None) as Hd.
  { apply not_elem_of_dom. rewrite (inv_dom _ _ Hi). by apply not_elem_of_dom. }
  destruct tun_ok; simpl.
  2:{ destruct Hi. split; simpl; try done. intros a Ha. specialize (inv_below0 a Ha). lia. }
  pose proof (inv_below _ _ Hi) as Hb. pose proof (inv_heap _ _ Hi) as Hh.
  assert (forall q e, governor_data s !! q = Some e -> forall a, a ∈ addrs e -> (a < next_addr s)%nat)
    as Hold by (intros q e Hq a Ha; apply Hb, Hh; by exists q, e).
  split; simpl.
  - rewrite !dom_insert_L. by rewrite (inv_dom _ _ Hi).
  - intros a. rewrite !elem_of_union, !elem_of_singleton. intros [[?|?]|Ha]; [lia..|].
    specialize (Hb a Ha). lia.
  - intros a. rewrite elem_of_union. split.
    + intros [Ha|Ha].
      * exists p. eexists. by rewrite lookup_insert_eq.
      * apply Hh in Ha as (q & e & Hq & Ha). exists q, e. rewrite lookup_insert_ne; [done|congruence].
    + intros (q & e & Hq & Ha). rewrite lookup_insert_Some in Hq.
      destruct Hq as [[-> <-]|[_ Hq]]; [by left|]. right. apply Hh. by exists q, e.
  - intros q r d e. rewrite !lookup_insert_Some.
    intros [[-> <-]|[Hq Hd1]] [[-> <-]|[Hr Hd2]] Hne; try done; intros a Ha1 Ha2.
    + apply (Hold _ _ Hd2) in Ha2. unfold addrs in Ha1. simpl in Ha1. set_solver by lia.
    + apply (Hold _ _ Hd1) in Ha1. unfold addrs in Ha2. simpl in Ha2. set_solver by lia.
    + by eapply (inv_sep _ _ Hi _ _ _ _ Hd1 Hd2).
  - intros q d. rewrite lookup_insert_Some. intros [[-> <-]|[_ Hq]]; [simpl; lia|].
    by apply (inv_two _ _ Hi q).
  - intros q d cpu. rewrite !lookup_insert_Some.
    intros [[-> [=]]|[Hq Hs]] [[? ?]|[_ Hd2]] Hc; [done|]. by eapply (inv_cpus _ _ Hi).
  - apply (inv_max _ _ Hi).
Qed.

(** The exit callback frees two live allocations, those of its policy. *)
Lemma gov_inv_exit p s ph :
  gov_inv s ph -> ph !! p = Some Inited ->
  exists d s', governor_data s !! p = Some d /\ gov_exit p s = Some s' /\
    heap s' = heap s ∖ addrs d /\ mi_gov_cpu s' = mi_gov_cpu s /\ gov_inv s' (delete p ph).
Proof.
  intros Hi Hp. destruct (governor_data s !! p) as [d|] eqn:Hd.
  2:{ apply not_elem_of_dom in Hd. rewrite (inv_dom _ _ Hi), not_elem_of_dom in Hd. congruence. }
  pose proof (inv_heap _ _ Hi) as Hh. pose proof (inv_two _ _ Hi p d Hd) as Hne.
  assert (tunables_addr d ∈ heap s /\ mg_policy_addr d ∈ heap s) as [H1 H2]
    by (split; apply Hh; exists p, d; (split; [done|]); unfold addrs; set_solver).
  exists d. eexists. split; [done|]. unfold gov_exit, kfree. rewrite Hd.
  rewrite decide_True by done. simpl. rewrite decide_True by set_solver. simpl.
  split; [done|]. simpl. split; [unfold addrs; set_solver|]. split; [done|]. split; simpl.
  - rewrite !dom_delete_L. by rewrite (inv_dom _ _ Hi).
  - intros a Ha. apply (inv_below _ _ Hi). set_solver.
  - intros a. split.
    + intros Ha. assert (a ∈ heap s) as (q & e & Hq & Hae)%Hh by set_solver.
      exists q, e. split; [|done]. rewrite lookup_delete_ne; [done|]. intros <-.
      unfold addrs in Hae. assert (e = d) as -> by congruence. set_solver.
    + intros (q & e & (Hqp & Hq)%lookup_delete_Some & Hae).
      pose proof (inv_sep _ _ Hi _ _ _ _ Hd Hq Hqp) as Hdis. unfold addrs in *.
      assert (a ∈ heap s) by (apply Hh; by exists q, e). set_solver.
  - intros q r e f (_ & He)%lookup_delete_Some (_ & Hf)%lookup_delete_Some.
    by apply (inv_sep _ _ Hi).
  - intros q e (_ & He)%lookup_delete_Some. by apply (inv_two _ _ Hi q).
  - intros q e cpu (_ & Hs)%lookup_delete_Some (_ & He)%lookup_delete_Some.
    by apply (inv_cpus _ _ Hi).
  - apply (inv_max _ _ Hi).
Qed.

Context (cpus_disjoint : forall p q cpu, cpu ∈ policy_cpus p -> cpu ∈ policy_cpus q -> p = q).

Lemma gov_inv_start p s ph :
  gov_inv s ph -> ph !! p = Some Inited ->
  gov_inv (gov_start p (policy_cpus p) s).2 (<[p := Started]> ph).
Proof.
  intros Hi Hp. assert (is_Some (governor_data s !! p)) as [d Hd].
  { apply elem_of_dom. rewrite (inv_dom _ _ Hi). by apply elem_of_dom. }
  destruct Hi. split; simpl; try done.
  - rewrite dom_insert_L, inv_dom0. apply elem_of_dom_2 in Hp. set_solver.
  - intros q e cpu Hq He Hc. rewrite set_cpus_lookup. case_decide as Hin.
    + assert (q = p) as -> by (by eapply cpus_disjoint). by rewrite He.
    + destruct (decide (q = p)) as [->|Hne]; [done|].
      rewrite lookup_insert_ne in Hq by done. by apply (inv_cpus0 q).
Qed.

Lemma gov_inv_step s ph s' ph' :
  gov_inv s ph -> gov_step (s, ph) (s', ph') -> gov_inv s' ph'.
Proof.
  intros Hi Hs. inversion Hs as [p mg tun ret s0 s1 ph0 Hp He|p ret s0 s1 ph0 Hp He|
    p cur s0 ph0 Hp|p s0 ph0 Hp|p s0 s1 ph0 Hp He]; subst.
  - pose proof (gov_inv_init p mg tun s ph Hi Hp) as H. by rewrite He in H.
  - pose proof (gov_inv_start p s ph Hi Hp) as H. by rewrite He in H.
  - unfold gov_limits. case_match; [done|]. case_decide; [|done].
    destruct Hi. split; simpl; try done. by rewrite length_alter.
  - unfold gov_stop. destruct Hi. split; simpl; try done.
    + rewrite dom_insert_L, inv_dom0. apply elem_of_dom_2 in Hp. set_solver.
    + intros q d cpu Hq. apply (inv_cpus0 q). rewrite lookup_insert_Some in Hq. naive_solver.
  - destruct (gov_inv_exit p s ph Hi Hp) as (d & s2 & _ & Heq & _ & _ & H). congruence.
Qed.

Lemma gov_inv_initial : gov_inv migov_initial ∅.
Proof.
  split; simpl; try done; by intros; set_solver.
Qed.

Lemma gov_reachable s ph :
  rtc gov_step gov_start_state (s, ph) -> gov_inv s ph.
Proof.
  intros Hr. apply rtc_nsteps in Hr as [n Hr]. revert s ph Hr.
  induction n as [|n IH]; intros s ph Hr.
  - inversion Hr; subst. apply gov_inv_initial.
  - apply nsteps_inv_r in Hr as ([s1 ph1] & Hr & Hs). eapply gov_inv_step; [|exact Hs]. by apply IH.
Qed.

(** C13: The governor over all policies, in any interleaving of their
    callbacks and with any allocation failing.  What is allocated is exactly
    the data of the policies that use the governor, so nothing leaks and
    nothing is left when the last policy leaves; the exit callback finds its
    data, frees both allocations, once, and never fails; and while a policy is
    started the pointer of each of its CPUs is to its own live data.  After
    the exit callback these pointers are not cleared: they keep the address
    that was freed. *)
Theorem governor_memory (s : migov) (ph : gmap nat phase) :
  rtc gov_step gov_start_state (s, ph) ->
  (forall a, a ∈ heap s <-> exists p d, is_Some (ph !! p) /\
     governor_data s !! p = Some d /\ a ∈ addrs d) /\
  (ph = ∅ -> heap s = ∅) /\
  (forall p, ph !! p = Some Inited -> is_Some (gov_exit p s)) /\
  (forall p cpu, ph !! p = Some Started -> cpu ∈ policy_cpus p ->
     exists a, mi_gov_cpu s !! cpu = Some (cpu, Some a) /\ a ∈ heap s) /\
  (forall p cpu, ph !! p = Some Started -> cpu ∈ policy_cpus p ->
     exists a s', gov_exit p (gov_stop s) = Some s' /\
       gov_step (gov_stop s, <[p := Inited]> ph) (s', delete p (<[p := Inited]> ph)) /\
       mi_gov_cpu s' !! cpu = Some (cpu, Some a) /\ a ∉ heap s').
Proof.
  intros Hr. pose proof (gov_reachable s ph Hr) as Hi. pose proof (inv_heap _ _ Hi) as Hh.
  assert (forall p d, governor_data s !! p = Some d -> is_Some (ph !! p)) as Hph.
  { intros p d Hd. apply elem_of_dom. rewrite <- (inv_dom _ _ Hi). by eapply elem_of_dom_2. }
  assert (forall p, ph !! p = Some Started -> is_Some (governor_data s !! p)) as Hdata.
  { intros p Hp. apply elem_of_dom. rewrite (inv_dom _ _ Hi). by apply elem_of_dom. }
  split_and!.
  - intros a. rewrite Hh. split; [|naive_solver]. intros (p & d & Hd & Ha). exists p, d. eauto.
  - intros ->. apply set_eq. intros a. rewrite Hh. split; [|set_solver].
    intros (p & d & Hd & _). by destruct (Hph p d Hd).
  - intros p Hp. destruct (gov_inv_exit p s ph Hi Hp) as (d & s' & _ & Heq & _). by exists s'.
  - intros p cpu Hp Hc. destruct (Hdata p Hp) as [d Hd]. exists (mg_policy_addr d).
    split; [by apply (inv_cpus _ _ Hi p)|]. apply Hh. exists p, d. unfold addrs. set_solver.
  - intros p cpu Hp Hc. destruct (Hdata p Hp) as [d Hd].
    assert (gov_inv (gov_stop s) (<[p := Inited]> ph)) as Hi2
      by (eapply gov_inv_step; [exact Hi|by apply step_stop]).
    destruct (gov_inv_exit p (gov_stop s) _ Hi2 (lookup_insert_eq _ _ _))
      as (d' & s' & Hd' & Heq & Hheap & Hcpu & _). unfold gov_stop in Hd'.
    assert (d' = d) as -> by congruence.
    exists (mg_policy_addr d), s'. split; [done|]. split.
    { by apply step_exit; [apply lookup_insert_eq|]. }
    rewrite Hcpu, Hheap. split; [by apply (inv_cpus _ _ Hi p)|]. unfold addrs. set_solver.
Qed.
End protocol.

(** ** Witness *)

Definition two_clusters (p : nat) : list nat := if (p =? 0)%nat then [0; 1]%nat else if (p =? 1)%nat then [4]%nat else [].

Lemma two_clusters_disjoint p q cpu :
  cpu ∈ two_clusters p -> cpu ∈ two_clusters q -> p = q.
Proof.
  unfold two_clusters. repeat case_match; rewrite ?elem_of_cons, ?elem_of_nil;
    repeat match goal with H : (_ =? _)%nat = true |- _ => apply Nat.eqb_eq in H end; lia.
Qed.

Lemma governor_memory_witness :
  let s1 := (gov_start 0 (two_clusters 0) (gov_init 0 true true migov_initial).2).2 in
  (exists a, mi_gov_cpu s1 !! 1%nat = Some (1%nat, Some a) /\ a ∈ heap s1) /\
  exists a s', gov_exit 0 (gov_stop s1) = Some s' /\
    mi_gov_cpu s' !! 1%nat = Some (1%nat, Some a) /\ a ∉ heap s'.
Proof.
  destruct (governor_memory (fun p => p) two_clusters two_clusters_disjoint
    (gov_start 0 (two_clusters 0) (gov_init 0 true true migov_initial).2).2
    (<[0%nat := Started]> (<[0%nat := Inited]> ∅))) as (_ & _ & _ & H1 & H2).
  { eapply rtc_l; [by apply (step_init _ _ 0 true true 0)|].
    eapply rtc_l; [by apply (step_start _ _ 0 0)|]. apply rtc_refl. }
  split; [apply (H1 0%nat); [done|set_solver]|].
  destruct (H2 0%nat 1%nat) as (a & s' & Hx & _ & Hy & Hz); [done|set_solver|].
  by exists a, s'.
Defined.
