(* ===== verification/Linkage.v ===== *)
(** * Linkage: the hook modules in one kernel

    The four modules with hook tables export their functions by name; their
    clients call them in any order and interleaving.  The symbols of all
    modules are distinct, so that a name means one function; a history of calls
    splits into the histories of the modules, and each slot depends only on the
    calls to its own module.  The imports of miloadtrace are such names. *)

From S2P Require Import Prelude HookIface ApiIface XiaomiHooks XiaomiApi Metis MetisApi.
From S2P Require Import MiSchedule MiScheduleApi Mist MistApi KMonad MiLoad.

#[local] Existing Instance miload_tables.

Abbreviation kernel := (all_tables * mist_state)%type.

Definition kernel_exports : api_table kernel :=
  lift_table (fun k => k.1.1) (fun x k => ((x, k.1.2), k.2)) xiaomi_exports ++
  lift_table (fun k => k.1.2.1) (fun m k => ((k.1.1, (m, k.1.2.2)), k.2)) metis_exports ++
  lift_table (fun k => k.1.2.2) (fun s k => ((k.1.1, (k.1.2.1, s)), k.2)) sched_exports ++
  lift_table (fun k => k.2) (fun m k => (k.1, m)) mist_exports.

(** The exported symbols of the modules without a hook table. *)
Definition other_symbols : list string := [
  "cdev_tevent_alloc"; "cdev_tevent_add_int"; "cdev_tevent_add_str"; "cdev_tevent_write";
  "cdev_tevent_destroy"; "product_name_get"; "get_hw_project_adc"; "get_hw_build_adc";
  "get_hw_version_platform"; "get_hw_id_value"; "get_hw_country_version";
  "get_hw_version_major"; "get_hw_version_minor"; "get_hw_version_build"; "board_sensor";
  "ambient_sensor"; "cpu_limits_set_level"; "group_frame_cpufreq_transition";
  "migt_sched_init"; "migt_sched_exit"; "migt_freq_qos_init"; "migt_freq_qos_request_init_first";
  "migt_set_prefer_cluster"; "migt_get_prefer_cluster"; "get_frame_period"; "add_work_to_migt";
  "flt_update_sf"; "flt_irq_work"; "flt_enable"; "glk_enable"; "get_migt_thresh";
  "is_render_thread"; "is_frender_sibling"; "migt_load_tracking_enabled"
].

(** All symbols the modules of the repository export, variables included. *)
Definition all_symbols : list string :=
  xiaomi_exports.*1 ++ metis_exports.*1 ++ sched_exports.*1 ++ mist_exports.*1 ++
  metis_data ++ sched_data ++ other_symbols.

Lemma all_symbols_NoDup : NoDup all_symbols.
Proof. apply (bool_decide_unpack _). by vm_compute. Qed.

Lemma tables_disjoint :
  NoDup (xiaomi_exports.*1 ++ metis_exports.*1 ++ sched_exports.*1 ++ mist_exports.*1).
Proof.
  pose proof all_symbols_NoDup as H. unfold all_symbols in H. rewrite !app_assoc in H.
  do 3 apply NoDup_app in H as [H _]. by rewrite <- !app_assoc in H.
Qed.

Lemma kernel_names :
  kernel_exports.*1 = xiaomi_exports.*1 ++ metis_exports.*1 ++ sched_exports.*1 ++ mist_exports.*1.
Proof. unfold kernel_exports. by rewrite !fmap_app, !lift_names. Qed.

#[local] Opaque xiaomi_exports metis_exports sched_exports mist_exports.

(** The names of two different modules. *)
Lemma names_disjoint {A} (l1 l2 l3 l4 : list A) :
  NoDup (l1 ++ l2 ++ l3 ++ l4) ->
  (NoDup l1 /\ NoDup l2 /\ NoDup l3 /\ NoDup l4) /\
  l1 ## l2 /\ l1 ## l3 /\ l1 ## l4 /\ l2 ## l3 /\ l2 ## l4 /\ l3 ## l4.
Proof.
  rewrite !NoDup_app. setoid_rewrite not_elem_of_app. intros (H1 & H2 & H3 & H4 & H5 & H6 & H7).
  split_and!; try done; intros x Ha Hb;
    repeat match goal with H : forall x, x ∈ _ -> _ |- _ => specialize (H x) end; rewrite ?not_elem_of_app in *; tauto.
Qed.

(** A part of the kernel is described by its own module's table. *)
Ltac project_part :=
  destruct (names_disjoint _ _ _ _ tables_disjoint) as ((? & ? & ? & ?) & ? & ? & ? & ? & ? & ?);
  unfold kernel_exports; repeat apply projects_app;
  first [ by apply projects_own
        | apply projects_other; [|done];
          let n := fresh in let Ha := fresh in let Hb := fresh in intros n Ha Hb;
          match goal with H : _ ## _ |- _ => solve [exact (H n Ha Hb) | exact (H n Hb Ha)] end ].

Lemma project_xiaomi : projects (fun k : kernel => k.1.1) kernel_exports xiaomi_exports.
Proof. project_part. Qed.
Lemma project_metis : projects (fun k : kernel => k.1.2.1) kernel_exports metis_exports.
Proof. project_part. Qed.
Lemma project_sched : projects (fun k : kernel => k.1.2.2) kernel_exports sched_exports.
Proof. project_part. Qed.
Lemma project_mist : projects (fun k : kernel => k.2) kernel_exports mist_exports.
Proof. project_part. Qed.

Lemma run_calls_total {St} (t : api_table St) calls s :
  Forall (fun c => c.1 ∈ t.*1) calls -> exists rs s', run_calls t calls s = Some (rs, s').
Proof.
  revert s. induction calls as [|[n cb] calls IH]; intros s Hc; [by do 2 eexists|].
  apply Forall_cons in Hc as [Hn Hc]. simpl. unfold call_export.
  destruct (assoc_is_Some n t Hn) as [f ->]. simpl.
  destruct (f cb s) as [r s1]. destruct (IH s1 Hc) as (rs & s' & ->). simpl. by do 2 eexists.
Qed.

Lemma own_calls_all {A} names (calls : list (string * A)) :
  Forall (fun c => c.1 ∈ names) (own_calls names calls).
Proof. apply Forall_forall. by intros c [? _]%list_elem_of_filter. Qed.

(** The slots of a part after a history of calls to all modules. *)
Lemma part_slots {Hook St} `{EqDecision Hook} (sp : api_spec Hook St) (get : kernel -> St)
    (t : api_table St) calls k rs k' :
  projects get kernel_exports t -> table_ok sp t ->
  run_calls kernel_exports calls k = Some (rs, k') ->
  run_calls t (own_calls t.*1 calls) (get k) = Some (own_results t.*1 calls rs, get k') /\
  forall h, sp_slot sp (get k') h =
    spec_run sp (sp_live sp (get k)) (own_calls t.*1 calls) (sp_slot sp (get k)) h.
Proof.
  intros Hp Ht Hr. pose proof (run_calls_project get _ t calls k rs k' Hp Hr) as Hown.
  split; [done|].
  destruct (run_calls_spec sp t (own_calls t.*1 calls) (get k) Ht (own_calls_all _ _))
    as (rs2 & s2 & Hr2 & _ & _ & Hs). rewrite Hown in Hr2. by injection Hr2 as _ <-.
Qed.

(** C9: Any history of calls of the modules' clients, interleaved in any way.
    Every call is answered, and the history splits: each module's results and
    state are those of running its own calls alone, and each of its slots
    holds what the specification says of these calls.  So two histories with
    the same calls per module, however they are interleaved, lead to the same
    slots. *)
Theorem kernel_calls_split (calls : list (string * option callback)) (k : kernel) :
  Forall (fun c => c.1 ∈ kernel_exports.*1) calls ->
  exists rs k', run_calls kernel_exports calls k = Some (rs, k') /\
    let own {St} (t : api_table St) := own_calls t.*1 calls in
    let res {St} (t : api_table St) := own_results t.*1 calls rs in
    (run_calls xiaomi_exports (own xiaomi_exports) k.1.1 = Some (res xiaomi_exports, k'.1.1) /\
     forall h, xiaomi_slots k'.1.1 h = spec_run xiaomi_spec (xiaomi_walt_hooks_enable k.1.1)
       (own xiaomi_exports) (xiaomi_slots k.1.1) h) /\
    (run_calls metis_exports (own metis_exports) k.1.2.1 = Some (res metis_exports, k'.1.2.1) /\
     forall h, metis_slots k'.1.2.1 h = spec_run metis_spec (negb (metis_safe_boot k.1.2.1))
       (own metis_exports) (metis_slots k.1.2.1) h) /\
    (run_calls sched_exports (own sched_exports) k.1.2.2 = Some (res sched_exports, k'.1.2.2) /\
     forall h, sched_slots k'.1.2.2 h = spec_run sched_spec true
       (own sched_exports) (sched_slots k.1.2.2) h) /\
    (run_calls mist_exports (own mist_exports) k.2 = Some (res mist_exports, k'.2) /\
     forall h, mist_slots k'.2 h = spec_run mist_spec true
       (own mist_exports) (mist_slots k.2) h).
Proof.
  intros Hc. destruct (run_calls_total _ _ k Hc) as (rs & k' & Hr).
  exists rs, k'. split; [done|]. split_and!.
  - exact (proj1 (part_slots xiaomi_spec _ _ _ _ _ _ project_xiaomi xiaomi_table_ok Hr)).
  - exact (proj2 (part_slots xiaomi_spec _ _ _ _ _ _ project_xiaomi xiaomi_table_ok Hr)).
  - exact (proj1 (part_slots metis_spec _ _ _ _ _ _ project_metis metis_table_ok Hr)).
  - exact (proj2 (part_slots metis_spec _ _ _ _ _ _ project_metis metis_table_ok Hr)).
  - exact (proj1 (part_slots sched_spec _ _ _ _ _ _ project_sched sched_table_ok Hr)).
  - exact (proj2 (part_slots sched_spec _ _ _ _ _ _ project_sched sched_table_ok Hr)).
  - exact (proj1 (part_slots mist_spec _ _ _ _ _ _ project_mist mist_table_ok Hr)).
  - exact (proj2 (part_slots mist_spec _ _ _ _ _ _ project_mist mist_table_ok Hr)).
Qed.

#[local] Transparent xiaomi_exports metis_exports sched_exports mist_exports.

(** ** The imports of miloadtrace *)

(** The functions miloadtrace declares for each of its callbacks. *)
Definition miload_import (h : miload_hook) : string * string :=
  match h with
  | HkFravg => ("register_mi_update_fravg", "unregister_mi_update_fravg")
  | HkWaltUpdate => ("register_walt_update_hooks", "unregister_walt_update_hooks")
  | HkGroupChange =>
      ("register_task_group_change_update_f", "unregister_task_group_change_update_f")
  | HkMigrate => ("register_mi_migrate_hook", "unregister_mi_migrate_hook")
  | HkGroupNr => ("register_mi_update_group_nr", "unregister_mi_update_group_nr")
  | HkFixFld => ("register_mi_migarte_fix_fld_hooks", "unregister_mi_migarte_fix_fld_hooks")
  | HkUiTask => ("register_ui_task_detect", "unregister_ui_task_detect")
  | HkGlobalPeriod =>
      ("register_mi_update_global_period_f", "unregister_mi_update_global_period_f")
  | HkFreqUpdate => ("register_mi_run_frequpdate_hooks", "unregister_mi_run_frequpdate_hooks")
  end.

(** C33: The imports of miloadtrace resolve: each of the eighteen names is
    exported by exactly one of the modules, and calling it by name is the
    operation on the slot that the module's own model takes it to be, so that
    what is proved of miloadtrace against the interface of the hook tables
    holds of the calls it makes by name. *)
Theorem miload_imports_resolve (h : miload_hook) (cb : option callback) (s : all_tables)
    (m : mist_state) :
  length (filter (fun n => n = (miload_import h).1) all_symbols) = 1%nat /\
  length (filter (fun n => n = (miload_import h).2) all_symbols) = 1%nat /\
  call_export kernel_exports (miload_import h).1 cb (s, m) =
    Some (let '(r, s') := hk_register h cb s in (RInt r, (s', m))) /\
  call_export kernel_exports (miload_import h).2 None (s, m) =
    Some (let '(r, s') := hk_unregister h s in (RInt r, (s', m))).
Proof.
  destruct s as [[en w xs] [[sb ms] sc]].
  destruct h; (split; [by vm_compute|]; split; [by vm_compute|]); split;
    destruct cb, sb; reflexivity.
Qed.

(** A history of calls of two clients, interleaved. *)
Lemma kernel_calls_split_witness :
  exists rs k', run_calls kernel_exports
    [("register_vip_task_detect", Some "vip"); ("register_mi_migrate_hook", Some "load");
     ("mi_sched_tick", None); ("register_mi_dflt_bw_update_cb", Some "bw");
     ("unregister_vip_task_detect", None)] (tables true false, mist_initial) = Some (rs, k') /\
    xiaomi_slots k'.1.1 mi_migrate_fload_hooks = Some "load" /\
    metis_slots k'.1.2.1 vip_task_detect_ptr = None /\
    mist_slots k'.2 mist_dflt_bw_update_cb = Some "bw".
Proof.
  edestruct (kernel_calls_split
    [("register_vip_task_detect", Some "vip"); ("register_mi_migrate_hook", Some "load");
     ("mi_sched_tick", None); ("register_mi_dflt_bw_update_cb", Some "bw");
     ("unregister_vip_task_detect", None)] (tables true false, mist_initial))
    as (rs & k' & Hr & (_ & Hx) & (_ & Hm) & _ & _ & Hb).
  { apply calls_known. vm_compute. reflexivity. }
  exists rs, k'. split; [exact Hr|]. split_and!; [rewrite Hx|rewrite Hm|rewrite Hb]; reflexivity.
Defined.
