(* ===== verification/PerfHelper.v ===== *)
(** * PerfHelper: perf_helper/perf_helper.c

    Log buffers written through proc files, a few sysfs switches, and the
    three parts of the module (perflock, mimd, sched_assi) with their init and
    exit functions. *)

From S2P Require Import Prelude KText KTextRef KMonad ThermalAttr.

Definition PERF_HELPER_BUF_SIZE : nat := Z.to_nat 1024.
Definition PERF_HELPER_LOG_SIZE : nat := Z.to_nat (4096 * 4).
Definition KDAMOND_SIZE : nat := 64.

Record perf_vars := PerfVars {
  perflock_records_buff : bytes;
  perflock_exception_buff : bytes;
  mimd_log_buff : bytes;
  reclaim_buff : bytes;
  kdamond_cpuset : bytes;
  sched_long_runnable_check : bool;
  sched_long_running_check : bool;
  kdamond_pid : Z;
  kswapd_pid : Z;
  kcompactd_pid : Z;
  sfui_pid : Z;
  sfre_pid : Z;
  scan_type : Z;
  reclaim_count : Z
}.

Definition perf_initial : perf_vars :=
  PerfVars (replicate PERF_HELPER_LOG_SIZE NUL) (replicate PERF_HELPER_LOG_SIZE NUL)
    (replicate PERF_HELPER_LOG_SIZE NUL) (replicate PERF_HELPER_BUF_SIZE NUL)
    (bs "0-7" ++ replicate (KDAMOND_SIZE - 3) NUL)
    false false (-1) (-1) (-1) (-1) (-1) 0 0.

Definition set_records (b : bytes) (v : perf_vars) : perf_vars :=
  PerfVars b (perflock_exception_buff v) (mimd_log_buff v) (reclaim_buff v)
    (kdamond_cpuset v) (sched_long_runnable_check v) (sched_long_running_check v)
    (kdamond_pid v) (kswapd_pid v) (kcompactd_pid v) (sfui_pid v) (sfre_pid v)
    (scan_type v) (reclaim_count v).
Definition set_exception (b : bytes) (v : perf_vars) : perf_vars :=
  PerfVars (perflock_records_buff v) b (mimd_log_buff v) (reclaim_buff v)
    (kdamond_cpuset v) (sched_long_runnable_check v) (sched_long_running_check v)
    (kdamond_pid v) (kswapd_pid v) (kcompactd_pid v) (sfui_pid v) (sfre_pid v)
    (scan_type v) (reclaim_count v).
Definition set_mimd_log (b : bytes) (v : perf_vars) : perf_vars :=
  PerfVars (perflock_records_buff v) (perflock_exception_buff v) b (reclaim_buff v)
    (kdamond_cpuset v) (sched_long_runnable_check v) (sched_long_running_check v)
    (kdamond_pid v) (kswapd_pid v) (kcompactd_pid v) (sfui_pid v) (sfre_pid v)
    (scan_type v) (reclaim_count v).
Definition set_reclaim (b : bytes) (n : Z) (v : perf_vars) : perf_vars :=
  PerfVars (perflock_records_buff v) (perflock_exception_buff v) (mimd_log_buff v) b
    (kdamond_cpuset v) (sched_long_runnable_check v) (sched_long_running_check v)
    (kdamond_pid v) (kswapd_pid v) (kcompactd_pid v) (sfui_pid v) (sfre_pid v)
    (scan_type v) n.
Definition set_sched (cpuset : bytes) (runnable running : bool) (v : perf_vars) : perf_vars :=
  PerfVars (perflock_records_buff v) (perflock_exception_buff v) (mimd_log_buff v)
    (reclaim_buff v) cpuset runnable running
    (kdamond_pid v) (kswapd_pid v) (kcompactd_pid v) (sfui_pid v) (sfre_pid v)
    (scan_type v) (reclaim_count v).

Section files.
Context `{KText}.

(** [copy_from_user] of [len] bytes of which [left] cannot be read: the part
    that cannot be read is filled with zeros. *)
Definition copy_from_user (dst user : bytes) (len left : nat) : bytes :=
  memcpy dst 0 (take (len - left) user ++ replicate (Nat.min left len) NUL).

(** [dst] is [None] for a null pointer. *)
Definition perf_helper_copy_user (dst : option bytes) (dst_size : nat)
    (user : bytes) (count left : nat) : Z * option bytes :=
  let len := Z.to_nat (Z.min (Z.of_nat count) (u64 (Z.of_nat dst_size - 1))) in
  match dst with
  | None => (- EINVAL, dst)
  | Some d =>
      if (dst_size =? 0)%nat then (- EINVAL, dst)
      else
        let d := copy_from_user d user len left in
        if negb (Nat.min left len =? 0)%nat then (- EFAULT, Some d)
        else
          let d := <[len := NUL]> d in
          (Z.of_nat count, Some (strim d))
  end.

(** The write handlers, one buffer each.  The results of the proc writes are
    those of the copy. *)
Definition write_buff (b : bytes) (size : nat) (user : bytes) (count left : nat)
  : Z * bytes :=
  let '(ret, d) := perf_helper_copy_user (Some b) size user count left in
  (ret, default b d).

Definition perflock_records_write (v : perf_vars) (user : bytes) (count left : nat)
  : Z * perf_vars :=
  let '(ret, b) := write_buff (perflock_records_buff v) PERF_HELPER_LOG_SIZE user count left in
  (ret, set_records b v).

Definition perflock_exception_write (v : perf_vars) (user : bytes) (count left : nat)
  : Z * perf_vars :=
  let '(ret, b) := write_buff (perflock_exception_buff v) PERF_HELPER_LOG_SIZE user count left in
  (ret, set_exception b v).

Definition mimdlog_write (v : perf_vars) (user : bytes) (count left : nat)
  : Z * perf_vars :=
  let '(ret, b) := write_buff (mimd_log_buff v) PERF_HELPER_LOG_SIZE user count left in
  (ret, set_mimd_log b v).

Definition global_reclaim_write (v : perf_vars) (user : bytes) (count left : nat)
  : Z * perf_vars :=
  let '(ret, b) := write_buff (reclaim_buff v) PERF_HELPER_BUF_SIZE user count left in
  (ret, set_reclaim b (if 0 <? ret then u64 (reclaim_count v + 1) else reclaim_count v) v).

Definition perflock_records_show (v : perf_vars) : bytes :=
  cstr (perflock_records_buff v) ++ [NL].
Definition perflock_exception_show (v : perf_vars) : bytes :=
  cstr (perflock_exception_buff v) ++ [NL].
Definition mimdlog_show (v : perf_vars) : bytes := cstr (mimd_log_buff v) ++ [NL].
Definition global_reclaim_show (v : perf_vars) : bytes :=
  bs "reclaimed=" ++ fmt_u (reclaim_count v) ++ [NL] ++ cstr (reclaim_buff v) ++ [NL].

(** [m->private], the address of one of the pid variables. *)
Definition pid_show_common (pid : option Z) : bytes := fmt_d (default (-1) pid) ++ [NL].
Definition kswapd_pid_open (v : perf_vars) : bytes := pid_show_common (Some (kswapd_pid v)).
Definition kcompactd_pid_open (v : perf_vars) : bytes :=
  pid_show_common (Some (kcompactd_pid v)).
Definition sfui_pid_open (v : perf_vars) : bytes := pid_show_common (Some (sfui_pid v)).
Definition sfre_pid_open (v : perf_vars) : bytes := pid_show_common (Some (sfre_pid v)).

Definition mimdtrigger_show (v : perf_vars) (buf : bytes) : Z * bytes :=
  show_text (fmt_u (reclaim_count v) ++ [NL]) buf.
Definition mimdtrigger_store (v : perf_vars) (count : nat) : Z * perf_vars :=
  (Z.of_nat count, set_reclaim (reclaim_buff v) (u64 (reclaim_count v + 1)) v).
Definition mimdnotifier_show (v : perf_vars) (buf : bytes) : Z * bytes :=
  show_text (fmt_u (scan_type v) ++ [NL]) buf.
Definition mimdnotifier_store (v : perf_vars) (count : nat) : Z * perf_vars :=
  (Z.of_nat count, v).

(** [kstrtobool(buf, &flag) ?: count]. *)
Definition sched_long_runnable_check_store (v : perf_vars) (buf : bytes) (count : nat)
  : Z * perf_vars :=
  match kstrtobool (cstr buf) with
  | inl e => (e, v)
  | inr b => (Z.of_nat count,
              set_sched (kdamond_cpuset v) b (sched_long_running_check v) v)
  end.
Definition sched_long_running_check_store (v : perf_vars) (buf : bytes) (count : nat)
  : Z * perf_vars :=
  match kstrtobool (cstr buf) with
  | inl e => (e, v)
  | inr b => (Z.of_nat count,
              set_sched (kdamond_cpuset v) (sched_long_runnable_check v) b v)
  end.
Definition sched_long_runnable_check_show (v : perf_vars) (buf : bytes) : Z * bytes :=
  show_text (fmt_u (if sched_long_runnable_check v then 1 else 0) ++ [NL]) buf.
Definition sched_long_running_check_show (v : perf_vars) (buf : bytes) : Z * bytes :=
  show_text (fmt_u (if sched_long_running_check v then 1 else 0) ++ [NL]) buf.

Definition kdamond_cpuset_show (v : perf_vars) (buf : bytes) : Z * bytes :=
  show_text (cstr (kdamond_cpuset v) ++ [NL]) buf.
Definition kdamond_cpuset_store (v : perf_vars) (buf : bytes) (count : nat)
  : Z * perf_vars :=
  let len := Nat.min count (KDAMOND_SIZE - 1) in
  let b := memcpy (kdamond_cpuset v) 0 (take len buf) in
  let b := <[len := NUL]> b in
  let b := strim b in
  (Z.of_nat count, set_sched b (sched_long_runnable_check v) (sched_long_running_check v) v).
End files.

(** ** The life of the module *)

(** The two proc directories with all that is below them, and the two
    kobjects with their groups. *)
Inductive perf_res := RPerflockDir | RMimdDir | RMimdKobj | RMimdGroup
  | RSchedKobj | RSchedGroup.
#[global] Instance perf_res_eq_dec : EqDecision perf_res.
Proof. solve_decision. Defined.

(** The pointers of the module ([true] is non-NULL). *)
Record perf_state := PerfState {
  perflock_dir : bool; mimd_dir : bool; mimd_kobj : bool; sched_assi_kobj : bool
}.

Record perf_env := PerfEnv {
  e_perflock_dir : bool; e_mimd_dir : bool; e_mimd_kobj : bool; e_mimd_group : Z;
  e_sched_kobj : bool; e_sched_group : Z
}.

Section module.
Local Abbreviation M := (km perf_state perf_res).

Definition perflock_init (env : perf_env) : M Z :=
  ok ← acquire_ptr (e_perflock_dir env) RPerflockDir;
  _ ← modify (fun s => PerfState ok (mimd_dir s) (mimd_kobj s) (sched_assi_kobj s));
  if negb ok then mret (- ENOMEM) else mret 0.

(** [remove_proc_subtree] finds the directory by name. *)
Definition perflock_exit : M unit :=
  d ← gets perflock_dir;
  _ ← (if (d : bool) then release RPerflockDir else mret ());
  modify (fun s => PerfState false (mimd_dir s) (mimd_kobj s) (sched_assi_kobj s)).

Definition mimd_init (env : perf_env) : M Z :=
  d ← acquire_ptr (e_mimd_dir env) RMimdDir;
  _ ← modify (fun s => PerfState (perflock_dir s) d (mimd_kobj s) (sched_assi_kobj s));
  ok ← acquire_ptr (e_mimd_kobj env) RMimdKobj;
  _ ← modify (fun s => PerfState (perflock_dir s) (mimd_dir s) ok (sched_assi_kobj s));
  if negb ok then mret (- ENOMEM) else
  acquire_ret (e_mimd_group env) RMimdGroup.

(** [sysfs_remove_group] of a group that was not created removes nothing. *)
Definition mimd_exit (group : bool) : M unit :=
  k ← gets mimd_kobj;
  _ ← (if (k : bool) then
         _ ← (if group then release RMimdGroup else mret ());
         _ ← release RMimdKobj;
         modify (fun s => PerfState (perflock_dir s) (mimd_dir s) false (sched_assi_kobj s))
       else mret ());
  d ← gets mimd_dir;
  _ ← (if (d : bool) then release RMimdDir else mret ());
  modify (fun s => PerfState (perflock_dir s) false (mimd_kobj s) (sched_assi_kobj s)).

Definition sched_assi_init (env : perf_env) : M Z :=
  ok ← acquire_ptr (e_sched_kobj env) RSchedKobj;
  _ ← modify (fun s => PerfState (perflock_dir s) (mimd_dir s) (mimd_kobj s) ok);
  if negb ok then mret (- ENOMEM) else
  acquire_ret (e_sched_group env) RSchedGroup.

Definition sched_assi_exit (group : bool) : M unit :=
  k ← gets sched_assi_kobj;
  if negb k then mret () else
  _ ← (if group then release RSchedGroup else mret ());
  _ ← release RSchedKobj;
  modify (fun s => PerfState (perflock_dir s) (mimd_dir s) (mimd_kobj s) false).

Definition err_mimd (ret : Z) : M Z := _ ← perflock_exit; mret ret.
Definition err_sched_assi (env : perf_env) (ret : Z) : M Z :=
  _ ← mimd_exit (e_mimd_group env =? 0); err_mimd ret.

Definition perf_helper_init (env : perf_env) : M Z :=
  ret ← perflock_init env;
  if negb (ret =? 0) then mret ret else
  ret ← mimd_init env;
  if negb (ret =? 0) then err_mimd ret else
  ret ← sched_assi_init env;
  if negb (ret =? 0) then err_sched_assi env ret else
  mret 0.

Definition perf_helper_exit (env : perf_env) : M unit :=
  _ ← sched_assi_exit (e_sched_group env =? 0);
  _ ← mimd_exit (e_mimd_group env =? 0);
  perflock_exit.
End module.

(** ** Properties *)

(** A log buffer: its size, and a terminator in its last byte. *)
Definition log_ok (size : nat) (b : bytes) : Prop :=
  length b = size /\ b !! (size - 1)%nat = Some NUL.

Definition perf_ok (v : perf_vars) : Prop :=
  log_ok PERF_HELPER_LOG_SIZE (perflock_records_buff v) /\
  log_ok PERF_HELPER_LOG_SIZE (perflock_exception_buff v) /\
  log_ok PERF_HELPER_LOG_SIZE (mimd_log_buff v) /\
  log_ok PERF_HELPER_BUF_SIZE (reclaim_buff v) /\
  log_ok KDAMOND_SIZE (kdamond_cpuset v).

#[global] Arguments PERF_HELPER_LOG_SIZE : simpl never.
#[global] Arguments PERF_HELPER_BUF_SIZE : simpl never.

Section copy_properties.
Context `{KText}.

Lemma log_ok_terminated size b : log_ok size b -> terminated b.
Proof. intros [_ Hn]. by eapply terminated_lookup. Qed.

Lemma insert_nul_ok size b k : log_ok size b -> log_ok size (<[k := NUL]> b).
Proof.
  intros [Hl Hn]. split; [by rewrite length_insert|].
  destruct (decide (k = (size - 1)%nat)) as [->|Hne].
  - apply list_lookup_insert_eq. by eapply lookup_lt_Some.
  - by rewrite list_lookup_insert_ne.
Qed.

Lemma strim_ok size b : log_ok size b -> log_ok size (strim b).
Proof. apply insert_nul_ok. Qed.

Lemma memcpy_ok size b src :
  log_ok size b -> (length src < size)%nat -> log_ok size (memcpy b 0 src).
Proof.
  intros [Hl Hn] Hs. unfold memcpy. split; [by rewrite length_inserts|].
  rewrite list_lookup_inserts_ge by (simpl; lia). done.
Qed.

(** The copy into a log buffer, on every branch. *)
Lemma copy_user_spec size b user count left :
  (0 < size)%nat -> Z.of_nat size <= 65536 -> log_ok size b -> length user = count ->
  let '(ret, b') := write_buff b size user count left in
  log_ok size b' /\
  let len := Nat.min count (size - 1) in
  if (Nat.min left len =? 0)%nat
  then ret = Z.of_nat count /\ cstr b' = rstrip (cstr (take (size - 1) user))
  else ret = - EFAULT.
Proof.
  intros Hpos Hmax Hb Hu. unfold write_buff, perf_helper_copy_user.
  rewrite u64_id by klia.
  replace (Z.to_nat (Z.min (Z.of_nat count) (Z.of_nat size - 1)))
    with (Nat.min count (size - 1)) by lia.
  replace (size =? 0)%nat with false by lia. cbv zeta.
  set (len := Nat.min count (size - 1)). unfold copy_from_user.
  assert (log_ok size (memcpy b 0 (take (len - left) user ++
    replicate (Nat.min left len) NUL))) as Hcopy.
  { apply memcpy_ok; [done|]. rewrite length_app, length_take, length_replicate.
    unfold len. lia. }
  destruct (Nat.min left len =? 0)%nat eqn:E; simpl; [|by split].
  assert (Nat.min left len = 0)%nat as E0 by lia. rewrite E0 in *. simpl in *.
  rewrite app_nil_r in *.
  split; [by apply strim_ok, insert_nul_ok|]. split; [done|].
  rewrite cstr_strim by (by eapply log_ok_terminated, insert_nul_ok).
  replace (len - left)%nat with len by lia.
  destruct Hb as [Hl _]. rewrite memcpy_take by (unfold len; lia).
  replace (take len user) with (take (size - 1) user).
  2:{ unfold len. destruct (decide (count <= size - 1)%nat).
      - rewrite Nat.min_l by lia. by rewrite !take_ge by lia.
      - by rewrite Nat.min_r by lia. }
  f_equal. clear. induction (take (size - 1) user) as [|c t IH]; simpl; [done|].
  case_decide; [done|]. by f_equal.
Qed.

(** The log buffers.  Whatever is written to whichever of the four proc
    files and to the cpuset attribute, faults in the middle of the copy
    included, every buffer keeps its size and a terminator in its last byte,
    so reading it back never leaves it; a write without a fault leaves the
    text up to its first NUL, cut to the buffer and without trailing white
    space, and reports all of its bytes as written even when it was cut. *)
Theorem log_writes_ok v user count left :
  perf_ok v -> length user = count ->
  perf_ok (perflock_records_write v user count left).2 /\
  perf_ok (perflock_exception_write v user count left).2 /\
  perf_ok (mimdlog_write v user count left).2 /\
  perf_ok (global_reclaim_write v user count left).2 /\
  perf_ok (kdamond_cpuset_store v (sysfs_buf user) count).2 /\
  (left = 0%nat ->
     let '(ret, v') := perflock_records_write v user count left in
     ret = Z.of_nat count /\ perflock_records_show v' =
       rstrip (cstr (take (PERF_HELPER_LOG_SIZE - 1) user)) ++ [NL]).
Proof.
  intros Hv Hu. pose proof Hv as (H1 & H2 & H3 & H4 & H5).
  assert (0 < PERF_HELPER_LOG_SIZE)%nat as Hp1 by (unfold PERF_HELPER_LOG_SIZE; lia).
  assert (0 < PERF_HELPER_BUF_SIZE)%nat as Hp2 by (unfold PERF_HELPER_BUF_SIZE; lia).
  assert (Z.of_nat PERF_HELPER_LOG_SIZE <= 65536) as Hm1 by (unfold PERF_HELPER_LOG_SIZE; lia).
  assert (Z.of_nat PERF_HELPER_BUF_SIZE <= 65536) as Hm2 by (unfold PERF_HELPER_BUF_SIZE; lia).
  pose proof (copy_user_spec _ _ user count left Hp1 Hm1 H1 Hu) as C1.
  pose proof (copy_user_spec _ _ user count left Hp1 Hm1 H2 Hu) as C2.
  pose proof (copy_user_spec _ _ user count left Hp1 Hm1 H3 Hu) as C3.
  pose proof (copy_user_spec _ _ user count left Hp2 Hm2 H4 Hu) as C4.
  unfold perflock_records_write, perflock_exception_write, mimdlog_write,
    global_reclaim_write.
  destruct (write_buff (perflock_records_buff v) _ _ _ _) as [r1 b1].
  destruct (write_buff (perflock_exception_buff v) _ _ _ _) as [r2 b2].
  destruct (write_buff (mimd_log_buff v) _ _ _ _) as [r3 b3].
  destruct (write_buff (reclaim_buff v) _ _ _ _) as [r4 b4].
  destruct C1 as [K1 C1], C2 as [K2 _], C3 as [K3 _], C4 as [K4 _].
  split; [done|]. split; [done|]. split; [done|]. split; [done|]. split.
  - split; [done|]. split; [done|]. split; [done|]. split; [done|].
    simpl. apply strim_ok, insert_nul_ok, memcpy_ok; [done|].
    rewrite length_take. unfold KDAMOND_SIZE. lia.
  - intros ->. simpl in C1. destruct C1 as [-> Hc]. split; [done|].
    unfold perflock_records_show. simpl. by rewrite Hc.
Qed.
End copy_properties.

Definition perf_unloaded : perf_state := PerfState false false false false.

(** C26: the life of the module, for every outcome of the kernel calls.  A
    load that succeeds is undone completely by the exit function.  A load
    that fails is not: when the kobject of mimd or its group cannot be
    created, the proc directory mimd (and, in the second case, the kobject)
    stays behind although the module is not loaded, so its handlers point
    into freed code; and when the group of sched_assi cannot be created its
    kobject stays. *)
Theorem perf_helper_life env :
  let '(ret, s1, t1) := perf_helper_init env perf_unloaded in
  let '(_, s2, t2) := perf_helper_exit env s1 in
  (ret = 0 -> replay_lifo (t1 ++ t2) [] = Some [] /\
     s2 = perf_unloaded) /\
  (ret <> 0 -> replay t1 [] = Some
     (if negb (e_perflock_dir env) then []
      else if negb (e_mimd_kobj env) then (if e_mimd_dir env then [RMimdDir] else [])
      else if negb (e_mimd_group env =? 0)
           then RMimdKobj :: (if e_mimd_dir env then [RMimdDir] else [])
      else if negb (e_sched_kobj env) then []
      else [RSchedKobj])).
Proof.
  unfold perf_helper_init, perf_helper_exit, err_sched_assi, err_mimd, perflock_init,
    perflock_exit, mimd_init, mimd_exit, sched_assi_init, sched_assi_exit, acquire_ptr,
    acquire_ret, perf_unloaded.
  destruct env as [e1 e2 e3 g1 e4 g2].
  cbn [e_perflock_dir e_mimd_dir e_mimd_kobj e_mimd_group e_sched_kobj e_sched_group].
  destruct e1, e2, e3, e4, (g1 =? 0) eqn:E1, (g2 =? 0) eqn:E2; km_run;
    repeat (rewrite ?E1, ?E2; cbn); split; intros ?; try lia;
    try (by split); try done; by vm_compute.
Qed.

(** ** Witnesses *)

#[local] Existing Instance KTextRef.

Lemma replicate_log_ok n : (0 < n)%nat -> log_ok n (replicate n NUL).
Proof. intros Hn. split; [apply length_replicate|]. apply lookup_replicate_2. lia. Qed.

Lemma perf_initial_ok : perf_ok perf_initial.
Proof.
  unfold perf_ok, perf_initial. cbn [perflock_records_buff perflock_exception_buff
    mimd_log_buff reclaim_buff kdamond_cpuset].
  split; [apply replicate_log_ok; unfold PERF_HELPER_LOG_SIZE; lia|].
  split; [apply replicate_log_ok; unfold PERF_HELPER_LOG_SIZE; lia|].
  split; [apply replicate_log_ok; unfold PERF_HELPER_LOG_SIZE; lia|].
  split; [apply replicate_log_ok; unfold PERF_HELPER_BUF_SIZE; lia|done].
Qed.

Lemma log_writes_ok_witness :
  let v := perf_initial in
  let user := bs "boost 3 " ++ [NL] in
  perf_ok (perflock_records_write v user 9 0).2 /\
  perf_ok (perflock_exception_write v user 9 0).2 /\
  perf_ok (mimdlog_write v user 9 0).2 /\
  perf_ok (global_reclaim_write v user 9 0).2 /\
  perf_ok (kdamond_cpuset_store v (sysfs_buf user) 9).2 /\
  (0%nat = 0%nat ->
     let '(ret, v') := perflock_records_write v user 9 0 in
     ret = 9 /\ perflock_records_show v' =
       rstrip (cstr (take (PERF_HELPER_LOG_SIZE - 1) user)) ++ [NL]).
Proof. apply (log_writes_ok perf_initial); [apply perf_initial_ok|done]. Defined.
