(* ===== verification/PerfFiles.v ===== *)
(** * PerfFiles: the files and attributes of perf_helper/perf_helper.c

    The proc_ops tables and the attributes as two dispatch functions over the
    handlers of [PerfHelper], the open functions with their show functions, and
    what any sequence of accesses does. *)

From S2P Require Import Prelude KText KTextRef ThermalAttr PerfHelper.

Inductive perf_file :=
| perflock_records | perflock_exception | kswapd_pid_file | kcompactd_pid_file
| sfui_pid_file | sfre_pid_file | mimdlog | global_reclaim.

Inductive perf_attr :=
| mimdtrigger | mimdnotifier | sched_long_runnable | sched_long_running | kdamond_cpuset_attr.

#[global] Instance perf_file_eq_dec : EqDecision perf_file.
Proof. solve_decision. Defined.

Section files.
Context `{KText}.

(** The open functions hand their show function to [single_open]; what they
    give here is the text a read then returns. *)
Definition perflock_records_open (v : perf_vars) : bytes := perflock_records_show v.
Definition perflock_exception_open (v : perf_vars) : bytes := perflock_exception_show v.
Definition mimdlog_open (v : perf_vars) : bytes := mimdlog_show v.
Definition global_reclaim_open (v : perf_vars) : bytes := global_reclaim_show v.

Definition file_read (f : perf_file) (v : perf_vars) : bytes :=
  match f with
  | perflock_records => perflock_records_open v
  | perflock_exception => perflock_exception_open v
  | kswapd_pid_file => kswapd_pid_open v
  | kcompactd_pid_file => kcompactd_pid_open v
  | sfui_pid_file => sfui_pid_open v
  | sfre_pid_file => sfre_pid_open v
  | mimdlog => mimdlog_open v
  | global_reclaim => global_reclaim_open v
  end.

(** [None] when the table has no [proc_write]. *)
Definition file_write (f : perf_file) (v : perf_vars) (user : bytes) (fault : nat)
  : option (Z * perf_vars) :=
  match f with
  | perflock_records => Some (perflock_records_write v user (length user) fault)
  | perflock_exception => Some (perflock_exception_write v user (length user) fault)
  | mimdlog => Some (mimdlog_write v user (length user) fault)
  | global_reclaim => Some (global_reclaim_write v user (length user) fault)
  | _ => None
  end.

Definition perf_attr_show (a : perf_attr) (v : perf_vars) (buf : bytes) : Z * bytes :=
  match a with
  | mimdtrigger => mimdtrigger_show v buf
  | mimdnotifier => mimdnotifier_show v buf
  | sched_long_runnable => sched_long_runnable_check_show v buf
  | sched_long_running => sched_long_running_check_show v buf
  | kdamond_cpuset_attr => kdamond_cpuset_show v buf
  end.

(** The text is in a page that the kernel terminates. *)
Definition perf_attr_store (a : perf_attr) (v : perf_vars) (text : bytes) : Z * perf_vars :=
  match a with
  | mimdtrigger => mimdtrigger_store v (length text)
  | mimdnotifier => mimdnotifier_store v (length text)
  | sched_long_runnable => sched_long_runnable_check_store v (sysfs_buf text) (length text)
  | sched_long_running => sched_long_running_check_store v (sysfs_buf text) (length text)
  | kdamond_cpuset_attr => kdamond_cpuset_store v (sysfs_buf text) (length text)
  end.

(** The scheduler callbacks of the file. *)
Definition is_entity_eligible (_cfs_rq _se : Z) : bool := true.
Definition mi_cfs_enqueue_runnable_task (_rq _p : Z) (v : perf_vars) : perf_vars := v.
Definition mi_cfs_dequeue_runnable_task (_rq _p : Z) (v : perf_vars) : perf_vars := v.

(** An access that changes state; a write to a file without write function is
    refused before it reaches the module. *)
Inductive perf_op :=
| OpWrite (f : perf_file) (user : bytes) (fault : nat)
| OpStore (a : perf_attr) (text : bytes).

Definition perf_op_run (o : perf_op) (v : perf_vars) : perf_vars :=
  match o with
  | OpWrite f user fault =>
      match file_write f v user fault with Some (_, v') => v' | None => v end
  | OpStore a text => (perf_attr_store a v text).2
  end.

Definition perf_run (os : list perf_op) (v : perf_vars) : perf_vars :=
  foldl (fun v o => perf_op_run o v) v os.

(** The variables no handler assigns. *)
Definition perf_constants (v : perf_vars) : list Z :=
  [kdamond_pid v; kswapd_pid v; kcompactd_pid v; sfui_pid v; sfre_pid v; scan_type v].

Definition perf_typed (v : perf_vars) : Prop := perf_ok v /\ in_u64 (reclaim_count v).

(** What a write without fault leaves of a text in a buffer of [size]. *)
Definition kept (size : nat) (user : bytes) : bytes := rstrip (cstr (take (size - 1) user)).

Lemma log_size_pos : (0 < PERF_HELPER_LOG_SIZE)%nat /\ Z.of_nat PERF_HELPER_LOG_SIZE <= 65536.
Proof. unfold PERF_HELPER_LOG_SIZE. lia. Qed.
Lemma buf_size_pos : (0 < PERF_HELPER_BUF_SIZE)%nat /\ Z.of_nat PERF_HELPER_BUF_SIZE <= 65536.
Proof. unfold PERF_HELPER_BUF_SIZE. lia. Qed.

(** A write to one of the buffers. *)
Lemma write_buff_ok size b user fault :
  (0 < size)%nat /\ Z.of_nat size <= 65536 -> log_ok size b ->
  log_ok size (write_buff b size user (length user) fault).2 /\
  (fault = 0%nat -> (write_buff b size user (length user) fault).1 = Z.of_nat (length user) /\
     cstr (write_buff b size user (length user) fault).2 = kept size user).
Proof.
  intros [Hp Hm] Hb. pose proof (copy_user_spec size b user (length user) fault Hp Hm Hb eq_refl) as Hc.
  destruct (write_buff _ _ _ _ _) as [r b']. destruct Hc as [Hk Hc]. split; [done|].
  intros ->. simpl in Hc. exact Hc.
Qed.

Lemma perf_op_typed o v :
  perf_typed v -> perf_typed (perf_op_run o v) /\ perf_constants (perf_op_run o v) = perf_constants v.
Proof.
  intros [(H1 & H2 & H3 & H4 & H5) Hn]. destruct o as [f user fault|a text]; simpl.
  - pose proof (write_buff_ok _ _ user fault log_size_pos H1) as [K1 _].
    pose proof (write_buff_ok _ _ user fault log_size_pos H2) as [K2 _].
    pose proof (write_buff_ok _ _ user fault log_size_pos H3) as [K3 _].
    pose proof (write_buff_ok _ _ user fault buf_size_pos H4) as [K4 _].
    destruct f; simpl; try (by split_and!);
      unfold perflock_records_write, perflock_exception_write, mimdlog_write, global_reclaim_write;
      match goal with |- context [write_buff ?d ?n ?u ?c ?k] =>
      destruct (write_buff d n u c k) as [r b] end; simpl in *; split; try done; split; try done.
    simpl. case_match; [apply u64_range|done].
  - destruct a; simpl.
    + split; [|done]. split; [done|]. simpl. apply u64_range.
    + done.
    + unfold sched_long_runnable_check_store. by case_match.
    + unfold sched_long_running_check_store. by case_match.
    + split; [|done]. split; [|done]. split_and!; try done. simpl.
      apply strim_ok, insert_nul_ok, memcpy_ok; [done|]. rewrite length_take. unfold KDAMOND_SIZE. lia.
Qed.

Lemma perf_run_typed os v :
  perf_typed v -> perf_typed (perf_run os v) /\ perf_constants (perf_run os v) = perf_constants v.
Proof.
  revert v. induction os as [|o os IH]; intros v Hv; [done|].
  destruct (perf_op_typed o v Hv) as [Hv' Hc]. destruct (IH _ Hv') as [H1 H2].
  split; [exact H1|]. by rewrite <- Hc, <- H2.
Qed.

(** A write without fault and the reads after it. *)
Lemma file_write_read f user v :
  perf_typed v ->
  match file_write f v user 0 with
  | None => f ∈ [kswapd_pid_file; kcompactd_pid_file; sfui_pid_file; sfre_pid_file]
  | Some (ret, v') =>
      ret = Z.of_nat (length user) /\
      file_read f v' =
        (if decide (f = global_reclaim)
         then bs "reclaimed=" ++
              fmt_u (if decide (user = []) then reclaim_count v else u64 (reclaim_count v + 1)) ++
              [NL] ++ kept PERF_HELPER_BUF_SIZE user
         else kept PERF_HELPER_LOG_SIZE user) ++ [NL] /\
      forall g, g <> f -> file_read g v' = file_read g v
  end.
Proof.
  intros Hv.
  destruct Hv as [(H1 & H2 & H3 & H4 & H5) Hn].
  pose proof (write_buff_ok _ _ user 0 log_size_pos H1) as [_ K1].
  pose proof (write_buff_ok _ _ user 0 log_size_pos H2) as [_ K2].
  pose proof (write_buff_ok _ _ user 0 log_size_pos H3) as [_ K3].
  pose proof (write_buff_ok _ _ user 0 buf_size_pos H4) as [_ K4].
  destruct f; cbn [file_write];
    try (apply list_elem_of_In; simpl; tauto);
    unfold perflock_records_write, perflock_exception_write, mimdlog_write, global_reclaim_write;
    match goal with |- context [write_buff ?d ?n ?u ?c ?k] =>
      destruct (write_buff d n u c k) as [r b] end; cbn [fst snd] in *;
    [destruct (K1 eq_refl) as [-> Hb]|destruct (K2 eq_refl) as [-> Hb]|
     destruct (K3 eq_refl) as [-> Hb]|destruct (K4 eq_refl) as [-> Hb]];
    (split; [done|]); (split; [|intros g Hg; by destruct g]); clear K1 K2 K3 K4;
    cbn [file_read]; [rewrite decide_False by done..|rewrite decide_True by done].
  - unfold perflock_records_open, perflock_records_show, set_records.
    cbn [PerfHelper.perflock_records_buff]. by rewrite Hb.
  - unfold perflock_exception_open, perflock_exception_show, set_exception.
    cbn [PerfHelper.perflock_exception_buff]. by rewrite Hb.
  - unfold mimdlog_open, mimdlog_show, set_mimd_log. cbn [PerfHelper.mimd_log_buff]. by rewrite Hb.
  - unfold global_reclaim_open, global_reclaim_show, set_reclaim.
    cbn [PerfHelper.reclaim_count PerfHelper.reclaim_buff]. rewrite Hb, <- !app_assoc.
    destruct user as [|c user]; [done|]. rewrite decide_False by done. done.
Qed.

(** C30: The files of the module after any sequence of writes and stores, faults
    in the middle of a copy included.  Every buffer keeps its size and a
    terminator, and the counter its width; nothing ever sets the pids, so that
    the four pid files show -1 for ever; and a write without a fault is read
    back as its text up to the first NUL, cut to the buffer and without
    trailing white space, while the text of every other file stays. *)
Theorem perf_files_spec (os : list perf_op) (f : perf_file) (user : bytes) :
  let v := perf_run os perf_initial in
  perf_typed v /\
  Forall (fun p => file_read p v = bs "-1" ++ [NL])
    [kswapd_pid_file; kcompactd_pid_file; sfui_pid_file; sfre_pid_file] /\
  match file_write f v user 0 with
  | None => f ∈ [kswapd_pid_file; kcompactd_pid_file; sfui_pid_file; sfre_pid_file]
  | Some (ret, v') =>
      ret = Z.of_nat (length user) /\
      file_read f v' =
        (if decide (f = global_reclaim)
         then bs "reclaimed=" ++
              fmt_u (if decide (user = []) then reclaim_count v else u64 (reclaim_count v + 1)) ++
              [NL] ++ kept PERF_HELPER_BUF_SIZE user
         else kept PERF_HELPER_LOG_SIZE user) ++ [NL] /\
      forall g, g <> f -> file_read g v' = file_read g v
  end.
Proof.
  cbv zeta. assert (perf_typed perf_initial) as H0 by (split; [apply perf_initial_ok|done]).
  destruct (perf_run_typed os perf_initial H0) as [Hv Hc].
  revert Hv Hc. generalize (perf_run os perf_initial) as v. intros v Hv Hc. split; [done|].
  injection Hc as _ Hk1 Hk2 Hk3 Hk4 _. split.
  { repeat constructor; simpl;
      unfold kswapd_pid_open, kcompactd_pid_open, sfui_pid_open, sfre_pid_open;
      by rewrite ?Hk1, ?Hk2, ?Hk3, ?Hk4. }
  by apply file_write_read.
Qed.
End files.
