(* ===== verification/PerfRace.v ===== *)
(** * PerfRace: concurrent use of the buffers and the counter of perf_helper/perf_helper.c

    The mutexes cover the log files, but kdamond_cpuset is written and shown
    without a lock, global_reclaim is shown without one, and mimdtrigger
    increments the counter that global_reclaim_write increments under
    mimd_lock.  Here the handlers run as threads: a buffer is accessed one
    byte at a time, the counter by a load and a store, in any interleaving. *)

From S2P Require Import Prelude KText KTextRef ThermalAttr PerfHelper.

(** ** A shared buffer *)

(** The handlers at the level of single bytes: the copy, the terminator at the
    end of the copied part, the three loops of [strim] (the length, backwards
    over white space, forwards over it for its result; an empty string ends
    after the first), and the read of "%s".  The message a store of kdamond_cpuset
    prints at its end reads the buffer like one more show.
    [fails] is a copy from user space that stops with a fault. *)
Inductive task :=
| Copying (src : bytes) (i len : nat) (fails : bool)
| Terminating (len : nat)
| Measuring (i : nat)
| Trimming (j : nat)
| Skipping (i : nat)
| Reading (i : nat) (out : bytes)
| Finished (out : bytes).

Definition finished (t : task) : bool := match t with Finished _ => true | _ => false end.

Section buffer.
Context `{KText}.

(** [None] is an access outside the buffer. *)
Definition task_step (b : bytes) (t : task) : option (bytes * task) :=
  match t with
  | Copying src i len fails =>
      if (i <? len)%nat then
        c ← src !! i; _ ← b !! i; Some (<[i := c]> b, Copying src (S i) len fails)
      else Some (b, if fails then Finished [] else Terminating len)
  | Terminating len => _ ← b !! len; Some (<[len := NUL]> b, Measuring 0)
  | Measuring i =>
      c ← b !! i;
      Some (b, if decide (c = NUL) then (if (i =? 0)%nat then Finished [] else Trimming i)
               else Measuring (S i))
  | Trimming j =>
      match j with
      | O => _ ← b !! O; Some (<[O := NUL]> b, Skipping 0)
      | S k =>
          c ← b !! k;
          if isspace c then Some (b, Trimming k)
          else _ ← b !! j; Some (<[j := NUL]> b, Skipping 0)
      end
  | Skipping i => c ← b !! i; Some (b, if isspace c then Skipping (S i) else Finished [])
  | Reading i out =>
      c ← b !! i;
      Some (b, if decide (c = NUL) then Finished out else Reading (S i) (out ++ [c]))
  | Finished _ => Some (b, t)
  end.

(** A handler that writes [count] bytes to a buffer of [size], and one that
    shows it. *)
Definition store_task (size : nat) (user : bytes) (count : nat) : task :=
  Copying user 0 (Nat.min count (size - 1)) false.
Definition copy_user_task (size : nat) (user : bytes) (count left : nat) : task :=
  let len := Nat.min count (size - 1) in
  Copying (take (len - left) user ++ replicate (Nat.min left len) NUL) 0 len
    (negb (Nat.min left len =? 0)%nat).
Definition show_task : task := Reading 0 [].

(** The handlers on a buffer of [size]: a store of [count] bytes of the page
    of sysfs, a write of [count] bytes from user space of which [left] cannot
    be read, and a show. *)
Inductive handler (size : nat) : task -> Prop :=
| handler_store user count :
    (count <= length user)%nat -> handler size (store_task size user count)
| handler_write user left :
    handler size (copy_user_task size user (length user) left)
| handler_show : handler size show_task.

(** One thread of many makes a step. *)
Inductive race_step : bytes * list task -> bytes * list task -> Prop :=
| race_thread b ts k t b' t' :
    ts !! k = Some t -> finished t = false -> task_step b t = Some (b', t') ->
    race_step (b, ts) (b', <[k := t']> ts).

Definition race_fault (s : bytes * list task) : Prop :=
  exists k t, s.2 !! k = Some t /\ finished t = false /\ task_step s.1 t = None.

(** ** Safety and termination *)

Definition task_ok (size : nat) (t : task) : Prop :=
  match t with
  | Copying src i len _ => (len < size)%nat /\ (len <= length src)%nat /\ (i <= len)%nat
  | Terminating len => (len < size)%nat
  | Measuring i | Trimming i | Skipping i => (i < size)%nat
  | Reading i out => (i < size)%nat /\ length out = i
  | Finished out => (length out < size)%nat
  end.

(** Steps a task can still make. *)
Definition task_left (size : nat) (t : task) : nat :=
  match t with
  | Copying _ i len _ => (len - i) + 5 * size + 4
  | Terminating _ => 5 * size + 3
  | Measuring i => (size - i) + 3 * size + 2
  | Trimming j => j + 2 * size + 1
  | Skipping i | Reading i _ => size - i
  | Finished _ => 0
  end.

Lemma insert_byte_ok size b i c :
  log_ok size b -> (i < size - 1)%nat \/ c = NUL -> log_ok size (<[i := c]> b).
Proof.
  intros [Hl Hn] Hi. split; [by rewrite length_insert|].
  destruct (decide (i = size - 1)%nat) as [->|Hne].
  - destruct Hi as [?| ->]; [lia|]. rewrite list_lookup_insert_eq; [done|].
    by apply lookup_lt_Some in Hn.
  - by rewrite list_lookup_insert_ne.
Qed.

Lemma log_lookup size b i :
  log_ok size b -> (i < size)%nat ->
  exists c, b !! i = Some c /\ (c <> NUL -> (S i < size)%nat).
Proof.
  intros [Hl Hn] Hi. destruct (lookup_lt_is_Some_2 b i) as [c Hc]; [lia|].
  exists c. split; [done|]. intros Hne. destruct (decide (i = size - 1)%nat) as [->|]; [congruence|lia].
Qed.

(** Every access is inside the buffer, and every step makes progress. *)
Lemma task_step_ok size b t :
  (0 < size)%nat -> log_ok size b -> task_ok size t -> finished t = false ->
  exists b' t', task_step b t = Some (b', t') /\ log_ok size b' /\ task_ok size t' /\
    (task_left size t' < task_left size t)%nat.
Proof.
  intros Hs Hb Ht Hf. destruct t as [src i len fails|len|i|[|k]|i|i out|out]; simpl in *; [..|done].
  - destruct Ht as (H1 & H2 & H3). destruct (Nat.ltb_spec i len) as [Hi|Hi].
    + destruct (lookup_lt_is_Some_2 src i) as [c ->]; [lia|].
      destruct (log_lookup size b i Hb) as (d & -> & _); [lia|]. simpl.
      do 2 eexists. split; [done|]. split_and!; [by apply insert_byte_ok; [|left; lia]|simpl; lia..].
    + do 2 eexists. split; [done|]. destruct fails; simpl; split_and!; (done || lia).
  - destruct (log_lookup size b len Hb Ht) as (d & -> & _). simpl.
    do 2 eexists. split; [done|]. split_and!; [by apply insert_byte_ok; [|right]|simpl; lia..].
  - destruct (log_lookup size b i Hb Ht) as (c & -> & Hc). simpl.
    do 2 eexists. split; [done|]. split; [done|].
    case_decide as Hn; [destruct (Nat.eqb_spec i 0)|specialize (Hc Hn)]; simpl; lia.
  - destruct (log_lookup size b 0 Hb Ht) as (d & -> & _). simpl.
    do 2 eexists. split; [done|]. split_and!; [by apply insert_byte_ok; [|right]|simpl; lia..].
  - destruct (log_lookup size b k Hb) as (c & -> & _); [lia|]. simpl.
    destruct (isspace c).
    + do 2 eexists. split; [done|]. split_and!; [done|simpl; lia..].
    + destruct (log_lookup size b (S k) Hb Ht) as (d & -> & _). simpl.
      do 2 eexists. split; [done|]. split_and!; [by apply insert_byte_ok; [|right]|simpl; lia..].
  - destruct (log_lookup size b i Hb Ht) as (c & -> & Hc). simpl.
    do 2 eexists. split; [done|]. split; [done|].
    destruct (isspace c) eqn:Es; [|simpl; lia].
    assert (c <> NUL) as Hn by (intros ->; by rewrite isspace_NUL in Es).
    specialize (Hc Hn). simpl. lia.
  - destruct Ht as [Hi Hl]. destruct (log_lookup size b i Hb Hi) as (c & -> & Hc). simpl.
    do 2 eexists. split; [done|]. split; [done|].
    case_decide as Hn; simpl; [lia|]. rewrite length_app. simpl. specialize (Hc Hn). lia.
Qed.

Lemma handler_ok size t : (0 < size)%nat -> handler size t -> task_ok size t.
Proof.
  intros Hs Ht. destruct Ht; simpl; [lia| |simpl; lia].
  rewrite length_app, length_take, length_replicate. lia.
Qed.

Definition race_ok (size : nat) (s : bytes * list task) : Prop :=
  log_ok size s.1 /\ Forall (task_ok size) s.2.

Definition race_left (size : nat) (s : bytes * list task) : nat :=
  sum_list (task_left size <$> s.2).

Lemma sum_list_insert_lt (f : task -> nat) ts k t t' :
  ts !! k = Some t -> (f t' < f t)%nat ->
  (sum_list (f <$> <[k := t']> ts) < sum_list (f <$> ts))%nat.
Proof.
  revert k. induction ts as [|u ts IH]; intros [|k] Hk Hlt; simplify_eq/=; [lia|].
  specialize (IH k Hk Hlt). lia.
Qed.

Lemma race_step_ok size s s' :
  (0 < size)%nat -> race_ok size s -> race_step s s' ->
  race_ok size s' /\ (race_left size s' < race_left size s)%nat.
Proof.
  intros Hs [Hb Ht] Hst. destruct Hst as [b ts k t b' t' Hk Hf Hstep]. simpl in *.
  pose proof (Forall_lookup_1 _ _ _ _ Ht Hk) as Hok.
  destruct (task_step_ok size b t Hs Hb Hok Hf) as (b2 & t2 & Heq & Hb2 & Ht2 & Hl).
  rewrite Hstep in Heq. injection Heq as -> ->. split.
  - split; [done|]. by apply Forall_insert.
  - unfold race_left. simpl. by apply (sum_list_insert_lt _ _ _ t).
Qed.

Lemma race_acc size s : (0 < size)%nat -> race_ok size s -> Acc (flip race_step) s.
Proof.
  intros Hs. remember (race_left size s) as n eqn:Hn. revert s Hn.
  induction n as [n IH] using lt_wf_ind. intros s -> Hok. constructor.
  intros s' Hst. destruct (race_step_ok size s s' Hs Hok Hst). eapply IH; eauto.
Qed.

(** C12: The buffers under races.  However many handlers write and show a buffer
    at the same time, without any lock and interleaved byte by byte, copies
    that fail in the middle included: no access leaves the buffer, its last
    byte stays a terminator, every run is finite, and it can only end with all
    handlers finished, each having shown less than the size of the buffer. *)
Theorem unlocked_buffer_safe (size : nat) (b0 : bytes) (ts0 : list task) (s : bytes * list task) :
  (0 < size)%nat -> log_ok size b0 -> Forall (handler size) ts0 ->
  rtc race_step (b0, ts0) s ->
  ~ race_fault s /\ log_ok size s.1 /\ Acc (flip race_step) s /\
  ((forall s', ~ race_step s s') ->
   Forall (fun t => exists out, t = Finished out /\ (length out < size)%nat) s.2).
Proof.
  intros Hs Hb Ht Hr. assert (race_ok size s) as Hok.
  { assert (race_ok size (b0, ts0)) as H0.
    { split; [done|]. eapply Forall_impl; [exact Ht|]. intros t. by apply handler_ok. }
    clear Hb Ht. induction Hr; [done|]. apply IHHr. by eapply race_step_ok. }
  pose proof Hok as [Hb1 Ht1]. split_and!.
  - intros (k & t & Hk & Hf & Hn).
    pose proof (Forall_lookup_1 _ _ _ _ Ht1 Hk) as Htk.
    destruct (task_step_ok size s.1 t Hs Hb1 Htk Hf) as (? & ? & ? & _). congruence.
  - done.
  - by apply (race_acc size).
  - intros Hend. apply Forall_forall. intros t Hin.
    rewrite Forall_forall in Ht1. specialize (Ht1 t Hin).
    destruct (finished t) eqn:Hf.
    { destruct t; try done. simpl in Ht1. by eexists. }
    destruct (task_step_ok size s.1 t Hs Hb1 Ht1 Hf) as (b' & t' & Hstep & _).
    apply list_elem_of_lookup in Hin as [k Hk]. destruct s as [b ts]. simpl in *.
    destruct (Hend (b', <[k := t']> ts)). by econstructor.
Qed.

(** ** A handler alone *)

(** The steps of one task. *)
Inductive solo : bytes * task -> bytes * task -> Prop :=
| solo_step b t b' t' :
    finished t = false -> task_step b t = Some (b', t') -> solo (b, t) (b', t').

Lemma memcpy_0 (b l : bytes) :
  (length l <= length b)%nat -> memcpy b 0 l = l ++ drop (length l) b.
Proof.
  intros Hl. unfold memcpy. rewrite <- (take_drop (length l) b) at 1.
  apply (list_inserts_app_here []). rewrite length_take. lia.
Qed.

Lemma memcpy_prefix (b src : bytes) i c :
  src !! i = Some c -> (i < length b)%nat ->
  <[i := c]> (memcpy b 0 (take i src)) = memcpy b 0 (take (S i) src).
Proof.
  intros Hc Hi. pose proof (lookup_lt_Some _ _ _ Hc) as Hl.
  destruct (lookup_lt_is_Some_2 b i Hi) as [d Hd].
  rewrite !memcpy_0 by (rewrite length_take; lia). rewrite !length_take, !Nat.min_l by lia.
  rewrite (take_S_r _ _ c Hc), <- app_assoc. rewrite (drop_S _ _ _ Hd).
  rewrite insert_app_r_alt by (rewrite length_take; lia).
  by rewrite length_take, Nat.min_l, Nat.sub_diag by lia.
Qed.

Lemma solo_copy b src i len fails :
  (i <= len)%nat -> (len <= length src)%nat -> (len <= length b)%nat ->
  rtc solo (memcpy b 0 (take i src), Copying src i len fails)
    (memcpy b 0 (take len src), if fails then Finished [] else Terminating len).
Proof.
  intros Hi Hsrc Hb. remember (len - i)%nat as n eqn:Hn. revert i Hi Hn.
  induction n as [|n IH]; intros i Hi Hn.
  - assert (i = len) as -> by lia. apply rtc_once. constructor; [done|]. simpl.
    by rewrite Nat.ltb_irrefl.
  - destruct (lookup_lt_is_Some_2 src i) as [c Hc]; [lia|].
    eapply rtc_l; [|apply (IH (S i)); lia]. constructor; [done|]. simpl.
    replace (i <? len)%nat with true by (symmetry; apply Nat.ltb_lt; lia). rewrite Hc. simpl.
    destruct (lookup_lt_is_Some_2 (memcpy b 0 (take i src)) i) as [d ->].
    { unfold memcpy. rewrite length_inserts. lia. }
    simpl. by rewrite (memcpy_prefix _ _ _ c) by (done || lia).
Qed.

Lemma strlen_lookup b i c :
  terminated b -> b !! i = Some c -> (i <= strlen b)%nat -> (c = NUL <-> i = strlen b).
Proof.
  intros Ht Hc Hi. destruct (cstr_split b Ht) as [r Hr]. unfold strlen in *.
  rewrite Hr in Hc. destruct (decide (i = length (cstr b))) as [->|Hne].
  - rewrite lookup_app_r, Nat.sub_diag in Hc by lia. injection Hc as <-. done.
  - rewrite lookup_app_l in Hc by lia. apply list_elem_of_lookup_2 in Hc.
    pose proof (cstr_no_nul b). split; [|lia]. intros ->. done.
Qed.

Lemma solo_measure b i :
  terminated b -> (i <= strlen b)%nat ->
  rtc solo (b, Measuring i)
    (b, if (strlen b =? 0)%nat then Finished [] else Trimming (strlen b)).
Proof.
  intros Ht Hi. pose proof (strlen_lt b Ht) as Hl.
  remember (strlen b - i)%nat as n eqn:Hn. revert i Hi Hn.
  induction n as [|n IH]; intros i Hi Hn;
    destruct (lookup_lt_is_Some_2 b i) as [c Hc]; try lia;
    pose proof (strlen_lookup b i c Ht Hc Hi) as Hiff.
  - assert (i = strlen b) as -> by lia. apply rtc_once. constructor; [done|]. simpl.
    rewrite Hc. simpl. by rewrite decide_True by (by apply Hiff).
  - eapply rtc_l; [|apply (IH (S i)); lia]. constructor; [done|]. simpl.
    rewrite Hc. simpl. rewrite decide_False; [done|]. intros Hn'%Hiff. lia.
Qed.

Lemma rstrip_snoc s c : isspace c = false -> rstrip (s ++ [c]) = s ++ [c].
Proof.
  intros Hc. induction s as [|d s IH]; simpl; [by rewrite Hc|]. rewrite IH.
  by destruct s.
Qed.

Lemma lookup_snoc_app (s r : bytes) c : ((s ++ [c]) ++ r) !! length s = Some c.
Proof. rewrite <- app_assoc. by apply list_lookup_middle. Qed.

Lemma solo_trim s r :
  r <> [] -> rtc solo (s ++ r, Trimming (length s)) (<[length (rstrip s) := NUL]> (s ++ r), Skipping 0).
Proof.
  revert r. induction s as [|c s IH] using rev_ind; intros r Hr.
  - apply rtc_once. constructor; [done|]. simpl. by destruct r.
  - rewrite length_app, Nat.add_comm. simpl. destruct (isspace c) eqn:Ec.
    + rewrite rstrip_app_spaces by (by repeat constructor).
      eapply rtc_l; [|specialize (IH (c :: r) ltac:(done)); rewrite <- app_assoc; exact IH].
      constructor; [done|]. simpl. rewrite lookup_snoc_app. simpl. by rewrite Ec, <- app_assoc.
    + rewrite rstrip_snoc by done. rewrite length_app, Nat.add_comm. simpl.
      apply rtc_once. constructor; [done|]. simpl. rewrite lookup_snoc_app. simpl. rewrite Ec.
      destruct (lookup_lt_is_Some_2 ((s ++ [c]) ++ r) (S (length s))) as [d ->]; [|done].
      rewrite !length_app. destruct r; [done|]. simpl. lia.
Qed.

Lemma solo_skip b i :
  terminated b -> (i <= strlen b)%nat -> rtc solo (b, Skipping i) (b, Finished []).
Proof.
  intros Ht Hi. pose proof (strlen_lt b Ht) as Hl.
  remember (strlen b - i)%nat as n eqn:Hn. revert i Hi Hn.
  induction n as [|n IH]; intros i Hi Hn;
    destruct (lookup_lt_is_Some_2 b i) as [c Hc]; try lia;
    pose proof (strlen_lookup b i c Ht Hc Hi) as Hiff.
  - apply rtc_once. constructor; [done|]. simpl. rewrite Hc. simpl.
    replace c with NUL by (symmetry; apply Hiff; lia). by rewrite isspace_NUL.
  - destruct (isspace c) eqn:Ec.
    + eapply rtc_l; [|apply (IH (S i)); lia]. constructor; [done|]. simpl. rewrite Hc. simpl.
      by rewrite Ec.
    + apply rtc_once. constructor; [done|]. simpl. rewrite Hc. simpl. by rewrite Ec.
Qed.

(** The loops of [strim] compute it. *)
Lemma solo_strim b : terminated b -> rtc solo (b, Measuring 0) (strim b, Finished []).
Proof.
  intros Ht. etrans; [by apply solo_measure; [|lia]|].
  destruct (Nat.eqb_spec (strlen b) 0) as [E|E].
  - assert (strim b = b) as ->; [|done].
    unfold strim. assert (cstr b = []) as -> by (by apply length_zero_iff_nil).
    destruct (cstr_split b Ht) as [r Hr]. apply list_insert_id.
    unfold strlen in E. apply length_zero_iff_nil in E. rewrite E in Hr. simpl in *. by rewrite Hr.
  - etrans; [|apply (solo_skip _ 0); [by apply terminated_strim|lia]].
    destruct (cstr_split b Ht) as [r Hr]. unfold strim, strlen.
    pose proof (solo_trim (cstr b) (NUL :: r)) as Hs. rewrite <- Hr in Hs. by apply Hs.
Qed.

Lemma solo_show b i out :
  terminated b -> (i <= strlen b)%nat -> out = take i (cstr b) ->
  rtc solo (b, Reading i out) (b, Finished (cstr b)).
Proof.
  intros Ht Hi. pose proof (strlen_lt b Ht) as Hl.
  remember (strlen b - i)%nat as n eqn:Hn. revert i out Hi Hn.
  induction n as [|n IH]; intros i out Hi Hn ->;
    destruct (lookup_lt_is_Some_2 b i) as [c Hc]; try lia;
    pose proof (strlen_lookup b i c Ht Hc Hi) as Hiff.
  - apply rtc_once. constructor; [done|]. simpl. rewrite Hc. simpl.
    rewrite decide_True by (apply Hiff; lia). rewrite take_ge; [done|]. unfold strlen in *. lia.
  - eapply rtc_l; [|apply (IH (S i)); [lia|lia|reflexivity]]. constructor; [done|].
    simpl. rewrite Hc. simpl. rewrite decide_False by (intros Hx%Hiff; lia).
    rewrite (take_S_r _ _ c); [done|]. destruct (cstr_split b Ht) as [r Hr].
    rewrite Hr, lookup_app_l in Hc; [done|]. unfold strlen in *. lia.
Qed.

(** The last part of a write that did not fail. *)
Lemma solo_terminate size b len :
  log_ok size b -> (len < size)%nat ->
  rtc solo (b, Terminating len) (strim (<[len := NUL]> b), Finished []).
Proof.
  intros Hb Hl. eapply rtc_l.
  - constructor; [done|]. simpl. destruct (log_lookup size b len Hb Hl) as (c & -> & _). done.
  - apply solo_strim. eapply log_ok_terminated, insert_byte_ok; [exact Hb|by right].
Qed.

Lemma solo_deterministic x y z : solo x y -> solo x z -> y = z.
Proof. intros H1 H2. inversion H1; subst. inversion H2; subst. congruence. Qed.

(** C28: The byte-level handlers are the handlers.  Running alone, which the
    mutexes ensure for the log files, the store of kdamond_cpuset, a write to
    global_reclaim (with a copy that fails after any number of bytes too) and
    a show each reach, and can only reach, the buffer and the result of the
    functions that take the whole call as one step. *)
Theorem handlers_alone (v : perf_vars) (user : bytes) (count left : nat) :
  perf_ok v -> (count <= length user)%nat ->
  rtc solo (kdamond_cpuset v, store_task KDAMOND_SIZE user count)
    (kdamond_cpuset (kdamond_cpuset_store v user count).2, Finished []) /\
  rtc solo (reclaim_buff v, copy_user_task PERF_HELPER_BUF_SIZE user (length user) left)
    (reclaim_buff (global_reclaim_write v user (length user) left).2, Finished []) /\
  rtc solo (reclaim_buff v, show_task) (reclaim_buff v, Finished (cstr (reclaim_buff v))) /\
  (forall x y z, solo x y -> solo x z -> y = z) /\ (forall b out y, ~ solo (b, Finished out) y).
Proof.
  intros (_ & _ & _ & Hr & Hk) Hc. split_and!.
  - unfold store_task, kdamond_cpuset_store. simpl.
    etrans; [apply (solo_copy (kdamond_cpuset v) user 0 (Nat.min count (KDAMOND_SIZE - 1)) false);
      [lia|lia|rewrite (proj1 Hk); lia]|].
    apply (solo_terminate KDAMOND_SIZE); [|unfold KDAMOND_SIZE; lia].
    apply memcpy_ok; [done|]. rewrite length_take. unfold KDAMOND_SIZE. lia.
  - unfold copy_user_task, global_reclaim_write, write_buff, perf_helper_copy_user.
    set (len := Nat.min (length user) (PERF_HELPER_BUF_SIZE - 1)).
    assert (Z.to_nat (Z.min (Z.of_nat (length user)) (u64 (Z.of_nat PERF_HELPER_BUF_SIZE - 1)))
      = len) as ->.
    { rewrite u64_id by (unfold PERF_HELPER_BUF_SIZE; klia).
      unfold len, PERF_HELPER_BUF_SIZE. lia. }
    assert (len < PERF_HELPER_BUF_SIZE)%nat as Hlen
      by (unfold len, PERF_HELPER_BUF_SIZE; lia).
    set (src := take (len - left) user ++ replicate (Nat.min left len) NUL).
    assert (length src = len) as Hsrc
      by (unfold src; rewrite length_app, length_take, length_replicate; unfold len; lia).
    replace (PERF_HELPER_BUF_SIZE =? 0)%nat with false
      by (unfold PERF_HELPER_BUF_SIZE; by vm_compute).
    etrans; [apply (solo_copy (reclaim_buff v) src 0 len _); [lia|lia|rewrite (proj1 Hr); lia]|].
    unfold copy_from_user. fold src. rewrite (take_ge src) by lia.
    destruct (negb _); simpl; [apply rtc_refl|].
    apply (solo_terminate PERF_HELPER_BUF_SIZE); [|done]. apply memcpy_ok; [done|]. lia.
  - apply solo_show; [by eapply log_ok_terminated|lia|done].
  - apply solo_deterministic.
  - intros b out y Hs. by inversion Hs.
Qed.
End buffer.

(** ** The counter *)

(** [reclaim_count++] is a load and a store.  [global_reclaim_write] makes it
    while it holds [mimd_lock]; [mimdtrigger_store] makes it without. *)
Inductive incr_pc := Ready | Locked | Loaded (v : Z) | Stored | Left.

(** Whether the thread takes the lock, and where it is. *)
Record incr := Incr { takes_lock : bool; at_pc : incr_pc }.

(** [reclaim_count], the holder of [mimd_lock], the threads. *)
Record counter := Counter { count : Z; mimd_lock : option nat; threads : list incr }.

Inductive counter_step : counter -> counter -> Prop :=
| counter_lock c ts k :
    ts !! k = Some (Incr true Ready) ->
    counter_step (Counter c None ts) (Counter c (Some k) (<[k := Incr true Locked]> ts))
| counter_load c l ts k b :
    ts !! k = Some (Incr b (if b then Locked else Ready)) ->
    counter_step (Counter c l ts) (Counter c l (<[k := Incr b (Loaded c)]> ts))
| counter_store c l ts k b v :
    ts !! k = Some (Incr b (Loaded v)) ->
    counter_step (Counter c l ts)
      (Counter (u64 (v + 1)) l (<[k := Incr b (if b then Stored else Left)]> ts))
| counter_unlock c l ts k :
    ts !! k = Some (Incr true Stored) ->
    counter_step (Counter c l ts) (Counter c None (<[k := Incr true Left]> ts)).

Definition has_stored (t : incr) : nat :=
  match at_pc t with Stored | Left => 1 | _ => 0 end.
Definition stored (ts : list incr) : nat := sum_list (has_stored <$> ts).

Lemma stored_insert ts k t t' :
  ts !! k = Some t -> (stored (<[k := t']> ts) + has_stored t = stored ts + has_stored t')%nat.
Proof.
  unfold stored. revert k. induction ts as [|u ts IH]; intros [|k] Hk; simplify_eq/=; [lia|].
  specialize (IH k Hk). lia.
Qed.

Lemma stored_le ts : (stored ts <= length ts)%nat.
Proof.
  unfold stored. induction ts as [|t ts IH]; [done|]. csimpl.
  assert (has_stored t <= 1)%nat by (destruct t as [b []]; unfold has_stored; simpl; lia). lia.
Qed.

(** Bounds that hold whatever the threads do. *)
Definition counter_bounds (c0 : Z) (s : counter) : Prop :=
  c0 <= count s <= c0 + Z.of_nat (stored (threads s)) /\
  ((0 < stored (threads s))%nat -> c0 < count s) /\
  forall k b v, threads s !! k = Some (Incr b (Loaded v)) ->
    c0 <= v <= c0 + Z.of_nat (stored (threads s)).

(** With every thread taking the lock: the one inside is its holder, and what
    it loaded is current. *)
Definition counter_exact (c0 : Z) (s : counter) : Prop :=
  count s = c0 + Z.of_nat (stored (threads s)) /\
  (forall k t, threads s !! k = Some t -> takes_lock t = true) /\
  (forall k t, threads s !! k = Some t -> at_pc t <> Ready -> at_pc t <> Left ->
     mimd_lock s = Some k) /\
  forall k b v, threads s !! k = Some (Incr b (Loaded v)) -> v = count s.

#[local] Ltac thread_cases :=
  intros ? ?; rewrite list_lookup_insert_Some; intros [(<- & ? & ?)|(? & ?)]; simplify_eq/=.

Lemma counter_bounds_step c0 n s s' :
  0 <= c0 -> c0 + Z.of_nat n <= ULONG_MAX -> length (threads s) = n ->
  counter_bounds c0 s -> counter_step s s' ->
  length (threads s') = n /\ counter_bounds c0 s'.
Proof.
  intros H0 Hmax Hn (Hc & Hpos & Hld) Hs.
  inversion Hs as [c ts k Hk|c l ts k b Hk|c l ts k b v Hk|c l ts k Hk]; subst; simpl in *;
    rewrite length_insert; (split; [done|]);
    match goal with |- counter_bounds _ (Counter _ _ (<[k := ?t']> ts)) =>
      pose proof (stored_insert ts k _ t' Hk) as Hst end;
    pose proof (stored_le ts); unfold has_stored in Hst; simpl in Hst.
  - split; simpl; [lia|]. split; [intros; apply Hpos; lia|].
    intros j d v. rewrite list_lookup_insert_Some. intros [(_ & [=] & _)|(_ & Hj)].
    specialize (Hld j d v Hj). lia.
  - assert (stored (<[k:=Incr b (Loaded c)]> ts) = stored ts) as Heq
      by (destruct b; simpl in *; lia).
    split; simpl; rewrite ?Heq; [lia|]. split; [done|].
    intros j d v. rewrite list_lookup_insert_Some. intros [(_ & [= _ <-] & _)|(_ & Hj)]; [lia|].
    by apply (Hld j d v).
  - specialize (Hld k b v Hk) as Hv.
    assert (stored (<[k:=Incr b (if b then Stored else Left)]> ts) = S (stored ts)) as Heq
      by (destruct b; simpl in *; lia).
    pose proof (stored_le (<[k:=Incr b (if b then Stored else Left)]> ts)) as Hle.
    rewrite Heq, length_insert in Hle.
    rewrite u64_id by klia. split; simpl; rewrite ?Heq; [lia|]. split; [lia|].
    intros j d w. rewrite list_lookup_insert_Some. intros [(_ & Heq' & _)|(_ & Hj)].
    + by destruct b.
    + specialize (Hld j d w Hj). lia.
  - split; simpl; [lia|]. split; [intros; apply Hpos; lia|].
    intros j d v. rewrite list_lookup_insert_Some. intros [(_ & [=] & _)|(_ & Hj)].
    specialize (Hld j d v Hj). lia.
Qed.

Lemma counter_exact_step c0 n s s' :
  0 <= c0 -> c0 + Z.of_nat n <= ULONG_MAX -> length (threads s) = n ->
  counter_exact c0 s -> counter_step s s' -> counter_exact c0 s'.
Proof.
  intros H0 Hmax Hn (Hc & Hlk & Hhold & Hld) Hs.
  inversion Hs as [c ts k Hk|c l ts k b Hk|c l ts k b v Hk|c l ts k Hk]; subst; simpl in *;
    match goal with |- counter_exact _ (Counter _ _ (<[k := ?t']> ts)) =>
      pose proof (stored_insert ts k _ t' Hk) as Hst end;
    pose proof (stored_le ts); unfold has_stored in Hst; simpl in Hst.
  - split_and!; simpl; [lia|thread_cases; [done|by eapply Hlk]| |].
    + thread_cases; [done|]. intros Hr Hl. exfalso. eapply (Hhold _ _ ltac:(eassumption)) in Hr; done.
    + intros j d v. rewrite list_lookup_insert_Some. intros [(_ & [=] & _)|(_ & Hj)]. by eapply Hld.
  - pose proof (Hlk k _ Hk) as Hb. simpl in Hb. subst b. simpl in *.
    split_and!; simpl; [lia|thread_cases; [done|by eapply Hlk]| |].
    + thread_cases; [|by eapply Hhold]. intros _ _. by eapply (Hhold _ _ Hk).
    + intros j d v. rewrite list_lookup_insert_Some. intros [(_ & [= _ <-] & _)|(_ & Hj)]; [done|].
      by eapply Hld.
  - pose proof (Hlk k _ Hk) as Hb. simpl in Hb. subst b. simpl in *.
    assert (v = c) as -> by (by eapply Hld).
    rewrite u64_id by (pose proof (stored_le (<[k:=Incr true Stored]> ts)) as Hle;
      rewrite length_insert in Hle; klia).
    split_and!; simpl; [lia|thread_cases; [done|by eapply Hlk]| |].
    + thread_cases; [|by eapply Hhold]. intros _ _. by eapply (Hhold _ _ Hk).
    + intros j d w. rewrite list_lookup_insert_Some. intros [(_ & [=] & _)|(Hne & Hj)].
      exfalso. apply Hne. pose proof (Hhold _ _ Hk ltac:(done) ltac:(done)) as Hx1.
      pose proof (Hhold _ _ Hj ltac:(done) ltac:(done)) as Hx2. congruence.
  - split_and!; simpl; [lia|thread_cases; [done|by eapply Hlk]| |].
    + thread_cases; [done|]. intros Hr Hl. exfalso.
      pose proof (Hhold _ _ Hk ltac:(done) ltac:(done)) as Hx1.
      match goal with Hj : ts !! ?j = Some ?t |- _ =>
        match type of Hr with at_pc t <> _ => pose proof (Hhold _ _ Hj Hr Hl) as Hx2 end end.
      congruence.
    + intros j d v. rewrite list_lookup_insert_Some. intros [(_ & [=] & _)|(_ & Hj)]. by eapply Hld.
Qed.

(** The threads before they start. *)
Definition counter_start (c0 : Z) (kinds : list bool) : counter :=
  Counter c0 None ((fun b => Incr b Ready) <$> kinds).

Lemma counter_start_stored kinds : stored ((fun b => Incr b Ready) <$> kinds) = 0%nat.
Proof. unfold stored. by induction kinds. Qed.

(** C29: The reclaim counter under any interleaving of writes to global_reclaim
    ([true]) and to mimdtrigger ([false]).  It never exceeds the number of
    increments and counts at least one of them; if every thread takes the
    lock it counts all of them exactly; but with one write of each kind an
    increment can be lost. *)
Theorem reclaim_count_races (c0 : Z) (kinds : list bool) (s : counter) :
  0 <= c0 -> c0 + Z.of_nat (length kinds) <= ULONG_MAX ->
  rtc counter_step (counter_start c0 kinds) s ->
  (c0 <= count s <= c0 + Z.of_nat (stored (threads s)) /\
   ((0 < stored (threads s))%nat -> c0 < count s)) /\
  (Forall (fun b => b = true) kinds -> count s = c0 + Z.of_nat (stored (threads s))) /\
  (kinds = [true; false] -> exists s', rtc counter_step (counter_start c0 kinds) s' /\
     count s' = c0 + 1 /\ Forall (fun t => at_pc t = Left) (threads s')).
Proof.
  intros H0 Hmax Hr. set (n := length kinds) in *.
  assert (length (threads (counter_start c0 kinds)) = n) as Hn by (simpl; by rewrite length_fmap).
  split; [|split].
  - assert (length (threads s) = n /\ counter_bounds c0 s) as [_ (H1 & H2 & _)]; [|done].
    assert (counter_bounds c0 (counter_start c0 kinds)) as Hb.
    { unfold counter_bounds. simpl. rewrite counter_start_stored. split; [lia|]. split; [lia|].
      intros k b v. rewrite list_lookup_fmap. intros (? & _ & Heq)%fmap_Some. done. }
    revert Hn Hb. induction Hr as [|x y z Hxy _ IH]; intros Hn Hb; [done|].
    destruct (counter_bounds_step c0 n x y H0 Hmax Hn Hb Hxy). by apply IH.
  - intros Hall.
    assert (counter_exact c0 (counter_start c0 kinds)) as Hb.
    { unfold counter_exact. simpl. rewrite counter_start_stored, Forall_forall in *.
      split_and!; [lia| | |]; intros k.
      - intros t. rewrite list_lookup_fmap. intros (b & Hb & ->)%fmap_Some.
        simpl. by eapply Hall, list_elem_of_lookup_2.
      - intros t. rewrite list_lookup_fmap. by intros (b & Hb & ->)%fmap_Some.
      - intros b v. rewrite list_lookup_fmap. intros (? & _ & Heq)%fmap_Some. done. }
    assert (length (threads s) = n /\ counter_exact c0 s) as [_ (H1 & _)]; [|done].
    clear Hall. revert Hn Hb. induction Hr as [|x y z Hxy _ IH]; intros Hn Hb; [done|].
    apply IH; [|by eapply counter_exact_step].
    rewrite <- Hn. inversion Hxy; simpl; by rewrite length_insert.
  - intros ->. eexists. split.
    + unfold counter_start. simpl.
      eapply rtc_l; [by apply (counter_lock _ _ 0)|]. simpl.
      eapply rtc_l; [by apply (counter_load _ _ _ 0 true)|]. simpl.
      eapply rtc_l; [by apply (counter_load _ _ _ 1 false)|]. simpl.
      eapply rtc_l; [by apply (counter_store _ _ _ 0 true)|]. simpl.
      eapply rtc_l; [by apply (counter_unlock _ _ _ 0)|]. simpl.
      eapply rtc_l; [by apply (counter_store _ _ _ 1 false)|]. apply rtc_refl.
    + simpl. split; [|by repeat constructor]. apply u64_id. simpl in *. klia.
Qed.

(** ** Witnesses *)

#[local] Existing Instance KTextRef.

Definition two_stores : list task :=
  [store_task KDAMOND_SIZE (bs "0-3") 3; store_task KDAMOND_SIZE (bs "4-7") 3; show_task].

Lemma two_stores_handlers : Forall (handler KDAMOND_SIZE) two_stores.
Proof. repeat constructor. Qed.

Lemma unlocked_buffer_safe_witness :
  let s := (<[0%nat := "4"%char]> (kdamond_cpuset perf_initial),
    [store_task KDAMOND_SIZE (bs "0-3") 3; Copying (bs "4-7") 1 3 false; show_task]) in
  ~ race_fault s /\ log_ok KDAMOND_SIZE s.1 /\ Acc (flip race_step) s.
Proof.
  destruct (unlocked_buffer_safe KDAMOND_SIZE (kdamond_cpuset perf_initial) two_stores
    (<[0%nat := "4"%char]> (kdamond_cpuset perf_initial),
     [store_task KDAMOND_SIZE (bs "0-3") 3; Copying (bs "4-7") 1 3 false; show_task]))
    as (H1 & H2 & H3 & _); [unfold KDAMOND_SIZE; lia|apply perf_initial_ok|
      apply two_stores_handlers|apply rtc_once; by eapply (race_thread _ two_stores 1%nat)|].
  by split_and!.
Defined.

Lemma handlers_alone_witness :
  rtc solo (kdamond_cpuset perf_initial, store_task KDAMOND_SIZE (bs "0-3" ++ [NL]) 4)
    (kdamond_cpuset (kdamond_cpuset_store perf_initial (bs "0-3" ++ [NL]) 4).2, Finished []) /\
  cstr (kdamond_cpuset (kdamond_cpuset_store perf_initial (bs "0-3" ++ [NL]) 4).2) = bs "0-3".
Proof.
  split; [|by vm_compute].
  apply (handlers_alone perf_initial (bs "0-3" ++ [NL]) 4 0); [apply perf_initial_ok|simpl; lia].
Defined.

Lemma reclaim_count_races_witness :
  exists s', rtc counter_step (counter_start 41 [true; false]) s' /\ count s' = 42 /\
    Forall (fun t => at_pc t = Left) (threads s').
Proof.
  apply (reclaim_count_races 41 [true; false] (counter_start 41 [true; false])).
  - lia.
  - by vm_compute.
  - apply rtc_refl.
  - done.
Defined.
