(* ===== verification/Hwid.v ===== *)
(** * Hwid: hwid/hwid.c

    The module parameters, the exported getters, which take the hardware id
    apart into bytes, the table of products, and the sysfs node. *)

From S2P Require Import Prelude KText KMonad ThermalAttr.

(** The four parameters, [unsigned int]. *)
Record hwid_params := HwidParams {
  hwid_value : Z; project : Z; build_adc : Z; project_adc : Z
}.

Definition product_names : list (Z * string) := [
  (0, "unknown"); (1, "annibale"); (2, "manet"); (3, "aurora"); (4, "cupid");
  (5, "miro"); (6, "piano"); (7, "zeus"); (8, "nirvana"); (9, "ruyi");
  (10, "caiwei"); (11, "diting"); (12, "yupei"); (13, "chenfeng");
  (14, "babylon"); (15, "ingres"); (16, "loki"); (17, "unicorn"); (18, "fuxi");
  (19, "luming"); (20, "wangshu"); (21, "zizhan"); (22, "haotian");
  (23, "bixi"); (24, "onyx"); (25, "houji"); (26, "socrates"); (27, "ziyi");
  (28, "xuanyuan"); (29, "katyusha"); (30, "dada"); (31, "peridot");
  (32, "shennong"); (33, "thor"); (34, "suiren"); (35, "ishtar");
  (36, "mayfly"); (37, "goku"); (38, "nuwa")
]%string.

(** The loop over the table from its first entry on. *)
Fixpoint lookup_from (table : list (Z * string)) (id : Z) : string :=
  match table with
  | [] => "unknown"%string
  | (p, name) :: table' => if p =? id then name else lookup_from table' id
  end.

Definition lookup_product_name (id : Z) : string := lookup_from product_names id.

Definition product_name_get (p : hwid_params) : string := lookup_product_name (project p).
Definition get_hw_project_adc (p : hwid_params) : Z := project_adc p.
Definition get_hw_build_adc (p : hwid_params) : Z := build_adc p.
Definition get_hw_version_platform (p : hwid_params) : Z := project p.
Definition get_hw_id_value (p : hwid_params) : Z := hwid_value p.
Definition get_hw_country_version (p : hwid_params) : Z :=
  Z.land (Z.shiftr (hwid_value p) 24) 255.
Definition get_hw_version_major (p : hwid_params) : Z :=
  Z.land (Z.shiftr (hwid_value p) 16) 255.
Definition get_hw_version_minor (p : hwid_params) : Z :=
  Z.land (Z.shiftr (hwid_value p) 8) 255.
Definition get_hw_version_build (p : hwid_params) : Z := Z.land (hwid_value p) 255.

Definition show_hex (v : Z) (buf : bytes) : Z * bytes :=
  show_text (bs "0x" ++ fmt_x v ++ [NL]) buf.
Definition hwid_project_show (p : hwid_params) := show_hex (project p).
Definition hwid_value_show (p : hwid_params) := show_hex (hwid_value p).
Definition hwid_project_adc_show (p : hwid_params) := show_hex (project_adc p).
Definition hwid_build_adc_show (p : hwid_params) := show_hex (build_adc p).

(** ** The sysfs node

    [kobject_create_and_add] takes a reference on a new kobject and links it
    into sysfs; [kobject_del] unlinks it; only [kobject_put] gives the
    reference back. *)

Inductive hwid_res := RKobjRef | RKobjLink | RHwidGroup.
#[global] Instance hwid_res_eq_dec : EqDecision hwid_res.
Proof. solve_decision. Defined.

Section node.
Local Abbreviation M := (km bool hwid_res).

Definition hwid_init (create_ok : bool) (group_ret : Z) : M Z :=
  ok ← (if create_ok
        then _ ← acquire RKobjRef; _ ← acquire RKobjLink; mret true
        else mret false);
  _ ← modify (fun _ => ok);
  if negb ok then mret (- ENOMEM) else
  ret ← acquire_ret group_ret RHwidGroup;
  if negb (ret =? 0) then
    _ ← release RKobjLink; _ ← modify (fun _ => false); mret ret
  else mret 0.

Definition hwid_exit : M unit :=
  k ← gets (fun k => k);
  if (k : bool) then
    _ ← release RHwidGroup; _ ← release RKobjLink; modify (fun _ => false)
  else mret ().
End node.

(** ** Properties *)

Lemma byte_at v k : 0 <= k -> Z.land (Z.shiftr v k) 255 = v / 2 ^ k mod 256.
Proof.
  intros Hk. change 255 with (Z.ones 8). rewrite Z.land_ones by lia.
  by rewrite Z.shiftr_div_pow2.
Qed.

(** The getters take the hardware id apart without loss: the four fields
    are bytes and put together they are the id.  The product name is the entry of
    the table for every project id the table has, and "unknown" for every
    other one. *)
Theorem hwid_fields_spec p :
  in_u32 (hwid_value p) ->
  get_hw_id_value p =
    get_hw_country_version p * 2 ^ 24 + get_hw_version_major p * 2 ^ 16 +
    get_hw_version_minor p * 2 ^ 8 + get_hw_version_build p /\
  Forall (fun b => 0 <= b < 256)
    [get_hw_country_version p; get_hw_version_major p; get_hw_version_minor p;
     get_hw_version_build p] /\
  (forall name, (project p, name) ∈ product_names -> product_name_get p = name) /\
  (project p ∉ product_names.*1 -> product_name_get p = "unknown"%string).
Proof.
  intros Hv. unfold get_hw_id_value, get_hw_country_version, get_hw_version_major,
    get_hw_version_minor, get_hw_version_build.
  replace (Z.land (hwid_value p) 255) with (Z.land (Z.shiftr (hwid_value p) 0) 255) by done.
  rewrite !byte_at by lia. set (v := hwid_value p) in *.
  split_and!.
  - change (v / 2 ^ 0) with (v / 1). rewrite Z.div_1_r.
    change (2 ^ 24) with (2 ^ 8 * 2 ^ 8 * 2 ^ 8). change (2 ^ 16) with (2 ^ 8 * 2 ^ 8).
    rewrite <- !Z.div_div by lia. change (2 ^ 8) with 256.
    pose proof (Z.div_mod v 256). pose proof (Z.div_mod (v / 256) 256).
    pose proof (Z.div_mod (v / 256 / 256) 256).
    assert (0 <= v / 256 / 256 / 256 < 256) as Hb.
    { rewrite !Z.div_div by lia. split; [apply Z.div_pos; klia|].
      apply Z.div_lt_upper_bound; klia. }
    rewrite (Z.mod_small (v / 256 / 256 / 256)) by done. lia.
  - repeat constructor; by apply Z.mod_pos_bound.
  - intros name Hin. unfold product_name_get, lookup_product_name.
    assert (NoDup product_names.*1) as Hnd by (apply (bool_decide_unpack _); by vm_compute).
    revert Hin Hnd. generalize product_names as t.
    induction t as [|[q n] t IH]; intros Hin Hnd; [by apply elem_of_nil in Hin|].
    simpl. apply NoDup_cons in Hnd as [Hq Hnd]. apply elem_of_cons in Hin as [[= <- <-]|Hin].
    + by rewrite Z.eqb_refl.
    + destruct (Z.eqb_spec q (project p)) as [->|]; [|by apply IH].
      exfalso. apply Hq, list_elem_of_fmap. by exists (project p, name).
  - intros Hn. unfold product_name_get, lookup_product_name. revert Hn.
    generalize product_names as t. induction t as [|[q n] t IH]; intros Hn; [done|].
    simpl in *. rewrite not_elem_of_cons in Hn. destruct Hn as [Hne Hn].
    replace (q =? project p) with false by lia. by apply IH.
Qed.

(** The kobject of hwid is never freed: every load leaves its reference
    behind, whether the load fails after creating it or the module is loaded
    and unloaded. *)
Theorem hwid_kobject_leaks group_ret :
  let '(ret, s1, t1) := hwid_init true group_ret false in
  let '(_, s2, t2) := hwid_exit s1 in
  ret = group_ret /\ s2 = false /\ replay_lifo (t1 ++ t2) [] = Some [RKobjRef].
Proof.
  unfold hwid_init, hwid_exit, acquire_ret. destruct (Z.eqb_spec group_ret 0) as [->|Hg];
    km_run; [by split_and!|].
  rewrite (proj2 (Z.eqb_neq group_ret 0) Hg). km_run. by split_and!.
Qed.

Lemma hwid_fields_spec_witness :
  let p := HwidParams 16909060 24 0 0 in
  get_hw_id_value p =
    get_hw_country_version p * 2 ^ 24 + get_hw_version_major p * 2 ^ 16 +
    get_hw_version_minor p * 2 ^ 8 + get_hw_version_build p /\
  Forall (fun b => 0 <= b < 256)
    [get_hw_country_version p; get_hw_version_major p; get_hw_version_minor p;
     get_hw_version_build p] /\
  (forall name, (project p, name) ∈ product_names -> product_name_get p = name) /\
  (project p ∉ product_names.*1 -> product_name_get p = "unknown"%string).
Proof. intros p. apply (hwid_fields_spec p). by vm_compute. Defined.
