(* ===== verification/Migt.v ===== *)
(** * Migt: the state of migt/migt.c

    The compatibility layer keeps a handful of flags; its hook registrations
    are commented out in the source, so that starting and stopping only touch
    the flags.  [migt_step] is the table of the exported functions, with their
    arguments, and of the writes to the parameter migt_thresh, which one of
    them returns; of struct migt_state the fields that a function uses are
    kept. *)

From S2P Require Import Prelude HookIface ApiIface.

Record migt_state := MigtState {
  enabled : Z;
  glk_enabled : Z;
  flt_enabled : Z;
  stask_prefer_cluster : Z
}.

(** The static variables that functions read: [g_migt], and the module
    parameter [migt_thresh], an int with mode 0644. *)
Record migt_vars := MigtVars { g_migt : migt_state; migt_thresh : Z }.

(** The variables before the init function runs; [thresh] is the value the
    module was loaded with, 0 without an argument. *)
Definition migt_loaded (thresh : Z) : migt_vars := MigtVars (MigtState 0 0 0 0) thresh.

Definition set_g (g : migt_state) (s : migt_vars) : migt_vars := MigtVars g (migt_thresh s).

Definition migt_startup : Z := 0.
Definition migt_shutdown (s : migt_vars) : migt_vars := s.

Definition migt_sched_init (s : migt_vars) : Z * migt_vars :=
  let g := g_migt s in
  (migt_startup, set_g (MigtState 1 (glk_enabled g) (flt_enabled g) (stask_prefer_cluster g)) s).
Definition migt_sched_exit (s : migt_vars) : migt_vars := migt_shutdown s.

Definition migt_freq_qos_init : Z := 0.
Definition migt_freq_qos_request_init_first : Z := 0.

Definition migt_set_prefer_cluster (cid : Z) (s : migt_vars) : migt_vars :=
  let g := g_migt s in set_g (MigtState (enabled g) (glk_enabled g) (flt_enabled g) cid) s.
Definition migt_get_prefer_cluster (s : migt_vars) : Z := stask_prefer_cluster (g_migt s).

(** [!!enable]. *)
Definition flt_enable (enable : Z) (s : migt_vars) : Z * migt_vars :=
  let g := g_migt s in
  (0, set_g (MigtState (enabled g) (glk_enabled g) (if enable =? 0 then 0 else 1)
        (stask_prefer_cluster g)) s).
Definition glk_enable (enable : Z) (s : migt_vars) : Z * migt_vars :=
  let g := g_migt s in
  (0, set_g (MigtState (enabled g) (if enable =? 0 then 0 else 1) (flt_enabled g)
        (stask_prefer_cluster g)) s).

Definition get_migt_thresh (s : migt_vars) : Z := migt_thresh s.
Definition migt_load_tracking_enabled (s : migt_vars) : Z := enabled (g_migt s).

Definition migt_init (s : migt_vars) : Z * migt_vars := migt_sched_init s.
Definition migt_exit (s : migt_vars) : migt_vars := migt_sched_exit s.

(** Load tracking is on from the first start on and stays on: stopping the
    layer does not switch it off. *)
Lemma load_tracking_stays_on s :
  migt_load_tracking_enabled (migt_sched_exit (migt_sched_init s).2) = 1.
Proof. done. Qed.

(** ** Functions without behaviour *)

Definition get_frame_period : plain_fn migt_vars := fun s => (RInt 0, s).
Definition add_work_to_migt : plain_fn migt_vars := fun s => (RVoid, s).
Definition flt_update_sf : plain_fn migt_vars := fun s => (RVoid, s).
Definition flt_irq_work : plain_fn migt_vars := fun s => (RVoid, s).
Definition is_render_thread (_p : Z) : plain_fn migt_vars := fun s => (RBool false, s).
Definition is_frender_sibling (_p : Z) : plain_fn migt_vars := fun s => (RBool false, s).

(** ** The exported functions, and the writes to the parameter *)

Inductive migt_call :=
| Migt_sched_init
| Migt_sched_exit
| Migt_freq_qos_init
| Migt_freq_qos_request_init_first
| Migt_set_prefer_cluster (cid : Z)
| Migt_get_prefer_cluster
| Migt_get_frame_period
| Migt_add_work
| Migt_flt_update_sf
| Migt_flt_irq_work
| Migt_flt_enable (enable : Z)
| Migt_glk_enable (enable : Z)
| Migt_get_thresh
| Migt_is_render_thread (p : Z)
| Migt_is_frender_sibling (p : Z)
| Migt_load_tracking_enabled
| Migt_write_thresh (value : Z).

#[global] Instance migt_call_eq_dec : EqDecision migt_call.
Proof. solve_decision. Defined.

Definition migt_step (c : migt_call) (s : migt_vars) : api_ret * migt_vars :=
  let int_of (r : Z * migt_vars) := (RInt r.1, r.2) in
  match c with
  | Migt_sched_init => int_of (migt_sched_init s)
  | Migt_sched_exit => (RVoid, migt_sched_exit s)
  | Migt_freq_qos_init => (RInt migt_freq_qos_init, s)
  | Migt_freq_qos_request_init_first => (RInt migt_freq_qos_request_init_first, s)
  | Migt_set_prefer_cluster cid => (RVoid, migt_set_prefer_cluster cid s)
  | Migt_get_prefer_cluster => (RInt (migt_get_prefer_cluster s), s)
  | Migt_get_frame_period => get_frame_period s
  | Migt_add_work => add_work_to_migt s
  | Migt_flt_update_sf => flt_update_sf s
  | Migt_flt_irq_work => flt_irq_work s
  | Migt_flt_enable enable => int_of (flt_enable enable s)
  | Migt_glk_enable enable => int_of (glk_enable enable s)
  | Migt_get_thresh => (RInt (get_migt_thresh s), s)
  | Migt_is_render_thread p => is_render_thread p s
  | Migt_is_frender_sibling p => is_frender_sibling p s
  | Migt_load_tracking_enabled => (RInt (migt_load_tracking_enabled s), s)
  | Migt_write_thresh value => (RVoid, MigtVars (g_migt s) value)
  end.

Definition migt_run (cs : list migt_call) (s : migt_vars) : migt_vars :=
  foldl (fun s c => (migt_step c s).2) s cs.

(** The state after a history of calls, read off the history alone: the last
    call of the kind that sets a field decides its value. *)
Fixpoint last_set {A} (f : migt_call -> option A) (cs : list migt_call) (d : A) : A :=
  match cs with [] => d | c :: cs' => last_set f cs' (default d (f c)) end.

Definition sets_enabled (c : migt_call) : option Z :=
  match c with Migt_sched_init => Some 1 | _ => None end.
Definition sets_glk (c : migt_call) : option Z :=
  match c with Migt_glk_enable e => Some (if e =? 0 then 0 else 1) | _ => None end.
Definition sets_flt (c : migt_call) : option Z :=
  match c with Migt_flt_enable e => Some (if e =? 0 then 0 else 1) | _ => None end.
Definition sets_cluster (c : migt_call) : option Z :=
  match c with Migt_set_prefer_cluster cid => Some cid | _ => None end.

Definition sets_thresh (c : migt_call) : option Z :=
  match c with Migt_write_thresh v => Some v | _ => None end.

Definition migt_history (cs : list migt_call) (s : migt_vars) : migt_vars :=
  let g := g_migt s in
  MigtVars
    (MigtState (last_set sets_enabled cs (enabled g)) (last_set sets_glk cs (glk_enabled g))
      (last_set sets_flt cs (flt_enabled g)) (last_set sets_cluster cs (stask_prefer_cluster g)))
    (last_set sets_thresh cs (migt_thresh s)).

Lemma migt_run_history cs s : migt_run cs s = migt_history cs s.
Proof.
  revert s. induction cs as [|c cs IH]; intros s; [by destruct s as [[] ?]|].
  unfold migt_run. simpl. fold (migt_run cs (migt_step c s).2). rewrite IH.
  by destruct c.
Qed.

Lemma last_set_inv {A} (P : A -> Prop) f cs d :
  P d -> (forall c x, f c = Some x -> P x) -> P (last_set f cs d).
Proof.
  intros Hd Hf. revert d Hd. induction cs as [|c cs IH]; intros d Hd; [done|].
  simpl. apply IH. destruct (f c) eqn:Hc; [by eapply Hf|done].
Qed.

(** C39: After loading with any value of migt_thresh and any history of calls
    and of writes to that parameter, each field is what the last call that
    sets it left, the two switches are 0 or 1, the threshold that
    get_migt_thresh returns is the value last written to the parameter, and
    load tracking, which loading switches on, is still on: stopping the layer
    does not clear it. *)
Theorem migt_calls_spec (thresh : Z) (cs : list migt_call) :
  let s0 := (migt_init (migt_loaded thresh)).2 in
  let s := migt_run cs s0 in
  s = migt_history cs s0 /\
  (glk_enabled (g_migt s) = 0 \/ glk_enabled (g_migt s) = 1) /\
  (flt_enabled (g_migt s) = 0 \/ flt_enabled (g_migt s) = 1) /\
  migt_load_tracking_enabled s = 1 /\
  migt_get_prefer_cluster s = last_set sets_cluster cs 0 /\
  get_migt_thresh s = last_set sets_thresh cs thresh.
Proof.
  cbv zeta. rewrite migt_run_history. split_and!; [done| | | |done|done]; simpl.
  - apply (last_set_inv (fun z => z = 0 \/ z = 1)); [by left|].
    intros [] x; simpl; try done. intros [= <-]. case_match; auto.
  - apply (last_set_inv (fun z => z = 0 \/ z = 1)); [by left|].
    intros [] x; simpl; try done. intros [= <-]. case_match; auto.
  - unfold migt_load_tracking_enabled. simpl. apply (last_set_inv (fun z => z = 1)); [done|].
    intros [] x; simpl; try done. by intros [= <-].
Qed.
