(* ===== verification/ParamTables.v ===== *)
(** * ParamTables: the module parameters of every module

    One table per module, in the order of the file, with the declared C type,
    the type named in module_param, the mode and the initial value of each
    variable; and what the tables guarantee to the components that read the
    variables. *)

From stdpp Require Import gmap strings.
From S2P Require Import Prelude KText KTextRef Params ParamsRef.
From S2P Require Import ThermalTemp ThermalFreq XiaomiHooks Metis MiLoad MiFiles Hwid Migt.

Definition xiaomi_hooks_params : list param := [
  Param "xiaomi_walt_hooks_enable" CBool PBool MODE_0644 (VBool false)
].

Definition metis_params : list param := [
  Param "metis_safe_boot" CBool PBool MODE_0644 (VBool true);
  Param "link_debug" CUint PUint MODE_0644 (VNum 0);
  Param "mi_link_enable" CUint PUint MODE_0644 (VNum 0);
  Param "mi_async_binder_link_enable" CUint PUint MODE_0644 (VNum 0);
  Param "mi_lock_blocked_pid" CUint PUint MODE_0644 (VNum 0);
  Param "minor_window_app" CUint PUint MODE_0644 (VNum 0);
  Param "freedom_window_app" CUint PUint MODE_0644 (VNum 0);
  Param "tsched_debug" CUint PUint MODE_0644 (VNum 0);
  Param "bug_detect" CUint PUint MODE_0644 (VNum 0);
  Param "cluaff_control" CUint PUint MODE_0644 (VNum 0);
  Param "mi_boost_duration" CUint PUint MODE_0644 (VNum 0);
  Param "min_cluster_freqs" CInt PInt MODE_0644 (VNum 0);
  Param "fboost_debug" CUint PUint MODE_0644 (VNum 0);
  Param "mi_freq_enable" CUint PUint MODE_0644 (VNum 0);
  Param "mi_switch_enable" CUint PUint MODE_0644 (VNum 0);
  Param "user_min_freq" CInt PInt MODE_0644 (VNum 0);
  Param "fperiod" CUint PUint MODE_0644 (VNum 0);
  Param "metis_debug" CUint PUint MODE_0644 (VNum 0);
  Param "mi_fboost_enable" CUint PUint MODE_0644 (VNum 0);
  Param "limit_bgtask_sched" CUint PUint MODE_0644 (VNum 0);
  Param "thermal_break_enable" CUint PUint MODE_0644 (VNum 0);
  Param "version" CInt PInt MODE_0644 (VNum 0);
  Param "force_forbidden_walt_lb" CUint PUint MODE_0644 (VNum 0);
  Param "force_viptask_select_rq" CUint PUint MODE_0644 (VNum 0);
  Param "task_enqueue_time_toolong" CUint PUint MODE_0644 (VNum 0);
  Param "force_cluster_sched_enable" CUint PUint MODE_0644 (VNum 0);
  Param "doublecyc_debug" CUint PUint MODE_0644 (VNum 0);
  Param "sched_doctor_enable" CInt PInt MODE_0644 (VNum 0);
  Param "suspend_vip_enable" CInt PInt MODE_0644 (VNum 0);
  Param "normal_running_too_long_thresh" CInt PInt MODE_0644 (VNum 0);
  Param "rt_running_too_long_thresh" CInt PInt MODE_0644 (VNum 0);
  Param "metis_lb_debug" CUint PUint MODE_0644 (VNum 0);
  Param "metis_tp_debug" CUint PUint MODE_0644 (VNum 0);
  Param "mi_viptask_balance" CUint PUint MODE_0644 (VNum 0);
  Param "metis_schlat_enable" CUint PUint MODE_0644 (VNum 0);
  Param "metis_schctx_enable" CUint PUint MODE_0644 (VNum 0);
  Param "protect_cs" CUint PUint MODE_0644 (VNum 0);
  Param "coldstart_set_mmlock_holder_vip" CUint PUint MODE_0644 (VNum 0);
  Param "cs_protect_dur" CUint PUint MODE_0644 (VNum 0);
  Param "cs_stat_type" CUint PUint MODE_0644 (VNum 0);
  Param "low_lt_preempt_thres" CUint PUint MODE_0644 (VNum 0);
  Param "low_lt_preempt_thres_cold_start" CUint PUint MODE_0644 (VNum 0);
  Param "set_cold_start_render_vip" CUint PUint MODE_0644 (VNum 0);
  Param "override_schedboost_in_coldstart" CUint PUint MODE_0644 (VNum 0);
  Param "set_possible_notifythr_vip" CUint PUint MODE_0644 (VNum 0);
  Param "rwsem_normal_spin_thres" CUint PUint MODE_0644 (VNum 0);
  Param "rwsem_vip_spin_thres" CUint PUint MODE_0644 (VNum 0);
  Param "mutex_normal_spin_thres" CUint PUint MODE_0644 (VNum 0);
  Param "mutex_vip_spin_thres" CUint PUint MODE_0644 (VNum 0);
  Param "read_trylock_reserved_jif" CUint PUint MODE_0644 (VNum 0);
  Param "ui_blocked_reader_jif" CUint PUint MODE_0644 (VNum 0);
  Param "reader_biased_jif" CUint PUint MODE_0644 (VNum 0);
  Param "reader_biased_jif_for_vip" CUint PUint MODE_0644 (VNum 0);
  Param "rtg_handoff_min_inter" CUlong PUlong MODE_0644 (VNum 0);
  Param "stask_prefer_cpu" CUint PUint MODE_0644 (VNum 0);
  Param "cs_debug" CUint PUint MODE_0644 (VNum 0);
  Param "metis_wakeup_enable" CUint PUint MODE_0644 (VNum 0);
  Param "metis_wakeup_debug" CUint PUint MODE_0644 (VNum 0);
  Param "in_perf_mod" CUint PUint MODE_0644 (VNum 0);
  Param "flt_enable_other" CUint PUint MODE_0644 (VNum 0);
  Param "low_frame_op" CUint PUint MODE_0644 (VNum 0)
].

Definition mi_schedule_params : list param := [
  Param "ls_grp_prefer_cid" CInt PInt MODE_0644 (VNum 0);
  Param "group_debug" CUint PUint MODE_0644 (VNum 0);
  Param "target_makeup_ns" CUint PUint MODE_0644 (VNum 0)
].

Definition mist_params : list param := [
  Param "dflt_ftrace_debug" CUint PUint MODE_0644 (VNum 0);
  Param "dflt_debug" CUint PUint MODE_0644 (VNum 0);
  Param "need_boost_in_frame" CUint PUint MODE_0644 (VNum 0);
  Param "dflt_fpercent_other" CUint PUint MODE_0644 (VNum 0);
  Param "max_ddr_ib" CUint PUint MODE_0644 (VNum 0);
  Param "spm_thres" CUint PUint MODE_0644 (VNum 0);
  Param "dflt_ddr_ib_scale" CUint PUint MODE_0644 (VNum 0);
  Param "dflt_ddr_boost" CUint PUint MODE_0644 (VNum 0);
  Param "dflt_cpu_mask_debug" CUlong PUlong MODE_0644 (VNum 0);
  Param "dflt_spm_low_threshold" CUint PUint MODE_0644 (VNum 0);
  Param "dflt_ddr_ib_scale_low" CUint PUint MODE_0644 (VNum 0);
  Param "dflt_ddr_ib_scale_high" CUint PUint MODE_0644 (VNum 0);
  Param "dflt_spm_high_threshold" CUint PUint MODE_0644 (VNum 0);
  Param "dflt_memlat_vote_type" CUint PUint MODE_0644 (VNum 0);
  Param "mist_memlat_vote_enable" CUint PUint MODE_0644 (VNum 0);
  Param "dflt_stallratio_thresh" (CUintArray 8) (PUintArray 8 true) MODE_0644 (VArr (replicate 8 0) 0);
  Param "dflt_spm_thresh" (CUintArray 8) (PUintArray 8 true) MODE_0644 (VArr (replicate 8 0) 0);
  Param "dflt_ips_thresh" (CUintArray 8) (PUintArray 8 true) MODE_0644 (VArr (replicate 8 0) 0);
  Param "mist_version" CCharp PCharp MODE_0644 (VStr (bs "3.5.0"));
  Param "be_procent" CUint PUint MODE_0644 (VNum 0);
  Param "mist_soc_min_stall" CUint PUint MODE_0644 (VNum 0);
  Param "mist_set_uid" CUint PUint MODE_0644 (VNum 0);
  Param "mist_soc_freq_thresh" (CUintArray 8) (PUintArray 8 true) MODE_0644 (VArr (replicate 8 0) 0);
  Param "gflt_debug" CUint PUint MODE_0644 (VNum 0);
  Param "sync_cost_thresh" CUint PUint MODE_0644 (VNum 0);
  Param "gflt_slack_time_jif" CUint PUint MODE_0644 (VNum 0);
  Param "gflt_update_freq_failed" CUint PUint MODE_0644 (VNum 0);
  Param "lc_debug" CUint PUint MODE_0644 (VNum 0);
  Param "gflt_wait_threshold" CUint PUint MODE_0644 (VNum 0);
  Param "dflt_bm_counter_enable" CUint PUint MODE_0644 (VNum 0);
  Param "dflt_bw_enable" CUint PUint MODE_0644 (VNum 0);
  Param "dflt_lat_enable" CUint PUint MODE_0644 (VNum 0);
  Param "mist_soc_api_enable" CUint PUint MODE_0644 (VNum 0);
  Param "gflt_enable" CUint PUint MODE_0644 (VNum 0)
].

Definition migt_params : list param := [
  Param "migt_debug" CInt PInt MODE_0644 (VNum 0);
  Param "migt_ms" CInt PInt MODE_0644 (VNum 0);
  Param "migt_thresh" CInt PInt MODE_0644 (VNum 0);
  Param "itask_detect_interval" CInt PInt MODE_0644 (VNum 0);
  Param "over_thresh_count" CInt PInt MODE_0644 (VNum 0);
  Param "cpu_boost_cycle" CInt PInt MODE_0644 (VNum 0);
  Param "soc_pmu_track_enable" CInt PInt MODE_0644 (VNum 0);
  Param "render_update" CInt PInt MODE_0644 (VNum 0);
  Param "migt_viptask_thresh" CInt PInt MODE_0644 (VNum 0);
  Param "fps_mexec_update_policy" CInt PInt MODE_0644 (VNum 0);
  Param "fps_variance_ratio" CInt PInt MODE_0644 (VNum 0);
  Param "enable_pkg_monitor" CInt PInt MODE_0644 (VNum 0);
  Param "set_render_as_stask" CInt PInt MODE_0644 (VNum 0);
  Param "high_resolution_enable" CInt PInt MODE_0644 (VNum 0);
  Param "first_lunch_fps" CInt PInt MODE_0644 (VNum 0);
  Param "ceiling_slack_ms" CInt PInt MODE_0644 (VNum 0);
  Param "ceiling_from_user" CInt PInt MODE_0644 (VNum 0)
].

Definition miloadtrace_params : list param := [
  Param "util_policy" CUint PUint MODE_0644 (VNum 0);
  Param "grp_percent" CUint PUint MODE_0644 (VNum 0);
  Param "flw_debug" CUint PUint MODE_0644 (VNum 0);
  Param "choose_result_util_policy" CUint PUint MODE_0644 (VNum 0);
  Param "back_percent" CUint PUint MODE_0644 (VNum 0);
  Param "sys_percent" CUint PUint MODE_0644 (VNum 0);
  Param "kern_percent" CUint PUint MODE_0644 (VNum 0);
  Param "expand_shift" CUint PUint MODE_0644 (VNum 0);
  Param "target_delta_flag" CUint PUint MODE_0644 (VNum 0);
  Param "freq_target_delta_flag" CUint PUint MODE_0644 (VNum 0);
  Param "cal_running_time_type" CUint PUint MODE_0644 (VNum 0);
  Param "frame_vip_boost" CUint PUint MODE_0644 (VNum 0);
  Param "frame_drop_boost" CUint PUint MODE_0644 (VNum 0);
  Param "frame_util_boost" (CUintArray 4) (PUintArray 4 false) MODE_0644 (VArr (replicate 4 0) 0);
  Param "util_boost_percent" (CUintArray 4) (PUintArray 4 false) MODE_0644 (VArr (replicate 4 0) 0);
  Param "util_zero_boost_percent" (CUintArray 4) (PUintArray 4 false) MODE_0644 (VArr (replicate 4 0) 0);
  Param "down_util_margin" (CUintArray 4) (PUintArray 4 false) MODE_0644 (VArr (replicate 4 0) 0);
  Param "update_frame_fps" CUint PUint MODE_0644 (VNum 60);
  Param "mi_maxfreq" (CUintArray 8) (PUintArray 8 false) MODE_0644 (VArr (replicate 8 0) 0);
  Param "mi_minfreq" (CUintArray 8) (PUintArray 8 false) MODE_0644 (VArr (replicate 8 0) 0);
  Param "cal_cpufreq_policy" CUint PUint MODE_0644 (VNum 0);
  Param "migov_debug" CUint PUint MODE_0644 (VNum 0);
  Param "in_perf_mod" CUint PUint MODE_0644 (VNum 0);
  Param "freq_mode" CUint PUint MODE_0644 (VNum 0);
  Param "out_capacity_thresh" CUint PUint MODE_0644 (VNum 0);
  Param "big_maxfreq_limit" CUint PUint MODE_0644 (VNum 0)
].

Definition mi_thermal_params : list param := [
  Param "cpu_limits_enable" CBool PBool MODE_0644 (VBool true);
  Param "cpu_limits_floor_pct" CUint PUint MODE_0644 (VNum 92);
  Param "cpu_limits_hot_floor_pct" CUint PUint MODE_0644 (VNum 85);
  Param "cpu_limits_crit_floor_pct" CUint PUint MODE_0644 (VNum 75);
  Param "cpu_limits_hot_temp" CUint PUint MODE_0644 (VNum 47);
  Param "cpu_limits_crit_temp" CUint PUint MODE_0644 (VNum 53);
  Param "cpu_limits_max_step" CUint PUint MODE_0644 (VNum 1)
].

Definition hwid_params_table : list param := [
  Param "hwid_value" CUint PUint MODE_0444 (VNum 0);
  Param "project" CUint PUint MODE_0444 (VNum 0);
  Param "build_adc" CUint PUint MODE_0444 (VNum 0);
  Param "project_adc" CUint PUint MODE_0444 (VNum 0)
].

(** The modules with parameters. *)
Inductive kmodule :=
| M_xiaomi_hooks | M_metis | M_mi_schedule | M_mist | M_migt | M_miloadtrace
| M_mi_thermal_interface | M_hwid.

Definition module_params (m : kmodule) : list param :=
  match m with
  | M_xiaomi_hooks => xiaomi_hooks_params
  | M_metis => metis_params
  | M_mi_schedule => mi_schedule_params
  | M_mist => mist_params
  | M_migt => migt_params
  | M_miloadtrace => miloadtrace_params
  | M_mi_thermal_interface => mi_thermal_params
  | M_hwid => hwid_params_table
  end.

(** ** The variables as the components see them *)

Definition num_at (st : pstore) (name : string) : Z :=
  match st !! name with Some (VNum z) => z | _ => 0 end.
Definition bool_at (st : pstore) (name : string) : bool :=
  match st !! name with Some (VBool b) => b | _ => false end.
Definition array_at (st : pstore) (name : string) : list Z :=
  match st !! name with Some (VArr l _) => l | _ => [] end.

Definition cpu_limits_of (st : pstore) : cpu_limits_params :=
  CpuLimitsParams (bool_at st "cpu_limits_enable") (num_at st "cpu_limits_floor_pct")
    (num_at st "cpu_limits_hot_floor_pct") (num_at st "cpu_limits_crit_floor_pct")
    (num_at st "cpu_limits_hot_temp") (num_at st "cpu_limits_crit_temp")
    (num_at st "cpu_limits_max_step").

Definition hwid_of (st : pstore) : hwid_params :=
  HwidParams (num_at st "hwid_value") (num_at st "project") (num_at st "build_adc")
    (num_at st "project_adc").

(** The parameters among the variables of miloadtrace. *)
Definition miload_of (st : pstore) (v : miload_vars) : miload_vars :=
  MiloadVars (num_at st "update_frame_fps") (skip_walt_result v)
    (array_at st "util_boost_percent") (array_at st "mi_maxfreq") (array_at st "mi_minfreq")
    (flw_work_in_process v) (flw_irq_work_lastq_ws v).

(** The values the init function of miloadtrace finds. *)
Definition miload_args_of (st : pstore) : mi_load_args :=
  MiLoadArgs (num_at st "update_frame_fps") (num_at st "flw_debug")
    (array_at st "util_boost_percent") (array_at st "mi_maxfreq") (array_at st "mi_minfreq").

(** The variables the components start from when nothing sets a parameter. *)
Definition starts_as (m : kmodule) (st : pstore) : Prop :=
  match m with
  | M_xiaomi_hooks =>
      bool_at st "xiaomi_walt_hooks_enable" = xiaomi_walt_hooks_enable xiaomi_initial
  | M_metis =>
      bool_at st "metis_safe_boot" = metis_safe_boot metis_initial /\
      map_Forall (fun name v => name = "metis_safe_boot"%string \/ v = VNum 0) st
  | M_mi_schedule => map_Forall (fun _ v => v = VNum 0) st
  | M_mist =>
      map_Forall (fun _ v => v ∈ [VNum 0; VArr (replicate 8 0) 0; VStr (bs "3.5.0")]) st
  | M_migt => map_Forall (fun _ v => v = VNum 0) st
  | M_miloadtrace => miload_of st miload_vars_init = miload_vars_init
  | M_mi_thermal_interface => cpu_limits_of st = cpu_limits_defaults
  | M_hwid => hwid_of st = HwidParams 0 0 0 0
  end.

(** What the components need of the values they read. *)
Definition view_ok (m : kmodule) (st : pstore) : Prop :=
  match m with
  | M_mi_thermal_interface => params_u32 (cpu_limits_of st)
  | M_miloadtrace => forall v,
      let v' := miload_of st v in
      args_ok (miload_args_of st) /\ length (mi_maxfreq v') = 8%nat /\
      length (mi_minfreq v') = 8%nat /\
      forall cid grp, is_Some (get_group_util v' cid grp)
  | M_migt => in_s32 (get_migt_thresh (migt_loaded (num_at st "migt_thresh")))
  | M_hwid =>
      let p := hwid_of st in
      in_u32 (hwid_value p) /\ in_u32 (project p) /\ in_u32 (build_adc p) /\
      in_u32 (project_adc p)
  | _ => True
  end.

Lemma module_params_wf m : table_wf (module_params m).
Proof. apply (bool_decide_unpack _). by destruct m; vm_compute. Qed.

Lemma initial_starts m : starts_as m (initial_params (module_params m)).
Proof.
  destruct m; try (by vm_compute); try split; try (by vm_compute);
    apply (bool_decide_unpack _); by vm_compute.
Qed.

Section typed.
Context `{KParam}.

(** A module's variables after it was loaded with some arguments and some
    writes were made to its files. *)
Definition params_reached (table : list param) (st : pstore) : Prop :=
  exists args loaded writes,
    load_params table args (initial_params table) = inr loaded /\
    st = write_params table writes loaded.

Lemma reached_typed m st :
  params_reached (module_params m) st -> store_typed (module_params m) st.
Proof.
  intros (args & loaded & writes & Hl & ->).
  apply write_params_typed; [apply module_params_wf|].
  eapply load_params_typed, Hl; [apply module_params_wf|].
  apply initial_typed, module_params_wf.
Qed.

Lemma typed_num table st p lo hi :
  vars_typed table st -> p ∈ table ->
  (forall v, has_ctype (p_ctype p) v -> exists z, v = VNum z /\ lo <= z <= hi) ->
  lo <= num_at st (p_name p) <= hi.
Proof.
  unfold vars_typed. rewrite Forall_forall. intros Hst Hp Ht.
  destruct (Hst p Hp) as (v & Hv & Hty). unfold num_at. rewrite Hv.
  by destruct (Ht v Hty) as (z & -> & Hz).
Qed.

Lemma typed_u32 table st p :
  vars_typed table st -> p ∈ table -> p_ctype p = CUint -> in_u32 (num_at st (p_name p)).
Proof.
  intros Hst Hp Hc. eapply typed_num; [done..|]. rewrite Hc. intros [] Hv; try done. by eexists.
Qed.

Lemma typed_array table st p n :
  vars_typed table st -> p ∈ table -> p_ctype p = CUintArray n ->
  length (array_at st (p_name p)) = n.
Proof.
  unfold vars_typed. rewrite Forall_forall. intros Hst Hp Ht.
  destruct (Hst p Hp) as (v & Hv & Hty). rewrite Ht in Hty. unfold array_at. rewrite Hv.
  destruct v; simpl in *; tauto.
Qed.

(** The entry of a table by its name, found by evaluation. *)
Ltac table_entry name :=
  match goal with
  | H : vars_typed ?table _ |- _ =>
      let r := eval vm_compute in (find_param table name) in
      match r with Some ?p =>
        assert (p ∈ table) by (apply list_elem_of_In; vm_compute; tauto);
        first [ pose proof (typed_u32 table _ p H ltac:(done) eq_refl)
              | pose proof (typed_array table _ p _ H ltac:(done) eq_refl)
              | idtac ]
      end
  end.

Lemma typed_view m st : vars_typed (module_params m) st -> view_ok m st.
Proof.
  intros Hst. destruct m; cbn [module_params view_ok] in *; try done.
  - pose proof (typed_num _ _ (Param "migt_thresh" CInt PInt MODE_0644 (VNum 0))
      INT_MIN INT_MAX Hst) as Hn.
    apply Hn; [apply list_elem_of_In; vm_compute; tauto|]. intros [] Hv; try done.
    by exists z.
  - table_entry "update_frame_fps"%string. table_entry "flw_debug"%string. table_entry "util_boost_percent"%string.
    table_entry "mi_maxfreq"%string. table_entry "mi_minfreq"%string. cbn [p_name] in *.
    intros v. unfold args_ok. simpl. split_and!; [done..|]. intros cid grp. unfold get_group_util.
    case_match eqn:E; [|done]. apply lookup_lt_is_Some. simpl.
    unfold MILOAD_MAX_CLUSTERS in E. lia.
  - table_entry "cpu_limits_floor_pct"%string. table_entry "cpu_limits_hot_floor_pct"%string.
    table_entry "cpu_limits_crit_floor_pct"%string. table_entry "cpu_limits_hot_temp"%string.
    table_entry "cpu_limits_crit_temp"%string. table_entry "cpu_limits_max_step"%string.
    by unfold params_u32.
  - table_entry "hwid_value"%string. table_entry "project"%string.
    table_entry "build_adc"%string. table_entry "project_adc"%string. done.
Qed.

(** C20: The parameters of every module, whatever arguments the module was
    loaded with and whatever text was then written to its parameter files.
    Every variable has a value of the C type it is declared with, and what the
    components read is in range: the limits and frame rate are 32-bit numbers
    and the arrays have the lengths their readers assume.  A parameter named
    neither by an argument nor by a write still has its initial value; and
    without any, the components start from the states their models start from.
    The parameters of hwid never change after loading; of every other module,
    each numeric parameter can be given every value of its C type at run time,
    by the text that a parameter with this value shows, and the write moves no
    other variable. *)
Theorem params_typed (m : kmodule) (args writes : list (string * bytes)) (loaded : pstore) :
  load_params (module_params m) args (initial_params (module_params m)) = inr loaded ->
  let st := write_params (module_params m) writes loaded in
  vars_typed (module_params m) st /\ view_ok m st /\
  Forall (fun p => p_name p ∉ args.*1 -> p_name p ∉ writes.*1 ->
    st !! p_name p = Some (p_init p)) (module_params m) /\
  (args = [] -> writes = [] -> starts_as m st) /\
  (m = M_hwid -> st = loaded) /\
  (m <> M_hwid -> Forall (fun p => is_number (p_type p) = true ->
    forall v, has_ctype (p_ctype p) v ->
      write_param (module_params m) (p_name p) (param_get (p_type p) v) st =
      (0, <[p_name p := v]> st)) (module_params m)).
Proof.
  intros Hl st.
  assert (store_typed (module_params m) st) as Hst by (apply reached_typed; by eexists _, _, _).
  pose proof (module_params_wf m) as Hwf. pose proof (store_vars_typed _ _ Hwf Hst) as Hvt.
  split_and!; [done|by apply typed_view| | | |].
  - apply Forall_forall. intros p Hp Ha Hw. unfold st. rewrite write_params_keeps.
    + rewrite (load_params_keeps _ _ _ _ _ Hl Ha). by apply initial_lookup.
    + apply Forall_forall. intros w Hin. left. intros Heq. apply Hw. rewrite <- Heq.
      by apply list_elem_of_fmap_2.
  - intros -> ->. simpl in Hl. simplify_eq. apply initial_starts.
  - intros ->. apply write_params_all_readonly, (bool_decide_unpack _). by vm_compute.
  - intros Hm. apply Forall_forall. intros p Hp Hnum v Hv. apply write_param_any; try done.
    assert (Forall (fun p => writable (p_mode p) = true) (module_params m)) as Hrw
      by (destruct m; try done; apply (bool_decide_unpack _); by vm_compute).
    rewrite Forall_forall in Hrw. by apply Hrw.
Qed.

(** The value a numeric parameter shows can be written back: it is
    accepted whatever was written in between, and restores the variable; no
    other parameter of the module moves. *)
Theorem param_roundtrip (m : kmodule) (p : param) (st st' : pstore) (text : bytes) :
  p ∈ module_params m ->
  params_reached (module_params m) st -> params_reached (module_params m) st' ->
  is_number (p_type p) = true -> writable (p_mode p) = true ->
  read_param (module_params m) (p_name p) st = Some text ->
  let '(ret, back) := write_param (module_params m) (p_name p) text st' in
  ret = 0 /\ back !! p_name p = st !! p_name p /\
  read_param (module_params m) (p_name p) back = Some text /\
  forall other, other <> p_name p -> back !! other = st' !! other.
Proof.
  intros Hp Hr Hr' Hn Hw Hread. pose proof (module_params_wf m) as Hwf.
  pose proof (write_read_back _ p st st' text Hwf Hp (reached_typed _ _ Hr)
    (reached_typed _ _ Hr') Hn Hw Hread) as [H1 H2].
  pose proof (fun o => write_param_frame (module_params m) (p_name p) text st' o) as Hf.
  destruct (write_param _ _ _ _) as [ret back]. simpl in *. split_and!; try done.
  unfold read_param in *. by rewrite H2.
Qed.
End typed.

(** ** Witnesses, with the reference instances *)

#[local] Existing Instance KParamRef.

Definition step_writes (text : bytes) : list (string * bytes) := [("cpu_limits_max_step", text)].

(** Loaded with a floor, and a step that is malformed, then accepted. *)
Lemma params_typed_witness :
  exists loaded, load_params mi_thermal_params [("cpu_limits_floor_pct", bs "80")]
      (initial_params mi_thermal_params) = inr loaded /\
    let st := write_params mi_thermal_params (step_writes (bs "-1") ++ step_writes (bs "5")) loaded in
    vars_typed mi_thermal_params st /\ params_u32 (cpu_limits_of st) /\
    st !! "cpu_limits_floor_pct" = Some (VNum 80) /\
    st !! "cpu_limits_max_step" = Some (VNum 5) /\
    st !! "cpu_limits_hot_temp" = Some (VNum 47).
Proof.
  eexists. split; [reflexivity|]. cbv zeta.
  match goal with |- context [write_params _ ?ws ?l] =>
    pose proof (params_typed M_mi_thermal_interface [("cpu_limits_floor_pct", bs "80")] ws l)
      as Hw end.
  specialize (Hw eq_refl). destruct Hw as (Hv & Hu & Hi & _).
  split; [exact Hv|]. split; [exact Hu|]. split; [by vm_compute|]. split; [by vm_compute|].
  rewrite Forall_forall in Hi.
  apply (Hi (Param "cpu_limits_hot_temp" CUint PUint MODE_0644 (VNum 47)));
    [apply list_elem_of_In; vm_compute; tauto|..]; apply (bool_decide_unpack _); by vm_compute.
Defined.

Definition step_param : param := Param "cpu_limits_max_step" CUint PUint MODE_0644 (VNum 1).

Lemma step_reached text :
  params_reached mi_thermal_params
    (write_params mi_thermal_params (step_writes text) (initial_params mi_thermal_params)).
Proof. by exists [], (initial_params mi_thermal_params), (step_writes text). Qed.

Lemma param_roundtrip_witness :
  let st := write_params mi_thermal_params (step_writes (bs "0x10"))
    (initial_params mi_thermal_params) in
  let st' := write_params mi_thermal_params (step_writes (bs "3"))
    (initial_params mi_thermal_params) in
  let '(ret, back) := write_param mi_thermal_params "cpu_limits_max_step" (bs "16" ++ [NL]) st' in
  ret = 0 /\ back !! "cpu_limits_max_step" = st !! "cpu_limits_max_step" /\
  read_param mi_thermal_params "cpu_limits_max_step" back = Some (bs "16" ++ [NL]) /\
  forall other, other <> "cpu_limits_max_step" -> back !! other = st' !! other.
Proof.
  apply (param_roundtrip M_mi_thermal_interface step_param).
  - apply list_elem_of_In. vm_compute. tauto.
  - apply step_reached.
  - apply step_reached.
  - done.
  - done.
  - by vm_compute.
Defined.
